(* ===== verification/_CoqProject ===== *)
-Q . S2P
Prelude.v
Memory.v
Firmware.v
State.v
CString.v
Printf.v
PrintfFacts.v
Console.v
Alloc.v
DevicePath.v
DevicePathFacts.v
Paging.v
PagingFacts.v
Handles.v
Elf.v
Files.v
Segments.v
SegmentFacts.v
PhdrFacts.v
World.v
Boot.v
Kernel.v
KernelFacts.v
BootFacts.v
HandoverFacts.v
JourneyFacts.v
Jumps.v
Inet.v
Bufpool.v
Ip6.v
Ip6Facts.v
Ip6Setup.v
Eth.v
Icmp6.v
Udp6.v
Ucs2.v
Netboot.v
NetbootFacts.v
Transfer.v
Net.v
NetFacts.v
TransferRuns.v
Session.v
PollFacts.v
Platform.v
Demo.v
Volume.v
LibTheorems.v
PagingTheorems.v
NetTheorems.v
NetbootTheorems.v
DeviceTheorems.v
BootTheorems.v
KernelTheorems.v
