(* ===== verification/Prelude.v ===== *)
(** * A verification development of the vineyard UEFI loader

    The program (src/) is a UEFI application: [efi_main] initialises the
    processor and the firmware, connects the disks, asks whether to boot from
    the network or the disk, receives the kernel over a small IPv6/UDP protocol
    in the first case, and then loads an ELF kernel into a new address space
    and jumps to it.  This library models its C code as computations on an
    explicit state and proves what the parts do.

    ** How code becomes definitions

    A C function is a computation of the monad [M] of State.v: it maps the
    program state (byte-addressed memory, the pool of allocated blocks, the
    firmware's state, the static variables, the control registers) to an
    [outcome]: a result and a new state, the end of the run ([Halt]: exit, panic,
    reset, a hang, the jump to the kernel), an access outside every object
    ([Fault]), or [NoFuel].  Pointers are addresses, structures are accessed
    field by field at their offsets, and machine integers are [Z] with the wrap
    of their C type written out ([u8] to [u64], [s8] to [s64]; the target is
    LLP64, so [unsigned long] has 32 bits and [wchar_t] 16).  Arrays whose
    address is taken live at addresses chosen by the class [Layout]; locals get
    fresh storage with arbitrary contents from [with_local].

    Loops over data are structural.  Loops that wait for the firmware or that
    walk memory take fuel: [key_polls] and the argument of [net_poll_loop] and
    [choose_loop] bound the number of polls and are quantified over; the walks
    over strings and device paths start with one more than the number of mapped
    bytes, and [vcbprintf] and [phdrs_loop] with a measure that decreases, so
    these do not run out on well-formed data ([vcbprintf] on none at all).

    The UEFI headers and the firmware are not part of the repository.  [Efi]
    has the constants of the headers, [Firmware] the services as functions of
    an abstract firmware state; the classes [EfiLaws], [AllocLaws], [FileSupply],
    [PageSupply] and [BootSupply] state what the code relies on.  Platform.v and Volume.v
    instantiate all of them, and the witnesses run there.

    ** Parts and files

    - Prelude, Memory, Firmware, State: integers and bytes, memory with its
      separation lemmas, the firmware interface, the state and the monad.
    - CString (lib/string), Printf and PrintfFacts (lib/vcbprintf.c), Console
      (print.c, uefi/error.c, the macros of include/uefi.h, the keyboard), Alloc
      (lib/stdlib, [uefi_alloc_pages]).
    - DevicePath and DevicePathFacts (uefi/device-path.c, GUIDs and names of
      uefi/util.c), Handles (uefi/io.c, driver.c, init.c, cpu/msr.asm).
    - Paging and PagingFacts (loader/paging.c): [translate] is the processor's
      walk, [PT] the tree invariant, [extends] what mapping a page may change.
    - Elf (elf/elf.c, include/elf64.h), Files (fs/), Segments, SegmentFacts and
      PhdrFacts (loader/parse.c, [loader_kernel_phdrs]), Boot (boot/), Kernel and
      KernelFacts (the rest of loader/kernel.c), Jumps (which computations can
      end in the jump).
    - World (an abstract view of the loader's memory: objects, cells and the
      address space), BootFacts, HandoverFacts and JourneyFacts: [loader_kernel]
      from its first page table to the jump, as steps of that view.
    - Inet (net/util.c), Bufpool (net/bufpool.c), Ip6, Ip6Facts and Ip6Setup
      (net/ip6.c), Eth (sending, net/eth.c), Icmp6 (net/icmp6.c), Udp6 (sending,
      net/udp6.c), Ucs2 (uefi/ucs2.c), Netboot and NetbootFacts (net/netboot.c),
      Transfer (the file transfer as a protocol), Net and NetFacts (receiving and
      polling: net/eth.c, net/udp6.c, net/net.c), TransferRuns (a transfer and
      what the program does in between, as a step relation), Session (choosing
      and opening an interface, loader.c), PollFacts (one poll, and the end of a
      session).
    - Platform, Demo, Volume: concrete instances and states.
    - LibTheorems, PagingTheorems, NetTheorems, NetbootTheorems, DeviceTheorems,
      BootTheorems, KernelTheorems: the properties, each with an instance.

    The parts meet where they do in the code: the page tables draw pages from
    [PageSupply], which the allocator implements and the segment loader refines
    to [FileSupply]; everything the network sends goes through [net_eth_send],
    whose precondition [net_ready] (pool, addresses, checksummed memory) every
    handler preserves; the netboot commands arrive through [net_eth_receive].

    ** What is proved

    - Kernel: given a file that can be loaded and firmware that answers,
      [loader_kernel] ends in the jump, with the segments, the stack and the
      information structure where the kernel finds them; [loader_kernel_phdrs]
      places every byte of every segment at its virtual address and nothing else
      moves; the header check decides a predicate on headers; a run that ends in
      the jump has passed the check and loaded the segments, step by step; a
      segment longer in the file than in memory is read past its pages.
    - Page tables: a mapped page translates as asked, all others as before; an
      identity-mapped range; the empty space with its recursive slot; running
      out of pages; the write-protect bit.
    - Network: [net_eth_receive] refines a verdict on the bytes of the frame;
      echo requests and solicitations, also some that RFC 4861 has discarded, are
      answered with exactly specified frames whose checksums verify; datagrams;
      the buffer pool is a stack.
    - Netboot: the transfer refines an abstract receiver and holds a prefix of
      the file under duplicated, lost and reordered fragments and the program's
      other activity; progress; saving, with the write to the file; CMD_FWSETUP;
      CMD_BOOT up to [loader_kernel]; what a fragment that is too long does.
    - Device paths, boot information, menu: concatenation, the out-of-bounds
      terminator, the mode [framebuffer_setup] selects and what it asks of the
      firmware, the ACPI table, the first answer of the menu.
    - Library: termination and safety of [vcbprintf], digits, UCS-2, its
      two-byte characters included.

    ** Not modelled

    The protocol identifiers of uefi/guid.c are variables initialised with
    macros of headers that are not in the repository; they are parameters, as
    are all constants of those headers.  Prototypes and macros of include/ that
    only serve the compiler have no counterpart.  A [Fault] ends the run: what the
    processor does after an access outside every object is not modelled.
    Pointer provenance and alignment are not tracked; two blocks are told apart
    by their addresses. *)
From stdpp Require Export base tactics list gmap.
From Stdlib Require Export ZArith Lia.
From Stdlib Require Ascii String.
Export Ascii.AsciiSyntax String.StringSyntax.
#[global] Open Scope Z_scope.

(** ** Machine integers

    A [w]-bit unsigned integer is a [Z] in [[0, 2^w)]; each operation of the
    source that can leave the range is followed by the wrap of its C type. *)

Definition wrap (w z : Z) : Z := z mod 2 ^ w.
Abbreviation u8 := (wrap 8).
Abbreviation u16 := (wrap 16).
Abbreviation u32 := (wrap 32).
Abbreviation u64 := (wrap 64).

(** The signed reading of the low [w] bits. *)
Definition swrap (w z : Z) : Z := (z + 2 ^ (w - 1)) mod 2 ^ w - 2 ^ (w - 1).
Abbreviation s8 := (swrap 8).
Abbreviation s32 := (swrap 32).
Abbreviation s64 := (swrap 64).

Abbreviation zlen l := (Z.of_nat (length l)).

(** Bytes are [Z] in [[0, 256)]. *)
Definition is_byte (b : Z) : Prop := 0 <= b < 256.
Abbreviation are_bytes := (Forall is_byte).

#[global] Instance is_byte_dec b : Decision (is_byte b).
Proof. unfold is_byte. apply _. Defined.

(** [zify] with the equations of [/] and [mod]; used as [dlia]. *)
Ltac dlia := Z.div_mod_to_equations; lia.

(** Linear arithmetic over the lengths of lists. *)
Ltac lengths :=
  rewrite ?length_insert, ?length_app, ?length_rev, ?length_take, ?length_drop, ?length_replicate;
  cbn [length]; lia.

Lemma wrap_range w z : 0 <= w -> 0 <= wrap w z < 2 ^ w.
Proof. intros. apply Z.mod_pos_bound. apply Z.pow_pos_nonneg; lia. Qed.

Lemma wrap_small w z : 0 <= z < 2 ^ w -> wrap w z = z.
Proof. apply Z.mod_small. Qed.

Lemma wrap_wrap w z : wrap w (wrap w z) = wrap w z.
Proof. apply Zmod_mod. Qed.

Lemma is_byte_u8 z : is_byte (u8 z).
Proof. apply (wrap_range 8). lia. Qed.

Lemma u8_byte b : is_byte b -> u8 b = b.
Proof. apply (wrap_small 8). Qed.

(** ** Little-endian encodings *)

Fixpoint le_bytes (n : nat) (z : Z) : list Z :=
  match n with
  | O => []
  | S n => u8 z :: le_bytes n (z / 256)
  end.

Fixpoint le_num (bs : list Z) : Z :=
  match bs with
  | [] => 0
  | b :: bs => b + 256 * le_num bs
  end.

Lemma length_le_bytes n z : length (le_bytes n z) = n.
Proof. revert z; induction n; intros; simpl; auto. Qed.

Lemma are_bytes_le_bytes n z : are_bytes (le_bytes n z).
Proof. revert z; induction n; intros; simpl; constructor; auto using is_byte_u8. Qed.

Lemma le_num_range bs : are_bytes bs -> 0 <= le_num bs < 2 ^ (8 * zlen bs).
Proof.
  induction 1 as [|b bs Hb _ IH]; simpl length; [simpl; lia|].
  rewrite Nat2Z.inj_succ, Z.mul_succ_r, Z.pow_add_r by lia.
  unfold is_byte in Hb. simpl le_num. change (2 ^ 8) with 256. lia.
Qed.

Lemma le_num_bytes n z : le_num (le_bytes n z) = wrap (8 * Z.of_nat n) z.
Proof.
  revert z; induction n as [|n IH]; intros z.
  - unfold wrap. simpl. now rewrite Z.mod_1_r.
  - simpl le_num. rewrite IH. unfold wrap.
    replace (8 * Z.of_nat (S n)) with (8 + 8 * Z.of_nat n) by lia.
    rewrite Z.pow_add_r by lia. change (2 ^ 8) with 256.
    rewrite Z.rem_mul_r by lia. reflexivity.
Qed.

Lemma le_bytes_num bs : are_bytes bs -> le_bytes (length bs) (le_num bs) = bs.
Proof.
  induction 1 as [|b bs Hb _ IH]; [done|]. simpl. f_equal.
  - unfold wrap. rewrite Z.mul_comm, Z_mod_plus_full. now apply u8_byte.
  - unfold is_byte in Hb. rewrite Z.mul_comm, Z_div_plus_full, Z.div_small by lia. done.
Qed.

Lemma le_bytes_wrap n z : le_bytes n (wrap (8 * Z.of_nat n) z) = le_bytes n z.
Proof.
  rewrite <-le_num_bytes.
  rewrite <-(length_le_bytes n z) at 1. apply le_bytes_num, are_bytes_le_bytes.
Qed.

(** ** Characters and string literals *)

Definition chr (a : Ascii.ascii) : Z := Z.of_N (Ascii.N_of_ascii a).
Definition str (s : String.string) : list Z := map chr (String.list_ascii_of_string s).
Arguments chr a%_char_scope.
Arguments str s%_string_scope.
Definition newline : list Z := [10].

Create HintDb bytes.
#[export] Hint Resolve is_byte_u8 are_bytes_le_bytes : bytes.
