(* ===== verification/Memory.v ===== *)
(** * Byte-addressed memory

    The program runs identity mapped, casts integers to pointers and masks
    them, so memory is flat: a finite map from addresses to bytes.  An address
    outside the map belongs to no object, and an access to it is undefined
    behaviour (the [Fault] outcome of State.v).  This file has the pure part:
    block reads and writes, little-endian loads and stores, and framing. *)

From S2P Require Import Prelude.

Abbreviation memory := (gmap Z Z).

Fixpoint read_bytes (m : memory) (a : Z) (n : nat) : option (list Z) :=
  match n with
  | O => Some []
  | S n => b ← m !! a; bs ← read_bytes m (a + 1) n; Some (b :: bs)
  end.

Fixpoint write_bytes (m : memory) (a : Z) (bs : list Z) : memory :=
  match bs with
  | [] => m
  | b :: bs => <[a := b]> (write_bytes m (a + 1) bs)
  end.

Fixpoint clear_bytes (m : memory) (a : Z) (n : nat) : memory :=
  match n with
  | O => m
  | S n => delete a (clear_bytes m (a + 1) n)
  end.

(** [n] bytes at [a] belong to objects of the program. *)
Definition mapped (m : memory) (a n : Z) : Prop :=
  forall x, a <= x < a + n -> is_Some (m !! x).

(** No byte of [[a, a+n)] is in use. *)
Definition unmapped (m : memory) (a n : Z) : Prop :=
  forall x, a <= x < a + n -> m !! x = None.

Definition disj (a n b k : Z) : Prop := a + n <= b \/ b + k <= a.

Definition wf_mem (m : memory) : Prop := map_Forall (fun _ b => is_byte b) m.

(** [m'] has the contents of [m] on [[a, a+n)]. *)
Definition agree (m m' : memory) (a n : Z) : Prop :=
  forall x, a <= x < a + n -> m' !! x = m !! x.

(** [m'] differs from [m] at most inside the ranges [rs], and has the same
    addresses. *)
Definition in_range (x : Z) (r : Z * Z) : Prop := r.1 <= x < r.1 + r.2.

Definition modifies (rs : list (Z * Z)) (m m' : memory) : Prop :=
  (forall x, Forall (fun r => ~ in_range x r) rs -> m' !! x = m !! x)
  /\ (forall x, is_Some (m' !! x) <-> is_Some (m !! x)).

(** Loads and stores of [n]-byte little-endian integers. *)
Definition load (n : nat) (m : memory) (a : Z) : option Z := le_num <$> read_bytes m a n.

Definition store (n : nat) (m : memory) (a v : Z) : memory := write_bytes m a (le_bytes n v).

(** The object of [n] bytes at [a] has the contents [bs]. *)
Definition holds (m : memory) (a n : Z) (bs : list Z) : Prop :=
  read_bytes m a (Z.to_nat n) = Some bs /\ are_bytes bs.

(** [size] bytes of an object from offset [o] on. *)
Definition chunk (o size : nat) (bs : list Z) : list Z := take size (drop o bs).

(** ** Reading *)

Lemma read_bytes_length m a n bs : read_bytes m a n = Some bs -> length bs = n.
Proof.
  revert a bs; induction n as [|n IH]; intros a bs H; simpl in H; simplify_eq; [done|].
  destruct (m !! a) as [b|]; [|done]. simpl in H.
  destruct (read_bytes m (a + 1) n) as [bs'|] eqn:E; simpl in H; [|done].
  simplify_eq. simpl. f_equal. eauto.
Qed.

Lemma read_bytes_lookup m a n bs (i : nat) :
  read_bytes m a n = Some bs -> (i < n)%nat -> bs !! i = m !! (a + Z.of_nat i).
Proof.
  revert a bs i; induction n as [|n IH]; intros a bs i H Hi; [lia|]. simpl in H.
  destruct (m !! a) as [b|] eqn:Ea; [|done]. simpl in H.
  destruct (read_bytes m (a + 1) n) as [bs'|] eqn:E; simpl in H; [|done].
  simplify_eq. destruct i as [|i]; simpl.
  - rewrite Z.add_0_r. done.
  - rewrite (IH _ _ i E) by lia. f_equal. lia.
Qed.

Lemma read_bytes_intro m a bs :
  (forall i : nat, (i < length bs)%nat -> m !! (a + Z.of_nat i) = bs !! i) ->
  read_bytes m a (length bs) = Some bs.
Proof.
  revert a; induction bs as [|b bs IH]; intros a H; [done|]. simpl.
  pose proof (H 0%nat ltac:(simpl; lia)) as H0. simpl in H0. rewrite Z.add_0_r in H0.
  rewrite H0. simpl. rewrite IH; [done|].
  intros i Hi. change (bs !! i) with ((b :: bs) !! S i).
  rewrite <-(H (S i)) by (simpl; lia). f_equal. lia.
Qed.

Lemma read_bytes_mapped m a n : mapped m a (Z.of_nat n) <-> is_Some (read_bytes m a n).
Proof.
  split.
  - revert a; induction n as [|n IH]; intros a H; simpl; [eauto|].
    destruct (H a ltac:(lia)) as [b ->]. simpl.
    destruct (IH (a + 1)) as [bs ->]; [|simpl; eauto].
    intros x Hx. apply H. lia.
  - intros [bs H] x Hx. pose proof (read_bytes_length _ _ _ _ H).
    pose proof (read_bytes_lookup _ _ _ _ (Z.to_nat (x - a)) H ltac:(lia)) as E.
    replace (a + Z.of_nat (Z.to_nat (x - a))) with x in E by lia.
    rewrite <-E. apply lookup_lt_is_Some. lia.
Qed.

Lemma read_bytes_agree m m' a n :
  agree m m' a (Z.of_nat n) -> read_bytes m' a n = read_bytes m a n.
Proof.
  revert a; induction n as [|n IH]; intros a H; [done|]. simpl.
  rewrite (H a) by lia. rewrite IH; [done|]. intros x Hx. apply H. lia.
Qed.

Lemma read_bytes_app m a n k bs cs :
  read_bytes m a n = Some bs -> read_bytes m (a + Z.of_nat n) k = Some cs ->
  read_bytes m a (n + k) = Some (bs ++ cs).
Proof.
  intros H1 H2. pose proof (read_bytes_length _ _ _ _ H1) as L1.
  pose proof (read_bytes_length _ _ _ _ H2) as L2.
  replace (n + k)%nat with (length (bs ++ cs)) by (rewrite length_app; lia).
  apply read_bytes_intro. intros i Hi. rewrite length_app in Hi.
  destruct (decide (i < n)%nat).
  - rewrite lookup_app_l by lia. symmetry. eapply read_bytes_lookup; eauto.
  - rewrite lookup_app_r by lia. rewrite (read_bytes_lookup _ _ _ _ _ H2) by lia.
    f_equal. lia.
Qed.

Lemma read_bytes_sub m a n bs (o k : nat) :
  read_bytes m a n = Some bs -> (o + k <= n)%nat ->
  read_bytes m (a + Z.of_nat o) k = Some (take k (drop o bs)).
Proof.
  intros H Hk. pose proof (read_bytes_length _ _ _ _ H).
  assert (E : length (take k (drop o bs)) = k) by (rewrite length_take, length_drop; lia).
  rewrite <-E at 1. apply read_bytes_intro. rewrite E. intros i Hi.
  rewrite lookup_take_lt by lia. rewrite lookup_drop.
  rewrite (read_bytes_lookup _ _ _ _ _ H) by lia. f_equal. lia.
Qed.

Lemma read_bytes_wf m a n bs : wf_mem m -> read_bytes m a n = Some bs -> are_bytes bs.
Proof.
  intros W H. apply Forall_lookup. intros i b Hb.
  pose proof (read_bytes_length _ _ _ _ H). pose proof (lookup_lt_Some _ _ _ Hb).
  rewrite (read_bytes_lookup _ _ _ _ _ H) in Hb by lia. exact (W _ _ Hb).
Qed.

(** ** Writing *)

Lemma lookup_write_bytes m a bs x :
  write_bytes m a bs !! x =
  if decide (a <= x < a + zlen bs) then bs !! Z.to_nat (x - a) else m !! x.
Proof.
  revert a; induction bs as [|b bs IH]; intros a; simpl.
  - rewrite decide_False by lia. done.
  - destruct (decide (a = x)) as [->|Hne].
    + rewrite lookup_insert_eq, decide_True by lia. by rewrite Z.sub_diag.
    + rewrite lookup_insert_ne by done. rewrite IH.
      repeat case_decide; try lia; [|done].
      replace (Z.to_nat (x - a)) with (S (Z.to_nat (x - (a + 1)))) by lia. done.
Qed.

Lemma lookup_write_out m a bs x :
  ~ (a <= x < a + zlen bs) -> write_bytes m a bs !! x = m !! x.
Proof. intros. rewrite lookup_write_bytes. by rewrite decide_False. Qed.

Lemma read_write_same m a bs : read_bytes (write_bytes m a bs) a (length bs) = Some bs.
Proof.
  apply read_bytes_intro. intros i Hi. rewrite lookup_write_bytes.
  rewrite decide_True by lia. f_equal. lia.
Qed.

Lemma agree_write m a bs b k : disj a (zlen bs) b k -> agree m (write_bytes m a bs) b k.
Proof. intros D x Hx. apply lookup_write_out. unfold disj in D. lia. Qed.

Lemma read_write_disj m a bs b k :
  disj a (zlen bs) b (Z.of_nat k) -> read_bytes (write_bytes m a bs) b k = read_bytes m b k.
Proof. intros D. by apply read_bytes_agree, agree_write. Qed.

Lemma write_bytes_app m a bs cs :
  write_bytes m a (bs ++ cs) = write_bytes (write_bytes m (a + zlen bs) cs) a bs.
Proof.
  apply map_eq. intros x. rewrite !lookup_write_bytes, length_app.
  repeat case_decide; try lia; try done.
  - rewrite lookup_app_l by lia. done.
  - rewrite lookup_app_r by lia. f_equal. lia.
Qed.

Lemma mapped_write m a bs b k : mapped m b k -> mapped (write_bytes m a bs) b k.
Proof.
  intros H x Hx. rewrite lookup_write_bytes. case_decide; [|auto].
  apply lookup_lt_is_Some. lia.
Qed.

Lemma mapped_sub m a n b k : mapped m a n -> a <= b -> b + k <= a + n -> mapped m b k.
Proof. intros H ? ? x ?. apply H. lia. Qed.

Lemma wf_write m a bs : wf_mem m -> are_bytes bs -> wf_mem (write_bytes m a bs).
Proof.
  intros W B x b. rewrite lookup_write_bytes. case_decide.
  - intros Hb. rewrite Forall_lookup in B. eauto.
  - apply W.
Qed.

Lemma wf_clear m a n : wf_mem m -> wf_mem (clear_bytes m a n).
Proof.
  intros W x b. revert a. induction n as [|n IH]; intros a; cbn [clear_bytes]; [apply W|].
  intros [_ H]%lookup_delete_Some. by eapply IH.
Qed.

Lemma disj_sym a n b k : disj a n b k -> disj b k a n.
Proof. unfold disj. tauto. Qed.

Lemma disj_sub a n b k a' n' b' k' :
  disj a n b k -> a <= a' -> a' + n' <= a + n -> b <= b' -> b' + k' <= b + k ->
  disj a' n' b' k'.
Proof. unfold disj. lia. Qed.

Lemma write_bytes_prefix m a bs cs :
  (length bs <= length cs)%nat ->
  write_bytes (write_bytes m a cs) a bs = write_bytes m a (bs ++ drop (length bs) cs).
Proof.
  intros Hl. apply map_eq. intros x. rewrite !lookup_write_bytes, length_app, length_drop.
  repeat case_decide; try done; try lia.
  - by rewrite lookup_app_l by lia.
  - rewrite lookup_app_r, lookup_drop by lia. f_equal. lia.
Qed.

Lemma write_bytes_twice m a bs cs :
  length bs = length cs -> write_bytes (write_bytes m a bs) a cs = write_bytes m a cs.
Proof.
  intros Hl. apply map_eq. intros x. rewrite !lookup_write_bytes.
  case_decide; [done|]. rewrite decide_False by lia. done.
Qed.

Lemma mapped_write_self m a bs : mapped (write_bytes m a bs) a (zlen bs).
Proof.
  intros x Hx. rewrite lookup_write_bytes, decide_True by lia.
  apply lookup_lt_is_Some. lia.
Qed.

Lemma write_adj m a b bs cs :
  b = a + zlen bs -> write_bytes (write_bytes m a bs) b cs = write_bytes m a (bs ++ cs).
Proof.
  intros ->. rewrite write_bytes_app. apply map_eq. intros x. rewrite !lookup_write_bytes.
  repeat case_decide; try lia; done.
Qed.

Lemma write_comm m a bs b cs :
  disj a (zlen bs) b (zlen cs) ->
  write_bytes (write_bytes m a bs) b cs = write_bytes (write_bytes m b cs) a bs.
Proof.
  intros D. unfold disj in D. apply map_eq. intros x. rewrite !lookup_write_bytes.
  repeat case_decide; try lia; done.
Qed.

Lemma write_read_same m a bs : read_bytes m a (length bs) = Some bs -> write_bytes m a bs = m.
Proof.
  intros R. apply map_eq. intros x. rewrite lookup_write_bytes. case_decide; [|done].
  rewrite (read_bytes_lookup _ _ _ _ _ R) by lia. f_equal. lia.
Qed.

(** One byte of an object overwritten. *)
Lemma write_inside m a bs x v :
  a <= x < a + zlen bs ->
  write_bytes (write_bytes m a bs) x [v] = write_bytes m a (<[Z.to_nat (x - a) := v]> bs).
Proof.
  intros Hx. apply map_eq. intros y. cbn [write_bytes]. rewrite !lookup_write_bytes.
  rewrite length_insert. destruct (decide (x = y)) as [<-|N].
  - rewrite lookup_insert_eq, decide_True, list_lookup_insert_eq by lia. done.
  - rewrite lookup_insert_ne by done. rewrite lookup_write_bytes. case_decide; [|done].
    rewrite list_lookup_insert_ne by lia. done.
Qed.

Lemma lookup_clear_bytes m a n x :
  clear_bytes m a n !! x = if decide (a <= x < a + Z.of_nat n) then None else m !! x.
Proof.
  revert a; induction n as [|n IH]; intros a; cbn [clear_bytes].
  - rewrite decide_False by lia. done.
  - destruct (decide (a = x)) as [<-|N].
    + rewrite lookup_delete_eq, decide_True by lia. done.
    + rewrite lookup_delete_ne, IH by done. repeat case_decide; try lia; done.
Qed.

Lemma read_bytes_byte m a n bs x b :
  read_bytes m a n = Some bs -> a <= x -> bs !! Z.to_nat (x - a) = Some b -> m !! x = Some b.
Proof.
  intros R Hx Hb. pose proof (read_bytes_length _ _ _ _ R) as Hl.
  pose proof (lookup_lt_Some _ _ _ Hb).
  rewrite (read_bytes_lookup _ _ _ _ _ R) in Hb by lia.
  by replace (a + Z.of_nat (Z.to_nat (x - a))) with x in Hb by lia.
Qed.

(** ** Framing *)

#[export] Instance modifies_refl rs : Reflexive (modifies rs).
Proof. split; auto. Qed.

#[export] Instance modifies_trans rs : Transitive (modifies rs).
Proof.
  intros m1 m2 m3 [A1 B1] [A2 B2]. split.
  - intros x Hx. by rewrite A2, A1.
  - intros x. by rewrite B2, B1.
Qed.

Lemma modifies_weaken rs rs' m m' : rs ⊆ rs' -> modifies rs m m' -> modifies rs' m m'.
Proof.
  intros I [A B]. split; [|done]. intros x Hx. apply A.
  rewrite Forall_forall in *. eauto.
Qed.

Lemma modifies_write m a bs n rs :
  mapped m a (zlen bs) -> (a, n) ∈ rs -> zlen bs <= n -> modifies rs m (write_bytes m a bs).
Proof.
  intros M I L. split.
  - intros x Hx. rewrite Forall_forall in Hx. specialize (Hx _ I).
    apply lookup_write_out. unfold in_range in Hx. simpl in Hx. lia.
  - intros x. rewrite lookup_write_bytes. case_decide; [|done].
    split; intros _; [by apply M|]. apply lookup_lt_is_Some. lia.
Qed.

Lemma modifies_agree rs m m' a n :
  modifies rs m m' -> Forall (fun r => disj r.1 r.2 a n) rs -> agree m m' a n.
Proof.
  intros [A _] D x Hx. apply A. eapply Forall_impl; [exact D|].
  intros r. unfold disj, in_range. lia.
Qed.

Lemma modifies_mapped rs m m' a n : modifies rs m m' -> mapped m a n -> mapped m' a n.
Proof. intros [_ B] M x Hx. apply B. auto. Qed.

Lemma agree_sub m m' a n b k : agree m m' a n -> a <= b -> b + k <= a + n -> agree m m' b k.
Proof. intros H ? ? x ?. apply H. lia. Qed.

(** ** Loads and stores *)

Lemma load_store_same n m a v : load n (store n m a v) a = Some (wrap (8 * Z.of_nat n) v).
Proof.
  unfold load, store. pose proof (read_write_same m a (le_bytes n v)) as E.
  rewrite length_le_bytes in E. rewrite E. simpl. by rewrite le_num_bytes.
Qed.

Lemma load_agree n m m' a : agree m m' a (Z.of_nat n) -> load n m' a = load n m a.
Proof. intros. unfold load. by rewrite (read_bytes_agree m m'). Qed.

Lemma load_store_disj n k m a b v :
  disj a (Z.of_nat n) b (Z.of_nat k) -> load k (store n m a v) b = load k m b.
Proof.
  intros. apply load_agree, agree_write. by rewrite length_le_bytes.
Qed.

Lemma load_range n m a v : wf_mem m -> load n m a = Some v -> 0 <= v < 2 ^ (8 * Z.of_nat n).
Proof.
  intros W. unfold load. destruct (read_bytes m a n) as [bs|] eqn:E; [|done].
  simpl. intros [= <-]. rewrite <-(read_bytes_length _ _ _ _ E).
  apply le_num_range. eauto using read_bytes_wf.
Qed.

Lemma load_mapped n m a : mapped m a (Z.of_nat n) -> is_Some (load n m a).
Proof.
  intros H. apply read_bytes_mapped in H as [bs E]. unfold load. rewrite E. eauto.
Qed.

Lemma mapped_unmapped_disj m a n b k :
  mapped m a n -> unmapped m b k -> 0 < n -> 0 < k -> disj a n b k.
Proof.
  intros Mp U Hn Hk. unfold disj.
  destruct (decide (a + n <= b)); [auto|]. destruct (decide (b + k <= a)); [auto|].
  exfalso. destruct (decide (a <= b)).
  - destruct (Mp b ltac:(lia)) as [x Hx]. rewrite U in Hx by lia. done.
  - destruct (Mp a ltac:(lia)) as [x Hx]. rewrite U in Hx by lia. done.
Qed.

Lemma mapped_store m a v n b k : mapped m b k -> mapped (store n m a v) b k.
Proof. apply mapped_write. Qed.

(** ** Objects *)

Lemma holds_length m a n bs : holds m a n bs -> 0 <= n -> zlen bs = n.
Proof. intros [R _] Hn. apply read_bytes_length in R. lia. Qed.

Lemma holds_mapped m a n bs : holds m a n bs -> 0 <= n -> mapped m a n.
Proof. intros [R _] Hn. rewrite <-(Z2Nat.id n) by done. apply read_bytes_mapped. eauto. Qed.

Lemma holds_agree m m' a n bs :
  holds m a n bs -> 0 <= n -> agree m m' a n -> holds m' a n bs.
Proof. intros [R B] Hn A. split; [|done]. rewrite <-R. apply read_bytes_agree. by rewrite Z2Nat.id. Qed.

Lemma holds_write m a n bs p cs :
  holds m a n bs -> 0 <= n -> disj p (zlen cs) a n -> holds (write_bytes m p cs) a n bs.
Proof. intros [R B] Hn D. split; [|done]. rewrite read_write_disj; [done|]. by rewrite Z2Nat.id. Qed.

Lemma holds_byte m a n bs i b :
  holds m a n bs -> bs !! Z.to_nat i = Some b -> 0 <= i -> m !! (a + i) = Some b.
Proof.
  intros [R _] Hb Hi. eapply read_bytes_byte; [exact R|lia|].
  by replace (a + i - a) with i by lia.
Qed.

Lemma holds_same m a n bs : holds m a n bs -> 0 <= n -> write_bytes m a bs = m.
Proof.
  intros [R _] Hn. apply write_read_same. rewrite <-R. f_equal.
  by apply read_bytes_length in R.
Qed.

Lemma holds_mid m a n xs ys zs q :
  holds m a n (xs ++ ys ++ zs) -> q = a + zlen xs -> holds m q (zlen ys) ys.
Proof.
  intros [R B] ->. rewrite !Forall_app in B. split; [|tauto].
  pose proof (read_bytes_length _ _ _ _ R) as Hl. rewrite !length_app in Hl.
  rewrite (read_bytes_sub _ _ _ _ (length xs) (Z.to_nat (zlen ys)) R) by lia. f_equal.
  rewrite Nat2Z.id, drop_app_length. apply take_app_length.
Qed.

Lemma holds_prefix m a n xs zs k : holds m a n (xs ++ zs) -> k = zlen xs -> holds m a k xs.
Proof. intros Hh ->. eapply (holds_mid m a n [] xs zs a Hh). cbn [length]. lia. Qed.

Lemma holds_written m a n bs : zlen bs = n -> are_bytes bs -> holds (write_bytes m a bs) a n bs.
Proof. intros <- B. split; [|done]. rewrite Nat2Z.id. apply read_write_same. Qed.

(** Two adjacent objects are one. *)
Lemma holds_app m a n k xs ys :
  holds m a n xs -> holds m (a + n) k ys -> 0 <= n -> 0 <= k -> holds m a (n + k) (xs ++ ys).
Proof.
  intros [R1 B1] [R2 B2] Hn Hk. split; [|by apply Forall_app_2].
  rewrite Z2Nat.inj_add by lia. apply read_bytes_app; [done|]. by rewrite Z2Nat.id.
Qed.

(** Rewriting the end of an object. *)
Lemma holds_tail_written m a n xs ys zs q :
  holds m a n (xs ++ ys) -> are_bytes zs -> q = a + zlen xs ->
  holds (write_bytes m q zs) a (zlen (xs ++ zs)) (xs ++ zs).
Proof.
  intros Hh Bz ->. rewrite length_app, Nat2Z.inj_add. apply holds_app; [|by apply holds_written|lia..].
  apply holds_write; [by eapply holds_prefix|lia|]. right. lia.
Qed.

Lemma holds_chunk m a n bs o k :
  holds m a n bs -> 0 <= n -> Z.of_nat (o + k) <= n ->
  read_bytes m (a + Z.of_nat o) k = Some (chunk o k bs).
Proof. intros [R _] Hn Hk. eapply read_bytes_sub; [exact R|lia]. Qed.

Lemma chunk_bytes o k bs : are_bytes bs -> are_bytes (chunk o k bs).
Proof. intros. by apply Forall_take, Forall_drop. Qed.

Lemma chunk_length o k bs : (o + k <= length bs)%nat -> length (chunk o k bs) = k.
Proof. intros. unfold chunk. rewrite length_take, length_drop. lia. Qed.

Lemma load_read n m a (len : nat) bs o :
  read_bytes m a len = Some bs -> (o + n <= len)%nat ->
  load n m (a + Z.of_nat o) = Some (le_num (chunk o n bs)).
Proof. intros R Hk. unfold load. by rewrite (read_bytes_sub _ _ _ _ _ _ R Hk). Qed.

Lemma load_chunk n m a len bs o :
  holds m a len bs -> 0 <= len -> Z.of_nat (o + n) <= len ->
  load n m (a + Z.of_nat o) = Some (le_num (chunk o n bs)).
Proof. intros [R _] Hn Hk. eapply load_read; [exact R|lia]. Qed.

#[export] Hint Resolve wf_write mapped_write disj_sym : bytes.
