(* ===== verification/Firmware.v ===== *)
(** * The platform interface

    The UEFI headers ([include/efi], not part of the repository) and the
    firmware behind them are parameters.  [Efi] has the constants of the
    headers, [Firmware] the services as functions of an abstract firmware
    state, so that every sequence of firmware answers is covered.  The law
    classes state what the UEFI specification documents of them. *)

From S2P Require Import Prelude Memory.

(** The fields of an [efi_guid] as [uefi_guid_compare] reads them: [data4] is
    its eight bytes as one little-endian integer. *)
Record efi_guid := Guid { data1 : Z; data2 : Z; data3 : Z; data4 : Z }.

#[export] Instance efi_guid_eq_dec : EqDecision efi_guid.
Proof. solve_decision. Defined.

Class Efi := {
  EFI_ERROR : Z -> bool;
  EFI_SUCCESS : Z;
  EFI_LOAD_ERROR : Z; EFI_INVALID_PARAMETER : Z; EFI_UNSUPPORTED : Z;
  EFI_BAD_BUFFER_SIZE : Z; EFI_BUFFER_TOO_SMALL : Z; EFI_NOT_READY : Z;
  EFI_DEVICE_ERROR : Z; EFI_WRITE_PROTECTED : Z; EFI_OUT_OF_RESOURCES : Z;
  EFI_VOLUME_CORRUPTED : Z; EFI_VOLUME_FULL : Z; EFI_NO_MEDIA : Z;
  EFI_MEDIA_CHANGED : Z; EFI_NOT_FOUND : Z; EFI_ACCESS_DENIED : Z;
  EFI_NO_RESPONSE : Z; EFI_NO_MAPPING : Z; EFI_TIMEOUT : Z; EFI_NOT_STARTED : Z;
  EFI_ALREADY_STARTED : Z; EFI_ABORTED : Z; EFI_ICMP_ERROR : Z; EFI_TFTP_ERROR : Z;
  EFI_PROTOCOL_ERROR : Z; EFI_INCOMPATIBLE_VERSION : Z; EFI_SECURITY_VIOLATION : Z;
  EFI_CRC_ERROR : Z; EFI_END_OF_MEDIA : Z; EFI_END_OF_FILE : Z;
  EFI_INVALID_LANGUAGE : Z; EFI_COMPROMISED_DATA : Z; EFI_IP_ADDRESS_CONFLICT : Z;
  EFI_HTTP_ERROR : Z;
  EfiLoaderData : Z;
  EVT_TIMER : Z; TPL_CALLBACK : Z; TimerRelative : Z; TimerCancel : Z;
  EfiResetWarm : Z; EfiResetShutdown : Z;
  EFI_SIMPLE_NETWORK_RECEIVE_UNICAST : Z; EFI_SIMPLE_NETWORK_RECEIVE_MULTICAST : Z;
  EFI_FILE_MODE_READ : Z; EFI_FILE_MODE_WRITE : Z; EFI_FILE_MODE_CREATE : Z;
  EFI_FILE_READ_ONLY : Z;
  sizeof_efi_mac_addr : Z;
  offsetof_FileSize : Z;
  EFI_OPEN_PROTOCOL_BY_HANDLE_PROTOCOL : Z; EFI_OPEN_PROTOCOL_BY_CHILD_CONTROLLER : Z;
  DEVICE_PATH_END : Z; DEVICE_PATH_ENTIRE_END : Z; DEVICE_PATH_MEDIA : Z;
  LoadedImageProtocol : efi_guid; SimpleFileSystemProtocol : efi_guid;
  SimpleNetworkProtocol : efi_guid; DevicePathProtocol : efi_guid;
  DevicePathToTextProtocol : efi_guid; DriverBindingProtocol : efi_guid;
  GraphicsOutputProtocol : efi_guid; FileInfoGuid : efi_guid;
  ACPI_20_TABLE_GUID : efi_guid;
}.

(** What the code relies on: [EFI_SUCCESS] is zero (statuses are used as
    truth values), success is not an error, the error codes are non-zero
    errors, [efi_mac_addr] has room for an Ethernet address, and the types of
    device path nodes are bytes, a file path is not an end node. *)
Class EfiLaws (E : Efi) : Prop := {
  efi_success_zero : EFI_SUCCESS = 0;
  efi_error_success : EFI_ERROR EFI_SUCCESS = false;
  efi_error_codes : Forall (fun c => c <> 0 /\ EFI_ERROR c = true)
    [EFI_LOAD_ERROR; EFI_INVALID_PARAMETER; EFI_UNSUPPORTED; EFI_BAD_BUFFER_SIZE;
     EFI_BUFFER_TOO_SMALL; EFI_NOT_READY; EFI_DEVICE_ERROR; EFI_WRITE_PROTECTED;
     EFI_OUT_OF_RESOURCES; EFI_VOLUME_CORRUPTED; EFI_VOLUME_FULL; EFI_NO_MEDIA;
     EFI_MEDIA_CHANGED; EFI_NOT_FOUND; EFI_ACCESS_DENIED; EFI_NO_RESPONSE;
     EFI_NO_MAPPING; EFI_TIMEOUT; EFI_NOT_STARTED; EFI_ALREADY_STARTED; EFI_ABORTED;
     EFI_ICMP_ERROR; EFI_TFTP_ERROR; EFI_PROTOCOL_ERROR; EFI_INCOMPATIBLE_VERSION;
     EFI_SECURITY_VIOLATION; EFI_CRC_ERROR; EFI_END_OF_MEDIA; EFI_END_OF_FILE;
     EFI_INVALID_LANGUAGE; EFI_COMPROMISED_DATA; EFI_IP_ADDRESS_CONFLICT;
     EFI_HTTP_ERROR];
  efi_mac_addr_size : 6 <= sizeof_efi_mac_addr;
  devpath_types : is_byte DEVICE_PATH_END /\ is_byte DEVICE_PATH_ENTIRE_END /\ is_byte DEVICE_PATH_MEDIA
    /\ DEVICE_PATH_MEDIA <> DEVICE_PATH_END;
}.

(** [EFI_SIMPLE_NETWORK_MODE], the fields the loader reads; [CurrentAddress] is
    the address of the array. *)
Record snp_mode := SnpMode {
  MediaPresent : bool; MaxMCastFilterCount : Z; CurrentAddress : Z }.

(** [EFI_GRAPHICS_OUTPUT_PROTOCOL.Mode]: its address and the fields the loader
    reads; and the resolution [QueryMode] reports for a mode. *)
Record gop_mode := GopMode {
  gop_mode_address : Z; MaxMode : Z; gop_mode_Info : Z;
  FrameBufferBase : Z; FrameBufferSize : Z }.
Record mode_information := ModeInformation {
  HorizontalResolution : Z; VerticalResolution : Z }.

(** An entry of the system table's configuration table, and one of the open
    information of a protocol. *)
Record efi_configuration_table := ConfigurationEntry { VendorGuid : efi_guid; VendorTable : Z }.
Record open_information := OpenInformation { controller_handle : Z; attributes : Z }.

(** Storage a service hands out: addresses and contents. *)
Abbreviation storage := (list (Z * list Z)).

(** Services.  Outputs through pointers are results; an operation that
    allocates sees the memory in use, so that its law can promise fresh
    storage, and returns what the storage holds as a function of the offset.
    [GetMemoryMap] may leave the key alone, [FirmwareVendor] is the byte at an
    offset of the string. *)
Class Firmware := {
  fwst : Type;
  OutputString : list Z -> fwst -> Z * fwst;
  ClearScreen : fwst -> Z * fwst;
  ReadKeyStroke : fwst -> Z * Z * fwst;
  WaitForKey : fwst -> Z * fwst;
  AllocatePages : Z -> Z -> memory -> fwst -> Z * Z * (Z -> Z) * fwst;
  AllocatePool : Z -> Z -> memory -> fwst -> Z * Z * (Z -> Z) * fwst;
  FreePool : Z -> fwst -> Z * fwst;
  CreateEvent : Z -> Z -> fwst -> Z * Z * fwst;
  SetTimer : Z -> Z -> Z -> fwst -> Z * fwst;
  CheckEvent : Z -> fwst -> Z * fwst;
  CloseEvent : Z -> fwst -> Z * fwst;
  HandleProtocol : Z -> efi_guid -> fwst -> Z * Z * fwst;
  DeviceHandle : Z -> fwst -> Z;
  OpenVolume : Z -> fwst -> Z * Z * fwst;
  FileOpen : Z -> list Z -> Z -> Z -> fwst -> Z * Z * fwst;
  FileRead : Z -> Z -> fwst -> Z * list Z * fwst;
  FileWrite : Z -> list Z -> fwst -> Z * Z * fwst;
  FileSetPosition : Z -> Z -> fwst -> Z * fwst;
  FileClose : Z -> fwst -> Z * fwst;
  GetVariable : list Z -> efi_guid -> Z -> fwst -> Z * Z * list Z * fwst;
  SetVariable : list Z -> efi_guid -> Z -> list Z -> fwst -> Z * fwst;
  SnpMode_of : Z -> fwst -> snp_mode;
  SnpTransmit : Z -> Z -> list Z -> fwst -> Z * fwst;
  SnpReceive : Z -> Z -> fwst -> Z * list Z * fwst;
  SnpGetStatus : Z -> fwst -> Z * Z * fwst;
  SnpReceiveFilters : Z -> Z -> Z -> Z -> list Z -> fwst -> Z * fwst;
  SnpStart : Z -> fwst -> Z * fwst;
  SnpInitialize : Z -> fwst -> Z * fwst;
  SnpShutdown : Z -> fwst -> Z * fwst;
  SnpStop : Z -> fwst -> Z * fwst;
  FileGetInfo : Z -> Z -> fwst -> Z * Z * list Z * fwst;
  GetMemoryMap : Z -> fwst -> Z * Z * option Z * Z * list Z * fwst;
  ExitBootServices : Z -> Z -> fwst -> Z * fwst;
  LocateHandle : efi_guid -> Z -> fwst -> Z * list Z * fwst;
  LocateHandleBuffer : option efi_guid -> memory -> fwst -> Z * Z * Z * storage * fwst;
  LocateProtocol : efi_guid -> fwst -> Z * Z * fwst;
  OpenProtocol : Z -> efi_guid -> Z -> Z -> fwst -> Z * Z * fwst;
  CloseProtocol : Z -> efi_guid -> Z -> fwst -> Z * fwst;
  ProtocolsPerHandle : Z -> memory -> fwst -> Z * Z * Z * storage * fwst;
  OpenProtocolInformation : Z -> Z -> memory -> fwst -> Z * list open_information * fwst;
  ConnectController : Z -> bool -> fwst -> Z * fwst;
  ConvertDevicePathToText : Z -> Z -> memory -> fwst -> Z * storage * fwst;
  LoadImage : Z -> Z -> memory -> fwst -> Z * Z * fwst;
  StartImage : Z -> fwst -> Z * fwst;
  SetLoadOptions : Z -> list Z -> Z -> fwst -> unit * fwst;
  SetWatchdogTimer : Z -> Z -> fwst -> Z * fwst;
  ImageBase : Z -> fwst -> Z;
  ImageSize : Z -> fwst -> Z;
  GopMode_of : Z -> fwst -> gop_mode;
  QueryMode : Z -> Z -> fwst -> Z * mode_information * fwst;
  SetMode : Z -> Z -> fwst -> Z * fwst;
  FirmwareRevision : Z;
  FirmwareVendor : Z -> Z;
  ConfigurationTable : option (list efi_configuration_table);
}.

(** Storage handed out by the boot services: a successful allocation is
    fresh and non-null and lies in the 52-bit physical address space of the
    processor; pages are aligned. *)
Class AllocLaws (E : Efi) (F : Firmware) : Prop := {
  alloc_pages_fresh ty n m w st a c w' :
    AllocatePages ty n m w = (st, a, c, w') -> EFI_ERROR st = false -> 0 <= n ->
    0 < a /\ a mod 4096 = 0 /\ a + 4096 * n <= 2 ^ 52 /\ unmapped m a (4096 * n);
  alloc_pool_fresh ty n m w st a c w' :
    AllocatePool ty n m w = (st, a, c, w') -> EFI_ERROR st = false -> 0 <= n ->
    0 < a /\ a + n <= 2 ^ 52 /\ unmapped m a n;
}.

(** [Receive] fills at most the buffer it is given. *)
Class SnpLaws (F : Firmware) : Prop := {
  snp_receive_fits h n w st data w' :
    SnpReceive h n w = (st, data, w') -> zlen data <= n;
}.
