(* ===== verification/State.v ===== *)
(** * Program state and the effect monad

    The static variables of the program, one record per component; arrays and
    structures whose address is taken live in memory at addresses chosen by
    the linker ([Layout]).  A C function is a computation [M A]: it returns,
    ends the program ([Halt]), performs an access outside every object
    ([Fault]), or exhausts the fuel of a loop that polls the firmware. *)

From S2P Require Import Prelude Memory Firmware.

(** ** Static variables *)

(** net/bufpool.c and [eth_buffer_phys] of net/net.c *)
Record bufpool_globals := BufpoolGlobals {
  eth_bufpool : Z; eth_bufpool_avail : Z; eth_buffer_phys : Z }.

(** net/net.c *)
Record net_globals := NetGlobals {
  mcast_filter_count : Z; snp : Z; net_timer : Z;
  net_poll_continue : bool; net_advertised : bool; net_stop_advertising : bool }.

(** net/netboot.c: the type of [_netboot_state] *)
Inductive vy_netboot_state_t :=
  | STATE_PREINIT | STATE_ADVERTISING | STATE_CMD_WAIT | STATE_FILE_TRANSFER.

#[export] Instance vy_netboot_state_t_eq_dec : EqDecision vy_netboot_state_t.
Proof. solve_decision. Defined.

Record vy_netboot_t := NetbootState {
  nb_state : vy_netboot_state_t;
  file_info : Z; file_buffer : Z;
  file_bytes_transferred : Z; file_packets_transferred : Z }.

(** Control registers written by the loader. *)
Record cpu_regs := CpuRegs { cr0 : Z; msr : gmap Z Z }.

(** Where linker and compiler put static arrays and local variables.  The
    address and the initial contents of a local are functions of the memory in
    use. *)
Class Layout := {
  a_ll_mac_addr : Z; a_ip6_ll_addr : Z; a_snm_mac_addr : Z; a_ip6_snm_addr : Z;
  a_remote_mac_addr : Z; a_remote_ip6_addr : Z; a_ip6_all_nodes : Z;
  a_mcast_filters : Z;
  a_LoadedImageProtocol : Z; a_DriverBindingProtocol : Z; a_DevicePathProtocol : Z;
  a_empty_devpath : Z; a_btrfs_path : Z; a_null_path : Z; a_null_string : Z;
  stack_addr : memory -> Z -> Z;
  stack_junk : Z -> Z;
}.

(** The static arrays the network code uses, with their sizes. *)
Definition statics {L : Layout} : list (Z * Z) :=
  [(a_ll_mac_addr, 6); (a_ip6_ll_addr, 16); (a_remote_mac_addr, 6); (a_remote_ip6_addr, 16);
   (a_ip6_snm_addr, 16); (a_ip6_all_nodes, 16)].

(** How often [uefi_key_wait] and [uefi_read_keystroke] may poll before the
    model gives up; theorems quantify over it. *)
Class Fuel := key_polls : nat.

(** [handle]: the image handle [efi_main] received from the firmware. *)
Class ImageHandle := handle : Z.

(** [st]: the address of the system table. *)
Class SystemTable := system_table : Z.

Class LayoutLaws (L : Layout) : Prop := {
  stack_fresh m n : 0 <= n ->
    0 < stack_addr m n /\ unmapped m (stack_addr m n) n;
  statics_disjoint (i j : nat) r r' :
    statics !! i = Some r -> statics !! j = Some r' -> i <> j -> disj r.1 r.2 r'.1 r'.2;
}.

(** Why a run ended: BootServices->Exit, a reset, [efi_panic], an endless loop
    after an error message, the jump to the kernel. *)
Inductive halt :=
  | Exited (code : Z)
  | WasReset (kind status : Z)
  | Panicked (message : list Z)
  | Hung
  | Jumped (data entry pml4 : Z).

Section State.
Context {F : Firmware}.

Record state := State {
  mem : memory;
  pool : gmap Z Z;
  fw : fwst;
  bp : bufpool_globals;
  ng : net_globals;
  nb : vy_netboot_t;
  cpu : cpu_regs;
}.

Definition set_mem (m : memory) (s : state) : state :=
  State m (pool s) (fw s) (bp s) (ng s) (nb s) (cpu s).
Definition set_pool (p : gmap Z Z) (s : state) : state :=
  State (mem s) p (fw s) (bp s) (ng s) (nb s) (cpu s).
Definition set_fw (w : fwst) (s : state) : state :=
  State (mem s) (pool s) w (bp s) (ng s) (nb s) (cpu s).
Definition set_bp (b : bufpool_globals) (s : state) : state :=
  State (mem s) (pool s) (fw s) b (ng s) (nb s) (cpu s).
Definition set_ng (g : net_globals) (s : state) : state :=
  State (mem s) (pool s) (fw s) (bp s) g (nb s) (cpu s).
Definition set_nb (n : vy_netboot_t) (s : state) : state :=
  State (mem s) (pool s) (fw s) (bp s) (ng s) n (cpu s).
Definition set_cpu (c : cpu_regs) (s : state) : state :=
  State (mem s) (pool s) (fw s) (bp s) (ng s) (nb s) c.

Inductive outcome (A : Type) :=
  | Ret (a : A) (s : state)
  | Halt (h : halt) (s : state)
  | Fault (addr : Z)
  | NoFuel.
#[global] Arguments Ret {A} a s.
#[global] Arguments Halt {A} h s.
#[global] Arguments Fault {A} addr.
#[global] Arguments NoFuel {A}.

Definition M (A : Type) : Type := state -> outcome A.

#[global] Instance M_ret : MRet M := fun A a s => Ret a s.

#[global] Instance M_bind : MBind M := fun A B f m s =>
  match m s with
  | Ret a s' => f a s'
  | Halt h s' => Halt h s'
  | Fault x => Fault x
  | NoFuel => NoFuel
  end.

Definition gets {A} (f : state -> A) : M A := fun s => Ret (f s) s.
Definition modify (f : state -> state) : M unit := fun s => Ret tt (f s).
Definition fault {A} (a : Z) : M A := fun _ => Fault a.
Definition stop {A} (h : halt) : M A := fun s => Halt h s.
Definition skip : M unit := mret tt.

(** Pointer accesses. *)
Definition read_block (a : Z) (n : Z) : M (list Z) := fun s =>
  match read_bytes (mem s) a (Z.to_nat n) with
  | Some bs => Ret bs s
  | None => Fault a
  end.

Definition write_block (a : Z) (bs : list Z) : M unit := fun s =>
  match read_bytes (mem s) a (length bs) with
  | Some _ => Ret tt (set_mem (write_bytes (mem s) a bs) s)
  | None => Fault a
  end.

Definition load_n (n : nat) (a : Z) : M Z := fun s =>
  match load n (mem s) a with
  | Some v => Ret v s
  | None => Fault a
  end.

Definition store_n (n : nat) (a v : Z) : M unit := write_block a (le_bytes n v).

(** A service of the firmware. *)
Definition firmware {A} (f : fwst -> A * fwst) : M A := fun s =>
  let '(a, w) := f (fw s) in Ret a (set_fw w s).

(** Storage appears with the given contents. *)
Fixpoint bytes_from (c : Z -> Z) (i : Z) (n : nat) : list Z :=
  match n with
  | O => []
  | S n => u8 (c i) :: bytes_from c (i + 1) n
  end.

Definition bytes_at (c : Z -> Z) (n : Z) : list Z := bytes_from c 0 (Z.to_nat n).

Definition add_storage (a n : Z) (c : Z -> Z) : M unit :=
  modify (fun s => set_mem (write_bytes (mem s) a (bytes_at c n)) s).

(** Storage a service hands out, with its contents. *)
Definition publish (blocks : storage) : M unit :=
  modify (fun s =>
    set_mem (foldr (fun b m => write_bytes m b.1 (map u8 b.2)) (mem s) blocks) s).

(** A service that reads the program's memory and hands out storage. *)
Definition publishing {A} (f : memory -> fwst -> A * storage * fwst) : M A := fun s =>
  let '(a, blocks, w) := f (mem s) (fw s) in (_ ← publish blocks; mret a) (set_fw w s).

(** A service that reads the program's memory. *)
Definition reading {A} (f : memory -> fwst -> A * fwst) : M A := fun s => firmware (f (mem s)) s.

Definition drop_storage (a n : Z) : M unit :=
  modify (fun s => set_mem (clear_bytes (mem s) a (Z.to_nat n)) s).

(** A local variable of [n] bytes whose address is taken, for the duration of
    its block. *)
Definition with_local {L : Layout} {A} (n : Z) (k : Z -> M A) : M A := fun s =>
  let a := stack_addr (mem s) n in
  (_ ← add_storage a n stack_junk; r ← k a; _ ← drop_storage a n; mret r) s.

End State.

Abbreviation load8 := (load_n 1).
Abbreviation load16 := (load_n 2).
Abbreviation load32 := (load_n 4).
Abbreviation load64 := (load_n 8).
Abbreviation store8 := (store_n 1).
Abbreviation store16 := (store_n 2).
Abbreviation store32 := (store_n 4).
Abbreviation store64 := (store_n 8).

(** ** Running computations *)

Section Run.
Context {F : Firmware}.

Lemma bind_ret {A B} (m : M A) (f : A -> M B) s a s' :
  m s = Ret a s' -> (m ≫= f) s = f a s'.
Proof. intros H. unfold mbind, M_bind. by rewrite H. Qed.

Lemma bind_halt {A B} (m : M A) (f : A -> M B) s h s' :
  m s = Halt h s' -> (m ≫= f) s = Halt h s'.
Proof. intros H. unfold mbind, M_bind. by rewrite H. Qed.

Lemma bind_fault {A B} (m : M A) (f : A -> M B) s x :
  m s = Fault x -> (m ≫= f) s = Fault x.
Proof. intros H. unfold mbind, M_bind. by rewrite H. Qed.

Lemma bind_nofuel {A B} (m : M A) (f : A -> M B) s :
  m s = NoFuel -> (m ≫= f) s = NoFuel.
Proof. intros H. unfold mbind, M_bind. by rewrite H. Qed.

Lemma bind_assoc {A B C} (m : M A) (f : A -> M B) (g : B -> M C) s :
  ((m ≫= f) ≫= g) s = (m ≫= (fun x => f x ≫= g)) s.
Proof. unfold mbind, M_bind. by destruct (m s). Qed.

Lemma firmware_ret {A} (f : fwst -> A * fwst) s :
  firmware f s = Ret (f (fw s)).1 (set_fw (f (fw s)).2 s).
Proof. unfold firmware. by destruct (f (fw s)). Qed.

Lemma bind_first {A B} (m m' : M A) (f : A -> M B) s s' :
  m s = m' s' -> (m ≫= f) s = (m' ≫= f) s'.
Proof. intros H. unfold mbind, M_bind. by rewrite H. Qed.

Lemma bind_ret_inv {A B} (m : M A) (f : A -> M B) s b s' :
  (m ≫= f) s = Ret b s' -> exists a s1, m s = Ret a s1 /\ f a s1 = Ret b s'.
Proof. unfold mbind, M_bind. destruct (m s); try done. eauto. Qed.

Lemma set_mem_same s : set_mem (mem s) s = s.
Proof. by destruct s. Qed.

Lemma set_mem_twice m m' s : set_mem m (set_mem m' s) = set_mem m s.
Proof. done. Qed.

Lemma read_block_ret s a n bs :
  read_bytes (mem s) a (Z.to_nat n) = Some bs -> read_block a n s = Ret bs s.
Proof. unfold read_block. by intros ->. Qed.

Lemma write_block_ret s a bs :
  mapped (mem s) a (zlen bs) ->
  write_block a bs s = Ret tt (set_mem (write_bytes (mem s) a bs) s).
Proof.
  intros H. apply read_bytes_mapped in H as [cs E]. unfold write_block. by rewrite E.
Qed.

Lemma load_n_ret n s a v : load n (mem s) a = Some v -> load_n n a s = Ret v s.
Proof. unfold load_n. by intros ->. Qed.

Lemma store_n_ret n s a v :
  mapped (mem s) a (Z.of_nat n) ->
  store_n n a v s = Ret tt (set_mem (store n (mem s) a v) s).
Proof. intros. apply write_block_ret. by rewrite length_le_bytes. Qed.

Lemma load8_ret s a b : is_byte b -> mem s !! a = Some b -> load8 a s = Ret b s.
Proof.
  intros Hb H. apply load_n_ret. unfold load. simpl. rewrite H. simpl. f_equal. lia.
Qed.

Lemma length_bytes_from c n : forall i, length (bytes_from c i n) = n.
Proof. induction n as [|n IH]; intros i; [done|]. cbn [bytes_from length]. by rewrite IH. Qed.

Lemma length_bytes_at c n : 0 <= n -> zlen (bytes_at c n) = n.
Proof. intros. unfold bytes_at. rewrite length_bytes_from. lia. Qed.

Lemma are_bytes_bytes_at c n : are_bytes (bytes_at c n).
Proof.
  unfold bytes_at. generalize 0 as i. induction (Z.to_nat n) as [|k IH]; intros i; constructor;
    [apply is_byte_u8|apply IH].
Qed.

(** The state in which the block of a local starts. *)
Definition enter_local {L : Layout} (n : Z) (s : state) : state :=
  set_mem (write_bytes (mem s) (stack_addr (mem s) n) (bytes_at stack_junk n)) s.

(** A run that ends in the block of a local. *)
Lemma with_local_halt {L : Layout} {A} n (k : Z -> M A) s h s' :
  k (stack_addr (mem s) n)
    (set_mem (write_bytes (mem s) (stack_addr (mem s) n) (bytes_at stack_junk n)) s) = Halt h s' ->
  with_local n k s = Halt h s'.
Proof.
  intros R. unfold with_local. erewrite bind_ret by reflexivity. cbv beta. by apply bind_halt.
Qed.

End Run.

#[export] Hint Resolve are_bytes_bytes_at : bytes.

(** Computes the fields of updated states, without evaluating memories. *)
Ltac st_simpl :=
  unfold set_mem, set_pool, set_fw, set_bp, set_ng, set_nb, set_cpu in *;
  cbn [mem pool fw bp ng nb cpu] in *.

(** [run_step] executes the first statement of the goal's computation with the
    given equation about it. *)
Ltac run_step E := rewrite (bind_ret _ _ _ _ _ E); cbv beta.
