(* ===== verification/CString.v ===== *)
(** * lib/string: memory and string functions

    [memcpy], [memset], [memcmp], [strlen] and [strncmp] loop by loop, with the
    block operations they implement. *)

From S2P Require Import Prelude Memory Firmware State.

Section CString.
Context {F : Firmware}.

(** lib/string/memcpy.c *)
Fixpoint memcpy_loop (n : nat) (dst src : Z) : M unit :=
  match n with
  | O => skip
  | S n => b ← load8 src; _ ← store8 dst b; memcpy_loop n (dst + 1) (src + 1)
  end.

Definition memcpy (s1 s2 n : Z) : M Z := _ ← memcpy_loop (Z.to_nat n) s1 s2; mret s1.

(** lib/string/memset.c *)
Fixpoint memset_loop (n : nat) (ptr c : Z) : M unit :=
  match n with
  | O => skip
  | S n => _ ← store8 ptr (u8 c); memset_loop n (ptr + 1) c
  end.

Definition memset (s c n : Z) : M Z := _ ← memset_loop (Z.to_nat n) s c; mret s.

(** lib/string/memcmp.c *)
Fixpoint memcmp_loop (n : nat) (s1 s2 : Z) : M Z :=
  match n with
  | O => mret 0
  | S n =>
      b1 ← load8 s1; b2 ← load8 s2;
      if negb (b1 =? b2) then mret (b1 - b2) else memcmp_loop n (s1 + 1) (s2 + 1)
  end.

Definition memcmp (str1 str2 count : Z) : M Z := memcmp_loop (Z.to_nat count) str1 str2.

(** lib/string/strlen.c.  Each round reads one more mapped address, so there
    are at most as many rounds as bytes of memory. *)
Fixpoint strlen_loop (fuel : nat) (str ret : Z) : M Z :=
  match fuel with
  | O => fun _ => NoFuel
  | S fuel =>
      c ← load8 str; if c =? 0 then mret ret else strlen_loop fuel (str + 1) (ret + 1)
  end.

Definition strlen (str : Z) : M Z :=
  n ← gets (fun s => size (mem s)); strlen_loop (S n) str 0.

(** lib/string/strncmp.c *)
Fixpoint strncmp_loop (n : nat) (s1 s2 : Z) : M Z :=
  match n with
  | O => mret 0
  | S n =>
      u1 ← load8 s1; u2 ← load8 s2;
      if negb (u1 =? u2) then mret (u1 - u2)
      else if u1 =? 0 then mret 0
      else strncmp_loop n (s1 + 1) (s2 + 1)
  end.

Definition strncmp (s1 s2 n : Z) : M Z := strncmp_loop (Z.to_nat n) s1 s2.

(** ** Specifications *)

Fixpoint bytes_cmp (bs cs : list Z) : Z :=
  match bs, cs with
  | b :: bs, c :: cs => if b =? c then bytes_cmp bs cs else b - c
  | _, _ => 0
  end.

(** The C string at [a] has the characters [bs]. *)
Definition c_string (m : memory) (a : Z) (bs : list Z) : Prop :=
  read_bytes m a (length bs) = Some bs /\ m !! (a + zlen bs) = Some 0 /\
  Forall (fun b => is_byte b /\ b <> 0) bs.

(** Comparison of two strings given by their characters, at most [n] of them;
    past its last character a string reads as NUL. *)
Fixpoint chars_ncmp (n : nat) (bs cs : list Z) : Z :=
  match n with
  | O => 0
  | S n =>
      let b := default 0 (head bs) in
      let c := default 0 (head cs) in
      if b =? c then if b =? 0 then 0 else chars_ncmp n (tail bs) (tail cs) else b - c
  end.

Lemma bytes_cmp_zero bs cs : length bs = length cs -> bytes_cmp bs cs = 0 <-> bs = cs.
Proof.
  revert cs; induction bs as [|b bs IH]; intros [|c cs] L; simpl in L; try done.
  simpl. destruct (Z.eqb_spec b c) as [->|N].
  - rewrite IH by lia. split; [by intros ->|by intros [= ->]].
  - split; [lia|]. intros [= ->]. done.
Qed.

Lemma read_bytes_cons m a n bs :
  read_bytes m a (S n) = Some bs ->
  exists b bs', bs = b :: bs' /\ m !! a = Some b /\ read_bytes m (a + 1) n = Some bs'.
Proof.
  simpl. destruct (m !! a) as [b|]; [|done]. simpl.
  destruct (read_bytes m (a + 1) n) as [bs'|]; [|done]. simpl. intros [= <-]. eauto.
Qed.

Lemma load8_read s a b : mem s !! a = Some b -> load8 a s = Ret b s.
Proof.
  intros H. apply load_n_ret. unfold load. simpl. rewrite H. cbn. f_equal. lia.
Qed.

Lemma store8_ret s a v :
  is_Some (mem s !! a) -> store8 a v s = Ret tt (set_mem (<[a := u8 v]> (mem s)) s).
Proof.
  intros [b H]. unfold store_n, write_block. simpl. rewrite H. done.
Qed.

Lemma memcpy_loop_ret bs : forall s dst src,
  read_bytes (mem s) src (length bs) = Some bs -> are_bytes bs ->
  mapped (mem s) dst (zlen bs) -> disj dst (zlen bs) src (zlen bs) ->
  memcpy_loop (length bs) dst src s = Ret tt (set_mem (write_bytes (mem s) dst bs) s).
Proof.
  induction bs as [|b bs IH]; intros s dst src R B Mp D; [by destruct s|].
  apply read_bytes_cons in R as (b' & bs' & [= <- <-] & R0 & R1).
  inversion B as [|? ? B0 B1]; subst. simpl length in Mp, D. cbn [memcpy_loop length].
  assert (Hd : is_Some (mem s !! dst)) by (apply Mp; lia).
  run_step (load8_read _ _ _ R0). run_step (store8_ret s dst b Hd).
  rewrite IH; cbn [mem set_mem]; try done.
  - rewrite u8_byte by done. f_equal. rewrite set_mem_twice. f_equal.
    apply map_eq. intros x. simpl. rewrite !lookup_write_bytes.
    destruct (decide (dst = x)) as [->|].
    + rewrite lookup_insert_eq, decide_False by lia. by rewrite lookup_insert_eq.
    + rewrite !lookup_insert_ne by done. by rewrite lookup_write_bytes.
  - erewrite read_bytes_agree; [exact R1|].
    intros x Hx. apply lookup_insert_ne. unfold disj in D. lia.
  - intros x Hx. destruct (decide (dst = x)) as [->|].
    + rewrite lookup_insert_eq. eauto.
    + rewrite lookup_insert_ne by done. apply Mp. lia.
  - unfold disj in *. lia.
Qed.

(** A copy that leaves its object faults at the first address past it. *)
Lemma memcpy_loop_fault bs : forall (k : nat) s dst src,
  read_bytes (mem s) src (length bs) = Some bs -> (k < length bs)%nat ->
  mapped (mem s) dst (Z.of_nat k) -> disj dst (Z.of_nat k) src (zlen bs) ->
  mem s !! (dst + Z.of_nat k) = None ->
  memcpy_loop (length bs) dst src s = Fault (dst + Z.of_nat k).
Proof.
  induction bs as [|b bs IH]; intros k s dst src R Hk Mp D U; [cbn in Hk; lia|].
  apply read_bytes_cons in R as (b' & bs' & [= <- <-] & R0 & R1). cbn [memcpy_loop length] in *.
  run_step (load8_read _ _ _ R0). destruct k as [|k].
  - rewrite Z.add_0_r in *. unfold mbind, M_bind, store_n, write_block. cbn [le_bytes length read_bytes].
    by rewrite U.
  - assert (Hd : is_Some (mem s !! dst)) by (apply Mp; lia).
    run_step (store8_ret s dst b Hd).
    rewrite (IH k); cbn [mem set_mem]; [f_equal; lia| |lia| | |].
    + erewrite read_bytes_agree; [exact R1|].
      intros x Hx. apply lookup_insert_ne. unfold disj in D. lia.
    + intros x Hx. rewrite lookup_insert_ne by lia. apply Mp. lia.
    + unfold disj in *. lia.
    + rewrite lookup_insert_ne by lia. by replace (dst + 1 + Z.of_nat k) with (dst + Z.of_nat (S k)) by lia.
Qed.

Lemma memcpy_ret s dst src n bs :
  0 <= n -> read_bytes (mem s) src (Z.to_nat n) = Some bs -> are_bytes bs ->
  mapped (mem s) dst n -> disj dst n src n ->
  memcpy dst src n s = Ret dst (set_mem (write_bytes (mem s) dst bs) s).
Proof.
  intros Hn R B Mp D. pose proof (read_bytes_length _ _ _ _ R) as L.
  unfold memcpy. rewrite <-L in *.
  erewrite bind_ret; [done|]. apply memcpy_loop_ret; auto.
  - by replace (zlen bs) with n by lia.
  - by replace (zlen bs) with n by lia.
Qed.

Lemma memset_loop_ret n c : forall s ptr,
  mapped (mem s) ptr (Z.of_nat n) ->
  memset_loop n ptr c s = Ret tt (set_mem (write_bytes (mem s) ptr (replicate n (u8 c))) s).
Proof.
  induction n as [|n IH]; intros s ptr Mp; [by destruct s|].
  cbn [memset_loop replicate].
  run_step (store8_ret s ptr (u8 c) (Mp ptr ltac:(lia))).
  rewrite IH; cbn [mem set_mem].
  - rewrite (u8_byte (u8 c)) by apply is_byte_u8. f_equal. rewrite set_mem_twice. f_equal.
    apply map_eq. intros x. cbn [write_bytes]. rewrite !lookup_write_bytes.
    rewrite length_replicate. destruct (decide (ptr = x)) as [->|].
    + rewrite lookup_insert_eq, decide_False by lia. by rewrite lookup_insert_eq.
    + rewrite !lookup_insert_ne by done. by rewrite lookup_write_bytes, length_replicate.
  - intros x Hx. destruct (decide (ptr = x)) as [->|].
    + rewrite lookup_insert_eq. eauto.
    + rewrite lookup_insert_ne by done. apply Mp. lia.
Qed.

Lemma memset_ret s ptr c n :
  0 <= n -> mapped (mem s) ptr n ->
  memset ptr c n s
  = Ret ptr (set_mem (write_bytes (mem s) ptr (replicate (Z.to_nat n) (u8 c))) s).
Proof.
  intros Hn Mp. unfold memset. erewrite bind_ret; [done|]. apply memset_loop_ret.
  by rewrite Z2Nat.id.
Qed.

Lemma memcmp_loop_ret bs : forall cs s s1 s2,
  length bs = length cs ->
  read_bytes (mem s) s1 (length bs) = Some bs ->
  read_bytes (mem s) s2 (length cs) = Some cs ->
  memcmp_loop (length bs) s1 s2 s = Ret (bytes_cmp bs cs) s.
Proof.
  induction bs as [|b bs IH]; intros [|c cs] s s1 s2 L R1 R2; simpl in L; try done.
  apply read_bytes_cons in R1 as (? & ? & [= <- <-] & R10 & R11).
  apply read_bytes_cons in R2 as (? & ? & [= <- <-] & R20 & R21).
  cbn [memcmp_loop length bytes_cmp].
  run_step (load8_read _ _ _ R10). run_step (load8_read _ _ _ R20).
  destruct (b =? c); simpl; [|done]. apply IH; auto.
Qed.

Lemma memcmp_ret s s1 s2 n bs cs :
  read_bytes (mem s) s1 (Z.to_nat n) = Some bs ->
  read_bytes (mem s) s2 (Z.to_nat n) = Some cs ->
  memcmp s1 s2 n s = Ret (bytes_cmp bs cs) s.
Proof.
  intros R1 R2. pose proof (read_bytes_length _ _ _ _ R1) as L1.
  pose proof (read_bytes_length _ _ _ _ R2) as L2. unfold memcmp. rewrite <-L1.
  apply memcmp_loop_ret; [lia|by rewrite L1|by rewrite L2].
Qed.

Lemma mapped_size m a n : mapped m a (Z.of_nat n) -> (n <= size m)%nat.
Proof.
  intros Mp. rewrite <-size_dom.
  assert (ND : NoDup ((fun i => a + Z.of_nat i) <$> seq 0 n)).
  { apply NoDup_fmap_2; [intros x y; lia|apply NoDup_seq]. }
  pose proof (size_list_to_set (C := gset Z) _ ND) as Sz.
  rewrite length_fmap, length_seq in Sz. rewrite <-Sz. apply subseteq_size. intros x Hx. apply elem_of_list_to_set in Hx.
  apply list_elem_of_fmap in Hx as (i & -> & Hi%elem_of_seq).
  apply elem_of_dom, Mp. lia.
Qed.

Lemma strlen_loop_ret bs : forall fuel s a r,
  read_bytes (mem s) a (length bs) = Some bs -> mem s !! (a + zlen bs) = Some 0 ->
  Forall (fun b => is_byte b /\ b <> 0) bs -> (length bs < fuel)%nat ->
  strlen_loop fuel a r s = Ret (r + zlen bs) s.
Proof.
  induction bs as [|b bs IH]; intros [|fuel] s a r R Z0 N L; cbn [length] in *; try lia.
  - rewrite Z.add_0_r in Z0. cbn [strlen_loop]. run_step (load8_read _ _ _ Z0).
    simpl. unfold mret, M_ret. f_equal. lia.
  - apply read_bytes_cons in R as (? & ? & [= <- <-] & R0 & R1).
    inversion N as [|? ? [_ N0] N1]; subst. cbn [strlen_loop].
    run_step (load8_read _ _ _ R0).
    rewrite (proj2 (Z.eqb_neq b 0) N0). rewrite IH; [f_equal; lia|done| |done|lia].
    rewrite <-Z0. f_equal. lia.
Qed.

Lemma strlen_ret s a bs : c_string (mem s) a bs -> strlen a s = Ret (zlen bs) s.
Proof.
  intros (R & Z0 & N). unfold strlen. erewrite bind_ret by done.
  replace (zlen bs) with (0 + zlen bs) at 1 by lia. apply strlen_loop_ret; auto.
  assert (mapped (mem s) a (Z.of_nat (length bs))) by (apply read_bytes_mapped; eauto).
  pose proof (mapped_size _ _ _ H). lia.
Qed.

Lemma strlen_loop_fuel fuel : forall s a r,
  mapped (mem s) a (Z.of_nat fuel) \/ strlen_loop fuel a r s <> NoFuel.
Proof.
  induction fuel as [|fuel IH]; intros s a r.
  - left. intros x Hx. lia.
  - destruct (mem s !! a) as [b|] eqn:E.
    + destruct (IH s (a + 1) (r + 1)) as [Mp|H].
      * left. intros x Hx. destruct (decide (a = x)) as [<-|]; [eauto|]. apply Mp. lia.
      * right. cbn [strlen_loop]. run_step (load8_read _ _ _ E). by destruct (b =? 0).
    + right. cbn [strlen_loop]. unfold mbind, M_bind, load_n, load. simpl. by rewrite E.
Qed.

Lemma strncmp_loop_ret n : forall s a1 a2 bs cs,
  c_string (mem s) a1 bs -> c_string (mem s) a2 cs ->
  strncmp_loop n a1 a2 s = Ret (chars_ncmp n bs cs) s.
Proof.
  assert (Hd : forall m a bs, c_string m a bs -> m !! a = Some (default 0 (head bs))).
  { intros m a [|b bs] (R & Z0 & _); simpl in *.
    - by rewrite Z.add_0_r in Z0.
    - apply (read_bytes_cons _ _ (length bs)) in R as (? & ? & [= <- <-] & ? & ?). done. }
  assert (Tl : forall m a bs, default 0 (head bs) <> 0 -> c_string m a bs ->
                              c_string m (a + 1) (tail bs)).
  { intros m a [|b bs] Hn (R & Z0 & N); [done|].
    apply (read_bytes_cons _ _ (length bs)) in R as (? & ? & [= <- <-] & ? & ?).
    inversion N. split; [done|]. split; [|done]. rewrite <-Z0. f_equal. simpl. lia. }
  induction n as [|n IH]; intros s a1 a2 bs cs C1 C2; [done|].
  cbn [strncmp_loop chars_ncmp].
  run_step (load8_read _ _ _ (Hd _ _ _ C1)). run_step (load8_read _ _ _ (Hd _ _ _ C2)).
  destruct (Z.eqb_spec (default 0 (head bs)) (default 0 (head cs))) as [E|]; simpl; [|done].
  destruct (Z.eqb_spec (default 0 (head bs)) 0) as [|N0]; [done|].
  apply IH; apply Tl; congruence.
Qed.

End CString.

(** ** Filling a buffer from its front

    A buffer of [n] bytes at [p] whose first bytes are already [bs]: the next
    store or copy appends to them.  Packets are built this way. *)
Section Fill.
Context {F : Firmware}.
Implicit Types (s : state) (bs cs : list Z).

Lemma fill_store k v n m p bs s q :
  q = p + zlen bs -> mapped m p n -> zlen bs + Z.of_nat k <= n ->
  store_n k q v (set_mem (write_bytes m p bs) s)
  = Ret tt (set_mem (write_bytes m p (bs ++ le_bytes k v)) s).
Proof.
  intros -> Mp Hn. rewrite store_n_ret.
  - cbn [mem set_mem]. unfold store. by rewrite write_adj, set_mem_twice.
  - apply mapped_write. eapply mapped_sub; [exact Mp|lia..].
Qed.

Lemma fill_memcpy src k cs n m p bs s q :
  q = p + zlen bs -> mapped m p n -> zlen bs + k <= n -> 0 <= k ->
  read_bytes m src (Z.to_nat k) = Some cs -> are_bytes cs -> disj p n src k ->
  memcpy q src k (set_mem (write_bytes m p bs) s)
  = Ret q (set_mem (write_bytes m p (bs ++ cs)) s).
Proof.
  intros -> Mp Hn Hk R B D. rewrite (memcpy_ret _ _ _ _ cs); cbn [mem set_mem].
  - by rewrite write_adj, set_mem_twice.
  - done.
  - rewrite read_write_disj; [done|]. unfold disj in *. lia.
  - done.
  - apply mapped_write. eapply mapped_sub; [exact Mp|lia..].
  - unfold disj in *. lia.
Qed.

(** Updates inside an object whose contents are known. *)
Lemma write_within m p bs o cs :
  0 <= o -> o + zlen cs <= zlen bs ->
  write_bytes (write_bytes m p bs) (p + o) cs
  = write_bytes m p (take (Z.to_nat o) bs ++ cs ++ drop (Z.to_nat o + length cs) bs).
Proof.
  intros H0 H1. set (n := Z.to_nat o). set (B := take (length cs) (drop n bs)).
  set (C := drop (n + length cs) bs).
  assert (Eb : take n bs ++ B ++ C = bs).
  { unfold B, C. rewrite <-drop_drop, take_drop, take_drop. done. }
  assert (Ln : length (take n bs) = n) by (rewrite length_take; lia).
  assert (Lb : length B = length cs) by (unfold B; rewrite length_take, length_drop; lia).
  rewrite <-Eb at 1. rewrite !write_bytes_app, !Ln, Lb. replace (Z.of_nat n) with o by lia.
  rewrite write_comm by (unfold disj; lia). by rewrite write_bytes_twice.
Qed.

Lemma store_inside o v m p bs s q :
  q = p + o -> 0 <= o < zlen bs ->
  store8 q v (set_mem (write_bytes m p bs) s)
  = Ret tt (set_mem (write_bytes m p (<[Z.to_nat o := u8 v]> bs)) s).
Proof.
  intros -> Ho. rewrite store8_ret; cbn [mem set_mem].
  - change (<[p + o := u8 v]> ?m) with (write_bytes m (p + o) [u8 v]).
    rewrite write_inside by lia. replace (p + o - p) with o by lia. done.
  - apply (mapped_write_self m p bs). lia.
Qed.

Lemma store_n_inside k o v m p bs s q :
  q = p + o -> 0 <= o -> o + Z.of_nat k <= zlen bs ->
  store_n k q v (set_mem (write_bytes m p bs) s)
  = Ret tt (set_mem (write_bytes m p (take (Z.to_nat o) bs ++ le_bytes k v
                                      ++ drop (Z.to_nat o + k) bs)) s).
Proof.
  intros -> Ho Hl. rewrite store_n_ret; cbn [mem set_mem].
  - unfold store. rewrite write_within by (rewrite ?length_le_bytes; lia).
    by rewrite length_le_bytes, set_mem_twice.
  - eapply mapped_sub; [apply (mapped_write_self m p bs)|lia..].
Qed.

Lemma memset_inside o c n m p bs s q :
  q = p + o -> 0 <= o -> 0 <= n -> o + n <= zlen bs ->
  memset q c n (set_mem (write_bytes m p bs) s)
  = Ret q (set_mem (write_bytes m p (take (Z.to_nat o) bs ++ replicate (Z.to_nat n) (u8 c)
                                     ++ drop (Z.to_nat o + Z.to_nat n) bs)) s).
Proof.
  intros -> Ho Hn Hl. rewrite memset_ret; cbn [mem set_mem]; [|done|].
  - rewrite write_within by (rewrite ?length_replicate; lia).
    by rewrite length_replicate, set_mem_twice.
  - eapply mapped_sub; [apply (mapped_write_self m p bs)|lia..].
Qed.

End Fill.
