(* ===== verification/Printf.v ===== *)
(** * lib/vcbprintf.c: formatted output through a callback

    The format is the list of its characters before the NUL; an argument is
    the 8-byte slot the x64 calling convention passes ([VWord]), or a string
    given by its characters ([VStr]).  The target is LLP64: [int] and [long]
    have 32 bits, [size_t], [long long] and [intmax_t] have 64.  Output goes to
    a callback over an arbitrary context [C]. *)

From S2P Require Import Prelude Memory Firmware State CString.

Inductive va := VWord (z : Z) | VStr (bs : list Z).

(** enum length *)
Inductive length_t :=
  | LENGTH_SHORT_SHORT | LENGTH_SHORT | LENGTH_DEFAULT | LENGTH_LONG
  | LENGTH_LONG_LONG | LENGTH_LONG_DOUBLE | LENGTH_INTMAX_T | LENGTH_SIZE_T
  | LENGTH_PTRDIFF_T.

#[export] Instance length_t_eq_dec : EqDecision length_t.
Proof. solve_decision. Defined.

(** length_modifiers[]: name, length, name_length *)
Definition length_modifiers : list (list Z * length_t * nat) :=
  [ (str "hh", LENGTH_SHORT_SHORT, 2%nat);
    (str "h", LENGTH_SHORT, 1%nat);
    (str "", LENGTH_DEFAULT, 0%nat);
    (str "l", LENGTH_LONG, 1%nat);
    (str "ll", LENGTH_LONG_LONG, 2%nat);
    (str "L", LENGTH_LONG_DOUBLE, 1%nat);
    (str "j", LENGTH_INTMAX_T, 1%nat);
    (str "z", LENGTH_SIZE_T, 1%nat);
    (str "t", LENGTH_PTRDIFF_T, 1%nat) ].

Record flags := Flags {
  flag_hash : bool; flag_minus : bool; flag_plus : bool; flag_space : bool;
  flag_zero : bool }.

Definition no_flags : flags := Flags false false false false false.

(** the loop over the flag characters *)
Fixpoint read_flags (format : list Z) (f : flags) : flags * list Z :=
  match format with
  | [] => (f, [])
  | c :: rest =>
      let '(Flags h m p s z) := f in
      if c =? chr "#" then read_flags rest (Flags true m p s z)
      else if c =? chr "-" then read_flags rest (Flags h true p s z)
      else if c =? chr "+" then read_flags rest (Flags h m true s z)
      else if c =? chr " " then read_flags rest (Flags h m p true z)
      else if c =? chr "0" then read_flags rest (Flags h m p s true)
      else (f, format)
  end.

Definition is_digit (c : Z) : bool := (chr "0" <=? c) && (c <=? chr "9").

(** the digit loops of the width and of the precision, on a [size_t] *)
Fixpoint read_number (format : list Z) (n : Z) : Z * list Z :=
  match format with
  | [] => (n, [])
  | c :: rest =>
      if is_digit c then read_number rest (u64 (u64 (n * 10) + (c - chr "0")))
      else (n, format)
  end.

Definition SIZE_MAX : Z := 2 ^ 64 - 1.
Definition INT_MAX : Z := 2 ^ 31 - 1.

Definition read_precision (format : list Z) : Z * list Z :=
  match format with
  | c :: rest => if c =? chr "." then read_number rest 0 else (SIZE_MAX, format)
  | [] => (SIZE_MAX, format)
  end.

Definition read_length (format : list Z) : length_t * list Z :=
  let '(l, n) :=
    fold_left (fun '(len, len_len) '(name, l, name_len) =>
      if (name_len <? len_len)%nat then (len, len_len)
      else if negb (chars_ncmp name_len format name =? 0) then (len, len_len)
      else (l, name_len)) length_modifiers (LENGTH_DEFAULT, 0%nat) in
  (l, drop n format).

(** the va_arg types of the signed and unsigned conversions, by length; [None]
    is goto unknown_conversion *)
Definition signed_arg (l : length_t) (slot : Z) : option Z :=
  match l with
  | LENGTH_SHORT_SHORT | LENGTH_SHORT | LENGTH_DEFAULT | LENGTH_LONG => Some (s32 slot)
  | LENGTH_LONG_LONG | LENGTH_INTMAX_T | LENGTH_SIZE_T | LENGTH_PTRDIFF_T =>
      Some (s64 slot)
  | LENGTH_LONG_DOUBLE => None
  end.

Definition unsigned_arg (l : length_t) (slot : Z) : option Z :=
  match l with
  | LENGTH_SHORT_SHORT | LENGTH_SHORT | LENGTH_DEFAULT | LENGTH_LONG => Some (u32 slot)
  | LENGTH_LONG_LONG | LENGTH_INTMAX_T | LENGTH_SIZE_T | LENGTH_PTRDIFF_T =>
      Some (u64 slot)
  | LENGTH_LONG_DOUBLE => None
  end.

(** while(base <= copy) { copy /= base; buf_length++; }; 64 rounds are enough
    for 64-bit values and bases from 8 *)
Fixpoint count_digits (fuel : nat) (base copy buf_length : Z) : Z :=
  match fuel with
  | O => buf_length
  | S fuel =>
      if base <=? copy then count_digits fuel base (copy / base) (buf_length + 1)
      else buf_length
  end.

Definition conv_digit (upper : bool) (d : Z) : Z :=
  nth (Z.to_nat d) (if upper then str "0123456789ABCDEF" else str "0123456789abcdef") 0.

(** for(i = buf_length; i > 0; i--) { buf[i-1] = conv[value % base]; value /= base; } *)
Fixpoint fill_digits (i : nat) (upper : bool) (base value : Z) (buf : list Z) : list Z :=
  match i with
  | O => buf
  | S i => fill_digits i upper base (value / base) (conv_digit upper (value mod base) :: buf)
  end.

Definition base_of (specifier : Z) : Z :=
  if (specifier =? chr "X") || (specifier =? chr "x") then 16
  else if specifier =? chr "o" then 8 else 10.

(** prefix[], without its NUL *)
Definition int_prefix (f : flags) (specifier : Z) (negative : bool) : list Z :=
  (if negative then str "-" else if flag_plus f then str "+"
   else if flag_space f then str " " else [])
  ++ (if flag_hash f && ((specifier =? chr "x") || (specifier =? chr "X"))
      then [chr "0"; specifier]
      else if flag_hash f && (specifier =? chr "o") then [chr "0"] else []).

Definition int_digits (specifier value : Z) : list Z :=
  let base := base_of specifier in
  let buf_length := count_digits 64 base value 1 in
  fill_digits (Z.to_nat buf_length) (specifier =? chr "X") base value [].

(** Failures that are undefined behaviour in C: a missing or mistyped
    argument, a write past prefix[3] or buf[21]. *)
Inductive pfail := BadArg | BufferOverflow | OutOfFuel.

Section Vcbprintf.
Context {C : Type}.

Inductive pout (A : Type) :=
  | POk (a : A) (c : C)
  | PDone (r : Z) (c : C)
  | PBad (e : pfail).
#[global] Arguments POk {A} a c.
#[global] Arguments PDone {A} r c.
#[global] Arguments PBad {A} e.

Definition P (A : Type) : Type := C -> pout A.

#[global] Instance P_ret : MRet P := fun A a c => POk a c.
#[global] Instance P_bind : MBind P := fun A B f m c =>
  match m c with
  | POk a c' => f a c'
  | PDone r c' => PDone r c'
  | PBad e => PBad e
  end.

Definition callback_placeholder (string : list Z) (ctx : C) : Z * C := (zlen string, ctx).

Variable callback : list Z -> C -> Z * C.

(** if(callback(ctx, string, length) != length) return -1; *)
Definition emit (string : list Z) : P unit := fun c =>
  let '(n, c') := callback string c in
  if n =? zlen string then POk tt c' else PDone (-1) c'.

Fixpoint emit_times (n : nat) (string : list Z) : P unit :=
  match n with
  | O => mret tt
  | S n => _ ← emit string; emit_times n string
  end.

(** The variables of the outer loop. *)
Record pstate := PState {
  ps_format : list Z; ps_args : list va; ps_written : Z; ps_bad : bool }.

Fixpoint block_length (format : list Z) : nat :=
  match format with
  | [] => 0
  | c :: rest => if c =? chr "%" then 0 else S (block_length rest)
  end.

(** normal_print: *)
Definition normal_print (format : list Z) (args : list va) (written : Z) (bad : bool)
    : P pstate :=
  let block := S (block_length (tail format)) in
  _ ← emit (take block format);
  mret (PState (drop block format) args (u64 (written + Z.of_nat block)) bad).

Definition va_word (args : list va) : P (Z * list va) := fun c =>
  match args with
  | VWord z :: rest => POk (z, rest) c
  | _ => PBad BadArg
  end.

Definition va_string (args : list va) : P (list Z * list va) := fun c =>
  match args with
  | VStr bs :: rest => POk (bs, rest) c
  | _ => PBad BadArg
  end.

(** the part of the integer conversions after va_arg *)
Definition print_int (f : flags) (width precision specifier value : Z) (negative : bool)
    : P Z :=
  let prefix := int_prefix f specifier negative in
  let prefix_len := zlen prefix in
  let buf := int_digits specifier value in
  let buf_length := zlen buf in
  let printed_width :=
    if negb (precision =? SIZE_MAX) && (buf_length <? precision) then precision
    else buf_length in
  let pad :=
    if width <? u64 (printed_width + prefix_len) then 0
    else u64 (width - u64 (printed_width + prefix_len)) in
  if (3 <=? prefix_len) || (21 <=? buf_length) then fun _ => PBad BufferOverflow else
  _ ← (if flag_zero f then mret tt else emit_times (Z.to_nat pad) (str " "));
  _ ← emit prefix;
  _ ← (if flag_zero f && negb (flag_minus f) then emit_times (Z.to_nat pad) (str "0")
       else mret tt);
  _ ← emit_times (Z.to_nat (printed_width - buf_length)) (str "0");
  _ ← emit buf;
  _ ← (if flag_minus f then emit_times (Z.to_nat pad) (str " ") else mret tt);
  mret buf_length.

Definition is_int_specifier (c : Z) : bool :=
  existsb (Z.eqb c) (str "diopuxX").

(** One conversion, [start] being format_start and [format] the text after the
    flags, the width, the precision and the length. *)
Definition convert (start : list Z) (f : flags) (width precision : Z) (l : length_t)
    (format : list Z) (args : list va) (written : Z) : P pstate :=
  let unknown := normal_print start args written true in
  match format with
  | [] => unknown
  | c :: rest =>
      if c =? chr "%" then
        _ ← emit (str "%"); mret (PState rest args written false)
      else if c =? chr "s" then
        '(string, args) ← va_string args;
        let len := if precision <? zlen string then precision else zlen string in
        _ ← emit (take (Z.to_nat len) string);
        mret (PState rest args (u64 (written + len)) false)
      else if c =? chr "c" then
        '(z, args) ← va_word args;
        _ ← emit [u8 z];
        mret (PState rest args (u64 (written + 1)) false)
      else if is_int_specifier c then
        let signed := (c =? chr "i") || (c =? chr "d") in
        let arg := fun z =>
          if c =? chr "p" then Some (u64 z)
          else if signed then signed_arg l z else unsigned_arg l z in
        match arg 0 with
        | None => unknown
        | Some _ =>
            '(z, args) ← va_word args;
            let v := default 0 (arg z) in
            let negative := signed && (v <? 0) in
            let value := if negative then u64 (- u64 v) else u64 v in
            let specifier := if c =? chr "p" then chr "x" else c in
            n ← print_int f width precision specifier value negative;
            mret (PState rest args (u64 (written + n)) false)
        end
      else unknown
  end.

Definition conversion (start rest : list Z) (args : list va) (written : Z) : P pstate :=
  let '(f, format) := read_flags rest no_flags in
  let '(width, format) := read_number format 0 in
  '(width, format, args) ←
    match format with
    | c :: tl =>
        if c =? chr "*" then
          '(z, args) ← va_word args; mret (u64 (s32 z), tl, args)
        else mret (width, format, args)
    | [] => mret (width, format, args)
    end;
  let '(precision, format) := read_precision format in
  let '(l, format) := read_length format in
  convert start f width precision l format args written.

(** One round of the outer loop. *)
Definition vcb_step (st : pstate) : P pstate :=
  let '(PState format args written bad) := st in
  match format with
  | [] => mret st
  | c :: rest =>
      if negb (c =? chr "%") then normal_print format args written bad
      else if bool_decide (head rest = Some (chr "%"))
      then normal_print rest args written bad
      else if bad then normal_print format args written true
      else conversion format rest args written
  end.

Fixpoint vcb_loop (fuel : nat) (st : pstate) : P pstate :=
  match ps_format st with
  | [] => mret st
  | _ =>
      match fuel with
      | O => fun _ => PBad OutOfFuel
      | S fuel => st ← vcb_step st; vcb_loop fuel st
      end
  end.

(** Each round consumes a character of the format, so its length is enough
    fuel.  [None] is a null (or all-ones) format pointer. *)
Definition vcbprintf (format : option (list Z)) (args : list va) : P Z :=
  match format with
  | None => mret 0
  | Some format =>
      st ← vcb_loop (length format) (PState format args 0 false);
      mret (if INT_MAX <? ps_written st then -1 else ps_written st)
  end.

End Vcbprintf.
