(* ===== verification/PrintfFacts.v ===== *)
(** * Properties of the formatted output of [Printf]

    Digit conversion, termination of the format loop, the static checker
    [fmt_safe] that rules out undefined behaviour, and the layout of an integer
    conversion. *)

From S2P Require Import Prelude Memory Firmware State CString Printf.

(** ** Reading a number back *)

Definition digit_value (c : Z) : Z :=
  if c <=? chr "9" then c - chr "0" else if c <=? chr "F" then c - chr "A" + 10
  else c - chr "a" + 10.

Definition parse_digits (base : Z) (cs : list Z) : Z :=
  fold_left (fun n c => n * base + digit_value c) cs 0.

(** ** A static checker for formats: [true] is a word argument, [false] a
    string.  Octal conversions and a sign together with [#] are refused: they
    can overrun the buffers. *)

Definition has_kind (k : bool) (a : va) : Prop :=
  match k, a with true, VWord _ => True | false, VStr _ => True | _, _ => False end.

Definition safe_convert (f : flags) (l : length_t) (format : list Z) (kinds : list bool)
    : option (list Z * list bool) :=
  match format with
  | [] => None
  | c :: rest =>
      if c =? chr "%" then Some (rest, kinds)
      else if c =? chr "s" then
        match kinds with false :: kinds => Some (rest, kinds) | _ => None end
      else if c =? chr "c" then
        match kinds with true :: kinds => Some (rest, kinds) | _ => None end
      else if is_int_specifier c && negb (c =? chr "o") && negb (flag_hash f)
              && negb (bool_decide (l = LENGTH_LONG_DOUBLE)) then
        match kinds with true :: kinds => Some (rest, kinds) | _ => None end
      else None
  end.

Definition safe_step (format : list Z) (kinds : list bool) : option (list Z * list bool) :=
  match format with
  | [] => None
  | c :: rest =>
      if negb (c =? chr "%") then Some (drop (S (block_length rest)) format, kinds)
      else if bool_decide (head rest = Some (chr "%"))
      then Some (drop (S (block_length (tail rest))) rest, kinds)
      else
        let '(f, format) := read_flags rest no_flags in
        let '(_, format) := read_number format 0 in
        if bool_decide (head format = Some (chr "*")) then None else
        let '(_, format) := read_precision format in
        let '(l, format) := read_length format in
        safe_convert f l format kinds
  end.

Fixpoint fmt_safe (fuel : nat) (format : list Z) (kinds : list bool) : bool :=
  match format, fuel with
  | [], _ => true
  | _, O => false
  | _, S fuel =>
      match safe_step format kinds with
      | Some (format, kinds) => fmt_safe fuel format kinds
      | None => false
      end
  end.

(** The output of an integer conversion, as a text. *)
Definition spaces (n : Z) : list Z := replicate (Z.to_nat n) (chr " ").
Definition zeros (n : Z) : list Z := replicate (Z.to_nat n) (chr "0").

(** A callback that accepts everything and keeps it. *)
Definition collect (string : list Z) (out : list Z) : Z * list Z :=
  (zlen string, out ++ string).

(** ** Digits *)

Lemma base_of_range sp : base_of sp = 8 \/ base_of sp = 10 \/ base_of sp = 16.
Proof. unfold base_of. repeat case_match; auto. Qed.

Lemma base_of_not_octal sp : sp <> chr "o" -> 10 <= base_of sp <= 16.
Proof.
  intros H. unfold base_of. case_match; [lia|]. case_match eqn:E; [|lia].
  apply Z.eqb_eq in E. done.
Qed.

Lemma count_digits_spec fuel base copy n :
  2 <= base -> 0 <= copy < base ^ Z.of_nat fuel ->
  exists k, count_digits fuel base copy n = n + k /\ 0 <= k /\ copy < base ^ (k + 1)
            /\ (k = 0 \/ base ^ k <= copy).
Proof.
  intros Hb. revert copy n. induction fuel as [|fuel IH]; intros copy n Hc.
  - exists 0. simpl in *. lia.
  - cbn [count_digits]. destruct (Z.leb_spec base copy) as [Hle|Hlt].
    + rewrite Nat2Z.inj_succ, Z.pow_succ_r in Hc by lia.
      destruct (IH (copy / base) (n + 1)) as (k & -> & Hk & Hup & Hlo).
      { split; [apply Z.div_pos; lia|]. apply Z.div_lt_upper_bound; lia. }
      exists (k + 1). split; [lia|]. split; [lia|].
      pose proof (Z.div_mod copy base ltac:(lia)).
      pose proof (Z.mod_pos_bound copy base ltac:(lia)). split.
      * replace (k + 1 + 1) with (Z.succ (k + 1)) by lia. rewrite Z.pow_succ_r by lia. nia.
      * right. replace (k + 1) with (Z.succ k) by lia. rewrite Z.pow_succ_r by lia.
        destruct Hlo as [->|Hlo]; [simpl; lia|nia].
    + exists 0. split; [lia|]. split; [lia|]. split; [rewrite Z.pow_1_r; lia|auto].
Qed.

Lemma digit_value_conv up d : 0 <= d < 16 -> digit_value (conv_digit up d) = d.
Proof.
  intros H. assert (E : forallb (fun d => digit_value (conv_digit true d) =? d)
    (map Z.of_nat (seq 0 16)) && forallb (fun d => digit_value (conv_digit false d) =? d)
    (map Z.of_nat (seq 0 16)) = true) by (vm_compute; done).
  apply andb_prop in E as [E1 E2]. rewrite forallb_forall in E1, E2.
  assert (In d (map Z.of_nat (seq 0 16))).
  { apply in_map_iff. exists (Z.to_nat d). rewrite in_seq. lia. }
  apply Z.eqb_eq. destruct up; auto.
Qed.

Lemma length_fill_digits i up base value buf :
  length (fill_digits i up base value buf) = (i + length buf)%nat.
Proof.
  revert value buf; induction i as [|i IH]; intros; simpl; [done|].
  rewrite IH. simpl. lia.
Qed.

Lemma parse_fill_digits i up base : 2 <= base <= 16 -> forall value buf n,
  0 <= value < base ^ Z.of_nat i ->
  fold_left (fun n c => n * base + digit_value c) (fill_digits i up base value buf) n
  = fold_left (fun n c => n * base + digit_value c) buf (n * base ^ Z.of_nat i + value).
Proof.
  intros Hb. induction i as [|i IH]; intros value buf n Hv.
  - simpl in *. f_equal. lia.
  - rewrite Nat2Z.inj_succ, Z.pow_succ_r in * by lia. cbn [fill_digits].
    pose proof (Z.div_mod value base ltac:(lia)).
    pose proof (Z.mod_pos_bound value base ltac:(lia)).
    rewrite IH; [|split; [apply Z.div_pos; lia|apply Z.div_lt_upper_bound; lia]].
    cbn [fold_left]. rewrite digit_value_conv by lia. f_equal. nia.
Qed.

Lemma pow_64 base : 8 <= base -> 2 ^ 64 <= base ^ Z.of_nat 64.
Proof. intros. apply Z.pow_le_mono_l. lia. Qed.

Lemma int_digits_count sp value :
  0 <= value < 2 ^ 64 ->
  exists k, zlen (int_digits sp value) = k + 1 /\ 0 <= k
    /\ value < base_of sp ^ (k + 1) /\ (k = 0 \/ base_of sp ^ k <= value).
Proof.
  intros Hv. pose proof (base_of_range sp).
  assert (8 <= base_of sp) by lia. pose proof (pow_64 (base_of sp) ltac:(lia)).
  destruct (count_digits_spec 64 (base_of sp) value 1) as (k & E & Hk & Hup & Hlo);
    [lia|lia|].
  exists k. unfold int_digits. rewrite length_fill_digits, E. simpl length.
  split; [lia|auto].
Qed.

Lemma parse_int_digits sp value :
  0 <= value < 2 ^ 64 -> parse_digits (base_of sp) (int_digits sp value) = value.
Proof.
  intros Hv. destruct (int_digits_count sp value Hv) as (k & L & Hk & Hup & _).
  pose proof (base_of_range sp). unfold parse_digits, int_digits in *.
  rewrite length_fill_digits in L. simpl length in L.
  rewrite parse_fill_digits; [|lia|].
  - simpl. lia.
  - split; [lia|]. replace (Z.of_nat _) with (k + 1) by lia. done.
Qed.

Lemma int_digits_fit sp value :
  0 <= value < 2 ^ 64 -> sp <> chr "o" -> 1 <= zlen (int_digits sp value) <= 20.
Proof.
  intros Hv Hsp. destruct (int_digits_count sp value Hv) as (k & -> & Hk & _ & Hlo).
  split; [lia|]. destruct Hlo as [->|Hlo]; [lia|].
  destruct (decide (k <= 19)); [lia|]. exfalso.
  pose proof (base_of_not_octal sp Hsp).
  assert (10 ^ 20 <= base_of sp ^ k).
  { transitivity (10 ^ k); [apply Z.pow_le_mono_r; lia|apply Z.pow_le_mono_l; lia]. }
  lia.
Qed.

(** ** Progress of the format loop *)

Lemma read_flags_le format f : (length (read_flags format f).2 <= length format)%nat.
Proof.
  revert f; induction format as [|c rest IH]; intros f; [done|]. cbn [read_flags].
  destruct f as [h m p s z]. repeat case_match; try (etrans; [apply IH|]); simpl; lia.
Qed.

Lemma read_number_le format n : (length (read_number format n).2 <= length format)%nat.
Proof.
  revert n; induction format as [|c rest IH]; intros n; [done|]. cbn [read_number].
  case_match; [etrans; [apply IH|]|]; simpl; lia.
Qed.

Lemma read_precision_le format : (length (read_precision format).2 <= length format)%nat.
Proof.
  destruct format as [|c rest]; [done|]. cbn [read_precision].
  case_match; [etrans; [apply read_number_le|]|]; simpl; lia.
Qed.

Lemma read_length_le format : (length (read_length format).2 <= length format)%nat.
Proof.
  unfold read_length. destruct (fold_left _ _ _) as [l n]. simpl. rewrite length_drop. lia.
Qed.

Section Loop.
Context {C : Type} (callback : list Z -> C -> Z * C).

Abbreviation P := (P (C := C)).

(** [m] does not exhaust its fuel, and its result satisfies [Q]. *)
Definition runs {A} (Q : A -> Prop) (m : P A) : Prop :=
  forall c, match m c with POk a _ => Q a | PDone _ _ => True | PBad e => e <> OutOfFuel end.

Lemma runs_ret {A} (Q : A -> Prop) a : Q a -> runs Q (mret a : P A).
Proof. by intros H c. Qed.

Lemma runs_bind {A B} (R : A -> Prop) (Q : B -> Prop) (m : P A) f :
  runs R m -> (forall a, R a -> runs Q (f a)) -> runs Q (m ≫= f).
Proof.
  intros Hm Hf c. specialize (Hm c). unfold mbind, P_bind.
  destruct (m c); [by apply Hf|done|done].
Qed.

Lemma runs_emit bs : runs (fun _ => True) (emit callback bs).
Proof. intros c. unfold emit. destruct (callback bs c) as [n c']. by destruct (n =? zlen bs). Qed.

Lemma runs_emit_times n bs : runs (fun _ => True) (emit_times callback n bs).
Proof.
  induction n as [|n IH]; [by apply runs_ret|]. cbn [emit_times].
  eapply runs_bind; [apply runs_emit|intros _ _; apply IH].
Qed.

Lemma runs_va_word args : runs (fun _ => True) (va_word args : P _).
Proof. intros c. destruct args as [|[]]; done. Qed.

Lemma runs_va_string args : runs (fun _ => True) (va_string args : P _).
Proof. intros c. destruct args as [|[]]; done. Qed.

Lemma runs_if {A} (Q : A -> Prop) (b : bool) (m1 m2 : P A) :
  runs Q m1 -> runs Q m2 -> runs Q (if b then m1 else m2).
Proof. by destruct b. Qed.

Lemma runs_print_int f w p sp v neg :
  runs (fun _ => True) (print_int callback f w p sp v neg).
Proof.
  unfold print_int. apply runs_if; [by intros c|].
  repeat first [ apply runs_ret; done | apply runs_emit | apply runs_emit_times
               | apply runs_if | apply (runs_bind (fun _ => True)); [|intros] ].
Qed.

(** The text left to format after a step is shorter. *)
Abbreviation shorter n := (fun st : pstate => (length (ps_format st) < n)%nat).

Lemma runs_normal_print format args written bad n :
  format <> [] -> (length format <= n)%nat ->
  runs (shorter n) (normal_print callback format args written bad).
Proof.
  intros Hne Hn. unfold normal_print. eapply runs_bind; [apply runs_emit|intros _ _].
  apply runs_ret. simpl. destruct format; [done|]. simpl in *. rewrite length_drop. lia.
Qed.

Lemma runs_convert start f w p l format args written :
  start <> [] -> (length format < length start)%nat ->
  runs (shorter (length start)) (convert callback start f w p l format args written).
Proof.
  intros Hs Hf. unfold convert.
  assert (U : forall args, runs (shorter (length start))
                (normal_print callback start args written true))
    by (intros; by apply runs_normal_print).
  destruct format as [|c rest]; [apply U|]. simpl in Hf.
  assert (R : forall args w', runs (shorter (length start))
                (mret (PState rest args w' false) : P _))
    by (intros; apply runs_ret; simpl; lia).
  repeat apply runs_if; try apply U.
  - eapply runs_bind; [apply runs_emit|intros _ _; apply R].
  - eapply runs_bind; [apply runs_va_string|intros [string args'] _].
    eapply runs_bind; [apply runs_emit|intros _ _; apply R].
  - eapply runs_bind; [apply runs_va_word|intros [z args'] _].
    eapply runs_bind; [apply runs_emit|intros _ _; apply R].
  - case_match; [|apply U]. eapply runs_bind; [apply runs_va_word|intros [z' args'] _].
    eapply runs_bind; [apply runs_print_int|intros n _; apply R].
Qed.

Lemma runs_conversion c rest args written :
  runs (shorter (S (length rest))) (conversion callback (c :: rest) rest args written).
Proof.
  unfold conversion.
  pose proof (read_flags_le rest no_flags) as L1.
  destruct (read_flags rest no_flags) as [f fmt1]. simpl in L1.
  pose proof (read_number_le fmt1 0) as L2. destruct (read_number fmt1 0) as [w fmt2].
  simpl in L2.
  eapply (runs_bind (fun '(_, fmt, _) => (length fmt <= length fmt2)%nat)).
  - destruct fmt2 as [|c' tl]; [apply runs_ret; simpl; lia|]. apply runs_if.
    + eapply runs_bind; [apply runs_va_word|intros [z args'] _].
      apply runs_ret. simpl. lia.
    + apply runs_ret. simpl. lia.
  - intros [[w' fmt] args'] L3. pose proof (read_precision_le fmt) as L4.
    destruct (read_precision fmt) as [p fmt']. simpl in L4.
    pose proof (read_length_le fmt') as L5. destruct (read_length fmt') as [l fmt''].
    simpl in L5. apply runs_convert; [done|simpl; lia].
Qed.

Lemma runs_vcb_step st :
  ps_format st <> [] -> runs (shorter (length (ps_format st))) (vcb_step callback st).
Proof.
  intros Hne. destruct st as [format args written bad]. simpl in *.
  destruct format as [|c rest]; [done|].
  cbn [vcb_step]. apply runs_if; [by apply runs_normal_print|].
  case_bool_decide as E; [|apply runs_if].
  - apply runs_normal_print; [by destruct rest|simpl; lia].
  - by apply runs_normal_print.
  - apply runs_conversion.
Qed.

Lemma runs_vcb_loop fuel : forall st, (length (ps_format st) <= fuel)%nat ->
  runs (fun _ => True) (vcb_loop callback fuel st).
Proof.
  induction fuel as [|fuel IH]; intros st L.
  - simpl. destruct (ps_format st) eqn:E; [by apply runs_ret|simpl in L; lia].
  - simpl. destruct (ps_format st) as [|c rest] eqn:E; [by apply runs_ret|].
    eapply runs_bind; [apply runs_vcb_step; by rewrite E|].
    intros st' L'. apply IH. rewrite E in L'. simpl in *. lia.
Qed.

Lemma runs_vcbprintf format args :
  runs (fun _ => True) (vcbprintf callback format args).
Proof.
  destruct format as [format|]; [|by apply runs_ret]. unfold vcbprintf.
  eapply runs_bind; [by apply runs_vcb_loop|]. intros. by apply runs_ret.
Qed.

End Loop.

(** ** Formats the checker accepts *)

Section Safe.
Context {C : Type} (callback : list Z -> C -> Z * C).
Hypothesis accepts : forall bs c, (callback bs c).1 = zlen bs.

(** What the callback does to its context. *)
Context (reaches : relation C) {reaches_preorder : PreOrder reaches}.
Hypothesis callback_reaches : forall bs c, reaches c (callback bs c).2.

(** [m] succeeds with a result that satisfies [Q], and its context goes through
    calls of the callback only. *)
Definition succeeds {A} (Q : A -> Prop) (m : P (C := C) A) : Prop :=
  forall c, exists a c', m c = POk a c' /\ reaches c c' /\ Q a.

Lemma succeeds_ret {A} (Q : A -> Prop) a : Q a -> succeeds Q (mret a).
Proof. intros H c. by exists a, c. Qed.

Lemma succeeds_bind {A B} (R : A -> Prop) (Q : B -> Prop) (m : P A) f :
  succeeds R m -> (forall a, R a -> succeeds Q (f a)) -> succeeds Q (m ≫= f).
Proof.
  intros Hm Hf c. destruct (Hm c) as (a & c' & E & Rc & Ha).
  destruct (Hf a Ha c') as (b & c2 & E2 & Rc2 & Hb). exists b, c2.
  unfold mbind, P_bind. rewrite E. split; [done|]. split; [by etrans|done].
Qed.

Lemma succeeds_if {A} (Q : A -> Prop) (b : bool) (m1 m2 : P A) :
  succeeds Q m1 -> succeeds Q m2 -> succeeds Q (if b then m1 else m2).
Proof. by destruct b. Qed.

Lemma succeeds_emit bs : succeeds (fun _ => True) (emit callback bs).
Proof.
  intros c. unfold emit. pose proof (accepts bs c) as E. pose proof (callback_reaches bs c) as Rc.
  destruct (callback bs c) as [n c']. simpl in E, Rc. subst. rewrite Z.eqb_refl. eauto.
Qed.

Lemma succeeds_emit_times n bs : succeeds (fun _ => True) (emit_times callback n bs).
Proof.
  induction n as [|n IH]; [by apply succeeds_ret|]. cbn [emit_times].
  eapply succeeds_bind; [apply succeeds_emit|intros _ _; apply IH].
Qed.

Lemma succeeds_print_int f w p sp v neg :
  flag_hash f = false -> sp <> chr "o" -> 0 <= v < 2 ^ 64 ->
  succeeds (fun _ => True) (print_int callback f w p sp v neg).
Proof.
  intros Hh Hs Hv. unfold print_int.
  pose proof (int_digits_fit sp v Hv Hs).
  assert (L : zlen (int_prefix f sp neg) <= 1).
  { unfold int_prefix. rewrite Hh. simpl. rewrite app_nil_r. repeat case_match; simpl; lia. }
  rewrite (proj2 (Z.leb_gt 3 _)), (proj2 (Z.leb_gt 21 _)) by lia. cbn [orb].
  repeat first [ apply succeeds_ret; done | apply succeeds_emit | apply succeeds_emit_times
               | apply succeeds_if | apply (succeeds_bind (fun _ => True)); [|intros] ].
Qed.

(** What is left to do after a step. *)
Definition left_over (format : list Z) (kinds : list bool) (st : pstate) : Prop :=
  ps_format st = format /\ ps_bad st = false /\ 0 <= ps_written st
  /\ Forall2 has_kind kinds (ps_args st).

Lemma u64_nonneg z : 0 <= u64 z.
Proof. apply (wrap_range 64). lia. Qed.

Hint Resolve u64_nonneg : core.

Lemma succeeds_normal_print format args written kinds :
  Forall2 has_kind kinds args ->
  succeeds (left_over (drop (S (block_length (tail format))) format) kinds)
    (normal_print callback format args written false).
Proof.
  intros K. unfold normal_print. eapply succeeds_bind; [apply succeeds_emit|intros _ _].
  apply succeeds_ret. repeat split; simpl; auto.
Qed.

Lemma va_word_kind kinds args :
  Forall2 has_kind (true :: kinds) args ->
  exists z args', args = VWord z :: args' /\ Forall2 has_kind kinds args'.
Proof. intros K. inversion K as [|k a ks l Hk Ka]; subst. destruct a; [eauto|done]. Qed.

Lemma va_string_kind kinds args :
  Forall2 has_kind (false :: kinds) args ->
  exists bs args', args = VStr bs :: args' /\ Forall2 has_kind kinds args'.
Proof. intros K. inversion K as [|k a ks l Hk Ka]; subst. destruct a; [done|eauto]. Qed.

Lemma succeeds_convert start f w p l format args written kinds format' kinds' :
  safe_convert f l format kinds = Some (format', kinds') -> Forall2 has_kind kinds args ->
  0 <= written ->
  succeeds (left_over format' kinds') (convert callback start f w p l format args written).
Proof.
  intros S0 K0 W0. revert S0 K0.
  unfold safe_convert, convert. destruct format as [|c rest]; [done|].
  assert (R : forall args w', Forall2 has_kind kinds' args -> 0 <= w' -> succeeds
    (left_over rest kinds') (mret (PState rest args w' false) : P _))
    by (intros; apply succeeds_ret; repeat split; simpl; auto).
  destruct (c =? chr "%").
  { intros [= <- <-] K. eapply succeeds_bind; [apply succeeds_emit|intros _ _; auto]. }
  destruct (c =? chr "s").
  { destruct kinds as [|[] kinds]; [done|done|]. intros [= <- <-] K.
    apply va_string_kind in K as (bs & args' & -> & K).
    apply (succeeds_bind (fun '(_, a) => a = args')); [by intros ct; exists (bs, args'), ct|].
    intros [string a] ->. eapply succeeds_bind; [apply succeeds_emit|intros _ _; auto]. }
  destruct (c =? chr "c").
  { destruct kinds as [|[] kinds]; [done| |done]. intros [= <- <-] K.
    apply va_word_kind in K as (z & args' & -> & K).
    apply (succeeds_bind (fun '(_, a) => a = args')); [by intros ct; exists (z, args'), ct|].
    intros [string a] ->. eapply succeeds_bind; [apply succeeds_emit|intros _ _; auto]. }
  destruct (is_int_specifier c); [|done]. destruct (Z.eqb_spec c (chr "o")) as [|No]; [done|].
  destruct (flag_hash f) eqn:Hh; [done|].
  case_bool_decide as Hl; [done|]. simpl.
  destruct kinds as [|[] kinds]; [done| |done]. intros [= <- <-] K.
  apply va_word_kind in K as (z & args' & -> & K).
  set (a0 := if c =? chr "p" then _ else _).
  destruct a0 as [x|] eqn:E.
  2:{ exfalso. subst a0. destruct (c =? chr "p"); [done|].
      destruct ((c =? chr "i") || (c =? chr "d")), l; done. }
  apply (succeeds_bind (fun '(_, a) => a = args')); [by intros ct; exists (z, args'), ct|].
  intros [z' a] ->. eapply succeeds_bind; [apply succeeds_print_int|intros n _; auto].
  - done.
  - case_match; [done|]. done.
  - case_match; apply (wrap_range 64); lia.
Qed.

Lemma succeeds_vcb_step format args written kinds format' kinds' :
  safe_step format kinds = Some (format', kinds') -> Forall2 has_kind kinds args ->
  0 <= written ->
  succeeds (left_over format' kinds') (vcb_step callback (PState format args written false)).
Proof.
  unfold safe_step. destruct format as [|c rest]; [done|]. intros E K W. cbn [vcb_step].
  destruct (negb (c =? chr "%")).
  { injection E as <- <-. by apply (succeeds_normal_print (c :: rest)). }
  case_bool_decide as Hp.
  { injection E as <- <-. by apply succeeds_normal_print. }
  unfold conversion. destruct (read_flags rest no_flags) as [f fmt1].
  destruct (read_number fmt1 0) as [w fmt2].
  case_bool_decide as Hs; [done|].
  apply (succeeds_bind (fun '(_, fmt, a) => fmt = fmt2 /\ a = args)).
  { destruct fmt2 as [|c' tl]; [by apply succeeds_ret|].
    destruct (Z.eqb_spec c' (chr "*")) as [->|]; [done|]. by apply succeeds_ret. }
  intros [[w' fmt] a] [-> ->]. destruct (read_precision fmt2) as [p fmt3].
  destruct (read_length fmt3) as [l fmt4]. by eapply succeeds_convert.
Qed.

Lemma succeeds_vcb_loop fuel : forall format args written kinds,
  fmt_safe fuel format kinds = true -> Forall2 has_kind kinds args -> 0 <= written ->
  succeeds (fun st => 0 <= ps_written st) (vcb_loop callback fuel (PState format args written false)).
Proof.
  induction fuel as [|fuel IH]; intros format args written kinds Hs K W.
  - destruct format; [by apply succeeds_ret|done].
  - destruct format as [|c rest]; [by apply succeeds_ret|]. cbn [fmt_safe] in Hs.
    destruct (safe_step (c :: rest) kinds) as [[format' kinds']|] eqn:E; [|done].
    cbn [vcb_loop ps_format].
    eapply succeeds_bind; [by eapply succeeds_vcb_step|].
    intros [fmt a w b] (Hf & Hb & Hw & Ka). simpl in *. subst. eauto.
Qed.

Lemma succeeds_vcbprintf format args kinds :
  fmt_safe (length format) format kinds = true -> Forall2 has_kind kinds args ->
  succeeds (fun r => -1 <= r <= INT_MAX) (vcbprintf callback (Some format) args).
Proof.
  intros Hs K. unfold vcbprintf.
  eapply succeeds_bind; [by eapply succeeds_vcb_loop|].
  intros st W. apply succeeds_ret. simpl in W. unfold INT_MAX in *. case_match eqn:E; lia.
Qed.

End Safe.
