(* ===== verification/Console.v ===== *)
(** * Console output, error reporting and keyboard input

    print.c, uefi/error.c, the keyboard functions of uefi/util.c, and the
    macros [EFIERR] and [efi_panic] of include/uefi.h. *)

From S2P Require Import Prelude Memory Firmware State CString Printf PrintfFacts.

(** 16-bit words of a byte string. *)
Fixpoint words (bs : list Z) : list Z :=
  match bs with
  | b0 :: b1 :: bs => le_num [b0; b1] :: words bs
  | _ => []
  end.

Section Console.
Context {E : Efi} {F : Firmware} {L : Layout} {K : Fuel}.

(** uefi/error.c: the table, with its terminator *)
Definition uefi_errors : list (Z * option (list Z)) :=
  [ (EFI_LOAD_ERROR, Some (str "LOAD_ERROR"));
    (EFI_INVALID_PARAMETER, Some (str "INVALID_PARAMETER"));
    (EFI_UNSUPPORTED, Some (str "UNSUPPORTED"));
    (EFI_BAD_BUFFER_SIZE, Some (str "BAD_BUFFER_SIZE"));
    (EFI_BUFFER_TOO_SMALL, Some (str "BUFFER_TOO_SMALL"));
    (EFI_NOT_READY, Some (str "NOT_READY"));
    (EFI_DEVICE_ERROR, Some (str "DEVICE_ERROR"));
    (EFI_WRITE_PROTECTED, Some (str "WRITE_PROTECTED"));
    (EFI_OUT_OF_RESOURCES, Some (str "OUT_OF_RESOURCES"));
    (EFI_VOLUME_CORRUPTED, Some (str "VOLUME_CORRUPTED"));
    (EFI_VOLUME_FULL, Some (str "VOLUME_FULL"));
    (EFI_NO_MEDIA, Some (str "NO_MEDIA"));
    (EFI_MEDIA_CHANGED, Some (str "MEDIA_CHANGED"));
    (EFI_NOT_FOUND, Some (str "NOT_FOUND"));
    (EFI_ACCESS_DENIED, Some (str "ACCESS_DENIED"));
    (EFI_NO_RESPONSE, Some (str "NO_RESPONSE"));
    (EFI_NO_MAPPING, Some (str "NO_MAPPING"));
    (EFI_TIMEOUT, Some (str "TIMEOUT"));
    (EFI_NOT_STARTED, Some (str "NOT_STARTED"));
    (EFI_ALREADY_STARTED, Some (str "ALREADY_STARTED"));
    (EFI_ABORTED, Some (str "ABORTED"));
    (EFI_ICMP_ERROR, Some (str "ICMP_ERROR"));
    (EFI_TFTP_ERROR, Some (str "TFTP_ERROR"));
    (EFI_PROTOCOL_ERROR, Some (str "PROTOCOL_ERROR"));
    (EFI_INCOMPATIBLE_VERSION, Some (str "INCOMPATIBLE_VERSION"));
    (EFI_SECURITY_VIOLATION, Some (str "SECURITY_VIOLATION"));
    (EFI_CRC_ERROR, Some (str "CRC_ERROR"));
    (EFI_END_OF_MEDIA, Some (str "END_OF_MEDIA"));
    (EFI_END_OF_FILE, Some (str "END_OF_FILE"));
    (EFI_INVALID_LANGUAGE, Some (str "INVALID_LANGUAGE"));
    (EFI_COMPROMISED_DATA, Some (str "COMPROMISED_DATA"));
    (EFI_IP_ADDRESS_CONFLICT, Some (str "IP_ADDRESS_CONFLICT"));
    (EFI_HTTP_ERROR, Some (str "HTTP_ERROR"));
    (0, None) ].

Fixpoint uefi_strerror_loop (errors : list (Z * option (list Z))) (status : Z) : list Z :=
  match errors with
  | (s, text) :: errors =>
      if s =? 0 then str "Unknown EFI error"
      else if s =? status then default [] text
      else uefi_strerror_loop errors status
  | [] => str "Unknown EFI error"
  end.

Definition uefi_strerror (status : Z) : list Z := uefi_strerror_loop uefi_errors status.

(** print.c.  [char] is signed, so a byte above 127 is sign-extended into the
    CHAR16. *)
Fixpoint efi_strlen_loop (fuel : nat) (a ret : Z) : M Z :=
  match fuel with
  | O => fun _ => NoFuel
  | S fuel =>
      c ← load16 a; if c =? 0 then mret ret else efi_strlen_loop fuel (a + 2) (ret + 1)
  end.

Definition efi_strlen (a : Z) : M Z :=
  n ← gets (fun s => size (mem s)); efi_strlen_loop (S n) a 0.

(** Strings the firmware or [efi_printf] read. *)
Definition read_string (a : Z) : M (list Z) := n ← strlen a; read_block a n.
Definition read_wstring (a : Z) : M (list Z) :=
  n ← efi_strlen a; bs ← read_block a (2 * n); mret (words bs).

Fixpoint efi_printn_loop (chars : list Z) (w : fwst) : Z * fwst :=
  match chars with
  | [] => (EFI_SUCCESS, w)
  | c :: chars =>
      if c =? 0 then (EFI_SUCCESS, w)
      else
        let '(st, w) := if c =? 10 then OutputString [13] w else (EFI_SUCCESS, w) in
        if (c =? 10) && EFI_ERROR st then (st, w)
        else
          let '(st, w) := OutputString [u16 (s8 c)] w in
          if EFI_ERROR st then (st, w) else efi_printn_loop chars w
  end.

Definition efi_printn (chars : list Z) (n : Z) (w : fwst) : Z * fwst :=
  efi_printn_loop (take (Z.to_nat n) chars) w.

Definition efi_print (chars : list Z) : M Z := firmware (efi_printn chars (zlen chars)).

Definition callback (string : list Z) (w : fwst) : Z * fwst :=
  let '(_, w) := efi_printn string (zlen string) w in (zlen string, w).

Definition efi_printf (format : list Z) (args : list va) : M Z := fun s =>
  match vcbprintf callback (Some format) args (fw s) with
  | POk r w | PDone r w => Ret r (set_fw w s)
  | PBad _ => Fault 0
  end.

(** uefi/util.c *)
Fixpoint uefi_key_wait_loop (fuel : nat) : M unit :=
  match fuel with
  | O => fun _ => NoFuel
  | S fuel =>
      '(st, _) ← firmware ReadKeyStroke;
      if st =? EFI_SUCCESS then skip else uefi_key_wait_loop fuel
  end.

Definition uefi_key_wait : M unit := uefi_key_wait_loop key_polls.

(** include/uefi.h: EFIERR prints the error, waits for a key and leaves the
    program through BootServices->Exit. *)
Definition EFIERR (file : list Z) (line : Z) (x : Z) : M unit :=
  if EFI_ERROR x then
    _ ← efi_printf (str "EFIERR %s @ %s:%d" ++ newline)
          [VStr (uefi_strerror x); VStr file; VWord line];
    _ ← uefi_key_wait;
    stop (Exited 1)
  else skip.

(** efi_panic prints and loops forever. *)
Definition efi_panic {A} (msg : list Z) : M A :=
  _ ← firmware (OutputString msg); stop (Panicked msg).

(** The CHAR16 string in a narrow literal [bs], NUL included: two characters at
    a time, up to a pair of zeros; [None] if it runs past the literal. *)
Fixpoint wide_units (bs : list Z) : option (list Z) :=
  match bs with
  | b0 :: b1 :: bs =>
      let u := le_num [b0; b1] in
      if u =? 0 then Some [] else us ← wide_units bs; Some (u :: us)
  | _ => None
  end.

(** efi_panic with a narrow literal, as in uefi/device-path.c *)
Definition efi_panic_narrow {A} (msg : list Z) : M A :=
  match wide_units (msg ++ [0]) with
  | Some units => efi_panic units
  | None => fault 0
  end.

Fixpoint uefi_read_keystroke_loop (fuel : nat) (key : Z) : M Z :=
  if negb (key =? 0) then mret key
  else
    match fuel with
    | O => fun _ => NoFuel
    | S fuel =>
        s ← firmware WaitForKey;
        _ ← EFIERR (str "uefi/util.c") 66 s;
        '(s, key) ← firmware ReadKeyStroke;
        _ ← EFIERR (str "uefi/util.c") 69 s;
        uefi_read_keystroke_loop fuel key
    end.

Definition uefi_read_keystroke : M Z :=
  key ← uefi_read_keystroke_loop key_polls 0; mret (s8 (Z.land key 255)).

(** ** What callers need *)

(** CHAR16 strings. *)
Definition wide_char (c : Z) : Prop := 0 < c < 2 ^ 16.

(** The CHAR16s of a string in memory. *)
Definition ucs2_bytes (cs : list Z) : list Z := concat (map (le_bytes 2) cs).

Lemma ucs2_bytes_length cs : zlen (ucs2_bytes cs) = 2 * zlen cs.
Proof.
  unfold ucs2_bytes. induction cs as [|c cs IH]; [done|]. simpl in *. lia.
Qed.

Lemma are_bytes_ucs2 cs : are_bytes (ucs2_bytes cs).
Proof.
  unfold ucs2_bytes. induction cs as [|c cs IH]; [constructor|]. cbn [map concat].
  apply Forall_app_2; auto with bytes.
Qed.

(** [efi_strlen] counts the CHAR16s of a terminated string. *)
Lemma efi_strlen_ucs2 cs : forall fuel s a r,
  read_bytes (mem s) a (length (ucs2_bytes cs ++ [0; 0])) = Some (ucs2_bytes cs ++ [0; 0]) ->
  Forall wide_char cs -> (length cs < fuel)%nat ->
  efi_strlen_loop fuel a r s = Ret (r + zlen cs) s.
Proof.
  induction cs as [|c cs IH]; intros [|fuel] s a r R A Hf; cbn [length] in *; try lia;
    unfold ucs2_bytes in R; cbn [map concat le_bytes app length] in R;
    apply read_bytes_cons in R as (? & ? & [= <- <-] & R0 & R);
    apply read_bytes_cons in R as (? & ? & [= <- <-] & R1 & R);
    cbn [efi_strlen_loop]; (erewrite bind_ret;
      [|apply load_n_ret; unfold load; cbn [read_bytes]; rewrite R0; cbv [mbind option_bind];
        rewrite R1; reflexivity]); cbn [fmap option_fmap option_map le_num].
  - change (_ =? 0) with true. unfold mret, M_ret. f_equal. lia.
  - apply Forall_cons in A as [A0 A1]. unfold wide_char in A0. change (2 ^ 16) with 65536 in A0.
    unfold wrap. rewrite (proj2 (Z.eqb_neq _ 0)) by (change (2 ^ 8) with 256; dlia).
    rewrite IH; [f_equal; lia| |done|lia].
    replace (a + 2) with (a + 1 + 1) by lia. exact R.
Qed.

Lemma efi_strlen_ret s a cs n :
  holds (mem s) a n (ucs2_bytes cs ++ [0; 0]) -> Forall wide_char cs -> 0 <= n ->
  efi_strlen a s = Ret (zlen cs) s.
Proof.
  intros Hh W Hn. pose proof (holds_length _ _ _ _ Hh Hn) as Hl. destruct Hh as [R _].
  rewrite length_app in Hl. pose proof (ucs2_bytes_length cs) as Lu. cbn [length] in Hl.
  assert (Sz : (Z.to_nat n <= size (mem s))%nat)
    by (apply (mapped_size _ a), read_bytes_mapped; eauto).
  unfold efi_strlen. erewrite bind_ret by reflexivity.
  apply (efi_strlen_ucs2 cs (S (size (mem s))) s a 0); [|done|lia].
  replace (length (ucs2_bytes cs ++ [0; 0])) with (Z.to_nat n); [exact R|].
  rewrite length_app. cbn [length]. lia.
Qed.


Lemma callback_accepts bs w : (callback bs w).1 = zlen bs.
Proof. unfold callback. by destruct (efi_printn bs (zlen bs) w). Qed.

(** The firmware in [w] is asked for nothing but console output. *)
Definition printed : relation fwst := rtc (fun w w' => exists cs, w' = (OutputString cs w).2).

Lemma printed_once cs w : printed w (OutputString cs w).2.
Proof. apply rtc_once. eauto. Qed.

Lemma efi_printn_loop_printed cs : forall w, printed w (efi_printn_loop cs w).2.
Proof.
  induction cs as [|c cs IH]; intros w; cbn [efi_printn_loop]; [done|].
  destruct (c =? 0); [done|].
  assert (Last : forall w, printed w (let '(st, w) := OutputString [u16 (s8 c)] w in
    if EFI_ERROR st then (st, w) else efi_printn_loop cs w).2).
  { intros w1. pose proof (printed_once [u16 (s8 c)] w1) as P.
    destruct (OutputString [u16 (s8 c)] w1) as [st w2]. destruct (EFI_ERROR st); [done|].
    etrans; [exact P|apply IH]. }
  destruct (c =? 10); [|apply Last].
  pose proof (printed_once [13] w) as P. destruct (OutputString [13] w) as [st w1].
  cbn [andb]. destruct (EFI_ERROR st); [done|]. etrans; [exact P|apply Last].
Qed.

Lemma callback_printed bs w : printed w (callback bs w).2.
Proof.
  unfold callback, efi_printn.
  pose proof (efi_printn_loop_printed (take (Z.to_nat (zlen bs)) bs) w) as P.
  by destruct (efi_printn_loop _ w).
Qed.

Lemma efi_printf_ret format args kinds s :
  fmt_safe (length format) format kinds = true -> Forall2 has_kind kinds args ->
  exists r w, efi_printf format args s = Ret r (set_fw w s) /\ printed (fw s) w /\ -1 <= r <= INT_MAX.
Proof.
  intros Hs Hk.
  destruct (succeeds_vcbprintf callback callback_accepts printed callback_printed format args kinds
    Hs Hk (fw s)) as (r & w & H & P & B).
  exists r, w. unfold efi_printf. by rewrite H.
Qed.

(** Printing changes nothing but the firmware state. *)
Lemma efi_printf_bind {A} format args kinds (k : Z -> M A) s :
  fmt_safe (length format) format kinds = true -> Forall2 has_kind kinds args ->
  exists r w, (efi_printf format args ≫= k) s = k r (set_fw w s).
Proof.
  intros Hs Hk. destruct (efi_printf_ret format args kinds s Hs Hk) as (r & w & H & _).
  exists r, w. by apply bind_ret.
Qed.

Lemma efi_printf_prints {A} format args kinds (k : Z -> M A) s :
  fmt_safe (length format) format kinds = true -> Forall2 has_kind kinds args ->
  exists r w, printed (fw s) w /\ (efi_printf format args ≫= k) s = k r (set_fw w s).
Proof.
  intros Hs Hk. destruct (efi_printf_ret format args kinds s Hs Hk) as (r & w & H & P & _).
  exists r, w. split; [done|]. by apply bind_ret.
Qed.

Lemma EFIERR_ok file line x s : EFI_ERROR x = false -> EFIERR file line x s = Ret tt s.
Proof. intros H. unfold EFIERR. by rewrite H. Qed.

Lemma uefi_key_wait_loop_ends n : forall s,
  match uefi_key_wait_loop n s with
  | Ret _ s' => exists w, s' = set_fw w s
  | Halt _ _ | Fault _ => False
  | NoFuel => True
  end.
Proof.
  induction n as [|n IH]; intros s; [done|]. cbn [uefi_key_wait_loop].
  unfold mbind, M_bind, firmware. destruct (ReadKeyStroke (fw s)) as [[st c] w] eqn:R.
  destruct (st =? EFI_SUCCESS); [by exists w|].
  specialize (IH (set_fw w s)). destruct (uefi_key_wait_loop n (set_fw w s)); done.
Qed.

(** A failing EFIERR never returns: the program exits with code 1, or still
    waits for the key. *)
Lemma EFIERR_fails file line x s :
  EFI_ERROR x = true ->
  EFIERR file line x s = NoFuel \/ exists w, EFIERR file line x s = Halt (Exited 1) (set_fw w s).
Proof.
  intros H. unfold EFIERR. rewrite H.
  destruct (efi_printf_bind (str "EFIERR %s @ %s:%d" ++ newline)
    [VStr (uefi_strerror x); VStr file; VWord line] [false; false; true]
    (fun _ => _ ← uefi_key_wait; stop (A := unit) (Exited 1)) s) as (r & w & ->); [done| |].
  { repeat constructor. }
  pose proof (uefi_key_wait_loop_ends key_polls (set_fw w s)) as Wt.
  unfold uefi_key_wait, mbind, M_bind.
  destruct (uefi_key_wait_loop _ _) as [[] s'| | |]; try done; auto.
  destruct Wt as [w' ->]. right. by exists w'.
Qed.

End Console.
