(* ===== verification/Alloc.v ===== *)
(** * Memory allocation

    The allocation services as effects on the program's memory, and lib/stdlib
    ([malloc], [free]) and [uefi_alloc_pages] of uefi/util.c on top of them. *)

From S2P Require Import Prelude Memory Firmware State CString Printf PrintfFacts Console.

Section Alloc.
Context {E : Efi} {F : Firmware} {L : Layout} {K : Fuel}.

(** BootServices->AllocatePages(AllocateAnyPages, ...) and AllocatePool: the
    status and the value stored through the pointer argument.  Storage appears
    only on success; [pool] remembers the sizes of pool blocks. *)
Definition boot_AllocatePages (ty pages : Z) : M (Z * Z) := fun s =>
  let '(st, a, c, w) := AllocatePages ty pages (mem s) (fw s) in
  let s := set_fw w s in
  if EFI_ERROR st then Ret (st, a) s
  else Ret (st, a) (set_mem (write_bytes (mem s) a (bytes_at c (4096 * pages))) s).

Definition boot_AllocatePool (ty size : Z) : M (Z * Z) := fun s =>
  let '(st, a, c, w) := AllocatePool ty size (mem s) (fw s) in
  let s := set_fw w s in
  if EFI_ERROR st then Ret (st, a) s
  else Ret (st, a) (set_pool (<[a := size]> (pool s))
                     (set_mem (write_bytes (mem s) a (bytes_at c size)) s)).

Definition boot_FreePool (p : Z) : M Z := fun s =>
  let '(st, w) := FreePool p (fw s) in
  let s := set_fw w s in
  match pool s !! p with
  | Some n =>
      if EFI_ERROR st then Ret st s
      else Ret st (set_pool (delete p (pool s))
                    (set_mem (clear_bytes (mem s) p (Z.to_nat n)) s))
  | None => Ret st s
  end.

(** lib/stdlib/malloc.c *)
Definition malloc (size : Z) : M Z :=
  '(s, pointer) ← boot_AllocatePool EfiLoaderData size;
  _ ← EFIERR (str "lib/stdlib/malloc.c") 8 s;
  mret pointer.

(** lib/stdlib/free.c *)
Definition free (pointer : Z) : M unit :=
  s ← boot_FreePool pointer;
  EFIERR (str "lib/stdlib/free.c") 6 s.

(** uefi/util.c *)
Definition uefi_alloc_pages (pages : Z) : M Z :=
  '(status, addr) ← boot_AllocatePages EfiLoaderData pages;
  _ ← EFIERR (str "uefi/util.c") 42 status;
  _ ← memset addr 0 (u64 (Z.shiftl pages 12));
  mret addr.

(** A page of zeros. *)
Definition zero_page : list Z := replicate (Z.to_nat 4096) 0.

(** The firmware in state [w] can hand out [k] more pages to a program whose
    memory has the addresses [D]. *)
Fixpoint can_alloc (k : nat) (D : gset Z) (w : fwst) : Prop :=
  match k with
  | O => True
  | S k =>
      forall m st a c w', dom m = D -> AllocatePages EfiLoaderData 1 m w = (st, a, c, w') ->
      EFI_ERROR st = false /\
      can_alloc k (D ∪ dom (write_bytes ∅ a zero_page)) w'
  end.

(** What the page table code needs of the firmware: pages that can still be
    allocated by a program whose memory has the addresses [D].  [can_alloc] is
    the weakest such resource; a client that uses other services in between
    chooses a stronger one. *)
Class PageSupply := {
  supply : nat -> gset Z -> fwst -> Prop;
  supply_less k D w : supply (S k) D w -> supply k D w;
  supply_page k D w m st a c w' :
    supply (S k) D w -> dom m = D -> AllocatePages EfiLoaderData 1 m w = (st, a, c, w') ->
    EFI_ERROR st = false /\ supply k (D ∪ dom (write_bytes ∅ a zero_page)) w';
}.

(** ** Facts *)

Lemma can_alloc_less k : forall D w, can_alloc (S k) D w -> can_alloc k D w.
Proof.
  induction k as [|k IH]; intros D w H; [done|].
  intros m st a c w' Hm A. destruct (H m st a c w' Hm A) as [Hs H']. split; [done|].
  by apply IH.
Qed.

Definition can_alloc_supply : PageSupply.
Proof.
  refine {| supply := can_alloc; supply_less := can_alloc_less |}.
  intros k D w m st a c w' CA. apply CA.
Defined.

Lemma dom_write_bytes m a bs :
  dom (write_bytes m a bs) = dom m ∪ dom (write_bytes ∅ a (replicate (length bs) 0)).
Proof.
  apply set_eq. intros x. rewrite elem_of_union, !elem_of_dom, !lookup_write_bytes.
  rewrite length_replicate, lookup_empty.
  case_decide.
  - split; [right|intros _]; apply lookup_lt_is_Some; rewrite ?length_replicate; lia.
  - split; [by left|]. intros [H'|[? [=]]]. done.
Qed.

Lemma dom_write_mapped m a bs : mapped m a (zlen bs) -> dom (write_bytes m a bs) = dom m.
Proof.
  intros Mp. apply set_eq. intros x. rewrite !elem_of_dom, lookup_write_bytes.
  case_decide; [|done]. split; intros _; [by apply Mp|]. apply lookup_lt_is_Some. lia.
Qed.

Lemma uefi_alloc_pages_ret s pages st a c w' :
  AllocatePages EfiLoaderData pages (mem s) (fw s) = (st, a, c, w') ->
  EFI_ERROR st = false -> 0 <= pages < 2 ^ 52 ->
  uefi_alloc_pages pages s
  = Ret a (set_fw w' (set_mem
      (write_bytes (mem s) a (replicate (Z.to_nat (4096 * pages)) 0)) s)).
Proof.
  intros A St Hp. unfold uefi_alloc_pages.
  assert (E1 : boot_AllocatePages EfiLoaderData pages s
    = Ret (st, a) (set_mem (write_bytes (mem s) a (bytes_at c (4096 * pages)))
                     (set_fw w' s))).
  { unfold boot_AllocatePages. rewrite A, St. done. }
  run_step E1. run_step (EFIERR_ok (str "uefi/util.c") 42 _
    (set_mem (write_bytes (mem s) a (bytes_at c (4096 * pages))) (set_fw w' s)) St).
  assert (Sz : u64 (Z.shiftl pages 12) = 4096 * pages).
  { rewrite Z.shiftl_mul_pow2, Z.mul_comm by lia. apply wrap_small. lia. }
  rewrite Sz. erewrite bind_ret.
  2:{ apply memset_ret; [lia|]. simpl.
      intros x Hx. apply mapped_write_self. rewrite length_bytes_at; lia. }
  unfold mret, M_ret. f_equal. destruct s. unfold set_mem, set_fw. simpl. f_equal.
  change (u8 0) with 0. apply write_bytes_twice.
  rewrite length_replicate. pose proof (length_bytes_at c (4096 * pages) ltac:(lia)). lia.
Qed.

Lemma boot_AllocatePool_ret s n st a c w :
  AllocatePool EfiLoaderData n (mem s) (fw s) = (st, a, c, w) -> EFI_ERROR st = false ->
  boot_AllocatePool EfiLoaderData n s
  = Ret (st, a) (set_pool (<[a := n]> (pool s))
      (set_mem (write_bytes (mem s) a (bytes_at c n)) (set_fw w s))).
Proof. intros A St. unfold boot_AllocatePool. by rewrite A, St. Qed.

Lemma boot_AllocatePool_fw ty n s : exists r s', boot_AllocatePool ty n s = Ret r s'
  /\ fw s' = (AllocatePool ty n (mem s) (fw s)).2.
Proof.
  unfold boot_AllocatePool. destruct (AllocatePool _ _ _ _) as [[[st a] c] w].
  destruct (EFI_ERROR st); eauto.
Qed.

Lemma length_zero_page : zlen zero_page = 4096.
Proof. unfold zero_page. rewrite length_replicate. lia. Qed.

Lemma lookup_zero_page (i : nat) : Z.of_nat i < 4096 -> zero_page !! i = Some 0.
Proof. intros. apply lookup_replicate_2. lia. Qed.

Lemma uefi_alloc_page_ret s st a c w' :
  AllocatePages EfiLoaderData 1 (mem s) (fw s) = (st, a, c, w') -> EFI_ERROR st = false ->
  uefi_alloc_pages 1 s = Ret a (set_fw w' (set_mem (write_bytes (mem s) a zero_page) s)).
Proof. intros A St. by rewrite (uefi_alloc_pages_ret s 1 st a c w' A St). Qed.

Lemma dom_write_page m a bs :
  zlen bs = 4096 -> dom (write_bytes m a bs) = dom m ∪ dom (write_bytes ∅ a zero_page).
Proof.
  intros Hl. rewrite dom_write_bytes. unfold zero_page.
  by replace (length bs) with (Z.to_nat 4096) by lia.
Qed.

Lemma uefi_alloc_pages_fails s pages st a c w' :
  AllocatePages EfiLoaderData pages (mem s) (fw s) = (st, a, c, w') ->
  EFI_ERROR st = true ->
  uefi_alloc_pages pages s = NoFuel \/
  exists w, uefi_alloc_pages pages s = Halt (Exited 1) (set_fw w s).
Proof.
  intros A St. unfold uefi_alloc_pages.
  assert (E1 : boot_AllocatePages EfiLoaderData pages s = Ret (st, a) (set_fw w' s)).
  { unfold boot_AllocatePages. by rewrite A, St. }
  run_step E1.
  destruct (EFIERR_fails (str "uefi/util.c") 42 st (set_fw w' s) St) as [H|[w H]].
  - left. by apply bind_nofuel.
  - right. exists w. by erewrite bind_halt.
Qed.

End Alloc.

#[global] Opaque zero_page.
