(* ===== verification/DevicePath.v ===== *)
(** * uefi/device-path.c, and the GUIDs and names of uefi/util.c

    A device path is a sequence of nodes in memory: a type, a subtype, the
    length of the node (2 bytes, the header included) and data, ended by a node
    of type [DEVICE_PATH_END]. *)

From S2P Require Import Prelude Memory Firmware State CString Printf PrintfFacts Console Alloc.

(** efi_device_path_protocol *)
Definition node_Type (node : Z) : Z := node.
Definition node_SubType (node : Z) : Z := node + 1.
Definition node_Length (node : Z) : Z := node + 2.
Definition sizeof_devpath : Z := 4.

(** uefi_filepath_device_path of include/uefi/driver.h: a header and CHAR16s *)
Definition path_name (file_path i : Z) : Z := file_path + sizeof_devpath + 2 * i.

Section DevicePath.
Context {E : Efi} {F : Firmware} {L : Layout} {K : Fuel}.

(** static const empty_devpath, whose object is [a_empty_devpath] *)
Definition empty_devpath : list Z :=
  [DEVICE_PATH_END; DEVICE_PATH_ENTIRE_END; sizeof_devpath; 0].

Definition uefi_devpath_get_string (path : Z) : M Z :=
  '(status, ptt) ← firmware (LocateProtocol DevicePathToTextProtocol);
  if EFI_ERROR status then mret 0 else publishing (ConvertDevicePathToText ptt path).

Definition uefi_devpath_print (path : Z) : M unit :=
  a ← uefi_devpath_get_string path;
  text ← read_wstring a;
  _ ← firmware (OutputString text);
  skip.

Definition uefi_devpath_set_node_length (node length : Z) : M unit :=
  if (node =? 0) || (length <? sizeof_devpath) then efi_panic_narrow (str "%s: error")
  else store16 (node_Length node) (u16 length).

Definition uefi_devpath_get_node_length (node : Z) : M Z := load16 (node_Length node).

Definition uefi_devpath_get_next (node : Z) : M Z :=
  n ← uefi_devpath_get_node_length node; mret (u64 (node + n)).

Definition uefi_devpath_set_end (node : Z) : M unit :=
  if node =? 0 then efi_panic_narrow (str "%s: error")
  else _ ← memcpy node a_empty_devpath sizeof_devpath; skip.

Definition uefi_devpath_from_device_handle (h : Z) : M Z :=
  '(status, protocol) ← firmware (HandleProtocol h DevicePathProtocol);
  _ ← EFIERR (str "uefi/device-path.c") 53 status;
  mret protocol.

Definition uefi_devpath_from_file_handle (h : Z) : M Z :=
  '(status, protocol) ← firmware (OpenProtocol h LoadedImageProtocol h
                                    EFI_OPEN_PROTOCOL_BY_HANDLE_PROTOCOL);
  if EFI_ERROR status then
    _ ← efi_printf (str "uefi_devpath_from_file_handle: open LoadedImageProtocol status %zu"
                    ++ newline) [VWord status];
    stop Hung
  else
    device ← gets (fun s => DeviceHandle protocol (fw s));
    '(status, devpath) ← firmware (OpenProtocol device DevicePathProtocol h
                                     EFI_OPEN_PROTOCOL_BY_HANDLE_PROTOCOL);
    if EFI_ERROR status then
      _ ← efi_printf (str "uefi_devpath_from_file_handle: open DevicePathProtocol status %zu"
                      ++ newline) [VWord status];
      stop Hung
    else mret devpath.

Definition uefi_devpath_valid (device : Z) : bool := negb (device =? 0).

Definition uefi_devpath_is_end (node : Z) : M bool :=
  if node =? 0 then efi_panic_narrow (str "%s: error")
  else
    type ← load8 (node_Type node);
    if type =? DEVICE_PATH_END then
      subtype ← load8 (node_SubType node); mret (subtype =? DEVICE_PATH_ENTIRE_END)
    else mret false.

(** while(!uefi_devpath_is_end(node)) node = uefi_devpath_get_next(node): every
    round of a well-formed path moves to an address with more of the path
    behind it; with a node of length zero the loop does not end. *)
Fixpoint devpath_end_loop (fuel : nat) (node : Z) : M Z :=
  match fuel with
  | O => fun _ => NoFuel
  | S fuel =>
      ended ← uefi_devpath_is_end node;
      if (ended : bool) then mret node
      else node ← uefi_devpath_get_next node; devpath_end_loop fuel node
  end.

Definition uefi_devpath_size (device : Z) : M Z :=
  n ← gets (fun s => size (mem s));
  node ← devpath_end_loop (S n) device;
  length ← uefi_devpath_get_node_length node;
  mret (u64 (u64 (node - device) + length)).

Definition uefi_devpath_append (first second : Z) : M Z :=
  _ ← (if negb (uefi_devpath_valid first) || negb (uefi_devpath_valid second) then
         efi_panic_narrow (str "%s: invalid device paths")
       else skip);
  first_size ← uefi_devpath_size first;
  second_size ← uefi_devpath_size second;
  '(status, devpath) ← boot_AllocatePool EfiLoaderData (u64 (first_size + second_size));
  _ ← EFIERR (str "uefi/device-path.c") 152 status;
  let empty_node := u64 (devpath + first_size - sizeof_devpath) in
  _ ← memcpy devpath first first_size;
  _ ← memcpy empty_node second second_size;
  mret devpath.

(** [path_name[size]] is indexed by CHAR16s although [size] counts bytes. *)
Definition uefi_devpath_from_path (device filename : Z) : M Z :=
  n ← efi_strlen filename;
  let size := u64 ((n + 1) * 2) in
  '(status, file_devpath) ← boot_AllocatePool EfiLoaderData
      (u64 (size + sizeof_devpath + sizeof_devpath));
  _ ← EFIERR (str "uefi/device-path.c") 87 status;
  if negb (file_devpath =? 0) then
    _ ← store8 (node_Type file_devpath) DEVICE_PATH_MEDIA;
    _ ← store8 (node_SubType file_devpath) DEVICE_PATH_MEDIA;
    _ ← memcpy (path_name file_devpath 0) filename size;
    _ ← store16 (path_name file_devpath size) 0;
    _ ← uefi_devpath_set_node_length file_devpath (u64 (size + sizeof_devpath));
    next ← uefi_devpath_get_next file_devpath;
    _ ← uefi_devpath_set_end next;
    devpath ← (if negb (device =? 0) then uefi_devpath_from_file_handle device else mret 0);
    uefi_devpath_append devpath file_devpath
  else mret 0.

(** ** uefi/util.c *)

(** efi_guid, as [uefi_guid_compare] reads it *)
Definition guid_data1 (a : Z) : Z := a.
Definition guid_data2 (a : Z) : Z := a + 4.
Definition guid_data3 (a : Z) : Z := a + 6.
Definition guid_data4 (a : Z) : Z := a + 8.

Definition uefi_guid_compare (a b : Z) : M Z :=
  let equal (load : Z -> M Z) (field : Z -> Z) : M bool :=
    x ← load (field a); y ← load (field b); mret (x =? y) in
  e1 ← equal load32 guid_data1;
  if negb e1 then mret 1
  else
    e2 ← equal load16 guid_data2;
    if negb e2 then mret 1
    else
      e3 ← equal load16 guid_data3;
      if negb e3 then mret 1
      else e4 ← equal load64 guid_data4; mret (if (e4 : bool) then 0 else 1).

(** The literals are the objects [a_null_path] (22 bytes) and [a_null_string];
    the sizes are those of L"<null_path>" and L"<null_string>", 24 and 28
    bytes. *)
Definition handle_fallback (line size literal : Z) : M Z :=
  '(status, err) ← boot_AllocatePool EfiLoaderData size;
  _ ← EFIERR (str "uefi/util.c") line status;
  _ ← memcpy err literal size;
  mret err.

Definition uefi_handle_get_string (h : Z) : M Z :=
  '(status, path) ← firmware (HandleProtocol h DevicePathProtocol);
  if EFI_ERROR status then handle_fallback 12 24 a_null_path
  else
    string ← uefi_devpath_get_string path;
    if string =? 0 then handle_fallback 23 28 a_null_string else mret string.

End DevicePath.
