(* ===== verification/DevicePathFacts.v ===== *)
(** * Device paths as lists of nodes

    The contents of a device path, and what its length and concatenation are. *)

From S2P Require Import Prelude Memory Firmware State CString Printf PrintfFacts Console Alloc.
From S2P Require Import DevicePath.

Record devnode := Node { ntype : Z; nsubtype : Z; ndata : list Z }.

#[export] Instance devnode_eq_dec : EqDecision devnode.
Proof. solve_decision. Defined.

Definition node_size (n : devnode) : Z := 4 + zlen (ndata n).

Definition node_bytes (n : devnode) : list Z :=
  [ntype n; nsubtype n] ++ le_bytes 2 (node_size n) ++ ndata n.

Section Spec.
Context {E : Efi}.

(** A node that is not the end. *)
Record node_ok (n : devnode) : Prop := {
  nk_bytes : is_byte (ntype n) /\ is_byte (nsubtype n) /\ are_bytes (ndata n);
  nk_end : ~ (ntype n = DEVICE_PATH_END /\ nsubtype n = DEVICE_PATH_ENTIRE_END);
  nk_size : node_size n < 2 ^ 16;
}.

Definition nodes_bytes (l : list devnode) : list Z := concat (map node_bytes l).
Definition path_bytes (l : list devnode) : list Z := nodes_bytes l ++ empty_devpath.

(** Reading a path back, [fuel] nodes at most. *)
Fixpoint path_nodes (fuel : nat) (bs : list Z) : option (list devnode) :=
  match fuel, bs with
  | S fuel, t :: st :: l0 :: l1 :: rest =>
      if bool_decide (t = DEVICE_PATH_END /\ st = DEVICE_PATH_ENTIRE_END) then Some []
      else
        let n := Z.to_nat (le_num [l0; l1] - 4) in
        if le_num [l0; l1] <? 4 then None
        else l ← path_nodes fuel (drop n rest); Some (Node t st (take n rest) :: l)
  | _, _ => None
  end.

Lemma node_bytes_length n : zlen (node_bytes n) = node_size n.
Proof. unfold node_bytes, node_size. rewrite !length_app, length_le_bytes. cbn [length]. lia. Qed.

Lemma path_bytes_cons n l : path_bytes (n :: l) = node_bytes n ++ path_bytes l.
Proof. unfold path_bytes, nodes_bytes. cbn [map concat]. by rewrite app_assoc. Qed.

Lemma path_bytes_length l : zlen (path_bytes l) = zlen (nodes_bytes l) + 4.
Proof. unfold path_bytes. rewrite length_app. cbn [length empty_devpath]. lia. Qed.

Lemma node_length_field n : node_ok n -> le_num (le_bytes 2 (node_size n)) = node_size n.
Proof.
  intros [_ _ Sz]. rewrite le_num_bytes. apply wrap_small. unfold node_size in *. simpl. lia.
Qed.

(** Decoding reads back what was encoded. *)
Lemma path_nodes_bytes l fuel :
  Forall node_ok l -> (length l < fuel)%nat -> path_nodes fuel (path_bytes l) = Some l.
Proof.
  revert fuel. induction l as [|n l IH]; intros [|fuel] Ok Hf; cbn [length] in Hf; try lia.
  - cbn [path_nodes path_bytes nodes_bytes map concat app empty_devpath].
    by rewrite bool_decide_true.
  - apply Forall_cons in Ok as [On Ok]. rewrite path_bytes_cons.
    destruct n as [t st data]. pose proof (node_length_field _ On) as Lf.
    unfold node_bytes. cbn [ntype nsubtype ndata] in *.
    destruct (le_bytes 2 (node_size (Node t st data))) as [|l0 [|l1 [|] ] ] eqn:El; try done.
    cbn [app path_nodes].
    rewrite bool_decide_false by apply (nk_end _ On). rewrite Lf.
    unfold node_size. cbn [ndata]. destruct (Z.ltb_spec (4 + zlen data) 4); [lia|].
    replace (Z.to_nat (4 + zlen data - 4)) with (length data) by lia.
    rewrite drop_app_length, take_app_length. rewrite IH by (done || lia). done.
Qed.

End Spec.

Section Facts.
Context {E : Efi} {F : Firmware} {L : Layout} {K : Fuel} {EL : EfiLaws E}.

Lemma are_bytes_node n : node_ok n -> are_bytes (node_bytes n).
Proof.
  intros [(B1 & B2 & B3) _ _]. unfold node_bytes. constructor; [done|]. constructor; [done|].
  apply Forall_app_2; [apply are_bytes_le_bytes|done].
Qed.

Lemma are_bytes_end : are_bytes empty_devpath.
Proof.
  destruct devpath_types as (B1 & B2 & _ & _).
  repeat apply Forall_cons_2; try done; unfold is_byte, sizeof_devpath; lia.
Qed.

(** The first node of a path. *)
Lemma node_fields s a n rest :
  holds (mem s) a (zlen (node_bytes n ++ rest)) (node_bytes n ++ rest) -> node_ok n ->
  load8 (node_Type a) s = Ret (ntype n) s /\ load8 (node_SubType a) s = Ret (nsubtype n) s
  /\ load16 (node_Length a) s = Ret (node_size n) s.
Proof.
  intros Hh On. pose proof (fun i b => holds_byte _ _ _ _ i b Hh) as By.
  split; [|split].
  - apply load8_read. unfold node_Type. rewrite <-(Z.add_0_r a). by apply By.
  - apply load8_read. by apply By.
  - rewrite <-(node_length_field n On). apply load_n_ret. unfold load, node_Length.
    destruct (holds_mid (mem s) a (zlen (node_bytes n ++ rest)) [ntype n; nsubtype n]
      (le_bytes 2 (node_size n)) (ndata n ++ rest) (a + 2)) as [R _]; [|cbn [length]; lia|].
    { unfold node_bytes in Hh. rewrite <-!app_assoc in Hh. exact Hh. }
    rewrite length_le_bytes, Nat2Z.id in R. by rewrite R.
Qed.

Lemma end_fields s a rest :
  holds (mem s) a (zlen (empty_devpath ++ rest)) (empty_devpath ++ rest) ->
  load8 (node_Type a) s = Ret DEVICE_PATH_END s
  /\ load8 (node_SubType a) s = Ret DEVICE_PATH_ENTIRE_END s
  /\ load16 (node_Length a) s = Ret 4 s.
Proof.
  intros Hh. pose proof (fun i b => holds_byte _ _ _ _ i b Hh) as By. split; [|split].
  - apply load8_read. unfold node_Type. rewrite <-(Z.add_0_r a). by apply By.
  - apply load8_read. by apply By.
  - apply load_n_ret. unfold load, node_Length.
    destruct (holds_mid _ _ _ [DEVICE_PATH_END; DEVICE_PATH_ENTIRE_END] [4; 0] rest (a + 2) Hh)
      as [R _]; [cbn [length]; lia|]. cbn [length] in R. rewrite Nat2Z.id in R. by rewrite R.
Qed.

Lemma devpath_end_loop_ret l : forall fuel a s rest,
  holds (mem s) a (zlen (path_bytes l ++ rest)) (path_bytes l ++ rest) -> Forall node_ok l ->
  0 < a -> a + zlen (path_bytes l) < 2 ^ 64 -> (length l < fuel)%nat ->
  devpath_end_loop fuel a s = Ret (a + zlen (nodes_bytes l)) s.
Proof.
  induction l as [|n l IH]; intros [|fuel] a s rest Hh Ok Ha Hm Hf; cbn [length] in Hf; try lia;
    cbn [devpath_end_loop]; unfold uefi_devpath_is_end; destruct (Z.eqb_spec a 0); try lia.
  - destruct (end_fields s a rest Hh) as (T & St & _). rewrite bind_assoc. run_step T.
    rewrite Z.eqb_refl. rewrite bind_assoc. run_step St. rewrite Z.eqb_refl.
    erewrite bind_ret by reflexivity. cbn. f_equal. lia.
  - apply Forall_cons in Ok as [On Ok]. rewrite path_bytes_cons in *. rewrite <-app_assoc in Hh.
    rewrite length_app in Hm.
    destruct (node_fields s a n _ Hh On) as (T & St & Ln).
    assert (Ne : (if ntype n =? DEVICE_PATH_END
      then subtype ← load8 (node_SubType a); mret (subtype =? DEVICE_PATH_ENTIRE_END)
      else mret false) s = Ret false s).
    { destruct (Z.eqb_spec (ntype n) DEVICE_PATH_END) as [Et|]; [|done]. run_step St.
      destruct (Z.eqb_spec (nsubtype n) DEVICE_PATH_ENTIRE_END) as [Es|]; [|done].
      exfalso. by apply (nk_end _ On). }
    rewrite bind_assoc. run_step T. run_step Ne.
    unfold uefi_devpath_get_next, uefi_devpath_get_node_length.
    rewrite bind_assoc. run_step Ln. erewrite bind_ret by reflexivity. cbv beta.
    pose proof (node_bytes_length n) as Nl. rewrite wrap_small by (unfold node_size in *; lia).
    rewrite (IH fuel (a + node_size n) s rest); try done; try lia.
    + unfold nodes_bytes. cbn [map concat]. rewrite length_app. f_equal. lia.
    + pose proof (holds_mid (mem s) a (zlen (node_bytes n ++ path_bytes l ++ rest)) (node_bytes n)
        (path_bytes l ++ rest) [] (a + node_size n)) as Hm'.
      rewrite app_nil_r in Hm'. apply Hm'; [exact Hh|lia].
Qed.

(** The device path [l] at [a]. *)
Record path_at (m : memory) (a : Z) (l : list devnode) : Prop := {
  pa_holds : holds m a (zlen (path_bytes l)) (path_bytes l);
  pa_ok : Forall node_ok l;
  pa_range : 0 < a /\ a + zlen (path_bytes l) < 2 ^ 64;
}.

Lemma nodes_bytes_length l : (length l <= length (nodes_bytes l))%nat.
Proof.
  induction l as [|n l IH]; [done|]. unfold nodes_bytes in *. cbn [map concat length].
  rewrite length_app. pose proof (node_bytes_length n). unfold node_size in *. lia.
Qed.

Lemma uefi_devpath_size_ret s a l :
  path_at (mem s) a l -> uefi_devpath_size a s = Ret (zlen (path_bytes l)) s.
Proof.
  intros [Hh Ok [A0 A1] ]. unfold uefi_devpath_size.
  assert (Sz : (length (path_bytes l) <= size (mem s))%nat)
    by (apply (mapped_size _ a), (holds_mapped _ _ _ _ Hh); lia).
  pose proof (path_bytes_length l) as Lp. pose proof (nodes_bytes_length l).
  erewrite bind_ret by reflexivity. cbv beta.
  erewrite bind_ret; [|apply (devpath_end_loop_ret l _ _ _ []); rewrite ?app_nil_r; try done; lia].
  cbv beta. unfold uefi_devpath_get_node_length.
  destruct (end_fields s (a + zlen (nodes_bytes l)) []) as (_ & _ & Ln).
  { pose proof (holds_mid (mem s) a (zlen (path_bytes l)) (nodes_bytes l) empty_devpath []
      (a + zlen (nodes_bytes l))) as Hm. rewrite app_nil_r in *. by apply Hm. }
  run_step Ln. replace (a + zlen (nodes_bytes l) - a) with (zlen (nodes_bytes l)) by lia.
  rewrite (wrap_small 64 (zlen (nodes_bytes l))) by lia. unfold mret, M_ret. f_equal.
  rewrite wrap_small; lia.
Qed.

Lemma nodes_bytes_app l1 l2 : nodes_bytes (l1 ++ l2) = nodes_bytes l1 ++ nodes_bytes l2.
Proof. unfold nodes_bytes. by rewrite map_app, concat_app. Qed.

Lemma path_bytes_app l1 l2 : path_bytes (l1 ++ l2) = nodes_bytes l1 ++ path_bytes l2.
Proof. unfold path_bytes. by rewrite nodes_bytes_app, <-app_assoc. Qed.

Lemma path_at_write m a l p bs :
  path_at m a l -> disj p (zlen bs) a (zlen (path_bytes l)) -> path_at (write_bytes m p bs) a l.
Proof. intros [Hh Ok R] D. split; try done. apply holds_write; [done|lia|done]. Qed.

(** Concatenation: the end node of the first path is replaced by the second. *)
Lemma uefi_devpath_append_ret {AL : AllocLaws E F} s a1 l1 a2 l2 st p c w :
  path_at (mem s) a1 l1 -> path_at (mem s) a2 l2 ->
  let n := zlen (path_bytes l1) + zlen (path_bytes l2) in
  n < 2 ^ 52 -> AllocatePool EfiLoaderData n (mem s) (fw s) = (st, p, c, w) ->
  EFI_ERROR st = false ->
  exists s', uefi_devpath_append a1 a2 s = Ret p s' /\ path_at (mem s') p (l1 ++ l2)
    /\ unmapped (mem s) p n /\ (forall x, is_Some (mem s !! x) -> mem s' !! x = mem s !! x)
    /\ fw s' = w.
Proof.
  intros P1 P2 n Hn A Ok. pose proof P1 as [H1 O1 [R1 R1'] ]. pose proof P2 as [H2 O2 [R2 R2'] ].
  pose proof (path_bytes_length l1) as L1. pose proof (path_bytes_length l2) as L2.
  destruct (alloc_pool_fresh _ _ _ _ _ _ _ _ A Ok ltac:(lia)) as (A0 & A1 & U).
  pose proof (length_bytes_at c n ltac:(lia)) as Lj.
  set (m1 := write_bytes (mem s) p (bytes_at c n)).
  pose proof (boot_AllocatePool_ret s n st p c w A Ok) as Al.
  set (s1 := set_pool _ _) in Al.
  assert (D1 : disj p n a1 (zlen (path_bytes l1))).
  { apply disj_sym, (mapped_unmapped_disj (mem s)); [apply (holds_mapped _ _ _ _ H1)|done|..]; lia. }
  assert (D2 : disj p n a2 (zlen (path_bytes l2))).
  { apply disj_sym, (mapped_unmapped_disj (mem s)); [apply (holds_mapped _ _ _ _ H2)|done|..]; lia. }
  assert (Q1 : path_at m1 a1 l1) by (apply path_at_write; [done|by rewrite Lj]).
  assert (Q2 : path_at m1 a2 l2) by (apply path_at_write; [done|by rewrite Lj]).
  assert (Mp : mapped m1 p n) by (intros x Hx; apply mapped_write_self; lia).
  unfold uefi_devpath_append, uefi_devpath_valid.
  destruct (Z.eqb_spec a1 0), (Z.eqb_spec a2 0); try lia. cbn [negb orb].
  erewrite bind_ret by reflexivity. cbv beta.
  run_step (uefi_devpath_size_ret s a1 l1 P1). run_step (uefi_devpath_size_ret s a2 l2 P2).
  fold n. rewrite (wrap_small 64 n) by lia. run_step Al. cbv beta iota.
  run_step (EFIERR_ok (str "uefi/device-path.c") 152 st s1 Ok).
  change sizeof_devpath with 4. rewrite (wrap_small 64) by lia.
  set (m2 := write_bytes m1 p (path_bytes l1)).
  erewrite bind_ret.
  2:{ apply (memcpy_ret _ _ _ _ (path_bytes l1)); [lia|apply Q1|apply Q1| |].
      - eapply mapped_sub; [exact Mp|lia..].
      - eapply disj_sub; [exact D1|lia..]. }
  assert (Q3 : path_at m2 a2 l2).
  { apply path_at_write; [done|]. eapply disj_sub; [exact D2|lia..]. }
  cbv beta. erewrite bind_ret.
  2:{ apply (memcpy_ret _ _ _ _ (path_bytes l2)); [lia|apply Q3|apply Q3| |].
      - cbn [mem set_mem]. apply mapped_write. eapply mapped_sub; [exact Mp|lia..].
      - eapply disj_sub; [exact D2|lia..]. }
  eexists. split; [reflexivity|]. split; [|split; [done|split; [|done] ] ].
  - split; cbn [mem set_mem].
    + unfold m2. rewrite path_bytes_app.
      apply (holds_tail_written _ _ (zlen (path_bytes l1)) _ empty_devpath); [|apply H2|lia].
      apply holds_written; [done|apply H1].
    + by apply Forall_app_2.
    + rewrite path_bytes_app, length_app. lia.
  - intros x [b Hb]. assert (Ex : ~ p <= x < p + n) by (intros Hx; rewrite U in Hb by lia; done).
    cbn [mem set_mem]. rewrite !(lookup_write_out _ _ _ x) by lia.
    unfold s1. cbn [mem set_pool set_mem]. rewrite lookup_write_out; [done|lia].
Qed.

End Facts.
