(* ===== verification/Paging.v ===== *)
(** * loader/paging.c: four-level page tables

    The operations of the file, the x86-64 walk [translate] as their
    specification, and the invariant [PT] that ties the tables in memory to a
    tree [tbl] from index paths to table pages. *)

From S2P Require Import Prelude Memory Firmware State CString Printf PrintfFacts Console Alloc.

(** include/loader.h *)
Definition PAGE_PRESENT : Z := 0x01.
Definition PAGE_WRITE : Z := 0x02.
Definition PAGE_NX : Z := 0x8000000000000000.

Definition PAGE_MASK : Z := 0x000FFFFFFFFFF000.

(** struct vm_indices; the table pointers are local variables below *)
Record vm_indices := VmIndices { pml4i : Z; pml3i : Z; pml2i : Z; pml1i : Z }.

Definition mm_virtual_indices (addr : Z) : vm_indices :=
  let '(addr, i4) :=
    if 0xFFFF800000000000 <=? addr then
      let addr := u64 (addr - 0xFFFF800000000000) in
      (addr, 256 + Z.land (Z.shiftr addr 39) 0x1FF)
    else (addr, Z.land (Z.shiftr addr 39) 0x1FF) in
  VmIndices i4 (Z.land (Z.shiftr addr 30) 0x1FF) (Z.land (Z.shiftr addr 21) 0x1FF)
    (Z.land (Z.shiftr addr 12) 0x1FF).

(** The table an entry refers to, as the processor reads it. *)
Definition present (e : Z) : bool := negb (Z.land e PAGE_PRESENT =? 0).

Definition entry (m : memory) (table i : Z) : option Z := load 8 m (table + 8 * i).

Definition walk_next (m : memory) (table i : Z) : option Z :=
  e ← entry m table i; if present e then Some (Z.land e PAGE_MASK) else None.

Definition slice (k va : Z) : Z := (va / 2 ^ k) mod 512.

(** The translation of a virtual address: the page table entry in force. *)
Definition translate (m : memory) (root va : Z) : option Z :=
  t3 ← walk_next m root (slice 39 va);
  t2 ← walk_next m t3 (slice 30 va);
  t1 ← walk_next m t2 (slice 21 va);
  e ← entry m t1 (slice 12 va);
  if present e then Some e else None.

(** ** The tree of tables

    [tbl] maps a path of indices to the page of the table it leads to; the
    entry 510 of the root is the recursive one and leads to no table. *)
Abbreviation tables := (gmap (list Z) Z).

Definition recursive_slot (p : list Z) (i : Z) : Prop := p = [] /\ i = 510.

Record PT (m : memory) (tbl : tables) (root : Z) : Prop := {
  pt_root : tbl !! [] = Some root;
  pt_self : exists e, entry m root 510 = Some e /\ present e = true
                      /\ Z.land e PAGE_MASK = root;
  pt_page p t : tbl !! p = Some t ->
    0 < t /\ t mod 4096 = 0 /\ t + 4096 <= 2 ^ 52 /\ mapped m t 4096;
  pt_inj p q t : tbl !! p = Some t -> tbl !! q = Some t -> p = q;
  pt_depth p t : tbl !! p = Some t -> (length p <= 3)%nat;
  pt_prefix p i t : tbl !! (p ++ [i]) = Some t -> is_Some (tbl !! p);
  pt_child p t i : tbl !! p = Some t -> (length p < 3)%nat -> 0 <= i < 512 ->
    ~ recursive_slot p i ->
    exists e, entry m t i = Some e /\
      match tbl !! (p ++ [i]) with
      | Some t' => present e = true /\ Z.land e PAGE_MASK = t'
      | None => present e = false
      end;
}.

(** What a virtual page maps to, through the tree. *)
Definition leaf (m : memory) (tbl : tables) (d : list Z) (i : Z) : option Z :=
  t ← tbl !! d; e ← entry m t i; if present e then Some e else None.

Definition outside (tbl : tables) (x : Z) : Prop :=
  forall p t, tbl !! p = Some t -> ~ (t <= x < t + 4096).

Section Paging.
Context {E : Efi} {F : Firmware} {L : Layout} {K : Fuel}.

Definition loader_paging_setup : M Z :=
  pml4 ← uefi_alloc_pages 1;
  _ ← store64 (pml4 + 8 * 510) (Z.lor (Z.lor pml4 PAGE_WRITE) PAGE_PRESENT);
  mret pml4.

(** The step from one table to the next, as written for each level of
    [loader_paging_map]. *)
Definition next_table (table index : Z) : M Z :=
  e ← load64 (table + 8 * index);
  if Z.land e PAGE_PRESENT =? 0 then
    next ← uefi_alloc_pages 1;
    _ ← store64 (table + 8 * index) (Z.lor (Z.lor next PAGE_PRESENT) PAGE_WRITE);
    mret next
  else
    e ← load64 (table + 8 * index);
    mret (Z.land e PAGE_MASK).

Definition loader_paging_map (pml4 physical virtual flags : Z) : M unit :=
  let i := mm_virtual_indices virtual in
  pml3 ← next_table pml4 (pml4i i);
  pml2 ← next_table pml3 (pml3i i);
  pml1 ← next_table pml2 (pml2i i);
  store64 (pml1 + 8 * pml1i i) (Z.lor physical flags).

(** for(i = 0; i < pages; i++) map(page_addr + (i << 12), ...) *)
Fixpoint map_addr_loop (n : nat) (i pml4 page_addr flags : Z) : M unit :=
  match n with
  | O => skip
  | S n =>
      let a := u64 (page_addr + u64 (Z.shiftl i 12)) in
      _ ← loader_paging_map pml4 a a flags;
      map_addr_loop n (i + 1) pml4 page_addr flags
  end.

Definition loader_paging_map_addr (pml4 start length flags : Z) : M unit :=
  let start_page := Z.shiftr start 12 in
  let end_page := Z.shiftr (u64 (start + length)) 12 in
  let pages := u64 (1 + u64 (end_page - start_page)) in
  let page_addr := Z.land start PAGE_MASK in
  map_addr_loop (Z.to_nat pages) 0 pml4 page_addr flags.

(** cpu/cr.asm: moves from and to cr0 *)
Definition efi_cr0_read : M Z := gets (fun s => cr0 (cpu s)).
Definition efi_cr0_write (v : Z) : M unit :=
  modify (fun s => set_cpu (CpuRegs v (msr (cpu s))) s).

(** [1UL] has 32 bits on the LLP64 target, so the complement clears the upper
    half as well. *)
Definition loader_paging_wp_disable : M unit :=
  cr0 ← efi_cr0_read;
  efi_cr0_write (Z.land cr0 (u32 (Z.lnot (Z.shiftl 1 16)))).

(** [s'] comes from [s] by changing page tables only: the tree may have grown
    by pages that were unused, and memory outside the tables is untouched. *)
Record extends (root : Z) (s s' : state) (tbl tbl' : tables) : Prop := {
  ex_pt : PT (mem s') tbl' root;
  ex_sub : tbl ⊆ tbl';
  ex_fresh p t : tbl' !! p = Some t -> tbl !! p = Some t \/ unmapped (mem s) t 4096;
  ex_frame x : is_Some (mem s !! x) -> outside tbl x -> mem s' !! x = mem s !! x;
  ex_mapped x : is_Some (mem s !! x) -> is_Some (mem s' !! x);
  ex_rest : exists m w, s' = set_fw w (set_mem m s);
}.

(** Every page maps as before. *)
Definition same_leaves (s s' : state) (tbl tbl' : tables) : Prop :=
  forall d j, (length d = 3)%nat -> 0 <= j < 512 ->
  leaf (mem s') tbl' d j = leaf (mem s) tbl d j.

End Paging.

(** ** Vocabulary of the proofs *)

(** The entry that links a table to a new table at [a], and memory with the
    zeroed new table linked from entry [i] of the table at [t]. *)
Definition link (a : Z) : Z := Z.lor (Z.lor a PAGE_PRESENT) PAGE_WRITE.

Definition grown (m : memory) (t i a : Z) : memory :=
  store 8 (write_bytes m a zero_page) (t + 8 * i) (link a).

(** The three table indices of an address. *)
Definition dir_of (va : Z) : list Z := [slice 39 va; slice 30 va; slice 21 va].

(** The number of an address's 4 KiB page in the 48-bit address space. *)
Definition vpn (va : Z) : Z := (va / 4096) mod 2 ^ 36.

Definition same_page (va vb : Z) : Prop := vpn va = vpn vb.

(** Flags of a page table entry: outside the frame bits, and present. *)
Definition entry_flags (flags : Z) : Prop :=
  0 <= flags < 2 ^ 64 /\ Z.land flags PAGE_MASK = 0 /\ present flags = true.

#[export] Instance same_page_dec va vb : Decision (same_page va vb).
Proof. unfold same_page. apply _. Defined.
