(* ===== verification/PagingFacts.v ===== *)
(** * Correctness of the page table operations

    The tree invariant is kept, a mapped page translates as asked and every
    other page as before, and memory outside the tables is untouched. *)

From S2P Require Import Prelude Memory Firmware State CString Printf PrintfFacts Console Alloc.
From S2P Require Import Paging.

(** ** Indices and entries *)

Lemma land_511 z : 0 <= z -> Z.land z 0x1FF = z mod 512.
Proof. intros. change 0x1FF with (Z.ones 9). by rewrite Z.land_ones. Qed.

Lemma slice_range k va : 0 <= slice k va < 512.
Proof. unfold slice. apply Z.mod_pos_bound. lia. Qed.

Lemma mm_virtual_indices_slices va :
  0 <= va < 2 ^ 64 ->
  mm_virtual_indices va = VmIndices (slice 39 va) (slice 30 va) (slice 21 va) (slice 12 va).
Proof.
  intros Hv. unfold mm_virtual_indices, slice.
  destruct (Z.leb_spec 0xFFFF800000000000 va) as [Hhi|Hlo].
  - assert (E : u64 (va - 0xFFFF800000000000) = va - 0xFFFF800000000000)
      by (apply wrap_small; lia).
    rewrite E, !Z.shiftr_div_pow2 by lia.
    rewrite !land_511 by (apply Z.div_pos; lia).
    set (d := va - 0xFFFF800000000000) in *.
    assert (Ed : va = d + 0xFFFF800000000000) by lia. rewrite Ed. clear E Ed.
    assert (0 <= d < 2 ^ 47) by lia.
    change (2 ^ 39) with 0x8000000000. change (2 ^ 30) with 0x40000000.
    change (2 ^ 21) with 0x200000. change (2 ^ 12) with 0x1000.
    f_equal; dlia.
  - rewrite !Z.shiftr_div_pow2, !land_511 by (try apply Z.div_pos; lia). done.
Qed.

Lemma testbit_small z n k : 0 <= z < 2 ^ n -> 0 <= n <= k -> Z.testbit z k = false.
Proof.
  intros Hz Hk. destruct (Z.eq_dec z 0) as [->|]; [apply Z.bits_0|].
  apply Z.bits_above_log2; [lia|]. assert (Z.log2 z < n) by (apply Z.log2_lt_pow2; lia). lia.
Qed.

Lemma testbit_mask k : Z.testbit PAGE_MASK k = (12 <=? k) && (k <? 52).
Proof.
  change PAGE_MASK with (Z.shiftl (Z.ones 40) 12).
  destruct (Z.ltb_spec k 0).
  { rewrite Z.testbit_neg_r by lia. destruct (Z.leb_spec 12 k); [lia|done]. }
  rewrite Z.shiftl_spec by lia.
  destruct (Z.leb_spec 12 k); simpl.
  - destruct (Z.ltb_spec k 52); [apply Z.ones_spec_low|apply Z.ones_spec_high]; lia.
  - apply Z.testbit_neg_r. lia.
Qed.

Lemma testbit_aligned p k : p mod 4096 = 0 -> k < 12 -> Z.testbit p k = false.
Proof.
  intros Hp Hk. destruct (Z.ltb_spec k 0); [by apply Z.testbit_neg_r|].
  rewrite <-(Z.mod_pow2_bits_low p 12 k) by lia. change (2 ^ 12) with 4096.
  rewrite Hp. apply Z.bits_0.
Qed.

(** The frame and the flags of an entry can be told apart. *)
Lemma entry_frame p fl :
  0 <= p < 2 ^ 52 -> p mod 4096 = 0 -> Z.land fl PAGE_MASK = 0 ->
  Z.land (Z.lor p fl) PAGE_MASK = p.
Proof.
  intros Hp Ha Hf. rewrite Z.land_lor_distr_l, Hf, Z.lor_0_r.
  apply Z.bits_inj'. intros k Hk. rewrite Z.land_spec, testbit_mask.
  destruct (Z.leb_spec 12 k); simpl.
  - destruct (Z.ltb_spec k 52); [by rewrite andb_true_r|].
    by rewrite (testbit_small p 52 k) by lia.
  - by rewrite (testbit_aligned p k) by lia.
Qed.

Lemma present_lor p fl : present fl = true -> present (Z.lor p fl) = true.
Proof.
  unfold present. change PAGE_PRESENT with (Z.ones 1). rewrite !Z.land_ones by lia.
  change (2 ^ 1) with 2. rewrite !Zmod_odd. rewrite <-!Z.bit0_odd, Z.lor_spec.
  destruct (Z.testbit fl 0), (Z.testbit p 0); done.
Qed.

Lemma lor_range p fl n : 0 <= n -> 0 <= p < 2 ^ n -> 0 <= fl < 2 ^ n -> 0 <= Z.lor p fl < 2 ^ n.
Proof.
  intros Hn Hp Hf. split; [apply Z.lor_nonneg; lia|].
  destruct (Z.eq_dec (Z.lor p fl) 0) as [->|]; [lia|].
  apply Z.log2_lt_pow2; [pose proof (Z.lor_nonneg p fl); lia|].
  rewrite Z.log2_lor by lia.
  assert (forall z, 0 <= z < 2 ^ n -> z = 0 \/ Z.log2 z < n) as H.
  { intros z Hz. destruct (Z.eq_dec z 0); [by left|right; apply Z.log2_lt_pow2; lia]. }
  destruct (Z.eq_dec n 0) as [->|].
  { assert (p = 0) as -> by lia. assert (fl = 0) as -> by lia. done. }
  destruct (H p Hp) as [->|], (H fl Hf) as [->|]; simpl; lia.
Qed.

(** ** Entries under stores *)

Lemma page_disj t t' :
  t mod 4096 = 0 -> t' mod 4096 = 0 -> t <> t' -> disj t 4096 t' 4096.
Proof. unfold disj. intros. dlia. Qed.

Lemma entry_agree m m' t j :
  0 <= j < 512 -> agree m m' t 4096 -> entry m' t j = entry m t j.
Proof. intros Hj A. apply load_agree. eapply agree_sub; [exact A|lia..]. Qed.

Lemma entry_store_same m t i v :
  0 <= v < 2 ^ 64 -> entry (store 8 m (t + 8 * i) v) t i = Some v.
Proof. intros Hv. unfold entry. rewrite load_store_same. f_equal. by apply wrap_small. Qed.

Lemma entry_store_other m t i t' j v :
  0 <= i < 512 -> 0 <= j < 512 -> (t = t' /\ i <> j) \/ disj t 4096 t' 4096 ->
  entry (store 8 m (t + 8 * i) v) t' j = entry m t' j.
Proof.
  intros Hi Hj H. unfold entry. apply load_store_disj. simpl. unfold disj in *. lia.
Qed.

Lemma entry_zeros m a j :
  0 <= j < 512 -> entry (write_bytes m a zero_page) a j = Some 0.
Proof.
  intros Hj. unfold entry, load.
  assert (R : read_bytes (write_bytes m a zero_page) (a + 8 * j)
                (length (replicate 8 0)) = Some (replicate 8 0)).
  { apply read_bytes_intro. intros k Hk. rewrite length_replicate in Hk.
    rewrite lookup_write_bytes, length_zero_page, decide_True by lia.
    rewrite lookup_zero_page, lookup_replicate_2 by lia. done. }
  rewrite length_replicate in R. by rewrite R.
Qed.

Section Tree.
Context (m : memory) (tbl : tables) (root : Z) (Inv : PT m tbl root).

Lemma pt_disj p q t u :
  tbl !! p = Some t -> tbl !! q = Some u -> p <> q -> disj t 4096 u 4096.
Proof.
  intros Hp Hq N. destruct (pt_page _ _ _ Inv p t Hp) as (_ & At & _).
  destruct (pt_page _ _ _ Inv q u Hq) as (_ & Au & _).
  apply page_disj; [done|done|]. intros ->. apply N. by eapply pt_inj.
Qed.

(** A new table below entry [i] of the table at [p]. *)
Context (p : list Z) (t i a : Z).
Hypothesis Hp : tbl !! p = Some t.
Hypothesis Hlen : (length p < 3)%nat.
Hypothesis Hi : 0 <= i < 512.
Hypothesis Hrec : ~ recursive_slot p i.
Hypothesis Hnew : tbl !! (p ++ [i]) = None.
Hypothesis Ha : 0 < a /\ a mod 4096 = 0 /\ a + 4096 <= 2 ^ 52 /\ unmapped m a 4096.

Abbreviation link := (link a).
Abbreviation grown := (grown m t i a).

Lemma link_range : 0 <= link < 2 ^ 64.
Proof.
  destruct Ha as (H0 & _ & H1 & _). unfold Paging.link, PAGE_PRESENT, PAGE_WRITE.
  assert (0 <= Z.lor (Z.lor a 1) 2 < 2 ^ 52)
    by (apply lor_range; [lia|apply lor_range; lia|lia]). lia.
Qed.

Lemma link_frame : present link = true /\ Z.land link PAGE_MASK = a.
Proof.
  destruct Ha as (H0 & H1 & H2 & _). unfold Paging.link. rewrite <-Z.lor_assoc. split.
  - by apply present_lor.
  - apply entry_frame; [lia|done|done].
Qed.

Lemma table_fresh q u : tbl !! q = Some u -> disj u 4096 a 4096.
Proof.
  intros Hq. destruct (pt_page _ _ _ Inv q u Hq) as (_ & _ & _ & Mp).
  destruct Ha as (_ & _ & _ & U). eapply mapped_unmapped_disj; eauto; lia.
Qed.

Lemma grown_old q u j :
  tbl !! q = Some u -> 0 <= j < 512 -> (q, j) <> (p, i) -> entry grown u j = entry m u j.
Proof.
  intros Hq Hj N. pose proof (table_fresh q u Hq) as D. unfold Paging.grown.
  rewrite entry_store_other; [|done|done|].
  - apply entry_agree; [done|]. apply agree_write. rewrite length_zero_page.
    by apply disj_sym.
  - destruct (decide (p = q)) as [<-|]; [|right; by eapply pt_disj].
    left. assert (t = u) by congruence. split; congruence.
Qed.

Lemma grown_link : entry grown t i = Some link.
Proof. apply entry_store_same, link_range. Qed.

Lemma grown_new j : 0 <= j < 512 -> entry grown a j = Some 0.
Proof.
  intros Hj. unfold Paging.grown. rewrite entry_store_other; [|done|done|].
  - by apply entry_zeros.
  - right. by eapply table_fresh.
Qed.

Lemma grown_lookup q : <[p ++ [i] := a]> tbl !! q = if decide (q = p ++ [i]) then Some a else tbl !! q.
Proof.
  case_decide; subst; [by rewrite lookup_insert_eq|by rewrite lookup_insert_ne].
Qed.

Lemma child_path q j : q ++ [j] = p ++ [i] <-> q = p /\ j = i.
Proof.
  split; [|by intros [-> ->]]. intros H. apply app_inj_tail in H. done.
Qed.

Lemma grown_PT : PT grown (<[p ++ [i] := a]> tbl) root.
Proof.
  assert (Np : forall q, q = p ++ [i] -> tbl !! q = None) by (intros ? ->; done).
  destruct Ha as (A0 & A1 & A2 & U). split.
  - rewrite grown_lookup, decide_False; [apply Inv|]. by destruct p.
  - destruct (pt_self _ _ _ Inv) as (e & He & Hpe). exists e. split; [|done].
    rewrite (grown_old [] root); [done|apply Inv|lia|].
    intros [= <- <-]. by apply Hrec.
  - intros q u. rewrite grown_lookup. case_decide.
    + intros [= <-]. repeat split; [done..|]. apply mapped_store.
      pose proof (mapped_write_self m a zero_page) as Mp.
      by rewrite length_zero_page in Mp.
    + intros Hq. destruct (pt_page _ _ _ Inv q u Hq) as (? & ? & ? & ?).
      repeat split; [done..|]. by apply mapped_store, mapped_write.
  - intros q q' u. rewrite !grown_lookup. do 2 case_decide; intros H1 H2.
    + congruence.
    + exfalso. injection H1 as <-. pose proof (table_fresh q' a H2). unfold disj in *. lia.
    + exfalso. injection H2 as <-. pose proof (table_fresh q a H1). unfold disj in *. lia.
    + by eapply (pt_inj _ _ _ Inv).
  - intros q u. rewrite grown_lookup. case_decide; [|apply (pt_depth _ _ _ Inv)].
    intros _. subst q. rewrite length_app. simpl. lia.
  - intros q j u. rewrite !grown_lookup. case_decide as D1; [intros _|intros Hq].
    + apply child_path in D1 as [-> ->]. case_decide; eauto.
    + apply (pt_prefix _ _ _ Inv) in Hq. case_decide; eauto.
  - intros q u j. rewrite !grown_lookup. case_decide as D1.
    + intros [= <-] Lq Hj _. exists 0. split; [by apply grown_new|].
      rewrite decide_False.
      * destruct (tbl !! (q ++ [j])) eqn:Hq; [|done].
        apply (pt_prefix _ _ _ Inv) in Hq as [? Hq]. rewrite (Np q) in Hq by done. done.
      * intros [-> ->]%child_path. apply (f_equal length) in D1.
        rewrite length_app in D1. simpl in D1. lia.
    + intros Hq Lq Hj Nr. case_decide as D2.
      * apply child_path in D2 as [-> ->]. exists link.
        assert (u = t) as -> by congruence. split; [apply grown_link|apply link_frame].
      * destruct (pt_child _ _ _ Inv q u j Hq Lq Hj Nr) as (e & He & Hc).
        exists e. split; [|done]. rewrite (grown_old q u j); [done|done|done|].
        intros [= -> ->]. by apply D2.
Qed.

Lemma grown_leaf d j :
  (length d = 3)%nat -> 0 <= j < 512 ->
  leaf grown (<[p ++ [i] := a]> tbl) d j = leaf m tbl d j.
Proof.
  intros Ld Hj. unfold leaf. rewrite grown_lookup. case_decide as D.
  - subst d. rewrite Hnew. cbv [mbind option_bind]. by rewrite grown_new.
  - destruct (tbl !! d) as [u|] eqn:Hd; [|done]. cbv [mbind option_bind].
    rewrite (grown_old d u j); [done|done|done|]. intros [= -> ->]. lia.
Qed.

End Tree.

(** ** The operations keep the tree *)

Section Ops.
Context {E : Efi} {F : Firmware} {L : Layout} {K : Fuel} {AL : AllocLaws E F} {PS : PageSupply}.

Lemma same_leaves_trans s1 s2 s3 t1 t2 t3 :
  same_leaves s1 s2 t1 t2 -> same_leaves s2 s3 t2 t3 -> same_leaves s1 s3 t1 t3.
Proof. intros X Y d j Hd Hj. by rewrite Y, X. Qed.

Lemma extends_refl root s tbl : PT (mem s) tbl root -> extends root s s tbl tbl.
Proof. intros I. split; auto. exists (mem s), (fw s). by destruct s. Qed.

Lemma outside_fresh root s s' tbl tbl' x :
  extends root s s' tbl tbl' -> is_Some (mem s !! x) -> outside tbl x -> outside tbl' x.
Proof.
  intros X [b Hb] O p t Hp Hx. destruct (ex_fresh _ _ _ _ _ X p t Hp) as [H|U].
  - by apply (O p t).
  - rewrite U in Hb by done. done.
Qed.

Lemma extends_trans root s1 s2 s3 t1 t2 t3 :
  extends root s1 s2 t1 t2 -> extends root s2 s3 t2 t3 -> extends root s1 s3 t1 t3.
Proof.
  intros X Y. split.
  - apply Y.
  - etrans; [apply X|apply Y].
  - intros p t Hp. destruct (ex_fresh _ _ _ _ _ Y p t Hp) as [H|U].
    + exact (ex_fresh _ _ _ _ _ X p t H).
    + right. intros x Hx. destruct (mem s1 !! x) eqn:Hm; [|done].
      destruct (ex_mapped _ _ _ _ _ X x) as [b Hb]; [eauto|].
      rewrite U in Hb by done. done.
  - intros x Hm O. rewrite (ex_frame _ _ _ _ _ Y); [by apply X| |].
    + by apply (ex_mapped _ _ _ _ _ X).
    + by eapply outside_fresh.
  - intros x Hm. by apply Y, X.
  - destruct (ex_rest _ _ _ _ _ X) as (m & w & ->).
    destruct (ex_rest _ _ _ _ _ Y) as (m' & w' & ->). by exists m', w'.
Qed.

Lemma extends_grown root s tbl p t i a w :
  PT (mem s) tbl root -> tbl !! p = Some t -> (length p < 3)%nat -> 0 <= i < 512 ->
  ~ recursive_slot p i -> tbl !! (p ++ [i]) = None ->
  0 < a /\ a mod 4096 = 0 /\ a + 4096 <= 2 ^ 52 /\ unmapped (mem s) a 4096 ->
  let s' := set_fw w (set_mem (grown (mem s) t i a) s) in
  extends root s s' tbl (<[p ++ [i] := a]> tbl)
  /\ same_leaves s s' tbl (<[p ++ [i] := a]> tbl).
Proof.
  intros I Hp Hl Hi Hr Hn Ha. split; [|intros d j Hd Hj; by eapply grown_leaf].
  split; simpl.
  - by apply grown_PT.
  - by apply insert_subseteq.
  - intros q u. rewrite grown_lookup. case_decide; [intros [= <-]|by left].
    right. apply Ha.
  - intros x [b Hx] O. unfold grown, store. rewrite lookup_write_out.
    + apply lookup_write_out. rewrite length_zero_page. intros Hb.
      destruct Ha as (_ & _ & _ & U). rewrite U in Hx by lia. done.
    + rewrite length_le_bytes. intros Hb. apply (O p t Hp). lia.
  - intros x Hx. apply (mapped_store _ _ _ 8 x 1); [|lia].
    apply mapped_write. intros y Hy. by replace y with x by lia.
  - eauto.
Qed.

Lemma next_table_spec root s tbl p t i k :
  PT (mem s) tbl root -> tbl !! p = Some t -> (length p < 3)%nat -> 0 <= i < 512 ->
  ~ recursive_slot p i -> supply (S k) (dom (mem s)) (fw s) ->
  exists t' s' tbl', next_table t i s = Ret t' s'
    /\ (extends root s s' tbl tbl' /\ same_leaves s s' tbl tbl') /\ tbl' !! (p ++ [i]) = Some t' /\ supply k (dom (mem s')) (fw s').
Proof.
  intros I Hp Hl Hi Hr CA.
  destruct (pt_child _ _ _ I p t i Hp Hl Hi Hr) as (e & He & Hc).
  pose proof (load_n_ret 8 s (t + 8 * i) e He) as Ld.
  destruct (tbl !! (p ++ [i])) as [t'|] eqn:Hn.
  - destruct Hc as [Pr Fr]. exists t', s, tbl. split; [|split].
    + unfold next_table. run_step Ld. unfold present in Pr. apply negb_true_iff in Pr.
      rewrite Pr. run_step Ld. by rewrite Fr.
    + split; [by apply extends_refl|done].
    + split; [done|]. by apply supply_less.
  - destruct (AllocatePages EfiLoaderData 1 (mem s) (fw s)) as [[[st a] c] w] eqn:A.
    destruct (supply_page _ _ _ (mem s) st a c w CA eq_refl A) as [Hs CA'].
    pose proof (alloc_pages_fresh _ _ _ _ _ _ _ _ A Hs ltac:(lia)) as Ha.
    change (4096 * 1) with 4096 in Ha.
    set (m1 := write_bytes (mem s) a zero_page).
    assert (Ma : mapped m1 (t + 8 * i) 8).
    { apply mapped_write. destruct (pt_page _ _ _ I p t Hp) as (_ & _ & _ & Mp).
      eapply mapped_sub; [exact Mp|lia..]. }
    exists a, (set_fw w (set_mem (grown (mem s) t i a) s)), (<[p ++ [i] := a]> tbl).
    split; [|split; [|split]].
    + unfold next_table. run_step Ld. unfold present in Hc. apply negb_false_iff in Hc.
      rewrite Hc. pose proof (uefi_alloc_page_ret s st a c w A Hs) as Al.
      run_step Al. erewrite bind_ret; [|by apply store_n_ret]. unfold grown, link, mret, M_ret. st_simpl. reflexivity.
    + by apply extends_grown.
    + by rewrite lookup_insert_eq.
    + cbn [mem fw set_mem set_fw]. unfold grown, store. fold m1.
      rewrite dom_write_mapped by (rewrite length_le_bytes; exact Ma).
      unfold m1. rewrite dom_write_page by apply length_zero_page. exact CA'.
Qed.

(** A page table entry written into the tree. *)
Lemma PT_entry root s tbl d t j m' :
  PT (mem s) tbl root -> tbl !! d = Some t -> (length d = 3)%nat ->
  (forall q u i, tbl !! q = Some u -> 0 <= i < 512 -> (q, i) <> (d, j) ->
     entry m' u i = entry (mem s) u i) ->
  (forall x n, mapped (mem s) x n -> mapped m' x n) ->
  PT m' tbl root.
Proof.
  intros I Hd Ld Old Mp. split; try apply I.
  - destruct (pt_self _ _ _ I) as (e & He & Hpe). exists e. split; [|done].
    rewrite (Old [] root); [done|apply I|lia|]. intros [= <- _]. done.
  - intros q u Hq. destruct (pt_page _ _ _ I q u Hq) as (? & ? & ? & ?).
    repeat split; auto.
  - intros q u i Hq Lq Hi Nr.
    destruct (pt_child _ _ _ I q u i Hq Lq Hi Nr) as (e & He & Hc).
    exists e. split; [|done]. rewrite (Old q u i); [done|done|done|].
    intros [= -> _]. lia.
Qed.

Lemma leaf_store root s tbl d t j v :
  PT (mem s) tbl root -> tbl !! d = Some t -> (length d = 3)%nat -> 0 <= j < 512 ->
  0 <= v < 2 ^ 64 ->
  let s' := set_mem (store 8 (mem s) (t + 8 * j) v) s in
  store64 (t + 8 * j) v s = Ret tt s' /\ extends root s s' tbl tbl
  /\ (forall d' j', (length d' = 3)%nat -> 0 <= j' < 512 ->
       leaf (mem s') tbl d' j' =
       if decide (d' = d /\ j' = j) then (if present v then Some v else None)
       else leaf (mem s) tbl d' j')
  /\ dom (mem s') = dom (mem s).
Proof.
  intros I Hd Ld Hj Hv s'.
  assert (Old : forall q u i, tbl !! q = Some u -> 0 <= i < 512 -> (q, i) <> (d, j) ->
                entry (mem s') u i = entry (mem s) u i).
  { intros q u i Hq Hi N. simpl. apply entry_store_other; [done|done|].
    destruct (decide (d = q)) as [<-|Nq].
    - left. assert (t = u) by congruence. split; congruence.
    - right. eapply pt_disj; eauto. }
  destruct (pt_page _ _ _ I d t Hd) as (_ & _ & _ & Mp).
  assert (Mt : mapped (mem s) (t + 8 * j) 8) by (eapply mapped_sub; [exact Mp|lia..]).
  split; [by apply store_n_ret|split; [split|split]].
  - apply (PT_entry root s tbl d t j); auto. intros x n. apply mapped_store.
  - done.
  - by left.
  - intros x Hx O. simpl. unfold store. apply lookup_write_out.
    rewrite length_le_bytes. intros Hb. apply (O d t Hd). lia.
  - intros x Hx. apply (mapped_store _ _ _ 8 x 1); [|lia].
    intros y Hy. by replace y with x by lia.
  - exists (mem s'), (fw s). by destruct s.
  - intros d' j' Ld' Hj'. unfold leaf. destruct (tbl !! d') as [u|] eqn:Hd'.
    + cbv [mbind option_bind]. case_decide as D.
      * destruct D as [-> ->]. assert (u = t) as -> by congruence.
        simpl. by rewrite entry_store_same.
      * rewrite (Old d' u j'); [done|done|done|]. intros [= -> ->]. by apply D.
    + rewrite decide_False; [done|]. intros [-> _]. congruence.
  - simpl. unfold store. apply dom_write_mapped. by rewrite length_le_bytes.
Qed.

(** The processor's walk reads the tree. *)
Lemma walk_next_tree m tbl root p t i :
  PT m tbl root -> tbl !! p = Some t -> (length p < 3)%nat -> 0 <= i < 512 ->
  ~ recursive_slot p i -> walk_next m t i = tbl !! (p ++ [i]).
Proof.
  intros I Hp Hl Hi Hr. destruct (pt_child _ _ _ I p t i Hp Hl Hi Hr) as (e & He & Hc).
  unfold walk_next. rewrite He. cbv [mbind option_bind].
  destruct (tbl !! (p ++ [i])); [destruct Hc as [-> ->]; done|by rewrite Hc].
Qed.

Lemma translate_leaf m tbl root va :
  PT m tbl root -> slice 39 va <> 510 ->
  translate m root va = leaf m tbl (dir_of va) (slice 12 va).
Proof.
  intros I N. unfold translate, leaf, dir_of.
  assert (Up : forall q i, tbl !! q = None -> tbl !! (q ++ [i]) = None).
  { intros q i Hq. destruct (tbl !! (q ++ [i])) eqn:Hqi; [|done].
    apply (pt_prefix _ _ _ I) in Hqi as [? Hqi]. congruence. }
  rewrite (walk_next_tree m tbl root [] root); [|done|apply I|simpl; lia|apply slice_range|].
  2:{ intros [_ ?]. done. }
  cbn [app]. destruct (tbl !! [slice 39 va]) as [t3|] eqn:H3.
  2:{ pose proof (Up _ (slice 30 va) H3) as H2. pose proof (Up _ (slice 21 va) H2) as H1.
      cbn [app] in H1. by rewrite H1. }
  cbv [mbind option_bind].
  rewrite (walk_next_tree m tbl root [slice 39 va] t3);
    [|done|done|simpl; lia|apply slice_range|by intros [? _]].
  cbn [app]. destruct (tbl !! [slice 39 va; slice 30 va]) as [t2|] eqn:H2.
  2:{ pose proof (Up _ (slice 21 va) H2) as H1. cbn [app] in H1. by rewrite H1. }
  rewrite (walk_next_tree m tbl root [slice 39 va; slice 30 va] t2);
    [|done|done|simpl; lia|apply slice_range|by intros [? _]].
  done.
Qed.


Lemma same_page_slices va vb :
  0 <= va -> 0 <= vb ->
  same_page va vb <-> dir_of va = dir_of vb /\ slice 12 va = slice 12 vb.
Proof.
  intros Ha Hb. unfold same_page, vpn, dir_of, slice.
  assert (D : forall v k, 0 <= v -> 12 <= k -> v / 2 ^ k = v / 4096 / 2 ^ (k - 12)).
  { intros v k Hv Hk. change 4096 with (2 ^ 12). rewrite Z.div_div by lia.
    f_equal. rewrite <-Z.pow_add_r by lia. f_equal. lia. }
  rewrite (D va 39), (D vb 39), (D va 30), (D vb 30), (D va 21), (D vb 21), (D va 12),
    (D vb 12) by lia.
  generalize (va / 4096) (vb / 4096). clear. intros x y.
  change (2 ^ (39 - 12)) with 0x8000000. change (2 ^ (30 - 12)) with 0x40000.
  change (2 ^ (21 - 12)) with 0x200. change (2 ^ (12 - 12)) with 1.
  change (2 ^ 36) with 0x1000000000. split.
  - intros H.
    assert (x / 0x8000000 mod 512 = y / 0x8000000 mod 512) as -> by dlia.
    assert (x / 0x40000 mod 512 = y / 0x40000 mod 512) as -> by dlia.
    assert (x / 0x200 mod 512 = y / 0x200 mod 512) as -> by dlia.
    split; [done|]. dlia.
  - intros [[= H1 H2 H3] H4]. dlia.
Qed.

Lemma loader_paging_map_spec root s tbl physical virtual flags k :
  PT (mem s) tbl root -> 0 <= virtual < 2 ^ 64 -> slice 39 virtual <> 510 ->
  0 <= physical < 2 ^ 64 -> 0 <= flags < 2 ^ 64 ->
  supply (3 + k) (dom (mem s)) (fw s) ->
  exists s' tbl', loader_paging_map root physical virtual flags s = Ret tt s'
    /\ extends root s s' tbl tbl' /\ supply k (dom (mem s')) (fw s')
    /\ forall va, 0 <= va < 2 ^ 64 -> slice 39 va <> 510 ->
         translate (mem s') root va =
         if decide (same_page va virtual)
         then (if present (Z.lor physical flags) then Some (Z.lor physical flags) else None)
         else translate (mem s) root va.
Proof.
  intros I Hv Nr Hp Hf CA. unfold loader_paging_map.
  rewrite mm_virtual_indices_slices by done. cbn [pml4i pml3i pml2i pml1i].
  destruct (next_table_spec root s tbl [] root (slice 39 virtual) (2 + k))
    as (t3 & s1 & tbl1 & R1 & [X1 L1] & T3 & CA1);
    [done|apply I|simpl; lia|apply slice_range|by intros [_ ?]|done|].
  destruct (next_table_spec root s1 tbl1 [slice 39 virtual] t3 (slice 30 virtual) (1 + k))
    as (t2 & s2 & tbl2 & R2 & [X2 L2] & T2 & CA2);
    [apply X1|done|simpl; lia|apply slice_range|by intros [? _]|done|].
  destruct (next_table_spec root s2 tbl2 [slice 39 virtual; slice 30 virtual] t2
    (slice 21 virtual) k) as (t1 & s3 & tbl3 & R3 & [X3 L3] & T1 & CA3);
    [apply X2|done|simpl; lia|apply slice_range|by intros [? _]|done|].
  destruct (leaf_store root s3 tbl3 (dir_of virtual) t1 (slice 12 virtual)
    (Z.lor physical flags)) as (R4 & X4 & L4 & D4);
    [apply X3|done|done|apply slice_range|by apply lor_range|].
  run_step R1. run_step R2. run_step R3.
  eexists _, tbl3. split; [exact R4|]. split; [|split].
  - eapply extends_trans; [exact X1|]. eapply extends_trans; [exact X2|].
    eapply extends_trans; [exact X3|exact X4].
  - rewrite D4. exact CA3.
  - intros va Hva Nva. rewrite (translate_leaf _ tbl3 root va (ex_pt _ _ _ _ _ X4) Nva).
    rewrite L4 by (done || apply slice_range).
    rewrite (translate_leaf _ tbl root va I Nva).
    pose proof (same_page_slices va virtual ltac:(lia) ltac:(lia)) as SP.
    rewrite (decide_ext _ (same_page va virtual)) by (symmetry; exact SP).
    case_decide; [done|].
    assert (S13 : same_leaves s s3 tbl tbl3)
      by (eapply same_leaves_trans; [|exact L3]; eapply same_leaves_trans; eauto).
    apply S13; [done|apply slice_range].
Qed.


Lemma loader_paging_map_present root s tbl physical virtual flags k :
  PT (mem s) tbl root -> 0 <= virtual < 2 ^ 64 -> slice 39 virtual <> 510 ->
  0 <= physical < 2 ^ 64 -> entry_flags flags ->
  supply (3 + k) (dom (mem s)) (fw s) ->
  exists s' tbl', loader_paging_map root physical virtual flags s = Ret tt s'
    /\ extends root s s' tbl tbl' /\ supply k (dom (mem s')) (fw s')
    /\ forall va, 0 <= va < 2 ^ 64 -> slice 39 va <> 510 ->
         translate (mem s') root va =
         if decide (same_page va virtual) then Some (Z.lor physical flags)
         else translate (mem s) root va.
Proof.
  intros I Hv Nr Hp (Hf & _ & Pf) CA.
  destruct (loader_paging_map_spec root s tbl physical virtual flags k)
    as (s' & tbl' & R & X & CA' & T); auto.
  rewrite (present_lor _ _ Pf) in T. eauto 10.
Qed.

(** Slot 510 of the root does not translate any page of [[n, n + k)]. *)
Definition clear_of_slot (n k : Z) : Prop :=
  forall j, n <= j < n + k -> (j / 2 ^ 27) mod 512 <> 510.

Lemma slice_vpn va : 0 <= va -> slice 39 va = (vpn va / 2 ^ 27) mod 512.
Proof.
  intros Hv. unfold slice, vpn. change (2 ^ 39) with (4096 * 2 ^ 27).
  rewrite <-Z.div_div by lia. change (2 ^ 27) with 0x8000000.
  change (2 ^ 36) with 0x1000000000. generalize (va / 4096). intros. dlia.
Qed.

Lemma map_addr_loop_spec root page_addr flags k n : forall i s tbl,
  PT (mem s) tbl root -> page_addr mod 4096 = 0 -> 0 <= page_addr -> 0 <= i ->
  page_addr + 4096 * (i + Z.of_nat n) <= 2 ^ 48 ->
  clear_of_slot (page_addr / 4096 + i) (Z.of_nat n) -> entry_flags flags ->
  supply (3 * n + k) (dom (mem s)) (fw s) ->
  exists s' tbl', map_addr_loop n i root page_addr flags s = Ret tt s'
    /\ extends root s s' tbl tbl' /\ supply k (dom (mem s')) (fw s')
    /\ forall va, 0 <= va < 2 ^ 64 -> slice 39 va <> 510 ->
         translate (mem s') root va =
         if decide (page_addr / 4096 + i <= vpn va < page_addr / 4096 + i + Z.of_nat n)
         then Some (Z.lor (vpn va * 4096) flags) else translate (mem s) root va.
Proof.
  induction n as [|n IH]; intros i s tbl I Al Hpa Hi Hmax Cl Hf CA.
  - exists s, tbl. split; [done|]. split; [by apply extends_refl|]. split; [done|].
    intros va _ _. rewrite decide_False by lia. done.
  - cbn [map_addr_loop].
    assert (Ea : u64 (page_addr + u64 (Z.shiftl i 12)) = page_addr + 4096 * i).
    { rewrite Z.shiftl_mul_pow2 by lia. change (2 ^ 12) with 4096.
      rewrite (wrap_small 64 (i * 4096)) by lia. rewrite wrap_small by lia. lia. }
    rewrite Ea. set (a := page_addr + 4096 * i).
    assert (Va : vpn a = page_addr / 4096 + i).
    { unfold vpn, a. rewrite Z.mod_small; dlia. }
    destruct (loader_paging_map_present root s tbl a a flags (3 * n + k))
      as (s1 & tbl1 & R1 & X1 & CA1 & T1); [done|lia| |lia|done| |].
    { rewrite slice_vpn, Va by lia. apply Cl. lia. }
    { by replace (3 + (3 * n + k))%nat with (3 * S n + k)%nat by lia. }
    destruct (IH (i + 1) s1 tbl1) as (s2 & tbl2 & R2 & X2 & CA2 & T2);
      [apply X1|done|done|lia|lia| |done|done|].
    { intros j Hj. apply Cl. lia. }
    exists s2, tbl2. run_step R1. split; [exact R2|].
    split; [by eapply extends_trans|]. split; [done|]. intros va Hva Nva.
    rewrite T2, T1 by done. assert (SP : same_page va a <-> vpn va = page_addr / 4096 + i)
      by (unfold same_page; by rewrite Va).
    rewrite (decide_ext (same_page va a) (vpn va = page_addr / 4096 + i)) by exact SP.
    assert (Ha : a = (page_addr / 4096 + i) * 4096) by (unfold a; dlia).
    repeat case_decide; try lia; try done.
    f_equal. f_equal. lia.
Qed.

Lemma land_page_mask z : 0 <= z < 2 ^ 52 -> Z.land z PAGE_MASK = z / 4096 * 4096.
Proof.
  intros Hz. apply Z.bits_inj'. intros k Hk. rewrite Z.land_spec, testbit_mask.
  change 4096 with (2 ^ 12). rewrite <-Z.shiftr_div_pow2, <-Z.shiftl_mul_pow2 by lia.
  rewrite Z.shiftl_spec by lia. destruct (Z.leb_spec 12 k); simpl.
  - rewrite Z.shiftr_spec by lia. replace (k - 12 + 12) with k by lia.
    destruct (Z.ltb_spec k 52); [by rewrite andb_true_r|].
    by rewrite (testbit_small z 52 k) by lia.
  - rewrite andb_false_r. symmetry. apply Z.testbit_neg_r. lia.
Qed.

Lemma loader_paging_map_addr_spec root s tbl start length flags k :
  let first := start / 4096 in
  let last := (start + length) / 4096 in
  PT (mem s) tbl root -> 0 <= start -> 0 <= length -> start + length < 2 ^ 48 ->
  clear_of_slot first (1 + (last - first)) -> entry_flags flags ->
  supply (3 * Z.to_nat (1 + (last - first)) + k) (dom (mem s)) (fw s) ->
  exists s' tbl', loader_paging_map_addr root start length flags s = Ret tt s'
    /\ extends root s s' tbl tbl' /\ supply k (dom (mem s')) (fw s')
    /\ forall va, 0 <= va < 2 ^ 64 -> slice 39 va <> 510 ->
         translate (mem s') root va =
         if decide (first <= vpn va <= last) then Some (Z.lor (vpn va * 4096) flags)
         else translate (mem s) root va.
Proof.
  intros first last I Hs Hl Hm Cl Hf CA. unfold loader_paging_map_addr.
  rewrite (wrap_small 64 (start + length)) by lia.
  rewrite !Z.shiftr_div_pow2 by lia. change (2 ^ 12) with 4096. fold first last.
  assert (0 <= first <= last) by (unfold first, last; dlia).
  assert (last < 2 ^ 36) by (unfold last; dlia).
  rewrite (wrap_small 64 (last - first)), (wrap_small 64 (1 + (last - first))) by lia.
  rewrite land_page_mask by lia. fold first.
  assert (Ef : first * 4096 / 4096 = first) by (apply Z.div_mul; lia).
  destruct (map_addr_loop_spec root (first * 4096) flags k (Z.to_nat (1 + (last - first))) 0
    s tbl) as (s' & tbl' & R & X & CA' & T); auto; try lia.
  { apply Z.mod_mul. lia. }
  { rewrite Ef, Z2Nat.id, Z.add_0_r by lia. done. }
  exists s', tbl'. split; [done|]. split; [done|]. split; [done|]. intros va Hva Nva.
  rewrite T by done. rewrite Ef, Z2Nat.id by lia. repeat case_decide; try lia; done.
Qed.

(** A fresh root: no page is mapped, entry 510 refers to the root itself. *)
Lemma loader_paging_setup_spec s k :
  supply (S k) (dom (mem s)) (fw s) ->
  exists root s', loader_paging_setup s = Ret root s'
    /\ PT (mem s') {[ [] := root ]} root
    /\ unmapped (mem s) root 4096
    /\ (forall va, slice 39 va <> 510 -> translate (mem s') root va = None)
    /\ (forall x, is_Some (mem s !! x) -> mem s' !! x = mem s !! x)
    /\ supply k (dom (mem s')) (fw s').
Proof.
  intros CA.
  destruct (AllocatePages EfiLoaderData 1 (mem s) (fw s)) as [[[st a] c] w] eqn:A.
  destruct (supply_page _ _ _ (mem s) st a c w CA eq_refl A) as [Hs CA'].
  pose proof (alloc_pages_fresh _ _ _ _ _ _ _ _ A Hs ltac:(lia)) as (A0 & A1 & A2 & U).
  change (4096 * 1) with 4096 in A2, U.
  set (m1 := write_bytes (mem s) a zero_page). set (v := Z.lor (Z.lor a PAGE_WRITE) PAGE_PRESENT).
  assert (Mp : mapped m1 a 4096).
  { pose proof (mapped_write_self (mem s) a zero_page) as Mp.
    by rewrite length_zero_page in Mp. }
  set (m2 := store 8 m1 (a + 8 * 510) v).
  assert (Hv : 0 <= v < 2 ^ 64).
  { assert (0 <= v < 2 ^ 52) by (apply lor_range; [lia|apply lor_range; unfold PAGE_WRITE; lia
      |unfold PAGE_PRESENT; lia]). lia. }
  assert (P0 : PT m2 {[ [] := a ]} a).
  { assert (Sg : forall p t, ({[ [] := a ]} : tables) !! p = Some t -> p = [] /\ t = a)
      by (intros p t; rewrite lookup_singleton_Some; intuition).
    split.
    - apply lookup_singleton_eq.
    - exists v. split; [by apply entry_store_same|]. unfold v. rewrite <-Z.lor_assoc. split.
      + by apply present_lor.
      + apply entry_frame; [lia|done|done].
    - intros p t [-> ->]%Sg. repeat split; [done..|]. by apply mapped_store.
    - intros p q t [-> _]%Sg [-> _]%Sg. done.
    - intros p t [-> _]%Sg. simpl. lia.
    - intros p i t [H _]%Sg. by destruct p.
    - intros p t i [-> ->]%Sg _ Hi Nr. exists 0. rewrite lookup_singleton_ne by done.
      split; [|done]. unfold m2. rewrite entry_store_other; [by apply entry_zeros|lia|done|].
      left. split; [done|]. intros <-. by apply Nr. }
  exists a, (set_fw w (set_mem m2 s)). st_simpl. split; [|split; [|split; [|split; [|split]]]].
  - unfold loader_paging_setup. pose proof (uefi_alloc_page_ret s st a c w A Hs) as Al.
    run_step Al. erewrite bind_ret; [|apply store_n_ret].
    2:{ eapply mapped_sub; [exact Mp|lia..]. }
    unfold mret, M_ret. st_simpl. reflexivity.
  - done.
  - done.
  - intros va N. rewrite (translate_leaf _ _ _ _ P0 N). unfold leaf, dir_of.
    by rewrite lookup_singleton_ne.
  - intros x [b Hx]. unfold m2, m1, store. rewrite !lookup_write_out; [done| |].
    + rewrite length_zero_page. intros Hb. rewrite U in Hx by lia. done.
    + rewrite length_le_bytes. intros Hb. rewrite U in Hx by lia. done.
  - unfold m2, store. rewrite dom_write_mapped.
    + unfold m1. rewrite dom_write_page by apply length_zero_page. exact CA'.
    + rewrite length_le_bytes. eapply mapped_sub; [exact Mp|lia..].
Qed.

End Ops.
