(* ===== verification/Handles.v ===== *)
(** * uefi/io.c, uefi/driver.c and uefi/init.c

    Starting the file system driver and connecting the devices nobody drives. *)

From S2P Require Import Prelude Memory Firmware State CString Printf PrintfFacts Console Alloc.
From S2P Require Import DevicePath Paging.

(** ** uefi/io.c *)

Definition EFI_HANDLE_TYPE_UNKNOWN : Z := 0x000.
Definition EFI_HANDLE_TYPE_IMAGE_HANDLE : Z := 0x001.
Definition EFI_HANDLE_TYPE_DRIVER_BINDING_HANDLE : Z := 0x002.
Definition EFI_HANDLE_TYPE_DEVICE_HANDLE : Z := 0x080.
Definition EFI_HANDLE_TYPE_PARENT_HANDLE : Z := 0x100.

Section Handles.
Context {E : Efi} {F : Firmware} {L : Layout} {K : Fuel}.

(** ( *handle_type)[i] |= flag *)
Definition add_type (slot flag : Z) : M unit :=
  t ← load32 slot; store32 slot (Z.lor t flag).

Definition add_type_if_guid (guid known slot flag : Z) : M unit :=
  c ← uefi_guid_compare guid known; if c =? 0 then add_type slot flag else skip.

(** for(k = 0; k < open_info_count; k++) *)
Fixpoint open_info_loop (open_info : list open_information) (slot controller : Z) : M unit :=
  match open_info with
  | [] => skip
  | e :: open_info =>
      _ ← (if (controller_handle e =? controller)
              && (Z.land (attributes e) EFI_OPEN_PROTOCOL_BY_CHILD_CONTROLLER
                  =? EFI_OPEN_PROTOCOL_BY_CHILD_CONTROLLER)
           then add_type slot EFI_HANDLE_TYPE_PARENT_HANDLE else skip);
      open_info_loop open_info slot controller
  end.

(** for(j = 0; j < array_count; j++) *)
Fixpoint protocols_loop (n : nat) (j array slot h controller : Z) : M unit :=
  match n with
  | O => skip
  | S n =>
      guid ← load64 (array + 8 * j);
      _ ← add_type_if_guid guid a_LoadedImageProtocol slot EFI_HANDLE_TYPE_IMAGE_HANDLE;
      _ ← add_type_if_guid guid a_DriverBindingProtocol slot EFI_HANDLE_TYPE_DRIVER_BINDING_HANDLE;
      _ ← add_type_if_guid guid a_DevicePathProtocol slot EFI_HANDLE_TYPE_DEVICE_HANDLE;
      '(status, open_info) ← reading (OpenProtocolInformation h guid);
      _ ← EFIERR (str "uefi/io.c") 55 status;
      _ ← open_info_loop open_info slot controller;
      protocols_loop n (j + 1) array slot h controller
  end.

(** for(i = 0; i < *handle_count; i++) *)
Fixpoint handles_loop (n : nat) (i buffer types controller : Z) : M unit :=
  match n with
  | O => skip
  | S n =>
      let slot := types + 4 * i in
      _ ← store32 slot EFI_HANDLE_TYPE_UNKNOWN;
      h ← load64 (buffer + 8 * i);
      '(status, array, count) ← publishing (ProtocolsPerHandle h);
      _ ← EFIERR (str "uefi/io.c") 36 status;
      _ ← protocols_loop (Z.to_nat count) 0 array slot h controller;
      handles_loop n (i + 1) buffer types controller
  end.

(** The number of handles, their buffer and the array of their types. *)
Definition uefi_io_parse_handles (controller : Z) : M (Z * Z * Z) :=
  '(status, count, buffer) ← publishing (LocateHandleBuffer None);
  _ ← EFIERR (str "uefi/io.c") 24 status;
  '(status, types) ← boot_AllocatePool EfiLoaderData (u64 (count * 4));
  _ ← EFIERR (str "uefi/io.c") 27 status;
  _ ← handles_loop (Z.to_nat count) 0 buffer types controller;
  mret (count, buffer, types).

(** Whether some handle is a parent of the controller. *)
Fixpoint has_parent_loop (n : nat) (i types : Z) (parent : bool) : M bool :=
  match n with
  | O => mret parent
  | S n =>
      t ← load32 (types + 4 * i);
      has_parent_loop n (i + 1) types
        (parent || negb (Z.land t EFI_HANDLE_TYPE_PARENT_HANDLE =? 0))
  end.

(** One handle of [uefi_io_reconnect]: its types are those at the same index of
    the second enumeration. *)
Definition reconnect_handle (i h : Z) : M unit :=
  '(count, buffer, types) ← uefi_io_parse_handles h;
  t ← load32 (types + 4 * i);
  if negb (Z.land t EFI_HANDLE_TYPE_DRIVER_BINDING_HANDLE =? 0)
     || negb (Z.land t EFI_HANDLE_TYPE_IMAGE_HANDLE =? 0) then skip
  else
    parent ← has_parent_loop (Z.to_nat count) 0 types false;
    if (parent : bool) then skip
    else
      t ← load32 (types + 4 * i);
      if negb (Z.land t EFI_HANDLE_TYPE_DEVICE_HANDLE =? 0) then
        _ ← firmware (ConnectController h true); skip
      else skip.

Fixpoint reconnect_loop (n : nat) (i all_buffer : Z) : M unit :=
  match n with
  | O => skip
  | S n =>
      h ← load64 (all_buffer + 8 * i);
      _ ← reconnect_handle i h;
      reconnect_loop n (i + 1) all_buffer
  end.

Definition uefi_io_reconnect : M unit :=
  '(status, all_count, all_buffer) ← publishing (LocateHandleBuffer None);
  _ ← EFIERR (str "uefi/io.c") 75 status;
  reconnect_loop (Z.to_nat all_count) 0 all_buffer.

(** ** uefi/driver.c *)

(** [LoadOptions] is set to L"", of length zero. *)
Definition uefi_driver_start (image path : Z) : M Z :=
  protocol ← uefi_devpath_from_path image path;
  '(status, driver_handle) ← reading (LoadImage image protocol);
  _ ← EFIERR (str "uefi/driver.c") 11 status;
  '(status, driver_image) ← firmware (HandleProtocol driver_handle LoadedImageProtocol);
  _ ← EFIERR (str "uefi/driver.c") 14 status;
  _ ← firmware (SetLoadOptions driver_image [] 0);
  status ← firmware (StartImage driver_handle);
  _ ← EFIERR (str "uefi/driver.c") 20 status;
  mret EFI_SUCCESS.

(** ** uefi/init.c, with the register moves of cpu/msr.asm *)

Definition efi_msr_read (n : Z) : M Z := gets (fun s => default 0 (msr (cpu s) !! n)).
Definition efi_msr_write (n value : Z) : M unit :=
  modify (fun s => set_cpu (CpuRegs (cr0 (cpu s)) (<[n := value]> (msr (cpu s)))) s).

Definition uefi_init : M unit :=
  _ ← loader_paging_wp_disable;
  efer ← efi_msr_read 0xC0000080;
  _ ← efi_msr_write 0xC0000080 (Z.lor efer 0x800);
  status ← firmware (SetWatchdogTimer 0 0);
  _ ← EFIERR (str "uefi/init.c") 13 status;
  status ← firmware ClearScreen;
  EFIERR (str "uefi/init.c") 16 status.

End Handles.
