(* ===== verification/Elf.v ===== *)
(** * ELF headers: elf/elf.c and include/elf64.h

    The field addresses of the packed structures, the header check and the page
    flags of a segment.  [elf64_ehdr] and [elf64_phdr] are the headers as
    values, with [ehdr_of] and [phdr_of] reading them from bytes; the header
    check is compared with [elf_defect]. *)

From S2P Require Import Prelude Memory Firmware State CString Printf PrintfFacts Console Alloc.
From S2P Require Import Paging.

(** ** include/elf64.h *)

Definition EI_MAG0 : Z := 0.
Definition EI_MAG0_VALUE : Z := 0x7F.
Definition EI_MAG1 : Z := 1.
Definition EI_MAG1_VALUE : Z := chr "E".
Definition EI_MAG2 : Z := 2.
Definition EI_MAG2_VALUE : Z := chr "L".
Definition EI_MAG3 : Z := 3.
Definition EI_MAG3_VALUE : Z := chr "F".
Definition EI_CLASS : Z := 4.
Definition EI_DATA : Z := 5.
Definition EI_VERSION : Z := 6.
Definition EI_OSABI : Z := 7.

Definition ELF_CLASS_64 : Z := 2.
Definition ELF_DATA_2LSB : Z := 1.
Definition ELF_OSABI_SYSTEMV : Z := 0.
Definition EM_X86_64 : Z := 62.
Definition ET_EXEC : Z := 2.
Definition PT_LOAD : Z := 1.
Definition PT_X : Z := 1.
Definition PT_W : Z := 2.

(** elf64_ehdr_t *)
Definition e_ident (header i : Z) : Z := header + i.
Definition e_type (header : Z) : Z := header + 16.
Definition e_machine (header : Z) : Z := header + 18.
Definition e_entry (header : Z) : Z := header + 24.
Definition e_phoff (header : Z) : Z := header + 32.
Definition e_phentsize (header : Z) : Z := header + 54.
Definition e_phnum (header : Z) : Z := header + 56.
Definition sizeof_ehdr : Z := 64.

(** elf64_phdr_t *)
Definition p_type (phdr : Z) : Z := phdr.
Definition p_flags (phdr : Z) : Z := phdr + 4.
Definition p_offset (phdr : Z) : Z := phdr + 8.
Definition p_vaddr (phdr : Z) : Z := phdr + 16.
Definition p_paddr (phdr : Z) : Z := phdr + 24.
Definition p_filesz (phdr : Z) : Z := phdr + 32.
Definition p_memsz (phdr : Z) : Z := phdr + 40.
Definition sizeof_phdr : Z := 56.

(** The headers as values, without the fields the loader ignores. *)
Record elf64_ehdr := Ehdr {
  ident : list Z; type : Z; machine : Z; entry_point : Z; phoff : Z; phentsize : Z; phnum : Z }.

Definition ehdr_of (bs : list Z) : elf64_ehdr :=
  Ehdr (chunk 0 16 bs) (le_num (chunk 16 2 bs)) (le_num (chunk 18 2 bs))
    (le_num (chunk 24 8 bs)) (le_num (chunk 32 8 bs)) (le_num (chunk 54 2 bs))
    (le_num (chunk 56 2 bs)).

Record elf64_phdr := Phdr {
  ptype : Z; flags : Z; offset : Z; vaddr : Z; paddr : Z; filesz : Z; memsz : Z }.

Definition phdr_of (bs : list Z) : elf64_phdr :=
  Phdr (le_num (chunk 0 4 bs)) (le_num (chunk 4 4 bs)) (le_num (chunk 8 8 bs))
    (le_num (chunk 16 8 bs)) (le_num (chunk 24 8 bs)) (le_num (chunk 32 8 bs))
    (le_num (chunk 40 8 bs)).

(** ** elf/elf.c *)

Definition efi_elf_phdr_flags (f : Z) : Z :=
  let flags := PAGE_PRESENT in
  let flags := if Z.lor f PT_X =? 0 then Z.lor flags PAGE_NX else flags in
  if negb (Z.lor f PT_W =? 0) then Z.lor flags PAGE_WRITE else flags.

Section Elf.
Context {F : Firmware} {E : Efi}.

(** [x && y] on conditions that read memory *)
Definition both (x y : M bool) : M bool := b ← x; if (b : bool) then y else mret false.

(** header->e_ident[i] != v *)
Definition ident_differs (header i v : Z) : M bool :=
  b ← load8 (e_ident header i); mret (negb (b =? v)).

(** [if(condition) efi_panic(msg, EFI_INVALID_PARAMETER);] *)
Definition panic_if (condition : M bool) (msg : list Z) : M unit :=
  bad ← condition; if (bad : bool) then efi_panic msg else skip.

Definition elf_header_check (header : Z) : M Z :=
  _ ← panic_if
        (both (ident_differs header EI_MAG0 EI_MAG0_VALUE)
        (both (ident_differs header EI_MAG1 EI_MAG1_VALUE)
        (both (ident_differs header EI_MAG2 EI_MAG2_VALUE)
              (ident_differs header EI_MAG3 EI_MAG3_VALUE))))
        (str "invalid ELF magic");
  _ ← panic_if (ident_differs header EI_CLASS ELF_CLASS_64) (str "invalid ELF class");
  _ ← panic_if (ident_differs header EI_DATA ELF_DATA_2LSB) (str "invalid ELF endianness");
  _ ← panic_if (ident_differs header EI_VERSION 1) (str "invalid ELF version");
  _ ← panic_if (ident_differs header EI_OSABI ELF_OSABI_SYSTEMV) (str "invalid ELF OS ABI");
  _ ← panic_if (t ← load16 (e_type header); mret (negb (t =? ET_EXEC))) (str "invalid ELF type");
  _ ← panic_if (t ← load16 (e_machine header); mret (negb (t =? EM_X86_64)))
        (str "invalid ELF machine type");
  mret EFI_SUCCESS.

End Elf.

(** ** What the check accepts *)

(** The conditions of the check on a header, in the order of the code. *)
Definition header_checks (h : elf64_ehdr) : list (bool * list Z) :=
  let id (i : nat) v := negb (ident h !!! i =? v) in
  [ (id 0%nat 0x7F && (id 1%nat (chr "E") && (id 2%nat (chr "L") && id 3%nat (chr "F"))),
     str "invalid ELF magic");
    (id 4%nat ELF_CLASS_64, str "invalid ELF class");
    (id 5%nat ELF_DATA_2LSB, str "invalid ELF endianness");
    (id 6%nat 1, str "invalid ELF version");
    (id 7%nat ELF_OSABI_SYSTEMV, str "invalid ELF OS ABI");
    (negb (type h =? ET_EXEC), str "invalid ELF type");
    (negb (machine h =? EM_X86_64), str "invalid ELF machine type") ].

(** The message of the first condition that holds. *)
Fixpoint first_defect (checks : list (bool * list Z)) : option (list Z) :=
  match checks with
  | [] => None
  | (bad, msg) :: checks => if (bad : bool) then Some msg else first_defect checks
  end.

Definition elf_defect (h : elf64_ehdr) : option (list Z) := first_defect (header_checks h).

(** A header the loader boots: the magic is wrong only if all four bytes are. *)
Record elf_accepted (h : elf64_ehdr) : Prop := {
  acc_magic : ident h !!! 0%nat = 0x7F \/ ident h !!! 1%nat = chr "E"
              \/ ident h !!! 2%nat = chr "L" \/ ident h !!! 3%nat = chr "F";
  acc_class : ident h !!! 4%nat = ELF_CLASS_64;
  acc_data : ident h !!! 5%nat = ELF_DATA_2LSB;
  acc_version : ident h !!! 6%nat = 1;
  acc_abi : ident h !!! 7%nat = ELF_OSABI_SYSTEMV;
  acc_type : type h = ET_EXEC;
  acc_machine : machine h = EM_X86_64;
}.

Section Facts.
Context {F : Firmware} {E : Efi}.

(** The outcome of the checks in state [s]. *)
Definition check_outcome (defect : option (list Z)) (s : state) : outcome Z :=
  match defect with
  | None => Ret EFI_SUCCESS s
  | Some msg => Halt (Panicked msg) (set_fw (OutputString msg (fw s)).2 s)
  end.

Lemma panic_if_step condition b msg (k : unit -> M Z) checks s :
  condition s = Ret b s -> k tt s = check_outcome (first_defect checks) s ->
  (panic_if condition msg ≫= k) s = check_outcome (first_defect ((b, msg) :: checks)) s.
Proof.
  intros C Hk. unfold panic_if. rewrite bind_assoc. run_step C. destruct b; [|exact Hk].
  unfold efi_panic, firmware, mbind, M_bind. cbn [first_defect check_outcome].
  by destruct (OutputString msg (fw s)).
Qed.

Lemma load_field {bs a s} n o :
  read_bytes (mem s) a 64 = Some bs -> (o + n <= 64)%nat ->
  load_n n (a + Z.of_nat o) s = Ret (le_num (chunk o n bs)) s.
Proof. intros R Ho. apply load_n_ret. by eapply load_read. Qed.

Lemma ident_differs_ret bs a s (i : nat) v :
  read_bytes (mem s) a 64 = Some bs -> (i < 16)%nat ->
  ident_differs a (Z.of_nat i) v s = Ret (negb (ident (ehdr_of bs) !!! i =? v)) s.
Proof.
  intros R Hi. pose proof (read_bytes_length _ _ _ _ R) as Hl.
  unfold ident_differs, e_ident. erewrite bind_ret.
  2:{ apply load8_read. rewrite <-(read_bytes_lookup _ _ _ _ i R) by lia.
      apply list_lookup_lookup_total_lt. lia. }
  unfold ehdr_of, ident, chunk. rewrite drop_0, !list_lookup_total_alt, lookup_take_lt by lia.
  done.
Qed.

Lemma both_ret x y a b s : x s = Ret a s -> y s = Ret b s -> both x y s = Ret (a && b) s.
Proof. intros X Y. unfold both. run_step X. by destruct a. Qed.

Lemma elf_header_check_ret s header bs :
  read_bytes (mem s) header 64 = Some bs ->
  elf_header_check header s = check_outcome (elf_defect (ehdr_of bs)) s.
Proof.
  intros Hh. pose proof (fun i v => ident_differs_ret bs header s i v Hh) as Id.
  unfold elf_header_check, elf_defect, header_checks.
  apply panic_if_step.
  { repeat apply both_ret; [apply (Id 0%nat)|apply (Id 1%nat)|apply (Id 2%nat)|apply (Id 3%nat)]; lia. }
  apply panic_if_step; [apply (Id 4%nat); lia|].
  apply panic_if_step; [apply (Id 5%nat); lia|].
  apply panic_if_step; [apply (Id 6%nat); lia|].
  apply panic_if_step; [apply (Id 7%nat); lia|].
  apply panic_if_step.
  { run_step (load_field 2 16 Hh ltac:(lia)). done. }
  apply panic_if_step; [|done].
  run_step (load_field 2 18 Hh ltac:(lia)). done.
Qed.

Lemma elf_defect_accepted h : elf_defect h = None <-> elf_accepted h.
Proof.
  unfold elf_defect, header_checks. cbn [first_defect]. split.
  - repeat match goal with |- context [if ?b then Some _ else _] =>
      destruct b eqn:?; [done|] end.
    intros _. rewrite !andb_false_iff, !negb_false_iff, !Z.eqb_eq in *. split; tauto.
  - intros [Mg C D V A T Mc]. rewrite C, D, V, A, T, Mc.
    replace (_ && _) with false; [done|]. symmetry.
    rewrite !andb_false_iff, !negb_false_iff, !Z.eqb_eq. tauto.
Qed.

(** The flags argument is combined with [|] instead of [&]: it does not matter. *)
Lemma efi_elf_phdr_flags_constant f : 0 <= f -> efi_elf_phdr_flags f = Z.lor PAGE_PRESENT PAGE_WRITE.
Proof.
  intros Hf. unfold efi_elf_phdr_flags.
  assert (N : forall b, 0 < b -> (Z.lor f b =? 0) = false).
  { intros b Hb. apply Z.eqb_neq. rewrite Z.lor_eq_0_iff. lia. }
  rewrite !N by done. done.
Qed.

End Facts.
