(* ===== verification/Files.v ===== *)
(** * fs/: the file operations of the loader

    [fs_open], [fs_read] and [fs_get_file_info] on the firmware's file
    protocol.  What a client relies on when it reads is the class [FileSupply] of
    SegmentFacts.v. *)

From S2P Require Import Prelude Memory Firmware State CString Printf PrintfFacts Console Alloc.

Section Files.
Context {E : Efi} {F : Firmware} {L : Layout} {K : Fuel} {H : ImageHandle}.

(** efi_file_info *)
Definition info_FileSize (file_info : Z) : Z := file_info + offsetof_FileSize.

(** fs/open.c: the status and the file *)
Definition fs_open (path : list Z) : M (Z * Z) :=
  '(status, loaded_image) ← firmware (HandleProtocol handle LoadedImageProtocol);
  _ ← EFIERR (str "fs/open.c") 10 status;
  device ← gets (fun s => DeviceHandle loaded_image (fw s));
  '(status, file_system) ← firmware (HandleProtocol device SimpleFileSystemProtocol);
  _ ← EFIERR (str "fs/open.c") 14 status;
  '(status, root) ← firmware (OpenVolume file_system);
  _ ← EFIERR (str "fs/open.c") 18 status;
  '(s, file) ← firmware (FileOpen root path EFI_FILE_MODE_READ EFI_FILE_READ_ONLY);
  if negb (s =? EFI_SUCCESS) then efi_panic (str "file not found" ++ newline)
  else mret (EFI_SUCCESS, file).

(** file->Read(file, &size, buf): the status and the new size *)
Definition file_Read (file size buf : Z) : M (Z * Z) :=
  '(status, data) ← firmware (FileRead file size);
  _ ← write_block buf data;
  mret (status, zlen data).

(** fs/read.c *)
Definition fs_read (file len offset buf : Z) : M unit :=
  status ← firmware (FileSetPosition file offset);
  _ ← EFIERR (str "fs/read.c") 6 status;
  '(status, len) ← file_Read file len buf;
  _ ← EFIERR (str "fs/read.c") 9 status;
  status ← firmware (FileSetPosition file 0);
  EFIERR (str "fs/read.c") 12 status.

(** fs/utils.c.  The first call, with a null buffer of one byte, asks for the size
    of the information; the status of the second is not used. *)
Definition fs_get_file_info (file : Z) : M Z :=
  '(status, info_len, info) ← firmware (FileGetInfo file 1);
  _ ← write_block 0 info;
  if negb (status =? EFI_SUCCESS) && negb (status =? EFI_BUFFER_TOO_SMALL) then
    efi_panic (str "couldn't get file info")
  else
    file_info ← malloc info_len;
    '(status, info_len, info) ← firmware (FileGetInfo file info_len);
    _ ← write_block file_info info;
    mret file_info.

End Files.
