(* ===== verification/Segments.v ===== *)
(** * Loading the segments of the kernel

    loader/parse.c and [loader_kernel_phdrs] of loader/kernel.c. *)

From S2P Require Import Prelude Memory Firmware State CString Printf PrintfFacts Console Alloc.
From S2P Require Import Paging PagingFacts Elf Files.

Section Segments.
Context {E : Efi} {F : Firmware} {L : Layout} {K : Fuel}.

(** ** loader/parse.c *)

Definition loader_parse_header (kernel header : Z) : M Z :=
  '(status, size) ← file_Read kernel sizeof_ehdr header;
  _ ← EFIERR (str "loader/parse.c") 8 status;
  mret EFI_SUCCESS.

(** The status and the value of [*phdrs]. *)
Definition loader_parse_phdrs (kernel header : Z) : M (Z * Z) :=
  offset ← load64 (e_phoff header);
  status ← firmware (FileSetPosition kernel offset);
  _ ← EFIERR (str "loader/parse.c") 15 status;
  num ← load16 (e_phnum header);
  entsize ← load16 (e_phentsize header);
  let size := u64 (num * entsize) in
  '(status, phdrs) ← boot_AllocatePool EfiLoaderData size;
  _ ← EFIERR (str "loader/parse.c") 18 status;
  '(status, size) ← file_Read kernel size phdrs;
  _ ← EFIERR (str "loader/parse.c") 20 status;
  mret (EFI_SUCCESS, phdrs).

(** ** loader/kernel.c *)

(** for(i = 0; i < pages; i++) loader_paging_map(pml4, ...): the virtual address
    is read again for each page. *)
Fixpoint map_segment_loop (n : nat) (i phdr pml4 physical flags : Z) : M unit :=
  match n with
  | O => skip
  | S n =>
      virtual ← load64 (p_vaddr phdr);
      _ ← loader_paging_map pml4 (u64 (physical + u64 (Z.shiftl i 12)))
            (u64 (virtual + u64 (Z.shiftl i 12))) flags;
      map_segment_loop n (i + 1) phdr pml4 physical flags
  end.

(** The body of the loop for a PT_LOAD header, in three steps.  The first makes
    room for the segment and reads it: AllocateAnyPages ignores the address it is
    given, p_paddr; the statuses of SetPosition and Read are not used. *)
Definition fill_segment (kernel phdr : Z) : M (Z * Z) :=
  memsz ← load64 (p_memsz phdr);
  let pages := u64 (memsz + 0xfff) / 0x1000 in
  _ ← load64 (p_paddr phdr);
  '(status, physical) ← boot_AllocatePages EfiLoaderData pages;
  _ ← (if EFI_ERROR status then
         _ ← efi_print (uefi_strerror status); efi_panic (str " error mapping kernel")
       else skip);
  offset ← load64 (p_offset phdr);
  _ ← firmware (FileSetPosition kernel offset);
  size ← load64 (p_filesz phdr);
  _ ← file_Read kernel size physical;
  mret (pages, physical).

(** The last clears what the file does not provide. *)
Definition clear_tail (phdr physical : Z) : M unit :=
  memsz ← load64 (p_memsz phdr);
  filesz ← load64 (p_filesz phdr);
  let rest := u64 (memsz - filesz) in
  if 0 <? rest then _ ← memset (u64 (physical + filesz)) 0 rest; skip else skip.

Definition load_segment (kernel phdr pml4 : Z) : M unit :=
  '(pages, physical) ← fill_segment kernel phdr;
  f ← load32 (p_flags phdr);
  let flags := efi_elf_phdr_flags f in
  _ ← map_segment_loop (Z.to_nat pages) 0 phdr pml4 physical flags;
  clear_tail phdr physical.

(** e_phnum * e_phentsize is an [int]. *)
Definition phdrs_size (header : Z) : M Z :=
  num ← load16 (e_phnum header);
  entsize ← load16 (e_phentsize header);
  mret (s32 (num * entsize)).

Fixpoint phdrs_loop (fuel : nat) (kernel header pml4 phdrs phdr : Z) : M unit :=
  size ← phdrs_size header;
  if u64 (phdrs + size) <=? phdr then skip
  else
    match fuel with
    | O => fun _ => NoFuel
    | S fuel =>
        type ← load32 (p_type phdr);
        _ ← (if type =? PT_LOAD then load_segment kernel phdr pml4 else skip);
        entsize ← load16 (e_phentsize header);
        phdrs_loop fuel kernel header pml4 phdrs (u64 (phdr + entsize))
    end.

(** Every round advances by e_phentsize, which is not zero when the loop is
    entered, so the distance to the end bounds the number of rounds. *)
Definition loader_kernel_phdrs (kernel header pml4 : Z) : M unit :=
  '(_, phdrs) ← loader_parse_phdrs kernel header;
  size ← phdrs_size header;
  _ ← phdrs_loop (Z.to_nat (u64 (phdrs + size) - phdrs)) kernel header pml4 phdrs phdrs;
  free phdrs.

End Segments.
