(* ===== verification/SegmentFacts.v ===== *)
(** * Correctness of loading the segments

    What [loader_kernel_phdrs] must achieve is stated on the values of the
    headers: [segment_bytes] is the memory image of a segment, [virt_byte] what
    the processor reads at a virtual address.  [evolves] is the relation of the
    loader's steps to the memory in use: storage that was in use outside the
    page tables keeps its contents, and pages that are not [touched] translate
    as before. *)

From S2P Require Import Prelude Memory Firmware State CString Printf PrintfFacts Console Alloc.
From S2P Require Import Paging PagingFacts Elf Files Segments.

(** ** Specification *)

Definition pages_of (n : Z) : Z := (n + 0xfff) / 0x1000.

(** The number of [va]'s page counted from the page of [base], in the 48-bit
    address space. *)
Definition page_index (base va : Z) : Z := (vpn va - vpn base) mod 2 ^ 36.

Definition in_pages (ph : elf64_phdr) (va : Z) : Prop :=
  page_index (vaddr ph) va < pages_of (memsz ph).

Definition segment_bytes (image : list Z) (ph : elf64_phdr) : list Z :=
  chunk (Z.to_nat (offset ph)) (Z.to_nat (filesz ph)) image
  ++ replicate (Z.to_nat (memsz ph - filesz ph)) 0.

(** A segment of the file that can be loaded. *)
Record loadable (image : list Z) (ph : elf64_phdr) : Prop := {
  ld_offset : 0 <= offset ph;
  ld_file : offset ph + filesz ph <= zlen image;
  ld_sizes : 0 <= filesz ph <= memsz ph;
  ld_memsz : 0 < memsz ph <= 2 ^ 47;
  ld_vaddr : 0 <= vaddr ph /\ vaddr ph mod 4096 = 0;
  ld_end : vaddr ph + 4096 * pages_of (memsz ph) <= 2 ^ 64;
  ld_slot : clear_of_slot (vpn (vaddr ph)) (pages_of (memsz ph));
}.

(** The byte at a virtual address. *)
Definition virt_byte (m : memory) (root va : Z) : option Z :=
  e ← translate m root va; m !! (Z.land e PAGE_MASK + va mod 4096).

Section Spec.
Context {F : Firmware}.

Record evolves (root : Z) (s s' : state) (tbl tbl' : tables) (touched : Z -> Prop) : Prop := {
  ev_pt : PT (mem s') tbl' root;
  ev_frame x : is_Some (mem s !! x) -> outside tbl x ->
    mem s' !! x = mem s !! x /\ outside tbl' x;
  ev_mapped x : is_Some (mem s !! x) -> is_Some (mem s' !! x);
  ev_same va : 0 <= va < 2 ^ 64 -> slice 39 va <> 510 -> ~ touched va ->
    translate (mem s') root va = translate (mem s) root va;
  ev_rest : exists m w, s' = set_fw w (set_mem m s);
}.

(** An object outside the page tables. *)
Record stored (s : state) (tbl : tables) (a : Z) (bs : list Z) : Prop := {
  st_holds : holds (mem s) a (zlen bs) bs;
  st_outside x : a <= x < a + zlen bs -> outside tbl x;
}.

(** The segment [ph] is in memory that was not in use before, and mapped. *)
Record loaded (D : gset Z) (image : list Z) (root : Z) (s : state) (tbl : tables)
    (ph : elf64_phdr) (a : Z) : Prop := {
  lo_page : 0 < a /\ a mod 4096 = 0 /\ a + 4096 * pages_of (memsz ph) <= 2 ^ 52;
  lo_fresh x : a <= x < a + 4096 * pages_of (memsz ph) ->
    (x ∉ D) /\ is_Some (mem s !! x) /\ outside tbl x;
  lo_bytes : read_bytes (mem s) a (Z.to_nat (memsz ph)) = Some (segment_bytes image ph);
  lo_map va : 0 <= va < 2 ^ 64 -> slice 39 va <> 510 -> in_pages ph va ->
    translate (mem s) root va
    = Some (Z.lor (a + 4096 * page_index (vaddr ph) va) (Z.lor PAGE_PRESENT PAGE_WRITE));
}.

(** The firmware has [k] pages left for a program with memory [D], and the file
    [kernel] has the contents [image] and the position [p].  The laws are those
    of the services the loader uses in between. *)
Class FileSupply {E : Efi} (kernel : Z) (image : list Z) := {
  ready : nat -> Z -> gset Z -> fwst -> Prop;
  ready_less k p D w : ready (S k) p D w -> ready k p D w;
  ready_sub k p D D' w : D' ⊆ D -> ready k p D w -> ready k p D' w;
  ready_pages n k p D w m st a c w' :
    ready (n + k) p D w -> dom m = D -> (0 < n)%nat ->
    AllocatePages EfiLoaderData (Z.of_nat n) m w = (st, a, c, w') ->
    EFI_ERROR st = false
    /\ ready k p (D ∪ dom (write_bytes ∅ a (replicate (Z.to_nat (4096 * Z.of_nat n)) 0))) w';
  ready_pool n k p D w m size st a c w' :
    ready (n + k) p D w -> dom m = D -> 0 <= size <= 4096 * Z.of_nat n ->
    AllocatePool EfiLoaderData size m w = (st, a, c, w') ->
    EFI_ERROR st = false
    /\ ready k p (D ∪ dom (write_bytes ∅ a (replicate (Z.to_nat size) 0))) w';
  ready_free k p D w q st w' :
    ready k p D w -> FreePool q w = (st, w') -> EFI_ERROR st = false /\ ready k p D w';
  ready_seek k p D w q :
    ready k p D w -> exists w', FileSetPosition kernel q w = (EFI_SUCCESS, w') /\ ready k q D w';
  ready_read k p D w n :
    ready k p D w -> 0 <= p <= zlen image -> 0 <= n ->
    exists w', FileRead kernel n w = (EFI_SUCCESS, chunk (Z.to_nat p) (Z.to_nat n) image, w')
      /\ ready k (p + zlen (chunk (Z.to_nat p) (Z.to_nat n) image)) D w';
}.

End Spec.

(** ** Page numbers *)

Lemma page_index_range base va : 0 <= page_index base va < 2 ^ 36.
Proof. apply Z.mod_pos_bound. lia. Qed.

Lemma same_page_index base va j :
  0 <= base -> base mod 4096 = 0 -> 0 <= j < 2 ^ 36 ->
  same_page va (base + 4096 * j) <-> page_index base va = j.
Proof.
  intros Hb Al Hj. unfold same_page, page_index, vpn.
  replace ((base + 4096 * j) / 4096) with (base / 4096 + j) by dlia.
  generalize (va / 4096) (base / 4096). intros x y.
  change (2 ^ 36) with 0x1000000000 in *. split; intros; dlia.
Qed.

Lemma vpn_add base j :
  base mod 4096 = 0 -> vpn (base + 4096 * j) = (vpn base + j) mod 2 ^ 36.
Proof.
  intros Al. unfold vpn. replace ((base + 4096 * j) / 4096) with (base / 4096 + j) by dlia.
  by rewrite Zplus_mod_idemp_l.
Qed.

Lemma clear_of_slot_page base j n :
  clear_of_slot (vpn base) n -> 0 <= base -> base mod 4096 = 0 -> 0 <= j < n ->
  slice 39 (base + 4096 * j) <> 510.
Proof.
  intros Cl Hb Al Hj. rewrite slice_vpn, vpn_add by lia.
  specialize (Cl (vpn base + j) ltac:(lia)). revert Cl. generalize (vpn base + j).
  change (2 ^ 36) with 0x1000000000. change (2 ^ 27) with 0x8000000. intros z N. contradict N.
  dlia.
Qed.

(** ** The tables and the rest of memory *)

Section Facts.
Context {E : Efi} {F : Firmware} {L : Layout} {K : Fuel} {AL : AllocLaws E F}.

Lemma PT_agree m m' tbl root :
  PT m tbl root -> (forall p t, tbl !! p = Some t -> agree m m' t 4096) -> PT m' tbl root.
Proof.
  intros I A.
  assert (En : forall p t i, tbl !! p = Some t -> 0 <= i < 512 -> entry m' t i = entry m t i).
  { intros p t i Hp Hi. apply entry_agree; [done|]. by eapply A. }
  split; try apply I.
  - destruct (pt_self _ _ _ I) as (e & He & R). exists e. split; [|done].
    rewrite (En [] root); [done|apply I|lia].
  - intros p t Hp. destruct (pt_page _ _ _ I p t Hp) as (? & ? & ? & Mp).
    repeat split; try done. intros x Hx. rewrite (A p t Hp) by done. by apply Mp.
  - intros p t i Hp Hl Hi Nr. destruct (pt_child _ _ _ I p t i Hp Hl Hi Nr) as (e & He & Hc).
    exists e. split; [|done]. by rewrite (En p t).
Qed.

Lemma translate_agree m m' tbl root va :
  PT m tbl root -> (forall p t, tbl !! p = Some t -> agree m m' t 4096) ->
  slice 39 va <> 510 -> translate m' root va = translate m root va.
Proof.
  intros I A N. rewrite (translate_leaf _ tbl _ _ (PT_agree _ _ _ _ I A) N).
  rewrite (translate_leaf _ tbl _ _ I N). unfold leaf.
  destruct (tbl !! dir_of va) as [t|] eqn:Ht; [|done]. cbv [mbind option_bind].
  rewrite (entry_agree m m'); [done|apply slice_range|by eapply A].
Qed.

Lemma outside_agree m a bs tbl :
  (forall x, a <= x < a + zlen bs -> outside tbl x) ->
  forall p t, tbl !! p = Some t -> agree m (write_bytes m a bs) t 4096.
Proof.
  intros O p t Hp x Hx. apply lookup_write_out. intros Hb. by apply (O x Hb p t Hp).
Qed.

(** Fresh storage is outside the tables. *)
Lemma unmapped_outside m tbl root a n x :
  PT m tbl root -> unmapped m a n -> a <= x < a + n -> outside tbl x.
Proof.
  intros I U Hx p t Hp Ht. destruct (pt_page _ _ _ I p t Hp) as (_ & _ & _ & Mp).
  destruct (Mp x Ht) as [b Hb]. rewrite U in Hb by done. done.
Qed.

(** ** [evolves] *)

Lemma evolves_refl root s tbl : PT (mem s) tbl root -> evolves root s s tbl tbl (fun _ => False).
Proof. intros I. split; auto. exists (mem s), (fw s). by destruct s. Qed.

Lemma evolves_trans root s1 s2 s3 t1 t2 t3 P Q :
  evolves root s1 s2 t1 t2 P -> evolves root s2 s3 t2 t3 Q ->
  evolves root s1 s3 t1 t3 (fun va => P va \/ Q va).
Proof.
  intros X Y. split.
  - apply Y.
  - intros x Hx O. destruct (ev_frame _ _ _ _ _ _ X x Hx O) as [E1 O1].
    destruct (ev_frame _ _ _ _ _ _ Y x) as [E2 O2]; [by rewrite E1|done|].
    by rewrite E2, E1.
  - intros x Hx. by apply Y, X.
  - intros va Hva N T. rewrite (ev_same _ _ _ _ _ _ Y), (ev_same _ _ _ _ _ _ X) by tauto. done.
  - destruct (ev_rest _ _ _ _ _ _ X) as (m & w & ->).
    destruct (ev_rest _ _ _ _ _ _ Y) as (m' & w' & ->). by exists m', w'.
Qed.

Lemma evolves_weaken root s s' tbl tbl' P Q :
  (forall va, P va -> Q va) -> evolves root s s' tbl tbl' P -> evolves root s s' tbl tbl' Q.
Proof. intros PQ [? ? ? Sm ?]. split; try done. intros va Hva N T. apply Sm; auto. Qed.

Lemma evolves_fw root s s' w tbl tbl' P :
  evolves root s s' tbl tbl' P -> evolves root s (set_fw w s') tbl tbl' P.
Proof.
  intros [? ? ? ? (m & w' & ->)]. split; try done. by exists m, w.
Qed.

(** Storage that was not in use may be written. *)
Lemma evolves_write root s s' tbl tbl' P a bs :
  evolves root s s' tbl tbl' P ->
  (forall x, a <= x < a + zlen bs -> mem s !! x = None /\ outside tbl' x) ->
  evolves root s (set_mem (write_bytes (mem s') a bs) s') tbl tbl' P.
Proof.
  intros X N.
  assert (A : forall p t, tbl' !! p = Some t -> agree (mem s') (write_bytes (mem s') a bs) t 4096)
    by (apply outside_agree; intros x Hx; by apply N).
  split; cbn [mem set_mem].
  - eapply PT_agree; [apply X|exact A].
  - intros x Hx O. destruct (ev_frame _ _ _ _ _ _ X x Hx O) as [E1 O1]. split; [|done].
    rewrite lookup_write_out; [done|]. intros Hb. destruct (N x Hb) as [Nx _].
    rewrite Nx in Hx. by destruct Hx.
  - intros x Hx. rewrite lookup_write_bytes. case_decide; [|by apply X].
    apply lookup_lt_is_Some. lia.
  - intros va Hva Ns T. rewrite (translate_agree (mem s') _ tbl'); [by apply X|apply X|exact A|done].
  - destruct (ev_rest _ _ _ _ _ _ X) as (m & w & ->). by eexists _, w.
Qed.

Lemma evolves_extends root s s' tbl tbl' P :
  extends root s s' tbl tbl' ->
  (forall va, 0 <= va < 2 ^ 64 -> slice 39 va <> 510 -> ~ P va ->
    translate (mem s') root va = translate (mem s) root va) ->
  evolves root s s' tbl tbl' P.
Proof.
  intros X T. split; [apply X| |apply X|done|].
  - intros x Hx O. split; [by apply X|]. eapply outside_fresh; eauto.
  - destruct (ex_rest _ _ _ _ _ X) as (m & w & ->). by exists m, w.
Qed.

Lemma stored_evolves root s s' tbl tbl' P a bs :
  evolves root s s' tbl tbl' P -> stored s tbl a bs -> stored s' tbl' a bs.
Proof.
  intros X [Hh O]. pose proof (holds_mapped _ _ _ _ Hh ltac:(lia)) as Mp. split.
  - eapply holds_agree; [exact Hh|lia|]. intros x Hx. apply X; auto.
  - intros x Hx. apply (ev_frame _ _ _ _ _ _ X x); auto.
Qed.

Lemma stored_fw s tbl a bs w : stored s tbl a bs -> stored (set_fw w s) tbl a bs.
Proof. by intros [Hh O]; split. Qed.

Lemma loaded_evolves D image root s s' tbl tbl' P ph a :
  evolves root s s' tbl tbl' P -> (forall va, in_pages ph va -> ~ P va) ->
  0 <= memsz ph -> loaded D image root s tbl ph a -> loaded D image root s' tbl' ph a.
Proof.
  intros X N Hm [Pg Fr By Mp]. split; [done| | |].
  - intros x Hx. destruct (Fr x Hx) as (Nx & Sx & Ox).
    destruct (ev_frame _ _ _ _ _ _ X x Sx Ox) as [-> ?]. done.
  - rewrite <-By. apply read_bytes_agree. intros x Hx. rewrite Z2Nat.id in Hx by done.
    destruct (Fr x) as (_ & Sx & Ox); [unfold pages_of; dlia|]. by apply X.
  - intros va Hva Ns Hp. rewrite (ev_same _ _ _ _ _ _ X) by auto. by apply Mp.
Qed.

(** ** A segment *)

Context {kernel : Z} {image : list Z} {FS : FileSupply kernel image}.

(** The page table code draws on the same firmware. *)
Definition file_pages (p : Z) : PageSupply.
Proof.
  refine {| supply k := ready k p; supply_less k := ready_less k p |}.
  intros k D w m st a c w' Rd Dm A.
  destruct (ready_pages 1 k p D w m st a c w' Rd Dm ltac:(lia) A) as [St Rd']. split; [done|].
  rewrite dom_write_page in Rd' by (rewrite length_replicate; lia).
  by rewrite dom_empty_L, union_empty_l_L in Rd'.
Defined.

Lemma load_phdr {bs a s tbl} n o :
  stored s tbl a bs -> sizeof_phdr <= zlen bs -> Z.of_nat (o + n) <= 56 ->
  load_n n (a + Z.of_nat o) s = Ret (le_num (chunk o n bs)) s.
Proof.
  intros [Hh _] Hl Ho. apply load_n_ret. eapply load_chunk; [exact Hh|lia|].
  change sizeof_phdr with 56 in Hl. lia.
Qed.

Lemma map_segment_loop_spec p k phdr bs root a fl n : forall i s tbl,
  let v := vaddr (phdr_of bs) in
  PT (mem s) tbl root -> stored s tbl phdr bs -> sizeof_phdr <= zlen bs ->
  0 <= a -> a + 4096 * (i + Z.of_nat n) <= 2 ^ 52 ->
  0 <= v -> v mod 4096 = 0 -> v + 4096 * (i + Z.of_nat n) <= 2 ^ 64 ->
  0 <= i -> i + Z.of_nat n <= 2 ^ 36 -> clear_of_slot (vpn v) (i + Z.of_nat n) ->
  entry_flags fl -> ready (3 * n + k) p (dom (mem s)) (fw s) ->
  exists s' tbl', map_segment_loop n i phdr root a fl s = Ret tt s'
    /\ evolves root s s' tbl tbl' (fun va => i <= page_index v va < i + Z.of_nat n)
    /\ ready k p (dom (mem s')) (fw s')
    /\ forall va, 0 <= va < 2 ^ 64 -> slice 39 va <> 510 ->
         i <= page_index v va < i + Z.of_nat n ->
         translate (mem s') root va = Some (Z.lor (a + 4096 * page_index v va) fl).
Proof.
  induction n as [|n IH]; intros i s tbl v I St Hl Ha Am Hv Al Vm Hi Im Cl Hf Rd.
  - exists s, tbl. split; [done|]. split; [|split; [done|lia] ].
    eapply evolves_weaken; [|by apply evolves_refl]. done.
  - cbn [map_segment_loop]. run_step (load_phdr 8 16 St Hl ltac:(lia)).
    change (le_num (chunk 16 8 bs)) with v.
    assert (Sh : u64 (Z.shiftl i 12) = 4096 * i).
    { rewrite Z.shiftl_mul_pow2 by lia. change (2 ^ 12) with 4096. rewrite wrap_small; lia. }
    rewrite Sh, (wrap_small 64 (a + 4096 * i)), (wrap_small 64 (v + 4096 * i)) by lia.
    destruct (loader_paging_map_present (PS := file_pages p) root s tbl (a + 4096 * i)
      (v + 4096 * i) fl (3 * n + k)) as (s1 & tbl1 & R1 & X1 & CA1 & T1); try done; try lia.
    { apply (clear_of_slot_page v i (i + Z.of_nat (S n))); auto; lia. }
    { cbn [supply file_pages]. by replace (3 + (3 * n + k))%nat with (3 * S n + k)%nat by lia. }
    assert (Sp : forall va, same_page va (v + 4096 * i) <-> page_index v va = i)
      by (intros va; apply same_page_index; lia).
    assert (Ev : evolves root s s1 tbl tbl1 (fun va => page_index v va = i)).
    { apply evolves_extends; [done|]. intros va Hva Ns N. rewrite T1 by done.
      rewrite decide_False; [done|]. by rewrite Sp. }
    destruct (IH (i + 1) s1 tbl1) as (s2 & tbl2 & R2 & X2 & CA2 & T2); try done; try lia.
    { apply X1. }
    { eapply stored_evolves; eauto. }
    { by replace (i + 1 + Z.of_nat n) with (i + Z.of_nat (S n)) by lia. }
    exists s2, tbl2. run_step R1. split; [exact R2|]. split; [|split; [done|] ].
    + eapply evolves_weaken; [|by eapply evolves_trans]. intros va. cbn beta. fold v. lia.
    + intros va Hva Ns Hp. fold v in X2, T2. destruct (decide (page_index v va = i)) as [Ei|Ni].
      * rewrite (ev_same _ _ _ _ _ _ X2), T1 by (done || lia). rewrite decide_True by by apply Sp.
        by rewrite Ei.
      * apply T2; [done|done|lia].
Qed.

(** Pages for a segment, filled from the file. *)
Definition filled (s : state) (a : Z) (junk data : list Z) (w : fwst) : state :=
  set_fw w (set_mem (write_bytes (write_bytes (mem s) a junk) a data) s).

Lemma filled_evolves root s tbl a junk data w :
  PT (mem s) tbl root -> unmapped (mem s) a (zlen junk) -> zlen data <= zlen junk ->
  evolves root s (filled s a junk data w) tbl tbl (fun _ => False).
Proof.
  intros I U Hl. unfold filled. apply evolves_fw.
  assert (N : forall x, a <= x < a + zlen junk -> mem s !! x = None /\ outside tbl x).
  { intros x Hx. split; [by apply U|]. by eapply unmapped_outside. }
  rewrite <-(set_mem_twice _ (write_bytes (mem s) a junk)).
  apply (evolves_write root s (set_mem (write_bytes (mem s) a junk) s)).
  - apply evolves_write; [by apply evolves_refl|done].
  - intros x Hx. apply N. lia.
Qed.

Lemma filled_dom s a junk data w :
  zlen data <= zlen junk ->
  dom (mem (filled s a junk data w))
  = dom (mem s) ∪ dom (write_bytes ∅ a (replicate (length junk) 0)).
Proof.
  intros Hl. cbn [mem filled set_mem set_fw].
  rewrite dom_write_mapped; [apply dom_write_bytes|].
  eapply mapped_sub; [apply mapped_write_self|lia..].
Qed.

(** The tail of a segment is cleared, and the segment is complete. *)
Lemma clear_tail_loaded root s s' tbl tbl' P a ph n :
  evolves root s s' tbl tbl' P -> loadable image ph -> n = pages_of (memsz ph) ->
  0 < a /\ a mod 4096 = 0 /\ a + 4096 * n <= 2 ^ 52 -> unmapped (mem s) a (4096 * n) ->
  (forall x, a <= x < a + 4096 * n -> is_Some (mem s' !! x) /\ outside tbl' x) ->
  read_bytes (mem s') a (Z.to_nat (filesz ph))
  = Some (chunk (Z.to_nat (offset ph)) (Z.to_nat (filesz ph)) image) ->
  (forall va, 0 <= va < 2 ^ 64 -> slice 39 va <> 510 -> in_pages ph va ->
    translate (mem s') root va
    = Some (Z.lor (a + 4096 * page_index (vaddr ph) va) (Z.lor PAGE_PRESENT PAGE_WRITE))) ->
  let tail := replicate (Z.to_nat (memsz ph - filesz ph)) 0 in
  let s'' := set_mem (write_bytes (mem s') (a + filesz ph) tail) s' in
  evolves root s s'' tbl tbl' P /\ loaded (dom (mem s)) image root s'' tbl' ph a
  /\ dom (mem s'') = dom (mem s').
Proof.
  intros X Ld En Pg U Mp Rd T tail s''. destruct Ld as [Off Fl Sz Ms _ _ _].
  assert (Lt : zlen tail = memsz ph - filesz ph) by (unfold tail; rewrite length_replicate; lia).
  assert (Hn : memsz ph <= 4096 * n) by (rewrite En; unfold pages_of; dlia).
  assert (N : forall x, a + filesz ph <= x < a + filesz ph + zlen tail ->
    mem s !! x = None /\ outside tbl' x) by (intros x Hx; split; [apply U|apply Mp]; lia).
  split; [by apply evolves_write|]. split.
  - split.
    + by rewrite <-En.
    + rewrite <-En. intros x Hx. split; [|split].
      * rewrite elem_of_dom, U by done. by intros [? ?].
      * cbn [mem set_mem s'']. rewrite lookup_write_bytes. case_decide; [|by apply Mp].
        apply lookup_lt_is_Some. lia.
      * by apply Mp.
    + replace (Z.to_nat (memsz ph)) with (Z.to_nat (filesz ph) + length tail)%nat by lia.
      unfold segment_bytes. apply read_bytes_app; cbn [mem set_mem s''].
      * rewrite read_write_disj; [exact Rd|]. unfold disj. lia.
      * rewrite Z2Nat.id by lia. apply read_write_same.
    + intros va Hva Ns Hp. cbn [mem set_mem s'']. rewrite <-(T va Hva Ns Hp).
      apply (translate_agree _ _ tbl'); [apply X| |done].
      apply outside_agree. intros x Hx. by apply N.
  - cbn [mem set_mem s'']. apply dom_write_mapped. intros x Hx. apply Mp. lia.
Qed.

Lemma chunk_zlen off size :
  0 <= off -> 0 <= size -> off + size <= zlen image ->
  zlen (chunk (Z.to_nat off) (Z.to_nat size) image) = size.
Proof. intros. rewrite chunk_length; lia. Qed.

(** [kernel->SetPosition] and [kernel->Read] into storage of the program. *)
Lemma file_Read_ret k p D s size buf :
  ready k p D (fw s) -> 0 <= p -> 0 <= size -> p + size <= zlen image ->
  mapped (mem s) buf size ->
  let data := chunk (Z.to_nat p) (Z.to_nat size) image in
  exists w, file_Read kernel size buf s
    = Ret (EFI_SUCCESS, size) (set_fw w (set_mem (write_bytes (mem s) buf data) s))
    /\ ready k (p + size) D w.
Proof.
  intros Rd Hp Hs Hi Mp data.
  pose proof (chunk_zlen p size Hp Hs Hi) as Hl. fold data in Hl.
  destruct (ready_read k p D (fw s) size Rd) as (w & Fr & Rd'); [lia|done|].
  fold data in Fr, Rd'. rewrite Hl in Rd'.
  exists w. split; [|exact Rd'].
  unfold file_Read. erewrite bind_ret; [|unfold firmware; rewrite Fr; reflexivity].
  cbv beta iota. erewrite bind_ret; [|apply write_block_ret; by rewrite Hl].
  rewrite Hl. by destruct s.
Qed.

Lemma seek_ret k p q D s :
  ready k p D (fw s) ->
  exists w, firmware (FileSetPosition kernel q) s = Ret EFI_SUCCESS (set_fw w s) /\ ready k q D w.
Proof.
  intros Rd. destruct (ready_seek k p D (fw s) q Rd) as (w & Fs & Rd'). exists w.
  split; [|done]. unfold firmware. by rewrite Fs.
Qed.

Lemma boot_AllocatePages_ready n k p s :
  ready (n + k) p (dom (mem s)) (fw s) -> (0 < n)%nat ->
  exists st a junk w,
    boot_AllocatePages EfiLoaderData (Z.of_nat n) s
    = Ret (st, a) (set_fw w (set_mem (write_bytes (mem s) a junk) s))
    /\ EFI_ERROR st = false /\ zlen junk = 4096 * Z.of_nat n
    /\ 0 < a /\ a mod 4096 = 0 /\ a + 4096 * Z.of_nat n <= 2 ^ 52
    /\ unmapped (mem s) a (4096 * Z.of_nat n)
    /\ ready k p (dom (mem s) ∪ dom (write_bytes ∅ a (replicate (length junk) 0))) w.
Proof.
  intros Rd Hn. unfold boot_AllocatePages.
  destruct (AllocatePages EfiLoaderData (Z.of_nat n) (mem s) (fw s)) as [[[st a] c] w] eqn:A.
  destruct (ready_pages n k p _ _ (mem s) st a c w Rd eq_refl Hn A) as [St Rd'].
  pose proof (alloc_pages_fresh _ _ _ _ _ _ _ _ A St ltac:(lia)) as (A0 & A1 & A2 & U).
  pose proof (length_bytes_at c (4096 * Z.of_nat n) ltac:(lia)) as Lj.
  exists st, a, (bytes_at c (4096 * Z.of_nat n)), w. rewrite St.
  split; [by destruct s|]. split; [done|]. split; [done|]. repeat (split; [done|]).
  by replace (length (bytes_at c (4096 * Z.of_nat n))) with (Z.to_nat (4096 * Z.of_nat n)) by lia.
Qed.

Lemma fill_segment_spec p k phdr bs root s tbl :
  let ph := phdr_of bs in
  let n := pages_of (memsz ph) in
  PT (mem s) tbl root -> stored s tbl phdr bs -> sizeof_phdr <= zlen bs -> loadable image ph ->
  ready (Z.to_nat n + k) p (dom (mem s)) (fw s) ->
  exists a junk w, let s' := filled s a junk (chunk (Z.to_nat (offset ph)) (Z.to_nat (filesz ph)) image) w in
    fill_segment kernel phdr s = Ret (n, a) s'
    /\ zlen junk = 4096 * n /\ unmapped (mem s) a (4096 * n)
    /\ (0 < a /\ a mod 4096 = 0 /\ a + 4096 * n <= 2 ^ 52)
    /\ ready k (offset ph + filesz ph) (dom (mem s')) (fw s').
Proof.
  intros ph n I St Hl [Off Fl Sz Ms _ _ _] Rd.
  assert (Hn : 0 < n <= 2 ^ 35 /\ memsz ph <= 4096 * n) by (unfold n, pages_of; dlia).
  unfold fill_segment.
  run_step (load_phdr 8 40 St Hl ltac:(lia)). change (le_num (chunk 40 8 bs)) with (memsz ph).
  rewrite (wrap_small 64 (memsz ph + 0xfff)) by lia.
  change ((memsz ph + 0xfff) / 0x1000) with n.
  run_step (load_phdr 8 24 St Hl ltac:(lia)).
  destruct (boot_AllocatePages_ready _ _ _ _ Rd ltac:(lia))
    as (st & a & junk & w1 & Al & Ok & Lj & A0 & A1 & A2 & U & Rd1).
  rewrite Z2Nat.id in Al, Lj, A2, U by lia. run_step Al. cbv beta iota. rewrite Ok.
  erewrite bind_ret by reflexivity. cbv beta.
  set (s1 := set_fw w1 _).
  assert (E1 : evolves root s s1 tbl tbl (fun _ => False)).
  { apply evolves_fw, evolves_write; [by apply evolves_refl|]. rewrite Lj.
    intros x Hx. split; [by apply U|by eapply unmapped_outside]. }
  pose proof (stored_evolves _ _ _ _ _ _ _ _ E1 St) as St1.
  run_step (load_phdr 8 8 St1 Hl ltac:(lia)). change (le_num (chunk 8 8 bs)) with (offset ph).
  destruct (seek_ret _ p (offset ph) _ s1 Rd1) as (w2 & Sk & Rd2). run_step Sk.
  run_step (load_phdr 8 32 (stored_fw _ _ _ _ w2 St1) Hl ltac:(lia)).
  change (le_num (chunk 32 8 bs)) with (filesz ph).
  pose proof (chunk_zlen (offset ph) (filesz ph) ltac:(lia) ltac:(lia) ltac:(lia)) as Ldt.
  destruct (file_Read_ret k (offset ph) _ (set_fw w2 s1) (filesz ph) a Rd2) as (w3 & Fr & Rd3);
    try lia.
  { eapply mapped_sub; [apply (mapped_write_self (mem s) a junk)|lia..]. }
  run_step Fr. exists a, junk, w3. cbv zeta. repeat (split; [done|]).
  rewrite filled_dom by lia. exact Rd3.
Qed.

Lemma clear_tail_ret root s tbl phdr bs a n :
  let ph := phdr_of bs in
  stored s tbl phdr bs -> sizeof_phdr <= zlen bs -> loadable image ph ->
  0 < a -> a + 4096 * n <= 2 ^ 52 -> memsz ph <= 4096 * n -> mapped (mem s) a (4096 * n) ->
  PT (mem s) tbl root ->
  clear_tail phdr a s
  = Ret tt (set_mem (write_bytes (mem s) (a + filesz ph)
              (replicate (Z.to_nat (memsz ph - filesz ph)) 0)) s).
Proof.
  intros ph St Hl [_ _ Sz Ms _ _ _] A0 A2 Hm Mp I. unfold clear_tail.
  run_step (load_phdr 8 40 St Hl ltac:(lia)). change (le_num (chunk 40 8 bs)) with (memsz ph).
  run_step (load_phdr 8 32 St Hl ltac:(lia)). change (le_num (chunk 32 8 bs)) with (filesz ph).
  rewrite (wrap_small 64 (memsz ph - filesz ph)), (wrap_small 64 (a + filesz ph)) by lia.
  destruct (Z.ltb_spec 0 (memsz ph - filesz ph)).
  - run_step (memset_ret s (a + filesz ph) 0 (memsz ph - filesz ph) ltac:(lia)
      ltac:(eapply mapped_sub; [exact Mp|lia..])). done.
  - replace (memsz ph - filesz ph) with 0 by lia. by destruct s.
Qed.

(** One PT_LOAD header. *)
Lemma load_segment_spec p k phdr bs root s tbl :
  let ph := phdr_of bs in
  PT (mem s) tbl root -> stored s tbl phdr bs -> sizeof_phdr <= zlen bs -> loadable image ph ->
  ready (4 * Z.to_nat (pages_of (memsz ph)) + k) p (dom (mem s)) (fw s) ->
  exists a s' tbl', load_segment kernel phdr root s = Ret tt s'
    /\ evolves root s s' tbl tbl' (in_pages ph)
    /\ loaded (dom (mem s)) image root s' tbl' ph a
    /\ ready k (offset ph + filesz ph) (dom (mem s')) (fw s').
Proof.
  intros ph I St Hl Ld Rd. pose proof Ld as [Off Fl Sz Ms [V0 V1] Ve Sl].
  set (n := pages_of (memsz ph)) in *.
  assert (Hn : 0 < n <= 2 ^ 35 /\ memsz ph <= 4096 * n) by (unfold n, pages_of; dlia).
  replace (4 * Z.to_nat n + k)%nat with (Z.to_nat n + (3 * Z.to_nat n + k))%nat in Rd by lia.
  destruct (fill_segment_spec p _ phdr bs root s tbl I St Hl Ld Rd)
    as (a & junk & w & Fi & Lj & U & (A0 & A1 & A2) & Rd1).
  fold ph in Fi, Lj, U, A2, Rd1. fold n in Fi, Lj, U, A2, Rd1.
  set (data := chunk _ _ image) in *. set (s1 := filled s a junk data w) in *.
  pose proof (chunk_zlen (offset ph) (filesz ph) ltac:(lia) ltac:(lia) ltac:(lia)) as Ldt.
  fold data in Ldt.
  assert (E1 : evolves root s s1 tbl tbl (fun _ => False))
    by (apply filled_evolves; [done|by rewrite Lj|lia]).
  pose proof (stored_evolves _ _ _ _ _ _ _ _ E1 St) as St1.
  unfold load_segment. run_step Fi. cbv beta iota. run_step (load_phdr 4 4 St1 Hl ltac:(lia)).
  rewrite efi_elf_phdr_flags_constant by (apply le_num_range, chunk_bytes, St).
  destruct (map_segment_loop_spec (offset ph + filesz ph) k phdr bs root a
    (Z.lor PAGE_PRESENT PAGE_WRITE) (Z.to_nat n) 0 s1 tbl) as (s2 & tbl2 & R2 & X2 & Rd2 & T2);
    rewrite ?Z2Nat.id by lia; try done; try lia; [apply E1|].
  rewrite Z2Nat.id in X2, T2 by lia. run_step R2.
  assert (E2 : evolves root s s2 tbl tbl2 (in_pages ph)).
  { eapply evolves_weaken; [|by eapply evolves_trans]. intros va [[]|[_ Hv] ]. exact Hv. }
  assert (R1 : read_bytes (mem s1) a (Z.to_nat (filesz ph)) = Some data).
  { rewrite <-Ldt, Nat2Z.id. apply read_write_same. }
  assert (Mp1 : mapped (mem s1) a (4096 * n)).
  { apply mapped_write. rewrite <-Lj. apply mapped_write_self. }
  assert (Keep : forall x, a <= x < a + 4096 * n -> mem s2 !! x = mem s1 !! x /\ outside tbl2 x).
  { intros x Hx. apply X2; [by apply Mp1|]. eapply unmapped_outside; eauto. }
  assert (Mp2 : forall x, a <= x < a + 4096 * n -> is_Some (mem s2 !! x) /\ outside tbl2 x).
  { intros x Hx. destruct (Keep x Hx) as [-> O]. split; [by apply Mp1|done]. }
  destruct (clear_tail_loaded root s s2 tbl tbl2 (in_pages ph) a ph n E2 Ld eq_refl)
    as (E3 & Lo & Dm); try done.
  { fold data. rewrite <-R1. apply read_bytes_agree. intros x Hx. apply Keep. lia. }
  { intros va Hva Ns Hp. apply T2; [done|done|]. split; [apply page_index_range|exact Hp]. }
  eexists a, _, tbl2. split; [|split; [exact E3|split; [exact Lo|] ] ].
  - exact (clear_tail_ret root s2 tbl2 phdr bs a n (stored_evolves _ _ _ _ _ _ _ _ X2 St1) Hl Ld
      A0 A2 (proj2 Hn) (fun x Hx => proj1 (Mp2 x Hx)) (ev_pt _ _ _ _ _ _ X2)).
  - cbn [fw set_mem]. rewrite Dm. exact Rd2.
Qed.

(** A segment with more bytes in the file than its pages hold is read all the
    same: past its pages, into whatever lies there. *)
Lemma fill_segment_overflow p k phdr bs root s tbl :
  let ph := phdr_of bs in
  let n := pages_of (memsz ph) in
  PT (mem s) tbl root -> stored s tbl phdr bs -> sizeof_phdr <= zlen bs ->
  0 <= offset ph -> offset ph + filesz ph <= zlen image -> 0 < memsz ph <= 2 ^ 47 ->
  4096 * n < filesz ph -> ready (Z.to_nat n + k) p (dom (mem s)) (fw s) ->
  exists a, unmapped (mem s) a (4096 * n) /\
    (fill_segment kernel phdr s = Fault a
     \/ exists s', fill_segment kernel phdr s = Ret (n, a) s' /\
          forall i, 4096 * n <= i < filesz ph ->
          is_Some (mem s !! (a + i)) /\ mem s' !! (a + i) = image !! Z.to_nat (offset ph + i)).
Proof.
  intros ph n I St Hl Off Fl Ms Big Rd.
  assert (Hn : 0 < n <= 2 ^ 35) by (unfold n, pages_of; dlia).
  unfold fill_segment.
  run_step (load_phdr 8 40 St Hl ltac:(lia)). change (le_num (chunk 40 8 bs)) with (memsz ph).
  rewrite (wrap_small 64 (memsz ph + 0xfff)) by lia.
  change ((memsz ph + 0xfff) / 0x1000) with n.
  run_step (load_phdr 8 24 St Hl ltac:(lia)).
  destruct (boot_AllocatePages_ready _ _ _ _ Rd ltac:(lia))
    as (st & a & junk & w1 & Al & Ok & Lj & A0 & A1 & A2 & U & Rd1).
  rewrite Z2Nat.id in Al, Lj, A2, U by lia. run_step Al. cbv beta iota. rewrite Ok.
  erewrite bind_ret by reflexivity. cbv beta. set (s1 := set_fw w1 _).
  assert (E1 : evolves root s s1 tbl tbl (fun _ => False)).
  { apply evolves_fw, evolves_write; [by apply evolves_refl|]. rewrite Lj.
    intros x Hx. split; [by apply U|by eapply unmapped_outside]. }
  pose proof (stored_evolves _ _ _ _ _ _ _ _ E1 St) as St1.
  run_step (load_phdr 8 8 St1 Hl ltac:(lia)). change (le_num (chunk 8 8 bs)) with (offset ph).
  destruct (seek_ret _ p (offset ph) _ s1 Rd1) as (w2 & Sk & Rd2). run_step Sk.
  run_step (load_phdr 8 32 (stored_fw _ _ _ _ w2 St1) Hl ltac:(lia)).
  change (le_num (chunk 32 8 bs)) with (filesz ph).
  destruct (ready_read k (offset ph) _ w2 (filesz ph) Rd2) as (w3 & Fr & _); [lia|lia|].
  pose proof (chunk_zlen (offset ph) (filesz ph) ltac:(lia) ltac:(lia) ltac:(lia)) as Ldt.
  set (data := chunk _ _ image) in *.
  exists a. split; [done|]. unfold file_Read. rewrite bind_assoc.
  erewrite bind_ret; [|unfold firmware; cbn [fw set_fw]; rewrite Fr; reflexivity].
  cbv beta iota. rewrite bind_assoc.
  destruct (read_bytes (mem s1) a (length data)) as [old|] eqn:Ro.
  - right. erewrite bind_ret; [|unfold write_block; cbn [mem set_fw]; rewrite Ro; reflexivity].
    eexists. split; [reflexivity|]. intros i Hi.
    assert (Mi : is_Some (mem s1 !! (a + i))).
    { eapply read_bytes_mapped; [rewrite Ro; eauto|lia]. }
    cbn [mem set_fw set_mem s1] in Mi |- *. rewrite lookup_write_out in Mi by lia.
    split; [exact Mi|]. rewrite lookup_write_bytes, decide_True by lia.
    unfold data, chunk. rewrite lookup_take_lt, lookup_drop by lia. f_equal. lia.
  - left. erewrite bind_fault; [reflexivity|]. unfold write_block. cbn [mem set_fw]. by rewrite Ro.
Qed.

End Facts.
