(* ===== verification/PhdrFacts.v ===== *)
(** * The program header table

    [phdrs_loop] walks the rows of the table; every PT_LOAD row is loaded
    ([load_segment_spec]) and stays loaded while the others are.  The table
    itself is read from the file by [loader_parse_phdrs]. *)

From S2P Require Import Prelude Memory Firmware State CString Printf PrintfFacts Console Alloc.
From S2P Require Import Paging PagingFacts Elf Files Segments SegmentFacts.

(** ** Specification *)

Definition is_load (row : list Z) : Prop := ptype (phdr_of row) = PT_LOAD.

#[export] Instance is_load_dec row : Decision (is_load row).
Proof. unfold is_load. apply _. Defined.

(** The rows of a table of [num] entries of [ent] bytes. *)
Definition rows_of (ent num : nat) (table : list Z) : list (list Z) :=
  map (fun i => chunk (i * ent) ent table) (seq 0 num).

(** The table a header describes, in the file. *)
Definition table_of (image : list Z) (h : elf64_ehdr) : list Z :=
  chunk (Z.to_nat (phoff h)) (Z.to_nat (phnum h * phentsize h)) image.

Definition phdr_rows (image : list Z) (h : elf64_ehdr) : list (list Z) :=
  rows_of (Z.to_nat (phentsize h)) (Z.to_nat (phnum h)) (table_of image h).

(** Pages for the segments and the tables that map them. *)
Fixpoint pages_needed (rows : list (list Z)) : nat :=
  match rows with
  | [] => 0
  | row :: rows =>
      ((if decide (is_load row) then 4 * Z.to_nat (pages_of (memsz (phdr_of row))) else 0)
       + pages_needed rows)%nat
  end.

(** No two segments share a page. *)
Definition separate (r1 r2 : list Z) : Prop :=
  is_load r1 -> is_load r2 -> forall va,
  in_pages (phdr_of r1) va -> ~ in_pages (phdr_of r2) va.

(** [va] lies in a page of one of the segments. *)
Definition touched_by (rows : list (list Z)) (va : Z) : Prop :=
  Exists (fun row => is_load row /\ in_pages (phdr_of row) va) rows.

(** A header whose segments can be loaded from the file. *)
Record loadable_kernel (image : list Z) (h : elf64_ehdr) : Prop := {
  lk_entsize : sizeof_phdr <= phentsize h;
  lk_num : 0 <= phnum h;
  lk_size : phnum h * phentsize h < 2 ^ 31;
  lk_phoff : 0 <= phoff h;
  lk_table : phoff h + phnum h * phentsize h <= zlen image;
  lk_load : Forall (fun row => is_load row -> loadable image (phdr_of row)) (phdr_rows image h);
  lk_separate : ForallOrdPairs separate (phdr_rows image h);
}.

Section Facts.
Context {E : Efi} {F : Firmware} {L : Layout} {K : Fuel} {EL : EfiLaws E} {AL : AllocLaws E F}.
Context {kernel : Z} {image : list Z} {FS : FileSupply kernel image}.

Lemma ready_less_plus j k p D w : ready (j + k) p D w -> ready k p D w.
Proof. induction j as [|j IH]; [done|]. intros H. apply IH. by apply ready_less. Qed.

(** The rows at [a], [ent] bytes each. *)
Fixpoint rows_at (s : state) (tbl : tables) (a ent : Z) (rows : list (list Z)) : Prop :=
  match rows with
  | [] => True
  | row :: rows => stored s tbl a row /\ zlen row = ent /\ rows_at s tbl (a + ent) ent rows
  end.

Lemma rows_at_evolves root s s' tbl tbl' P ent rows : forall a,
  evolves root s s' tbl tbl' P -> rows_at s tbl a ent rows -> rows_at s' tbl' a ent rows.
Proof.
  induction rows as [|row rows IH]; intros a X; [done|]. intros (St & Hl & Rs).
  split; [by eapply stored_evolves|]. split; [done|]. by apply IH.
Qed.

Lemma load_ehdr {hb a s tbl} n o :
  stored s tbl a hb -> zlen hb = sizeof_ehdr -> Z.of_nat (o + n) <= 64 ->
  load_n n (a + Z.of_nat o) s = Ret (le_num (chunk o n hb)) s.
Proof.
  intros [Hh _] Hl Ho. apply load_n_ret. eapply load_chunk; [exact Hh|lia|].
  change sizeof_ehdr with 64 in Hl. lia.
Qed.

Lemma phdrs_size_ret s tbl header hb :
  let h := ehdr_of hb in
  stored s tbl header hb -> zlen hb = sizeof_ehdr -> 0 <= phnum h * phentsize h < 2 ^ 31 ->
  phdrs_size header s = Ret (phnum h * phentsize h) s.
Proof.
  intros h St Hl Hs. unfold phdrs_size.
  run_step (load_ehdr 2 56 St Hl ltac:(lia)). change (le_num (chunk 56 2 hb)) with (phnum h).
  run_step (load_ehdr 2 54 St Hl ltac:(lia)). change (le_num (chunk 54 2 hb)) with (phentsize h).
  unfold mret, M_ret, swrap. f_equal. rewrite Z.mod_small by lia. lia.
Qed.

Lemma loaded_sub D D' root s tbl ph a :
  D' ⊆ D -> loaded D image root s tbl ph a -> loaded D' image root s tbl ph a.
Proof.
  intros Sb [Pg Fr By Mp]. split; try done. intros x Hx. destruct (Fr x Hx) as (N & R).
  split; [|exact R]. intros Hd. by apply N, Sb.
Qed.

Lemma evolves_dom root s s' tbl tbl' P :
  evolves root s s' tbl tbl' P -> dom (mem s) ⊆ dom (mem s').
Proof. intros X x. rewrite !elem_of_dom. apply X. Qed.

(** One round for one row, whether it is loaded or skipped. *)
Lemma row_step_spec p k a row root s tbl :
  PT (mem s) tbl root -> stored s tbl a row -> sizeof_phdr <= zlen row ->
  (is_load row -> loadable image (phdr_of row)) ->
  ready (pages_needed [row] + k) p (dom (mem s)) (fw s) ->
  exists s' tbl' p',
    (type ← load32 (p_type a);
     if type =? PT_LOAD then load_segment kernel a root else skip) s = Ret tt s'
    /\ evolves root s s' tbl tbl' (touched_by [row])
    /\ (is_load row -> exists b, loaded (dom (mem s)) image root s' tbl' (phdr_of row) b)
    /\ ready k p' (dom (mem s')) (fw s').
Proof.
  intros I St Hl Ld Rd. cbn [pages_needed] in Rd. rewrite Nat.add_0_r in Rd.
  pose proof (load_phdr 4 0 St Hl ltac:(lia)) as Ty. rewrite Z.add_0_r in Ty.
  run_step Ty. change (le_num (chunk 0 4 row)) with (ptype (phdr_of row)).
  destruct (decide (is_load row)) as [Y|N].
  - rewrite Y. cbn [Z.eqb PT_LOAD Pos.eqb].
    destruct (load_segment_spec p k a row root s tbl I St Hl (Ld Y) Rd)
      as (b & s' & tbl' & R & X & Lo & Rd').
    exists s', tbl', (offset (phdr_of row) + filesz (phdr_of row)). split; [exact R|].
    split; [|split; [by exists b|exact Rd'] ].
    eapply evolves_weaken; [|exact X]. intros va Hv. by constructor.
  - destruct (Z.eqb_spec (ptype (phdr_of row)) PT_LOAD) as [Y|_]; [by destruct N|].
    exists s, tbl, p. split; [done|]. split; [|split; [done|by apply (ready_less_plus 0)] ].
    eapply evolves_weaken; [|by apply evolves_refl]. done.
Qed.

Lemma phdrs_loop_spec header hb root phdrs rows : forall a fuel p k s tbl,
  let h := ehdr_of hb in
  PT (mem s) tbl root -> stored s tbl header hb -> zlen hb = sizeof_ehdr ->
  sizeof_phdr <= phentsize h -> 0 <= phnum h * phentsize h < 2 ^ 31 ->
  0 <= a -> phdrs + phnum h * phentsize h = a + phentsize h * zlen rows ->
  0 <= phdrs -> phdrs + phnum h * phentsize h <= 2 ^ 52 ->
  rows_at s tbl a (phentsize h) rows -> (length rows <= fuel)%nat ->
  Forall (fun row => is_load row -> loadable image (phdr_of row)) rows ->
  ForallOrdPairs separate rows ->
  ready (pages_needed rows + k) p (dom (mem s)) (fw s) ->
  exists s' tbl' p', phdrs_loop fuel kernel header root phdrs a s = Ret tt s'
    /\ evolves root s s' tbl tbl' (touched_by rows)
    /\ Forall (fun row => is_load row ->
         exists b, loaded (dom (mem s)) image root s' tbl' (phdr_of row) b) rows
    /\ ready k p' (dom (mem s')) (fw s').
Proof.
  induction rows as [|row rows IH];
    intros a fuel p k s tbl h I St Hl He Hs Ha Ee Hp Em Rs Hf Ld Sp Rd; subst h;
    set (h := ehdr_of hb) in *.
  - exists s, tbl, p. cbn [length] in Ee. split; [|split; [|by split] ].
    + destruct fuel; cbn [phdrs_loop]; run_step (phdrs_size_ret s tbl header hb St Hl Hs);
        fold h; rewrite wrap_small by lia; by destruct (Z.leb_spec (phdrs + phnum h * phentsize h) a); [|lia].
    + eapply evolves_weaken; [|by apply evolves_refl]. done.
  - destruct fuel as [|fuel]; [cbn [length] in Hf; lia|]. cbn [length] in Hf, Ee.
    rewrite Nat2Z.inj_succ, Z.mul_succ_r in Ee.
    destruct Rs as (Sr & Lr & Rs). change sizeof_phdr with 56 in He.
    apply Forall_cons in Ld as [Ld0 Ld]. inversion Sp as [|? ? Sp0 Sp1]; subst.
    cbn [phdrs_loop]. run_step (phdrs_size_ret s tbl header hb St Hl Hs). fold h.
    rewrite wrap_small by lia.
    destruct (Z.leb_spec (phdrs + phnum h * phentsize h) a); [nia|].
    destruct (row_step_spec p (pages_needed rows + k) a row root s tbl I Sr)
      as (s1 & t1 & p1 & R1 & X1 & L1 & Rd1); [change sizeof_phdr with 56; lia|done| |].
    { cbn [pages_needed] in Rd |- *. rewrite Nat.add_0_r, Nat.add_assoc. exact Rd. }
    assert (St1 : stored s1 t1 header hb) by by eapply stored_evolves.
    destruct (IH (a + phentsize h) fuel p1 k s1 t1) as (s2 & t2 & p2 & R2 & X2 & L2 & Rd2);
      fold h; try done; try lia; [apply X1|by eapply rows_at_evolves|].
    exists s2, t2, p2. split; [|split; [|split; [|done] ] ].
    + erewrite <-bind_assoc. erewrite bind_ret; [|exact R1]. cbv beta.
      run_step (load_ehdr 2 54 St1 Hl ltac:(lia)).
      change (le_num (chunk 54 2 hb)) with (phentsize h). rewrite wrap_small by nia. exact R2.
    + eapply evolves_weaken; [|by eapply evolves_trans]. intros va [Hv|Hv].
      * inversion Hv as [? ? Hr|? ? Hr]; subst; [by left|inversion Hr].
      * by right.
    + constructor.
      * intros Y. destruct (L1 Y) as [b Lo]. exists b. eapply loaded_evolves; [exact X2| | |exact Lo].
        { intros va Hp1. unfold touched_by. rewrite Exists_exists. intros (r & Hr & Yr & Hp2).
          rewrite Forall_forall in Sp0. by apply (Sp0 r Hr Y Yr va). }
        { pose proof (ld_memsz _ _ (Ld0 Y)). lia. }
      * eapply Forall_impl; [exact L2|]. intros r Lr' Y. destruct (Lr' Y) as [b Lo]. exists b.
        eapply loaded_sub; [|exact Lo]. by eapply evolves_dom.
Qed.

(** ** The table is read from the file *)

Lemma rows_at_table s tbl a table ent num :
  stored s tbl a table -> zlen table = Z.of_nat (num * ent) ->
  rows_at s tbl a (Z.of_nat ent) (rows_of ent num table).
Proof.
  intros St Hl. unfold rows_of.
  assert (G : forall n i, (i + n <= num)%nat ->
    rows_at s tbl (a + Z.of_nat (i * ent)) (Z.of_nat ent)
      (map (fun j => chunk (j * ent) ent table) (seq i n))).
  { induction n as [|n IH]; intros i Hi; [done|]. cbn [seq map rows_at].
    assert (Hc : ((i * ent) + ent <= length table)%nat) by nia.
    pose proof (chunk_length (i * ent) ent table Hc) as Lc. split; [|split; [by rewrite Lc|] ].
    - destruct St as [Hh O]. split.
      + rewrite Lc. split; [|by apply chunk_bytes, Hh]. rewrite Nat2Z.id.
        apply (holds_chunk _ _ _ _ _ _ Hh); lia.
      + intros x Hx. apply O. lia.
    - replace (a + Z.of_nat (i * ent) + Z.of_nat ent) with (a + Z.of_nat (S i * ent)) by lia.
      apply IH. lia. }
  specialize (G num 0%nat ltac:(lia)). by rewrite Z.add_0_r in G.
Qed.

Lemma loader_parse_phdrs_spec p k root s tbl header hb :
  let h := ehdr_of hb in
  let size := phnum h * phentsize h in
  PT (mem s) tbl root -> stored s tbl header hb -> zlen hb = sizeof_ehdr ->
  loadable_kernel image h -> ready (Z.to_nat (pages_of size) + k) p (dom (mem s)) (fw s) ->
  exists a junk w, let s' := filled (set_pool (<[a := size]> (pool s)) s) a junk (table_of image h) w in
    loader_parse_phdrs kernel header s = Ret (EFI_SUCCESS, a) s'
    /\ zlen junk = size /\ unmapped (mem s) a size /\ 0 < a /\ a + size <= 2 ^ 52
    /\ ready k (phoff h + size) (dom (mem s')) (fw s').
Proof.
  intros h size I St Hl [Le Ln Ls Lp Lt _ _] Rd. change sizeof_phdr with 56 in Le.
  fold size in Ls, Lt. assert (H0 : 0 <= size) by (unfold size; nia).
  unfold loader_parse_phdrs. run_step (load_ehdr 8 32 St Hl ltac:(lia)).
  change (le_num (chunk 32 8 hb)) with (phoff h).
  destruct (seek_ret _ p (phoff h) _ s Rd) as (w1 & Sk & Rd1). run_step Sk.
  run_step (EFIERR_ok (str "loader/parse.c") 15 EFI_SUCCESS (set_fw w1 s) efi_error_success).
  pose proof (stored_fw _ _ _ _ w1 St) as St1.
  run_step (load_ehdr 2 56 St1 Hl ltac:(lia)). change (le_num (chunk 56 2 hb)) with (phnum h).
  run_step (load_ehdr 2 54 St1 Hl ltac:(lia)). change (le_num (chunk 54 2 hb)) with (phentsize h).
  fold size. rewrite (wrap_small 64 size) by lia.
  destruct (AllocatePool EfiLoaderData size (mem s) w1) as [[[st a] c] w2] eqn:A.
  destruct (ready_pool _ k _ _ _ (mem s) size st a c w2 Rd1 eq_refl) as [Ok Rd2];
    [rewrite Z2Nat.id; unfold pages_of; dlia|done|].
  destruct (alloc_pool_fresh _ _ _ _ _ _ _ _ A Ok H0) as (A0 & A1 & U).
  pose proof (length_bytes_at c size H0) as Lj.
  erewrite bind_ret; [|unfold boot_AllocatePool; cbn [mem fw set_fw]; rewrite A, Ok; reflexivity].
  cbv beta iota. erewrite bind_ret; [|by apply EFIERR_ok]. cbv beta.
  destruct (file_Read_ret k (phoff h) _ (set_pool (<[a := size]> (pool s))
    (set_mem (write_bytes (mem s) a (bytes_at c size)) (set_fw w2 s))) size a Rd2) as (w3 & Fr & Rd3);
    try lia.
  { intros x Hx. apply mapped_write_self. lia. }
  run_step Fr. cbv beta iota. erewrite bind_ret; [|apply EFIERR_ok, efi_error_success].
  cbv beta. exists a, (bytes_at c size), w3. cbv zeta. split; [done|]. split; [done|].
  split; [done|]. split; [done|]. split; [done|].
  cbn [mem fw filled set_fw set_mem set_pool]. rewrite dom_write_mapped.
  - rewrite dom_write_bytes. by replace (length (bytes_at c size)) with (Z.to_nat size) by lia.
  - unfold table_of. fold size. rewrite chunk_zlen by lia. intros x Hx.
    apply mapped_write_self. lia.
Qed.

(** ** The table is given back *)

(** Storage outside the tables may go. *)
Lemma clear_agree m a n tbl :
  (forall x, a <= x < a + Z.of_nat n -> outside tbl x) ->
  forall p t, tbl !! p = Some t -> agree m (clear_bytes m a n) t 4096.
Proof.
  intros O p t Hp x Hx. rewrite lookup_clear_bytes. case_decide as Hc; [|done].
  exfalso. by apply (O x Hc p t Hp).
Qed.

Lemma loaded_clear D root s tbl ph a b n :
  PT (mem s) tbl root -> loaded D image root s tbl ph a -> 0 <= memsz ph ->
  (forall x, b <= x < b + Z.of_nat n -> x ∈ D /\ outside tbl x) ->
  forall s', mem s' = clear_bytes (mem s) b n -> loaded D image root s' tbl ph a.
Proof.
  intros I [Pg Fr By Mp] Hm Hb s' Es.
  assert (Same : forall x, a <= x < a + 4096 * pages_of (memsz ph) -> mem s' !! x = mem s !! x).
  { intros x Hx. rewrite Es, lookup_clear_bytes. case_decide as Hc; [|done].
    exfalso. by apply (Fr x Hx), Hb. }
  split; [done| | |].
  - intros x Hx. rewrite Same by done. by apply Fr.
  - rewrite <-By. apply read_bytes_agree. intros x Hx. apply Same. unfold pages_of. dlia.
  - intros va Hva N Hp. rewrite <-(Mp va Hva N Hp), Es. apply (translate_agree _ _ tbl); [done| |done].
    apply clear_agree. intros x Hx. by apply Hb.
Qed.

Lemma free_ready k p s a n :
  ready k p (dom (mem s)) (fw s) -> pool s !! a = Some n ->
  exists w, free a s
    = Ret tt (set_pool (delete a (pool s)) (set_mem (clear_bytes (mem s) a (Z.to_nat n)) (set_fw w s)))
    /\ ready k p (dom (clear_bytes (mem s) a (Z.to_nat n))) w.
Proof.
  intros Rd Hp. unfold free, boot_FreePool.
  destruct (FreePool a (fw s)) as [st w] eqn:Fp.
  destruct (ready_free _ _ _ _ a st w Rd Fp) as [Ok Rd']. exists w. split.
  - erewrite bind_ret; [|rewrite Fp; cbv zeta; cbn [pool mem set_fw]; rewrite Hp, Ok; reflexivity].
    cbv beta. rewrite EFIERR_ok by done. done.
  - eapply ready_sub; [|exact Rd']. intros x. rewrite !elem_of_dom, lookup_clear_bytes.
    case_decide; [by intros [? ?]|done].
Qed.

Lemma evolves_clear root s s' tbl tbl' P b n :
  evolves root s s' tbl tbl' P ->
  (forall x, b <= x < b + Z.of_nat n -> mem s !! x = None /\ outside tbl' x) ->
  evolves root s (set_mem (clear_bytes (mem s') b n) s') tbl tbl' P.
Proof.
  intros X N.
  assert (A : forall p t, tbl' !! p = Some t -> agree (mem s') (clear_bytes (mem s') b n) t 4096)
    by (apply clear_agree; intros x Hx; by apply N).
  assert (Out : forall x, is_Some (mem s !! x) -> clear_bytes (mem s') b n !! x = mem s' !! x).
  { intros x [v Hv]. rewrite lookup_clear_bytes. case_decide as Hx; [|done].
    destruct (N x Hx). congruence. }
  split; cbn [mem set_mem].
  - eapply PT_agree; [apply X|exact A].
  - intros x Hx O. rewrite Out by done. by apply X.
  - intros x Hx. rewrite Out by done. by apply X.
  - intros va Hva Ns T. rewrite (translate_agree (mem s') _ tbl'); [by apply X|apply X|exact A|done].
  - destruct (ev_rest _ _ _ _ _ _ X) as (m & w & ->). by eexists _, w.
Qed.

Lemma evolves_set_pool root s s' tbl tbl' P q :
  evolves root s s' tbl tbl' P -> evolves root (set_pool q s) (set_pool q s') tbl tbl' P.
Proof. intros [? ? ? ? (m & w & ->)]. split; try done. by exists m, w. Qed.

(** The whole table: its segments are loaded and mapped, nothing else changes. *)
Lemma loader_kernel_phdrs_spec p k root s tbl header hb :
  let h := ehdr_of hb in
  let rows := phdr_rows image h in
  PT (mem s) tbl root -> stored s tbl header hb -> zlen hb = sizeof_ehdr -> are_bytes image ->
  loadable_kernel image h ->
  ready (Z.to_nat (pages_of (phnum h * phentsize h)) + (pages_needed rows + k)) p
    (dom (mem s)) (fw s) ->
  exists a s' tbl' p', loader_kernel_phdrs kernel header root s = Ret tt s'
    /\ evolves root (set_pool (delete a (pool s)) s) s' tbl tbl' (touched_by rows)
    /\ Forall (fun row => is_load row ->
         exists b, loaded (dom (mem s)) image root s' tbl' (phdr_of row) b) rows
    /\ ready k p' (dom (mem s')) (fw s').
Proof.
  intros h rows I St Hl Bi Lk Rd.
  destruct (loader_parse_phdrs_spec p _ root s tbl header hb I St Hl Lk Rd)
    as (a & junk & w & Ps & Lj & U & A0 & A1 & Rd1). fold h in Ps, Lj, U, A1, Rd1.
  destruct Lk as [Le Ln Ls Lp Lt Ld Sp]. change sizeof_phdr with 56 in Le. fold rows in Ld, Sp.
  set (size := phnum h * phentsize h) in *. set (table := table_of image h) in *.
  assert (H0 : 0 <= size) by (unfold size; nia).
  assert (Tl : zlen table = size) by (apply chunk_zlen; lia).
  set (q := <[a := size]> (pool s)) in *. set (s1 := filled (set_pool q s) a junk table w) in *.
  assert (E1 : evolves root (set_pool q s) s1 tbl tbl (fun _ => False))
    by (apply filled_evolves; [done|by rewrite Lj|lia]).
  assert (Sh : stored s1 tbl header hb)
    by (apply (stored_evolves _ _ _ _ _ _ _ _ E1); destruct St; by split).
  assert (Tb : stored s1 tbl a table).
  { split; [|rewrite Tl; intros x Hx; by eapply (unmapped_outside (mem s))].
    apply holds_written; [done|]. by apply chunk_bytes. }
  unfold loader_kernel_phdrs. run_step Ps. cbv beta iota.
  run_step (phdrs_size_ret s1 tbl header hb Sh Hl ltac:(fold h; fold size; lia)).
  fold h. fold size. rewrite wrap_small by lia. replace (a + size - a) with size by lia.
  assert (Lr : zlen rows = phnum h)
    by (unfold rows, phdr_rows, rows_of; rewrite length_map, length_seq; lia).
  destruct (phdrs_loop_spec header hb root a rows a (Z.to_nat size) (phoff h + size) k s1 tbl)
    as (s2 & t2 & p2 & R2 & X2 & L2 & Rd2); fold h; fold size; try done; try lia;
    [apply E1| |nia|].
  { replace (phentsize h) with (Z.of_nat (Z.to_nat (phentsize h))) by lia.
    apply (rows_at_table _ _ _ table); [exact Tb|rewrite Tl; unfold size; lia]. }
  pose proof (stored_evolves _ _ _ _ _ _ _ _ X2 Tb) as [_ Tb2]. rewrite Tl in Tb2.
  assert (Pl : pool s2 = q) by (destruct (ev_rest _ _ _ _ _ _ X2) as (m & v & ->); done).
  destruct (free_ready k p2 s2 a size Rd2) as (w2 & Fr & Rd3);
    [rewrite Pl; apply lookup_insert_eq|].
  run_step R2. eexists a, _, t2, p2. split; [exact Fr|].
  assert (Blk : forall x, a <= x < a + Z.of_nat (Z.to_nat size) ->
    x ∈ dom (mem s1) /\ outside t2 x).
  { intros x Hx. split; [|apply Tb2; lia]. apply elem_of_dom.
    apply (holds_mapped _ _ _ _ (st_holds _ _ _ _ Tb)); lia. }
  split; [|split; [|exact Rd3] ].
  - assert (E2 : evolves root (set_pool q s) s2 tbl t2 (touched_by rows)).
    { eapply evolves_weaken; [|by eapply evolves_trans]. by intros va [[]|]. }
    assert (E3 : evolves root (set_pool q s)
      (set_mem (clear_bytes (mem s2) a (Z.to_nat size)) s2) tbl t2 (touched_by rows)).
    { apply evolves_clear; [exact E2|]. intros x Hx. split; [apply U; lia|by apply Blk]. }
    apply (evolves_set_pool _ _ _ _ _ _ (delete a (pool s))) in E3.
    apply (evolves_fw _ _ _ w2) in E3. rewrite Pl. unfold q.
    rewrite delete_insert_eq. exact E3.
  - rewrite Forall_forall in L2, Ld |- *. intros row Hr Y. destruct (L2 row Hr Y) as [b Lo].
    exists b. eapply loaded_sub; [exact (evolves_dom _ _ _ _ _ _ E1)|].
    eapply loaded_clear; [apply X2|exact Lo| |exact Blk|reflexivity].
    + pose proof (ld_memsz _ _ (Ld row Hr Y)). lia.
Qed.

(** What the processor reads in a segment in memory at [a], mapped page by page. *)
Lemma segment_virt_byte m root ph a i :
  0 < a /\ a mod 4096 = 0 /\ a + 4096 * pages_of (memsz ph) <= 2 ^ 52 ->
  read_bytes m a (Z.to_nat (memsz ph)) = Some (segment_bytes image ph) ->
  (forall va, 0 <= va < 2 ^ 64 -> slice 39 va <> 510 -> in_pages ph va -> translate m root va
    = Some (Z.lor (a + 4096 * page_index (vaddr ph) va) (Z.lor PAGE_PRESENT PAGE_WRITE))) ->
  loadable image ph -> 0 <= i < memsz ph ->
  virt_byte m root (vaddr ph + i) = segment_bytes image ph !! Z.to_nat i.
Proof.
  intros (A0 & A1 & A2) By Mp [Off Fl Sz Ms [V0 V1] Ve Sl] Hi.
  set (n := pages_of (memsz ph)) in *. set (j := i / 4096).
  assert (Hj : 0 <= j < n /\ memsz ph <= 4096 * n) by (unfold j, n, pages_of; dlia).
  assert (Hn : n <= 2 ^ 35) by (unfold n, pages_of; dlia).
  assert (Pi : page_index (vaddr ph) (vaddr ph + i) = j).
  { apply same_page_index; [done|done|lia|]. unfold same_page, vpn, j. f_equal. dlia. }
  assert (Ns : slice 39 (vaddr ph + i) <> 510).
  { rewrite slice_vpn by lia. replace (vpn (vaddr ph + i)) with (vpn (vaddr ph + 4096 * j))
      by (unfold vpn, j; f_equal; dlia).
    rewrite <-slice_vpn by lia. apply (clear_of_slot_page _ _ n); [exact Sl|lia|done|lia]. }
  unfold virt_byte. rewrite Mp; [|unfold j in Hj; dlia|exact Ns|unfold in_pages; rewrite Pi; fold n; lia].
  cbv [mbind option_bind]. rewrite Pi, entry_frame; [|lia|dlia|done].
  replace (a + 4096 * j + (vaddr ph + i) mod 4096) with (a + Z.of_nat (Z.to_nat i))
    by (unfold j; dlia).
  symmetry. apply (read_bytes_lookup _ _ _ _ _ By). lia.
Qed.

Lemma loaded_virt_byte D root s tbl ph a i :
  loaded D image root s tbl ph a -> loadable image ph -> 0 <= i < memsz ph ->
  virt_byte (mem s) root (vaddr ph + i) = segment_bytes image ph !! Z.to_nat i.
Proof. intros [Pg _ By Mp]. by apply segment_virt_byte with (a := a). Qed.

End Facts.
