(* ===== verification/World.v ===== *)
(** * What the program owns

    An abstract view of a state in the middle of [loader_kernel]: objects whose
    contents are fixed, cells that are still written, and the address space the
    page tables describe, as a function from virtual addresses to entries.
    [models] relates it to a state; each operation of the loader is a step of the
    view, so that the proofs of its callers do not mention page tables or
    separation again.  [R] is what is known of the firmware and of the memory in
    use. *)

From S2P Require Import Prelude Memory Firmware State CString Printf PrintfFacts Console Alloc.
From S2P Require Import Paging PagingFacts Elf Files Segments SegmentFacts PhdrFacts.

Record world := World {
  objects : Z -> list Z -> Prop;
  cells : gmap Z (list Z);
  space : Z -> option Z;
}.

Definition set_cell (a : Z) (bs : list Z) (v : world) : world :=
  World (objects v) (<[a := bs]> (cells v)) (space v).
Definition set_space (sp : Z -> option Z) (v : world) : world :=
  World (objects v) (cells v) sp.

(** The cell at [a] is not written any more. *)
Definition freeze (a : Z) (bs : list Z) (v : world) : world :=
  World (fun b cs => b = a /\ cs = bs \/ objects v b cs) (delete a (cells v)) (space v).

(** The page of [va] is mapped to [physical]. *)
Definition map_page (va physical fl : Z) (v : world) : world :=
  set_space (fun x => if decide (same_page x va) then Some (Z.lor physical fl) else space v x) v.

(** The pages [first] to [last] are mapped to themselves. *)
Definition map_identity (first last fl : Z) (v : world) : world :=
  set_space (fun x => if decide (first <= vpn x <= last) then Some (Z.lor (vpn x * 4096) fl)
                      else space v x) v.

(** Two regions have no address in common. *)
Definition separated (a n b k : Z) : Prop := 0 < n -> 0 < k -> disj a n b k.

Lemma separated_sym a n b k : separated a n b k -> separated b k a n.
Proof. intros H Hn Hk. by apply disj_sym, H. Qed.

Lemma separated_sub a n b k a' n' :
  separated a n b k -> a <= a' -> a' + n' <= a + n -> separated a' n' b k.
Proof. intros H Ha Hn N K. eapply disj_sub; [apply H; lia|lia..]. Qed.

Lemma fresh_separated m a n b k : mapped m b k -> unmapped m a n -> separated a n b k.
Proof. intros Mp U Hn Hk. by apply disj_sym, (mapped_unmapped_disj m). Qed.

Lemma holds_write_separated m a bs p cs :
  holds m a (zlen bs) bs -> separated p (zlen cs) a (zlen bs) ->
  holds (write_bytes m p cs) a (zlen bs) bs.
Proof.
  intros Hh S. destruct bs as [|b bs]; [by split|]. destruct cs as [|c cs]; [done|].
  apply holds_write; [done|lia|]. apply S; cbn [length]; lia.
Qed.

Section World.
Context {F : Firmware}.

Record models (R : gset Z -> fwst -> Prop) (root : Z) (v : world) (s : state) (tbl : tables)
    : Prop := {
  mo_pt : PT (mem s) tbl root;
  mo_ready : R (dom (mem s)) (fw s);
  mo_objects a bs : objects v a bs -> stored s tbl a bs;
  mo_cells a bs : cells v !! a = Some bs -> stored s tbl a bs;
  mo_apart a bs b cs : cells v !! a = Some bs -> cells v !! b = Some cs -> a <> b ->
    separated a (zlen bs) b (zlen cs);
  mo_fixed a bs b cs : cells v !! a = Some bs -> objects v b cs ->
    separated a (zlen bs) b (zlen cs);
  mo_space va : 0 <= va < 2 ^ 64 -> slice 39 va <> 510 -> translate (mem s) root va = space v va;
}.

Lemma models_ready (R R' : gset Z -> fwst -> Prop) root v s tbl :
  models R root v s tbl -> (R (dom (mem s)) (fw s) -> R' (dom (mem s)) (fw s)) ->
  models R' root v s tbl.
Proof. intros [? ? ? ? ? ? ?] H. split; auto. Qed.

Lemma models_fw (R R' : gset Z -> fwst -> Prop) root v s tbl w :
  models R root v s tbl -> R' (dom (mem s)) w -> models R' root v (set_fw w s) tbl.
Proof.
  intros [? ? Ob Ce ? ? ?] H. split; try done; intros a bs Hb; apply stored_fw; auto.
Qed.

Lemma models_pool R root v s tbl q : models R root v s tbl -> models R root v (set_pool q s) tbl.
Proof.
  intros [? ? Ob Ce ? ? ?]. split; try done; intros a bs Hb.
  - destruct (Ob a bs Hb). by split.
  - destruct (Ce a bs Hb). by split.
Qed.

(** Page tables grow and memory that is not in use is written. *)
Lemma models_evolves (R R' : gset Z -> fwst -> Prop) root v s tbl s' tbl' P sp :
  models R root v s tbl -> evolves root s s' tbl tbl' P -> R' (dom (mem s')) (fw s') ->
  (forall va, 0 <= va < 2 ^ 64 -> slice 39 va <> 510 -> translate (mem s') root va = sp va) ->
  models R' root (set_space sp v) s' tbl'.
Proof.
  intros [? ? Ob Ce ? ? ?] X H T. split; try done.
  - apply X.
  - intros a bs Hb. eapply stored_evolves; [exact X|]. by apply Ob.
  - intros a bs Hb. eapply stored_evolves; [exact X|]. by apply Ce.
Qed.

(** What the firmware hands out becomes a cell. *)
Lemma models_fresh (R R' : gset Z -> fwst -> Prop) root v s tbl a bs w :
  models R root v s tbl -> unmapped (mem s) a (zlen bs) -> are_bytes bs ->
  R' (dom (mem s) ∪ dom (write_bytes ∅ a (replicate (length bs) 0))) w ->
  models R' root (set_cell a bs v) (set_fw w (set_mem (write_bytes (mem s) a bs) s)) tbl.
Proof.
  intros [I Rd Ob Ce Ap Fx Sp] U B H.
  assert (Out : forall x, a <= x < a + zlen bs -> outside tbl x)
    by (intros x Hx; by eapply unmapped_outside).
  assert (D : forall b cs, stored s tbl b cs -> separated a (zlen bs) b (zlen cs)).
  { intros b cs [Hh _]. eapply fresh_separated; [eapply holds_mapped; [exact Hh|lia]|exact U]. }
  assert (Ag : forall p t, tbl !! p = Some t -> agree (mem s) (write_bytes (mem s) a bs) t 4096)
    by by apply outside_agree.
  assert (St : forall b cs, stored s tbl b cs ->
    stored (set_fw w (set_mem (write_bytes (mem s) a bs) s)) tbl b cs).
  { intros b cs Hs. pose proof (D _ _ Hs). destruct Hs as [Hh O]. split; [|done].
    by apply holds_write_separated. }
  assert (New : stored (set_fw w (set_mem (write_bytes (mem s) a bs) s)) tbl a bs).
  { split; [by apply holds_written|done]. }
  split; cbn [mem fw set_fw set_mem objects cells space set_cell].
  - by eapply PT_agree.
  - by rewrite dom_write_bytes.
  - auto.
  - intros b cs [ [<- <-]|[_ Hb] ]%lookup_insert_Some; [done|]. by apply St, Ce.
  - intros b cs c ds [ [<- <-]|[Nb Hb] ]%lookup_insert_Some [ [<- <-]|[Nc Hc] ]%lookup_insert_Some N;
      [done|by apply D, Ce|by apply separated_sym, D, Ce|by eapply Ap].
  - intros b cs c ds [ [<- <-]|[Nb Hb] ]%lookup_insert_Some Hc; [by apply D, Ob|by eapply Fx].
  - intros va Hva Ns. rewrite (translate_agree (mem s) _ tbl); [by apply Sp|done|exact Ag|done].
Qed.

(** A store into a cell. *)
Lemma models_write R root v s tbl a xs ys zs ys' q :
  models R root v s tbl -> cells v !! a = Some (xs ++ ys ++ zs) -> q = a + zlen xs ->
  are_bytes ys' -> length ys' = length ys ->
  write_block q ys' s = Ret tt (set_mem (write_bytes (mem s) q ys') s)
  /\ models R root (set_cell a (xs ++ ys' ++ zs) v) (set_mem (write_bytes (mem s) q ys') s) tbl.
Proof.
  intros [I Rd Ob Ce Ap Fx Sp] Ha Eq B Hl.
  pose proof (Ce _ _ Ha) as [Hh O].
  assert (Hn : zlen (xs ++ ys ++ zs) = zlen xs + zlen ys + zlen zs) by (rewrite !length_app; lia).
  pose proof (holds_mapped _ _ _ _ Hh ltac:(lia)) as Mp. rewrite Hn in Mp, O.
  assert (Mq : mapped (mem s) q (zlen ys')) by (eapply mapped_sub; [exact Mp|lia..]).
  split; [by apply write_block_ret|].
  assert (Ag : forall p t, tbl !! p = Some t -> agree (mem s) (write_bytes (mem s) q ys') t 4096)
    by (apply outside_agree; intros x Hx; apply O; lia).
  assert (St : forall b cs, stored s tbl b cs -> separated a (zlen (xs ++ ys ++ zs)) b (zlen cs) ->
    stored (set_mem (write_bytes (mem s) q ys') s) tbl b cs).
  { intros b cs [Hb Ob'] D. split; [|done]. apply holds_write_separated; [done|].
    eapply separated_sub; [exact D|lia..]. }
  assert (Lz : zlen (xs ++ ys' ++ zs) = zlen (xs ++ ys ++ zs)) by (rewrite !length_app; lia).
  split; cbn [mem fw set_fw set_mem objects cells space set_cell].
  - by eapply PT_agree.
  - rewrite dom_write_mapped; [exact Rd|exact Mq].
  - intros b cs Hb. apply St; [by apply Ob|by eapply Fx].
  - intros b cs [ [<- <-]|[Nb Hb] ]%lookup_insert_Some; [|apply St; [by apply Ce|by eapply Ap] ].
    split; [|rewrite Lz, Hn; exact O]. rewrite Lz, Hn. replace (zlen xs + zlen ys + zlen zs)
      with (zlen xs + (zlen ys' + zlen zs)) by lia.
    cbn [mem set_mem]. subst q.
    apply holds_app; [|apply holds_app|lia..]; [|by apply holds_written| |lia..].
    + apply holds_write; [by eapply holds_prefix|lia|right; lia].
    + apply holds_write; [|lia|left; lia]. rewrite app_assoc in Hh.
      pose proof (holds_mid (mem s) a (zlen ((xs ++ ys) ++ zs)) (xs ++ ys) zs []
        (a + zlen xs + zlen ys')) as Hm. rewrite app_nil_r in Hm. apply Hm; [exact Hh|].
      rewrite length_app. lia.
  - intros b cs c ds [ [<- <-]|[Nb Hb] ]%lookup_insert_Some [ [<- <-]|[Nc Hc] ]%lookup_insert_Some N;
      rewrite ?Lz; [done|by eapply Ap..].
  - intros b cs c ds [ [<- <-]|[Nb Hb] ]%lookup_insert_Some Hc; rewrite ?Lz; by eapply Fx.
  - intros va Hva Ns. rewrite (translate_agree (mem s) _ tbl); [by apply Sp|done|exact Ag|done].
Qed.

(** A cell that is not written any more. *)
Lemma models_freeze R root v s tbl a bs :
  models R root v s tbl -> cells v !! a = Some bs ->
  models R root (freeze a bs v) s tbl.
Proof.
  intros [I Rd Ob Ce Ap Fx Sp] Ha. split; cbn [objects cells space freeze]; try done.
  - intros b cs [ [-> ->]|Hb]; auto.
  - intros b cs [_ Hb]%lookup_delete_Some. auto.
  - intros b cs c ds [_ Hb]%lookup_delete_Some [_ Hc]%lookup_delete_Some. by apply Ap.
  - intros b cs c ds [Nb Hb]%lookup_delete_Some [ [-> ->]|Hc];
      [by eapply Ap|by eapply Fx].
Qed.

(** More objects. *)
Definition add_objects (Q : Z -> list Z -> Prop) (v : world) : world :=
  World (fun b cs => Q b cs \/ objects v b cs) (cells v) (space v).

Lemma models_objects R root v s tbl (Q : Z -> list Z -> Prop) :
  models R root v s tbl ->
  (forall b cs, Q b cs -> stored s tbl b cs /\
    forall a bs, cells v !! a = Some bs -> separated a (zlen bs) b (zlen cs)) ->
  models R root (add_objects Q v) s tbl.
Proof.
  intros [I Rd Ob Ce Ap Fx Sp] H. split; cbn [objects cells space add_objects]; try done.
  - intros b cs [Hb|Hb]; [by apply H|auto].
  - intros a bs b cs Ha [Hb|Hb]; [by apply H|by eapply Fx].
Qed.

End World.

(** ** Arrays of 64-bit words *)

Definition words_bytes (l : list Z) : list Z := concat (map (le_bytes 8) l).

Lemma words_bytes_length l : length (words_bytes l) = (8 * length l)%nat.
Proof.
  unfold words_bytes. induction l as [|x l IH]; [done|]. cbn [map concat length].
  rewrite length_app, length_le_bytes. lia.
Qed.

Lemma are_bytes_words l : are_bytes (words_bytes l).
Proof.
  unfold words_bytes. induction l as [|x l IH]; [constructor|].
  apply Forall_app_2; [apply are_bytes_le_bytes|exact IH].
Qed.

Lemma words_bytes_app l k : words_bytes (l ++ k) = words_bytes l ++ words_bytes k.
Proof. unfold words_bytes. by rewrite map_app, concat_app. Qed.

Lemma words_bytes_zero n : words_bytes (replicate n 0) = replicate (8 * n) 0.
Proof.
  induction n as [|n IH]; [done|]. replace (8 * S n)%nat with (8 + 8 * n)%nat by lia.
  rewrite replicate_add, <-IH. done.
Qed.

(** The word at index [i] and what surrounds it. *)
Lemma words_bytes_split l (i : nat) x :
  l !! i = Some x ->
  words_bytes l = words_bytes (take i l) ++ le_bytes 8 x ++ words_bytes (drop (S i) l)
  /\ length (words_bytes (take i l)) = (8 * i)%nat.
Proof.
  intros Hi. pose proof (lookup_lt_Some _ _ _ Hi). split.
  - rewrite <-(take_drop_middle l i x Hi) at 1. by rewrite words_bytes_app.
  - rewrite words_bytes_length, length_take. lia.
Qed.

Lemma words_bytes_insert l (i : nat) y :
  (i < length l)%nat ->
  words_bytes (<[i:=y]> l) = words_bytes (take i l) ++ le_bytes 8 y ++ words_bytes (drop (S i) l).
Proof.
  intros Hi. rewrite insert_take_drop by done. by rewrite words_bytes_app.
Qed.

Section Access.
Context {F : Firmware} {R : gset Z -> fwst -> Prop} {root : Z} {v : world} {s : state} {tbl : tables}.

Lemma cell_load n o a bs :
  models R root v s tbl -> cells v !! a = Some bs -> (o + n <= length bs)%nat ->
  load_n n (a + Z.of_nat o) s = Ret (le_num (chunk o n bs)) s.
Proof.
  intros Mo Ha Ho. apply load_n_ret. eapply load_chunk; [eapply (mo_cells _ _ _ _ _ Mo a bs Ha)|lia..].
Qed.

Lemma object_load n o a bs :
  models R root v s tbl -> objects v a bs -> (o + n <= length bs)%nat ->
  load_n n (a + Z.of_nat o) s = Ret (le_num (chunk o n bs)) s.
Proof.
  intros Mo Ha Ho. apply load_n_ret.
  eapply load_chunk; [eapply (mo_objects _ _ _ _ _ Mo a bs Ha)|lia..].
Qed.

Lemma word_load a l (i : nat) x q :
  models R root v s tbl -> cells v !! a = Some (words_bytes l) -> l !! i = Some x ->
  0 <= x < 2 ^ 64 -> q = a + 8 * Z.of_nat i -> load64 q s = Ret x s.
Proof.
  intros Mo Ha Hi Hx ->. destruct (words_bytes_split l i x Hi) as [Eq Li].
  replace (a + 8 * Z.of_nat i) with (a + Z.of_nat (8 * i)) by lia.
  rewrite (cell_load 8 _ a _ Mo Ha).
  - f_equal. rewrite Eq. unfold chunk. rewrite <-Li, drop_app_length.
    replace 8%nat with (length (le_bytes 8 x)) at 1 by apply length_le_bytes.
    rewrite take_app_length, le_num_bytes. by apply wrap_small.
  - rewrite words_bytes_length. apply lookup_lt_Some in Hi. lia.
Qed.

Lemma word_store a l (i : nat) y q :
  models R root v s tbl -> cells v !! a = Some (words_bytes l) -> (i < length l)%nat ->
  q = a + 8 * Z.of_nat i ->
  exists s', store64 q y s = Ret tt s' /\ fw s' = fw s
    /\ models R root (set_cell a (words_bytes (<[i:=y]> l)) v) s' tbl.
Proof.
  intros Mo Ha Hi ->. destruct (lookup_lt_is_Some_2 l i Hi) as [x Hx].
  destruct (words_bytes_split l i x Hx) as [Eq Li]. rewrite Eq in Ha.
  destruct (models_write R root v s tbl a _ _ _ (le_bytes 8 y) (a + 8 * Z.of_nat i) Mo Ha)
    as [W Mo']; [lia|apply are_bytes_le_bytes|done|].
  eexists. split; [exact W|]. split; [done|]. by rewrite words_bytes_insert.
Qed.

End Access.

(** ** Mapping *)

Section Mapping.
Context {E : Efi} {F : Firmware} {L : Layout} {K : Fuel} {AL : AllocLaws E F} {PS : PageSupply}.

Lemma models_map root v s tbl physical virtual fl k :
  models (supply (3 + k)) root v s tbl -> 0 <= virtual < 2 ^ 64 -> slice 39 virtual <> 510 ->
  0 <= physical < 2 ^ 64 -> entry_flags fl ->
  exists s' tbl', loader_paging_map root physical virtual fl s = Ret tt s'
    /\ models (supply k) root (map_page virtual physical fl v) s' tbl'.
Proof.
  intros Mo Hv Ns Hp Hf.
  destruct (loader_paging_map_present root s tbl physical virtual fl k (mo_pt _ _ _ _ _ Mo) Hv Ns
    Hp Hf (mo_ready _ _ _ _ _ Mo)) as (s' & tbl' & R & X & Su & T).
  exists s', tbl'. split; [exact R|].
  eapply models_evolves; [exact Mo|apply (evolves_extends _ _ _ _ _ (fun _ => True) X); tauto|done|].
  intros va Hva N. rewrite T by done. by rewrite (mo_space _ _ _ _ _ Mo).
Qed.

Lemma models_map_loop root v s tbl a fl n k :
  models (supply (3 * n + k)) root v s tbl -> a mod 4096 = 0 -> 0 <= a ->
  a + 4096 * Z.of_nat n <= 2 ^ 48 -> clear_of_slot (a / 4096) (Z.of_nat n) -> entry_flags fl ->
  exists s' tbl', map_addr_loop n 0 root a fl s = Ret tt s'
    /\ models (supply k) root (map_identity (a / 4096) (a / 4096 + Z.of_nat n - 1) fl v) s' tbl'.
Proof.
  intros Mo Al Ha Hm Cl Hf.
  destruct (map_addr_loop_spec root a fl k n 0 s tbl (mo_pt _ _ _ _ _ Mo) Al Ha ltac:(lia))
    as (s' & tbl' & R & X & Su & T); rewrite ?Z.add_0_r, ?Z.add_0_l; try done.
  { apply (mo_ready _ _ _ _ _ Mo). }
  exists s', tbl'. split; [exact R|].
  eapply models_evolves; [exact Mo|apply (evolves_extends _ _ _ _ _ (fun _ => True) X); tauto|done|].
  intros va Hva N. rewrite T, (mo_space _ _ _ _ _ Mo) by done. rewrite Z.add_0_r.
  apply decide_ext. lia.
Qed.

Lemma models_map_addr root v s tbl start len fl k :
  let first := start / 4096 in
  let last := (start + len) / 4096 in
  models (supply (3 * Z.to_nat (1 + (last - first)) + k)) root v s tbl ->
  0 <= start -> 0 <= len -> start + len < 2 ^ 48 -> clear_of_slot first (1 + (last - first)) ->
  entry_flags fl ->
  exists s' tbl', loader_paging_map_addr root start len fl s = Ret tt s'
    /\ models (supply k) root (map_identity first last fl v) s' tbl'.
Proof.
  intros first last Mo Hs Hl Hm Cl Hf.
  destruct (loader_paging_map_addr_spec root s tbl start len fl k (mo_pt _ _ _ _ _ Mo) Hs Hl Hm
    Cl Hf (mo_ready _ _ _ _ _ Mo)) as (s' & tbl' & R & X & Su & T).
  exists s', tbl'. split; [exact R|].
  eapply models_evolves; [exact Mo|apply (evolves_extends _ _ _ _ _ (fun _ => True) X); tauto|done|].
  intros va Hva N. by rewrite T, (mo_space _ _ _ _ _ Mo).
Qed.

(** ** Allocation *)

(** With [R], the firmware can hand out [n] pages below 2^47, leaving [R']. *)
Definition hands_out_pages (n : Z) (R R' : gset Z -> fwst -> Prop) : Prop :=
  forall D w m st a c w', R D w -> dom m = D ->
  AllocatePages EfiLoaderData n m w = (st, a, c, w') ->
  EFI_ERROR st = false /\ a + 4096 * n < 2 ^ 47
  /\ R' (D ∪ dom (write_bytes ∅ a (replicate (Z.to_nat (4096 * n)) 0))) w'.

Definition hands_out_pool (n : Z) (R R' : gset Z -> fwst -> Prop) : Prop :=
  forall D w m st a c w', R D w -> dom m = D ->
  AllocatePool EfiLoaderData n m w = (st, a, c, w') ->
  EFI_ERROR st = false /\ R' (D ∪ dom (write_bytes ∅ a (replicate (Z.to_nat n) 0))) w'.

Lemma models_alloc_pages (R R' : gset Z -> fwst -> Prop) root v s tbl n :
  hands_out_pages n R R' -> models R root v s tbl -> 0 <= n < 2 ^ 40 ->
  exists a s', uefi_alloc_pages n s = Ret a s'
    /\ 0 < a /\ a mod 4096 = 0 /\ a + 4096 * n < 2 ^ 47
    /\ unmapped (mem s) a (4096 * n)
    /\ models R' root (set_cell a (words_bytes (replicate (Z.to_nat (512 * n)) 0)) v) s' tbl.
Proof.
  intros HO Mo Hn. destruct (AllocatePages EfiLoaderData n (mem s) (fw s)) as [[[st a] c] w] eqn:A.
  destruct (HO _ _ _ _ _ _ _ (mo_ready _ _ _ _ _ Mo) eq_refl A) as (Ok & Low & Rd).
  destruct (alloc_pages_fresh _ _ _ _ _ _ _ _ A Ok ltac:(lia)) as (A0 & A1 & A2 & U).
  assert (Z : replicate (Z.to_nat (4096 * n)) 0 = words_bytes (replicate (Z.to_nat (512 * n)) 0))
    by (rewrite words_bytes_zero; f_equal; lia).
  exists a. eexists. split; [apply (uefi_alloc_pages_ret s n st a c w A Ok); lia|].
  repeat (split; [done|]). rewrite <-Z. eapply models_fresh; [exact Mo| |apply Forall_replicate|].
  - rewrite length_replicate. by replace (Z.of_nat (Z.to_nat (4096 * n))) with (4096 * n) by lia.
  - unfold is_byte. lia.
  - by rewrite length_replicate.
Qed.

(** Pages whose contents are left to the firmware. *)
Lemma models_pages_block (R R' : gset Z -> fwst -> Prop) root v s tbl n :
  hands_out_pages n R R' -> models R root v s tbl -> 0 <= n ->
  exists st a junk s', boot_AllocatePages EfiLoaderData n s = Ret (st, a) s'
    /\ EFI_ERROR st = false /\ zlen junk = 4096 * n /\ 0 < a /\ a + 4096 * n < 2 ^ 47
    /\ unmapped (mem s) a (4096 * n) /\ models R' root (set_cell a junk v) s' tbl.
Proof.
  intros HO Mo Hn. destruct (AllocatePages EfiLoaderData n (mem s) (fw s)) as [[[st a] c] w] eqn:A.
  destruct (HO _ _ _ _ _ _ _ (mo_ready _ _ _ _ _ Mo) eq_refl A) as (Ok & Low & Rd).
  destruct (alloc_pages_fresh _ _ _ _ _ _ _ _ A Ok ltac:(lia)) as (A0 & A1 & A2 & U).
  pose proof (length_bytes_at c (4096 * n) ltac:(lia)) as Lj.
  exists st, a, (bytes_at c (4096 * n)). eexists. split.
  { unfold boot_AllocatePages. rewrite A, Ok. reflexivity. }
  repeat (split; [done|]).
  apply (models_fresh R R' root v s tbl a (bytes_at c (4096 * n)) w);
    [done|by rewrite Lj|apply are_bytes_bytes_at|].
  replace (length (bytes_at c (4096 * n))) with (Z.to_nat (4096 * n)) by lia. exact Rd.
Qed.

Lemma models_pool_block (R R' : gset Z -> fwst -> Prop) root v s tbl n :
  hands_out_pool n R R' -> models R root v s tbl -> 0 <= n ->
  exists st a junk s', boot_AllocatePool EfiLoaderData n s = Ret (st, a) s'
    /\ EFI_ERROR st = false /\ zlen junk = n /\ are_bytes junk /\ 0 < a /\ a + n <= 2 ^ 52
    /\ unmapped (mem s) a n
    /\ models R' root (set_cell a junk v) s' tbl.
Proof.
  intros HO Mo Hn. destruct (AllocatePool EfiLoaderData n (mem s) (fw s)) as [[[st a] c] w] eqn:A.
  destruct (HO _ _ _ _ _ _ _ (mo_ready _ _ _ _ _ Mo) eq_refl A) as (Ok & Rd).
  destruct (alloc_pool_fresh _ _ _ _ _ _ _ _ A Ok ltac:(lia)) as (A0 & A2 & U).
  pose proof (length_bytes_at c n Hn) as Lj.
  exists st, a, (bytes_at c n). eexists.
  split; [apply (boot_AllocatePool_ret s n st a c w A Ok)|].
  split; [done|]. split; [done|]. split; [apply are_bytes_bytes_at|]. repeat (split; [done|]).
  apply models_pool, (models_fresh R R' root v s tbl a (bytes_at c n) w);
    [done|by rewrite Lj|apply are_bytes_bytes_at|].
  replace (length (bytes_at c n)) with (Z.to_nat n) by lia. exact Rd.
Qed.

End Mapping.
