(* ===== verification/Boot.v ===== *)
(** * boot/: what the kernel is told

    The information structure of include/boot/info.h and the functions that
    fill it: the framebuffer, the loaded image, the ACPI table and the memory
    map.  [info->st] is the system table the program was started with. *)

From S2P Require Import Prelude Memory Firmware State CString Printf PrintfFacts Console Alloc.
From S2P Require Import Paging.

(** info_t *)
Definition info_handle (info : Z) : Z := info.
Definition info_st (info : Z) : Z := info + 8.
Definition info_image (info : Z) : Z := info + 16.
Definition info_efi_memory_map (info : Z) : Z := info + 24.
Definition info_efi_memory_map_entries (info : Z) : Z := info + 32.
Definition info_efi_memory_map_key (info : Z) : Z := info + 40.
Definition info_efi_memory_map_descriptor_size (info : Z) : Z := info + 48.
Definition info_rsdp (info : Z) : Z := info + 56.
Definition info_gop_mode (info : Z) : Z := info + 64.
Definition info_copy (info : Z) : Z := info + 72.
Definition info_copy_size (info : Z) : Z := info + 80.
Definition sizeof_info : Z := 88.

(** EFI_OVMF_SIGNATURE, of which 13 bytes are compared *)
Definition EFI_OVMF_SIGNATURE : list Z :=
  [chr "E"; 0; chr "D"; 0; chr "K"; 0; chr " "; 0; chr "I"; 0; chr "I"; 0; 0].

Section Boot.
Context {E : Efi} {F : Firmware} {L : Layout} {K : Fuel} {H : ImageHandle}.

(** memcmp(EFI_OVMF_SIGNATURE, FirmwareVendor, 13) *)
Definition vendor_cmp : Z := bytes_cmp EFI_OVMF_SIGNATURE (bytes_at FirmwareVendor 13).

(** ** boot/framebuffer.c *)

Fixpoint gop_get_loop (n : nat) (i handles info : Z) : M (Z * option Z) :=
  match n with
  | O => mret (EFI_UNSUPPORTED, None)
  | S n =>
      h ← load64 (handles + 8 * i);
      agent ← load64 (info_handle info);
      '(status, gop) ← firmware (OpenProtocol h GraphicsOutputProtocol agent
                                   EFI_OPEN_PROTOCOL_BY_HANDLE_PROTOCOL);
      _ ← EFIERR (str "boot/framebuffer.c") 21 status;
      if negb (gop =? 0) then mret (EFI_SUCCESS, Some gop)
      else gop_get_loop n (i + 1) handles info
  end.

(** The status and [*out], if it was written. *)
Definition efi_gop_get (info : Z) : M (Z * option Z) :=
  '(status, num, handles) ← publishing (LocateHandleBuffer (Some GraphicsOutputProtocol));
  _ ← EFIERR (str "boot/framebuffer.c") 16 status;
  gop_get_loop (Z.to_nat num) 0 handles info.

(** The loop over the modes: [None] when the 800x600 mode of OVMF was set. *)
Fixpoint framebuffer_setup_loop (n : nat) (gop i max_w max_h selection : Z) : M (option Z) :=
  match n with
  | O => mret (Some selection)
  | S n =>
      _ ← boot_AllocatePool EfiLoaderData 8;
      '(status, mode_info) ← firmware (QueryMode gop i);
      _ ← EFIERR (str "boot/framebuffer.c") 46 status;
      let width := HorizontalResolution mode_info in
      let h := VerticalResolution mode_info in
      if (vendor_cmp =? 0) && (width =? 800) && (h =? 600) then
        _ ← firmware (SetMode gop i); mret None
      else if (max_w <? width) || (max_h <? h) then
        framebuffer_setup_loop n gop (i + 1) width h i
      else framebuffer_setup_loop n gop (i + 1) max_w max_h selection
  end.

Definition framebuffer_setup (gop : Z) : M bool :=
  mode ← gets (fun s => GopMode_of gop (fw s));
  r ← framebuffer_setup_loop (Z.to_nat (MaxMode mode)) gop 0 0 0 0;
  match r with
  | None => mret true
  | Some selection =>
      if negb (vendor_cmp =? 0) && negb (selection =? 0) then
        _ ← firmware (SetMode gop selection); mret true
      else mret false
  end.

(** Pages of [n] bytes, as computed for the framebuffer and the image. *)
Definition whole_pages (n : Z) : Z :=
  let pages := Z.shiftr n 12 in
  if negb (n mod 0x1000 =? 0) then pages + 1 else pages.

(** Without a graphics output [gop] is not initialised and its use undefined.
    [sizeof] is applied to the pointers, so 8 bytes of each structure are
    mapped.  [gop->Mode] is read once: between its uses the code only allocates
    pages and builds tables, and the firmware changes it in [SetMode]. *)
Definition framebuffer_get (info pml4 : Z) : M unit :=
  '(_, out) ← efi_gop_get info;
  match out with
  | None => fault 0
  | Some gop =>
      _ ← framebuffer_setup gop;
      mode ← gets (fun s => GopMode_of gop (fw s));
      _ ← store64 (info_gop_mode info) (gop_mode_address mode);
      _ ← loader_paging_map_addr pml4 (gop_mode_address mode) 8 (Z.lor PAGE_PRESENT PAGE_WRITE);
      _ ← loader_paging_map_addr pml4 (gop_mode_Info mode) 8 (Z.lor PAGE_PRESENT PAGE_WRITE);
      map_addr_loop (Z.to_nat (whole_pages (FrameBufferSize mode))) 0 pml4 (FrameBufferBase mode)
        (Z.lor PAGE_PRESENT PAGE_WRITE)
  end.

(** ** boot/image.c *)

Definition efi_get_image (info : Z) : M Z :=
  h ← load64 (info_handle info);
  '(status, image) ← firmware (HandleProtocol h LoadedImageProtocol);
  _ ← store64 (info_image info) image;
  _ ← EFIERR (str "boot/image.c") 8 status;
  mret EFI_SUCCESS.

(** ** boot/rsdp.c *)

Definition guid_bytes (g : efi_guid) : list Z :=
  le_bytes 4 (data1 g) ++ le_bytes 2 (data2 g) ++ le_bytes 2 (data3 g) ++ le_bytes 8 (data4 g).

Fixpoint get_rsdp_loop (t : list efi_configuration_table) (info : Z) : M Z :=
  match t with
  | [] => mret EFI_NOT_FOUND
  | entry :: t =>
      if bytes_cmp (guid_bytes ACPI_20_TABLE_GUID) (guid_bytes (VendorGuid entry)) =? 0 then
        _ ← store64 (info_rsdp info) (VendorTable entry); mret EFI_SUCCESS
      else get_rsdp_loop t info
  end.

Definition efi_get_rsdp (info : Z) : M Z :=
  match ConfigurationTable with
  | None => mret EFI_NOT_FOUND
  | Some t => get_rsdp_loop t info
  end.

(** ** boot/memory_map.c *)

(** GetMemoryMap(&size, info->efi_memory_map, &info->efi_memory_map_key, ...):
    the status, the new size and the descriptor size. *)
Definition get_map (size info : Z) : M (Z * Z * Z) :=
  buffer ← load64 (info_efi_memory_map info);
  '(status, size, key, descriptor_size, data) ← firmware (GetMemoryMap size);
  _ ← write_block buffer data;
  _ ← (match key with Some key => store64 (info_efi_memory_map_key info) key | None => skip end);
  mret (status, size, descriptor_size).

(** One more page than the map needs, for the descriptors the allocation adds. *)
Definition map_pages (size : Z) : Z := u64 (u64 (size + 0xFFF) / 0x1000 + 1).

Definition efi_get_memory_map (info pml4 : Z) : M Z :=
  '(status, size, _) ← get_map 0 info;
  if EFI_ERROR status && negb (status =? EFI_BUFFER_TOO_SMALL) then mret status
  else
    '(status, buffer) ← boot_AllocatePages EfiLoaderData (map_pages size);
    _ ← (if EFI_ERROR status then skip else store64 (info_efi_memory_map info) buffer);
    if EFI_ERROR status then mret status
    else
      buffer ← load64 (info_efi_memory_map info);
      _ ← loader_paging_map_addr pml4 buffer (u64 (Z.shiftl (map_pages size) 12))
            (Z.lor PAGE_WRITE PAGE_PRESENT);
      '(status, size, descriptor_size) ← get_map size info;
      if EFI_ERROR status && negb (status =? EFI_BUFFER_TOO_SMALL) then mret status
      else if descriptor_size =? 0 then fault 0
      else
        _ ← store64 (info_efi_memory_map_entries info) (size / descriptor_size);
        _ ← store64 (info_efi_memory_map_descriptor_size info) descriptor_size;
        key ← load64 (info_efi_memory_map_key info);
        status ← firmware (ExitBootServices handle key);
        _ ← EFIERR (str "boot/memory_map.c") 35 status;
        mret EFI_SUCCESS.

End Boot.
