(* ===== verification/Kernel.v ===== *)
(** * loader/kernel.c: loading the kernel and leaving for it

    [loader_kernel]: read the file, build the kernel's address space, fill the
    information structure and jump. *)

From S2P Require Import Prelude Memory Firmware State CString Printf PrintfFacts Console Alloc.
From S2P Require Import Paging Elf Files Segments Boot.

(** meson.build *)
Definition STACK : Z := 0xFFFFFE0000000000.
Definition STACK_SIZE : Z := 0x21000.

Section Kernel.
Context {E : Efi} {F : Firmware} {L : Layout} {K : Fuel} {H : ImageHandle} {T : SystemTable}.

(** for(i = 0; i < 33; i++): the pages of the kernel's stack *)
Fixpoint map_stack_loop (n : nat) (i pml4 stack : Z) : M unit :=
  match n with
  | O => skip
  | S n =>
      _ ← loader_paging_map pml4 (u64 (stack + u64 (Z.shiftl i 12)))
            (u64 (STACK + u64 (Z.shiftl i 12)))
            (Z.lor (Z.lor PAGE_PRESENT PAGE_WRITE) PAGE_NX);
      map_stack_loop n (i + 1) pml4 stack
  end.

(** A complete copy of the binary: its address; file_info is kept. *)
Definition copy_kernel (kernel file_info : Z) : M Z :=
  size ← load64 (info_FileSize file_info);
  copy ← malloc size;
  size ← load64 (info_FileSize file_info);
  _ ← fs_read kernel size 0 copy;
  mret copy.

(** The stack, with the address of the information in its last slots but three. *)
Definition setup_stack (pml4 info stack : Z) : M unit :=
  _ ← map_stack_loop 33 0 pml4 stack;
  store64 (u64 (stack + STACK_SIZE - 8 * 4)) info.

(** elf/elf.asm: load cr3 and the stack pointer, jump to the entry point. *)
Definition elf_jump_to_kernel {A} (info entry pml4 : Z) : M A := stop (Jumped info entry pml4).

(** The end of [loader_kernel]: the display, the image of the loader in the new
    tables, the ACPI table, the memory map, the jump. *)
Definition leave_loader (header info pml4 : Z) : M unit :=
  _ ← framebuffer_get info pml4;
  _ ← efi_get_image info;
  image ← load64 (info_image info);
  base ← gets (fun s => ImageBase image (fw s));
  size ← gets (fun s => ImageSize image (fw s));
  _ ← map_addr_loop (Z.to_nat (whole_pages size)) 0 pml4 base (Z.lor PAGE_PRESENT PAGE_WRITE);
  _ ← efi_get_rsdp info;
  _ ← efi_get_memory_map info pml4;
  entry ← load64 (e_entry header);
  elf_jump_to_kernel info entry pml4.

(** The fields that are known before. *)
Definition fill_info (file_info copy info : Z) : M unit :=
  _ ← store64 (info_st info) system_table;
  _ ← store64 (info_handle info) handle;
  _ ← store64 (info_copy info) copy;
  size ← load64 (info_FileSize file_info);
  store64 (info_copy_size info) size.

(** [loader_kernel] from the closing of the file on. *)
Definition enter_kernel (kernel header file_info copy pml4 : Z) : M unit :=
  status ← firmware (FileClose kernel);
  _ ← (if EFI_ERROR status then efi_panic (str "error closing kernel file") else skip);
  stack ← uefi_alloc_pages 33;
  _ ← (if EFI_ERROR status then efi_panic (str "unable to allocate page") else skip);
  info ← uefi_alloc_pages (Z.shiftr sizeof_info 12 + 1);
  _ ← loader_paging_map pml4 info info (Z.lor PAGE_WRITE PAGE_PRESENT);
  _ ← fill_info file_info copy info;
  _ ← setup_stack pml4 info stack;
  leave_loader header info pml4.

Definition loader_kernel : M unit :=
  pml4 ← loader_paging_setup;
  '(status, kernel) ← fs_open (str "kernel");
  _ ← EFIERR (str "loader/kernel.c") 16 status;
  file_info ← fs_get_file_info kernel;
  copy ← copy_kernel kernel file_info;
  with_local sizeof_ehdr (fun header =>
    status ← loader_parse_header kernel header;
    _ ← EFIERR (str "loader/kernel.c") 26 status;
    status ← elf_header_check header;
    _ ← EFIERR (str "loader/kernel.c") 29 status;
    _ ← loader_kernel_phdrs kernel header pml4;
    enter_kernel kernel header file_info copy pml4).

End Kernel.
