(* ===== verification/KernelFacts.v ===== *)
(** * The kernel's stack *)

From S2P Require Import Prelude Memory Firmware State CString Printf PrintfFacts Console Alloc.
From S2P Require Import Paging PagingFacts Elf Files Segments SegmentFacts PhdrFacts Boot Kernel.

Definition STACK_FLAGS : Z := Z.lor (Z.lor PAGE_PRESENT PAGE_WRITE) PAGE_NX.

Lemma stack_entry_flags : entry_flags STACK_FLAGS.
Proof. split; [vm_compute; split; [discriminate|reflexivity]|]. split; reflexivity. Qed.

Lemma stack_slot j : 0 <= j < 33 -> slice 39 (STACK + 4096 * j) <> 510.
Proof.
  intros Hj. unfold slice, STACK. replace (_ / 2 ^ 39) with 0x1FFFFFC.
  - vm_compute. discriminate.
  - symmetry. change (2 ^ 39) with 0x8000000000. dlia.
Qed.

Section Stack.
Context {E : Efi} {F : Firmware} {L : Layout} {K : Fuel} {EL : EfiLaws E} {AL : AllocLaws E F}.
Context {PS : PageSupply}.

Lemma map_stack_loop_spec root stack k n : forall i s tbl,
  PT (mem s) tbl root -> 0 <= stack -> stack + 4096 * 33 <= 2 ^ 52 ->
  0 <= i -> i + Z.of_nat n <= 33 -> supply (3 * n + k) (dom (mem s)) (fw s) ->
  exists s' tbl', map_stack_loop n i root stack s = Ret tt s'
    /\ evolves root s s' tbl tbl' (fun va => i <= page_index STACK va < i + Z.of_nat n)
    /\ supply k (dom (mem s')) (fw s')
    /\ forall va, 0 <= va < 2 ^ 64 -> slice 39 va <> 510 ->
         i <= page_index STACK va < i + Z.of_nat n ->
         translate (mem s') root va = Some (Z.lor (stack + 4096 * page_index STACK va) STACK_FLAGS).
Proof.
  induction n as [|n IH]; intros i s tbl I Hs Hm Hi Hn Sup.
  - exists s, tbl. split; [done|]. split; [|split; [done|lia] ].
    eapply evolves_weaken; [|by apply evolves_refl]. done.
  - cbn [map_stack_loop].
    assert (Sh : u64 (Z.shiftl i 12) = 4096 * i).
    { rewrite Z.shiftl_mul_pow2 by lia. change (2 ^ 12) with 4096. rewrite wrap_small; lia. }
    rewrite Sh, (wrap_small 64 (stack + 4096 * i)), (wrap_small 64 (STACK + 4096 * i))
      by (unfold STACK; lia).
    destruct (loader_paging_map_present root s tbl (stack + 4096 * i) (STACK + 4096 * i)
      STACK_FLAGS (3 * n + k)) as (s1 & tbl1 & R1 & X1 & S1 & T1);
      [done|unfold STACK; lia|apply stack_slot; lia|lia|apply stack_entry_flags| |].
    { by replace (3 + (3 * n + k))%nat with (3 * S n + k)%nat by lia. }
    assert (Sp : forall va, same_page va (STACK + 4096 * i) <-> page_index STACK va = i)
      by (intros va; apply same_page_index; [done|done|lia]).
    assert (Ev : evolves root s s1 tbl tbl1 (fun va => page_index STACK va = i)).
    { apply evolves_extends; [done|]. intros va Hva Ns N. rewrite T1 by done.
      rewrite decide_False; [done|]. by rewrite Sp. }
    destruct (IH (i + 1) s1 tbl1) as (s2 & tbl2 & R2 & X2 & S2 & T2); try done; try lia.
    { apply X1. }
    exists s2, tbl2. run_step R1. split; [exact R2|]. split; [|split; [done|] ].
    + eapply evolves_weaken; [|by eapply evolves_trans]. intros va. cbn beta. lia.
    + intros va Hva Ns Hp. destruct (decide (page_index STACK va = i)) as [Ei|Ni].
      * rewrite (ev_same _ _ _ _ _ _ X2), T1 by (done || lia). rewrite decide_True by by apply Sp.
        by rewrite Ei.
      * apply T2; [done|done|lia].
Qed.

(** The stack the jump leaves on: 33 pages, not executable, with the address of
    the information 32 bytes below the top. *)
Lemma setup_stack_spec root s tbl info stack k :
  PT (mem s) tbl root -> 0 <= stack -> stack + STACK_SIZE <= 2 ^ 52 ->
  (forall x, stack <= x < stack + STACK_SIZE -> is_Some (mem s !! x) /\ outside tbl x) ->
  0 <= info < 2 ^ 64 -> supply (3 * 33 + k) (dom (mem s)) (fw s) ->
  exists s' tbl', setup_stack root info stack s = Ret tt s'
    /\ PT (mem s') tbl' root /\ supply k (dom (mem s')) (fw s')
    /\ (forall va, 0 <= va < 2 ^ 64 -> slice 39 va <> 510 ->
         translate (mem s') root va =
         if decide (page_index STACK va < 33)
         then Some (Z.lor (stack + 4096 * page_index STACK va) STACK_FLAGS)
         else translate (mem s) root va)
    /\ load 8 (mem s') (stack + STACK_SIZE - 32) = Some info
    /\ (forall x, is_Some (mem s !! x) -> outside tbl x ->
         ~ (stack + STACK_SIZE - 32 <= x < stack + STACK_SIZE - 24) -> mem s' !! x = mem s !! x).
Proof.
  intros I Hs Hm Mp Hi Sup. change STACK_SIZE with 135168 in *.
  destruct (map_stack_loop_spec root stack k 33 0 s tbl) as (s1 & t1 & R1 & X1 & S1 & T1);
    try done; try lia.
  set (a := stack + 135168 - 32).
  assert (M1 : mapped (mem s1) a 8) by (intros x Hx; apply X1, Mp; unfold a in Hx; lia).
  assert (O1 : forall x, a <= x < a + zlen (le_bytes 8 info) -> outside t1 x).
  { rewrite length_le_bytes. intros x Hx. destruct (Mp x) as [Sx Ox]; [unfold a in Hx; lia|].
    by apply (ev_frame _ _ _ _ _ _ X1 x). }
  pose proof (outside_agree (mem s1) a (le_bytes 8 info) t1 O1) as Ag.
  exists (set_mem (store 8 (mem s1) a info) s1), t1. cbn [mem fw set_mem].
  unfold setup_stack. run_step R1. split; [|split; [|split; [|split; [|split] ] ] ].
  - change (stack + STACK_SIZE - 8 * 4) with a. rewrite wrap_small by (unfold a; lia).
    by apply store_n_ret.
  - eapply PT_agree; [apply X1|exact Ag].
  - unfold store. rewrite dom_write_mapped; [exact S1|]. by rewrite length_le_bytes.
  - intros va Hva Ns. unfold store. rewrite (translate_agree (mem s1) _ t1); [|apply X1|exact Ag|done].
    pose proof (page_index_range STACK va). case_decide.
    + apply T1; [done|done|lia].
    + apply (ev_same _ _ _ _ _ _ X1); [done|done|lia].
  - rewrite load_store_same. f_equal. by apply wrap_small.
  - intros x Hx O N. unfold store. rewrite lookup_write_out; [by apply X1|].
    rewrite length_le_bytes. unfold a. lia.
Qed.

End Stack.
