(* ===== verification/BootFacts.v ===== *)
(** * The way from the file to the jump

    [BootSupply] is what [loader_kernel] relies on: the services it calls
    succeed and leave room for the pages it still needs.  Each part of
    [loader_kernel] is then a step of the abstract view of World.v. *)

From S2P Require Import Prelude Memory Firmware State CString Printf PrintfFacts Console Alloc.
From S2P Require Import Paging PagingFacts Elf Files Segments SegmentFacts PhdrFacts World.
From S2P Require Import Boot Kernel KernelFacts.

(** [n] bytes at [a] below 2^47, where the loader maps memory to itself. *)
Definition low (a n : Z) : Prop := 0 <= a /\ 0 <= n /\ a + n < 2 ^ 47.

Class BootSupply {E : Efi} {F : Firmware} {L : Layout} {H : ImageHandle} (kernel : Z)
    (image : list Z) {FS : FileSupply kernel image} := {
  (** Sizes: of the file's information, of the memory map, and upper bounds of
      the modes and pages of the display and the pages of the loader. *)
  file_information : list Z;
  map_bytes : Z;
  display_modes : nat;
  display_pages : nat;
  image_pages : nat;
  information_ok : are_bytes file_information /\ zlen file_information <= 4096
    /\ 0 <= offsetof_FileSize /\ offsetof_FileSize + 8 <= zlen file_information
    /\ chunk (Z.to_nat offsetof_FileSize) 8 file_information = le_bytes 8 (zlen image);
  map_bytes_ok : 0 <= map_bytes < 2 ^ 32;
  (** Opening and reading the file. *)
  boot_protocol k p D w h g :
    ready k p D w -> g = LoadedImageProtocol \/ g = SimpleFileSystemProtocol ->
    exists x w', HandleProtocol h g w = (EFI_SUCCESS, x, w') /\ ready k p D w';
  boot_volume k p D w h :
    ready k p D w -> exists x w', OpenVolume h w = (EFI_SUCCESS, x, w') /\ ready k p D w';
  boot_open k p D w root :
    ready k p D w ->
    exists w', FileOpen root (str "kernel") EFI_FILE_MODE_READ EFI_FILE_READ_ONLY w
      = (EFI_SUCCESS, kernel, w') /\ ready k 0 D w';
  boot_info_size k p D w :
    ready k p D w ->
    exists w', FileGetInfo kernel 1 w = (EFI_BUFFER_TOO_SMALL, zlen file_information, [], w')
      /\ ready k p D w';
  boot_info k p D w :
    ready k p D w ->
    exists w', FileGetInfo kernel (zlen file_information) w
      = (EFI_SUCCESS, zlen file_information, file_information, w') /\ ready k p D w';
  boot_local k p D w m :
    ready (S k) p D w -> dom m = D ->
    ready k p (D ∪ dom (write_bytes ∅ (stack_addr m sizeof_ehdr) (replicate 64 0))) w;
  (** After the file is closed. *)
  left : nat -> gset Z -> fwst -> Prop;
  boot_close k p D w :
    ready k p D w ->
    exists st w', FileClose kernel w = (st, w') /\ EFI_ERROR st = false /\ left k D w';
  left_less k D w : left (S k) D w -> left k D w;
  left_alloc n k :
    (0 < n)%nat -> hands_out_pages (Z.of_nat n) (left (n + k)) (left k);
  left_pool k size : 0 <= size <= 4096 -> hands_out_pool size (left (S k)) (left k);
  (** The display. *)
  boot_displays k D w m :
    left (S k) D w -> dom m = D ->
    exists n a handles w', LocateHandleBuffer (Some GraphicsOutputProtocol) m w
      = (EFI_SUCCESS, n, a, [(a, handles)], w')
      /\ 0 < n /\ zlen handles = 8 * n /\ are_bytes handles /\ unmapped m a (8 * n) /\ 0 < a
      /\ left k (D ∪ dom (write_bytes ∅ a (replicate (length handles) 0))) w';
  boot_display k D w h :
    left k D w ->
    exists gop w', OpenProtocol h GraphicsOutputProtocol handle EFI_OPEN_PROTOCOL_BY_HANDLE_PROTOCOL w
      = (EFI_SUCCESS, gop, w') /\ gop <> 0 /\ left k D w';
  boot_query k D w gop i :
    left k D w ->
    exists st m w', QueryMode gop i w = (st, m, w') /\ EFI_ERROR st = false /\ left k D w';
  boot_set k D w gop i : left k D w -> left k D (SetMode gop i w).2;
  boot_mode k D w gop :
    left k D w ->
    let m := GopMode_of gop w in
    MaxMode m <= Z.of_nat display_modes
    /\ low (gop_mode_address m) 8 /\ low (gop_mode_Info m) 8
    /\ FrameBufferBase m mod 4096 = 0 /\ 0 <= whole_pages (FrameBufferSize m) <= Z.of_nat display_pages
    /\ low (FrameBufferBase m) (4096 * whole_pages (FrameBufferSize m));
  (** The image of the loader. *)
  boot_image k D w :
    left k D w ->
    exists x w', HandleProtocol handle LoadedImageProtocol w = (EFI_SUCCESS, x, w')
      /\ 0 <= x < 2 ^ 64 /\ left k D w';
  boot_image_range k D w x :
    left k D w ->
    ImageBase x w mod 4096 = 0 /\ 0 <= whole_pages (ImageSize x w) <= Z.of_nat image_pages
    /\ low (ImageBase x w) (4096 * whole_pages (ImageSize x w));
  (** The memory map. *)
  boot_map_size k D w :
    left k D w ->
    exists key d w', GetMemoryMap 0 w = (EFI_BUFFER_TOO_SMALL, map_bytes, key, d, [], w') /\ left k D w';
  boot_map k D w :
    left k D w ->
    exists st size key d data w', GetMemoryMap map_bytes w = (st, size, Some key, d, data, w')
      /\ EFI_ERROR st = false /\ zlen data <= map_bytes /\ are_bytes data
      /\ 0 <= size < 2 ^ 64 /\ 0 <= key < 2 ^ 64 /\ 0 < d < 2 ^ 64 /\ left k D w';
  boot_exit k D w key :
    left k D w -> exists st w', ExitBootServices handle key w = (st, w') /\ EFI_ERROR st = false;
}.

Section Steps.
Context {F : Firmware}.

(** A service that leaves the memory alone. *)
Lemma models_service {A} (f : fwst -> A * fwst) (R R' : gset Z -> fwst -> Prop) root v s tbl a w :
  models R root v s tbl -> f (fw s) = (a, w) -> R' (dom (mem s)) w ->
  exists s', firmware f s = Ret a s' /\ fw s' = w /\ mem s' = mem s /\ models R' root v s' tbl.
Proof.
  intros Mo Ef H. exists (set_fw w s). split; [unfold firmware; by rewrite Ef|].
  split; [done|]. split; [done|]. by eapply models_fw.
Qed.

Lemma set_cell_twice a bs cs v : set_cell a bs (set_cell a cs v) = set_cell a bs v.
Proof. unfold set_cell. cbn [objects cells space]. by rewrite insert_insert_eq. Qed.

Lemma cell_same a bs v : cells (set_cell a bs v) !! a = Some bs.
Proof. apply lookup_insert_eq. Qed.

(** Filling a cell. *)
Lemma models_fill R root v s tbl a bs cs :
  models R root v s tbl -> cells v !! a = Some bs -> are_bytes cs -> length cs = length bs ->
  write_block a cs s = Ret tt (set_mem (write_bytes (mem s) a cs) s)
  /\ models R root (set_cell a cs v) (set_mem (write_bytes (mem s) a cs) s) tbl.
Proof.
  intros Mo Ha B Hl.
  destruct (models_write R root v s tbl a [] bs [] cs a Mo) as [W Mo'];
    rewrite ?app_nil_r; try done; [cbn [length]; lia|].
  cbn [app] in Mo'. by rewrite app_nil_r in Mo'.
Qed.

End Steps.

(** Runs the service whose result [Eq] gives, keeping the view [Mo]. *)
Ltac serve Mo Eq :=
  let s' := fresh "s" in let R := fresh "R" in let Fw := fresh "Fw" in
  let Me := fresh "Me" in let Mo' := fresh "Mo" in
  destruct (models_service _ _ _ _ _ _ _ _ _ Mo Eq ltac:(eassumption)) as (s' & R & Fw & Me & Mo');
  run_step R; cbv beta iota; clear R; clear Mo; rename Mo' into Mo.

Ltac no_error :=
  match goal with
  | |- context [(EFIERR ?f ?l ?x ≫= _) ?s] =>
      let Ok := fresh "Ok" in
      assert (Ok : EFI_ERROR x = false) by (assumption || apply efi_error_success);
      rewrite (bind_ret _ _ _ _ _ (EFIERR_ok f l x s Ok)); cbv beta; clear Ok
  end.

Section Reading.
Context {E : Efi} {F : Firmware} {L : Layout} {K : Fuel} {H : ImageHandle}.
Context {EL : EfiLaws E} {AL : AllocLaws E F} {LL : LayoutLaws L}.
Context {kernel : Z} {image : list Z} {FS : FileSupply kernel image} {BS : BootSupply kernel image}.

Lemma open_kernel k p root v s tbl :
  models (ready k p) root v s tbl ->
  exists s', fs_open (str "kernel") s = Ret (EFI_SUCCESS, kernel) s'
    /\ models (ready k 0) root v s' tbl.
Proof.
  intros Mo. unfold fs_open.
  destruct (boot_protocol _ _ _ _ handle LoadedImageProtocol (mo_ready _ _ _ _ _ Mo) ltac:(by left))
    as (x & w & Eq & Rd).
  serve Mo Eq. no_error. erewrite bind_ret by reflexivity. cbv beta.
  destruct (boot_protocol _ _ _ _ (DeviceHandle x (fw s0)) SimpleFileSystemProtocol
    (mo_ready _ _ _ _ _ Mo) ltac:(by right)) as (y & w' & Eq' & Rd').
  serve Mo Eq'. no_error.
  destruct (boot_volume _ _ _ _ y (mo_ready _ _ _ _ _ Mo)) as (z & w2 & Eq2 & Rd2).
  serve Mo Eq2. no_error.
  destruct (boot_open _ _ _ _ z (mo_ready _ _ _ _ _ Mo)) as (w3 & Eq3 & Rd3).
  serve Mo Eq3. rewrite Z.eqb_refl. cbn [negb]. by exists s3.
Qed.

Lemma ready_hands_out_pool p k size :
  0 <= size <= 4096 -> hands_out_pool size (ready (S k) p) (ready k p).
Proof. intros Hs D w m st a c w' Rd Dm A. by apply (ready_pool 1 k p D w m size st a c w'); try lia. Qed.

Lemma malloc_cell (R R' : gset Z -> fwst -> Prop) root v s tbl n :
  hands_out_pool n R R' -> models R root v s tbl -> 0 <= n ->
  exists a junk s', malloc n s = Ret a s' /\ zlen junk = n /\ 0 < a /\ a + n <= 2 ^ 52
    /\ unmapped (mem s) a n /\ models R' root (set_cell a junk v) s' tbl.
Proof.
  intros HO Mo Hn.
  destruct (models_pool_block R R' root v s tbl n HO Mo Hn)
    as (st & a & junk & s' & Al & Ok & Lj & _ & A0 & A1 & U & Mo').
  exists a, junk, s'. split; [|done]. unfold malloc. run_step Al. cbv beta iota.
  by run_step (EFIERR_ok (str "lib/stdlib/malloc.c") 8 st s' Ok).
Qed.

Lemma kernel_information k p root v s tbl :
  models (ready (S k) p) root v s tbl ->
  exists a s', fs_get_file_info kernel s = Ret a s' /\ unmapped (mem s) a (zlen file_information)
    /\ models (ready k p) root (set_cell a file_information v) s' tbl.
Proof.
  intros Mo. destruct information_ok as (B & Le & _). unfold fs_get_file_info.
  destruct (boot_info_size _ _ _ _ (mo_ready _ _ _ _ _ Mo)) as (w & Eq & Rd).
  serve Mo Eq. erewrite bind_ret by reflexivity. cbv beta.
  rewrite Z.eqb_refl. rewrite andb_false_r.
  replace (set_mem (write_bytes (mem s0) 0 []) s0) with s0 by by destruct s0.
  assert (HO : hands_out_pool (zlen file_information) (ready (S k) p) (ready k p))
    by (apply ready_hands_out_pool; lia).
  destruct (malloc_cell _ _ _ _ _ _ _ HO Mo ltac:(lia)) as (a & junk & s1 & Ma & Lj & _ & _ & U & Mo1).
  run_step Ma.
  destruct (boot_info _ _ _ _ (mo_ready _ _ _ _ _ Mo1)) as (w1 & Eq1 & Rd1).
  serve Mo1 Eq1.
  destruct (models_fill _ _ _ _ _ a junk file_information Mo1 (cell_same _ _ _) B ltac:(lia))
    as [W Mo2]. run_step W. rewrite set_cell_twice in Mo2.
  eexists a, _. split; [reflexivity|]. split; [by rewrite <-Me|exact Mo2].
Qed.

(** Reading from the file into a cell. *)
Lemma read_cell k p root v s tbl size buf old :
  models (ready k p) root v s tbl -> cells v !! buf = Some old -> zlen old = size ->
  0 <= p -> p + size <= zlen image -> are_bytes image ->
  let data := chunk (Z.to_nat p) (Z.to_nat size) image in
  exists s', file_Read kernel size buf s = Ret (EFI_SUCCESS, size) s'
    /\ models (ready k (p + size)) root (set_cell buf data v) s' tbl.
Proof.
  intros Mo Hb Ho Hp Hi Bi data.
  assert (Hd : length data = length old) by (unfold data; rewrite chunk_length; lia).
  destruct (mo_cells _ _ _ _ _ Mo _ _ Hb) as [Hh _].
  destruct (file_Read_ret k p _ s size buf (mo_ready _ _ _ _ _ Mo) Hp ltac:(lia) Hi) as (w & Rd & Rd').
  { rewrite <-Ho. eapply holds_mapped; [exact Hh|lia]. }
  eexists. split; [exact Rd|]. fold data.
  destruct (models_fill _ _ _ _ _ buf old data Mo Hb ltac:(by apply chunk_bytes) Hd) as [_ Mo'].
  eapply models_fw; [exact Mo'|]. cbn [mem set_mem]. rewrite dom_write_mapped; [exact Rd'|].
  rewrite Hd. eapply holds_mapped; [exact Hh|lia].
Qed.

Lemma seek_kernel k p q root v s tbl :
  models (ready k p) root v s tbl ->
  exists s', firmware (FileSetPosition kernel q) s = Ret EFI_SUCCESS s'
    /\ models (ready k q) root v s' tbl.
Proof.
  intros Mo. destruct (seek_ret k p q _ s (mo_ready _ _ _ _ _ Mo)) as (w & Sk & Rd).
  eexists. split; [exact Sk|]. by eapply models_fw.
Qed.

Lemma copy_kernel_copies k p root v s tbl info :
  models (ready (Z.to_nat (pages_of (zlen image)) + k) p) root v s tbl ->
  cells v !! info = Some file_information -> are_bytes image -> 0 < zlen image < 2 ^ 52 ->
  exists copy s', copy_kernel kernel info s = Ret copy s' /\ unmapped (mem s) copy (zlen image)
    /\ 0 < copy /\ copy + zlen image <= 2 ^ 52
    /\ models (ready k 0) root (set_cell copy image v) s' tbl.
Proof.
  intros Mo Hi Bi Hz. destruct information_ok as (_ & _ & O0 & O1 & Sz).
  set (n := Z.to_nat (pages_of (zlen image))) in *.
  assert (Size : forall R v' s', models R root v' s' tbl -> cells v' !! info = Some file_information ->
    load64 (info_FileSize info) s' = Ret (zlen image) s').
  { intros R v' s' Mo' Hc. unfold info_FileSize. rewrite <-(Z2Nat.id offsetof_FileSize) by lia.
    rewrite (cell_load 8 _ _ _ Mo' Hc) by lia. rewrite Sz, le_num_bytes. f_equal. apply wrap_small. lia. }
  unfold copy_kernel. run_step (Size _ _ _ Mo Hi).
  destruct (malloc_cell (ready (n + k) p) (ready k p) root v s tbl (zlen image))
    as (copy & junk & s1 & Ma & Lj & C0 & C1 & U & Mo1); [|exact Mo|lia|].
  { intros D w m st a c w' Rd Dm A. eapply (ready_pool n k p); try done. unfold n, pages_of. dlia. }
  run_step Ma.
  assert (Ni : info <> copy).
  { intros ->. destruct (mo_cells _ _ _ _ _ Mo _ _ Hi) as [Hh _].
    destruct (holds_mapped _ _ _ _ Hh ltac:(lia) copy ltac:(lia)) as [b Hb].
    by rewrite U in Hb by lia. }
  rewrite (bind_ret _ _ _ _ _ (Size _ _ _ Mo1 ltac:(cbn [cells set_cell]; by rewrite lookup_insert_ne))).
  cbv beta. unfold fs_read. rewrite bind_assoc.
  destruct (seek_kernel _ _ 0 _ _ _ _ Mo1) as (s2 & Sk & Mo2). run_step Sk.
  rewrite bind_assoc. no_error.
  destruct (read_cell _ _ _ _ _ _ (zlen image) copy junk Mo2 (cell_same _ _ _) Lj) as (s3 & Rd & Mo3);
    [lia|lia|done|].
  rewrite bind_assoc. run_step Rd. cbv beta iota. rewrite bind_assoc. no_error.
  destruct (seek_kernel _ _ 0 _ _ _ _ Mo3) as (s4 & Sk4 & Mo4). rewrite bind_assoc. run_step Sk4.
  no_error. exists copy, s4. split; [done|]. repeat (split; [done|]).
  rewrite set_cell_twice in Mo4. unfold chunk in Mo4. change (Z.to_nat 0) with 0%nat in Mo4.
  rewrite drop_0, take_ge in Mo4 by lia. exact Mo4.
Qed.

(** The segment [ph] in its pages at [b]. *)
Record placed (v : world) (ph : elf64_phdr) (b : Z) : Prop := {
  pl_page : 0 < b /\ b mod 4096 = 0 /\ b + 4096 * pages_of (memsz ph) <= 2 ^ 52;
  pl_bytes : objects v b (segment_bytes image ph);
  pl_map va : 0 <= va < 2 ^ 64 -> slice 39 va <> 510 -> in_pages ph va ->
    space v va
    = Some (Z.lor (b + 4096 * page_index (vaddr ph) va) (Z.lor PAGE_PRESENT PAGE_WRITE));
}.

Lemma segment_bytes_length ph : loadable image ph -> zlen (segment_bytes image ph) = memsz ph.
Proof.
  intros [Off Fl Sz Ms _ _ _]. unfold segment_bytes. rewrite length_app, length_replicate.
  pose proof (chunk_zlen (image := image) (offset ph) (filesz ph) Off ltac:(lia) ltac:(lia)). lia.
Qed.

Lemma are_bytes_segment ph : are_bytes image -> are_bytes (segment_bytes image ph).
Proof.
  intros B. apply Forall_app_2; [by apply chunk_bytes|]. apply Forall_replicate. unfold is_byte. lia.
Qed.

(** A loaded segment is an object of the program, apart from what it had. *)
Lemma loaded_stored D root s s' tbl ph b a bs :
  dom (mem s) ⊆ D -> are_bytes image -> loadable image ph -> loaded D image root s' tbl ph b ->
  holds (mem s) a (zlen bs) bs ->
  stored s' tbl b (segment_bytes image ph)
  /\ separated a (zlen bs) b (zlen (segment_bytes image ph)).
Proof.
  intros Sb Bi Ld [Pg Fr By _] Hh. rewrite (segment_bytes_length ph Ld).
  assert (Hn : memsz ph <= 4096 * pages_of (memsz ph)) by (unfold pages_of; dlia).
  split; [split|].
  - rewrite (segment_bytes_length ph Ld). split; [exact By|by apply are_bytes_segment].
  - rewrite (segment_bytes_length ph Ld). intros x Hx. apply Fr. lia.
  - apply separated_sym. eapply fresh_separated; [eapply holds_mapped; [exact Hh|lia]|].
    intros x Hx. destruct (Fr x) as [N _]; [lia|]. apply not_elem_of_dom. intros Hd. by apply N, Sb.
Qed.

Lemma kernel_placed k p root v s tbl header hb :
  let h := ehdr_of hb in
  let rows := phdr_rows image h in
  models (ready (Z.to_nat (pages_of (phnum h * phentsize h)) + (pages_needed rows + k)) p)
    root v s tbl ->
  cells v !! header = Some hb -> zlen hb = sizeof_ehdr -> are_bytes image ->
  loadable_kernel image h ->
  exists s' tbl' v' p', loader_kernel_phdrs kernel header root s = Ret tt s'
    /\ models (ready k p') root v' s' tbl'
    /\ cells v' = cells v /\ (forall a bs, objects v a bs -> objects v' a bs)
    /\ (forall row, row ∈ rows -> is_load row -> exists b, placed v' (phdr_of row) b)
    /\ forall va, 0 <= va < 2 ^ 64 -> slice 39 va <> 510 -> ~ touched_by rows va ->
         space v' va = space v va.
Proof.
  intros h rows Mo Hc Hl Bi Lk.
  destruct (loader_kernel_phdrs_spec p k root s tbl header hb (mo_pt _ _ _ _ _ Mo)
    (mo_cells _ _ _ _ _ Mo _ _ Hc) Hl Bi Lk (mo_ready _ _ _ _ _ Mo))
    as (a & s' & tbl' & p' & R & X & Lo & Rd). fold h rows in X, Lo.
  pose proof (lk_load _ _ Lk) as Ld. fold rows in Ld. rewrite Forall_forall in Ld, Lo.
  set (sp := translate (mem s') root).
  set (Q := fun b cs => exists row, row ∈ rows /\ is_load row
    /\ loaded (dom (mem s)) image root s' tbl' (phdr_of row) b /\ cs = segment_bytes image (phdr_of row)).
  exists s', tbl', (add_objects Q (set_space sp v)), p'. split; [exact R|]. split; [|split; [done|] ].
  - apply models_objects.
    + eapply models_evolves; [apply (models_pool _ _ _ _ _ (delete a (pool s)) Mo)|exact X|exact Rd|done].
    + intros b cs (row & Hr & Y & Lb & ->). split.
      * eapply (loaded_stored _ _ s); [done|done|by apply Ld|exact Lb|].
        apply (mo_cells _ _ _ _ _ Mo _ _ Hc).
      * intros c bs Hb. cbn [cells set_space] in Hb.
        eapply (loaded_stored _ _ s); [done|done|by apply Ld|exact Lb|].
        apply (mo_cells _ _ _ _ _ Mo _ _ Hb).
  - split; [intros; by right|]. split.
    + intros row Hr Y. destruct (Lo row Hr Y) as [b Lb]. exists b. split; [apply Lb| |].
      * left. by exists row.
      * apply Lb.
    + intros va Hva Ns T. cbn [space add_objects set_space]. unfold sp.
      rewrite (ev_same _ _ _ _ _ _ X va Hva Ns T). by apply Mo.
Qed.

(** The local variable for the header. *)
Lemma header_local k p root v s tbl :
  models (ready (S k) p) root v s tbl ->
  let a := stack_addr (mem s) sizeof_ehdr in
  let junk := bytes_at stack_junk sizeof_ehdr in
  models (ready k p) root (set_cell a junk v) (set_mem (write_bytes (mem s) a junk) s) tbl
  /\ unmapped (mem s) a sizeof_ehdr /\ zlen junk = sizeof_ehdr.
Proof.
  intros Mo a junk. destruct (stack_fresh (mem s) sizeof_ehdr ltac:(done)) as [A0 U].
  assert (Lj : zlen junk = sizeof_ehdr) by (apply length_bytes_at; done).
  split; [|done]. replace (set_mem (write_bytes (mem s) a junk) s)
    with (set_fw (fw s) (set_mem (write_bytes (mem s) a junk) s)) by by destruct s.
  eapply models_fresh; [exact Mo|by rewrite Lj|apply are_bytes_bytes_at|].
  replace (length junk) with 64%nat by (change sizeof_ehdr with 64 in Lj; lia).
  by apply boot_local; [apply Mo|].
Qed.

(** Reading and checking the header. *)
Lemma header_read k root v s tbl header junk :
  models (ready k 0) root v s tbl -> cells v !! header = Some junk -> zlen junk = sizeof_ehdr ->
  are_bytes image -> sizeof_ehdr <= zlen image ->
  exists s', loader_parse_header kernel header s = Ret EFI_SUCCESS s'
    /\ models (ready k sizeof_ehdr) root (set_cell header (chunk 0 64 image) v) s' tbl.
Proof.
  intros Mo Hc Hl Bi Hi. unfold loader_parse_header.
  destruct (read_cell k 0 root v s tbl sizeof_ehdr header junk Mo Hc Hl) as (s1 & Rd & Mo1); try done.
  run_step Rd. cbv beta iota. no_error. by exists s1.
Qed.

Lemma header_checked R root v s tbl header :
  models R root v s tbl -> cells v !! header = Some (chunk 0 64 image) -> sizeof_ehdr <= zlen image ->
  elf_accepted (ehdr_of (chunk 0 64 image)) -> elf_header_check header s = Ret EFI_SUCCESS s.
Proof.
  intros Mo Hc Hi Acc. destruct (mo_cells _ _ _ _ _ Mo _ _ Hc) as [ [Hh _] _].
  change sizeof_ehdr with 64 in Hi. rewrite chunk_length, Nat2Z.id in Hh by lia.
  rewrite (elf_header_check_ret _ _ _ Hh). by rewrite (proj2 (elf_defect_accepted _) Acc).
Qed.

End Reading.
