(* ===== verification/HandoverFacts.v ===== *)
(** * What the kernel is handed

    The second half of [loader_kernel], after the file is closed: the stack and
    the information structure, the display, the image of the loader, the ACPI
    table and the memory map.  [advances] is what these steps may do to the
    view: they add objects and cells, write the information structure, and map
    low memory to itself. *)

From S2P Require Import Prelude Memory Firmware State CString Printf PrintfFacts Console Alloc.
From S2P Require Import Paging PagingFacts Elf Files Segments SegmentFacts PhdrFacts World.
From S2P Require Import Boot Kernel KernelFacts BootFacts.

Definition PW : Z := Z.lor PAGE_PRESENT PAGE_WRITE.

Lemma PW_flags : entry_flags PW.
Proof. split; [vm_compute; split; [discriminate|reflexivity]|]. split; reflexivity. Qed.

Record advances (info : Z) (v v' : world) : Prop := {
  ad_objects a bs : objects v a bs -> objects v' a bs;
  ad_cells a bs : a <> info -> bs <> [] -> cells v !! a = Some bs -> cells v' !! a = Some bs;
  ad_space va : 0 <= va < 2 ^ 64 ->
    space v' va = space v va
    \/ (vpn va < 2 ^ 35 /\ space v' va = Some (Z.lor (vpn va * 4096) PW));
}.

Lemma advances_refl info v : advances info v v.
Proof. split; auto. Qed.

Lemma advances_trans info v1 v2 v3 :
  advances info v1 v2 -> advances info v2 v3 -> advances info v1 v3.
Proof.
  intros [O1 C1 S1] [O2 C2 S2]. split; auto.
  intros va Hva. destruct (S2 va Hva) as [->|]; auto.
Qed.

Lemma advances_info info bs v : advances info v (set_cell info bs v).
Proof.
  split; cbn [objects cells space set_cell]; auto.
  intros a cs N _ Ha. by rewrite lookup_insert_ne.
Qed.

Lemma advances_cell info a bs v :
  (forall cs, cells v !! a = Some cs -> cs = []) -> advances info v (set_cell a bs v).
Proof.
  intros N. split; cbn [objects cells space set_cell]; auto.
  intros b cs _ Ne Hb. rewrite lookup_insert_ne; [done|]. intros <-. by apply Ne, N.
Qed.

Lemma advances_identity info first last v :
  last < 2 ^ 35 -> advances info v (map_identity first last PW v).
Proof.
  intros Hl. split; cbn [objects cells space map_identity set_space]; auto.
  intros va _. case_decide; [|by left]. right. split; [lia|done].
Qed.

Lemma low_clear first n : 0 <= first -> first + n <= 2 ^ 35 -> clear_of_slot first n.
Proof.
  intros Hf Hn j Hj. change (2 ^ 27) with 0x8000000. change (2 ^ 35) with 0x800000000 in Hn. dlia.
Qed.

Section Steps.
Context {F : Firmware}.

(** The key of a new cell is new. *)
Lemma fresh_cell R root v s tbl a n bs :
  models R root v s tbl -> unmapped (mem s) a n -> 0 < n -> cells v !! a = Some bs -> bs = [].
Proof.
  intros Mo U Hn Ha. destruct bs as [|b bs]; [done|]. exfalso.
  destruct (mo_cells _ _ _ _ _ Mo _ _ Ha) as [Hh _].
  destruct (holds_mapped _ _ _ _ Hh ltac:(lia) a ltac:(cbn [length]; lia)) as [x Hx].
  by rewrite U in Hx by lia.
Qed.

(** Storage that is not used. *)
Lemma models_ignore (R R' : gset Z -> fwst -> Prop) root v s tbl a bs w :
  models R root v s tbl -> unmapped (mem s) a (zlen bs) ->
  R' (dom (mem s) ∪ dom (write_bytes ∅ a (replicate (length bs) 0))) w ->
  models R' root v (set_fw w (set_mem (write_bytes (mem s) a bs) s)) tbl.
Proof.
  intros Mo U H. pose proof (mo_pt _ _ _ _ _ Mo) as I.
  assert (X : evolves root s (set_fw w (set_mem (write_bytes (mem s) a bs) s)) tbl tbl (fun _ => False)).
  { apply evolves_fw, evolves_write; [by apply evolves_refl|]. intros x Hx.
    split; [by apply U|by eapply unmapped_outside]. }
  replace v with (set_space (space v) v) by by destruct v.
  eapply models_evolves; [exact Mo|exact X|cbn [mem set_fw set_mem fw]; by rewrite dom_write_bytes|].
  intros va Hva Ns. rewrite (ev_same _ _ _ _ _ _ X) by auto. by apply Mo.
Qed.

(** One block of storage that a service hands out. *)
Lemma models_publishing {A} (f : memory -> fwst -> A * storage * fwst)
    (R R' : gset Z -> fwst -> Prop) root v s tbl x a bs w :
  models R root v s tbl -> f (mem s) (fw s) = (x, [(a, bs)], w) -> are_bytes bs ->
  unmapped (mem s) a (zlen bs) ->
  R' (dom (mem s) ∪ dom (write_bytes ∅ a (replicate (length bs) 0))) w ->
  exists s', publishing f s = Ret x s' /\ models R' root (set_cell a bs v) s' tbl.
Proof.
  intros Mo Ef B U H. eexists. split.
  - unfold publishing. rewrite Ef. reflexivity.
  - cbn [foldr fst snd mem set_fw].
    replace (map u8 bs) with bs; [exact (models_fresh R R' root v s tbl a bs w Mo U B H)|].
    symmetry. rewrite <-(map_id bs) at 2. apply map_ext_in. intros b Hb. apply u8_byte.
    by apply (proj1 (List.Forall_forall _ _) B).
Qed.

End Steps.

Section Handover.
Context {E : Efi} {F : Firmware} {L : Layout} {K : Fuel} {H : ImageHandle} {T : SystemTable}.
Context {EL : EfiLaws E} {AL : AllocLaws E F}.
Context {kernel : Z} {image : list Z} {FS : FileSupply kernel image} {BS : BootSupply kernel image}.

#[local] Instance left_pages : PageSupply.
Proof.
  refine {| supply := left; supply_less := left_less |}.
  intros k D w m st a c w' Rd Dm A.
  destruct (left_alloc 1 k ltac:(lia) D w m st a c w' Rd Dm A) as (St & _ & Rd'). split; [done|].
  exact Rd'.
Defined.

Lemma left_enough k j D w : left (j + k) D w -> left k D w.
Proof. induction j as [|j IH]; [done|]. intros Hl. by apply IH, left_less. Qed.

Lemma models_less k j root v s tbl :
  (k <= j)%nat -> models (left j) root v s tbl -> models (left k) root v s tbl.
Proof.
  intros Hk Mo. eapply models_ready; [exact Mo|]. intros Hl. apply (left_enough k (j - k)).
  by replace (j - k + k)%nat with j by lia.
Qed.

(** Mapping up to [n] pages of low memory to themselves. *)
Lemma map_low_pages info root v s tbl a m (n k : nat) :
  models (left (3 * n + k)) root v s tbl -> a mod 4096 = 0 -> 0 <= m <= Z.of_nat n -> low a (4096 * m) ->
  exists s' tbl' v', map_addr_loop (Z.to_nat m) 0 root a PW s = Ret tt s'
    /\ models (left k) root v' s' tbl' /\ cells v' = cells v /\ advances info v v'.
Proof.
  intros Mo Al Hm (A0 & A1 & A2).
  apply (models_less (3 * Z.to_nat m + k)) in Mo; [|lia].
  destruct (models_map_loop (PS := left_pages) root v s tbl a PW (Z.to_nat m) k Mo) as (s' & tbl' & R & Mo'); try lia.
  { apply low_clear; [dlia|]. change (2 ^ 35) with 0x800000000.
    change (2 ^ 47) with 0x800000000000 in A2. dlia. }
  { apply PW_flags. }
  eexists s', tbl', _. split; [exact R|]. split; [exact Mo'|]. split; [done|].
  apply advances_identity. change (2 ^ 35) with 0x800000000.
  change (2 ^ 47) with 0x800000000000 in A2. dlia.
Qed.

Lemma map_low_addr info root v s tbl a len fl (n k : nat) :
  models (left (3 * n + k)) root v s tbl -> low a len -> len / 4096 + 2 <= Z.of_nat n -> fl = PW ->
  exists s' tbl' v', loader_paging_map_addr root a len fl s = Ret tt s'
    /\ models (left k) root v' s' tbl' /\ cells v' = cells v /\ advances info v v'.
Proof.
  intros Mo (A0 & A1 & A2) Hn ->. change (2 ^ 47) with 0x800000000000 in A2.
  assert (Hp : 0 <= (a + len) / 4096 - a / 4096 <= len / 4096 + 1) by dlia.
  set (m := Z.to_nat (1 + ((a + len) / 4096 - a / 4096))).
  apply (models_less (3 * m + k)) in Mo; [|lia].
  destruct (models_map_addr (PS := left_pages) root v s tbl a len PW k Mo) as (s' & tbl' & R & Mo'); try lia.
  { apply low_clear; [dlia|]. change (2 ^ 35) with 0x800000000. dlia. }
  { apply PW_flags. }
  eexists s', tbl', _. split; [exact R|]. split; [exact Mo'|]. split; [done|].
  apply advances_identity. change (2 ^ 35) with 0x800000000. dlia.
Qed.

(** A store to a field of the information structure. *)
Lemma info_store info root v s tbl R l (i : nat) y q :
  models R root v s tbl -> cells v !! info = Some (words_bytes l) -> (i < length l)%nat ->
  q = info + 8 * Z.of_nat i ->
  exists s' v', store64 q y s = Ret tt s' /\ fw s' = fw s /\ models R root v' s' tbl
    /\ cells v' !! info = Some (words_bytes (<[i:=y]> l)) /\ advances info v v'.
Proof.
  intros Mo Hc Hi Hq. destruct (word_store _ _ i y q Mo Hc Hi Hq) as (s' & St & Fw & Mo').
  eexists s', _. split; [exact St|]. split; [exact Fw|]. split; [exact Mo'|].
  split; [apply cell_same|apply advances_info].
Qed.

(** ** The stack *)

Definition stack_words : nat := Z.to_nat (STACK_SIZE / 8).
Definition stack_slot_index : nat := Z.to_nat ((STACK_SIZE - 32) / 8).

Definition map_stack (stack : Z) (v : world) : world :=
  set_space (fun va => if decide (page_index STACK va < 33)
    then Some (Z.lor (stack + 4096 * page_index STACK va) STACK_FLAGS) else space v va) v.

Lemma setup_stack_step root v s tbl info stack k :
  models (left (3 * 33 + k)) root v s tbl -> 0 <= stack -> stack + STACK_SIZE <= 2 ^ 52 ->
  cells v !! stack = Some (words_bytes (replicate stack_words 0)) ->
  exists s' tbl', setup_stack root info stack s = Ret tt s'
    /\ models (left k) root
         (set_cell stack (words_bytes (<[stack_slot_index := info]> (replicate stack_words 0)))
            (map_stack stack v)) s' tbl'.
Proof.
  intros Mo Hs Hm Hc. unfold setup_stack. change STACK_SIZE with 135168 in Hm |- *.
  destruct (map_stack_loop_spec (PS := left_pages) root stack k 33 0 s tbl (mo_pt _ _ _ _ _ Mo) Hs ltac:(lia) ltac:(lia)
    ltac:(lia) (mo_ready _ _ _ _ _ Mo)) as (s1 & tbl1 & R1 & X1 & S1 & T1).
  assert (Mo1 : models (left k) root (map_stack stack v) s1 tbl1).
  { eapply models_evolves; [exact Mo|exact X1|exact S1|]. intros va Hva Ns.
    pose proof (page_index_range STACK va). case_decide.
    - apply T1; [done|done|lia].
    - rewrite (ev_same _ _ _ _ _ _ X1 va Hva Ns) by lia. by apply Mo. }
  run_step R1. rewrite wrap_small by lia.
  destruct (word_store stack (replicate stack_words 0) stack_slot_index info (stack + 135168 - 8 * 4)
    Mo1 Hc) as (s2 & R2 & _ & Mo2).
  - rewrite length_replicate. unfold stack_slot_index, stack_words. vm_compute. lia.
  - unfold stack_slot_index. change ((STACK_SIZE - 32) / 8) with 16892. lia.
  - exists s2, tbl1. split; [exact R2|exact Mo2].
Qed.

(** ** The display *)

Lemma display_found info root v s tbl k l :
  models (left (S k)) root v s tbl -> cells v !! info = Some (words_bytes l) ->
  l !! 0%nat = Some handle -> 0 <= handle < 2 ^ 64 ->
  exists gop s' v', efi_gop_get info s = Ret (EFI_SUCCESS, Some gop) s'
    /\ models (left k) root v' s' tbl /\ cells v' !! info = cells v !! info /\ advances info v v'.
Proof.
  intros Mo Hc H0 Hh.
  destruct (boot_displays k _ _ (mem s) (mo_ready _ _ _ _ _ Mo) eq_refl)
    as (n & a & handles & w & Eq & Hn & Lh & B & U & A0 & Rd).
  destruct (models_publishing (LocateHandleBuffer (Some GraphicsOutputProtocol)) _ (left k) _ _ _ _
    (EFI_SUCCESS, n, a) a handles w Mo Eq B ltac:(by rewrite Lh) Rd) as (s1 & R1 & Mo1).
  unfold efi_gop_get. run_step R1. cbv beta iota. no_error.
  assert (Ni : info <> a).
  { intros ->. pose proof (fresh_cell _ _ _ _ _ _ _ _ Mo U ltac:(lia) Hc) as Z.
    apply (f_equal length) in Z. rewrite words_bytes_length in Z. apply lookup_lt_Some in H0.
    cbn [length] in Z. lia. }
  assert (Hc1 : cells (set_cell a handles v) !! info = Some (words_bytes l))
    by (cbn [cells set_cell]; by rewrite lookup_insert_ne).
  destruct (Z.to_nat n) as [|n'] eqn:En; [lia|]. cbn [gop_get_loop].
  rewrite (bind_ret _ _ _ _ _ (cell_load 8 0 a handles Mo1 (cell_same _ _ _) ltac:(lia))). cbv beta.
  rewrite (bind_ret _ _ _ _ _ (word_load info l 0 handle (info_handle info) Mo1 Hc1 H0 Hh
    ltac:(unfold info_handle; lia))). cbv beta.
  destruct (boot_display k _ _ (le_num (chunk 0 8 handles)) (mo_ready _ _ _ _ _ Mo1))
    as (gop & w2 & Eq2 & Ng & Rd2).
  serve Mo1 Eq2. no_error. destruct (Z.eqb_spec gop 0); [done|]. cbn [negb].
  exists gop, s0, (set_cell a handles v). split; [done|]. split; [exact Mo1|].
  split; [by rewrite Hc, Hc1|]. apply advances_cell.
  intros cs Hcs. eapply fresh_cell; [exact Mo|exact U|lia|exact Hcs].
Qed.

Lemma modes_scanned root v tbl gop n : forall i w h sel s k,
  models (left (n + k)) root v s tbl ->
  exists r s', framebuffer_setup_loop n gop i w h sel s = Ret r s' /\ models (left k) root v s' tbl.
Proof.
  induction n as [|n IH]; intros i w h sel s k Mo; cbn [framebuffer_setup_loop]; [by eauto|].
  destruct (AllocatePool EfiLoaderData 8 (mem s) (fw s)) as [[[st a] c] w1] eqn:A.
  destruct (left_pool (n + k) 8 ltac:(lia) _ _ _ _ _ _ _ (mo_ready _ _ _ _ _ Mo) eq_refl A) as (Ok & Rd).
  destruct (alloc_pool_fresh _ _ _ _ _ _ _ _ A Ok ltac:(lia)) as (A0 & A1 & U).
  run_step (boot_AllocatePool_ret s 8 st a c w1 A Ok).
  assert (Mo1 : models (left (n + k)) root v
    (set_pool (<[a:=8]> (pool s)) (set_mem (write_bytes (mem s) a (bytes_at c 8)) (set_fw w1 s))) tbl)
    by (apply models_pool; by eapply (models_ignore _ _ _ _ s)).
  clear Mo. set (s1 := set_pool _ _) in *. clearbody s1.
  destruct (boot_query _ _ _ gop i (mo_ready _ _ _ _ _ Mo1)) as (st2 & m & w2 & Eq & Ok2 & Rd2).
  serve Mo1 Eq. no_error.
  destruct (_ && _ && _).
  - destruct (SetMode gop i (fw s0)) as [x w3] eqn:Sm.
    pose proof (boot_set _ _ _ gop i (mo_ready _ _ _ _ _ Mo1)) as Rd3. rewrite Sm in Rd3. cbn [snd] in Rd3.
    serve Mo1 Sm. exists None, s2. split; [done|].
    eapply (models_less _ (n + k)); [lia|exact Mo1].
  - case_match; by apply IH.
Qed.

Lemma display_set root v s tbl gop k :
  models (left (display_modes + k)) root v s tbl ->
  exists b s', framebuffer_setup gop s = Ret b s' /\ models (left k) root v s' tbl.
Proof.
  intros Mo. unfold framebuffer_setup. erewrite bind_ret by reflexivity. cbv beta.
  destruct (boot_mode _ _ _ gop (mo_ready _ _ _ _ _ Mo)) as (Hm & _).
  destruct (modes_scanned root v tbl gop (Z.to_nat (MaxMode (GopMode_of gop (fw s)))) 0 0 0 0 s k)
    as (r & s1 & R & Mo1); [eapply models_less; [|exact Mo]; lia|].
  run_step R. destruct r as [sel|]; [|by eauto]. destruct (_ && _); [|by eauto].
  destruct (SetMode gop sel (fw s1)) as [x w] eqn:Sm.
  pose proof (boot_set _ _ _ gop sel (mo_ready _ _ _ _ _ Mo1)) as Rd. rewrite Sm in Rd. cbn [snd] in Rd.
  serve Mo1 Sm. by eauto.
Qed.

(** What [framebuffer_get] draws: the list of displays, one block per mode, two
    structures and the pages of the framebuffer. *)
Definition display_cost : nat := (1 + (display_modes + (6 + (6 + 3 * display_pages))))%nat.

Lemma framebuffer_step info root v s tbl k l :
  models (left (display_cost + k)) root v s tbl -> cells v !! info = Some (words_bytes l) ->
  l !! 0%nat = Some handle -> 0 <= handle < 2 ^ 64 -> (8 < length l)%nat ->
  exists y s' tbl' v', framebuffer_get info root s = Ret tt s'
    /\ models (left k) root v' s' tbl'
    /\ cells v' !! info = Some (words_bytes (<[8%nat := y]> l)) /\ advances info v v'.
Proof.
  intros Mo Hc H0 Hh Hl. unfold framebuffer_get.
  destruct (display_found info root v s tbl (display_modes + (6 + (6 + (3 * display_pages + k)))) l)
    as (gop & s1 & v1 & R1 & Mo1 & C1 & A1); try done.
  { eapply models_less; [|exact Mo]. unfold display_cost. lia. }
  run_step R1. cbv beta iota.
  destruct (display_set root v1 s1 tbl gop _ Mo1) as (b & s2 & R2 & Mo2). run_step R2.
  erewrite bind_ret by reflexivity. cbv beta.
  destruct (boot_mode _ _ _ gop (mo_ready _ _ _ _ _ Mo2)) as (_ & La & Li & Al & Hp & Lf).
  set (m := GopMode_of gop (fw s2)) in *. rewrite Hc in C1.
  destruct (info_store info root v1 s2 tbl _ l 8 (gop_mode_address m) (info_gop_mode info) Mo2 C1 Hl)
    as (s3 & v3 & R3 & _ & Mo3 & C3 & A3); [unfold info_gop_mode; lia|]. run_step R3.
  destruct (map_low_addr info root v3 s3 tbl (gop_mode_address m) 8 _ 2 _ Mo3 La ltac:(done) eq_refl)
    as (s4 & tbl4 & v4 & R4 & Mo4 & C4 & A4). run_step R4.
  destruct (map_low_addr info root v4 s4 tbl4 (gop_mode_Info m) 8 _ 2 _ Mo4 Li ltac:(done) eq_refl)
    as (s5 & tbl5 & v5 & R5 & Mo5 & C5 & A5). run_step R5.
  destruct (map_low_pages info root v5 s5 tbl5 (FrameBufferBase m) (whole_pages (FrameBufferSize m))
    display_pages k Mo5 Al Hp Lf) as (s6 & tbl6 & v6 & R6 & Mo6 & C6 & A6).
  exists (gop_mode_address m), s6, tbl6, v6. split; [exact R6|]. split; [exact Mo6|]. split.
  - by rewrite C6, C5, C4.
  - eauto 10 using advances_trans.
Qed.

(** ** The image of the loader and the ACPI table *)

Lemma image_step info root v s tbl k l :
  models (left k) root v s tbl -> cells v !! info = Some (words_bytes l) ->
  l !! 0%nat = Some handle -> 0 <= handle < 2 ^ 64 -> (2 < length l)%nat ->
  exists x s' v', efi_get_image info s = Ret EFI_SUCCESS s' /\ 0 <= x < 2 ^ 64
    /\ models (left k) root v' s' tbl
    /\ cells v' !! info = Some (words_bytes (<[2%nat := x]> l)) /\ advances info v v'.
Proof.
  intros Mo Hc H0 Hh Hl. unfold efi_get_image.
  rewrite (bind_ret _ _ _ _ _ (word_load info l 0 handle (info_handle info) Mo Hc H0 Hh
    ltac:(unfold info_handle; lia))). cbv beta.
  destruct (boot_image _ _ _ (mo_ready _ _ _ _ _ Mo)) as (x & w & Eq & Hx & Rd).
  serve Mo Eq.
  destruct (info_store info root v s0 tbl _ l 2 x (info_image info) Mo Hc Hl)
    as (s3 & v3 & R3 & _ & Mo3 & C3 & A3); [unfold info_image; lia|]. run_step R3. no_error.
  by exists x, s3, v3.
Qed.

Lemma rsdp_step info root v s tbl R l :
  models R root v s tbl -> cells v !! info = Some (words_bytes l) -> (7 < length l)%nat ->
  exists st l' s' v', efi_get_rsdp info s = Ret st s' /\ (l' = l \/ exists y, l' = <[7%nat := y]> l)
    /\ models R root v' s' tbl /\ cells v' !! info = Some (words_bytes l') /\ advances info v v'.
Proof.
  intros Mo Hc Hl. unfold efi_get_rsdp. destruct ConfigurationTable as [t|].
  - induction t as [|e t IH]; cbn [get_rsdp_loop].
    + exists EFI_NOT_FOUND, l, s, v. eauto 10 using advances_refl.
    + destruct (_ =? 0); [|exact IH].
      destruct (info_store info root v s tbl _ l 7 (VendorTable e) (info_rsdp info) Mo Hc Hl)
        as (s3 & v3 & R3 & _ & Mo3 & C3 & A3); [unfold info_rsdp; lia|]. run_step R3.
      exists EFI_SUCCESS. eexists _, s3, v3. eauto 10.
  - exists EFI_NOT_FOUND, l, s, v. eauto 10 using advances_refl.
Qed.

(** ** The memory map *)

Definition map_buffer_pages : nat := Z.to_nat (map_pages map_bytes).
Definition map_cost : nat := (map_buffer_pages + 3 * (map_buffer_pages + 2))%nat.

Lemma map_buffer_size : 0 < Z.of_nat map_buffer_pages < 2 ^ 21
  /\ map_pages map_bytes = Z.of_nat map_buffer_pages /\ map_bytes <= 4096 * Z.of_nat map_buffer_pages.
Proof.
  pose proof map_bytes_ok. unfold map_buffer_pages, map_pages.
  rewrite (wrap_small 64 (map_bytes + 0xFFF)) by lia.
  change (2 ^ 32) with 0x100000000 in *. change (2 ^ 21) with 0x200000.
  rewrite wrap_small by (change (2 ^ 64) with 0x10000000000000000; dlia). dlia.
Qed.

(** The first call asks for the size. *)
Lemma map_size_step info root v s tbl k l :
  models (left k) root v s tbl -> cells v !! info = Some (words_bytes l) ->
  l !! 3%nat = Some 0 -> (5 < length l)%nat ->
  exists key d s' v', get_map 0 info s = Ret (EFI_BUFFER_TOO_SMALL, map_bytes, d) s'
    /\ models (left k) root v' s' tbl
    /\ cells v' !! info = Some (words_bytes (<[5%nat := key]> l)) /\ advances info v v'.
Proof.
  intros Mo Hc H3 Hl. unfold get_map.
  rewrite (bind_ret _ _ _ _ _ (word_load info l 3 0 (info_efi_memory_map info) Mo Hc H3 ltac:(lia)
    ltac:(unfold info_efi_memory_map; lia))). cbv beta.
  destruct (boot_map_size _ _ _ (mo_ready _ _ _ _ _ Mo)) as (key & d & w & Eq & Rd).
  serve Mo Eq. erewrite bind_ret by reflexivity. cbv beta.
  replace (set_mem (write_bytes (mem s0) 0 []) s0) with s0 by by destruct s0.
  destruct key as [key|].
  2:{ destruct (lookup_lt_is_Some_2 l 5 Hl) as [key Hk]. exists key, d, s0, v.
      rewrite list_insert_id by done. eauto using advances_refl. }
  destruct (info_store info root v s0 tbl _ l 5 key (info_efi_memory_map_key info) Mo Hc Hl)
    as (s3 & v3 & R3 & _ & Mo3 & C3 & A3); [unfold info_efi_memory_map_key; lia|]. run_step R3.
  by exists key, d, s3, v3.
Qed.

(** The second fills the buffer. *)
Lemma map_fill_step info root v s tbl k l buffer junk :
  models (left k) root v s tbl -> cells v !! info = Some (words_bytes l) ->
  l !! 3%nat = Some buffer -> 0 <= buffer < 2 ^ 64 -> (5 < length l)%nat ->
  cells v !! buffer = Some junk -> map_bytes <= zlen junk -> buffer <> info -> junk <> [] ->
  exists st size key d data rest s' v', get_map map_bytes info s = Ret (st, size, d) s'
    /\ GetMemoryMap map_bytes (fw s) = (st, size, Some key, d, data, fw s')
    /\ EFI_ERROR st = false /\ 0 <= size < 2 ^ 64 /\ 0 <= key < 2 ^ 64 /\ 0 < d < 2 ^ 64
    /\ models (left k) root v' s' tbl
    /\ cells v' !! info = Some (words_bytes (<[5%nat := key]> l))
    /\ cells v' !! buffer = Some (data ++ rest) /\ data ++ rest <> []
    /\ objects v' = objects v /\ space v' = space v
    /\ forall a, a <> info -> a <> buffer -> cells v' !! a = cells v !! a.
Proof.
  intros Mo Hc H3 Hb Hl Hj Hz N Ne. unfold get_map.
  rewrite (bind_ret _ _ _ _ _ (word_load info l 3 buffer (info_efi_memory_map info) Mo Hc H3 Hb
    ltac:(unfold info_efi_memory_map; lia))). cbv beta.
  destruct (boot_map _ _ _ (mo_ready _ _ _ _ _ Mo))
    as (st & size & key & d & data & w & Eq & Ok & Ld & Bd & Hs & Hk & Hd & Rd).
  serve Mo Eq.
  set (n := length data). set (rest := drop n junk).
  assert (Hj' : cells v !! buffer = Some ([] ++ take n junk ++ rest)).
  { cbn [app]. unfold rest. by rewrite take_drop. }
  destruct (models_write _ _ _ _ _ buffer [] (take n junk) rest data buffer Mo Hj') as [W Mo1];
    [cbn [length]; lia|done|rewrite length_take; lia|].
  run_step W. cbn [app] in Mo1.
  assert (Hc1 : cells (set_cell buffer (data ++ rest) v) !! info = Some (words_bytes l))
    by (cbn [cells set_cell]; by rewrite lookup_insert_ne).
  destruct (word_store info l 5 key (info_efi_memory_map_key info) Mo1 Hc1 Hl)
    as (s3 & R3 & Fw3 & Mo3); [unfold info_efi_memory_map_key; lia|]. run_step R3.
  eexists st, size, key, d, data, rest, s3, _. split; [reflexivity|].
  cbn [fw set_mem] in Fw3. rewrite Fw3, Fw.
  repeat (split; [done|]). cbn [cells objects space set_cell].
  split; [apply lookup_insert_eq|]. split; [by rewrite lookup_insert_ne, lookup_insert_eq|].
  split; [|split; [done|split; [done|] ] ].
  - intros Z. apply (f_equal length) in Z. unfold rest in Z. rewrite length_app, length_drop in Z.
    apply Ne. destruct junk; [done|]. cbn [length] in *. lia.
  - intros a Na Nb. by rewrite !lookup_insert_ne.
Qed.

(** What the information structure says of the memory map when the firmware
    answered [w0] with the map [data], and the buffer holds it. *)
Record mapped_memory (l : list Z) (v : world) (w0 w : fwst) : Prop := {
  mm_map : exists st size key d data rest buffer,
    GetMemoryMap map_bytes w0 = (st, size, Some key, d, data, w) /\ EFI_ERROR st = false
    /\ l !! 3%nat = Some buffer /\ l !! 4%nat = Some (size / d)
    /\ l !! 5%nat = Some key /\ l !! 6%nat = Some d
    /\ cells v !! buffer = Some (data ++ rest) /\ data ++ rest <> []
    /\ 0 <= buffer < 2 ^ 64 /\ 0 <= size < 2 ^ 64 /\ 0 <= key < 2 ^ 64 /\ 0 < d < 2 ^ 64;
}.

(** Between them, the buffer is allocated and mapped to itself. *)
Lemma map_buffer_step info root v s tbl k l (next : M Z) :
  models (left (map_cost + k)) root v s tbl -> cells v !! info = Some (words_bytes l) ->
  (3 < length l)%nat ->
  exists b junk s' tbl' v',
    ('(status, buffer) ← boot_AllocatePages EfiLoaderData (map_pages map_bytes);
     _ ← (if EFI_ERROR status then skip else store64 (info_efi_memory_map info) buffer);
     if EFI_ERROR status then mret status
     else
       buffer ← load64 (info_efi_memory_map info);
       _ ← loader_paging_map_addr root buffer (u64 (Z.shiftl (map_pages map_bytes) 12))
             (Z.lor PAGE_WRITE PAGE_PRESENT);
       next) s = next s'
    /\ models (left k) root v' s' tbl'
    /\ cells v' !! info = Some (words_bytes (<[3%nat := b]> l)) /\ cells v' !! b = Some junk
    /\ map_bytes <= zlen junk /\ junk <> [] /\ b <> info /\ 0 <= b < 2 ^ 64
    /\ (forall cs, cells v !! b = Some cs -> cs = []) /\ advances info v v'.
Proof.
  intros Mo Hc Hl. destruct map_buffer_size as (Hp & Ep & Eb). set (n := map_buffer_pages) in *.
  replace (map_cost + k)%nat with (n + (3 * (n + 2) + k))%nat in Mo by (unfold map_cost; lia).
  destruct (models_pages_block _ _ root v s tbl (Z.of_nat n)
    (left_alloc n (3 * (n + 2) + k) ltac:(lia)) Mo ltac:(lia))
    as (st & b & junk & s2 & R2 & Ok & Lj & B0 & B1 & U & Mo2).
  rewrite Ep. run_step R2. cbv beta iota. rewrite Ok.
  assert (Nb : forall cs, cells v !! b = Some cs -> cs = [])
    by (intros cs; eapply fresh_cell; [exact Mo|exact U|lia]).
  assert (Ni : b <> info).
  { intros <-. apply Nb in Hc. apply (f_equal length) in Hc. rewrite words_bytes_length in Hc.
    cbn [length] in Hc. lia. }
  destruct (info_store info root _ s2 tbl _ l 3 b (info_efi_memory_map info) Mo2)
    as (s3 & v3 & R3 & _ & Mo3 & C3 & A3);
    [cbn [cells set_cell]; by rewrite lookup_insert_ne|lia|unfold info_efi_memory_map; lia|].
  run_step R3. cbv beta iota.
  rewrite (bind_ret _ _ _ _ _ (word_load info _ 3 b (info_efi_memory_map info) Mo3 C3
    (list_lookup_insert_eq _ _ _ Hl) ltac:(lia) ltac:(unfold info_efi_memory_map; lia))). cbv beta.
  replace (u64 (Z.shiftl (Z.of_nat n) 12)) with (4096 * Z.of_nat n)
    by (rewrite Z.shiftl_mul_pow2 by lia; change (2 ^ 12) with 4096; rewrite wrap_small; lia).
  destruct (map_low_addr info root v3 s3 tbl b (4096 * Z.of_nat n) (Z.lor PAGE_WRITE PAGE_PRESENT)
    (n + 2) k Mo3) as (s4 & tbl4 & v4 & R4 & Mo4 & C4 & A4); [unfold low; lia|dlia|done|].
  run_step R4.
  assert (Nj : junk <> []) by (intros ->; cbn [length] in Lj; lia).
  exists b, junk, s4, tbl4, v4. split; [done|]. split; [exact Mo4|]. split; [by rewrite C4|].
  split; [rewrite C4; apply (ad_cells _ _ _ A3); [done|done|apply cell_same]|].
  repeat (split; [done || lia|]).
  eauto using advances_trans, advances_cell.
Qed.

(** After them, the numbers are stored and the boot services left. *)
Lemma map_numbers_step info root v s tbl k l size key d :
  models (left k) root v s tbl -> cells v !! info = Some (words_bytes l) ->
  l !! 5%nat = Some key -> 0 <= key < 2 ^ 64 -> (6 < length l)%nat ->
  exists s' v' st,
    (_ ← store64 (info_efi_memory_map_entries info) (size / d);
     _ ← store64 (info_efi_memory_map_descriptor_size info) d;
     key ← load64 (info_efi_memory_map_key info);
     status ← firmware (ExitBootServices handle key);
     _ ← EFIERR (str "boot/memory_map.c") 35 status;
     mret EFI_SUCCESS) s = Ret EFI_SUCCESS s'
    /\ models (fun _ _ => True) root v' s' tbl
    /\ cells v' !! info = Some (words_bytes (<[6%nat := d]> (<[4%nat := size / d]> l)))
    /\ advances info v v' /\ ExitBootServices handle key (fw s) = (st, fw s') /\ EFI_ERROR st = false.
Proof.
  intros Mo Hc L5 Hk Hl.
  destruct (info_store info root v s tbl _ l 4 (size / d) (info_efi_memory_map_entries info) Mo Hc)
    as (s1 & v1 & R1 & F1 & Mo1 & C1 & A1); [lia|unfold info_efi_memory_map_entries; lia|]. run_step R1.
  destruct (info_store info root v1 s1 tbl _ _ 6 d (info_efi_memory_map_descriptor_size info) Mo1 C1)
    as (s2 & v2 & R2 & F2 & Mo2 & C2 & A2);
    [rewrite length_insert; lia|unfold info_efi_memory_map_descriptor_size; lia|]. run_step R2.
  rewrite (bind_ret _ _ _ _ _ (word_load info _ 5 key (info_efi_memory_map_key info) Mo2 C2
    ltac:(rewrite !list_lookup_insert_ne by lia; exact L5) Hk
    ltac:(unfold info_efi_memory_map_key; lia))). cbv beta.
  destruct (boot_exit _ _ _ key (mo_ready _ _ _ _ _ Mo2)) as (st & w & Eq & Ok).
  destruct (models_service (ExitBootServices handle key) _ (fun _ _ => True) _ _ _ _ _ _ Mo2 Eq I)
    as (s3 & R3 & F3 & _ & Mo3).
  run_step R3. no_error. exists s3, v2, st. split; [done|]. split; [exact Mo3|]. split; [exact C2|].
  split; [by eapply advances_trans|]. by rewrite F3, <-F1, <-F2.
Qed.

Lemma memory_map_step info root v s tbl k l :
  models (left (map_cost + k)) root v s tbl -> cells v !! info = Some (words_bytes l) ->
  l !! 3%nat = Some 0 -> (6 < length l)%nat ->
  exists s' tbl' v' l' w0 w key st, efi_get_memory_map info root s = Ret EFI_SUCCESS s'
    /\ models (fun _ _ => True) root v' s' tbl'
    /\ cells v' !! info = Some (words_bytes l') /\ advances info v v'
    /\ mapped_memory l' v' w0 w /\ l' !! 5%nat = Some key
    /\ ExitBootServices handle key w = (st, fw s') /\ EFI_ERROR st = false
    /\ length l' = length l
    /\ (forall i, i <> 3%nat -> i <> 4%nat -> i <> 5%nat -> i <> 6%nat -> l' !! i = l !! i).
Proof.
  intros Mo Hc H3 Hl. unfold efi_get_memory_map.
  destruct (map_size_step info root v s tbl _ l Mo Hc H3 ltac:(lia))
    as (key0 & d0 & s1 & v1 & R1 & Mo1 & C1 & A1).
  run_step R1. cbv beta iota. rewrite Z.eqb_refl. cbn [negb]. rewrite andb_false_r.
  destruct (map_buffer_step info root v1 s1 tbl k _
    ('(status, size, descriptor_size) ← get_map map_bytes info;
     if EFI_ERROR status && negb (status =? EFI_BUFFER_TOO_SMALL) then mret status
     else if descriptor_size =? 0 then fault 0
     else
       _ ← store64 (info_efi_memory_map_entries info) (size / descriptor_size);
       _ ← store64 (info_efi_memory_map_descriptor_size info) descriptor_size;
       key ← load64 (info_efi_memory_map_key info);
       status ← firmware (ExitBootServices handle key);
       _ ← EFIERR (str "boot/memory_map.c") 35 status;
       mret EFI_SUCCESS) Mo1 C1)
    as (b & junk & s4 & tbl4 & v4 & -> & Mo4 & C4 & Cb & Hz & Nj & Ni & Hb & Nb & A4);
    [rewrite length_insert; lia|].
  set (l3 := <[3%nat:=b]> _) in *.
  assert (Hl3 : length l3 = length l) by (unfold l3; by rewrite !length_insert).
  assert (L3 : l3 !! 3%nat = Some b)
    by (unfold l3; apply list_lookup_insert_eq; rewrite length_insert; lia).
  destruct (map_fill_step info root v4 s4 tbl4 k l3 b junk Mo4 C4 L3 Hb ltac:(lia) Cb Hz Ni Nj)
    as (st5 & size & key & d & data & rest & s5 & v5 & R5 & G5 & Ok5 & Hs & Hk & Hd & Mo5 & C5 & D5 & Ne5 & O5 & S5 & K5).
  run_step R5. cbv beta iota. rewrite Ok5. cbn [andb]. destruct (Z.eqb_spec d 0); [lia|].
  set (l5 := <[5%nat:=key]> l3) in *.
  assert (Hl5 : length l5 = length l) by (unfold l5; by rewrite length_insert).
  assert (L5 : l5 !! 5%nat = Some key) by (apply list_lookup_insert_eq; lia).
  destruct (map_numbers_step info root v5 s5 tbl4 k l5 size key d Mo5 C5 L5 Hk ltac:(lia))
    as (s8 & v8 & st8 & R8 & Mo8 & C8 & A8 & X8 & Ok8).
  assert (A15 : advances info v1 v5).
  { split; [intros a bs Ha; rewrite O5; by apply A4| |intros va Hva; rewrite S5; by apply A4].
    intros a bs Na Ne Ha. rewrite K5; [by apply A4|done|]. intros ->. by apply Ne, Nb. }
  eexists s8, tbl4, v8, _, (fw s4), (fw s5), key, st8. split; [exact R8|]. split; [exact Mo8|].
  split; [exact C8|]. split; [by eapply advances_trans; [|eapply advances_trans] |].
  split; [|split; [|split; [exact X8|split; [exact Ok8|split] ] ] ].
  - split. exists st5, size, key, d, data, rest, b. split; [exact G5|]. split; [exact Ok5|].
    assert (I5 : l5 !! 3%nat = Some b) by (unfold l5; by rewrite list_lookup_insert_ne by lia).
    repeat split; try done; try lia; rewrite ?list_lookup_insert_ne by lia; try done.
    + apply list_lookup_insert_eq. lia.
    + apply list_lookup_insert_eq. rewrite length_insert. lia.
    + by apply (ad_cells _ _ _ A8).
  - by rewrite !list_lookup_insert_ne by lia.
  - by rewrite !length_insert.
  - intros i N3 N4 N5 N6. unfold l5, l3. by rewrite !list_lookup_insert_ne by lia.
Qed.

(** ** All together *)

(** Pages drawn after the file is closed. *)
Definition handover_cost : nat :=
  (33 + (1 + (3 + (3 * 33 + (display_cost + (3 * image_pages + map_cost))))))%nat.

(** The fields the loader knows before it asks the firmware. *)
Record info_filled (copy : Z) (l : list Z) : Prop := {
  if_length : length l = 512%nat;
  if_handle : l !! 0%nat = Some handle;
  if_st : l !! 1%nat = Some system_table;
  if_copy : l !! 9%nat = Some copy;
  if_size : l !! 10%nat = Some (zlen image);
}.

Lemma info_filled_insert copy l (i : nat) y :
  i <> 0%nat -> i <> 1%nat -> i <> 9%nat -> i <> 10%nat ->
  info_filled copy l -> info_filled copy (<[i:=y]> l).
Proof.
  intros N0 N1 N9 N10 [Hl H0 H1 H9 H10].
  split; rewrite ?length_insert, ?list_lookup_insert_ne; auto.
Qed.

Lemma fill_info_step info root v s tbl R file_info copy :
  models R root v s tbl -> cells v !! info = Some (words_bytes (replicate 512 0)) ->
  cells v !! file_info = Some file_information -> file_info <> info -> 0 <= zlen image < 2 ^ 64 ->
  exists s' v' l, fill_info file_info copy info s = Ret tt s' /\ models R root v' s' tbl
    /\ cells v' !! info = Some (words_bytes l) /\ info_filled copy l /\ l !! 3%nat = Some 0
    /\ advances info v v'.
Proof.
  intros Mo Hc Hf N Hz. destruct information_ok as (B & Le & O0 & O1 & Sz). unfold fill_info.
  destruct (info_store info root v s tbl _ _ 1 system_table (info_st info) Mo Hc)
    as (s1 & v1 & R1 & _ & Mo1 & C1 & A1); [rewrite length_replicate; lia|unfold info_st; lia|].
  run_step R1.
  destruct (info_store info root v1 s1 tbl _ _ 0 handle (info_handle info) Mo1 C1)
    as (s2 & v2 & R2 & _ & Mo2 & C2 & A2);
    [rewrite length_insert, length_replicate; lia|unfold info_handle; lia|].
  run_step R2.
  destruct (info_store info root v2 s2 tbl _ _ 9 copy (info_copy info) Mo2 C2)
    as (s3 & v3 & R3 & _ & Mo3 & C3 & A3);
    [rewrite !length_insert, length_replicate; lia|unfold info_copy; lia|].
  run_step R3. pose proof (advances_trans _ _ _ _ (advances_trans _ _ _ _ A1 A2) A3) as A.
  assert (Hf3 : cells v3 !! file_info = Some file_information).
  { apply (ad_cells _ _ _ A); [done|intros Z|done]. rewrite Z in O1. cbn [length] in O1. lia. }
  assert (Of : (Z.to_nat offsetof_FileSize + 8 <= length file_information)%nat) by lia.
  unfold info_FileSize. rewrite <-(Z2Nat.id offsetof_FileSize) by lia.
  rewrite (bind_ret _ _ _ _ _ (cell_load 8 _ _ _ Mo3 Hf3 Of)). cbv beta.
  rewrite Sz, le_num_bytes, wrap_small by lia.
  destruct (info_store info root v3 s3 tbl _ _ 10 (zlen image) (info_copy_size info) Mo3 C3)
    as (s4 & v4 & R4 & _ & Mo4 & C4 & A4);
    [rewrite !length_insert, length_replicate; lia|unfold info_copy_size; lia|].
  eexists s4, v4, _. split; [exact R4|]. split; [exact Mo4|]. split; [exact C4|].
  split; [split; reflexivity|]. split; [reflexivity|]. by eapply advances_trans.
Qed.

(** How [loader_kernel] ends: it jumps with [info], whose fields are [l], after
    the firmware has accepted the key of the memory map. *)
Record handed_over (root info copy : Z) (v : world) (l : list Z) (s : state) (tbl : tables) : Prop := {
  ho_models : models (fun _ _ => True) root v s tbl;
  ho_info : cells v !! info = Some (words_bytes l);
  ho_filled : info_filled copy l;
  ho_exit : exists w0 w key st, mapped_memory l v w0 w /\ l !! 5%nat = Some key
    /\ ExitBootServices handle key w = (st, fw s) /\ EFI_ERROR st = false;
}.

Lemma leave_loader_step root info header copy hb v s tbl l :
  models (left (display_cost + (3 * image_pages + map_cost))) root v s tbl ->
  cells v !! info = Some (words_bytes l) -> info_filled copy l -> l !! 3%nat = Some 0 ->
  0 <= handle < 2 ^ 64 -> cells v !! header = Some hb -> zlen hb = sizeof_ehdr -> header <> info ->
  exists s' tbl' v' l',
    leave_loader header info root s = Halt (Jumped info (entry_point (ehdr_of hb)) root) s'
    /\ advances info v v' /\ handed_over root info copy v' l' s' tbl'.
Proof.
  intros Mo Hc Fl L3 Hh Hd Hl N. pose proof Fl as [Ll L0 _ _ _]. unfold leave_loader.
  destruct (framebuffer_step info root v s tbl _ l Mo Hc L0 Hh ltac:(lia))
    as (y & s1 & tbl1 & v1 & R1 & Mo1 & C1 & A1).
  run_step R1. set (l1 := <[8%nat:=y]> l) in *.
  assert (F1 : info_filled copy l1) by by apply info_filled_insert.
  destruct (image_step info root v1 s1 tbl1 _ l1 Mo1 C1 (if_handle _ _ F1) Hh)
    as (x & s2 & v2 & R2 & Hx & Mo2 & C2 & A2); [rewrite (if_length _ _ F1); lia|].
  run_step R2. set (l2 := <[2%nat:=x]> l1) in *.
  assert (F2 : info_filled copy l2) by by apply info_filled_insert.
  assert (X2 : l2 !! 2%nat = Some x)
    by (apply list_lookup_insert_eq; rewrite (if_length _ _ F1); lia).
  rewrite (bind_ret _ _ _ _ _ (word_load info l2 2 x (info_image info) Mo2 C2 X2 Hx
    ltac:(unfold info_image; lia))). cbv beta.
  do 2 (erewrite bind_ret by reflexivity; cbv beta).
  destruct (boot_image_range _ _ _ x (mo_ready _ _ _ _ _ Mo2)) as (Al & Hp & Lf).
  destruct (map_low_pages info root v2 s2 tbl1 _ _ image_pages map_cost Mo2 Al Hp Lf)
    as (s3 & tbl3 & v3 & R3 & Mo3 & C3 & A3).
  run_step R3. rewrite <-C3 in C2.
  destruct (rsdp_step info root v3 s3 tbl3 _ l2 Mo3 C2) as (st & l4 & s4 & v4 & R4 & E4 & Mo4 & C4 & A4);
    [rewrite (if_length _ _ F2); lia|].
  run_step R4.
  assert (F4 : info_filled copy l4 /\ l4 !! 3%nat = Some 0).
  { assert (l2 !! 3%nat = Some 0) by (unfold l2, l1; by rewrite !list_lookup_insert_ne by lia).
    destruct E4 as [->|[z ->] ]; [done|]. split; [by apply info_filled_insert|].
    by rewrite list_lookup_insert_ne by lia. }
  destruct F4 as [F4 L43]. replace map_cost with (map_cost + 0)%nat in Mo4 by lia.
  destruct (memory_map_step info root v4 s4 tbl3 0 l4 Mo4 C4 L43) as
    (s5 & tbl5 & v5 & l5 & w0 & w & key & st5 & R5 & Mo5 & C5 & A5 & Mm & K5 & X5 & O5 & Ll5 & Same);
    [rewrite (if_length _ _ F4); lia|].
  run_step R5.
  pose proof (advances_trans _ _ _ _ (advances_trans _ _ _ _ (advances_trans _ _ _ _
    (advances_trans _ _ _ _ A1 A2) A3) A4) A5) as A.
  assert (Hd5 : cells v5 !! header = Some hb).
  { apply (ad_cells _ _ _ A); [done|intros ->; done|done]. }
  change sizeof_ehdr with 64 in Hl.
  rewrite (bind_ret _ _ _ _ _ (cell_load 8 24 _ _ Mo5 Hd5 ltac:(lia))). cbv beta.
  exists s5, tbl5, v5, l5. split; [done|]. split; [exact A|].
  split; [exact Mo5|exact C5| |by exists w0, w, key, st5].
  destruct F4 as [G1 G2 G3 G4 G5]. split; [by rewrite Ll5|..]; by rewrite Same.
Qed.

Lemma stack_high va : page_index STACK va < 33 -> 2 ^ 35 <= vpn va.
Proof.
  unfold page_index. change (vpn STACK) with 0xFE0000000.
  assert (0 <= vpn va < 2 ^ 36) by (apply Z.mod_pos_bound; lia).
  change (2 ^ 36) with 0x1000000000 in *. change (2 ^ 35) with 0x800000000.
  generalize dependent (vpn va). intros z Hz Hp. dlia.
Qed.

Lemma low_page info va : 0 <= info < 2 ^ 47 -> info mod 4096 = 0 -> same_page va info ->
  vpn va * 4096 = info /\ vpn va < 2 ^ 35.
Proof.
  intros Hi Al Sp. unfold same_page in Sp. rewrite Sp. unfold vpn.
  change (2 ^ 47) with 0x800000000000 in Hi. change (2 ^ 36) with 0x1000000000.
  change (2 ^ 35) with 0x800000000. dlia.
Qed.

Lemma low_slot a : 0 <= a < 2 ^ 47 -> slice 39 a <> 510.
Proof.
  intros Ha. rewrite slice_vpn by lia. unfold vpn. change (2 ^ 47) with 0x800000000000 in Ha.
  change (2 ^ 36) with 0x1000000000. change (2 ^ 27) with 0x8000000. dlia.
Qed.

(** The address space the kernel starts in, given the one its segments were
    loaded into. *)
Record entered (info stack : Z) (v v' : world) : Prop := {
  en_info : 0 < info /\ info mod 4096 = 0 /\ info + 4096 < 2 ^ 47;
  en_stack : 0 < stack /\ stack mod 4096 = 0 /\ stack + STACK_SIZE < 2 ^ 47;
  en_slot : cells v' !! stack
    = Some (words_bytes (<[stack_slot_index := info]> (replicate stack_words 0)));
  en_objects a bs : objects v a bs -> objects v' a bs;
  en_cells a bs : bs <> [] -> cells v !! a = Some bs -> cells v' !! a = Some bs;
  en_stack_map va : 0 <= va < 2 ^ 64 -> page_index STACK va < 33 ->
    space v' va = Some (Z.lor (stack + 4096 * page_index STACK va) STACK_FLAGS);
  en_info_map va : 0 <= va < 2 ^ 64 -> same_page va info -> space v' va = Some (Z.lor info PW);
  en_rest va : 0 <= va < 2 ^ 64 -> 2 ^ 35 <= vpn va -> 33 <= page_index STACK va ->
    space v' va = space v va;
}.

(** The view with the pages of the stack and of the information structure. *)
Definition with_pages (info stack : Z) (v : world) : world :=
  map_page info info PW
    (set_cell info (words_bytes (replicate 512 0))
      (set_cell stack (words_bytes (replicate stack_words 0)) v)).

Lemma words_nonempty (n : nat) x : (0 < n)%nat -> words_bytes (replicate n x) <> [].
Proof.
  intros Hn Z. apply (f_equal length) in Z. rewrite words_bytes_length, length_replicate in Z.
  cbn [length] in Z. lia.
Qed.

Lemma stack_words_pos : (0 < stack_words)%nat.
Proof. unfold stack_words. change (STACK_SIZE / 8) with 16896. lia. Qed.

Lemma pages_allocated p root v s tbl header file_info copy :
  models (ready handover_cost p) root v s tbl ->
  exists info stack s' tbl',
    enter_kernel kernel header file_info copy root s
    = (_ ← fill_info file_info copy info; _ ← setup_stack root info stack;
       leave_loader header info root) s'
    /\ models (left (3 * 33 + (display_cost + (3 * image_pages + map_cost)))) root
         (with_pages info stack v) s' tbl'
    /\ (0 < info /\ info mod 4096 = 0 /\ info + 4096 < 2 ^ 47)
    /\ (0 < stack /\ stack mod 4096 = 0 /\ stack + STACK_SIZE < 2 ^ 47) /\ stack <> info
    /\ (forall a bs, bs <> [] -> cells v !! a = Some bs -> a <> stack /\ a <> info).
Proof.
  intros Mo. unfold enter_kernel.
  destruct (boot_close _ _ _ _ (mo_ready _ _ _ _ _ Mo)) as (st & w & Eq & Ok & Rd).
  serve Mo Eq. rewrite Ok. erewrite bind_ret by reflexivity. cbv beta.
  unfold handover_cost in Mo.
  destruct (models_alloc_pages _ _ root v s0 tbl 33 (left_alloc 33 _ ltac:(lia)) Mo ltac:(lia))
    as (stack & s1 & R1 & S0 & S1 & S2 & U1 & Mo1).
  run_step R1. erewrite bind_ret by reflexivity. cbv beta.
  change (Z.to_nat (512 * 33)) with stack_words in Mo1. set (v1 := set_cell stack _ v) in *.
  change (Z.shiftr sizeof_info 12 + 1) with 1.
  destruct (models_alloc_pages _ _ root v1 s1 tbl 1 (left_alloc 1 _ ltac:(lia)) Mo1 ltac:(lia))
    as (info & s2 & R2 & I0 & I1 & I2 & U2 & Mo2).
  run_step R2. change (Z.to_nat (512 * 1)) with 512%nat in Mo2. set (v2 := set_cell info _ v1) in *.
  destruct (models_map (PS := left_pages) root v2 s2 tbl info info PW _ Mo2)
    as (s3 & tbl3 & R3 & Mo3); [lia|apply low_slot; lia|lia|apply PW_flags|].
  change (Z.lor PAGE_WRITE PAGE_PRESENT) with PW. run_step R3.
  assert (Nf : forall bs, cells v1 !! info = Some bs -> bs = [])
    by (intros bs; eapply fresh_cell; [exact Mo1|exact U2|lia]).
  assert (Ns : forall bs, cells v !! stack = Some bs -> bs = [])
    by (intros bs; eapply fresh_cell; [exact Mo|exact U1|lia]).
  exists info, stack, s3, tbl3. split; [done|]. split; [exact Mo3|]. split; [lia|].
  split; [change STACK_SIZE with (4096 * 33); lia|]. split.
  - intros <-. apply (words_nonempty stack_words 0 stack_words_pos), Nf, cell_same.
  - intros a bs Ne Ha. assert (a <> stack) by (intros ->; by apply Ne, Ns). split; [done|].
    intros ->. apply Ne, Nf. cbn [cells set_cell v1]. by rewrite lookup_insert_ne.
Qed.

(** What the two writes of [info] and the mapping of the stack make of it. *)
Lemma entered_by info stack v v4 v6 :
  0 < info /\ info mod 4096 = 0 /\ info + 4096 < 2 ^ 47 ->
  0 < stack /\ stack mod 4096 = 0 /\ stack + STACK_SIZE < 2 ^ 47 -> stack <> info ->
  (forall a bs, bs <> [] -> cells v !! a = Some bs -> a <> stack /\ a <> info) ->
  advances info (with_pages info stack v) v4 ->
  advances info (set_cell stack (words_bytes (<[stack_slot_index := info]> (replicate stack_words 0)))
    (map_stack stack v4)) v6 ->
  entered info stack v v6.
Proof.
  intros Hi Hs N G A4 A6.
  assert (Lw : forall va, 0 <= va < 2 ^ 64 -> same_page va info -> ~ page_index STACK va < 33).
  { intros va Hva Sp P. apply stack_high in P. apply low_page in Sp; [lia|lia|tauto]. }
  split; [exact Hi|exact Hs| | | | | |].
  - apply (ad_cells _ _ _ A6); [done| |apply cell_same].
    intros Z. apply (f_equal length) in Z. rewrite words_bytes_length, length_insert, length_replicate in Z.
    pose proof stack_words_pos. cbn [length] in Z. lia.
  - intros a bs Ha. by apply A6, A4.
  - intros a bs Ne Ha. destruct (G a bs Ne Ha) as [Na Nb]. apply (ad_cells _ _ _ A6); [done|done|].
    cbn [cells set_cell map_stack set_space]. rewrite lookup_insert_ne by done.
    apply (ad_cells _ _ _ A4); [done|done|].
    cbn [cells set_cell with_pages map_page set_space]. by rewrite !lookup_insert_ne.
  - intros va Hva P. destruct (ad_space _ _ _ A6 va Hva) as [->|[Q _] ].
    + cbn [space set_cell map_stack set_space]. by rewrite decide_True.
    + apply stack_high in P. lia.
  - intros va Hva Sp. destruct (low_page info va ltac:(lia) ltac:(tauto) Sp) as [Ev Lv].
    destruct (ad_space _ _ _ A6 va Hva) as [->|[_ ->] ]; [|by rewrite Ev].
    cbn [space set_cell map_stack set_space]. rewrite decide_False by auto.
    destruct (ad_space _ _ _ A4 va Hva) as [->|[_ ->] ]; [|by rewrite Ev].
    cbn [space set_cell with_pages map_page set_space]. by rewrite decide_True.
  - intros va Hva High Ps. destruct (ad_space _ _ _ A6 va Hva) as [->|[Q _] ]; [|lia].
    cbn [space set_cell map_stack set_space]. rewrite decide_False by lia.
    destruct (ad_space _ _ _ A4 va Hva) as [->|[Q _] ]; [|lia].
    cbn [space set_cell with_pages map_page set_space]. rewrite decide_False; [done|].
    intros Sp. apply low_page in Sp; [lia|lia|tauto].
Qed.

Lemma enter_kernel_step p root v s tbl header hb file_info copy :
  models (ready handover_cost p) root v s tbl ->
  cells v !! header = Some hb -> zlen hb = sizeof_ehdr ->
  cells v !! file_info = Some file_information -> zlen image < 2 ^ 64 -> 0 <= handle < 2 ^ 64 ->
  exists info stack s' tbl' v' l,
    enter_kernel kernel header file_info copy root s
    = Halt (Jumped info (entry_point (ehdr_of hb)) root) s'
    /\ handed_over root info copy v' l s' tbl' /\ entered info stack v v'.
Proof.
  intros Mo Hd Hl Hf Hz Hh.
  destruct (pages_allocated p root v s tbl header file_info copy Mo)
    as (info & stack & s3 & tbl3 & -> & Mo3 & Hi & Hs & Si & G).
  assert (If : file_information <> []).
  { destruct information_ok as (_ & _ & O0 & O1 & _). intros Z. rewrite Z in O1. cbn [length] in O1. lia. }
  assert (Hb : hb <> []) by (intros ->; done).
  destruct (G _ _ If Hf) as [Nfs Nfi]. destruct (G _ _ Hb Hd) as [Nhs Nhi].
  assert (Kept : forall a bs, a <> stack -> a <> info -> cells v !! a = Some bs ->
    cells (with_pages info stack v) !! a = Some bs).
  { intros a bs Na Nb Ha. cbn [cells set_cell with_pages map_page set_space].
    by rewrite !lookup_insert_ne. }
  destruct (fill_info_step info root _ s3 tbl3 _ file_info copy Mo3 (cell_same _ _ _)
    (Kept _ _ Nfs Nfi Hf) Nfi ltac:(lia)) as (s4 & v4 & l & R4 & Mo4 & C4 & Fl & L3 & A4).
  run_step R4.
  assert (C4s : cells v4 !! stack = Some (words_bytes (replicate stack_words 0))).
  { apply (ad_cells _ _ _ A4); [done|apply words_nonempty, stack_words_pos|].
    cbn [cells set_cell with_pages map_page set_space]. rewrite lookup_insert_ne by done.
    apply lookup_insert_eq. }
  destruct (setup_stack_step root v4 s4 tbl3 info stack _ Mo4 ltac:(lia) ltac:(lia) C4s)
    as (s5 & tbl5 & R5 & Mo5).
  run_step R5. set (v5 := set_cell stack _ (map_stack stack v4)) in *.
  assert (C5 : cells v5 !! info = Some (words_bytes l))
    by (cbn [cells set_cell v5 map_stack set_space]; by rewrite lookup_insert_ne).
  assert (Hd5 : cells v5 !! header = Some hb).
  { cbn [cells set_cell v5 map_stack set_space]. rewrite lookup_insert_ne by done.
    apply (ad_cells _ _ _ A4); auto. }
  destruct (leave_loader_step root info header copy hb v5 s5 tbl5 l Mo5 C5 Fl L3 Hh Hd5 Hl Nhi)
    as (s6 & tbl6 & v6 & l6 & R6 & A6 & Ho).
  exists info, stack, s6, tbl6, v6, l6. split; [exact R6|]. split; [exact Ho|].
  by eapply entered_by.
Qed.

End Handover.
