(* ===== verification/JourneyFacts.v ===== *)
(** * From the first page table to the jump

    [loader_kernel] as one run of the view of World.v, and what the view means
    for the processor: the bytes it reads at virtual addresses. *)

From S2P Require Import Prelude Memory Firmware State CString Printf PrintfFacts Console Alloc.
From S2P Require Import Paging PagingFacts Elf Files Segments SegmentFacts PhdrFacts World.
From S2P Require Import Boot Kernel KernelFacts BootFacts HandoverFacts.

Section Journey.
Context {E : Efi} {F : Firmware} {L : Layout} {K : Fuel} {H : ImageHandle} {T : SystemTable}.
Context {EL : EfiLaws E} {AL : AllocLaws E F} {LL : LayoutLaws L}.
Context {kernel : Z} {image : list Z} {FS : FileSupply kernel image} {BS : BootSupply kernel image}.

(** Pages the whole run draws. *)
Definition boot_cost (h : elf64_ehdr) : nat :=
  (1 + (1 + (Z.to_nat (pages_of (zlen image)) + (1 + (Z.to_nat (pages_of (phnum h * phentsize h))
    + (pages_needed (phdr_rows image h) + handover_cost))))))%nat.

(** The program's memory at the start. *)
Definition initial (m : memory) : world :=
  World (fun a bs => holds m a (zlen bs) bs) ∅ (fun _ => None).

Lemma new_space k p s :
  ready (S k) p (dom (mem s)) (fw s) ->
  exists root s' tbl, loader_paging_setup s = Ret root s'
    /\ models (ready k p) root (initial (mem s)) s' tbl.
Proof.
  intros Rd.
  destruct (loader_paging_setup_spec (PS := file_pages (FS := FS) p) s k Rd)
    as (root & s' & R & I & U & Tr & Kp & Rd').
  exists root, s', {[ [] := root ]}. split; [exact R|].
  split; cbn [objects cells space initial]; try done.
  - intros a bs Hh. pose proof (holds_mapped _ _ _ _ Hh ltac:(lia)) as Mp. split.
    + eapply holds_agree; [exact Hh|lia|]. intros x Hx. by apply Kp, Mp.
    + intros x Hx q t Hq Ht. apply lookup_singleton_Some in Hq as [_ <-].
      destruct (Mp x Hx) as [b Hb]. by rewrite U in Hb.
  - intros va _ Ns. by apply Tr.
Qed.

Lemma loader_kernel_run s p :
  let h := ehdr_of (chunk 0 64 image) in
  are_bytes image -> sizeof_ehdr <= zlen image < 2 ^ 52 -> elf_accepted h ->
  loadable_kernel image h -> 0 <= handle < 2 ^ 64 ->
  ready (boot_cost h) p (dom (mem s)) (fw s) ->
  exists root info stack copy s' tbl v v' l,
    loader_kernel s = Halt (Jumped info (entry_point h) root) s'
    /\ handed_over root info copy v' l s' tbl /\ entered info stack v v'
    /\ cells v !! copy = Some image /\ (0 < copy /\ copy + zlen image <= 2 ^ 52)
    /\ (forall row, row ∈ phdr_rows image h -> is_load row -> exists b, placed (image := image) v (phdr_of row) b)
    /\ (forall a bs, holds (mem s) a (zlen bs) bs -> objects v a bs).
Proof.
  intros h Bi Hi Acc Lk Hh Rd. destruct Hi as [He Hi]. pose proof He as Hi'. change sizeof_ehdr with 64 in Hi'.
  assert (Hz : 0 < zlen image < 2 ^ 52) by lia. assert (Hw : zlen image < 2 ^ 64) by lia.
  unfold boot_cost in Rd.
  unfold loader_kernel.
  destruct (new_space _ p s Rd) as (root & s1 & tbl & R1 & Mo1). run_step R1.
  destruct (open_kernel _ p root _ s1 tbl Mo1) as (s2 & R2 & Mo2). run_step R2. no_error.
  destruct (kernel_information _ 0 root _ s2 tbl Mo2) as (fi & s3 & R3 & U3 & Mo3). run_step R3.
  set (v3 := set_cell fi file_information _) in *.
  destruct (copy_kernel_copies _ 0 root v3 s3 tbl fi Mo3 (cell_same _ _ _) Bi Hz)
    as (copy & s4 & R4 & U4 & C0 & C1 & Mo4). run_step R4.
  set (v4 := set_cell copy image v3) in *.
  destruct (header_local _ 0 root v4 s4 tbl Mo4) as (Mo5 & U5 & Lj).
  set (header := stack_addr (mem s4) sizeof_ehdr) in *. set (junk := bytes_at _ _) in *.
  set (s5 := set_mem (write_bytes (mem s4) header junk) s4) in *.
  destruct (header_read _ root _ s5 tbl header junk Mo5 (cell_same _ _ _) Lj Bi He)
    as (s6 & R6 & Mo6).
  rewrite set_cell_twice in Mo6. set (hb := chunk 0 64 image) in *.
  assert (Lb : zlen hb = sizeof_ehdr) by (unfold hb; rewrite chunk_length; [done|lia]).
  assert (If : file_information <> []).
  { destruct information_ok as (_ & _ & O0 & O1 & _). intros Z. rewrite Z in O1. cbn [length] in O1. lia. }
  assert (Ii : image <> []) by (intros Z; rewrite Z in Hi'; cbn [length] in Hi'; lia).
  assert (Nc : copy <> fi).
  { intros ->. by apply If, (fresh_cell _ _ _ _ _ _ _ _ Mo3 U4 ltac:(lia) (cell_same _ _ _)). }
  assert (Keep : forall a bs, bs <> [] -> cells v4 !! a = Some bs ->
    cells (set_cell header hb v4) !! a = Some bs).
  { intros a bs Ne Ha. cbn [cells set_cell]. rewrite lookup_insert_ne; [done|]. intros <-.
    apply Ne. by eapply (fresh_cell _ _ _ _ _ _ _ _ Mo4 U5). }
  destruct (kernel_placed _ _ root _ s6 tbl header hb Mo6 (cell_same _ _ _) Lb Bi Lk)
    as (s7 & tbl7 & v7 & p7 & R7 & Mo7 & C7 & O7 & P7 & _).
  assert (Hd7 : cells v7 !! header = Some hb) by (rewrite C7; apply cell_same).
  assert (Hf7 : cells v7 !! fi = Some file_information).
  { rewrite C7. apply Keep; [done|]. cbn [cells set_cell v4]. rewrite lookup_insert_ne by done.
    apply cell_same. }
  destruct (enter_kernel_step p7 root v7 s7 tbl7 header hb fi copy Mo7 Hd7 Lb Hf7 Hw Hh)
    as (info & stack & s8 & tbl8 & v8 & l & R8 & Ho & En).
  exists root, info, stack, copy, s8, tbl8, v7, v8, l. split; [|split; [done|split; [done|] ] ].
  - apply with_local_halt. fold header junk s5. run_step R6. no_error.
    run_step (header_checked _ root _ s6 tbl header Mo6 (cell_same _ _ _) He Acc). no_error.
    run_step R7. exact R8.
  - split; [rewrite C7; apply Keep; [done|apply cell_same]|]. split; [done|]. split; [exact P7|].
    intros a bs Ha. by apply O7.
Qed.

(** ** What the processor and the kernel see *)

(** The state [s'] in which the kernel starts at its entry point, with the page
    tables at [root] and the information structure at [info], when the loader
    started in [s]. *)
Record booted (s s' : state) (root info : Z) : Prop := {
  (** Every byte of every segment at its virtual address. *)
  bd_segments row i :
    row ∈ phdr_rows image (ehdr_of (chunk 0 64 image)) -> is_load row ->
    0 <= i < memsz (phdr_of row) ->
    virt_byte (mem s') root (vaddr (phdr_of row) + i)
    = segment_bytes image (phdr_of row) !! Z.to_nat i;
  (** The address of the structure on the stack, 32 bytes below its top. *)
  bd_stack i : 0 <= i < 8 ->
    virt_byte (mem s') root (STACK + STACK_SIZE - 32 + i) = le_bytes 8 info !! Z.to_nat i;
  (** The structure is mapped to itself. *)
  bd_info x : info <= x < info + 4096 -> virt_byte (mem s') root x = mem s' !! x;
  bd_fields :
    load 8 (mem s') (info_handle info) = Some handle
    /\ load 8 (mem s') (info_st info) = Some system_table;
  (** It leads to a copy of the file. *)
  bd_copy : exists copy,
    load 8 (mem s') (info_copy info) = Some copy
    /\ load 8 (mem s') (info_copy_size info) = Some (zlen image)
    /\ holds (mem s') copy (zlen image) image;
  (** And to the memory map whose key the firmware accepted. *)
  bd_map : exists w0 w st size key d data buffer st',
    GetMemoryMap map_bytes w0 = (st, size, Some key, d, data, w) /\ EFI_ERROR st = false
    /\ ExitBootServices handle key w = (st', fw s') /\ EFI_ERROR st' = false
    /\ load 8 (mem s') (info_efi_memory_map info) = Some buffer
    /\ load 8 (mem s') (info_efi_memory_map_entries info) = Some (size / d)
    /\ load 8 (mem s') (info_efi_memory_map_key info) = Some key
    /\ load 8 (mem s') (info_efi_memory_map_descriptor_size info) = Some d
    /\ read_bytes (mem s') buffer (length data) = Some data;
  (** What was in memory before is still there. *)
  bd_frame a bs : holds (mem s) a (zlen bs) bs -> holds (mem s') a (zlen bs) bs;
}.

Lemma word_at R root v s tbl a l (i : nat) x q :
  models R root v s tbl -> cells v !! a = Some (words_bytes l) -> l !! i = Some x ->
  0 <= x < 2 ^ 64 -> q = a + 8 * Z.of_nat i -> load 8 (mem s) q = Some x.
Proof.
  intros Mo Ha Hi Hx Hq. pose proof (word_load a l i x q Mo Ha Hi Hx Hq) as W. revert W.
  unfold load_n. destruct (load 8 (mem s) q); [|done]. by intros [= ->].
Qed.

(** A byte of a cell or an object. *)
Lemma cell_byte R root v s tbl a bs i :
  models R root v s tbl -> cells v !! a = Some bs -> 0 <= i < zlen bs ->
  mem s !! (a + i) = bs !! Z.to_nat i.
Proof.
  intros Mo Ha Hi. destruct (mo_cells _ _ _ _ _ Mo _ _ Ha) as [Hh _].
  destruct (lookup_lt_is_Some_2 bs (Z.to_nat i) ltac:(lia)) as [b Hb]. rewrite Hb.
  eapply holds_byte; [exact Hh|exact Hb|lia].
Qed.

Lemma slot_index i : 0 <= i < 8 ->
  page_index STACK (STACK + STACK_SIZE - 32 + i) = 32
  /\ slice 39 (STACK + STACK_SIZE - 32 + i) <> 510
  /\ (STACK + STACK_SIZE - 32 + i) mod 4096 = 0xFE0 + i.
Proof.
  intros Hi. change (STACK + STACK_SIZE - 32 + i) with (0xFFFFFE0000020FE0 + i).
  split; [|split; [|dlia] ].
  - apply (same_page_index STACK); [done|done|lia|]. unfold same_page, vpn.
    change (STACK + 4096 * 32) with 0xFFFFFE0000020000. f_equal. dlia.
  - rewrite slice_vpn by lia. unfold vpn.
    replace ((0xFFFFFE0000020FE0 + i) / 4096) with 0xFFFFFE0000020 by dlia.
    vm_compute. discriminate.
Qed.

Lemma stack_slot_byte root info stack v v' s tbl i :
  models (fun _ _ => True) root v' s tbl -> entered info stack v v' -> 0 <= i < 8 ->
  virt_byte (mem s) root (STACK + STACK_SIZE - 32 + i) = le_bytes 8 info !! Z.to_nat i.
Proof.
  intros Mo En Hi. destruct (slot_index i Hi) as (Pi & Ns & Md).
  destruct (en_stack _ _ _ _ En) as (S0 & S1 & S2).
  unfold virt_byte. rewrite (mo_space _ _ _ _ _ Mo) by (done || (unfold STACK, STACK_SIZE; lia)).
  rewrite (en_stack_map _ _ _ _ En) by (rewrite ?Pi; unfold STACK, STACK_SIZE; lia).
  cbv [mbind option_bind]. rewrite Pi, Md.
  change STACK_SIZE with 135168 in S2. rewrite entry_frame; [|lia|dlia|vm_compute; reflexivity].
  destruct (words_bytes_split (<[stack_slot_index := info]> (replicate stack_words 0))
    stack_slot_index info) as [Eq Li].
  { apply list_lookup_insert_eq. rewrite length_replicate. unfold stack_slot_index, stack_words.
    change ((STACK_SIZE - 32) / 8) with 16892. change (STACK_SIZE / 8) with 16896. lia. }
  assert (Off : stack + 4096 * 32 + (0xFE0 + i)
    = stack + (8 * Z.of_nat stack_slot_index + i)).
  { unfold stack_slot_index. change ((STACK_SIZE - 32) / 8) with 16892. lia. }
  rewrite Off. pose proof (en_slot _ _ _ _ En) as Sl. rewrite Eq in Sl.
  rewrite (cell_byte _ _ _ _ _ _ _ _ Mo Sl).
  - rewrite lookup_app_r by (rewrite Li; lia). rewrite lookup_app_l; [f_equal; lia|].
    rewrite length_le_bytes, Li. lia.
  - rewrite !length_app, length_le_bytes, Li. lia.
Qed.

Lemma info_byte root info stack v v' s tbl x :
  models (fun _ _ => True) root v' s tbl -> entered info stack v v' -> info <= x < info + 4096 ->
  virt_byte (mem s) root x = mem s !! x.
Proof.
  intros Mo En Hx. destruct (en_info _ _ _ _ En) as (I0 & I1 & I2).
  assert (Sp : same_page x info) by (unfold same_page, vpn; f_equal; dlia).
  unfold virt_byte. rewrite (mo_space _ _ _ _ _ Mo) by (lia || apply low_slot; lia).
  rewrite (en_info_map _ _ _ _ En) by (done || lia). cbv [mbind option_bind].
  rewrite entry_frame; [|lia|done|done]. f_equal. dlia.
Qed.

(** The segments lie in the upper half of the address space, apart from the
    stack. *)
Definition higher_half (h : elf64_ehdr) : Prop :=
  forall row va, row ∈ phdr_rows image h -> is_load row -> in_pages (phdr_of row) va ->
  2 ^ 35 <= vpn va /\ 33 <= page_index STACK va.

Lemma placed_entered info stack v v' ph b :
  placed (image := image) v ph b -> entered info stack v v' ->
  (forall va, in_pages ph va -> 2 ^ 35 <= vpn va /\ 33 <= page_index STACK va) ->
  placed (image := image) v' ph b.
Proof.
  intros [Pg Ob Mp] En Hi. split; [exact Pg|by apply En|]. intros va Hva Ns P.
  destruct (Hi va P). rewrite (en_rest _ _ _ _ En) by done. by apply Mp.
Qed.

Lemma placed_virt_byte R root v s tbl ph b i :
  models R root v s tbl -> placed (image := image) v ph b -> loadable image ph -> 0 <= i < memsz ph ->
  virt_byte (mem s) root (vaddr ph + i) = segment_bytes image ph !! Z.to_nat i.
Proof.
  intros Mo [Pg Ob Mp] Ld Hi. eapply segment_virt_byte; [exact Pg| | |exact Ld|exact Hi].
  - destruct (mo_objects _ _ _ _ _ Mo _ _ Ob) as [ [R0 _] _].
    by rewrite (segment_bytes_length ph Ld) in R0.
  - intros va Hva Ns P. rewrite (mo_space _ _ _ _ _ Mo) by done. by apply Mp.
Qed.

Lemma map_field root info copy v l s tbl w0 w key :
  handed_over root info copy v l s tbl -> mapped_memory l v w0 w -> l !! 5%nat = Some key ->
  exists st size d data buffer,
    GetMemoryMap map_bytes w0 = (st, size, Some key, d, data, w) /\ EFI_ERROR st = false
    /\ load 8 (mem s) (info_efi_memory_map info) = Some buffer
    /\ load 8 (mem s) (info_efi_memory_map_entries info) = Some (size / d)
    /\ load 8 (mem s) (info_efi_memory_map_key info) = Some key
    /\ load 8 (mem s) (info_efi_memory_map_descriptor_size info) = Some d
    /\ read_bytes (mem s) buffer (length data) = Some data.
Proof.
  intros [Mo Hc _ _] [ (st & size & key' & d & data & rest & buffer & G & Ok & L3 & L4 & L5 & L6 & Cb
    & _ & Hb & Hs & Hk & Hd)] Lk.
  rewrite Lk in L5. injection L5 as ->.
  assert (Hq : 0 <= size / d < 2 ^ 64).
  { split; [apply Z.div_pos; lia|]. apply Z.div_lt_upper_bound; [lia|nia]. }
  exists st, size, d, data, buffer. split; [exact G|]. split; [exact Ok|].
  split; [by apply (word_at _ _ _ _ _ _ _ 3 _ _ Mo Hc)|].
  split; [by apply (word_at _ _ _ _ _ _ _ 4 _ _ Mo Hc)|].
  split; [by apply (word_at _ _ _ _ _ _ _ 5 _ _ Mo Hc)|].
  split; [apply (word_at _ _ _ _ _ _ _ 6 _ _ Mo Hc); [done|lia|done]|].
  destruct (mo_cells _ _ _ _ _ Mo _ _ Cb) as [Hh _].
  apply (holds_prefix _ _ _ _ _ (zlen data)) in Hh as [Rb _]; [|done].
  by rewrite Nat2Z.id in Rb.
Qed.

Lemma loader_kernel_booted s p :
  let h := ehdr_of (chunk 0 64 image) in
  are_bytes image -> sizeof_ehdr <= zlen image < 2 ^ 52 -> elf_accepted h ->
  loadable_kernel image h -> higher_half h ->
  0 <= handle < 2 ^ 64 -> 0 <= system_table < 2 ^ 64 ->
  ready (boot_cost h) p (dom (mem s)) (fw s) ->
  exists root info s', loader_kernel s = Halt (Jumped info (entry_point h) root) s'
    /\ booted s s' root info.
Proof.
  intros h Bi Hi Acc Lk Hf Hh Ht Rd.
  destruct (loader_kernel_run s p Bi Hi Acc Lk Hh Rd)
    as (root & info & stack & copy & s' & tbl & v & v' & l & R & Ho & En & Cc & Rc & Pl & Fr).
  fold h in R, Pl. exists root, info, s'. split; [exact R|].
  pose proof Ho as [Mo Hc [Ll L0 L1 L9 L10] (w0 & w & key & st & Mm & L5 & X & Ok)].
  pose proof (lk_load _ _ Lk) as Ld. rewrite Forall_forall in Ld.
  assert (Cc' : cells v' !! copy = Some image).
  { apply (en_cells _ _ _ _ En); [|done]. intros Z. rewrite Z in Hi. by destruct Hi. }
  split.
  - intros row i Hr Y Hm. destruct (Pl row Hr Y) as [b Pb].
    eapply placed_virt_byte; [exact Mo| |by apply Ld|exact Hm].
    eapply placed_entered; [exact Pb|exact En|]. intros va. by apply (Hf row).
  - intros i Hm. by eapply stack_slot_byte.
  - intros x Hx. by eapply info_byte.
  - split; [by apply (word_at _ _ _ _ _ _ _ 0 _ _ Mo Hc); [|..|unfold info_handle; lia]|].
    by apply (word_at _ _ _ _ _ _ _ 1 _ _ Mo Hc).
  - exists copy. split; [apply (word_at _ _ _ _ _ _ _ 9 _ _ Mo Hc); [done|lia|done]|].
    split; [apply (word_at _ _ _ _ _ _ _ 10 _ _ Mo Hc); [done|lia|done]|].
    apply (mo_cells _ _ _ _ _ Mo _ _ Cc').
  - destruct (map_field _ _ _ _ _ _ _ _ _ _ Ho Mm L5)
      as (st1 & size & d & data & buffer & G & Ok1 & F1 & F2 & F3 & F4 & Rb).
    by exists w0, w, st1, size, key, d, data, buffer, st.
  - intros a bs Hb. apply (mo_objects _ _ _ _ _ Mo). apply (en_objects _ _ _ _ En). by apply Fr.
Qed.

End Journey.
