(* ===== verification/Jumps.v ===== *)
(** * The jump to the kernel is the last thing the loader does

    [never_jumps c]: no run of [c] ends in [elf_jump_to_kernel].  It is closed
    under the constructs of the monad, so that the hints of the database
    [jumps] prove it for every function [loader_kernel] calls. *)

From S2P Require Import Prelude Memory Firmware State CString Printf PrintfFacts Console Alloc.
From S2P Require Import Paging Elf Files Segments Boot Kernel.

Definition is_jump (h : halt) : Prop := match h with Jumped _ _ _ => True | _ => False end.

Section Jumps.
Context {E : Efi} {F : Firmware} {L : Layout} {K : Fuel} {H : ImageHandle} {T : SystemTable}.

Definition never_jumps {A} (c : M A) : Prop := forall s h s', c s = Halt h s' -> ~ is_jump h.

Lemma nj_ret {A} (a : A) : never_jumps (mret a).
Proof. done. Qed.

Lemma nj_bind {A B} (c : M A) (k : A -> M B) :
  never_jumps c -> (forall a, never_jumps (k a)) -> never_jumps (c ≫= k).
Proof.
  intros C Kk s h s'. unfold mbind, M_bind. destruct (c s) as [a s1|h1 s1| |] eqn:Ec; try done.
  - apply Kk.
  - intros [= <- <-]. by apply (C _ _ _ Ec).
Qed.

Lemma nj_stop {A} h : ~ is_jump h -> never_jumps (stop (A := A) h).
Proof. by intros N s h' s' [= <- <-]. Qed.

Lemma nj_gets {A} (f : state -> A) : never_jumps (gets f).
Proof. done. Qed.

Lemma nj_modify f : never_jumps (modify f).
Proof. done. Qed.

Lemma nj_fault {A} a : never_jumps (fault (A := A) a).
Proof. done. Qed.

Lemma nj_nofuel {A} : never_jumps (fun _ => NoFuel (A := A)).
Proof. done. Qed.

Lemma nj_skip : never_jumps skip.
Proof. done. Qed.

Lemma nj_firmware {A} (f : fwst -> A * fwst) : never_jumps (firmware f).
Proof. intros s h s'. unfold firmware. by destruct (f (fw s)). Qed.

Lemma nj_publishing {A} (f : memory -> fwst -> A * storage * fwst) : never_jumps (publishing f).
Proof. intros s h s'. unfold publishing. by destruct (f (mem s) (fw s)) as [[a b] w]. Qed.

Lemma nj_write_block a bs : never_jumps (write_block a bs).
Proof. intros s h s'. unfold write_block. by destruct (read_bytes _ _ _). Qed.

Lemma nj_read_block a n : never_jumps (read_block a n).
Proof. intros s h s'. unfold read_block. by destruct (read_bytes _ _ _). Qed.

Lemma nj_load_n n a : never_jumps (load_n n a).
Proof. intros s h s'. unfold load_n. by destruct (load _ _ _). Qed.

Lemma nj_store_n n a v : never_jumps (store_n n a v).
Proof. apply nj_write_block. Qed.

Lemma nj_AllocatePages ty n : never_jumps (boot_AllocatePages ty n).
Proof.
  intros s h s'. unfold boot_AllocatePages.
  destruct (AllocatePages _ _ _ _) as [[[st a] c] w]. by destruct (EFI_ERROR st).
Qed.

Lemma nj_AllocatePool ty n : never_jumps (boot_AllocatePool ty n).
Proof.
  intros s h s'. unfold boot_AllocatePool.
  destruct (AllocatePool _ _ _ _) as [[[st a] c] w]. by destruct (EFI_ERROR st).
Qed.

Lemma nj_FreePool p : never_jumps (boot_FreePool p).
Proof.
  intros s h s'. unfold boot_FreePool. destruct (FreePool _ _) as [st w].
  cbv zeta. destruct (pool _ !! p); [|done]. by destruct (EFI_ERROR st).
Qed.

Lemma nj_efi_printf format args : never_jumps (efi_printf format args).
Proof. intros s h s'. unfold efi_printf. by destruct (vcbprintf _ _ _ _). Qed.

End Jumps.

Create HintDb jumps.
#[export] Hint Resolve nj_ret nj_gets nj_modify nj_fault nj_nofuel nj_skip nj_firmware
  nj_publishing nj_write_block nj_read_block nj_load_n nj_store_n nj_AllocatePages
  nj_AllocatePool nj_FreePool nj_efi_printf : jumps.

(** Walks through the statements of a computation. *)
Ltac no_jump :=
  repeat first
    [ solve [auto with jumps nocore]
    | apply nj_bind; [|intro]
    | apply nj_stop; intros []
    | match goal with
      | |- never_jumps (match ?x with _ => _ end) => destruct x
      end ].

Section Operations.
Context {E : Efi} {F : Firmware} {L : Layout} {K : Fuel} {H : ImageHandle} {T : SystemTable}.

Lemma nj_memset s c n : never_jumps (memset s c n).
Proof.
  unfold memset. apply nj_bind; [|by no_jump]. generalize (Z.to_nat n) as k, s.
  induction k as [|k IH]; intros p; cbn [memset_loop]; no_jump.
Qed.

Lemma nj_key_wait : never_jumps uefi_key_wait.
Proof.
  unfold uefi_key_wait. generalize key_polls as k.
  induction k as [|k IH]; cbn [uefi_key_wait_loop]; no_jump.
Qed.

#[local] Hint Resolve nj_key_wait : jumps.

Lemma nj_EFIERR f l x : never_jumps (EFIERR f l x).
Proof. unfold EFIERR. no_jump. Qed.

Lemma nj_efi_panic {A} msg : never_jumps (efi_panic (A := A) msg).
Proof. unfold efi_panic. no_jump. Qed.

#[local] Hint Resolve nj_memset nj_EFIERR nj_efi_panic : jumps.

Lemma nj_malloc n : never_jumps (malloc n).
Proof. unfold malloc. no_jump. Qed.

Lemma nj_free p : never_jumps (free p).
Proof. unfold free. no_jump. Qed.

Lemma nj_uefi_alloc_pages n : never_jumps (uefi_alloc_pages n).
Proof. unfold uefi_alloc_pages. no_jump. Qed.

#[local] Hint Resolve nj_malloc nj_free nj_uefi_alloc_pages : jumps.

Lemma nj_paging_setup : never_jumps loader_paging_setup.
Proof. unfold loader_paging_setup. no_jump. Qed.

Lemma nj_paging_map root p v fl : never_jumps (loader_paging_map root p v fl).
Proof. unfold loader_paging_map, next_table. no_jump. Qed.

#[local] Hint Resolve nj_paging_setup nj_paging_map : jumps.

Lemma nj_map_addr_loop n : forall i root a fl, never_jumps (map_addr_loop n i root a fl).
Proof. induction n as [|n IH]; intros; cbn [map_addr_loop]; no_jump. Qed.

Lemma nj_paging_map_addr root a n fl : never_jumps (loader_paging_map_addr root a n fl).
Proof. apply nj_map_addr_loop. Qed.

Lemma nj_fs_open path : never_jumps (fs_open path).
Proof. unfold fs_open. no_jump. Qed.

Lemma nj_file_Read f n a : never_jumps (file_Read f n a).
Proof. unfold file_Read. no_jump. Qed.

#[local] Hint Resolve nj_map_addr_loop nj_paging_map_addr nj_fs_open nj_file_Read : jumps.

Lemma nj_fs_read f n o a : never_jumps (fs_read f n o a).
Proof. unfold fs_read. no_jump. Qed.

Lemma nj_fs_get_file_info f : never_jumps (fs_get_file_info f).
Proof. unfold fs_get_file_info. no_jump. Qed.

Lemma nj_parse_header k h : never_jumps (loader_parse_header k h).
Proof. unfold loader_parse_header. no_jump. Qed.

Lemma nj_header_check h : never_jumps (elf_header_check h).
Proof. unfold elf_header_check, panic_if, both, ident_differs. no_jump. Qed.

Lemma nj_map_segment_loop n : forall i ph root a fl,
  never_jumps (map_segment_loop n i ph root a fl).
Proof. induction n as [|n IH]; intros; cbn [map_segment_loop]; no_jump. Qed.

#[local] Hint Resolve nj_fs_read nj_fs_get_file_info nj_parse_header nj_header_check
  nj_map_segment_loop : jumps.

Lemma nj_load_segment k ph root : never_jumps (load_segment k ph root).
Proof. unfold load_segment, fill_segment, clear_tail, efi_print. no_jump. Qed.

#[local] Hint Resolve nj_load_segment : jumps.

Lemma nj_phdrs_loop fuel : forall k h root a p, never_jumps (phdrs_loop fuel k h root a p).
Proof. induction fuel as [|n IH]; intros; cbn [phdrs_loop]; unfold phdrs_size; no_jump. Qed.

#[local] Hint Resolve nj_phdrs_loop : jumps.

Lemma nj_kernel_phdrs k h root : never_jumps (loader_kernel_phdrs k h root).
Proof. unfold loader_kernel_phdrs, loader_parse_phdrs, phdrs_size. no_jump. Qed.

Lemma nj_gop_get_loop n : forall i a info, never_jumps (gop_get_loop n i a info).
Proof. induction n as [|n IH]; intros; cbn [gop_get_loop]; no_jump. Qed.

Lemma nj_setup_loop n : forall gop i w h sel, never_jumps (framebuffer_setup_loop n gop i w h sel).
Proof. induction n as [|n IH]; intros; cbn [framebuffer_setup_loop]; no_jump. Qed.

#[local] Hint Resolve nj_kernel_phdrs nj_gop_get_loop nj_setup_loop : jumps.

Lemma nj_framebuffer_get info root : never_jumps (framebuffer_get info root).
Proof. unfold framebuffer_get, efi_gop_get, framebuffer_setup. no_jump. Qed.

Lemma nj_get_image info : never_jumps (efi_get_image info).
Proof. unfold efi_get_image. no_jump. Qed.

Lemma nj_get_rsdp info : never_jumps (efi_get_rsdp info).
Proof.
  unfold efi_get_rsdp. no_jump.
  match goal with t : list _ |- _ => induction t as [|e t IH] end; cbn [get_rsdp_loop]; no_jump.

Qed.

Lemma nj_get_memory_map info root : never_jumps (efi_get_memory_map info root).
Proof. unfold efi_get_memory_map, get_map. no_jump. Qed.

Lemma nj_setup_stack root info stack : never_jumps (setup_stack root info stack).
Proof.
  unfold setup_stack. apply nj_bind; [|by no_jump]. generalize 33%nat as n, 0 as i.
  induction n as [|n IH]; intros i; cbn [map_stack_loop]; no_jump.
Qed.

Lemma nj_fill_info file_info copy info : never_jumps (fill_info file_info copy info).
Proof. unfold fill_info. no_jump. Qed.

Lemma nj_copy_kernel k info : never_jumps (copy_kernel k info).
Proof. unfold copy_kernel. no_jump. Qed.

End Operations.

#[export] Hint Resolve nj_memset nj_EFIERR nj_efi_panic nj_malloc nj_free nj_uefi_alloc_pages
  nj_paging_setup nj_paging_map nj_map_addr_loop nj_paging_map_addr nj_fs_open nj_file_Read
  nj_fs_read nj_fs_get_file_info nj_parse_header nj_header_check nj_map_segment_loop
  nj_load_segment nj_phdrs_loop nj_kernel_phdrs nj_framebuffer_get nj_get_image nj_get_rsdp
  nj_get_memory_map nj_setup_stack nj_fill_info nj_copy_kernel : jumps.

(** ** Runs that end in the jump *)

Section Inversion.
Context {E : Efi} {F : Firmware} {L : Layout} {K : Fuel} {H : ImageHandle} {T : SystemTable}.

Lemma jump_bind {A B} (c : M A) (k : A -> M B) s h s' :
  never_jumps c -> is_jump h -> (c ≫= k) s = Halt h s' ->
  exists a s1, c s = Ret a s1 /\ k a s1 = Halt h s'.
Proof.
  intros N J. unfold mbind, M_bind. destruct (c s) as [a s1|h1 s1| |] eqn:Ec; try done; [eauto|].
  intros [= <- <-]. by destruct (N _ _ _ Ec).
Qed.

Lemma jump_with_local {A} n (k : Z -> M A) s h s' :
  is_jump h -> with_local n k s = Halt h s' ->
  k (stack_addr (mem s) n) (enter_local n s) = Halt h s'.
Proof.
  intros J R. unfold with_local in R. erewrite bind_ret in R by reflexivity. cbv beta in R.
  unfold mbind, M_bind in R. fold (enter_local n s) in R.
  change (modify _ s) with (Ret tt (enter_local n s)) in R.
  by destruct (k _ (enter_local n s)).
Qed.

(** EFIERR returns only when there is no error. *)
Lemma EFIERR_ret_inv f l x s s' : EFIERR f l x s = Ret tt s' -> s' = s /\ EFI_ERROR x = false.
Proof.
  destruct (EFI_ERROR x) eqn:X.
  - destruct (EFIERR_fails f l x s X) as [->|[w ->] ]; done.
  - rewrite EFIERR_ok by done. by intros [= ->].
Qed.

(** What a read of the header leaves. *)
Lemma loader_parse_header_inv kernel header st s s' :
  loader_parse_header kernel header s = Ret st s' ->
  st = EFI_SUCCESS /\ exists st1 data w, FileRead kernel sizeof_ehdr (fw s) = (st1, data, w)
    /\ EFI_ERROR st1 = false /\ s' = set_mem (write_bytes (mem s) header data) (set_fw w s).
Proof.
  unfold loader_parse_header, file_Read. intros R.
  apply bind_ret_inv in R as ([st1 size] & s1 & R1 & R).
  apply bind_ret_inv in R as ([] & s2 & R2 & R). apply EFIERR_ret_inv in R2 as [-> Ok].
  injection R as <- <-. split; [done|].
  apply bind_ret_inv in R1 as ([st2 data] & s3 & R3 & R1).
  apply bind_ret_inv in R1 as ([] & s4 & R4 & R1). injection R1 as <- <- <-.
  unfold firmware in R3. destruct (FileRead kernel sizeof_ehdr (fw s)) as [ [x y] w].
  injection R3 as <- <- <-. unfold write_block in R4. cbn [mem set_fw] in R4.
  destruct (read_bytes (mem s) header (length y)); [|done]. injection R4 as <-. eauto 10.
Qed.

(** The parts of [loader_kernel] in a run that ends in the jump: up to the local
    for the header, *)
Lemma jump_header s h s' :
  is_jump h -> loader_kernel s = Halt h s' ->
  exists root s1 st kernel s2 file_info s3 copy s4,
    loader_paging_setup s = Ret root s1
    /\ fs_open (str "kernel") s1 = Ret (st, kernel) s2 /\ EFI_ERROR st = false
    /\ fs_get_file_info kernel s2 = Ret file_info s3
    /\ copy_kernel kernel file_info s3 = Ret copy s4
    /\ let header := stack_addr (mem s4) sizeof_ehdr in
       (status ← loader_parse_header kernel header;
        _ ← EFIERR (str "loader/kernel.c") 26 status;
        status ← elf_header_check header;
        _ ← EFIERR (str "loader/kernel.c") 29 status;
        _ ← loader_kernel_phdrs kernel header root;
        enter_kernel kernel header file_info copy root) (enter_local sizeof_ehdr s4) = Halt h s'.
Proof.
  intros J R. unfold loader_kernel in R.
  apply jump_bind in R as (root & s1 & R1 & R); [|by no_jump|exact J].
  apply jump_bind in R as ([st kernel] & s2 & R2 & R); [|by no_jump|exact J].
  apply jump_bind in R as ([] & s2' & Er & R); [|by no_jump|exact J].
  apply EFIERR_ret_inv in Er as [-> Ok].
  apply jump_bind in R as (fi & s3 & R3 & R); [|by no_jump|exact J].
  apply jump_bind in R as (copy & s4 & R4 & R); [|by no_jump|exact J].
  apply jump_with_local in R; [|exact J]. eauto 20.
Qed.

(** from there to the segments, *)
Lemma jump_checked kernel header root s h s' (k : M unit) :
  is_jump h -> mapped (mem s) header 64 ->
  (status ← loader_parse_header kernel header;
   _ ← EFIERR (str "loader/kernel.c") 26 status;
   status ← elf_header_check header;
   _ ← EFIERR (str "loader/kernel.c") 29 status;
   _ ← loader_kernel_phdrs kernel header root; k) s = Halt h s' ->
  exists s5 hb s6,
    loader_parse_header kernel header s = Ret EFI_SUCCESS s5
    /\ read_bytes (mem s5) header 64 = Some hb /\ elf_accepted (ehdr_of hb)
    /\ loader_kernel_phdrs kernel header root s5 = Ret tt s6 /\ k s6 = Halt h s'.
Proof.
  intros J Mp R.
  apply jump_bind in R as (st1 & s5 & Ph & R); [|by no_jump|exact J].
  pose proof Ph as Inv. apply loader_parse_header_inv in Inv as (-> & st & data & w & _ & _ & Es).
  assert (M5 : mapped (mem s5) header (Z.of_nat 64))
    by (rewrite Es; cbn [mem set_mem]; by apply mapped_write).
  apply read_bytes_mapped in M5 as [hb Hb].
  apply jump_bind in R as ([] & t & Er & R); [|by no_jump|exact J].
  apply EFIERR_ret_inv in Er as [-> _].
  apply jump_bind in R as (st2 & t & Ck & R); [|by no_jump|exact J].
  rewrite (elf_header_check_ret _ _ _ Hb) in Ck.
  destruct (elf_defect (ehdr_of hb)) eqn:Ed; [done|]. injection Ck as <- <-.
  apply elf_defect_accepted in Ed.
  apply jump_bind in R as ([] & t & Er & R); [|by no_jump|exact J].
  apply EFIERR_ret_inv in Er as [-> _].
  apply jump_bind in R as ([] & s6 & Ld & R); [|by no_jump|exact J].
  exists s5, hb, s6. done.
Qed.

(** and to the jump itself. *)
Lemma jump_entered kernel header file_info copy root s info entry pml4 s' :
  enter_kernel kernel header file_info copy root s = Halt (Jumped info entry pml4) s' ->
  pml4 = root /\ load 8 (mem s') (e_entry header) = Some entry.
Proof.
  intros R. unfold enter_kernel, leave_loader in R.
  do 16 (apply jump_bind in R as (? & ? & _ & R); [|by no_jump|done]).
  apply jump_bind in R as (e & t & Le & R); [|by no_jump|done].
  unfold elf_jump_to_kernel, stop in R. injection R as <- <- <- <-. split; [done|].
  unfold load_n in Le. destruct (load 8 _ _) eqn:Ld; [|done]. by injection Le as <- <-.
Qed.

End Inversion.
