(* ===== verification/Inet.v ===== *)
(** * net/util.c: byte order conversions *)

From S2P Require Import Prelude.

(** __builtin_bswap16 and __builtin_bswap32 *)
Definition bswap16 (d : Z) : Z := Z.lor (Z.shiftl (Z.land d 0xFF) 8) (Z.shiftr d 8).

Definition bswap32 (d : Z) : Z :=
  Z.lor (Z.lor (Z.shiftl (Z.land d 0xFF) 24)
               (Z.shiftl (Z.land (Z.shiftr d 8) 0xFF) 16))
        (Z.lor (Z.shiftl (Z.land (Z.shiftr d 16) 0xFF) 8) (Z.shiftr d 24)).

Definition htons (d : Z) : Z := bswap16 d.
Definition ntohs (d : Z) : Z := bswap16 d.
Definition htonl (d : Z) : Z := bswap32 d.
Definition ntohl (d : Z) : Z := bswap32 d.

(** Network order: the most significant byte first. *)
Definition be_bytes (n : nat) (z : Z) : list Z := rev (le_bytes n z).
Definition be_num (bs : list Z) : Z := le_num (rev bs).

Lemma lor_add a b k : 0 <= k -> 0 <= b < 2 ^ k -> Z.lor (Z.shiftl a k) b = a * 2 ^ k + b.
Proof.
  intros Hk Hb. rewrite <-Z.shiftl_mul_pow2 by lia. symmetry. apply Z.add_nocarry_lor.
  apply Z.bits_inj'. intros i Hi. rewrite Z.land_spec, Z.bits_0.
  destruct (Z.ltb_spec i k).
  - by rewrite Z.shiftl_spec_low.
  - replace (Z.testbit b i) with false; [apply andb_false_r|]. symmetry.
    destruct (Z.eq_dec b 0) as [->|]; [apply Z.bits_0|].
    apply Z.bits_above_log2; [lia|]. assert (Z.log2 b < k) by (apply Z.log2_lt_pow2; lia).
    lia.
Qed.

Lemma land_255 z : Z.land z 0xFF = z mod 256.
Proof. change 0xFF with (Z.ones 8). by rewrite Z.land_ones. Qed.

Lemma bswap16_arith d : 0 <= d < 65536 -> bswap16 d = d mod 256 * 256 + d / 256.
Proof.
  intros Hd. unfold bswap16. rewrite land_255, Z.shiftr_div_pow2 by lia.
  rewrite lor_add; [done|lia|]. change (2 ^ 8) with 256. dlia.
Qed.

Lemma bswap32_arith d :
  0 <= d < 2 ^ 32 ->
  bswap32 d = d mod 256 * 2 ^ 24 + (d / 2 ^ 8 mod 256 * 2 ^ 16
              + (d / 2 ^ 16 mod 256 * 2 ^ 8 + d / 2 ^ 24)).
Proof.
  intros Hd. unfold bswap32. rewrite !land_255, !Z.shiftr_div_pow2, <-Z.lor_assoc by lia.
  assert (0 <= d / 2 ^ 24 < 2 ^ 8)
    by (split; [apply Z.div_pos; lia|apply Z.div_lt_upper_bound; lia]).
  pose proof (Z.mod_pos_bound (d / 2 ^ 16) 256 ltac:(lia)).
  pose proof (Z.mod_pos_bound (d / 2 ^ 8) 256 ltac:(lia)).
  pose proof (Z.mod_pos_bound d 256 ltac:(lia)).
  change (2 ^ 8) with 256 in *. change (2 ^ 16) with 65536 in *.
  rewrite (lor_add (d / 65536 mod 256) (d / 2 ^ 24) 8) by lia.
  rewrite (lor_add (d / 256 mod 256) _ 16) by lia.
  rewrite (lor_add (d mod 256) _ 24) by lia. done.
Qed.

Lemma bswap16_range d : 0 <= d < 65536 -> 0 <= bswap16 d < 65536.
Proof. intros Hd. rewrite bswap16_arith by done. dlia. Qed.

(** The conversions are their own inverses, and turn the little-endian reading
    of two bytes into the big-endian one. *)
Lemma bswap16_invol d : 0 <= d < 65536 -> bswap16 (bswap16 d) = d.
Proof.
  intros Hd. pose proof (bswap16_range d Hd). rewrite (bswap16_arith (bswap16 d)) by done.
  rewrite bswap16_arith by done. dlia.
Qed.

Lemma bswap32_bytes b0 b1 b2 b3 :
  is_byte b0 -> is_byte b1 -> is_byte b2 -> is_byte b3 ->
  bswap32 (le_num [b0; b1; b2; b3]) = le_num [b3; b2; b1; b0].
Proof.
  unfold is_byte. intros H0 H1 H2 H3. cbn [le_num]. rewrite bswap32_arith by lia.
  change (2 ^ 8) with 256. change (2 ^ 16) with 65536. change (2 ^ 24) with 16777216.
  set (d := b0 + _).
  assert (d mod 256 = b0) as -> by (unfold d; dlia).
  assert (d / 256 = b1 + 256 * (b2 + 256 * (b3 + 256 * 0))) as -> by (unfold d; dlia).
  assert (d / 65536 = b2 + 256 * (b3 + 256 * 0)) as -> by (unfold d; dlia).
  assert (d / 16777216 = b3) as -> by (unfold d; dlia).
  rewrite (Z.mul_comm 256), Z_mod_plus_full, (Z.mod_small b1) by lia.
  rewrite (Z.mul_comm 256 (b3 + _)), Z_mod_plus_full, (Z.mod_small b2) by lia. lia.
Qed.

Lemma bswap32_invol d : 0 <= d < 2 ^ 32 -> bswap32 (bswap32 d) = d.
Proof.
  intros Hd. rewrite <-(wrap_small 32 d Hd). change 32 with (8 * Z.of_nat 4).
  rewrite <-le_num_bytes. pose proof (are_bytes_le_bytes 4 d) as B. revert B.
  cbn [le_bytes]. rewrite !Forall_cons. intros (? & ? & ? & ? & _).
  by rewrite !bswap32_bytes.
Qed.

Lemma le_bytes_htons d : 0 <= d < 65536 -> le_bytes 2 (htons d) = be_bytes 2 d.
Proof.
  intros Hd. unfold htons, be_bytes. rewrite bswap16_arith by done.
  cbn [le_bytes rev app]. unfold wrap. change (2 ^ 8) with 256.
  f_equal; [dlia|f_equal; dlia].
Qed.

Lemma ntohs_be b0 b1 : is_byte b0 -> is_byte b1 -> ntohs (le_num [b0; b1]) = be_num [b0; b1].
Proof.
  unfold is_byte. intros. unfold ntohs. rewrite bswap16_arith by (cbn [le_num]; lia).
  unfold be_num. cbn [le_num rev app]. dlia.
Qed.
