(* ===== verification/Bufpool.v ===== *)
(** * net/bufpool.c: the pool of transmit buffers

    Free buffers form a linked list through their first eight bytes.  The
    abstract pool is the list of free buffers, a stack. *)

From S2P Require Import Prelude Memory Firmware State CString Printf PrintfFacts Console Alloc.

(** include/netboot/bufpool.h, include/netboot/eth.h *)
Definition ETH_BUFFERS : Z := 4.
Definition ETH_BUFFERS_PAGES : Z := Z.shiftr ETH_BUFFERS 1 + ETH_BUFFERS mod 2.
Definition ETH_MTU : Z := 1514.

(** [~2047UL]: [unsigned long] has 32 bits on the LLP64 target *)
Definition BUF_MASK : Z := u32 (Z.lnot 2047).

Section Bufpool.
Context {E : Efi} {F : Firmware} {L : Layout} {K : Fuel}.

Definition set_eth_bufpool (p : Z) : M unit :=
  modify (fun s => set_bp (BufpoolGlobals p (eth_bufpool_avail (bp s)) (eth_buffer_phys (bp s))) s).
Definition set_eth_bufpool_avail (n : Z) : M unit :=
  modify (fun s => set_bp (BufpoolGlobals (eth_bufpool (bp s)) n (eth_buffer_phys (bp s))) s).
Definition set_eth_buffer_phys (p : Z) : M unit :=
  modify (fun s => set_bp (BufpoolGlobals (eth_bufpool (bp s)) (eth_bufpool_avail (bp s)) p) s).

Definition net_bufpool_return (data : Z) : M unit :=
  phys ← gets (fun s => eth_buffer_phys (bp s));
  _ ← (if (data <? phys) || (u64 (phys + ETH_BUFFERS_PAGES * 0x1000) <=? data) then
         _ ← efi_printf (str "attempt to use buffer outside of allocated range") []; skip
       else skip);
  let buf := Z.land data BUF_MASK in
  next ← gets (fun s => eth_bufpool (bp s));
  _ ← store64 buf next;
  avail ← gets (fun s => eth_bufpool_avail (bp s));
  _ ← set_eth_bufpool_avail (u32 (avail + 1));
  set_eth_bufpool buf.

Definition net_bufpool_get (size : Z) : M Z :=
  if ETH_MTU <? size then mret 0
  else
    buf ← gets (fun s => eth_bufpool (bp s));
    if buf =? 0 then mret 0
    else
      next ← load64 buf;
      _ ← set_eth_bufpool next;
      _ ← store64 buf 0;
      avail ← gets (fun s => eth_bufpool_avail (bp s));
      _ ← set_eth_bufpool_avail (u32 (avail - 1));
      mret (buf + 8).

Fixpoint net_bufpool_init_loop (n : nat) (ptr : Z) : M unit :=
  match n with
  | O => skip
  | S n => _ ← net_bufpool_return ptr; net_bufpool_init_loop n (ptr + 2048)
  end.

(** EFIERR evaluates its argument again when it reports an error, so a failing
    allocation is retried for the message before the program exits. *)
Definition net_bufpool_init : M unit :=
  let allocate :=
    '(st, a) ← boot_AllocatePages EfiLoaderData 8; _ ← set_eth_buffer_phys a; mret st in
  st ← allocate;
  _ ← (if EFI_ERROR st then
         st ← allocate;
         _ ← efi_printf (str "EFIERR %s @ %s:%d" ++ newline)
               [VStr (uefi_strerror st); VStr (str "net/bufpool.c"); VWord 7];
         _ ← uefi_key_wait;
         stop (Exited 1)
       else skip);
  ptr ← gets (fun s => eth_buffer_phys (bp s));
  net_bufpool_init_loop (Z.to_nat ETH_BUFFERS) ptr.

End Bufpool.

(** ** The abstract pool *)

Fixpoint free_list (m : memory) (head : Z) (l : list Z) : Prop :=
  match l with
  | [] => head = 0
  | b :: l => head = b /\ exists next, load 8 m b = Some next /\ free_list m next l
  end.

(** [b] is one of the four buffers of the region at [phys]. *)
Definition is_buffer (phys b : Z) : Prop := exists j, 0 <= j < ETH_BUFFERS /\ b = phys + 2048 * j.

(** The pool holds exactly the buffers [l], in the order they will be handed
    out.  The region must lie below 4 GiB: [BUF_MASK] drops the upper half of an
    address. *)
Record Pool {F : Firmware} (s : state) (l : list Z) : Prop := {
  pool_list : free_list (mem s) (eth_bufpool (bp s)) l;
  pool_nodup : NoDup l;
  pool_buffers b : b ∈ l -> is_buffer (eth_buffer_phys (bp s)) b;
  pool_avail : eth_bufpool_avail (bp s) = zlen l;
  pool_mapped : mapped (mem s) (eth_buffer_phys (bp s)) 8192;
  pool_region : 0 < eth_buffer_phys (bp s) /\ eth_buffer_phys (bp s) mod 2048 = 0
                /\ eth_buffer_phys (bp s) + 8192 <= 2 ^ 32;
}.

Lemma buf_mask a : 0 <= a < 2 ^ 32 -> Z.land a BUF_MASK = a / 2048 * 2048.
Proof.
  intros Ha. unfold BUF_MASK. change (u32 (Z.lnot 2047)) with (Z.shiftl (Z.ones 21) 11).
  apply Z.bits_inj'. intros k Hk. rewrite Z.land_spec. change 2048 with (2 ^ 11).
  rewrite <-Z.shiftr_div_pow2, <-Z.shiftl_mul_pow2, !Z.shiftl_spec by lia.
  destruct (Z.ltb_spec k 11).
  - rewrite !(Z.testbit_neg_r _ (k - 11)) by lia. apply andb_false_r.
  - rewrite Z.shiftr_spec by lia. replace (k - 11 + 11) with k by lia.
    destruct (Z.ltb_spec k 32).
    + rewrite Z.ones_spec_low by lia. apply andb_true_r.
    + rewrite Z.ones_spec_high, andb_false_r by lia. symmetry.
      destruct (Z.eq_dec a 0) as [->|]; [apply Z.bits_0|].
      apply Z.bits_above_log2; [lia|].
      assert (Z.log2 a < 32) by (apply Z.log2_lt_pow2; lia). lia.
Qed.

Lemma buf_mask_low a : Z.land a BUF_MASK < 2 ^ 32.
Proof.
  change BUF_MASK with 4294965248. apply (Z.le_lt_trans _ 4294965248); [|lia].
  rewrite Z.land_comm.
  assert (H : Z.land 4294965248 a + Z.ldiff 4294965248 a = 4294965248).
  { rewrite Z.add_nocarry_lor.
    - apply Z.bits_inj'. intros k _. rewrite Z.lor_spec, Z.land_spec, Z.ldiff_spec.
      by destruct (Z.testbit 4294965248 k), (Z.testbit a k).
    - apply Z.bits_inj'. intros k _. rewrite !Z.land_spec, Z.ldiff_spec, Z.bits_0.
      by destruct (Z.testbit 4294965248 k), (Z.testbit a k). }
  pose proof (proj2 (Z.ldiff_nonneg 4294965248 a) ltac:(lia)). lia.
Qed.

Lemma free_list_agree m m' l : forall head,
  (forall b, b ∈ l -> agree m m' b 8) -> free_list m head l -> free_list m' head l.
Proof.
  induction l as [|b l IH]; intros head A; [done|]. cbn [free_list].
  intros (-> & next & Ln & Fl). split; [done|]. exists next. split.
  - rewrite (load_agree 8 m m'); [done|]. apply A. set_solver.
  - apply IH; [|done]. intros c Hc. apply A. set_solver.
Qed.

Lemma buffer_disj phys b c :
  phys mod 2048 = 0 -> is_buffer phys b -> is_buffer phys c -> b <> c -> disj b 2048 c 2048.
Proof. intros Hp (j & Hj & ->) (k & Hk & ->) N. unfold disj. lia. Qed.

Lemma pool_size {F : Firmware} s l : Pool s l -> zlen l <= 4.
Proof.
  intros I. set (all := (fun j => eth_buffer_phys (bp s) + 2048 * j) <$> [0; 1; 2; 3]).
  assert (H : l ⊆+ all).
  { apply NoDup_submseteq; [apply I|]. intros b Hb.
    destruct (pool_buffers _ _ I b Hb) as (j & Hj & ->). unfold ETH_BUFFERS in Hj.
    apply list_elem_of_fmap. exists j. split; [done|].
    assert (j = 0 \/ j = 1 \/ j = 2 \/ j = 3) as [->|[->|[->| ->] ] ] by lia; set_solver. }
  apply submseteq_length in H. simpl in H. lia.
Qed.

Section Pool.
Context {E : Efi} {F : Firmware} {L : Layout} {K : Fuel}.

Lemma is_buffer_bounds s l b :
  Pool s l -> is_buffer (eth_buffer_phys (bp s)) b ->
  0 < b /\ b mod 2048 = 0 /\ b + 2048 <= 2 ^ 32 /\ mapped (mem s) b 2048
  /\ eth_buffer_phys (bp s) <= b /\ b + 2048 <= eth_buffer_phys (bp s) + 8192.
Proof.
  intros I (j & Hj & ->). unfold ETH_BUFFERS in Hj.
  destruct (pool_region _ _ I) as (H0 & H1 & H2).
  repeat split; try lia; [dlia|]. eapply mapped_sub; [apply I|lia..].
Qed.

(** The pool depends on the links of the free buffers only. *)
Lemma pool_frame s s' l :
  Pool s l -> bp s' = bp s -> (forall b, b ∈ l -> agree (mem s) (mem s') b 8) ->
  (forall a n, mapped (mem s) a n -> mapped (mem s') a n) -> Pool s' l.
Proof.
  intros I Hb A Mp. destruct I. split; rewrite ?Hb; auto.
  by eapply free_list_agree.
Qed.

Lemma pool_agree s s' l :
  Pool s l -> bp s' = bp s -> agree (mem s) (mem s') (eth_buffer_phys (bp s)) 8192 -> Pool s' l.
Proof.
  intros I Hb A. pose proof I as [Fl Nd Bf Av Mp Rg]. split; rewrite ?Hb; auto.
  - eapply free_list_agree; [|done]. intros b Hb'.
    destruct (is_buffer_bounds _ _ _ I (Bf _ Hb')) as (_ & _ & _ & _ & ? & ?).
    eapply agree_sub; [exact A|lia..].
  - intros x Hx. rewrite A by done. by apply Mp.
Qed.

Lemma net_bufpool_get_ret s b l size :
  Pool s (b :: l) -> size <= ETH_MTU ->
  exists s', net_bufpool_get size s = Ret (b + 8) s' /\ Pool s' l
    /\ is_buffer (eth_buffer_phys (bp s)) b /\ (b ∉ l)
    /\ s' = set_bp (bp s') (set_mem (store 8 (mem s) b 0) s)
    /\ eth_buffer_phys (bp s') = eth_buffer_phys (bp s).
Proof.
  intros I Hs. unfold net_bufpool_get. rewrite (proj2 (Z.ltb_ge _ _) Hs).
  assert (Bb : is_buffer (eth_buffer_phys (bp s)) b) by (apply I; set_solver).
  destruct (is_buffer_bounds _ _ _ I Bb) as (B0 & B1 & B2 & Mb & B3 & B4).
  pose proof (pool_list _ _ I) as (Hh & next & Ln & Fl).
  pose proof (pool_nodup _ _ I) as ND. apply NoDup_cons in ND as [Nb ND].
  erewrite bind_ret by done. rewrite Hh, (proj2 (Z.eqb_neq b 0)) by lia.
  erewrite bind_ret by (by apply load_n_ret).
  erewrite bind_ret by done. erewrite bind_ret.
  2:{ apply store_n_ret. eapply mapped_sub; [exact Mb|lia..]. }
  erewrite bind_ret by done. erewrite bind_ret by done.
  eexists. split; [done|]. st_simpl. cbn [eth_bufpool eth_bufpool_avail eth_buffer_phys].
  split; [|by repeat split]. split; st_simpl; cbn [eth_bufpool eth_bufpool_avail eth_buffer_phys].
  - eapply free_list_agree; [|exact Fl]. intros c Hc. apply agree_write.
    rewrite length_le_bytes.
    assert (D : disj b 2048 c 2048).
    { eapply buffer_disj; [apply I|done|apply I; set_solver|]. by intros ->. }
    unfold disj in *. lia.
  - done.
  - intros c Hc. apply I. set_solver.
  - rewrite (pool_avail _ _ I). cbn [length]. rewrite wrap_small; [lia|].
    pose proof (pool_size _ _ I) as Sz. cbn [length] in Sz. lia.
  - apply mapped_store, I.
  - apply I.
Qed.

Lemma net_bufpool_return_ret s l data b :
  Pool s l -> is_buffer (eth_buffer_phys (bp s)) b -> b ∉ l -> b <= data < b + 2048 ->
  exists s', net_bufpool_return data s = Ret tt s' /\ Pool s' (b :: l)
    /\ s' = set_bp (bp s') (set_mem (store 8 (mem s) b (eth_bufpool (bp s))) s)
    /\ eth_buffer_phys (bp s') = eth_buffer_phys (bp s).
Proof.
  intros I Bb Nb Hd. pose proof (is_buffer_bounds _ _ _ I Bb) as (B0 & B1 & B2 & Mb & B3 & B4).
  pose proof (pool_size _ _ I) as Sz. destruct (pool_region _ _ I) as (R0 & R1 & R2).
  assert (Hh : 0 <= eth_bufpool (bp s) < 2 ^ 32).
  { pose proof (pool_list _ _ I) as Fl. destruct l as [|c l]; simpl in Fl; [lia|].
    destruct Fl as [-> _]. pose proof (is_buffer_bounds s (c :: l) c I) as H.
    destruct H as (? & ? & ? & _); [apply I; set_solver|lia]. }
  assert (Em : Z.land data BUF_MASK = b) by (rewrite buf_mask by lia; dlia).
  unfold net_bufpool_return. erewrite bind_ret by done.
  rewrite wrap_small by (change (ETH_BUFFERS_PAGES * 0x1000) with 8192; lia).
  change (ETH_BUFFERS_PAGES * 0x1000) with 8192.
  rewrite (proj2 (Z.ltb_ge _ _)), (proj2 (Z.leb_gt _ _)) by lia. cbn [orb].
  erewrite bind_ret by done. rewrite Em. erewrite bind_ret by done.
  erewrite bind_ret.
  2:{ apply store_n_ret. eapply mapped_sub; [exact Mb|lia..]. }
  erewrite bind_ret by done. erewrite bind_ret by done.
  eexists. split; [done|]. st_simpl. cbn [eth_bufpool eth_bufpool_avail eth_buffer_phys].
  split; [|by repeat split]. split; st_simpl; cbn [eth_bufpool eth_bufpool_avail eth_buffer_phys].
  - split; [done|]. exists (eth_bufpool (bp s)). split.
    + rewrite load_store_same. f_equal. apply wrap_small. lia.
    + eapply free_list_agree; [|apply I]. intros c Hc. apply agree_write.
      rewrite length_le_bytes.
      assert (D : disj b 2048 c 2048).
      { eapply buffer_disj; [done|done|by apply I|]. by intros ->. }
      unfold disj in *. lia.
  - apply NoDup_cons. split; [done|apply I].
  - intros c [->|Hc]%elem_of_cons; [done|by apply I].
  - rewrite (pool_avail _ _ I), wrap_small by lia. cbn [length]. lia.
  - apply mapped_store, I.
  - apply I.
Qed.

(** The first loop of [net_bufpool_init] on a region without free buffers. *)
Lemma net_bufpool_init_loop_ret n : forall s l j,
  Pool s l -> (forall b, b ∈ l -> b < eth_buffer_phys (bp s) + 2048 * j) ->
  0 <= j -> j + Z.of_nat n <= ETH_BUFFERS ->
  exists s', net_bufpool_init_loop n (eth_buffer_phys (bp s) + 2048 * j) s = Ret tt s'
    /\ Pool s' (rev ((fun i => eth_buffer_phys (bp s) + 2048 * (j + Z.of_nat i)) <$> seq 0 n) ++ l)
    /\ s' = set_bp (bp s') (set_mem (mem s') s)
    /\ eth_buffer_phys (bp s') = eth_buffer_phys (bp s)
    /\ (wf_mem (mem s) -> wf_mem (mem s'))
    /\ (forall x, ~ (eth_buffer_phys (bp s) <= x < eth_buffer_phys (bp s) + 8192) ->
          mem s' !! x = mem s !! x).
Proof.
  induction n as [|n IH]; intros s l j I Lt Hj Hn.
  - exists s. split; [done|]. split; [done|]. split; [by destruct s|done].
  - cbn [net_bufpool_init_loop]. set (b := eth_buffer_phys (bp s) + 2048 * j).
    destruct (net_bufpool_return_ret s l b b) as (s1 & R1 & I1 & E1 & P1);
      [done|exists j; split; [lia|done]| |lia|].
    { intros Hb%Lt. lia. }
    run_step R1. destruct (IH s1 (b :: l) (j + 1)) as (s2 & R2 & I2 & E2 & P2 & W2 & Fr2);
      [done| |lia|lia|].
    { rewrite P1. intros c [->|Hc%Lt]%elem_of_cons; lia. }
    exists s2. rewrite P1 in *. split; [|split; [|split; [|split; [done|split] ] ] ].
    + rewrite <-R2. f_equal. unfold b. lia.
    + assert (El : rev ((fun i => eth_buffer_phys (bp s) + 2048 * (j + Z.of_nat i)) <$> seq 0 (S n)) ++ l
        = rev ((fun i => eth_buffer_phys (bp s) + 2048 * (j + 1 + Z.of_nat i)) <$> seq 0 n) ++ b :: l).
      { cbn [seq]. rewrite fmap_cons. cbn [rev]. rewrite <-app_assoc. f_equal.
        - f_equal. rewrite <-seq_shift, <-list_fmap_compose. apply list_fmap_ext.
          intros i x _. simpl. lia.
        - simpl. f_equal. unfold b. lia. }
      by rewrite El.
    + rewrite E2, E1. by destruct s, s1, s2.
    + intros W. apply W2. rewrite E1. cbn [mem set_mem set_bp]. apply wf_write; auto with bytes.
    + intros x Hx. rewrite Fr2, E1 by done. cbn [mem set_mem set_bp]. unfold store.
      apply lookup_write_out. rewrite length_le_bytes. unfold b, ETH_BUFFERS in *. lia.
Qed.

Lemma net_bufpool_init_ret {AL : AllocLaws E F} s st a c w :
  AllocatePages EfiLoaderData 8 (mem s) (fw s) = (st, a, c, w) -> EFI_ERROR st = false ->
  a + 8192 <= 2 ^ 32 -> eth_bufpool (bp s) = 0 -> eth_bufpool_avail (bp s) = 0 ->
  exists s', net_bufpool_init s = Ret tt s' /\ Pool s' [a + 6144; a + 4096; a + 2048; a]
    /\ s' = set_bp (bp s') (set_fw w (set_mem (mem s') s))
    /\ eth_buffer_phys (bp s') = a /\ (wf_mem (mem s) -> wf_mem (mem s'))
    /\ (forall x, is_Some (mem s !! x) -> mem s' !! x = mem s !! x)
    /\ (forall x, is_Some (mem s' !! x) -> is_Some (mem s !! x) \/ a <= x < a + 32768).
Proof.
  intros A St Low H0 H1.
  destruct (alloc_pages_fresh _ _ _ _ _ _ _ _ A St ltac:(lia)) as (A0 & A1 & A2 & U).
  assert (Lb : zlen (bytes_at c (4096 * 8)) = 32768) by (apply length_bytes_at; lia).
  assert (A1' : boot_AllocatePages EfiLoaderData 8 s
    = Ret (st, a) (set_mem (write_bytes (mem s) a (bytes_at c (4096 * 8))) (set_fw w s)))
    by (unfold boot_AllocatePages; by rewrite A, St).
  assert (Mr : mapped (write_bytes (mem s) a (bytes_at c (4096 * 8))) a 8192).
  { eapply mapped_sub; [apply mapped_write_self|lia..]. }
  assert (Fm : forall x, is_Some (mem s !! x) ->
    write_bytes (mem s) a (bytes_at c (4096 * 8)) !! x = mem s !! x /\ ~ (a <= x < a + 32768)).
  { intros x [b Hx]. assert (N : ~ (a <= x < a + 32768))
      by (intros Hb; rewrite U in Hx by lia; done).
    split; [|done]. apply lookup_write_out. by rewrite Lb. }
  assert (W1 : wf_mem (mem s) -> wf_mem (write_bytes (mem s) a (bytes_at c (4096 * 8))))
    by (intros W; apply wf_write; [exact W|apply are_bytes_bytes_at]).
  assert (Up : forall x, is_Some (write_bytes (mem s) a (bytes_at c (4096 * 8)) !! x) ->
    is_Some (mem s !! x) \/ a <= x < a + 32768)
    by (intros x; rewrite lookup_write_bytes, Lb; case_decide; auto).
  clear Lb. generalize dependent (write_bytes (mem s) a (bytes_at c (4096 * 8))).
  intros m1 A1' Mr Fm W1 Up.
  set (s1 := set_bp (BufpoolGlobals 0 0 a) (set_mem m1 (set_fw w s))).
  assert (I1 : Pool s1 []).
  { split; cbn; auto; try lia.
    - constructor.
    - intros b. by rewrite elem_of_nil.
    - repeat split; [lia| |lia]. dlia. }
  destruct (net_bufpool_init_loop_ret 4 s1 [] 0 I1) as (s' & R & I' & E' & P' & W' & Fr);
    [by intros b ?%elem_of_nil|lia|unfold ETH_BUFFERS; lia|].
  exists s'. split; [|split; [|split; [|split; [done|split; [|split] ] ] ] ].
  - unfold net_bufpool_init. erewrite bind_ret.
    2:{ cbv zeta. erewrite bind_ret by exact A1'. cbv beta iota.
        erewrite bind_ret by done. done. }
    cbv beta. rewrite St. erewrite bind_ret by done. erewrite bind_ret by done.
    cbn [eth_buffer_phys bp set_bp]. rewrite <-R. cbn [eth_buffer_phys bp set_bp s1].
    replace (a + 2048 * 0) with a by lia. unfold s1. cbn [bp set_mem set_fw].
    rewrite H0, H1. reflexivity.
  - replace [_; _; _; _] with (rev ((fun i : nat => eth_buffer_phys (bp s1)
      + 2048 * (0 + Z.of_nat i)) <$> seq 0 4) ++ []); [done|].
    cbn [fmap list_fmap seq rev app eth_buffer_phys bp set_bp s1].
    repeat (apply f_equal2; [lia|]). done.
  - etransitivity; [exact E'|done].
  - auto.
  - intros x Hx. destruct (Fm x Hx) as [E0 N]. rewrite Fr; [done|]. cbn. lia.
  - intros x Hx. destruct (decide (a <= x < a + 32768)) as [|N]; [by right|left].
    rewrite Fr in Hx by (cbn; lia). by destruct (Up x Hx).
Qed.

End Pool.
