(* ===== verification/Ip6.v ===== *)
(** * net/ip6.c: addresses, headers and the checksum

    With [net_add_mcast_filter] of net/net.c, which [net_ip6_init] calls.
    Addresses and packets live in memory; a struct is the address of its first
    byte, and its fields are offsets from include/netboot/ip6.h and eth.h. *)

From S2P Require Import Prelude Memory Firmware State CString Printf PrintfFacts Console Alloc.
From S2P Require Import Inet Bufpool.

(** include/netboot/eth.h, include/netboot/ip6.h, include/netinet/in.h *)
Definition ETH_ALEN : Z := 6.
Definition ETH_HLEN : Z := 14.
Definition ETH_IP6 : Z := 0x86DD.
Definition IP6_ADDR_LEN : Z := 16.
Definition IP6_HEADER_LEN : Z := 40.
Definition IPPROTO_UDP : Z := 17.
Definition IPPROTO_ICMP6 : Z := 58.

(** struct ethhdr, ip6_header_t, ip6_packet_t *)
Definition eth_h_dest (p : Z) : Z := p.
Definition eth_h_source (p : Z) : Z := p + 6.
Definition eth_h_protocol (p : Z) : Z := p + 12.
Definition packet_ip6 (p : Z) : Z := p + 14.
Definition packet_data (p : Z) : Z := p + 54.
Definition ip6_ver_tc_flow (ip : Z) : Z := ip.
Definition ip6_length (ip : Z) : Z := ip + 4.
Definition ip6_next_header (ip : Z) : Z := ip + 6.
Definition ip6_hop_limit (ip : Z) : Z := ip + 7.
Definition ip6_src (ip : Z) : Z := ip + 8.
Definition ip6_dst (ip : Z) : Z := ip + 24.

Definition ip6_all_nodes : list Z :=
  [0xFF; 0x02; 0; 0; 0; 0; 0; 0; 0; 0; 0; 0; 0; 0; 0; 1].

Section Ip6.
Context {E : Efi} {F : Firmware} {L : Layout} {K : Fuel}.

(** for(i = 0; i < IP6_ADDR_LEN; i++) if(ip->s6_addr[i]) return false; *)
Fixpoint net_ip6_empty_loop (n : nat) (a : Z) : M bool :=
  match n with
  | O => mret true
  | S n => b ← load8 a; if negb (b =? 0) then mret false else net_ip6_empty_loop n (a + 1)
  end.

Definition net_ip6_empty (ip : Z) : M bool := net_ip6_empty_loop (Z.to_nat IP6_ADDR_LEN) ip.

(** while(len > 1): the sum, the position and the remaining length *)
Fixpoint checksum_words (len : nat) (data sum : Z) : M (Z * Z * nat) :=
  match len with
  | S (S len) => w ← load16 data; checksum_words len (data + 2) (u32 (sum + w))
  | _ => mret (sum, data, len)
  end.

(** while(sum >> 16): two rounds are enough for 32 bits *)
Fixpoint checksum_fold (fuel : nat) (sum : Z) : Z :=
  match fuel with
  | O => sum
  | S fuel =>
      if Z.shiftr sum 16 =? 0 then sum
      else checksum_fold fuel (u32 (Z.land sum 0xFFFF + Z.shiftr sum 16))
  end.

(** the odd byte and the fold *)
Definition checksum_tail (sum current_data : Z) (len : nat) : M Z :=
  sum ← (if (len =? 0)%nat then mret sum
         else w ← load16 current_data; mret (u32 (sum + Z.land w 0xFF)));
  mret (u16 (checksum_fold 3 sum)).

Definition checksum (data len sum_init : Z) : M Z :=
  '(sum, current_data, len) ← checksum_words (Z.to_nat len) data sum_init;
  checksum_tail sum current_data len.

Definition net_ip6_checksum (ip type length : Z) : M Z :=
  sum ← checksum (ip6_length ip) 2 (htons type);
  sum ← checksum (ip6_src ip) (u64 (32 + length)) sum;
  mret (u16 (Z.lnot sum)).

Definition net_ip6_multicast_from_ip6 (mac ip : Z) : M unit :=
  _ ← store8 mac 0x33;
  _ ← store8 (mac + 1) 0x33;
  b ← load8 (ip + 12); _ ← store8 (mac + 2) b;
  b ← load8 (ip + 13); _ ← store8 (mac + 3) b;
  b ← load8 (ip + 14); _ ← store8 (mac + 4) b;
  b ← load8 (ip + 15); store8 (mac + 5) b.

(** [memset(ip + 2, 0, 6)]: [ip] points to a 16-byte struct, so [ip + 2] is 32
    bytes further. *)
Definition net_ip6_ll_addr_from_mac (ip mac : Z) : M unit :=
  _ ← memset (ip + 2 * IP6_ADDR_LEN) 0 6;
  _ ← store8 ip 0xFE;
  _ ← store8 (ip + 1) 0x80;
  b ← load8 mac; _ ← store8 (ip + 8) (Z.lxor b 2);
  b ← load8 (mac + 1); _ ← store8 (ip + 9) b;
  b ← load8 (mac + 2); _ ← store8 (ip + 10) b;
  _ ← store8 (ip + 11) 0xFF;
  _ ← store8 (ip + 12) 0xFE;
  b ← load8 (mac + 3); _ ← store8 (ip + 13) b;
  b ← load8 (mac + 4); _ ← store8 (ip + 14) b;
  b ← load8 (mac + 5); store8 (ip + 15) b.

Definition net_ip6_snm_addr_from_mac (ip mac : Z) : M unit :=
  _ ← memset (ip + 2) 0 9;
  _ ← store8 ip 0xFF;
  _ ← store8 (ip + 1) 0x02;
  _ ← store8 (ip + 11) 0x01;
  _ ← store8 (ip + 12) 0xFF;
  b ← load8 (mac + 3); _ ← store8 (ip + 13) b;
  b ← load8 (mac + 4); _ ← store8 (ip + 14) b;
  b ← load8 (mac + 5); store8 (ip + 15) b.

Definition net_ip6_resolve (mac ip : Z) : M Z :=
  b ← load8 ip;
  if b =? 0xFF then
    _ ← net_ip6_multicast_from_ip6 mac ip; mret EFI_SUCCESS
  else
    c ← memcmp ip a_remote_ip6_addr 16;
    if c =? 0 then _ ← memcpy mac a_remote_mac_addr 6; mret EFI_SUCCESS
    else mret EFI_NOT_FOUND.

Definition net_ip6_packet_setup (p addr length type : Z) : M Z :=
  with_local ETH_ALEN (fun mac =>
    r ← net_ip6_resolve mac addr;
    if negb (r =? 0) then mret EFI_NOT_FOUND
    else
      _ ← memcpy (eth_h_dest p) mac ETH_ALEN;
      _ ← memcpy (eth_h_source p) a_ll_mac_addr ETH_ALEN;
      _ ← store16 (eth_h_protocol p) (htons ETH_IP6);
      let ip := packet_ip6 p in
      _ ← store32 (ip6_ver_tc_flow ip) 0x60;
      _ ← store16 (ip6_length ip) (htons (u16 length));
      _ ← store8 (ip6_next_header ip) type;
      _ ← store8 (ip6_hop_limit ip) 255;
      _ ← memcpy (ip6_src ip) a_ip6_ll_addr 16;
      _ ← memcpy (ip6_dst ip) addr 16;
      mret EFI_SUCCESS).

(** net/net.c *)
Definition net_add_mcast_filter (addr : Z) : M Z :=
  n ← gets (fun s => mcast_filter_count (ng s));
  max ← gets (fun s => MaxMCastFilterCount (SnpMode_of (snp (ng s)) (fw s)));
  if (8 <=? n) || (max <=? n) then mret EFI_INVALID_PARAMETER
  else
    _ ← memcpy (a_mcast_filters + sizeof_efi_mac_addr * n) addr ETH_ALEN;
    _ ← modify (fun s =>
          let g := ng s in
          set_ng (NetGlobals (u32 (mcast_filter_count g + 1)) (snp g) (net_timer g)
            (net_poll_continue g) (net_advertised g) (net_stop_advertising g)) s);
    mret EFI_SUCCESS.

Definition net_ip6_init (mac : Z) : M unit :=
  _ ← memcpy a_ll_mac_addr mac 6;
  with_local ETH_ALEN (fun all =>
    _ ← net_ip6_ll_addr_from_mac a_ip6_ll_addr a_ll_mac_addr;
    _ ← net_ip6_snm_addr_from_mac a_ip6_snm_addr a_ll_mac_addr;
    _ ← net_ip6_multicast_from_ip6 a_snm_mac_addr a_ip6_snm_addr;
    _ ← net_ip6_multicast_from_ip6 all a_ip6_all_nodes;
    _ ← net_add_mcast_filter a_snm_mac_addr;
    _ ← net_add_mcast_filter all;
    skip).

End Ip6.

(** ** Specifications *)

(** The sum of the 16-bit little-endian words; an odd last byte counts alone. *)
Fixpoint word_sum (bs : list Z) : Z :=
  match bs with
  | b0 :: b1 :: bs => b0 + 256 * b1 + word_sum bs
  | [b] => b
  | [] => 0
  end.

(** One's complement reduction to 16 bits: the representative of [z] modulo
    65535, zero for zero only. *)
Definition ones16 (z : Z) : Z := if z =? 0 then 0 else (z - 1) mod 65535 + 1.

(** The checksum of an upper-layer packet [payload] between [src] and [dst]: the
    complement of the sum of the pseudo-header and the payload. *)
Definition pseudo_sum (type len : Z) (src dst payload : list Z) : Z :=
  htons type + word_sum (be_bytes 2 len) + word_sum (src ++ dst ++ payload).

Definition ip6_checksum (type len : Z) (src dst payload : list Z) : Z :=
  65535 - ones16 (pseudo_sum type len src dst payload).

Definition multicast_mac (ip : list Z) : list Z := [0x33; 0x33] ++ take 4 (drop 12 ip).

(** The modified EUI-64 link-local address of a MAC address: bytes 2 to 7 are
    those that were there before. *)
Definition link_local_bytes (old mac : list Z) : list Z :=
  [0xFE; 0x80] ++ take 6 (drop 2 old)
  ++ [Z.lxor (mac !!! 0%nat) 2; mac !!! 1%nat; mac !!! 2%nat; 0xFF; 0xFE]
  ++ drop 3 mac.

(** The solicited-node multicast address. *)
Definition solicited_node_bytes (mac : list Z) : list Z :=
  [0xFF; 0x02] ++ replicate 9 0 ++ [0x01; 0xFF] ++ drop 3 mac.

(** The destination MAC address [net_ip6_resolve] finds. *)
Definition resolve (remote_mac remote_ip ip : list Z) : option (list Z) :=
  if bool_decide (head ip = Some 0xFF) then Some (multicast_mac ip)
  else if bool_decide (ip = remote_ip) then Some remote_mac else None.

(** The Ethernet and IPv6 headers of a packet sent by the loader. *)
Definition ip6_headers (dmac smac : list Z) (len type : Z) (src dst : list Z) : list Z :=
  dmac ++ smac ++ be_bytes 2 ETH_IP6
  ++ [0x60; 0; 0; 0] ++ be_bytes 2 (u16 len) ++ [u8 type; 255] ++ src ++ dst.
