(* ===== verification/Ip6Facts.v ===== *)
(** * Correctness of net/ip6.c

    The checksum loop computes the one's complement sum, a filled-in checksum
    verifies, address derivation, resolution and header construction. *)

From S2P Require Import Prelude Memory Firmware State CString Printf PrintfFacts Console Alloc.
From S2P Require Import Inet Bufpool Ip6.

(** ** One's complement arithmetic *)

Lemma ones16_range z : 0 <= z -> 0 <= ones16 z <= 65535.
Proof. intros Hz. unfold ones16. case_match; [lia|dlia]. Qed.

Lemma ones16_small z : 0 <= z <= 65535 -> ones16 z = z.
Proof. intros Hz. unfold ones16. case_match; [lia|]. rewrite Z.mod_small; lia. Qed.

Lemma ones16_shift z k : 0 < z -> 0 <= k -> ones16 (z + 65535 * k) = ones16 z.
Proof.
  intros Hz Hk. unfold ones16. rewrite !(proj2 (Z.eqb_neq _ 0)) by lia.
  replace (z + 65535 * k - 1) with (z - 1 + k * 65535) by lia.
  by rewrite Z_mod_plus_full.
Qed.

Lemma ones16_split z : 0 <= z -> exists k, 0 <= k /\ z = ones16 z + 65535 * k
                                           /\ (ones16 z = 0 -> z = 0).
Proof.
  intros Hz. unfold ones16. destruct (Z.eqb_spec z 0).
  - exists 0. lia.
  - exists ((z - 1) / 65535). repeat split; dlia.
Qed.

Lemma ones16_add a b : 0 <= a -> 0 <= b -> ones16 (a + ones16 b) = ones16 (a + b).
Proof.
  intros Ha Hb. destruct (ones16_split b Hb) as (k & Hk & Eb & Z0).
  pose proof (ones16_range b Hb). destruct (Z.eq_dec (a + ones16 b) 0) as [E0|].
  - assert (b = 0) as -> by lia. done.
  - rewrite Eb at 2. rewrite Z.add_assoc, ones16_shift by lia. done.
Qed.

Lemma checksum_fold_ones z : 0 <= z < 2 ^ 32 -> checksum_fold 3 z = ones16 z.
Proof.
  assert (Step : forall fuel z, 0 <= z < 2 ^ 32 ->
    checksum_fold (S fuel) z =
    if z <? 65536 then z else checksum_fold fuel (z mod 65536 + z / 65536)).
  { clear z. intros fuel z Hz. cbn [checksum_fold]. rewrite Z.shiftr_div_pow2 by lia.
    change 0xFFFF with (Z.ones 16). rewrite Z.land_ones by lia.
    change (2 ^ 16) with 65536. destruct (Z.ltb_spec z 65536).
    - by rewrite (proj2 (Z.eqb_eq _ 0)) by dlia.
    - rewrite (proj2 (Z.eqb_neq _ 0)) by dlia. rewrite wrap_small; [done|].
      assert (z / 65536 < 65536) by dlia. dlia. }
  assert (Ones : forall z, 65536 <= z -> ones16 (z mod 65536 + z / 65536) = ones16 z).
  { clear z. intros z Hz.
    assert (E : z = z mod 65536 + z / 65536 + 65535 * (z / 65536)) by dlia.
    rewrite E at 3. rewrite ones16_shift; [done|dlia|dlia]. }
  intros Hz. rewrite Step by done. destruct (Z.ltb_spec z 65536); [by rewrite ones16_small by lia|].
  rewrite <-(Ones z) by done. set (y := z mod 65536 + z / 65536).
  assert (0 <= y <= 131070) by (unfold y; dlia).
  rewrite Step by lia. destruct (Z.ltb_spec y 65536); [by rewrite ones16_small by lia|].
  rewrite <-(Ones y) by done. set (x := y mod 65536 + y / 65536).
  assert (0 <= x <= 65535) by (unfold x; dlia).
  rewrite Step by lia. rewrite (proj2 (Z.ltb_lt x 65536)) by lia.
  by rewrite ones16_small.
Qed.

(** ** Word sums *)

Lemma list_two_ind {A} (P : list A -> Prop) :
  P [] -> (forall x, P [x]) -> (forall x y l, P l -> P (x :: y :: l)) -> forall l, P l.
Proof.
  intros H0 H1 H2. fix IH 1. intros [|x [|y l]]; [done|done|]. apply H2, IH.
Qed.

Lemma word_sum_range bs : are_bytes bs -> 0 <= word_sum bs <= 32768 * (zlen bs + 1).
Proof.
  induction bs as [|b|b0 b1 bs IH] using list_two_ind; intros B; [cbn; lia| |].
  - apply Forall_cons in B as [B _]. unfold is_byte in B. cbn. lia.
  - rewrite !Forall_cons in B. destruct B as (B0 & B1 & B). unfold is_byte in *.
    specialize (IH B). cbn [word_sum length]. lia.
Qed.

Lemma word_sum_app bs cs :
  Nat.Even (length bs) -> word_sum (bs ++ cs) = word_sum bs + word_sum cs.
Proof.
  induction bs as [|b|b0 b1 bs IH] using list_two_ind; intros Ev.
  - done.
  - destruct Ev as [k Hk]. simpl in Hk. lia.
  - cbn [app word_sum]. rewrite IH; [lia|]. destruct Ev as [k Hk]. exists (k - 1)%nat.
    simpl in Hk. lia.
Qed.

Lemma word_sum_zeros bs cs a0 a1 :
  Nat.Even (length bs) ->
  word_sum (bs ++ [a0; a1] ++ cs) = word_sum (bs ++ [0; 0] ++ cs) + le_num [a0; a1].
Proof. 
  intros Ev. rewrite (word_sum_app bs ([a0; a1] ++ cs)), (word_sum_app bs ([0; 0] ++ cs)) by done.
  cbn [word_sum app le_num]. lia.
 Qed.

Section Facts.
Context {E : Efi} {F : Firmware} {L : Layout} {K : Fuel}.

Lemma load16_read s a b0 b1 :
  mem s !! a = Some b0 -> mem s !! (a + 1) = Some b1 -> load16 a s = Ret (b0 + 256 * b1) s.
Proof.
  intros H0 H1. apply load_n_ret. unfold load. cbn [read_bytes]. rewrite H0.
  cbv [mbind option_bind]. rewrite H1. cbn. f_equal. lia.
Qed.

Lemma checksum_tail_even s sum a :
  0 <= sum < 2 ^ 32 -> checksum_tail sum a 0 s = Ret (ones16 sum) s.
Proof.
  intros Hs. pose proof (ones16_range sum ltac:(lia)).
  unfold checksum_tail. rewrite (bind_ret _ _ s sum s eq_refl).
  rewrite checksum_fold_ones, (wrap_small 16) by lia. done.
Qed.

Lemma checksum_tail_odd s sum a b c :
  mem s !! a = Some b -> mem s !! (a + 1) = Some c -> is_byte b -> is_byte c ->
  0 <= sum -> sum + b < 2 ^ 32 -> checksum_tail sum a 1 s = Ret (ones16 (sum + b)) s.
Proof.
  unfold is_byte. intros Hb Hc Bb Bc H0 H1.
  pose proof (ones16_range (sum + b) ltac:(lia)).
  assert (El : Z.land (b + 256 * c) 0xFF = b).
  { change 0xFF with (Z.ones 8). rewrite Z.land_ones by lia. change (2 ^ 8) with 256. dlia. }
  unfold checksum_tail. rewrite (bind_ret _ _ s (sum + b) s).
  - rewrite checksum_fold_ones, (wrap_small 16) by lia. done.
  - change (1 =? 0)%nat with false. cbv iota. run_step (load16_read _ _ _ _ Hb Hc).
    rewrite El, (wrap_small 32) by lia. done.
Qed.

(** The loop of [checksum], followed by the odd byte and the fold. *)
Lemma checksum_ret s data bs init :
  read_bytes (mem s) data (length bs) = Some bs -> are_bytes bs ->
  (Nat.Odd (length bs) -> exists b, mem s !! (data + zlen bs) = Some b /\ is_byte b) ->
  0 <= init -> init + word_sum bs < 2 ^ 32 ->
  checksum data (zlen bs) init s = Ret (ones16 (init + word_sum bs)) s.
Proof.
  unfold checksum. rewrite Nat2Z.id. revert data init.
  induction bs as [|b|b0 b1 bs IH] using list_two_ind; intros data init R B Nx H0 H1.
  - cbn [length checksum_words word_sum] in *.
    rewrite (bind_ret _ _ s (init, data, 0%nat) s eq_refl).
    rewrite checksum_tail_even, Z.add_0_r by lia. done.
  - destruct Nx as (c & Hc & Bc). { by exists 0%nat. }
    apply read_bytes_cons in R as (? & ? & [= <- <-] & R0 & _).
    apply Forall_cons in B as [B _]. cbn [length checksum_words word_sum] in *.
    rewrite (bind_ret _ _ s (init, data, 1%nat) s eq_refl).
    rewrite (checksum_tail_odd s init data b c) by done. done.
  - apply read_bytes_cons in R as (? & ? & [= <- <-] & R0 & R).
    apply read_bytes_cons in R as (? & ? & [= <- <-] & R1 & R2).
    rewrite !Forall_cons in B. destruct B as (B0 & B1 & B). cbn [word_sum] in *.
    pose proof (word_sum_range bs B). unfold is_byte in *.
    cbn [length checksum_words]. rewrite bind_assoc.
    run_step (load16_read _ _ _ _ R0 R1). rewrite (wrap_small 32) by lia.
    rewrite (IH (data + 2) (init + (b0 + 256 * b1))); [do 2 f_equal; lia| |done| |lia|lia].
    + replace (data + 2) with (data + 1 + 1) by lia. done.
    + intros Od. destruct Nx as (c & Hc & Bc).
      { destruct Od as [k Hk]. exists (S k). simpl. lia. }
      exists c. split; [|done]. rewrite <-Hc. f_equal. simpl. lia.
Qed.

(** [net_ip6_checksum] on a header whose length field is [lenb], followed by
    the addresses and the payload [body]. *)
Lemma net_ip6_checksum_ret s ip type lenb body :
  read_bytes (mem s) (ip6_length ip) 2 = Some lenb -> are_bytes lenb ->
  read_bytes (mem s) (ip6_src ip) (length body) = Some body -> are_bytes body ->
  (Nat.Odd (length body) -> exists b, mem s !! (ip6_src ip + zlen body) = Some b /\ is_byte b) ->
  32 <= zlen body < 65536 -> 0 <= type < 65536 ->
  net_ip6_checksum ip type (zlen body - 32) s
  = Ret (65535 - ones16 (htons type + word_sum lenb + word_sum body)) s.
Proof.
  intros R1 B1 R2 B2 Nx Hl Ht. unfold net_ip6_checksum.
  pose proof (bswap16_range type Ht) as Hh. fold (htons type) in Hh.
  pose proof (read_bytes_length _ _ _ _ R1) as L1.
  pose proof (word_sum_range lenb B1) as W1. pose proof (word_sum_range body B2) as W2.
  rewrite <-L1 in R1.
  pose proof (checksum_ret s (ip6_length ip) lenb (htons type) R1 B1) as C1.
  rewrite L1 in C1. change (Z.of_nat 2) with 2 in C1.
  erewrite bind_ret; [|apply C1; [|lia|lia]].
  2:{ intros [k Hk]. lia. }
  assert (Eu : u64 (32 + (zlen body - 32)) = zlen body) by (rewrite wrap_small; lia).
  rewrite Eu.
  pose proof (ones16_range (htons type + word_sum lenb) ltac:(lia)).
  erewrite bind_ret; [|apply checksum_ret; [done|done|done|lia|lia]].
  rewrite Z.add_comm, ones16_add by lia.
  rewrite (Z.add_comm (word_sum body)). set (z := ones16 _).
  assert (0 <= z <= 65535) by (apply ones16_range; lia).
  unfold mret, M_ret. f_equal. unfold wrap, Z.lnot. change (2 ^ 16) with 65536. dlia.
Qed.

(** ** Locals *)

(** A block with a local of [n] bytes, when its body leaves the memory [m'] of
    the rest of the program and some contents in the local. *)
Lemma with_local_ret {LL : LayoutLaws L} {A} n (k : Z -> M A) s r s' m' cs :
  0 <= n ->
  let a := stack_addr (mem s) n in
  dom m' = dom (mem s) -> zlen cs = n ->
  k a (set_mem (write_bytes (mem s) a (bytes_at stack_junk n)) s)
  = Ret r (set_mem (write_bytes m' a cs) s') ->
  with_local n k s = Ret r (set_mem m' s').
Proof.
  intros Hn a Hd Hc Hk. destruct (stack_fresh (mem s) n Hn) as (_ & U). fold a in U.
  unfold with_local. fold a. erewrite bind_ret by done. erewrite bind_ret by exact Hk.
  erewrite bind_ret by done. unfold mret, M_ret. rewrite set_mem_twice. f_equal. f_equal.
  apply map_eq. intros x. rewrite lookup_clear_bytes. cbn [mem set_mem].
  rewrite lookup_write_bytes. rewrite Hc.
  replace (Z.of_nat (Z.to_nat n)) with n by lia. case_decide; [|done].
  symmetry. apply not_elem_of_dom. rewrite Hd. apply not_elem_of_dom. by apply U.
Qed.

End Facts.

(** ** Filling in a checksum *)

(** A receiver's sum over a packet whose checksum field holds the complement of
    the sum taken with that field zero is all ones. *)
Lemma checksum_fills type len src dst pre post :
  0 < htons type -> are_bytes (src ++ dst ++ pre ++ [0; 0] ++ post) ->
  Nat.Even (length (src ++ dst ++ pre)) ->
  ones16 (pseudo_sum type len src dst
    (pre ++ le_bytes 2 (ip6_checksum type len src dst (pre ++ [0; 0] ++ post)) ++ post))
  = 65535.
Proof.
  intros Ht B Ev. unfold ip6_checksum. set (S0 := pseudo_sum _ _ _ _ (pre ++ [0; 0] ++ post)).
  pose proof (word_sum_range _ B) as W.
  pose proof (word_sum_range (be_bytes 2 len)
    ltac:(apply Forall_rev, are_bytes_le_bytes)) as W2.
  assert (HS : 0 < S0) by (unfold S0, pseudo_sum; lia).
  destruct (ones16_split S0 ltac:(lia)) as (k & Hk & Es & Z0).
  pose proof (ones16_range S0 ltac:(lia)) as R. set (c := 65535 - ones16 S0) in *.
  assert (E2 : le_bytes 2 c = [u8 c; u8 (c / 256)]) by done. rewrite E2.
  unfold pseudo_sum. rewrite !app_assoc, <-(app_assoc _ _ post).
  rewrite <-(app_assoc src), word_sum_zeros by done.
  replace (le_num [u8 c; u8 (c / 256)]) with c.
  - rewrite (app_assoc _ [0; 0] post), <-!app_assoc, Z.add_assoc. fold (pseudo_sum type len src dst
      (pre ++ [0; 0] ++ post)). fold S0. replace (S0 + c) with (65535 + 65535 * k) by lia.
    rewrite ones16_shift by lia. done.
  - rewrite <-E2, le_num_bytes. symmetry. apply (wrap_small 16). lia.
Qed.
