(* ===== verification/Ip6Setup.v ===== *)
(** * Headers and addresses of net/ip6.c

    [net_ip6_resolve] and [net_ip6_packet_setup] against [resolve] and
    [ip6_headers], and the addresses [net_ip6_init] derives from the MAC
    address. *)

From S2P Require Import Prelude Memory Firmware State CString Printf PrintfFacts Console Alloc.
From S2P Require Import Inet Bufpool Ip6 Ip6Facts.

(** The contents of the address variables. *)
Record addresses := Addresses {
  ll_mac_addr : list Z; ip6_ll_addr : list Z; ip6_snm_addr : list Z;
  remote_mac_addr : list Z; remote_ip6_addr : list Z }.

Section Addresses.
Context {E : Efi} {F : Firmware} {L : Layout} {K : Fuel}.

Definition away (a n : Z) : Prop := Forall (fun r => disj a n r.1 r.2) statics.

Record has_addresses (m : memory) (d : addresses) : Prop := {
  has_ll_mac : holds m a_ll_mac_addr 6 (ll_mac_addr d);
  has_ll_ip : holds m a_ip6_ll_addr 16 (ip6_ll_addr d);
  has_snm : holds m a_ip6_snm_addr 16 (ip6_snm_addr d);
  has_all_nodes : holds m a_ip6_all_nodes 16 ip6_all_nodes;
  has_remote_mac : holds m a_remote_mac_addr 6 (remote_mac_addr d);
  has_remote_ip : holds m a_remote_ip6_addr 16 (remote_ip6_addr d);
}.

Lemma away_disj a n k b : away a n -> (b, k) ∈ statics -> disj a n b k.
Proof. intros A I. unfold away in A. rewrite Forall_forall in A. apply (A _ I). Qed.

Lemma away_sub a n b k : away a n -> a <= b -> b + k <= a + n -> away b k.
Proof.
  intros A ? ?. eapply Forall_impl; [exact A|]. intros r. unfold disj. lia.
Qed.

Lemma in_statics (i : nat) r : statics !! i = Some r -> r ∈ statics.
Proof. apply list_elem_of_lookup_2. Qed.

Lemma has_addresses_agree m m' d :
  has_addresses m d -> Forall (fun r => agree m m' r.1 r.2) statics -> has_addresses m' d.
Proof.
  intros [H1 H2 H3 H4 H5 H6] A. unfold statics in A. rewrite !Forall_cons in A.
  destruct_and!. split; eapply holds_agree; eauto; lia.
Qed.

Lemma has_addresses_mapped m d :
  has_addresses m d -> Forall (fun r => mapped m r.1 r.2 /\ 0 < r.2) statics.
Proof.
  intros [H1 H2 H3 H4 H5 H6].
  assert (Hm : forall a n bs, holds m a n bs -> 0 < n -> mapped m a n /\ 0 < n)
    by (intros; split; [eapply holds_mapped; [done|lia]|done]).
  unfold statics. rewrite !Forall_cons. cbn [fst snd].
  split; [exact (Hm _ _ _ H1 eq_refl)|]. split; [exact (Hm _ _ _ H2 eq_refl)|].
  split; [exact (Hm _ _ _ H5 eq_refl)|]. split; [exact (Hm _ _ _ H6 eq_refl)|].
  split; [exact (Hm _ _ _ H3 eq_refl)|]. split; [exact (Hm _ _ _ H4 eq_refl)|].
  apply Forall_nil_2.
Qed.

(** Changes away from the statics keep the addresses. *)
Lemma has_addresses_outside m m' d a n :
  has_addresses m d -> (forall x, ~ (a <= x < a + n) -> m' !! x = m !! x) -> away a n ->
  has_addresses m' d.
Proof.
  intros H O A. eapply has_addresses_agree; [exact H|].
  eapply Forall_impl; [exact A|]. intros r D x Hx. apply O. unfold disj in D. lia.
Qed.

(** Unused storage is away from the statics. *)
Lemma unmapped_away m d a n : has_addresses m d -> unmapped m a n -> 0 < n -> away a n.
Proof.
  intros H U Hn. eapply Forall_impl; [eapply has_addresses_mapped, H|].
  intros r [Mp Hr]. apply disj_sym. by eapply mapped_unmapped_disj.
Qed.

Lemma le_bytes_1 b : is_byte b -> le_bytes 1 b = [b].
Proof. intros B. cbn [le_bytes]. by rewrite u8_byte. Qed.

(** One byte copied into a buffer being filled. *)
Lemma fill_byte {A} (k : Z -> M A) n m p bs s q src b :
  m !! src = Some b -> is_byte b -> ~ (p <= src < p + n) ->
  q = p + zlen bs -> mapped m p n -> zlen bs + 1 <= n ->
  (b ← load8 src; _ ← store8 q b; k b) (set_mem (write_bytes m p bs) s)
  = k b (set_mem (write_bytes m p (bs ++ [b])) s).
Proof.
  intros Hb B D Hq Mp Hn. erewrite bind_ret.
  2:{ apply load8_read. cbn [mem set_mem]. rewrite lookup_write_out; [exact Hb|]. lia. }
  erewrite bind_ret by (eapply fill_store; [done|exact Mp|lia]). by rewrite le_bytes_1.
Qed.

End Addresses.

(** Lengths of concatenations of blocks of known length. *)
Ltac lens :=
  unfold ETH_ALEN;
  rewrite ?length_insert, ?length_app, ?length_rev, ?length_le_bytes, ?length_take,
    ?length_drop, ?length_replicate; cbn [length]; lia.

(** Positions of header fields. *)
Ltac fields :=
  unfold eth_h_dest, eth_h_source, eth_h_protocol, packet_ip6, packet_data, ip6_ver_tc_flow,
    ip6_length, ip6_next_header, ip6_hop_limit, ip6_src, ip6_dst; lens.

Section Setup.
Context {E : Efi} {F : Firmware} {L : Layout} {K : Fuel}.

Lemma net_ip6_multicast_ret s mac ip bs :
  holds (mem s) ip 16 bs -> mapped (mem s) mac 6 -> disj mac 6 ip 16 ->
  net_ip6_multicast_from_ip6 mac ip s
  = Ret tt (set_mem (write_bytes (mem s) mac (multicast_mac bs)) s).
Proof.
  intros [R B] Mp D. pose proof (read_bytes_length _ _ _ _ R) as Hl.
  assert (Rd : forall i b, bs !! Z.to_nat i = Some b -> 0 <= i -> mem s !! (ip + i) = Some b).
  { intros i b Hb Hi. eapply read_bytes_byte; [exact R|lia|].
    by replace (ip + i - ip) with i by lia. }
  do 16 (destruct bs as [|? bs]; [done|]). destruct bs; [|done]. clear R Hl.
  rewrite !Forall_cons in B. destruct_and!. unfold disj in D.
  unfold net_ip6_multicast_from_ip6.
  rewrite <-(set_mem_same s) at 1. change (mem s) with (write_bytes (mem s) mac []) at 1.
  erewrite bind_ret by (eapply fill_store; [cbn; lia|exact Mp|cbn; lia]).
  erewrite bind_ret by (eapply fill_store; [cbn; lia|exact Mp|cbn; lia]).
  assert (Go : forall A i b (k : Z -> M A) bs s0 q,
    mem s !! (ip + i) = Some b -> is_byte b -> 0 <= i < 16 -> q = mac + zlen bs ->
    zlen bs + 1 <= 6 ->
    (b ← load8 (ip + i); _ ← store8 q b; k b) (set_mem (write_bytes (mem s) mac bs) s0)
    = k b (set_mem (write_bytes (mem s) mac (bs ++ [b])) s0)).
  { intros. eapply fill_byte; eauto. lia. }
  erewrite (Go _ 12); [|apply Rd; [reflexivity|lia]|done|lia|cbn; lia|cbn; lia].
  erewrite (Go _ 13); [|apply Rd; [reflexivity|lia]|done|lia|cbn; lia|cbn; lia].
  erewrite (Go _ 14); [|apply Rd; [reflexivity|lia]|done|lia|cbn; lia|cbn; lia].
  erewrite bind_ret.
  2:{ apply load8_read. cbn [mem set_mem]. rewrite lookup_write_out;
      [apply (Rd 15); [done|lia]|cbn; lia]. }
  erewrite fill_store; [|cbn; lia|exact Mp|cbn; lia]. by rewrite !le_bytes_1 by done.
Qed.

Lemma net_ip6_resolve_ret s mac ip bs d :
  holds (mem s) ip 16 bs -> has_addresses (mem s) d -> mapped (mem s) mac 6 ->
  disj mac 6 ip 16 -> disj mac 6 a_remote_mac_addr 6 ->
  net_ip6_resolve mac ip s
  = match resolve (remote_mac_addr d) (remote_ip6_addr d) bs with
    | Some dmac => Ret EFI_SUCCESS (set_mem (write_bytes (mem s) mac dmac) s)
    | None => Ret EFI_NOT_FOUND s
    end.
Proof.
  intros Hip Hd Mp D1 D2. unfold net_ip6_resolve, resolve.
  pose proof (holds_length _ _ _ _ Hip ltac:(lia)) as Hl. destruct Hip as [R B].
  pose proof (conj R B : holds (mem s) ip 16 bs) as Hip.
  destruct bs as [|b bs']; [done|]. set (bs := b :: bs') in *.
  assert (Hb : mem s !! ip = Some b).
  { eapply read_bytes_byte; [exact R|lia|]. by replace (ip - ip) with 0 by lia. }
  run_step (load8_read _ _ _ Hb). cbn [head bs].
  destruct (Z.eqb_spec b 0xFF) as [->|Hn].
  - rewrite bool_decide_eq_true_2 by done.
    by rewrite (bind_ret _ _ _ _ _ (net_ip6_multicast_ret _ _ _ _ Hip Mp D1)).
  - rewrite bool_decide_eq_false_2 by congruence.
    destruct (has_remote_ip _ _ Hd) as [Rr Br].
    run_step (memcmp_ret _ _ _ _ _ _ R Rr).
    pose proof (read_bytes_length _ _ _ _ Rr).
    pose proof (bytes_cmp_zero bs (remote_ip6_addr d) ltac:(lia)) as Hc.
    destruct (Z.eqb_spec (bytes_cmp bs (remote_ip6_addr d)) 0).
    + rewrite bool_decide_eq_true_2 by tauto. destruct (has_remote_mac _ _ Hd) as [Rm Bm].
      erewrite bind_ret by (eapply memcpy_ret; [lia|exact Rm|done|done|done]). done.
    + rewrite bool_decide_eq_false_2 by tauto. done.
Qed.

Lemma resolve_bytes m d ip dmac :
  has_addresses m d -> length ip = 16%nat -> are_bytes ip ->
  resolve (remote_mac_addr d) (remote_ip6_addr d) ip = Some dmac ->
  zlen dmac = 6 /\ are_bytes dmac.
Proof.
  intros Hd Hl B. unfold resolve. repeat case_bool_decide; intros [= <-].
  - unfold multicast_mac. rewrite length_app, length_take, length_drop, Hl. split; [done|].
    repeat constructor; try lia. by apply Forall_take, Forall_drop.
  - split; [|apply (has_remote_mac _ _ Hd)].
    exact (holds_length _ _ _ _ (has_remote_mac _ _ Hd) ltac:(lia)).
Qed.

Lemma ip6_headers_length dmac smac len type src dst :
  zlen dmac = 6 -> zlen smac = 6 -> zlen src = 16 -> zlen dst = 16 ->
  zlen (ip6_headers dmac smac len type src dst) = 54.
Proof.
  intros. unfold ip6_headers, be_bytes.
  rewrite !length_app, !length_rev, !length_le_bytes. cbn [length]. lia.
Qed.

Lemma ip6_headers_bytes dmac smac len type src dst :
  are_bytes dmac -> are_bytes smac -> are_bytes src -> are_bytes dst ->
  are_bytes (ip6_headers dmac smac len type src dst).
Proof.
  intros. unfold ip6_headers. repeat (apply Forall_app_2; [by auto using Forall_rev with bytes|]).
  repeat (apply Forall_app_2 || apply Forall_cons_2 || apply Forall_nil_2);
    auto using Forall_rev with bytes; unfold is_byte; try lia.
Qed.

(** The frame starts with the Ethernet and IPv6 headers of [ip6_headers], and
    nothing else changes; an address that does not resolve changes nothing. *)
Lemma net_ip6_packet_setup_ret {LL : LayoutLaws L} {EL : EfiLaws E} s d p n addr ip len type :
  has_addresses (mem s) d -> holds (mem s) addr 16 ip ->
  mapped (mem s) p n -> 54 <= n -> disj p n addr 16 -> away p n ->
  net_ip6_packet_setup p addr len type s
  = match resolve (remote_mac_addr d) (remote_ip6_addr d) ip with
    | Some dmac =>
        Ret EFI_SUCCESS (set_mem (write_bytes (mem s) p
          (ip6_headers dmac (ll_mac_addr d) len type (ip6_ll_addr d) ip)) s)
    | None => Ret EFI_NOT_FOUND s
    end.
Proof.
  intros Hd Hip Mp Hn Dp Aw.
  pose proof (holds_mapped _ _ _ _ Hip ltac:(lia)) as Mip.
  set (a := stack_addr (mem s) 6).
  destruct (stack_fresh (mem s) 6 ltac:(lia)) as (_ & U). fold a in U.
  assert (Da : forall b k, mapped (mem s) b k -> 0 < k -> disj a 6 b k).
  { intros b k Mb Hk. apply disj_sym. eapply mapped_unmapped_disj; eauto. lia. }
  set (s1 := set_mem (write_bytes (mem s) a (bytes_at stack_junk 6)) s).
  assert (Lj : zlen (bytes_at stack_junk 6) = 6) by (apply length_bytes_at; lia).
  pose proof (has_remote_mac _ _ Hd) as Hrm. pose proof (holds_mapped _ _ _ _ Hrm ltac:(lia)) as Mrm.
  assert (Hip1 : holds (mem s1) addr 16 ip) 
    by (apply holds_write; [done|lia|]; rewrite Lj; by apply Da).
  assert (Hd1 : forall cs, zlen cs = 6 -> has_addresses (write_bytes (mem s) a cs) d).
  { intros cs Hcs. eapply has_addresses_outside; [exact Hd| |eapply unmapped_away; eauto; lia].
    intros x Hx. apply lookup_write_out. by rewrite Hcs. }
  pose proof (net_ip6_resolve_ret s1 a addr ip d Hip1 (Hd1 _ Lj)) as Hr.
  specialize (Hr ltac:(rewrite <-Lj; apply mapped_write_self) (Da _ _ Mip eq_refl)
    (Da _ _ Mrm eq_refl)).
  pose proof efi_success_zero as Ez.
  assert (Nf : EFI_NOT_FOUND <> 0).
  { pose proof efi_error_codes as Fc. rewrite !Forall_cons in Fc. tauto. }
  destruct (resolve _ _ ip) as [dmac|] eqn:Rs.
  2:{ transitivity (Ret EFI_NOT_FOUND (set_mem (mem s) s)); [|by rewrite set_mem_same].
      apply (with_local_ret 6 _ s EFI_NOT_FOUND s (mem s) (bytes_at stack_junk 6));
        [lia|done|done|].
      fold a s1. rewrite (bind_ret _ _ _ _ _ Hr).
      rewrite (proj2 (Z.eqb_neq _ 0) Nf). done. }
  pose proof (holds_length _ _ _ _ Hip ltac:(lia)) as Hl.
  destruct (resolve_bytes _ _ ip _ Hd ltac:(lia) ltac:(apply Hip) Rs) as [Hdm Bdm].
  pose proof (holds_length _ _ _ _ (has_ll_mac _ _ Hd) ltac:(lia)) as Hl1.
  pose proof (holds_length _ _ _ _ (has_ll_ip _ _ Hd) ltac:(lia)) as Hl2.
  set (hdr := ip6_headers _ _ _ _ _ _).
  assert (Hh : zlen hdr = 54) by (apply ip6_headers_length; done).
  apply (with_local_ret 6 _ s EFI_SUCCESS s (write_bytes (mem s) p hdr) dmac); [lia| |done|].
  { apply dom_write_mapped. eapply mapped_sub; [exact Mp|lia|lia]. }
  fold a s1. run_step Hr. rewrite Ez. cbn [Z.eqb negb].
  change (mem s1) with (write_bytes (mem s) a (bytes_at stack_junk 6)).
  rewrite write_bytes_twice by lia. unfold s1. rewrite set_mem_twice.
  assert (Dap : disj a 6 p n) by (apply Da; [done|lia]).
  rewrite (write_comm (mem s) p) by (rewrite Hh, Hdm; unfold disj in *; lia).
  specialize (Hd1 dmac Hdm). rewrite <-Hdm in Dap.
  pose proof (mapped_write _ a dmac _ _ Mp) as Mp1.
  pose proof (mapped_write_self (mem s) a dmac) as Ma.
  assert (Hip' : holds (write_bytes (mem s) a dmac) addr 16 ip)
    by (apply holds_write; [done|lia|]; rewrite Hdm; by apply Da).
  assert (Rdm : read_bytes (write_bytes (mem s) a dmac) a (Z.to_nat 6) = Some dmac)
    by (rewrite <-Hdm, Nat2Z.id; apply read_write_same).
  generalize dependent (write_bytes (mem s) a dmac). intros m1 Hd1 Mp1 Ma Hip' Rdm.
  change (set_mem m1 s) with (set_mem (write_bytes m1 p []) s).
  destruct (has_ll_mac _ _ Hd1) as [R1 B1]. destruct (has_ll_ip _ _ Hd1) as [R2 B2].
  destruct Hip' as [R3 B3].
  assert (Da' : disj p n a 6) by (apply disj_sym; by rewrite <-Hdm).
  assert (Ds : forall b k, (b, k) ∈ statics -> disj p n b k) by (intros; by eapply away_disj).
  erewrite bind_ret by (apply (fill_memcpy a ETH_ALEN dmac n); 
    [fields|done|lens|done|done|done|done]).
  erewrite bind_ret by (apply (fill_memcpy a_ll_mac_addr ETH_ALEN (ll_mac_addr d) n);
    [fields|done|lens|done|done|done|by apply Ds, (in_statics 0)]).
  do 5 (erewrite bind_ret by (apply (fill_store _ _ n); [fields|done|lens])).
  erewrite bind_ret by (apply (fill_memcpy a_ip6_ll_addr 16 (ip6_ll_addr d) n);
    [fields|done|lens|done|done|done|by apply Ds, (in_statics 1)]).
  erewrite bind_ret by (apply (fill_memcpy addr 16 ip n); [fields|done|lens|done|done|done|done]).
  unfold mret, M_ret. do 3 f_equal. unfold hdr, ip6_headers.
  rewrite !le_bytes_htons by (try apply (wrap_range 16); unfold ETH_IP6; lia).
  rewrite <-!app_assoc. done.
Qed.


(** ** Addresses derived from the MAC address *)

Lemma lxor_byte b : is_byte b -> is_byte (Z.lxor b 2).
Proof.
  unfold is_byte. intros Hb. split; [apply Z.lxor_nonneg; lia|].
  destruct (Z.eq_dec (Z.lxor b 2) 0) as [->|]; [lia|].
  apply (Z.log2_lt_pow2 _ 8); [pose proof (Z.lxor_nonneg b 2); lia|].
  pose proof (Z.log2_lxor b 2 ltac:(lia) ltac:(lia)).
  assert (Z.log2 b < 8) by (destruct (Z.eq_dec b 0) as [->|];
    [done|apply Z.log2_lt_pow2; lia]).
  change (Z.log2 2) with 1 in *. lia.
Qed.

(** One byte of [mac] copied into the object at [p]. *)
Lemma copy_last (f : Z -> Z) m p bs s q o src b :
  m !! src = Some b -> ~ (p <= src < p + zlen bs) -> q = p + o -> 0 <= o < zlen bs ->
  is_byte (f b) ->
  (b ← load8 src; store8 q (f b)) (set_mem (write_bytes m p bs) s)
  = Ret tt (set_mem (write_bytes m p (<[Z.to_nat o := f b]> bs)) s).
Proof.
  intros Hb D Hq Ho B. erewrite bind_ret.
  2:{ apply load8_read. cbn [mem set_mem]. rewrite lookup_write_out; [exact Hb|done]. }
  rewrite (store_inside o) by done. by rewrite u8_byte.
Qed.

Lemma copy_inside {A} (f : Z -> Z) (k : M A) m p bs s q o src b :
  m !! src = Some b -> ~ (p <= src < p + zlen bs) -> q = p + o -> 0 <= o < zlen bs ->
  is_byte (f b) ->
  (b ← load8 src; _ ← store8 q (f b); k) (set_mem (write_bytes m p bs) s)
  = k (set_mem (write_bytes m p (<[Z.to_nat o := f b]> bs)) s).
Proof.
  intros. rewrite <-(bind_ret (b ← load8 src; store8 q (f b)) (fun _ => k)
    (set_mem (write_bytes m p bs) s) tt) by (by apply copy_last).
  by rewrite bind_assoc.
Qed.

Lemma net_ip6_snm_addr_ret s ip mac old ms :
  holds (mem s) ip 16 old -> holds (mem s) mac 6 ms -> disj ip 16 mac 6 ->
  net_ip6_snm_addr_from_mac ip mac s
  = Ret tt (set_mem (write_bytes (mem s) ip (solicited_node_bytes ms)) s).
Proof.
  intros Ho Hm D. pose proof (holds_length _ _ _ _ Ho ltac:(lia)) as L1.
  pose proof (holds_length _ _ _ _ Hm ltac:(lia)) as L2.
  pose proof (fun i b => holds_byte _ _ _ _ i b Hm) as Rd.
  rewrite <-(set_mem_same s) at 1. rewrite <-(holds_same _ _ _ _ Ho) by lia.
  do 6 (destruct ms as [|? ms]; [done|]). destruct ms; [|cbn [length] in L2; lia].
  do 16 (destruct old as [|? old]; [done|]). destruct old; [|cbn [length] in L1; lia].
  destruct Hm as [_ B2]. rewrite !Forall_cons in B2. destruct_and!. clear Ho.
  pose proof (Rd 3 _ eq_refl ltac:(lia)) as R3. pose proof (Rd 4 _ eq_refl ltac:(lia)) as R4.
  pose proof (Rd 5 _ eq_refl ltac:(lia)) as R5. unfold disj in D. unfold net_ip6_snm_addr_from_mac.
  erewrite bind_ret by (apply (memset_inside 2); lens).
  erewrite bind_ret by (apply (store_inside 0); lens).
  erewrite bind_ret by (apply (store_inside 1); lens).
  erewrite bind_ret by (apply (store_inside 11); lens).
  erewrite bind_ret by (apply (store_inside 12); lens).
  rewrite (copy_inside id _ _ _ _ _ _ 13 _ _ R3) by (done || lens).
  rewrite (copy_inside id _ _ _ _ _ _ 14 _ _ R4) by (done || lens).
  rewrite (copy_last id _ _ _ _ _ 15 _ _ R5) by (done || lens).
  rewrite write_bytes_twice by done. reflexivity.
Qed.

(** The link-local address; the six bytes 32 bytes further are cleared too. *)
Lemma net_ip6_ll_addr_ret s ip mac old ms :
  holds (mem s) ip 16 old -> holds (mem s) mac 6 ms -> disj ip 38 mac 6 ->
  mapped (mem s) (ip + 32) 6 ->
  net_ip6_ll_addr_from_mac ip mac s
  = Ret tt (set_mem (write_bytes (write_bytes (mem s) (ip + 32) (replicate 6 0)) ip
                       (link_local_bytes old ms)) s).
Proof.
  intros Ho Hm D Mp. pose proof (holds_length _ _ _ _ Ho ltac:(lia)) as L1.
  pose proof (holds_length _ _ _ _ Hm ltac:(lia)) as L2. unfold net_ip6_ll_addr_from_mac.
  erewrite bind_ret by (apply memset_ret; [done|exact Mp]).
  change (u8 0) with 0. change (Z.to_nat 6) with 6%nat.
  change (ip + 2 * IP6_ADDR_LEN) with (ip + 32).
  set (m1 := write_bytes (mem s) (ip + 32) (replicate 6 0)).
  assert (Ho1 : holds m1 ip 16 old) by (apply holds_write; [done|lia|unfold disj; cbn; lia]).
  assert (Hm1 : holds m1 mac 6 ms)
    by (apply holds_write; [done|lia|unfold disj in *; cbn; lia]).
  clearbody m1. rewrite <-(holds_same _ _ _ _ Ho1) at 1 by lia.
  pose proof (fun i b => holds_byte _ _ _ _ i b Hm1) as Rd.
  do 6 (destruct ms as [|? ms]; [done|]). destruct ms; [|cbn [length] in L2; lia].
  do 16 (destruct old as [|? old]; [done|]). destruct old; [|cbn [length] in L1; lia].
  destruct Hm as [_ B2]. rewrite !Forall_cons in B2. destruct_and!. clear Ho Ho1 Hm1.
  unfold disj in D.
  pose proof (Rd 0 _ eq_refl ltac:(lia)) as R0. pose proof (Rd 1 _ eq_refl ltac:(lia)) as R1.
  pose proof (Rd 2 _ eq_refl ltac:(lia)) as R2. pose proof (Rd 3 _ eq_refl ltac:(lia)) as R3.
  pose proof (Rd 4 _ eq_refl ltac:(lia)) as R4. pose proof (Rd 5 _ eq_refl ltac:(lia)) as R5.
  rewrite Z.add_0_r in R0.
  erewrite bind_ret by (apply (store_inside 0); lens).
  erewrite bind_ret by (apply (store_inside 1); lens).
  rewrite (copy_inside (fun b => Z.lxor b 2) _ _ _ _ _ _ 8 _ _ R0)
    by (by apply lxor_byte || lens).
  rewrite (copy_inside id _ _ _ _ _ _ 9 _ _ R1) by (done || lens).
  rewrite (copy_inside id _ _ _ _ _ _ 10 _ _ R2) by (done || lens).
  erewrite bind_ret by (apply (store_inside 11); lens).
  erewrite bind_ret by (apply (store_inside 12); lens).
  rewrite (copy_inside id _ _ _ _ _ _ 13 _ _ R3) by (done || lens).
  rewrite (copy_inside id _ _ _ _ _ _ 14 _ _ R4) by (done || lens).
  rewrite (copy_last id _ _ _ _ _ 15 _ _ R5) by (done || lens).
  reflexivity.
Qed.

End Setup.
