(* ===== verification/Eth.v ===== *)
(** * net/eth.c: sending a frame

    [net_eth_send], and what every sender shares: taking a buffer from the
    pool, filling it and handing it to the network card.  [net_eth_receive] is
    in Net.v, after the protocols it calls. *)

From S2P Require Import Prelude Memory Firmware State CString Printf PrintfFacts Console Alloc.
From S2P Require Import Inet Bufpool Ip6 Ip6Facts Ip6Setup.

Section Eth.
Context {E : Efi} {F : Firmware} {L : Layout} {K : Fuel}.

Definition net_eth_send (data len : Z) : M Z :=
  h ← gets (fun s => snp (ng s));
  frame ← read_block data len;
  status ← firmware (SnpTransmit h data frame);
  if EFI_ERROR status then _ ← net_bufpool_return data; mret EFI_DEVICE_ERROR
  else mret EFI_SUCCESS.

(** ** Specifications *)

(** A payload whose 16-bit field at [o] is [c]. *)
Definition seal (o : nat) (c : Z) (payload : list Z) : list Z :=
  take o payload ++ le_bytes 2 c ++ drop (o + 2) payload.

(** The frame of a packet of protocol [type] from this host [d] to [dst],
    whose checksum field is at offset [o] of the payload. *)
Definition ip6_frame (dmac : list Z) (d : addresses) (dst : list Z) (type : Z) (o : nat)
    (payload : list Z) : list Z :=
  ip6_headers dmac (ll_mac_addr d) (zlen payload) type (ip6_ll_addr d) dst
  ++ seal o (ip6_checksum type (zlen payload) (ip6_ll_addr d) dst payload) payload.

(** What [net_eth_send] returns for the answer [st] of the card, and the free
    list afterwards: a refused buffer is free again, an accepted one stays with
    the card until [net_poll] collects it. *)
Definition send_status (st : Z) : Z := if EFI_ERROR st then EFI_DEVICE_ERROR else EFI_SUCCESS.
Definition free_after (st b : Z) (l : list Z) : list Z := if EFI_ERROR st then b :: l else l.

(** Network state: a pool, the addresses, and statics that are not buffers. *)
Record net_ready (s : state) (d : addresses) (l : list Z) : Prop := {
  ready_pool : Pool s l;
  ready_addresses : has_addresses (mem s) d;
  ready_wf : wf_mem (mem s);
  ready_away : away (eth_buffer_phys (bp s)) 8192;
}.

(** At most the buffer [b], the pool's variables and the firmware changed. *)
Record buffer_step (b : Z) (s s' : state) : Prop := {
  step_outside x : ~ (b <= x < b + 2048) -> mem s' !! x = mem s !! x;
  step_dom : dom (mem s') = dom (mem s);
  step_wf : wf_mem (mem s) -> wf_mem (mem s');
  step_phys : eth_buffer_phys (bp s') = eth_buffer_phys (bp s);
  step_rest : (ng s', nb s', cpu s', pool s') = (ng s, nb s, cpu s, pool s);
}.

Lemma buffer_step_trans b s1 s2 s3 :
  buffer_step b s1 s2 -> buffer_step b s2 s3 -> buffer_step b s1 s3.
Proof.
  intros [] []. split; auto; try congruence. intros x Hx. by rewrite step_outside1, step_outside0.
Qed.

Lemma buffer_step_write b s p bs :
  mapped (mem s) p (zlen bs) -> are_bytes bs -> b <= p -> p + zlen bs <= b + 2048 ->
  buffer_step b s (set_mem (write_bytes (mem s) p bs) s).
Proof.
  intros Mp B H1 H2. split; cbn [mem set_mem bp ng nb cpu pool]; try done.
  - intros x Hx. apply lookup_write_out. lia.
  - by apply dom_write_mapped.
  - intros W. by apply wf_write.
Qed.

Lemma buffer_step_fw b s w : buffer_step b s (set_fw w s).
Proof. by split. Qed.

Lemma dom_mapped m m' a n : dom m' = dom m -> mapped m a n -> mapped m' a n.
Proof. intros D Mp x Hx. apply elem_of_dom. rewrite D. by apply elem_of_dom, Mp. Qed.

(** Steps of a buffer that is not free keep the free list. *)
Lemma buffer_step_pool b s s' l :
  buffer_step b s s' -> bp s' = bp s -> is_buffer (eth_buffer_phys (bp s)) b -> b ∉ l ->
  Pool s l -> Pool s' l.
Proof.
  intros St Hb Bb Nb I. eapply pool_frame; [exact I|done| |].
  - intros c Hc x Hx. apply (step_outside _ _ _ St).
    assert (D : disj b 2048 c 2048).
    { eapply buffer_disj; [apply I|done|by apply I|]. by intros ->. }
    unfold disj in D. lia.
  - intros a n. apply dom_mapped, St.
Qed.

Lemma buffer_step_holds b s s' a n bs :
  buffer_step b s s' -> disj b 2048 a n -> 0 <= n -> holds (mem s) a n bs ->
  holds (mem s') a n bs.
Proof.
  intros St D Hn [R B]. split; [|done]. rewrite <-R. apply read_bytes_agree.
  intros x Hx. apply (step_outside _ _ _ St). unfold disj in D. lia.
Qed.

Lemma buffer_in_region s l b :
  Pool s l -> is_buffer (eth_buffer_phys (bp s)) b ->
  away (eth_buffer_phys (bp s)) 8192 -> away b 2048.
Proof.
  intros I Bb A. destruct (is_buffer_bounds _ _ _ I Bb) as (_ & _ & _ & _ & ? & ?).
  eapply away_sub; [exact A|lia..].
Qed.

Lemma buffer_step_addresses b s s' d :
  buffer_step b s s' -> away b 2048 -> has_addresses (mem s) d -> has_addresses (mem s') d.
Proof.
  intros St A H. eapply has_addresses_outside; [exact H|apply St|done].
Qed.

(** A buffer step followed by a new free list. *)
Lemma buffer_step_ready b s s' d l l' :
  net_ready s d l -> is_buffer (eth_buffer_phys (bp s)) b -> buffer_step b s s' ->
  Pool s' l' -> net_ready s' d l'.
Proof.
  intros R Bb St P'. destruct R as [P A W Aw]. split; [done| | |].
  - eapply buffer_step_addresses; [exact St| |done]. exact (buffer_in_region _ _ _ P Bb Aw).
  - by apply (step_wf _ _ _ St).
  - by rewrite (step_phys _ _ _ St).
Qed.

(** Taking and returning a buffer. *)
Lemma take_buffer s d b l size :
  net_ready s d (b :: l) -> size <= ETH_MTU ->
  exists s', net_bufpool_get size s = Ret (b + 8) s' /\ net_ready s' d l
    /\ is_buffer (eth_buffer_phys (bp s')) b /\ (b ∉ l) /\ buffer_step b s s' /\ fw s' = fw s.
Proof.
  intros R Hs. pose proof (ready_pool _ _ _ R) as P.
  destruct (net_bufpool_get_ret s b l size P Hs) as (s' & G & P' & Bb & Nb & Es & Ph).
  destruct (is_buffer_bounds _ _ _ P Bb) as (_ & _ & _ & Mb & _ & _).
  assert (St : buffer_step b s s').
  { rewrite Es. eapply (buffer_step_trans _ _ (set_mem (store 8 (mem s) b 0) s)).
    - apply buffer_step_write; rewrite ?length_le_bytes; auto with bytes; try lia.
      eapply mapped_sub; [exact Mb|lia..].
    - split; try done. }
  exists s'. split; [done|]. split; [by eapply buffer_step_ready|].
  rewrite Ph. split; [done|]. split; [done|]. split; [done|]. by rewrite Es.
Qed.

Lemma return_buffer s d b l :
  net_ready s d l -> is_buffer (eth_buffer_phys (bp s)) b -> b ∉ l ->
  exists s', net_bufpool_return (b + 8) s = Ret tt s' /\ net_ready s' d (b :: l)
    /\ buffer_step b s s' /\ fw s' = fw s.
Proof.
  intros R Bb Nb. pose proof (ready_pool _ _ _ R) as P.
  destruct (net_bufpool_return_ret s l (b + 8) b P Bb Nb ltac:(lia)) as (s' & G & P' & Es & Ph).
  destruct (is_buffer_bounds _ _ _ P Bb) as (_ & _ & _ & Mb & _ & _).
  assert (St : buffer_step b s s').
  { rewrite Es. eapply (buffer_step_trans _ _ (set_mem (store 8 (mem s) b (eth_bufpool (bp s))) s)).
    - apply buffer_step_write; rewrite ?length_le_bytes; auto with bytes; try lia.
      eapply mapped_sub; [exact Mb|lia..].
    - split; try done. }
  exists s'. split; [done|]. split; [by eapply buffer_step_ready|]. split; [done|]. by rewrite Es.
Qed.

Lemma net_eth_send_ready s d b l frame st w :
  net_ready s d l -> is_buffer (eth_buffer_phys (bp s)) b -> b ∉ l ->
  read_bytes (mem s) (b + 8) (length frame) = Some frame ->
  SnpTransmit (snp (ng s)) (b + 8) frame (fw s) = (st, w) ->
  exists s', net_eth_send (b + 8) (zlen frame) s = Ret (send_status st) s'
    /\ net_ready s' d (free_after st b l) /\ buffer_step b s s' /\ fw s' = w.
Proof.
  intros R Bb Nb Rd T. unfold net_eth_send, send_status, free_after.
  erewrite bind_ret by done. erewrite bind_ret by (apply read_block_ret; by rewrite Nat2Z.id).
  erewrite bind_ret by (unfold firmware; by rewrite T).
  assert (R1 : net_ready (set_fw w s) d l) by (destruct R as [P A W Aw]; split; try done;
    by eapply pool_frame; eauto).
  destruct (EFI_ERROR st).
  - destruct (return_buffer (set_fw w s) d b l R1 Bb Nb) as (s' & G & R' & St & Fw).
    run_step G. exists s'. split; [done|]. split; [done|]. split; [|done].
    eapply buffer_step_trans; [apply (buffer_step_fw _ _ w)|done].
  - exists (set_fw w s). split; [done|]. split; [done|]. split; [|done]. apply buffer_step_fw.
Qed.

(** ** Checksums in a frame *)

(** [net_ip6_checksum] over a frame with the headers of [ip6_headers]. *)
Lemma frame_checksum s p dmac smac src dst type payload :
  let len := zlen payload in
  holds (mem s) p (54 + len) (ip6_headers dmac smac len type src dst ++ payload) ->
  zlen dmac = 6 -> zlen smac = 6 -> zlen src = 16 -> zlen dst = 16 ->
  wf_mem (mem s) -> mapped (mem s) p (55 + len) -> len < 65504 -> 0 <= type < 65536 ->
  net_ip6_checksum (packet_ip6 p) type len s
  = Ret (ip6_checksum type len src dst payload) s.
Proof.
  intros len Hf L1 L2 L3 L4 W Mp Hl Ht. unfold ip6_headers in Hf.
  rewrite (wrap_small 16 len) in Hf by lia.
  assert (Hlen : holds (mem s) (ip6_length (packet_ip6 p)) (zlen (be_bytes 2 len))
                   (be_bytes 2 len)).
  { eapply (holds_mid _ _ _ (dmac ++ smac ++ be_bytes 2 ETH_IP6 ++ [0x60; 0; 0; 0]));
      [rewrite <-!app_assoc in *; exact Hf|]. unfold be_bytes. fields. }
  assert (Hbody : holds (mem s) (ip6_src (packet_ip6 p)) (zlen (src ++ dst ++ payload))
                    (src ++ dst ++ payload)).
  { eapply (holds_mid _ _ _ (dmac ++ smac ++ be_bytes 2 ETH_IP6 ++ [0x60; 0; 0; 0]
      ++ be_bytes 2 len ++ [u8 type; 255]) _ []).
    - rewrite app_nil_r, <-!app_assoc in *. exact Hf.
    - unfold be_bytes. fields. }
  destruct Hlen as [R1 B1]. destruct Hbody as [R2 B2]. rewrite Nat2Z.id in R2.
  assert (Lb : zlen (src ++ dst ++ payload) = 32 + len) by (rewrite !length_app; lia).
  replace len with (zlen (src ++ dst ++ payload) - 32) at 1 by lia.
  rewrite (net_ip6_checksum_ret s (packet_ip6 p) type (be_bytes 2 len) (src ++ dst ++ payload));
    [done|exact R1|done|exact R2|done| |lia|done].
  intros _. destruct (Mp (ip6_src (packet_ip6 p) + zlen (src ++ dst ++ payload))) as [c Hc].
  { rewrite Lb. unfold ip6_src, packet_ip6. lia. }
  exists c. split; [done|]. exact (W _ _ Hc).
Qed.

Lemma seal_bytes o c bs : are_bytes bs -> are_bytes (seal o c bs).
Proof.
  intros B. unfold seal. repeat apply Forall_app_2; auto with bytes;
    [by apply Forall_take|by apply Forall_drop].
Qed.

(** The common end of the senders: checksum, seal, transmit. *)
Lemma send_sealed s d b l dmac dst type (o : nat) payload q st w :
  let hdr := ip6_headers dmac (ll_mac_addr d) (zlen payload) type (ip6_ll_addr d) dst in
  net_ready s d l -> is_buffer (eth_buffer_phys (bp s)) b -> b ∉ l ->
  zlen dmac = 6 -> are_bytes dmac -> zlen dst = 16 -> are_bytes dst -> are_bytes payload ->
  zlen payload <= 1500 -> Z.of_nat o + 2 <= zlen payload -> 0 <= type < 256 ->
  q = packet_data (b + 8) + Z.of_nat o ->
  SnpTransmit (snp (ng s)) (b + 8) (ip6_frame dmac d dst type o payload) (fw s) = (st, w) ->
  exists s',
    (c ← net_ip6_checksum (packet_ip6 (b + 8)) type (zlen payload);
     _ ← store16 q c;
     net_eth_send (b + 8) (ETH_HLEN + IP6_HEADER_LEN + zlen payload))
      (set_mem (write_bytes (mem s) (b + 8) (hdr ++ payload)) s) = Ret (send_status st) s'
    /\ net_ready s' d (free_after st b l) /\ buffer_step b s s' /\ fw s' = w.
Proof.
  intros hdr R Bb Nb L1 B1 L2 B2 Bp Hl Ho Ht -> T.
  pose proof R as [P A W Aw]. destruct (is_buffer_bounds _ _ _ P Bb) as (_ & _ & _ & Mb & _ & _).
  pose proof (holds_length _ _ _ _ (has_ll_mac _ _ A) ltac:(lia)) as L3.
  pose proof (holds_length _ _ _ _ (has_ll_ip _ _ A) ltac:(lia)) as L4.
  destruct (has_ll_mac _ _ A) as [_ B3]. destruct (has_ll_ip _ _ A) as [_ B4].
  assert (Lh : zlen hdr = 54) by (by apply ip6_headers_length).
  assert (Bh : are_bytes hdr) by (unfold hdr; by apply ip6_headers_bytes).
  set (f0 := hdr ++ payload). set (c := ip6_checksum type (zlen payload) (ip6_ll_addr d) dst payload).
  set (f1 := ip6_frame dmac d dst type o payload).
  assert (B1f : are_bytes f1) by (apply Forall_app_2; [done|by apply seal_bytes]).
  assert (Lf : zlen f0 = 54 + zlen payload) by (unfold f0; rewrite length_app; lia).
  assert (Lf1 : zlen f1 = 54 + zlen payload).
  { unfold f1, ip6_frame, seal. rewrite !length_app, length_le_bytes, length_take, length_drop.
    fold hdr. lia. }
  rewrite (bind_ret _ _ _ c (set_mem (write_bytes (mem s) (b + 8) f0) s)).
  2:{ apply (frame_checksum _ _ dmac (ll_mac_addr d)); cbn [mem set_mem]; try done; try lia.
      - apply (holds_written _ _ _ f0); [lia|]. by apply Forall_app_2.
      - apply wf_write; [done|]. by apply Forall_app_2.
      - apply mapped_write. eapply mapped_sub; [exact Mb|lia..]. }
  erewrite bind_ret.
  2:{ apply (store_n_inside 2 (54 + Z.of_nat o)); unfold packet_data; lia. }
  replace (take _ f0 ++ _) with f1.
  2:{ unfold f1, f0, ip6_frame, seal. fold hdr c.
      rewrite take_app_ge, drop_app_ge, <-!app_assoc by lia. do 3 f_equal; [f_equal; lia|].
      f_equal. f_equal. lia. }
  assert (St : buffer_step b s (set_mem (write_bytes (mem s) (b + 8) f1) s)).
  { apply buffer_step_write; [|done|lia|lia].
    eapply mapped_sub; [exact Mb|lia..]. }
  replace (ETH_HLEN + IP6_HEADER_LEN + zlen payload) with (zlen f1)
    by (unfold ETH_HLEN, IP6_HEADER_LEN; lia).
  destruct (net_eth_send_ready (set_mem (write_bytes (mem s) (b + 8) f1) s) d b l f1 st w)
    as (s' & G & R' & St' & Fw); try done.
  - eapply buffer_step_ready; [exact R|done|done|].
    eapply buffer_step_pool; [exact St|done..].
  - apply read_write_same.
  - exists s'. split; [done|]. split; [done|]. split; [|done].
    by eapply buffer_step_trans.
Qed.

(** ** Storage apart from the network state *)

Definition apart (s : state) (a n : Z) : Prop :=
  disj a n (eth_buffer_phys (bp s)) 8192 /\ away a n.

Lemma net_ready_outside s s' d l a n :
  net_ready s d l -> bp s' = bp s ->
  (forall x, ~ (a <= x < a + n) -> mem s' !! x = mem s !! x) -> wf_mem (mem s') ->
  apart s a n -> net_ready s' d l.
Proof.
  intros [P A W Aw] Hb O W' [D As]. split; [| |done|by rewrite Hb].
  - eapply pool_agree; [exact P|done|]. intros x Hx. apply O. unfold disj in D. lia.
  - by eapply has_addresses_outside.
Qed.

Lemma unmapped_apart s d l a n : net_ready s d l -> unmapped (mem s) a n -> 0 < n -> apart s a n.
Proof.
  intros R U Hn. split; [|eapply unmapped_away; [apply R|done..] ].
  apply disj_sym. eapply mapped_unmapped_disj; [apply (pool_mapped _ _ (ready_pool _ _ _ R))|done|
    lia|done].
Qed.

Lemma net_ready_write s d l a bs :
  net_ready s d l -> apart s a (zlen bs) -> are_bytes bs ->
  net_ready (set_mem (write_bytes (mem s) a bs) s) d l.
Proof.
  intros R Ap B. eapply net_ready_outside; [exact R|done| | |exact Ap]; cbn [mem set_mem].
  - intros x. apply lookup_write_out.
  - apply wf_write; [apply R|done].
Qed.

(** A block with a local, in a network that is ready before and after its
    body. *)
Lemma enter_local_ready {LL : LayoutLaws L} n s d l :
  0 < n -> net_ready s d l ->
  net_ready (enter_local n s) d l /\ apart s (stack_addr (mem s) n) n.
Proof.
  intros Hn R. destruct (stack_fresh (mem s) n ltac:(lia)) as (_ & U).
  assert (Ap : apart s (stack_addr (mem s) n) n) by by eapply unmapped_apart.
  split; [|done]. apply net_ready_write; [done| |auto with bytes].
  by rewrite length_bytes_at by lia.
Qed.

Lemma with_local_ready {A} n (k : Z -> M A) s d l r s1 :
  let a := stack_addr (mem s) n in
  0 < n -> apart s a n -> k a (enter_local n s) = Ret r s1 ->
  eth_buffer_phys (bp s1) = eth_buffer_phys (bp s) -> net_ready s1 d l ->
  exists s', with_local n k s = Ret r s' /\ net_ready s' d l
    /\ s' = set_mem (clear_bytes (mem s1) a (Z.to_nat n)) s1.
Proof.
  intros a Hn [D Aw] Hk Ph R. eexists. split; [|split; [|reflexivity] ].
  - unfold with_local. fold a. erewrite bind_ret by done. erewrite bind_ret by exact Hk. done.
  - eapply net_ready_outside; [exact R|done| | |split; [rewrite Ph; exact D|exact Aw] ];
      cbn [mem set_mem].
    + intros x Hx. rewrite lookup_clear_bytes, decide_False by lia. done.
    + apply wf_clear, R.
Qed.

(** ** The common start of the senders *)

(** A buffer has been taken in [s], which is now [s1]. *)
Record opened (s s1 : state) (d : addresses) (b : Z) (l : list Z) : Prop := {
  opened_ready : net_ready s1 d l;
  opened_buffer : is_buffer (eth_buffer_phys (bp s1)) b;
  opened_taken : b ∉ l;
  opened_step : buffer_step b s s1;
  opened_fw : fw s1 = fw s;
  opened_positive : 0 < b;
  opened_mapped : mapped (mem s1) (b + 8) 2040;
}.

Lemma open_frame {LL : LayoutLaws L} {EL : EfiLaws E} s d b l daddr dst len type :
  net_ready s d (b :: l) -> holds (mem s) daddr 16 dst -> disj b 2048 daddr 16 ->
  exists s1, net_bufpool_get ETH_MTU s = Ret (b + 8) s1 /\ opened s s1 d b l
    /\ net_ip6_packet_setup (b + 8) daddr len type s1
       = match resolve (remote_mac_addr d) (remote_ip6_addr d) dst with
         | Some dmac => Ret EFI_SUCCESS (set_mem (write_bytes (mem s1) (b + 8)
             (ip6_headers dmac (ll_mac_addr d) len type (ip6_ll_addr d) dst)) s1)
         | None => Ret EFI_NOT_FOUND s1
         end.
Proof.
  intros R Hd D.
  destruct (take_buffer s d b l ETH_MTU R ltac:(done)) as (s1 & G & R1 & Bb & Nb & St & Fw).
  destruct (is_buffer_bounds _ _ _ (ready_pool _ _ _ R1) Bb) as (B0 & _ & _ & Mb & _ & _).
  assert (Mp : mapped (mem s1) (b + 8) 2040) by (eapply mapped_sub; [exact Mb|lia..]).
  exists s1. split; [done|]. split; [by split|].
  apply (net_ip6_packet_setup_ret s1 d (b + 8) 2040); try done.
  - by apply ready_addresses with l.
  - by eapply buffer_step_holds.
  - unfold disj in *. lia.
  - eapply away_sub; [exact (buffer_in_region _ _ _ (ready_pool _ _ _ R1) Bb
      (ready_away _ _ _ R1))|lia..].
Qed.

Lemma headers_length m d dmac dst len type :
  has_addresses m d -> zlen dmac = 6 -> zlen dst = 16 ->
  zlen (ip6_headers dmac (ll_mac_addr d) len type (ip6_ll_addr d) dst) = 54.
Proof.
  intros A L1 L2. apply ip6_headers_length; try done.
  - apply (holds_length _ _ _ _ (has_ll_mac _ _ A)). lia.
  - apply (holds_length _ _ _ _ (has_ll_ip _ _ A)). lia.
Qed.

Lemma no_buffer s d : net_ready s d [] -> net_bufpool_get ETH_MTU s = Ret 0 s.
Proof.
  intros R. pose proof (pool_list _ _ (ready_pool _ _ _ R)) as Hp. simpl in Hp.
  unfold net_bufpool_get. rewrite Z.ltb_irrefl. erewrite bind_ret by done. by rewrite Hp.
Qed.

Lemma not_found_nonzero {EL : EfiLaws E} : EFI_NOT_FOUND <> 0.
Proof. pose proof efi_error_codes as Fc. rewrite !Forall_cons in Fc. tauto. Qed.

Lemma step_ng b s s' : buffer_step b s s' -> ng s' = ng s.
Proof. intros [_ _ _ _ Er]. by injection Er. Qed.

(** Where a failing sender ends: message, buffer back to the pool. *)
Lemma abandon_buffer {A} s d b l msg (k : M A) :
  net_ready s d l -> is_buffer (eth_buffer_phys (bp s)) b -> b ∉ l ->
  fmt_safe (length msg) msg [] = true ->
  exists s', (_ ← efi_printf msg []; _ ← net_bufpool_return (b + 8); k) s = k s'
    /\ net_ready s' d (b :: l) /\ buffer_step b s s'.
Proof.
  intros R Bb Nb Hm.
  destruct (efi_printf_bind msg [] [] (fun _ => _ ← net_bufpool_return (b + 8); k) s Hm)
    as (r & w & Pr); [constructor|].
  assert (R1 : net_ready (set_fw w s) d l) by (destruct R as [P A' W Aw]; split; try done;
    by eapply pool_frame; eauto).
  destruct (return_buffer (set_fw w s) d b l R1 Bb Nb) as (s' & G & R' & St & Fw).
  exists s'. split; [|split; [done|]].
  - rewrite Pr. by run_step G.
  - eapply buffer_step_trans; [apply (buffer_step_fw _ _ w)|done].
Qed.

End Eth.
