(* ===== verification/Icmp6.v ===== *)
(** * net/icmp6.c: echo replies and neighbor advertisements *)

From S2P Require Import Prelude Memory Firmware State CString Printf PrintfFacts Console Alloc.
From S2P Require Import Inet Bufpool Ip6 Ip6Facts Ip6Setup Eth.

Definition ICMP6_TYPE_ECHO_REQUEST : Z := 128.
Definition ICMP6_TYPE_ECHO_REPLY : Z := 129.
Definition ICMP6_TYPE_NEIGHBOR_SOLICITATION : Z := 135.
Definition ICMP6_TYPE_NEIGHBOR_ADVERTISEMENT : Z := 136.
Definition ICMP6_FLAG_OVERRIDE : Z := 0x20.
Definition ICMP6_FLAG_SOLICITED : Z := 0x40.
Definition ICMP6_OPT_TYPE_TARGET_LL_ADDR : Z := 2.
Definition ICMP6_MAX_LENGTH : Z := ETH_MTU - ETH_HLEN - IP6_HEADER_LEN.

(** struct icmp6_header and icmp6_ndp; the reply of a solicitation has eight
    bytes of options after the header. *)
Definition icmp_type (p : Z) : Z := p.
Definition icmp_code (p : Z) : Z := p + 1.
Definition icmp_checksum (p : Z) : Z := p + 2.
Definition ndp_flags (p : Z) : Z := p + 4.
Definition ndp_target (p : Z) : Z := p + 8.
Definition ndp_options (p : Z) : Z := p + 24.
Definition sizeof_reply : Z := 32.

Section Icmp6.
Context {E : Efi} {F : Firmware} {L : Layout} {K : Fuel}.

Definition net_icmp6_send (data length daddr : Z) : M Z :=
  p ← net_bufpool_get ETH_MTU;
  if p =? 0 then mret EFI_ABORTED
  else
    let icmp := packet_data p in
    let fail := _ ← net_bufpool_return p; mret EFI_ABORTED in
    if ICMP6_MAX_LENGTH <? length then
      _ ← efi_printf (str "Internal error: ICMP write request is too long" ++ newline) [];
      fail
    else
      r ← net_ip6_packet_setup p daddr length IPPROTO_ICMP6;
      if negb (r =? 0) then
        _ ← efi_printf (str "Error: ip6_setup failed!" ++ newline) []; fail
      else
        _ ← memcpy icmp data length;
        c ← net_ip6_checksum (packet_ip6 p) IPPROTO_ICMP6 length;
        _ ← store16 (icmp_checksum icmp) c;
        net_eth_send p (ETH_HLEN + IP6_HEADER_LEN + length).

(** The reply to a neighbor solicitation, built on the stack. *)
Definition icmp6_advertise (daddr : Z) : M unit :=
  with_local sizeof_reply (fun reply =>
    _ ← store8 (icmp_type reply) ICMP6_TYPE_NEIGHBOR_ADVERTISEMENT;
    _ ← store8 (icmp_code reply) 0;
    _ ← store16 (icmp_checksum reply) 0;
    _ ← store32 (ndp_flags reply) (Z.lor ICMP6_FLAG_SOLICITED ICMP6_FLAG_OVERRIDE);
    _ ← memcpy (ndp_target reply) a_ip6_ll_addr IP6_ADDR_LEN;
    _ ← store8 (ndp_options reply) ICMP6_OPT_TYPE_TARGET_LL_ADDR;
    _ ← store8 (ndp_options reply + 1) 1;
    _ ← memcpy (ndp_options reply + 2) a_ll_mac_addr ETH_ALEN;
    _ ← net_icmp6_send reply sizeof_reply daddr;
    skip).

Definition net_icmp6_receive (ip data len : Z) : M unit :=
  type ← load8 (icmp_type data);
  if type =? ICMP6_TYPE_ECHO_REQUEST then
    _ ← store16 (icmp_checksum data) 0;
    _ ← store8 (icmp_type data) ICMP6_TYPE_ECHO_REPLY;
    _ ← net_icmp6_send data len (ip6_src ip);
    skip
  else if type =? ICMP6_TYPE_NEIGHBOR_SOLICITATION then
    if len <? 24 then skip
    else
      code ← load8 (icmp_code data);
      if negb (code =? 0) then skip
      else
        hops ← load8 (ip6_hop_limit ip);
        if negb (hops =? 255) then skip
        else
          c ← memcmp (ndp_target data) a_ip6_ll_addr 16;
          if negb (c =? 0) then skip else icmp6_advertise (ip6_src ip)
  else skip.

(** ** Sending *)

Lemma net_icmp6_send_ready {LL : LayoutLaws L} {EL : EfiLaws E} s d b l data payload daddr dst
    dmac st w :
  net_ready s d (b :: l) -> holds (mem s) data (zlen payload) payload ->
  holds (mem s) daddr 16 dst -> disj b 2048 data (zlen payload) -> disj b 2048 daddr 16 ->
  4 <= zlen payload <= ICMP6_MAX_LENGTH ->
  resolve (remote_mac_addr d) (remote_ip6_addr d) dst = Some dmac ->
  SnpTransmit (snp (ng s)) (b + 8) (ip6_frame dmac d dst IPPROTO_ICMP6 2 payload) (fw s)
  = (st, w) ->
  exists s', net_icmp6_send data (zlen payload) daddr s = Ret (send_status st) s'
    /\ net_ready s' d (free_after st b l) /\ buffer_step b s s' /\ fw s' = w.
Proof.
  intros R Hp Hd D1 D2 Hl Rs T. change ICMP6_MAX_LENGTH with 1460 in *.
  destruct (open_frame s d b l daddr dst (zlen payload) IPPROTO_ICMP6 R Hd D2)
    as (s1 & G & O & Su). rewrite Rs in Su. destruct O as [R1 Bb Nb St Fw B0 Mp].
  pose proof (buffer_step_holds _ _ _ _ _ _ St D1 ltac:(lia) Hp) as Hp1.
  pose proof (ready_addresses _ _ _ R1) as A1.
  pose proof (holds_length _ _ _ _ Hd ltac:(lia)) as Ld.
  destruct (resolve_bytes _ _ dst _ A1 ltac:(lia) ltac:(apply Hd) Rs) as [Lm Bm].
  pose proof (headers_length _ _ dmac dst (zlen payload) IPPROTO_ICMP6 A1 Lm Ld) as Lh.
  destruct (send_sealed s1 d b l dmac dst IPPROTO_ICMP6 2 payload
    (icmp_checksum (packet_data (b + 8))) st w) as (s' & Sd & R' & St' & Fw');
    try done; try lia; try apply Hd; try apply Hp.
  { by rewrite (step_ng _ _ _ St), Fw. }
  exists s'. split; [|split; [done|split; [by eapply buffer_step_trans|done] ] ].
  unfold net_icmp6_send. run_step G. rewrite (proj2 (Z.eqb_neq (b + 8) 0)) by lia.
  change ICMP6_MAX_LENGTH with 1460. rewrite (proj2 (Z.ltb_ge 1460 _)) by lia.
  run_step Su. rewrite efi_success_zero. cbn [Z.eqb negb].
  erewrite bind_ret; [exact Sd|].
  apply (fill_memcpy _ _ payload 2040); try done; try lia; try apply Hp1.
  - rewrite Lh. unfold packet_data. lia.
  - unfold disj in *; lia.
Qed.

(** Without a free buffer, with a payload over the limit or without a MAC
    address for the destination nothing is sent and the pool is as before. *)
Lemma net_icmp6_send_empty s d data len daddr :
  net_ready s d [] -> net_icmp6_send data len daddr s = Ret EFI_ABORTED s.
Proof.
  intros R. unfold net_icmp6_send. by rewrite (bind_ret _ _ _ _ _ (no_buffer _ _ R)).
Qed.

Lemma net_icmp6_send_aborts {LL : LayoutLaws L} {EL : EfiLaws E} s d b l data len daddr dst :
  net_ready s d (b :: l) -> holds (mem s) daddr 16 dst -> disj b 2048 daddr 16 ->
  ICMP6_MAX_LENGTH < len
  \/ resolve (remote_mac_addr d) (remote_ip6_addr d) dst = None ->
  exists s', net_icmp6_send data len daddr s = Ret EFI_ABORTED s'
    /\ net_ready s' d (b :: l) /\ buffer_step b s s'.
Proof.
  intros R Hd D2 Why.
  destruct (open_frame s d b l daddr dst len IPPROTO_ICMP6 R Hd D2) as (s1 & G & O & Su).
  destruct O as [R1 Bb Nb St Fw B0 Mp].
  assert (Fin : forall msg, fmt_safe (length msg) msg [] = true -> exists s',
    (_ ← efi_printf msg []; _ ← net_bufpool_return (b + 8); mret EFI_ABORTED) s1
    = Ret EFI_ABORTED s' /\ net_ready s' d (b :: l) /\ buffer_step b s s').
  { intros msg Hm. destruct (abandon_buffer s1 d b l msg (mret EFI_ABORTED) R1 Bb Nb Hm)
      as (s' & Ab & R' & St'). exists s'. split; [done|]. split; [done|].
    by eapply buffer_step_trans. }
  unfold net_icmp6_send. run_step G. rewrite (proj2 (Z.eqb_neq (b + 8) 0)) by lia.
  destruct (Z.ltb_spec ICMP6_MAX_LENGTH len) as [|Hle]; [by apply Fin|].
  destruct Why as [|Rs]; [lia|]. rewrite Rs in Su. run_step Su.
  rewrite (proj2 (Z.eqb_neq EFI_NOT_FOUND 0)) by apply not_found_nonzero. by apply Fin.
Qed.

(** ** Receiving *)

(** What the replies to the packet of [n] bytes at [data] leave alone: everything
    but the packet, the buffers, the static addresses, the pool's variables and
    the firmware. *)
Record kept (data n : Z) (s s' : state) : Prop := {
  kept_rest : (ng s', nb s', cpu s', pool s', eth_buffer_phys (bp s'))
              = (ng s, nb s, cpu s, pool s, eth_buffer_phys (bp s));
  kept_mem a k :
    mapped (mem s) a k -> apart s a k -> disj data n a k -> agree (mem s) (mem s') a k;
}.

Lemma first_buffer_apart s d b l a n :
  net_ready s d (b :: l) -> apart s a n -> disj b 2048 a n.
Proof.
  intros R [D _]. pose proof (ready_pool _ _ _ R) as P.
  destruct (is_buffer_bounds _ _ b P ltac:(apply P; set_solver)) as (_ & _ & _ & _ & ? & ?).
  unfold disj in *. lia.
Qed.

Lemma buffer_step_kept s d b l data n s' :
  net_ready s d (b :: l) -> buffer_step b s s' -> kept data n s s'.
Proof.
  intros R St. pose proof St as [Out _ _ Ph Er]. split.
  - by injection Er as -> -> -> ->; rewrite Ph.
  - intros a k Mp Ap _ x Hx. apply Out. pose proof (first_buffer_apart _ _ _ _ _ _ R Ap) as D.
    unfold disj in D. lia.
Qed.

(** A write to the packet first. *)
Lemma write_kept s data bs s' :
  kept data (zlen bs) (set_mem (write_bytes (mem s) data bs) s) s' -> kept data (zlen bs) s s'.
Proof.
  intros [Kr Km]. split; [exact Kr|]. intros a k Mp Ap D x Hx.
  rewrite (Km a k (mapped_write _ _ _ _ _ Mp) Ap D x Hx). by apply (agree_write _ _ _ _ _ D).
Qed.

(** An echo request is answered: the reply is the request with type 129 and a
    checksum of its own. *)
Lemma net_icmp6_echo {LL : LayoutLaws L} {EL : EfiLaws E} s d b l ip data src dmac code c0 c1 rest
    st w :
  let request := [ICMP6_TYPE_ECHO_REQUEST; code; c0; c1] ++ rest in
  let reply := [ICMP6_TYPE_ECHO_REPLY; code; 0; 0] ++ rest in
  net_ready s d (b :: l) -> holds (mem s) data (zlen request) request ->
  holds (mem s) (ip6_src ip) 16 src -> apart s data (zlen request) ->
  disj b 2048 (ip6_src ip) 16 -> disj data (zlen request) (ip6_src ip) 16 ->
  zlen request <= ICMP6_MAX_LENGTH ->
  resolve (remote_mac_addr d) (remote_ip6_addr d) src = Some dmac ->
  SnpTransmit (snp (ng s)) (b + 8) (ip6_frame dmac d src IPPROTO_ICMP6 2 reply) (fw s) = (st, w) ->
  exists s', net_icmp6_receive ip data (zlen request) s = Ret tt s'
    /\ net_ready s' d (free_after st b l) /\ kept data (zlen request) s s' /\ fw s' = w.
Proof.
  intros request reply R Hp Hs Ap D1 D2 Hl Rs T.
  assert (Lr : zlen reply = zlen request) by done.
  destruct Hp as [Rp Bp]. pose proof Bp as Bq. unfold request in Bq.
  rewrite Forall_app, !Forall_cons in Bq. destruct Bq as [ [_ [Bc _] ] Br].
  assert (Brep : are_bytes reply).
  { unfold reply, ICMP6_TYPE_ECHO_REPLY. rewrite Forall_app, !Forall_cons. unfold is_byte in *.
    repeat split; try done; lia. }
  assert (H0 : mem s !! icmp_type data = Some 128) by
    (eapply read_bytes_byte; [exact Rp|unfold icmp_type; lia|];
     replace (icmp_type data - data) with 0 by (unfold icmp_type; lia); done).
  assert (Ew : write_bytes (mem s) data request = mem s)
    by (apply write_read_same; by rewrite <-Rp, Nat2Z.id).
  set (s2 := set_mem (write_bytes (mem s) data reply) s).
  assert (R2 : net_ready s2 d (b :: l)) by (apply net_ready_write; [done|by rewrite Lr|done]).
  assert (Hr2 : holds (mem s2) data (zlen reply) reply) by (by apply holds_written).
  assert (Hs2 : holds (mem s2) (ip6_src ip) 16 src) by (apply holds_write; [done|lia|by rewrite Lr]).
  destruct (net_icmp6_send_ready s2 d b l data reply (ip6_src ip) src dmac st w)
    as (s' & Sd & R' & St & Fw'); try done.
  { eapply first_buffer_apart; [exact R2|exact Ap]. }
  { rewrite Lr. split; [|done]. unfold request. rewrite length_app. cbn [length]. lia. }
  exists s'. split; [|split; [done|split; [|done] ] ].
  - unfold net_icmp6_receive. run_step (load8_read _ _ _ H0).
    change (128 =? ICMP6_TYPE_ECHO_REQUEST) with true. cbv iota.
    rewrite <-(set_mem_same s), <-Ew.
    erewrite bind_ret by (apply (store_n_inside 2 2); [done|lia|unfold request; lens]).
    erewrite bind_ret by (apply (store_inside 0); [unfold icmp_type; lia|unfold request; lens]).
    change (zlen request) with (zlen reply).
    assert (Ef : <[Z.to_nat 0:=u8 ICMP6_TYPE_ECHO_REPLY]> (take (Z.to_nat 2) request
      ++ le_bytes 2 0 ++ drop (Z.to_nat 2 + 2) request) = reply) by done.
    rewrite Ef. fold s2. by run_step Sd.
  - apply (write_kept s data reply). by apply (buffer_step_kept s2 d b l).
Qed.

(** The advertisement: type 136, the solicited and override flags, this host's
    address, and the target link-layer address option. *)
Definition advertisement (d : addresses) : list Z :=
  [ICMP6_TYPE_NEIGHBOR_ADVERTISEMENT; 0; 0; 0; 0x60; 0; 0; 0]
  ++ ip6_ll_addr d ++ [ICMP6_OPT_TYPE_TARGET_LL_ADDR; 1] ++ ll_mac_addr d.

Lemma advertisement_bytes m d :
  has_addresses m d -> are_bytes (advertisement d) /\ zlen (advertisement d) = sizeof_reply.
Proof.
  intros A. destruct (has_ll_ip _ _ A) as [_ B1]. destruct (has_ll_mac _ _ A) as [_ B2].
  pose proof (holds_length _ _ _ _ (has_ll_mac _ _ A) ltac:(lia)) as L3.
  pose proof (holds_length _ _ _ _ (has_ll_ip _ _ A) ltac:(lia)) as L4.
  unfold advertisement, sizeof_reply. split; [|lens].
  repeat (apply Forall_app_2; [try done; repeat constructor; done|]). done.
Qed.

(** The statements that fill the reply. *)
Lemma fill_advertisement m s a d :
  mapped m a sizeof_reply -> has_addresses m d -> away a sizeof_reply ->
  forall A (k : M A),
  (_ ← store8 (icmp_type a) ICMP6_TYPE_NEIGHBOR_ADVERTISEMENT;
   _ ← store8 (icmp_code a) 0;
   _ ← store16 (icmp_checksum a) 0;
   _ ← store32 (ndp_flags a) (Z.lor ICMP6_FLAG_SOLICITED ICMP6_FLAG_OVERRIDE);
   _ ← memcpy (ndp_target a) a_ip6_ll_addr IP6_ADDR_LEN;
   _ ← store8 (ndp_options a) ICMP6_OPT_TYPE_TARGET_LL_ADDR;
   _ ← store8 (ndp_options a + 1) 1;
   _ ← memcpy (ndp_options a + 2) a_ll_mac_addr ETH_ALEN; k) (set_mem m s)
  = k (set_mem (write_bytes m a (advertisement d)) s).
Proof.
  intros Mp H Aw A k. unfold sizeof_reply in *.
  destruct (has_ll_mac _ _ H) as [R1 B1]. destruct (has_ll_ip _ _ H) as [R2 B2].
  pose proof (holds_length _ _ _ _ (has_ll_ip _ _ H) ltac:(lia)) as L1.
  unfold icmp_type, icmp_code, icmp_checksum, ndp_flags, ndp_target, ndp_options.
  change (set_mem m s) with (set_mem (write_bytes m a []) s).
  do 4 (erewrite bind_ret by (apply (fill_store _ _ 32); [lens|done|lens])).
  erewrite bind_ret by (apply (fill_memcpy a_ip6_ll_addr IP6_ADDR_LEN (ip6_ll_addr d) 32);
    [lens|done|unfold IP6_ADDR_LEN; lens|done|done|done|
     by eapply away_disj, (in_statics 1)]).
  do 2 (erewrite bind_ret by (apply (fill_store _ _ 32); [lens|done|lens])).
  erewrite bind_ret by (apply (fill_memcpy a_ll_mac_addr ETH_ALEN (ll_mac_addr d) 32);
    [lens|done|unfold ETH_ALEN; lens|done|done|done|by eapply away_disj, (in_statics 0)]).
  f_equal. f_equal. f_equal. unfold advertisement. rewrite <-!app_assoc. reflexivity.
Qed.

Lemma icmp6_advertise_ready {LL : LayoutLaws L} {EL : EfiLaws E} s d b l daddr src dmac st w :
  net_ready s d (b :: l) -> holds (mem s) daddr 16 src -> disj b 2048 daddr 16 ->
  resolve (remote_mac_addr d) (remote_ip6_addr d) src = Some dmac ->
  SnpTransmit (snp (ng s)) (b + 8) (ip6_frame dmac d src IPPROTO_ICMP6 2 (advertisement d)) (fw s)
  = (st, w) ->
  exists s', icmp6_advertise daddr s = Ret tt s'
    /\ net_ready s' d (free_after st b l) /\ (forall data n, kept data n s s') /\ fw s' = w.
Proof.
  intros R Hs D2 Rs T. destruct (enter_local_ready sizeof_reply s d (b :: l)) as [R0 Ap]; try done.
  set (a := stack_addr (mem s) sizeof_reply) in *. set (s0 := enter_local sizeof_reply s) in *.
  destruct (advertisement_bytes _ _ (ready_addresses _ _ _ R0)) as [Ba La].
  assert (U : unmapped (mem s) a sizeof_reply) by (by apply stack_fresh).
  assert (Dd : disj a sizeof_reply daddr 16).
  { apply disj_sym. eapply mapped_unmapped_disj; [eapply holds_mapped; [exact Hs|lia]|done|lia|done]. }
  assert (Ma : mapped (mem s0) a sizeof_reply).
  { replace sizeof_reply with (zlen (bytes_at stack_junk sizeof_reply))
      by by apply length_bytes_at. apply mapped_write_self. }
  set (s2 := set_mem (write_bytes (mem s0) a (advertisement d)) s0).
  assert (Ap0 : apart s0 a sizeof_reply) by exact Ap.
  assert (R2 : net_ready s2 d (b :: l)) by (apply net_ready_write; [done|by rewrite La|done]).
  assert (Hs2 : holds (mem s2) daddr 16 src).
  { apply (holds_write (mem s0)); [|lia|by rewrite La].
    apply (holds_write (mem s)); [done|lia|]. by rewrite length_bytes_at. }
  destruct (net_icmp6_send_ready s2 d b l a (advertisement d) daddr src dmac st w)
    as (s3 & Sd & R3 & St & Fw); try done.
  { by apply holds_written. }
  { rewrite La. by eapply first_buffer_apart. }
  { rewrite La. done. }
  pose proof (fun data n => buffer_step_kept s2 d b l data n s3 R2 St) as Kp.
  destruct (Kp 0 0) as [Kr _].
  unfold icmp6_advertise. match goal with |- context [with_local _ ?k] =>
    destruct (with_local_ready sizeof_reply k s d (free_after st b l) tt s3)
      as (s' & Lc & R' & Es); [done|exact Ap| |by injection Kr|exact R3|] end.
  - fold a s0. rewrite <-(set_mem_same s0).
    rewrite (fill_advertisement (mem s0) s0 a d);
      [|done|by eapply ready_addresses|apply Ap].
    fold s2. rewrite <-La. by run_step Sd.
  - exists s'. split; [exact Lc|]. split; [done|]. rewrite Es. split; [|done].
    intros data n. split; [exact Kr|]. intros q k Mq Aq Dq.
    assert (Dl : disj a sizeof_reply q k \/ k <= 0).
    { destruct (Z.le_gt_cases k 0); [by right|left]. apply disj_sym.
      eapply mapped_unmapped_disj; [exact Mq|exact U|lia|done]. }
    intros x Hx. destruct Dl as [Dl|]; [|lia]. cbn [mem set_mem].
    rewrite lookup_clear_bytes, decide_False by (unfold disj, sizeof_reply in *; lia).
    rewrite (kept_mem _ _ _ _ (Kp data n) q k); [|by repeat apply mapped_write|exact Aq|exact Dq|exact Hx].
    cbn [mem set_mem s2 s0 enter_local]. rewrite !lookup_write_out; [done|..];
      rewrite ?La, ?length_bytes_at by done; unfold disj in Dl; lia.
Qed.

(** A valid solicitation for this host's address is answered with an
    advertisement; every other one is dropped. *)
Lemma net_icmp6_solicited {LL : LayoutLaws L} {EL : EfiLaws E} s d b l ip data msg src dmac st w :
  net_ready s d (b :: l) -> holds (mem s) data (zlen msg) msg -> 24 <= zlen msg ->
  msg !! 0%nat = Some ICMP6_TYPE_NEIGHBOR_SOLICITATION -> msg !! 1%nat = Some 0 ->
  take 16 (drop 8 msg) = ip6_ll_addr d -> mem s !! ip6_hop_limit ip = Some 255 ->
  holds (mem s) (ip6_src ip) 16 src -> disj b 2048 (ip6_src ip) 16 ->
  resolve (remote_mac_addr d) (remote_ip6_addr d) src = Some dmac ->
  SnpTransmit (snp (ng s)) (b + 8) (ip6_frame dmac d src IPPROTO_ICMP6 2 (advertisement d)) (fw s)
  = (st, w) ->
  exists s', net_icmp6_receive ip data (zlen msg) s = Ret tt s'
    /\ net_ready s' d (free_after st b l) /\ kept data (zlen msg) s s' /\ fw s' = w.
Proof.
  intros R Hm Hl M0 M1 Mt Hh Hs D Rs T.
  destruct (icmp6_advertise_ready s d b l (ip6_src ip) src dmac st w) as (s' & A & Post); try done.
  exists s'. split; [|destruct Post as (P1 & P2 & P3); done].
  pose proof (holds_byte _ _ _ _ 0 _ Hm M0 ltac:(lia)) as B0.
  pose proof (holds_byte _ _ _ _ 1 _ Hm M1 ltac:(lia)) as B1. rewrite Z.add_0_r in B0.
  destruct Hm as [Rm Bm]. rewrite Nat2Z.id in Rm.
  destruct (has_ll_ip _ _ (ready_addresses _ _ _ R)) as [Rl _].
  unfold net_icmp6_receive, icmp_type, icmp_code. run_step (load8_read _ _ _ B0).
  change (ICMP6_TYPE_NEIGHBOR_SOLICITATION =? ICMP6_TYPE_ECHO_REQUEST) with false.
  rewrite Z.eqb_refl, (proj2 (Z.ltb_ge _ _)) by done. cbv iota.
  run_step (load8_read _ _ _ B1). change (negb (0 =? 0)) with false. cbv iota.
  run_step (load8_read _ _ _ Hh). change (negb (255 =? 255)) with false. cbv iota.
  erewrite bind_ret.
  2:{ apply memcmp_ret; [|exact Rl]. apply (read_bytes_sub _ _ _ _ 8 16 Rm). lia. }
  rewrite Mt, (proj2 (bytes_cmp_zero _ _ eq_refl) eq_refl). exact A.
Qed.

Lemma net_icmp6_other s ip data type len :
  mem s !! data = Some type -> type <> ICMP6_TYPE_ECHO_REQUEST ->
  type <> ICMP6_TYPE_NEIGHBOR_SOLICITATION -> net_icmp6_receive ip data len s = Ret tt s.
Proof.
  intros H0 N1 N2. unfold net_icmp6_receive, icmp_type. run_step (load8_read _ _ _ H0).
  by rewrite (proj2 (Z.eqb_neq _ _) N1), (proj2 (Z.eqb_neq _ _) N2).
Qed.

Lemma net_icmp6_solicitation_dropped s ip data len msg lip :
  holds (mem s) data (zlen msg) msg -> 24 <= zlen msg ->
  msg !! 0%nat = Some ICMP6_TYPE_NEIGHBOR_SOLICITATION ->
  holds (mem s) a_ip6_ll_addr 16 lip -> is_Some (mem s !! ip6_hop_limit ip) ->
  (forall hops, mem s !! ip6_hop_limit ip = Some hops ->
     len < 24 \/ msg !! 1%nat <> Some 0 \/ hops <> 255 \/ take 16 (drop 8 msg) <> lip) ->
  net_icmp6_receive ip data len s = Ret tt s.
Proof.
  intros Hm Hl M0 Hlip [hops Hh] Why. specialize (Why _ Hh).
  pose proof (holds_byte _ _ _ _ 0 _ Hm M0 ltac:(lia)) as B0. rewrite Z.add_0_r in B0.
  destruct (lookup_lt_is_Some_2 msg 1 ltac:(lia)) as [code M1].
  pose proof (holds_byte _ _ _ _ 1 _ Hm M1 ltac:(lia)) as B1.
  destruct Hm as [Rm Bm]. rewrite Nat2Z.id in Rm. destruct Hlip as [Rl _].
  pose proof (read_bytes_length _ _ _ _ Rl) as Ll.
  unfold net_icmp6_receive, icmp_type, icmp_code. run_step (load8_read _ _ _ B0).
  change (ICMP6_TYPE_NEIGHBOR_SOLICITATION =? ICMP6_TYPE_ECHO_REQUEST) with false.
  rewrite Z.eqb_refl. destruct (Z.ltb_spec len 24); [done|]. cbv iota.
  run_step (load8_read _ _ _ B1). destruct (Z.eqb_spec code 0) as [->|]; [|done].
  cbn [negb]. run_step (load8_read _ _ _ Hh). destruct (Z.eqb_spec hops 255); [|done]. cbn [negb].
  erewrite bind_ret.
  2:{ apply memcmp_ret; [|exact Rl]. apply (read_bytes_sub _ _ _ _ 8 16 Rm). lia. }
  destruct Why as [|[|[|Nt] ] ]; [lia|done|done|].
  rewrite (proj2 (Z.eqb_neq _ 0)); [done|]. intros Ez. apply Nt, bytes_cmp_zero, Ez.
  rewrite length_take, length_drop. change (Z.to_nat 16) with 16%nat in Ll. lia.
Qed.

End Icmp6.
