(* ===== verification/Udp6.v ===== *)
(** * net/udp6.c: sending a datagram

    [net_udp6_receive] is in Net.v, after the command handler it calls. *)

From S2P Require Import Prelude Memory Firmware State CString Printf PrintfFacts Console Alloc.
From S2P Require Import Inet Bufpool Ip6 Ip6Facts Ip6Setup Eth.

Definition UDP_HEADER_LEN : Z := 8.

(** udp_packet_t *)
Definition udp_src_port (p : Z) : Z := p + 54.
Definition udp_dest_port (p : Z) : Z := p + 56.
Definition udp_length (p : Z) : Z := p + 58.
Definition udp_checksum (p : Z) : Z := p + 60.
Definition udp_data (p : Z) : Z := p + 62.

Section Udp6.
Context {E : Efi} {F : Firmware} {L : Layout} {K : Fuel}.

Definition net_udp6_send (data len addr dest_port source_port : Z) : M Z :=
  let length := u64 (len + UDP_HEADER_LEN) in
  p ← net_bufpool_get ETH_MTU;
  if p =? 0 then mret EFI_ABORTED
  else
    r ← net_ip6_packet_setup p addr length IPPROTO_UDP;
    if negb (r =? 0) then
      _ ← efi_printf (str "net_ip6_packet_setup failed") [];
      _ ← net_bufpool_return p;
      mret EFI_ABORTED
    else
      _ ← store16 (udp_src_port p) (htons source_port);
      _ ← store16 (udp_dest_port p) (htons dest_port);
      _ ← store16 (udp_length p) (htons (u16 length));
      _ ← store16 (udp_checksum p) 0;
      _ ← memcpy (udp_data p) data len;
      c ← net_ip6_checksum (packet_ip6 p) IPPROTO_UDP length;
      _ ← store16 (udp_checksum p) c;
      net_eth_send p (ETH_HLEN + IP6_HEADER_LEN + length).

(** ** The datagram *)

Definition udp6_datagram (source_port dest_port : Z) (body : list Z) : list Z :=
  be_bytes 2 source_port ++ be_bytes 2 dest_port ++ be_bytes 2 (zlen body + UDP_HEADER_LEN)
  ++ [0; 0] ++ body.

Lemma udp6_datagram_length sp dp body :
  zlen (udp6_datagram sp dp body) = zlen body + UDP_HEADER_LEN.
Proof. unfold udp6_datagram, be_bytes, UDP_HEADER_LEN. lens. Qed.

Lemma udp6_datagram_bytes sp dp body : are_bytes body -> are_bytes (udp6_datagram sp dp body).
Proof.
  intros B. unfold udp6_datagram, be_bytes.
  repeat (apply Forall_app_2; [by auto using Forall_rev with bytes|]).
  by repeat constructor.
Qed.

(** The whole send: [body] goes out as one frame from the first free buffer. *)
Lemma net_udp6_send_ready {LL : LayoutLaws L} {EL : EfiLaws E} s d b l data body addr dst dmac
    dest_port source_port st w :
  let payload := udp6_datagram source_port dest_port body in
  net_ready s d (b :: l) -> holds (mem s) data (zlen body) body -> holds (mem s) addr 16 dst ->
  disj b 2048 data (zlen body) -> disj b 2048 addr 16 -> zlen body <= 1492 ->
  0 <= dest_port < 65536 -> 0 <= source_port < 65536 ->
  resolve (remote_mac_addr d) (remote_ip6_addr d) dst = Some dmac ->
  SnpTransmit (snp (ng s)) (b + 8) (ip6_frame dmac d dst IPPROTO_UDP 6 payload) (fw s) = (st, w) ->
  exists s', net_udp6_send data (zlen body) addr dest_port source_port s
             = Ret (send_status st) s'
    /\ net_ready s' d (free_after st b l) /\ buffer_step b s s' /\ fw s' = w.
Proof.
  intros payload R Hp Hd D1 D2 Hl Hdp Hsp Rs T.
  pose proof (udp6_datagram_length source_port dest_port body) as Lp. fold payload in Lp.
  unfold UDP_HEADER_LEN in Lp.
  destruct (open_frame s d b l addr dst (zlen payload) IPPROTO_UDP R Hd D2) as (s1 & G & O & Su).
  rewrite Rs in Su. destruct O as [R1 Bb Nb St Fw B0 Mp].
  pose proof (buffer_step_holds _ _ _ _ _ _ St D1 ltac:(lia) Hp) as Hp1.
  pose proof (ready_addresses _ _ _ R1) as A1.
  pose proof (holds_length _ _ _ _ Hd ltac:(lia)) as Ld.
  destruct (resolve_bytes _ _ dst _ A1 ltac:(lia) ltac:(apply Hd) Rs) as [Lm Bm].
  pose proof (headers_length _ _ dmac dst (zlen payload) IPPROTO_UDP A1 Lm Ld) as Lh.
  destruct (send_sealed s1 d b l dmac dst IPPROTO_UDP 6 payload (udp_checksum (b + 8)) st w)
    as (s' & Sd & R' & St' & Fw'); try done; try lia; try apply Hd.
  { apply udp6_datagram_bytes, Hp. }
  { unfold udp_checksum, packet_data. lia. }
  { by rewrite (step_ng _ _ _ St), Fw. }
  exists s'. split; [|split; [done|split; [by eapply buffer_step_trans|done] ] ].
  unfold net_udp6_send. run_step G. rewrite (proj2 (Z.eqb_neq (b + 8) 0)) by lia.
  assert (Eu : u64 (zlen body + UDP_HEADER_LEN) = zlen payload)
    by (unfold UDP_HEADER_LEN; rewrite wrap_small; lia).
  rewrite Eu. run_step Su. rewrite efi_success_zero. change (negb (0 =? 0)) with false. cbv iota.
  set (hdr := ip6_headers _ _ _ _ _ _) in *.
  unfold udp_src_port, udp_dest_port, udp_length, udp_checksum, udp_data.
  do 4 (erewrite bind_ret by (apply (fill_store _ _ 2040); [lens|done|lens])).
  erewrite bind_ret.
  2:{ apply (fill_memcpy _ _ body 2040); [lens|done|lens|lia|apply Hp1|apply Hp|
      unfold disj in *; lia]. }
  rewrite <-Sd. f_equal. f_equal. f_equal.
  rewrite !le_bytes_htons by (try apply (wrap_range 16); lia).
  rewrite (wrap_small 16 (zlen payload)), Lp, <-!app_assoc by lia. done.
Qed.

Lemma net_udp6_send_empty s d data len addr dp sp :
  net_ready s d [] -> net_udp6_send data len addr dp sp s = Ret EFI_ABORTED s.
Proof.
  intros R. unfold net_udp6_send. by rewrite (bind_ret _ _ _ _ _ (no_buffer _ _ R)).
Qed.

Lemma net_udp6_send_unresolved {LL : LayoutLaws L} {EL : EfiLaws E} s d b l data len addr dst dp sp :
  net_ready s d (b :: l) -> holds (mem s) addr 16 dst -> disj b 2048 addr 16 ->
  resolve (remote_mac_addr d) (remote_ip6_addr d) dst = None ->
  exists s', net_udp6_send data len addr dp sp s = Ret EFI_ABORTED s'
    /\ net_ready s' d (b :: l) /\ buffer_step b s s'.
Proof.
  intros R Hd D2 Rs.
  destruct (open_frame s d b l addr dst (u64 (len + UDP_HEADER_LEN)) IPPROTO_UDP R Hd D2)
    as (s1 & G & O & Su). rewrite Rs in Su. destruct O as [R1 Bb Nb St Fw B0 Mp].
  destruct (abandon_buffer s1 d b l (str "net_ip6_packet_setup failed") (mret EFI_ABORTED)
    R1 Bb Nb ltac:(done)) as (s' & Ab & R' & St').
  exists s'. split; [|split; [done|by eapply buffer_step_trans] ].
  unfold net_udp6_send. run_step G. rewrite (proj2 (Z.eqb_neq (b + 8) 0)) by lia.
  run_step Su. rewrite (proj2 (Z.eqb_neq EFI_NOT_FOUND 0)) by apply not_found_nonzero.
  exact Ab.
Qed.

End Udp6.
