(* ===== verification/Ucs2.v ===== *)
(** * uefi/ucs2.c: converting a path to CHAR16 *)

From S2P Require Import Prelude Memory Firmware State CString Printf PrintfFacts Console.

Section Ucs2.
Context {E : Efi} {F : Firmware} {L : Layout} {K : Fuel}.

(** The loop of [uefi_to_ucs2].  The continuation bytes are read after the index
    has moved past the character. *)
Fixpoint uefi_to_ucs2_loop (fuel : nat) (utf8 ucs2 utf8i ucs2i : Z) : M unit :=
  match fuel with
  | O => fun _ => NoFuel
  | S fuel =>
      c0 ← load8 (utf8 + utf8i);
      if c0 =? 0 then store16 (ucs2 + 2 * ucs2i) 0
      else
        let next utf8i value :=
          _ ← store16 (ucs2 + 2 * ucs2i) value;
          uefi_to_ucs2_loop fuel utf8 ucs2 utf8i (ucs2i + 1) in
        if Z.land c0 0x80 =? 0 then next (utf8i + 1) c0
        else if Z.land c0 0xE0 =? 0xC0 then
          let utf8i := utf8i + 2 in
          c1 ← load8 (utf8 + (utf8i + 1));
          next utf8i (Z.lor (Z.shiftl (Z.land c0 0x1F) 6) (Z.land c1 0x3F))
        else if Z.land c0 0xF0 =? 0xE0 then
          let utf8i := utf8i + 3 in
          c1 ← load8 (utf8 + (utf8i + 1));
          c2 ← load8 (utf8 + (utf8i + 2));
          next utf8i (Z.lor (Z.lor (Z.shiftl (Z.land c0 0xF) 12) (Z.shiftl (Z.land c1 0x3F) 6))
                        (Z.land c2 0x3F))
        else next (utf8i + 4) 0xFFFC
  end.

Definition uefi_to_ucs2 (utf8 ucs2 : Z) : M unit :=
  n ← gets (fun s => size (mem s)); uefi_to_ucs2_loop (S n) utf8 ucs2 0 0.

(** ** ASCII text *)

Definition ascii_char (b : Z) : Prop := 0 < b < 128.

Lemma ascii_wide cs : Forall ascii_char cs -> Forall wide_char cs.
Proof. intros A. eapply Forall_impl; [exact A|]. unfold ascii_char, wide_char. lia. Qed.

Lemma ascii_high_bit b : ascii_char b -> Z.land b 0x80 = 0.
Proof.
  unfold ascii_char. intros Hb. change 0x80 with (Z.shiftl 1 7).
  apply Z.bits_inj'. intros k Hk. rewrite Z.land_spec, Z.bits_0.
  destruct (Z.eq_dec k 7) as [->|].
  - replace (Z.testbit b 7) with false; [done|]. symmetry. apply Z.bits_above_log2; [lia|].
    apply Z.log2_lt_pow2; lia.
  - rewrite Z.shiftl_spec by lia. destruct (Z.ltb_spec k 7).
    + rewrite (Z.testbit_neg_r _ (k - 7)) by lia. apply andb_false_r.
    + replace (Z.testbit 1 (k - 7)) with false; [apply andb_false_r|]. symmetry.
      apply Z.bits_above_log2; [lia|]. change (Z.log2 1) with 0. lia.
Qed.

(** The ASCII characters at the start of a text. *)
Lemma uefi_to_ucs2_loop_ascii cs : forall fuel m s utf8 ucs2 i dn n,
  read_bytes m (utf8 + i) (length cs) = Some cs -> Forall ascii_char cs ->
  mapped m ucs2 n -> zlen dn + 2 * zlen cs <= n -> zlen dn mod 2 = 0 ->
  disj ucs2 n (utf8 + i) (zlen cs) ->
  uefi_to_ucs2_loop (length cs + fuel) utf8 ucs2 i (zlen dn / 2) (set_mem (write_bytes m ucs2 dn) s)
  = uefi_to_ucs2_loop fuel utf8 ucs2 (i + zlen cs) (zlen (dn ++ ucs2_bytes cs) / 2)
      (set_mem (write_bytes m ucs2 (dn ++ ucs2_bytes cs)) s).
Proof.
  induction cs as [|c cs IH]; intros fuel m s utf8 ucs2 i dn n R A Mp Hn Ev D.
  - cbn [length Nat.add ucs2_bytes map concat]. rewrite app_nil_r. by rewrite Z.add_0_r.
  - apply read_bytes_cons in R as (? & ? & [= <- <-] & R0 & R1).
    apply Forall_cons in A as [A0 A1]. cbn [length] in *. unfold ascii_char in A0.
    cbn [Nat.add uefi_to_ucs2_loop]. erewrite bind_ret.
    2:{ apply load8_read. cbn [mem set_mem].
        rewrite lookup_write_out by (unfold disj in D; lia). exact R0. }
    rewrite (proj2 (Z.eqb_neq c 0)) by lia. rewrite ascii_high_bit by done.
    change (0 =? 0) with true. cbv iota zeta.
    erewrite bind_ret by (apply (fill_store _ _ n); [dlia|done|lia]).
    replace (zlen dn / 2 + 1) with (zlen (dn ++ le_bytes 2 c) / 2)
      by (rewrite length_app; cbn [length le_bytes]; dlia).
    rewrite IH with (n := n); try done.
    + unfold ucs2_bytes. cbn [map concat]. rewrite <-!app_assoc.
      by replace (i + 1 + zlen cs) with (i + Z.of_nat (S (length cs))) by lia.
    + by rewrite Z.add_assoc.
    + rewrite length_app. cbn [length le_bytes]. lia.
    + rewrite length_app. cbn [length le_bytes]. dlia.
    + unfold disj in *. lia.
Qed.

Lemma ucs2_bytes_even dn cs : zlen dn mod 2 = 0 -> zlen (dn ++ ucs2_bytes cs) mod 2 = 0.
Proof. intros Ev. pose proof (ucs2_bytes_length cs). rewrite length_app. dlia. Qed.

(** A text of ASCII characters, from the index [i] to its end. *)
Lemma uefi_to_ucs2_loop_ret cs fuel m s utf8 ucs2 i dn n :
  c_string m (utf8 + i) cs -> Forall ascii_char cs ->
  mapped m ucs2 n -> zlen dn + 2 * zlen cs + 2 <= n -> zlen dn mod 2 = 0 ->
  disj ucs2 n (utf8 + i) (zlen cs + 1) -> (length cs < fuel)%nat ->
  uefi_to_ucs2_loop fuel utf8 ucs2 i (zlen dn / 2) (set_mem (write_bytes m ucs2 dn) s)
  = Ret tt (set_mem (write_bytes m ucs2 (dn ++ ucs2_bytes cs ++ [0; 0])) s).
Proof.
  intros (R & Z0 & N) A Mp Hn Ev D Hf. pose proof (ucs2_bytes_length cs) as Lu.
  replace fuel with (length cs + S (fuel - length cs - 1))%nat by lia.
  rewrite (uefi_to_ucs2_loop_ascii cs _ m s utf8 ucs2 i dn n); try done; try (unfold disj in *; lia).
  cbn [uefi_to_ucs2_loop]. erewrite bind_ret.
  2:{ apply load8_read. cbn [mem set_mem]. rewrite Z.add_assoc.
      rewrite lookup_write_out; [exact Z0|]. rewrite length_app. unfold disj in D. lia. }
  change (0 =? 0) with true. cbv iota. pose proof (ucs2_bytes_even dn cs Ev).
  rewrite (fill_store _ _ n); [by rewrite <-app_assoc|dlia|done|]. rewrite length_app. lia.
Qed.

(** The lead byte of a two-byte character: the bits 110. *)
Lemma two_byte_lead c0 :
  0xC0 <= c0 < 0xE0 -> c0 <> 0 /\ Z.land c0 0x80 <> 0 /\ Z.land c0 0xE0 = 0xC0.
Proof.
  intros Hc. split; [lia|].
  assert (B : Forall (fun k => Z.land (Z.of_nat k) 0x80 <> 0 /\ Z.land (Z.of_nat k) 0xE0 = 0xC0)
    (seq 0xC0 0x20)) by (apply (bool_decide_unpack _); vm_compute; exact I).
  rewrite Forall_forall in B. specialize (B (Z.to_nat c0)). rewrite Z2Nat.id in B by lia.
  apply B, elem_of_seq. lia.
Qed.

(** A two-byte character between ASCII characters: its low bits are those of the
    byte three places after its lead byte. *)
Lemma uefi_to_ucs2_two_byte s utf8 ucs2 cs c0 c1 tail :
  let n := 2 * (zlen cs + 1 + zlen tail) + 2 in
  c_string (mem s) utf8 (cs ++ [c0; c1] ++ tail) ->
  Forall ascii_char cs -> Forall ascii_char tail -> 0xC0 <= c0 < 0xE0 ->
  mapped (mem s) ucs2 n -> disj ucs2 n utf8 (zlen cs + 4 + zlen tail) ->
  uefi_to_ucs2 utf8 ucs2 s =
  match mem s !! (utf8 + (zlen cs + 3)) with
  | Some x =>
      let v := Z.lor (Z.shiftl (Z.land c0 0x1F) 6) (Z.land x 0x3F) in
      Ret tt (set_mem (write_bytes (mem s) ucs2 (ucs2_bytes (cs ++ [v] ++ tail) ++ [0; 0])) s)
  | None => Fault (utf8 + (zlen cs + 3))
  end.
Proof.
  intros n (R & Z0 & N) A At Hc Mp D. pose proof (ucs2_bytes_length cs) as Lu.
  assert (Mu : mapped (mem s) utf8 (zlen (cs ++ [c0; c1] ++ tail))) by (apply read_bytes_mapped; eauto).
  apply mapped_size in Mu. rewrite !length_app in Mu, Z0. cbn [length] in Mu, Z0.
  pose proof (read_bytes_sub _ _ _ _ 0 (length cs) R ltac:(lengths)) as R0.
  rewrite drop_0, take_app_length, Z.add_0_r in R0.
  pose proof (read_bytes_sub _ _ _ _ (length cs + 2) (length tail) R ltac:(lengths)) as R2.
  rewrite app_assoc, drop_app_length', firstn_all in R2 by lengths.
  assert (B0 : mem s !! (utf8 + zlen cs) = Some c0).
  { eapply read_bytes_byte; [exact R|lia|]. replace (Z.to_nat _) with (length cs + 0)%nat by lia.
    by rewrite lookup_app_r, Nat.add_comm, Nat.add_sub by lia. }
  unfold uefi_to_ucs2. erewrite bind_ret by done. rewrite <-(set_mem_same s) at 2.
  replace (S (size (mem s))) with (length cs + S (size (mem s) - length cs))%nat by lia.
  pose proof (uefi_to_ucs2_loop_ascii cs (S (size (mem s) - length cs)) (mem s) s utf8 ucs2 0 [] n) as P.
  cbn [length app] in P. rewrite Z.add_0_r in P.
  change (Z.of_nat 0 / 2) with 0 in P. change (write_bytes (mem s) ucs2 []) with (mem s) in P. rewrite P; try done; try (unfold disj in *; lia).
  clear P. rewrite Z.add_0_l. set (m1 := write_bytes (mem s) ucs2 (ucs2_bytes cs)).
  assert (Same : forall x, utf8 <= x < utf8 + (zlen cs + 4 + zlen tail) -> m1 !! x = mem s !! x)
    by (intros x Hx; apply lookup_write_out; unfold disj in D; lia).
  destruct (two_byte_lead c0 Hc) as (L1 & L2 & L3).
  cbn [uefi_to_ucs2_loop]. erewrite bind_ret.
  2:{ apply load8_read. cbn [mem set_mem]. rewrite Same by lia. exact B0. }
  rewrite (proj2 (Z.eqb_neq c0 0)), (proj2 (Z.eqb_neq _ _) L2), L3 by done.
  change (0xC0 =? 0xC0) with true. cbv iota zeta.
  replace (zlen cs + 2 + 1) with (zlen cs + 3) by lia.
  destruct (mem s !! (utf8 + (zlen cs + 3))) as [x|] eqn:Bx.
  - erewrite bind_ret by (apply load8_read; cbn [mem set_mem]; rewrite Same by lia; exact Bx).
    set (v := Z.lor _ _). erewrite bind_ret by (apply (fill_store _ _ n); [dlia|done|lia]).
    assert (Ln : zlen (ucs2_bytes cs ++ le_bytes 2 v) = 2 * (zlen cs + 1))
      by (rewrite length_app; cbn [length le_bytes]; lia).
    replace (zlen (ucs2_bytes cs) / 2 + 1) with (zlen (ucs2_bytes cs ++ le_bytes 2 v) / 2) by dlia.
    rewrite (uefi_to_ucs2_loop_ret tail _ _ _ _ _ _ _ n); try done; try (unfold disj in *; lia).
    + unfold ucs2_bytes. rewrite !map_app, !concat_app. cbn [map concat app].
      by rewrite <-!app_assoc.
    + split; [|split].
      * rewrite <-R2. f_equal. lia.
      * rewrite <-Z0. f_equal. lia.
      * rewrite !Forall_app in N. by destruct N as (_ & _ & ?).
    + rewrite Ln. dlia.
  - apply bind_fault. unfold load_n, load. cbn [read_bytes mem set_mem]. rewrite Same by lia.
    by rewrite Bx.
Qed.

Lemma uefi_to_ucs2_ret s utf8 ucs2 cs :
  c_string (mem s) utf8 cs -> Forall ascii_char cs ->
  mapped (mem s) ucs2 (2 * zlen cs + 2) -> disj ucs2 (2 * zlen cs + 2) utf8 (zlen cs + 1) ->
  uefi_to_ucs2 utf8 ucs2 s
  = Ret tt (set_mem (write_bytes (mem s) ucs2 (ucs2_bytes cs ++ [0; 0])) s).
Proof.
  intros C A Mp D. unfold uefi_to_ucs2. erewrite bind_ret by done.
  rewrite <-(set_mem_same s) at 2.
  apply (uefi_to_ucs2_loop_ret cs _ (mem s) s utf8 ucs2 0 [] (2 * zlen cs + 2)); try done;
    rewrite ?Z.add_0_r; try done; try (cbn [length]; lia).
  assert (mapped (mem s) utf8 (Z.of_nat (length cs))) as Mu
    by (apply read_bytes_mapped; destruct C as [R _]; eauto).
  pose proof (mapped_size _ _ _ Mu). lia.
Qed.

End Ucs2.
