(* ===== verification/Netboot.v ===== *)
(** * net/netboot.c: the netboot command protocol

    A message is a command (4 bytes), 4 bytes of padding, its length (8 bytes)
    and data.  The static [_netboot_state] is the record [nb] of the state. *)

From S2P Require Import Prelude Memory Firmware State CString Printf PrintfFacts Console Alloc.
From S2P Require Import Inet Bufpool Ip6 Ip6Facts Ip6Setup Eth Udp6 Ucs2.

(** vy_netboot_cmd_t *)
Definition CMD_ADVERTISE : Z := 0.
Definition CMD_STOP_ADVERTISING : Z := 1.
Definition CMD_SHUTDOWN : Z := 2.
Definition CMD_FWSETUP : Z := 3.
Definition CMD_REBOOT : Z := 4.
Definition CMD_FILE_SEND_INIT : Z := 5.
Definition CMD_FILE_FRAGMENT : Z := 6.
Definition CMD_ACK : Z := 7.
Definition CMD_BOOT : Z := 8.

(** vy_netboot_message_t, _file_info_t, _file_fragment_t and _ack_t *)
Definition msg_cmd (p : Z) : Z := p.
Definition msg_message_length (p : Z) : Z := p + 8.
Definition msg_data (p : Z) : Z := p + 16.
Definition sizeof_message : Z := 16.
Definition NETBOOT_MSG_LEN (x : Z) : Z := u64 (sizeof_message + x).
Definition info_file_size (p : Z) : Z := p.
Definition info_data_per_packet (p : Z) : Z := p + 8.
Definition info_path (p : Z) : Z := p + 32.
Definition fragment_id (p : Z) : Z := p.
Definition fragment_data_len (p : Z) : Z := p + 8.
Definition fragment_data (p : Z) : Z := p + 16.
Definition ack_type (p : Z) : Z := p.
Definition ack_file_fragment (p : Z) : Z := p + 8.
Definition sizeof_ack : Z := 16.

Definition global_variable_guid : efi_guid :=
  Guid 0x8be4df61 0x93ca 0x11d2 (le_num [0xaa; 0x0d; 0x00; 0xe0; 0x98; 0x03; 0x2b; 0x8c]).

Section Netboot.
Context {E : Efi} {F : Firmware} {L : Layout} {K : Fuel} {H : ImageHandle}.

(** Accesses to [_netboot_state] and to the flags of net/net.c. *)
Definition nb_update (f : vy_netboot_t -> vy_netboot_t) : M unit :=
  modify (fun s => set_nb (f (nb s)) s).
Definition set_nb_state (v : vy_netboot_state_t) : M unit :=
  nb_update (fun n => NetbootState v (file_info n) (file_buffer n)
    (file_bytes_transferred n) (file_packets_transferred n)).
Definition set_file_info (v : Z) : M unit :=
  nb_update (fun n => NetbootState (nb_state n) v (file_buffer n)
    (file_bytes_transferred n) (file_packets_transferred n)).
Definition set_file_buffer (v : Z) : M unit :=
  nb_update (fun n => NetbootState (nb_state n) (file_info n) v
    (file_bytes_transferred n) (file_packets_transferred n)).
Definition set_transferred (bytes packets : Z) : M unit :=
  nb_update (fun n => NetbootState (nb_state n) (file_info n) (file_buffer n) bytes packets).

Definition set_net_poll_continue (v : bool) : M unit :=
  modify (fun s => let g := ng s in
    set_ng (NetGlobals (mcast_filter_count g) (snp g) (net_timer g) v (net_advertised g)
      (net_stop_advertising g)) s).
Definition set_net_stop_advertising (v : bool) : M unit :=
  modify (fun s => let g := ng s in
    set_ng (NetGlobals (mcast_filter_count g) (snp g) (net_timer g) (net_poll_continue g)
      (net_advertised g) v) s).

Definition netboot_cmd_send (cmd data data_len : Z) : M unit :=
  msg ← malloc (NETBOOT_MSG_LEN data_len);
  _ ← store32 (msg_cmd msg) cmd;
  _ ← store64 (msg_message_length msg) (NETBOOT_MSG_LEN data_len);
  _ ← (if negb (data =? 0) then _ ← memcpy (msg_data msg) data data_len; skip else skip);
  empty ← net_ip6_empty a_remote_ip6_addr;
  n ← load64 (msg_message_length msg);
  _ ← net_udp6_send msg n (if negb empty then a_remote_ip6_addr else a_ip6_all_nodes)
        57778 57777;
  free msg.

(** vy_netboot_ack_t ack = {...}; netboot_cmd_send(CMD_ACK, &ack, sizeof(ack)) *)
Definition netboot_ack (type fragment : Z) : M unit :=
  with_local sizeof_ack (fun ack =>
    _ ← store32 (ack_type ack) type;
    _ ← store64 (ack_file_fragment ack) fragment;
    netboot_cmd_send CMD_ACK ack sizeof_ack).

(** A fragment of the file: the next one is appended to the buffer, an earlier
    one is acknowledged again, for a later one the expected number is. *)
Definition netboot_file_fragment (fragment : Z) : M unit :=
  info ← gets (fun s => file_info (nb s));
  per_packet ← load64 (info_data_per_packet info);
  data_len ← load64 (fragment_data_len fragment);
  id ← load64 (fragment_id fragment);
  _ ← (if per_packet <? data_len then
         _ ← efi_printf (str "unexpected fragment (%zu) data length: %zu instead of %zu"
                         ++ newline) [VWord id; VWord data_len; VWord per_packet];
         skip
       else skip);
  packets ← gets (fun s => file_packets_transferred (nb s));
  if negb (id =? packets) then netboot_ack CMD_FILE_FRAGMENT (if id <? packets then id else packets)
  else
    bytes ← gets (fun s => file_bytes_transferred (nb s));
    buffer ← gets (fun s => file_buffer (nb s));
    _ ← memcpy (buffer + bytes) (fragment_data fragment) data_len;
    data_len ← load64 (fragment_data_len fragment);
    _ ← set_transferred (u64 (bytes + data_len)) (u64 (packets + 1));
    netboot_ack CMD_FILE_FRAGMENT packets.

(** The last packet has arrived: the buffer becomes a file on the volume the
    loader was started from. *)
Definition netboot_file_finish : M unit :=
  info ← gets (fun s => file_info (nb s));
  n ← strlen (info_path info);
  ucs2_path ← malloc (u64 (Z.shiftl (n + 1) 1));
  _ ← uefi_to_ucs2 (info_path info) ucs2_path;
  '(status, loaded_image) ← firmware (HandleProtocol handle LoadedImageProtocol);
  _ ← EFIERR (str "net/netboot.c") 70 status;
  device ← gets (fun s => DeviceHandle loaded_image (fw s));
  '(status, sfs) ← firmware (HandleProtocol device SimpleFileSystemProtocol);
  _ ← EFIERR (str "net/netboot.c") 73 status;
  '(status, root) ← firmware (OpenVolume sfs);
  _ ← EFIERR (str "net/netboot.c") 76 status;
  path ← read_wstring ucs2_path;
  '(status, file) ← firmware (FileOpen root path
      (Z.lor (Z.lor EFI_FILE_MODE_CREATE EFI_FILE_MODE_READ) EFI_FILE_MODE_WRITE) 0);
  _ ← EFIERR (str "net/netboot.c") 79 status;
  file_size ← load64 (info_file_size info);
  buffer ← gets (fun s => file_buffer (nb s));
  data ← read_block buffer file_size;
  '(status, written) ← firmware (FileWrite file data);
  _ ← store64 (info_file_size info) written;
  _ ← EFIERR (str "net/netboot.c") 82 status;
  _ ← firmware (FileClose file);
  text ← read_string (info_path info);
  _ ← efi_printf (str "Transferred file %s" ++ newline) [VStr text];
  _ ← nb_update (fun n => NetbootState (nb_state n) 0 0 0 0);
  set_nb_state STATE_CMD_WAIT.

(** The first part of [netboot_cmd_receive]: a running file transfer. *)
Definition netboot_file_transfer (msg : Z) : M unit :=
  cmd ← load32 (msg_cmd msg);
  if cmd =? CMD_FILE_FRAGMENT then
    _ ← netboot_file_fragment (msg_data msg);
    bytes ← gets (fun s => file_bytes_transferred (nb s));
    info ← gets (fun s => file_info (nb s));
    file_size ← load64 (info_file_size info);
    if bytes =? file_size then netboot_file_finish else skip
  else
    _ ← efi_printf (str "unexpected command in file transfer" ++ newline) []; skip.

(** CMD_FWSETUP: request the firmware's setup screen and reset.  [var_size] is
    not initialised; the firmware takes it as the size of [var] and replaces it
    by the size of the variable, whose [value] it writes, nothing on an error. *)
Definition netboot_fwsetup : M unit :=
  _ ← set_net_poll_continue false;
  with_local 8 (fun var =>
    junk ← with_local 8 load64;
    '(status, var_size, value) ←
      firmware (GetVariable (str "OsIndicationsSupported") global_variable_guid junk);
    _ ← write_block var value;
    if EFI_ERROR status then skip
    else
      _ ← store64 var 1;
      data ← read_block var var_size;
      _ ← firmware (SetVariable (str "OsIndications") global_variable_guid 7 data);
      stop (WasReset EfiResetWarm EFI_SUCCESS)).

(** CMD_FILE_SEND_INIT: keep a copy of the file information, make room for the
    file and acknowledge. *)
Definition netboot_send_init (msg : Z) : M unit :=
  message_length ← load64 (msg_message_length msg);
  let size := u64 (message_length - sizeof_message) in
  '(st, p) ← boot_AllocatePool EfiLoaderData size;
  _ ← (if EFI_ERROR st then skip else set_file_info p);
  info ← gets (fun s => file_info (nb s));
  _ ← memcpy info (msg_data msg) size;
  _ ← set_nb_state STATE_FILE_TRANSFER;
  file_size ← load64 (info_file_size info);
  '(st, p) ← boot_AllocatePool EfiLoaderData file_size;
  _ ← (if EFI_ERROR st then skip else set_file_buffer p);
  netboot_ack CMD_FILE_SEND_INIT 0.

Definition netboot_cmd_receive (msg : Z) : M Z :=
  st ← gets (fun s => nb_state (nb s));
  _ ← (if decide (st = STATE_FILE_TRANSFER) then netboot_file_transfer msg else skip);
  cmd ← load32 (msg_cmd msg);
  _ ← (if cmd =? CMD_FWSETUP then netboot_fwsetup
       else if cmd =? CMD_STOP_ADVERTISING then set_net_stop_advertising true
       else if cmd =? CMD_SHUTDOWN then
         _ ← set_net_poll_continue false; stop (WasReset EfiResetShutdown EFI_SUCCESS)
       else if cmd =? CMD_REBOOT then
         _ ← set_net_poll_continue false; stop (WasReset EfiResetWarm EFI_SUCCESS)
       else if cmd =? CMD_FILE_SEND_INIT then netboot_send_init msg
       else if cmd =? CMD_BOOT then set_net_poll_continue false
       else skip);
  mret EFI_SUCCESS.

End Netboot.
