(* ===== verification/NetbootFacts.v ===== *)
(** * Sending netboot messages

    [netboot_cmd_send] as one datagram to the host that spoke last, or to all
    nodes, and the acknowledgements built on it. *)

From S2P Require Import Prelude Memory Firmware State CString Printf PrintfFacts Console Alloc.
From S2P Require Import Inet Bufpool Ip6 Ip6Facts Ip6Setup Eth Icmp6 Udp6 Ucs2 Netboot.

(** A message; [pad] are the four bytes of padding, which the code leaves as
    the allocation had them. *)
Definition message (cmd : Z) (pad body : list Z) : list Z :=
  le_bytes 4 cmd ++ pad ++ le_bytes 8 (sizeof_message + zlen body) ++ body.

(** The peer: the host of the last packet, or all nodes when there was none. *)
Definition peer_ip (d : addresses) : list Z :=
  if bool_decide (Forall (eq 0) (remote_ip6_addr d)) then ip6_all_nodes else remote_ip6_addr d.
Definition peer_mac (d : addresses) : list Z :=
  default [] (resolve (remote_mac_addr d) (remote_ip6_addr d) (peer_ip d)).

(** The frame that carries a message. *)
Definition message_frame (d : addresses) (cmd : Z) (pad body : list Z) : list Z :=
  ip6_frame (peer_mac d) d (peer_ip d) IPPROTO_UDP 6
    (udp6_datagram 57777 57778 (message cmd pad body)).

Section Send.
Context {E : Efi} {F : Firmware} {L : Layout} {K : Fuel} {H : ImageHandle}.

Lemma net_ip6_empty_loop_ret bs : forall s a,
  read_bytes (mem s) a (length bs) = Some bs ->
  net_ip6_empty_loop (length bs) a s = Ret (bool_decide (Forall (eq 0) bs)) s.
Proof.
  induction bs as [|b bs IH]; intros s a R; [done|].
  apply read_bytes_cons in R as (? & ? & [= <- <-] & R0 & R1). cbn [length net_ip6_empty_loop].
  run_step (load8_read _ _ _ R0). destruct (Z.eqb_spec b 0) as [->|N]; cbn [negb].
  - rewrite IH by done. f_equal. apply bool_decide_ext. rewrite Forall_cons. tauto.
  - rewrite bool_decide_eq_false_2; [done|]. rewrite Forall_cons. intros [? _]. congruence.
Qed.

Lemma net_ip6_empty_ret s a bs :
  holds (mem s) a 16 bs -> net_ip6_empty a s = Ret (bool_decide (Forall (eq 0) bs)) s.
Proof.
  intros [R B]. pose proof (read_bytes_length _ _ _ _ R) as Hl.
  unfold net_ip6_empty. change IP6_ADDR_LEN with 16. rewrite <-Hl.
  apply net_ip6_empty_loop_ret. by rewrite Hl.
Qed.

Lemma peer_resolves d :
  resolve (remote_mac_addr d) (remote_ip6_addr d) (peer_ip d) = Some (peer_mac d).
Proof.
  unfold peer_mac, peer_ip, resolve. repeat case_bool_decide; done.
Qed.

Lemma malloc_ret s n st a c w :
  AllocatePool EfiLoaderData n (mem s) (fw s) = (st, a, c, w) -> EFI_ERROR st = false ->
  malloc n s = Ret a (set_pool (<[a := n]> (pool s))
                 (set_mem (write_bytes (mem s) a (bytes_at c n)) (set_fw w s))).
Proof.
  intros A St. unfold malloc. erewrite bind_ret.
  2:{ unfold boot_AllocatePool. rewrite A, St. reflexivity. }
  cbv beta iota. by rewrite (bind_ret _ _ _ _ _ (EFIERR_ok _ _ _ _ St)).
Qed.

Lemma free_ret s a n st w :
  pool s !! a = Some n -> FreePool a (fw s) = (st, w) -> EFI_ERROR st = false ->
  free a s = Ret tt (set_pool (delete a (pool s))
               (set_mem (clear_bytes (mem s) a (Z.to_nat n)) (set_fw w s))).
Proof.
  intros P Fr St. unfold free. erewrite bind_ret.
  2:{ unfold boot_FreePool. rewrite Fr. cbn [pool set_fw]. rewrite P, St. reflexivity. }
  by rewrite EFIERR_ok.
Qed.

Lemma memcpy_inside o src k cs m p bs s q :
  q = p + o -> 0 <= o -> o + k <= zlen bs -> 0 <= k ->
  read_bytes m src (Z.to_nat k) = Some cs -> are_bytes cs -> disj p (zlen bs) src k ->
  memcpy q src k (set_mem (write_bytes m p bs) s)
  = Ret q (set_mem (write_bytes m p (take (Z.to_nat o) bs ++ cs
                                     ++ drop (Z.to_nat o + length cs) bs)) s).
Proof.
  intros -> Ho Hk K0 R B D. pose proof (read_bytes_length _ _ _ _ R) as Lc.
  rewrite (memcpy_ret _ _ _ _ cs); cbn [mem set_mem].
  - by rewrite write_within by lia.
  - done.
  - rewrite read_write_disj; [done|]. unfold disj in *. lia.
  - done.
  - eapply mapped_sub; [apply (mapped_write_self m p bs)|lia..].
  - unfold disj in *. lia.
Qed.

(** The stores that fill a message of [n] bytes. *)
Lemma fill_message m s a J cmd data body :
  let n := sizeof_message + zlen body in
  zlen J = n -> (data = 0 -> body = []) ->
  (data <> 0 -> read_bytes m data (length body) = Some body) -> are_bytes body ->
  (data <> 0 -> disj a n data (zlen body)) ->
  forall A (k : M A),
  (_ ← store32 (msg_cmd a) cmd;
   _ ← store64 (msg_message_length a) n;
   _ ← (if negb (data =? 0) then _ ← memcpy (msg_data a) data (zlen body); skip else skip);
   k) (set_mem (write_bytes m a J) s)
  = k (set_mem (write_bytes m a (message cmd (take 4 (drop 4 J)) body)) s).
Proof.
  intros n HJ H0 H1 B D A k. unfold n, sizeof_message in *.
  do 16 (destruct J as [|? J]; [cbn [length] in HJ; lia|]).
  unfold msg_cmd, msg_message_length, msg_data.
  erewrite bind_ret by (apply (store_n_inside 4 0); [lia|lia|cbn [length]; lia]).
  erewrite bind_ret by (apply (store_n_inside 8 8); [lia|lia|
    rewrite !length_app, length_take, length_drop, length_le_bytes; cbn [length]; lia]).
  change (Z.to_nat 0) with 0%nat. change (Z.to_nat 8) with 8%nat.
  cbn [take drop app le_bytes Nat.add]. rewrite ?drop_0. cbn [length] in HJ.
  destruct (Z.eqb_spec data 0) as [E0|Nz]; cbn [negb].
  - specialize (H0 E0). subst body. cbn [length] in HJ.
    assert (J = []) as -> by (destruct J; [done|cbn [length] in HJ; lia]).
    erewrite bind_ret by done. reflexivity.
  - erewrite bind_ret.
    2:{ erewrite bind_ret; [reflexivity|]. apply (memcpy_inside 16); try done; try lia.
        - cbn [length]. lia.
        - rewrite Nat2Z.id. by apply H1.
        - replace (zlen _) with (16 + zlen body) by (cbn [length]; lia). auto. }
    do 3 f_equal. change (Z.to_nat 16) with 16%nat. cbn [take drop app Nat.add].
    rewrite drop_ge by lia. rewrite app_nil_r. reflexivity.
Qed.

(** What a sent message leaves as it was: the addresses in use, all contents
    except those of the buffer [b], and the variables of the other parts. *)
Record sent (b : Z) (s s' : state) : Prop := {
  sent_outside x : is_Some (mem s !! x) -> ~ (b <= x < b + 2048) -> mem s' !! x = mem s !! x;
  sent_dom : dom (mem s') = dom (mem s);
  sent_rest : (ng s', nb s', cpu s', eth_buffer_phys (bp s'))
              = (ng s, nb s, cpu s, eth_buffer_phys (bp s));
}.

(** The firmware in state [s] carries a message out of buffer [b]: it allocates
    the message, transmits the frame with status [st], and frees the message,
    which leaves it in state [w2]. *)
Definition delivers (s : state) (d : addresses) (b cmd : Z) (body : list Z) (st : Z) (w2 : fwst)
    : Prop :=
  let n := sizeof_message + zlen body in
  exists st0 a c w0 w st2,
    AllocatePool EfiLoaderData n (mem s) (fw s) = (st0, a, c, w0) /\ EFI_ERROR st0 = false
    /\ SnpTransmit (snp (ng s)) (b + 8)
         (message_frame d cmd (take 4 (drop 4 (bytes_at c n))) body) w0 = (st, w)
    /\ FreePool a w = (st2, w2) /\ EFI_ERROR st2 = false.

Lemma message_length cmd pad body :
  zlen pad = 4 -> zlen (message cmd pad body) = sizeof_message + zlen body.
Proof. intros. unfold message, sizeof_message. lens. Qed.

Lemma message_bytes cmd pad body :
  are_bytes pad -> are_bytes body -> are_bytes (message cmd pad body).
Proof. intros. unfold message. repeat apply Forall_app_2; auto with bytes. Qed.

Lemma message_stored_length m a cmd pad body :
  zlen pad = 4 -> 0 <= zlen body < 2 ^ 32 ->
  load 8 (write_bytes m a (message cmd pad body)) (msg_message_length a)
  = Some (sizeof_message + zlen body).
Proof.
  intros Hp Hb. unfold load, message.
  pose proof (read_write_same m a (message cmd pad body)) as R. unfold message in R.
  assert (R8 : read_bytes (write_bytes m a (message cmd pad body)) (msg_message_length a) 8
    = Some (le_bytes 8 (sizeof_message + zlen body))).
  { pose proof (read_bytes_sub _ _ _ _ 8 8 R) as S8. change (msg_message_length a) with (a + Z.of_nat 8).
    unfold message. rewrite S8.
    - f_equal. rewrite app_assoc, drop_app_ge by (rewrite length_app, length_le_bytes; lia).
      rewrite length_app, length_le_bytes. replace (8 - (4 + length pad))%nat with 0%nat by lia.
      by rewrite drop_0.
    - rewrite !length_app, !length_le_bytes. lia. }
  unfold message in R8. rewrite R8. cbn [fmap option_fmap option_map]. rewrite le_num_bytes.
  f_equal. apply wrap_small. unfold sizeof_message. lia.
Qed.

Lemma netboot_cmd_send_ready {LL : LayoutLaws L} {EL : EfiLaws E} {AL : AllocLaws E F}
    s d b l cmd data body st w2 :
  net_ready s d (b :: l) -> (data = 0 <-> body = []) ->
  (data <> 0 -> holds (mem s) data (zlen body) body) -> are_bytes body ->
  disj b 2048 data (zlen body) -> zlen body <= 1400 ->
  delivers s d b cmd body st w2 ->
  exists s', netboot_cmd_send cmd data (zlen body) s = Ret tt s'
    /\ net_ready s' d (free_after st b l) /\ sent b s s' /\ fw s' = w2.
Proof.
  intros R H0 H1 B D Hl (st0 & a & c & w0 & w & st2 & Al & St0 & T & Fr & St2).
  set (n := sizeof_message + zlen body) in *. set (pad := take 4 (drop 4 (bytes_at c n))) in *.
  destruct (alloc_pool_fresh _ _ _ _ _ _ _ _ Al St0) as (A0 & A1 & U);
    [unfold n, sizeof_message; lia|].
  assert (Ap : apart s a n) by (eapply unmapped_apart; [exact R|exact U|unfold n, sizeof_message; lia]).
  assert (LJ : zlen (bytes_at c n) = n) by (apply length_bytes_at; unfold n, sizeof_message; lia).
  assert (Lp : zlen pad = 4) by (unfold pad; rewrite length_take, length_drop;
    unfold n, sizeof_message in *; lia).
  assert (Bp : are_bytes pad) by (apply Forall_take, Forall_drop; auto with bytes).
  set (M := message cmd pad body).
  assert (LM : zlen M = n) by (by apply message_length).
  assert (BM : are_bytes M) by (by apply message_bytes).
  set (s1 := set_pool (<[a := n]> (pool s)) (set_fw w0 s)).
  set (s2 := set_mem (write_bytes (mem s) a M) s1).
  assert (R1 : net_ready s1 d (b :: l)) by (eapply (net_ready_outside s _ _ _ a n); try done; apply R).
  assert (R2 : net_ready s2 d (b :: l)) by (apply (net_ready_write s1); [done|by rewrite LM|done]).
  assert (Dab : disj b 2048 a n) by (by eapply first_buffer_apart).
  pose proof (ready_addresses _ _ _ R2) as A2.
  pose proof (has_remote_ip _ _ A2) as Hrip. pose proof (has_all_nodes _ _ A2) as Hall.
  set (addr := if negb (bool_decide (Forall (eq 0) (remote_ip6_addr d)))
               then a_remote_ip6_addr else a_ip6_all_nodes).
  assert (Haddr : holds (mem s2) addr 16 (peer_ip d))
    by (unfold addr, peer_ip; by case_bool_decide).
  assert (Dst : disj b 2048 addr 16).
  { eapply away_disj; [eapply buffer_in_region; [apply R| |apply R]|].
    - apply (pool_buffers _ _ (ready_pool _ _ _ R)). set_solver.
    - unfold addr. case_bool_decide; [by apply (in_statics 5)|by apply (in_statics 3)]. }
  destruct (net_udp6_send_ready s2 d b l a M addr (peer_ip d) (peer_mac d) 57778 57777 st w)
    as (s3 & Sd & R3 & St3 & Fw3); try done.
  { by apply holds_written. }
  { by rewrite LM. }
  { rewrite LM. unfold n, sizeof_message. lia. }
  { apply peer_resolves. }
  set (s4 := set_pool (delete a (pool s3)) (set_mem (clear_bytes (mem s3) a (Z.to_nat n))
               (set_fw w2 s3))).
  assert (P3 : pool s3 !! a = Some n).
  { pose proof (step_rest _ _ _ St3) as Er. injection Er as _ _ _ ->. apply lookup_insert_eq. }
  exists s4. split; [|split; [|split; [|done] ] ].
  - unfold netboot_cmd_send. fold n. unfold NETBOOT_MSG_LEN. fold n.
    assert (En : u64 n = n) by (apply wrap_small; unfold n, sizeof_message; lia). rewrite En.
    run_step (malloc_ret _ _ _ _ _ _ Al St0).
    change (set_pool _ _) with (set_mem (write_bytes (mem s) a (bytes_at c n)) s1).
    rewrite fill_message; [fold pad M s2|done|by apply H0|intros Hnz|done|intros Hnz].
    + run_step (net_ip6_empty_ret _ _ _ Hrip). fold addr.
      erewrite bind_ret by (apply load_n_ret, message_stored_length; [done|lia]).
      fold n. rewrite <-LM. run_step Sd. eapply free_ret; [exact P3|by rewrite Fw3|done].
    + destruct (H1 Hnz) as [Rd _]. by rewrite Nat2Z.id in Rd.
    + assert (0 < zlen body) by (destruct body; [tauto|cbn [length]; lia]).
      apply disj_sym. eapply mapped_unmapped_disj; [eapply holds_mapped; [by apply H1|lia]|
        exact U|lia|unfold n, sizeof_message; lia].
  - eapply (net_ready_outside s3 _ _ _ a n); [exact R3|done| | |].
    + intros x Hx. cbn [s4 mem set_pool set_mem]. rewrite lookup_clear_bytes, decide_False by lia. done.
    + apply wf_clear, R3.
    + destruct Ap as [Ap1 Ap2]. split; [|done]. by rewrite (step_phys _ _ _ St3).
  - assert (Ma : forall x, is_Some (mem s !! x) -> ~ (a <= x < a + n)).
    { intros x [y Hx] Hr. by rewrite U in Hx. }
    split.
    + intros x Hx Hb. specialize (Ma x Hx). cbn [s4 mem set_pool set_mem].
      rewrite lookup_clear_bytes, decide_False by (unfold n, sizeof_message in *; lia).
      rewrite (step_outside _ _ _ St3) by done. cbn [s2 mem set_mem]. apply lookup_write_out. lia.
    + apply set_eq. intros x. cbn [s4 mem set_pool set_mem].
      rewrite !elem_of_dom, lookup_clear_bytes. case_decide as Hr.
      * rewrite U by (unfold n, sizeof_message in *; lia). by rewrite <-!not_eq_None_Some.
      * rewrite <-elem_of_dom, (step_dom _ _ _ St3), elem_of_dom. cbn [s2 mem set_mem].
        rewrite lookup_write_out; [done|]. unfold n, sizeof_message in *. lia.
    + pose proof (step_rest _ _ _ St3) as Er. injection Er as E1 E2 E3 _.
      cbn [s4 ng nb cpu bp set_pool set_mem set_fw]. rewrite E1, E2, E3, (step_phys _ _ _ St3). done.
Qed.

(** ** Acknowledgements *)

Definition ack_bytes (type fragment : Z) : list Z :=
  le_bytes 4 type ++ take 4 (drop 4 (bytes_at stack_junk sizeof_ack)) ++ le_bytes 8 fragment.

(** The state in which [netboot_cmd_send] is called: the acknowledgement is a
    local. *)
Definition ack_state (s : state) (type fragment : Z) : state :=
  set_mem (write_bytes (mem s) (stack_addr (mem s) sizeof_ack) (ack_bytes type fragment)) s.

Lemma ack_bytes_length type fragment : zlen (ack_bytes type fragment) = sizeof_ack.
Proof.
  unfold ack_bytes, sizeof_ack. pose proof (length_bytes_at stack_junk 16 ltac:(lia)). lens.
Qed.

Lemma are_bytes_ack type fragment : are_bytes (ack_bytes type fragment).
Proof.
  unfold ack_bytes. repeat apply Forall_app_2; auto with bytes.
  apply Forall_take, Forall_drop. auto with bytes.
Qed.

Lemma fill_ack m a s type fragment {A} (k : M A) :
  (_ ← store32 (ack_type a) type; _ ← store64 (ack_file_fragment a) fragment; k)
    (set_mem (write_bytes m a (bytes_at stack_junk sizeof_ack)) s)
  = k (set_mem (write_bytes m a (ack_bytes type fragment)) s).
Proof.
  unfold ack_type, ack_file_fragment, ack_bytes.
  pose proof (length_bytes_at stack_junk sizeof_ack ltac:(done)) as Hl.
  generalize dependent (bytes_at stack_junk sizeof_ack). intros J HJ. unfold sizeof_ack in HJ.
  do 16 (destruct J as [|? J]; [cbn [length] in HJ; lia|]).
  destruct J; [|cbn [length] in HJ; lia].
  erewrite bind_ret by (apply (store_n_inside 4 0); [lia|lia|cbn [length]; lia]).
  erewrite bind_ret by (apply (store_n_inside 8 8); [lia|lia|
    rewrite !length_app, length_take, length_drop, length_le_bytes; cbn [length]; lia]).
  reflexivity.
Qed.

Lemma netboot_ack_ready {LL : LayoutLaws L} {EL : EfiLaws E} {AL : AllocLaws E F}
    s d b l type fragment st w2 :
  net_ready s d (b :: l) ->
  delivers (ack_state s type fragment) d b CMD_ACK (ack_bytes type fragment) st w2 ->
  exists s', netboot_ack type fragment s = Ret tt s'
    /\ net_ready s' d (free_after st b l) /\ sent b s s' /\ fw s' = w2.
Proof.
  intros R Dl. destruct (enter_local_ready sizeof_ack s d (b :: l)) as [R0 Ap]; try done.
  destruct (stack_fresh (mem s) sizeof_ack ltac:(done)) as (A0 & U).
  pose proof (ack_bytes_length type fragment) as La.
  set (s2 := ack_state s type fragment) in *.
  set (a := stack_addr (mem s) sizeof_ack) in *.
  assert (R2 : net_ready s2 d (b :: l))
    by (apply net_ready_write; [done|by rewrite La|apply are_bytes_ack]).
  destruct (netboot_cmd_send_ready s2 d b l CMD_ACK a (ack_bytes type fragment) st w2)
    as (s3 & Sd & R3 & St & Fw); try done.
  { split; [lia|]. intros Eb. by rewrite Eb in La. }
  { intros _. apply holds_written; [done|apply are_bytes_ack]. }
  { apply are_bytes_ack. }
  { rewrite La. by eapply first_buffer_apart. }
  pose proof (sent_rest _ _ _ St) as Er.
  unfold netboot_ack. match goal with |- context [with_local _ ?k] =>
    destruct (with_local_ready sizeof_ack k s d (free_after st b l) tt s3)
      as (s' & Lc & R' & Es); [done|exact Ap| |by injection Er|exact R3|] end.
  { unfold enter_local. fold a. rewrite fill_ack. fold s2. rewrite <-La at 1. exact Sd. }
  exists s'. split; [exact Lc|]. split; [done|]. fold a in Es. split; [|by rewrite Es].
  assert (Ma : forall x, is_Some (mem s !! x) -> ~ (a <= x < a + sizeof_ack)).
  { intros x [y Hx] Hr. by rewrite U in Hx. }
  assert (E2 : forall x, ~ (a <= x < a + sizeof_ack) -> mem s2 !! x = mem s !! x)
    by (intros x Hx; apply lookup_write_out; fold a; by rewrite La).
  rewrite Es. unfold sizeof_ack in *. split; cbn [mem set_mem ng nb cpu bp].
  - intros x Hx Hb. specialize (Ma x Hx). rewrite lookup_clear_bytes, decide_False by lia.
    rewrite (sent_outside _ _ _ St), E2; [done|done|by rewrite E2|done].
  - apply set_eq. intros x. rewrite !elem_of_dom, lookup_clear_bytes. case_decide as Hr.
    + rewrite U by lia. by rewrite <-!not_eq_None_Some.
    + rewrite <-elem_of_dom, (sent_dom _ _ _ St), elem_of_dom.
      rewrite E2; [done|lia].
  - exact Er.
Qed.

(** Outside of a transfer the message's command is all that counts. *)
Lemma netboot_cmd_idle msg s :
  nb_state (nb s) <> STATE_FILE_TRANSFER ->
  netboot_cmd_receive msg s
  = (cmd ← load32 (msg_cmd msg);
     _ ← (if cmd =? CMD_FWSETUP then netboot_fwsetup
          else if cmd =? CMD_STOP_ADVERTISING then set_net_stop_advertising true
          else if cmd =? CMD_SHUTDOWN then
            _ ← set_net_poll_continue false; stop (WasReset EfiResetShutdown EFI_SUCCESS)
          else if cmd =? CMD_REBOOT then
            _ ← set_net_poll_continue false; stop (WasReset EfiResetWarm EFI_SUCCESS)
          else if cmd =? CMD_FILE_SEND_INIT then netboot_send_init msg
          else if cmd =? CMD_BOOT then set_net_poll_continue false
          else skip);
     mret EFI_SUCCESS) s.
Proof.
  intros N. unfold netboot_cmd_receive. erewrite bind_ret by done.
  rewrite decide_False by done. by erewrite bind_ret by done.
Qed.

End Send.
