(* ===== verification/Transfer.v ===== *)
(** * The file transfer of net/netboot.c as a protocol

    An abstract receiver, its prefix invariant under duplicated, lost and
    reordered fragments, and the proof that [netboot_cmd_receive] refines it. *)

From S2P Require Import Prelude Memory Firmware State CString Printf PrintfFacts Console Alloc.
From S2P Require Import Inet Bufpool Ip6 Ip6Facts Ip6Setup Eth Icmp6 Udp6 Ucs2 Netboot.
From S2P Require Import NetbootFacts.

(** ** The abstract receiver *)

(** What has been received, and the number of the next fragment. *)
Record receiver := Receiver { received : list Z; next_fragment : Z }.

(** A fragment and the number its acknowledgement carries. *)
Definition receive_fragment (r : receiver) (id : Z) (payload : list Z) : receiver * Z :=
  if id =? next_fragment r
  then (Receiver (received r ++ payload) (next_fragment r + 1), next_fragment r)
  else (r, Z.min id (next_fragment r)).

(** A run over fragments of a file cut into [chunks]: any sequence of fragment
    numbers, as a network that loses, repeats and reorders delivers them. *)
Definition receive_run (chunks : list (list Z)) (ids : list nat) (r : receiver) : receiver :=
  foldl (fun r i => (receive_fragment r (Z.of_nat i) (chunks !!! i)).1) r ids.

Definition prefix_of_chunks (chunks : list (list Z)) (r : receiver) : Prop :=
  0 <= next_fragment r <= zlen chunks
  /\ received r = concat (take (Z.to_nat (next_fragment r)) chunks).

Lemma receive_fragment_prefix chunks r i :
  prefix_of_chunks chunks r -> (i < length chunks)%nat ->
  prefix_of_chunks chunks (receive_fragment r (Z.of_nat i) (chunks !!! i)).1.
Proof.
  intros [Hn Hr] Hi. unfold receive_fragment. destruct (Z.eqb_spec (Z.of_nat i) (next_fragment r));
    [|done].
  destruct (lookup_lt_is_Some_2 chunks i Hi) as [c Hc].
  split; cbn [next_fragment received fst]; [lia|].
  replace (Z.to_nat (next_fragment r + 1)) with (S i) by lia.
  rewrite (take_S_r _ _ c) by done. rewrite concat_app, Hr. cbn [concat]. rewrite app_nil_r.
  replace (Z.to_nat (next_fragment r)) with i by lia. by rewrite (list_lookup_total_correct _ _ _ Hc).
Qed.

Lemma receive_run_prefix chunks ids : forall r,
  prefix_of_chunks chunks r -> Forall (fun i => (i < length chunks)%nat) ids ->
  prefix_of_chunks chunks (receive_run chunks ids r).
Proof.
  induction ids as [|i ids IH]; intros r P B; [done|].
  apply Forall_cons in B as [Bi B]. cbn [receive_run foldl].
  apply IH; [|done]. by apply receive_fragment_prefix.
Qed.

(** ** The receiver in memory *)

Section Transfer.
Context {E : Efi} {F : Firmware} {L : Layout} {K : Fuel} {H : ImageHandle}.

(** A transfer of a file of [size] bytes is running and has come as far as [r].
    [cap] is the announced size of a fragment. *)
Record Transfer (s : state) (size cap : Z) (r : receiver) : Prop := {
  tr_state : nb_state (nb s) = STATE_FILE_TRANSFER;
  tr_size : load 8 (mem s) (info_file_size (file_info (nb s))) = Some size;
  tr_cap : load 8 (mem s) (info_data_per_packet (file_info (nb s))) = Some cap;
  tr_buffer : mapped (mem s) (file_buffer (nb s)) size;
  tr_data : holds (mem s) (file_buffer (nb s)) (zlen (received r)) (received r);
  tr_bytes : file_bytes_transferred (nb s) = zlen (received r);
  tr_next : file_packets_transferred (nb s) = next_fragment r;
  tr_bounds : zlen (received r) <= size < 2 ^ 64 /\ 0 <= next_fragment r < 2 ^ 64 - 1;
  tr_apart : apart s (file_buffer (nb s)) size;
  tr_info_apart : apart s (file_info (nb s)) 32;
  tr_info_disj : disj (file_buffer (nb s)) size (file_info (nb s)) 32;
}.

(** A fragment message in memory. *)
Record fragment_at (m : memory) (msg id : Z) (payload : list Z) : Prop := {
  fr_cmd : load 4 m (msg_cmd msg) = Some CMD_FILE_FRAGMENT;
  fr_id : load 8 m (fragment_id (msg_data msg)) = Some id;
  fr_len : load 8 m (fragment_data_len (msg_data msg)) = Some (zlen payload);
  fr_data : holds m (fragment_data (msg_data msg)) (zlen payload) payload;
}.

Lemma fragment_at_agree m m' msg id payload :
  agree m m' msg (32 + zlen payload) -> fragment_at m msg id payload ->
  fragment_at m' msg id payload.
Proof.
  intros A [H1 H2 H3 H4].
  unfold msg_cmd, fragment_id, fragment_data_len, fragment_data, msg_data in *.
  split; unfold msg_cmd, fragment_id, fragment_data_len, fragment_data, msg_data.
  - rewrite (load_agree 4 m m'); [done|]. eapply agree_sub; [exact A|lia..].
  - rewrite (load_agree 8 m m'); [done|]. eapply agree_sub; [exact A|lia..].
  - rewrite (load_agree 8 m m'); [done|]. eapply agree_sub; [exact A|lia..].
  - eapply holds_agree; [done|lia|]. eapply agree_sub; [exact A|lia..].
Qed.

Lemma load_is_mapped n m a v : load n m a = Some v -> mapped m a (Z.of_nat n).
Proof.
  unfold load. intros Hl. apply read_bytes_mapped. destruct (read_bytes m a n); [eauto|done].
Qed.

(** A fragment is storage in use. *)
Lemma fragment_at_mapped m msg id payload :
  fragment_at m msg id payload ->
  mapped m msg 4 /\ mapped m (msg + 16) (16 + zlen payload).
Proof.
  intros [H1 H2 H3 H4]. split; [exact (load_is_mapped _ _ _ _ H1)|].
  apply load_is_mapped in H2, H3. pose proof (holds_mapped _ _ _ _ H4 ltac:(lia)) as H5.
  unfold fragment_id, fragment_data_len, fragment_data, msg_data in *. intros x Hx.
  destruct (decide (x < msg + 24)); [apply H2; lia|].
  destruct (decide (x < msg + 32)); [apply H3; lia|apply H5; lia].
Qed.

(** The state after the bookkeeping of a fragment, when the acknowledgement is
    about to be sent. *)
Definition fragment_stored (s : state) (r : receiver) (id : Z) (payload : list Z) : state :=
  if id =? next_fragment r then
    let n := nb s in
    set_nb (NetbootState (nb_state n) (file_info n) (file_buffer n)
              (zlen (received r) + zlen payload) (next_fragment r + 1))
      (set_mem (write_bytes (mem s) (file_buffer n + zlen (received r)) payload) s)
  else s.

Lemma fragment_stored_transfer s d l size cap r id payload :
  Transfer s size cap r -> net_ready s d l -> are_bytes payload ->
  (id = next_fragment r -> zlen (received r) + zlen payload <= size
                           /\ next_fragment r + 1 < 2 ^ 64 - 1) ->
  let s' := fragment_stored s r id payload in
  Transfer s' size cap (receive_fragment r id payload).1 /\ net_ready s' d l.
Proof.
  intros T R B Fit. unfold fragment_stored, receive_fragment.
  destruct (Z.eqb_spec id (next_fragment r)) as [Eid|]; [|done]. specialize (Fit Eid).
  destruct T as [T1 T2 T3 T4 T5 T6 T7 T8 T9 T10 T11]. destruct Fit as [Fit Fn].
  set (q := file_buffer (nb s) + zlen (received r)).
  assert (Ag : agree (mem s) (write_bytes (mem s) q payload) (file_info (nb s)) 32).
  { apply agree_write. unfold disj, q in *. lia. }
  cbv zeta. split.
  - split; cbn [fst mem nb set_nb set_mem nb_state file_info file_buffer file_bytes_transferred
      file_packets_transferred received next_fragment]; try done.
    + rewrite (load_agree 8 (mem s)); [done|]. eapply agree_sub; [exact Ag|unfold info_file_size; lia..].
    + rewrite (load_agree 8 (mem s)); [done|].
      eapply agree_sub; [exact Ag|unfold info_data_per_packet; lia..].
    + by apply mapped_write.
    + destruct T5 as [R5 B5]. split; [|by apply Forall_app_2].
      rewrite length_app, Nat2Z.id. apply read_bytes_app.
      * rewrite read_write_disj by (unfold disj, q; lia). by rewrite Nat2Z.id in R5.
      * apply read_write_same.
    + rewrite length_app. lia.
    + rewrite length_app. split; lia.
  - apply (net_ready_write s _ _ q payload) in R; [|destruct T9 as [D A]; split|done].
    + destruct R as [R1 R2 R3 R4]. split; try done. eapply pool_agree; [exact R1|done|].
      by intros x Hx.
    + unfold disj, q in *. lia.
    + eapply away_sub; [exact A|unfold q; lia..].
Qed.

Lemma netboot_file_fragment_ret s size cap r msg id payload :
  Transfer s size cap r -> fragment_at (mem s) msg id payload -> zlen payload <= cap ->
  disj (file_buffer (nb s)) size msg (32 + zlen payload) ->
  (id = next_fragment r -> zlen (received r) + zlen payload <= size) ->
  netboot_file_fragment (msg_data msg) s
  = netboot_ack CMD_FILE_FRAGMENT (receive_fragment r id payload).2
      (fragment_stored s r id payload).
Proof.
  intros T Fr Hc D Fit. destruct T as [T1 T2 T3 T4 T5 T6 T7 T8 T9 T10 T11].
  pose proof Fr as [F1 F2 F3 F4].
  unfold netboot_file_fragment, fragment_stored, receive_fragment.
  erewrite bind_ret by done. run_step (load_n_ret 8 _ _ _ T3).
  run_step (load_n_ret 8 _ _ _ F3). run_step (load_n_ret 8 _ _ _ F2).
  rewrite (proj2 (Z.ltb_ge _ _)) by done. erewrite bind_ret by done.
  erewrite bind_ret by done. rewrite T7.
  destruct (Z.eqb_spec id (next_fragment r)) as [Eid|Nid]; cbn [negb snd].
  - specialize (Fit Eid). erewrite bind_ret by done. erewrite bind_ret by done. rewrite T6.
    erewrite bind_ret.
    2:{ apply (memcpy_ret _ _ _ _ payload); [lia|apply F4|apply F4| |].
        - eapply mapped_sub; [exact T4|lia..].
        - unfold disj, fragment_data, msg_data in *. lia. }
    set (m2 := write_bytes _ _ _).
    assert (F3' : load 8 m2 (fragment_data_len (msg_data msg)) = Some (zlen payload)).
    { rewrite (load_agree 8 (mem s)); [done|]. apply agree_write.
      unfold disj, fragment_data_len, msg_data in *. lia. }
    run_step (load_n_ret 8 (set_mem m2 s) _ _ F3').
    erewrite bind_ret by done. rewrite !wrap_small by lia. reflexivity.
  - do 2 f_equal. destruct (Z.ltb_spec id (next_fragment r)); lia.
Qed.

Lemma transfer_same s s' size cap r :
  Transfer s size cap r -> nb s' = nb s -> eth_buffer_phys (bp s') = eth_buffer_phys (bp s) ->
  agree (mem s) (mem s') (file_buffer (nb s)) size ->
  agree (mem s) (mem s') (file_info (nb s)) 16 -> Transfer s' size cap r.
Proof.
  intros [T1 T2 T3 T4 T5 T6 T7 T8 T9 T10 T11] Hn Hp A1 A2.
  split; rewrite ?Hn; try done; unfold apart; rewrite ?Hp; try done.
  - rewrite (load_agree 8 (mem s)); [done|]. eapply agree_sub; [exact A2|unfold info_file_size; lia..].
  - rewrite (load_agree 8 (mem s)); [done|].
    eapply agree_sub; [exact A2|unfold info_data_per_packet; lia..].
  - intros x Hx. rewrite A1 by done. by apply T4.
  - eapply holds_agree; [exact T5|lia|]. eapply agree_sub; [exact A1|lia..].
Qed.

Lemma transfer_agree s s' size cap r :
  Transfer s size cap r -> nb s' = nb s -> eth_buffer_phys (bp s') = eth_buffer_phys (bp s) ->
  agree (mem s) (mem s') (file_buffer (nb s)) size ->
  agree (mem s) (mem s') (file_info (nb s)) 32 -> Transfer s' size cap r.
Proof. intros T Hn Hp A1 A2. apply (transfer_same s); try done. eapply agree_sub; [exact A2|lia..]. Qed.

Lemma sent_agree b s s' a n :
  sent b s s' -> mapped (mem s) a n -> disj b 2048 a n -> agree (mem s) (mem s') a n.
Proof.
  intros St Mp D x Hx. apply (sent_outside _ _ _ St); [by apply Mp|]. unfold disj in D. lia.
Qed.

(** The hypotheses on a fragment that arrives during a transfer. *)
Record arrives (s : state) (d : addresses) (b : Z) (l : list Z) (size cap : Z) (r : receiver)
    (msg id : Z) (payload : list Z) : Prop := {
  ar_transfer : Transfer s size cap r;
  ar_info : mapped (mem s) (file_info (nb s)) 32;
  ar_ready : net_ready s d (b :: l);
  ar_fragment : fragment_at (mem s) msg id payload;
  ar_cap : zlen payload <= cap;
  ar_apart : apart s msg (32 + zlen payload);
  ar_disj : disj (file_buffer (nb s)) size msg (32 + zlen payload);
}.

(** The next fragment fits into what is left of the file. *)
Definition fits (size : Z) (r : receiver) (id : Z) (payload : list Z) : Prop :=
  id = next_fragment r ->
  zlen (received r) + zlen payload <= size /\ next_fragment r + 1 < 2 ^ 64 - 1.

(** What storing a fragment leaves alone. *)
Lemma fragment_stored_same s r id payload :
  let s' := fragment_stored s r id payload in
  nb_state (nb s') = nb_state (nb s) /\ file_info (nb s') = file_info (nb s)
  /\ file_buffer (nb s') = file_buffer (nb s) /\ ng s' = ng s /\ bp s' = bp s /\ fw s' = fw s.
Proof. unfold fragment_stored. by destruct (id =? next_fragment r). Qed.

Lemma fragment_stored_agree s d b l size cap r msg id payload a n :
  arrives s d b l size cap r msg id payload -> fits size r id payload ->
  disj (file_buffer (nb s)) size a n ->
  agree (mem s) (mem (fragment_stored s r id payload)) a n.
Proof.
  intros Ar Fit D. unfold fragment_stored. destruct (Z.eqb_spec id (next_fragment r)) as [Eid|].
  - specialize (Fit Eid). apply agree_write. unfold disj in *. lia.
  - by intros x Hx.
Qed.

(** The fragment is stored as [receive_fragment] says, and acknowledged. *)
Lemma netboot_fragment_acked {LL : LayoutLaws L} {EL : EfiLaws E} {AL : AllocLaws E F}
    s d b l size cap r msg id payload st w :
  let r' := (receive_fragment r id payload).1 in
  let ack := (receive_fragment r id payload).2 in
  let s1 := fragment_stored s r id payload in
  arrives s d b l size cap r msg id payload -> fits size r id payload ->
  delivers (ack_state s1 CMD_FILE_FRAGMENT ack) d b CMD_ACK (ack_bytes CMD_FILE_FRAGMENT ack) st w ->
  exists s2, netboot_file_fragment (msg_data msg) s = Ret tt s2
    /\ Transfer s2 size cap r' /\ net_ready s2 d (free_after st b l) /\ fw s2 = w
    /\ sent b s1 s2 /\ load 4 (mem s2) (msg_cmd msg) = Some CMD_FILE_FRAGMENT.
Proof.
  intros r' ack s1 Ar Fit Dl. pose proof Ar as [T Mi R Fr Hc Am Dm].
  destruct (fragment_stored_transfer s d (b :: l) size cap r id payload T R ltac:(apply Fr) Fit)
    as [T1 R1]. fold s1 r' in T1, R1.
  destruct (netboot_ack_ready s1 d b l CMD_FILE_FRAGMENT ack st w R1 Dl) as (s2 & Ak & R2 & St & Fw).
  destruct (fragment_stored_same s r id payload) as (S1 & S2 & S3 & S4 & S5 & _).
  fold s1 in S1, S2, S3, S4, S5.
  pose proof (sent_rest _ _ _ St) as Er. injection Er as E1 E2 E3 E4.
  assert (Mi1 : mapped (mem s1) (file_info (nb s1)) 32).
  { rewrite S2. unfold s1, fragment_stored. destruct (id =? _); [by apply mapped_write|done]. }
  assert (Cm1 : agree (mem s) (mem s1) msg (32 + zlen payload))
    by (by eapply fragment_stored_agree).
  exists s2. split; [|split; [|split; [done|split; [done|split; [done|] ] ] ] ].
  - erewrite netboot_file_fragment_ret; [exact Ak|done..|]. intros Eid. by apply Fit.
  - eapply transfer_agree; [exact T1|done|done| |]; (eapply sent_agree; [exact St| |]).
    + apply T1.
    + eapply first_buffer_apart; [exact R1|]. apply T1.
    + done.
    + eapply first_buffer_apart; [exact R1|]. apply T1.
  - destruct (fragment_at_mapped _ _ _ _ Fr) as [M4 _].
    rewrite (load_agree 4 (mem s1)); [rewrite (load_agree 4 (mem s)); [apply Fr|]|].
    + eapply agree_sub; [exact Cm1|unfold msg_cmd; lia..].
    + eapply sent_agree; [exact St| |].
      * intros x Hx. rewrite Cm1 by (unfold msg_cmd in Hx; lia). apply M4. exact Hx.
      * eapply disj_sub; [eapply (first_buffer_apart s d b l); [exact R|exact Am]|unfold msg_cmd; lia..].
Qed.

(** A fragment that does not complete the file. *)
Lemma netboot_receive_fragment {LL : LayoutLaws L} {EL : EfiLaws E} {AL : AllocLaws E F}
    s d b l size cap r msg id payload st w :
  let r' := (receive_fragment r id payload).1 in
  let ack := (receive_fragment r id payload).2 in
  let s1 := fragment_stored s r id payload in
  arrives s d b l size cap r msg id payload -> fits size r id payload ->
  zlen (received r') <> size ->
  delivers (ack_state s1 CMD_FILE_FRAGMENT ack) d b CMD_ACK (ack_bytes CMD_FILE_FRAGMENT ack) st w ->
  exists s', netboot_cmd_receive msg s = Ret EFI_SUCCESS s'
    /\ Transfer s' size cap r' /\ net_ready s' d (free_after st b l) /\ fw s' = w
    /\ ng s' = ng s /\ sent b s1 s'.
Proof.
  intros r' ack s1 Ar Fit Nl Dl.
  destruct (netboot_fragment_acked s d b l size cap r msg id payload st w Ar Fit Dl)
    as (s2 & Ak & T2 & R2 & Fw & St & C2). fold r' in T2.
  destruct (fragment_stored_same s r id payload) as (_ & _ & _ & S4 & _).
  pose proof (sent_rest _ _ _ St) as Er. injection Er as E1 _ _ _.
  exists s2. split; [|split; [done|split; [done|split; [done|split; [congruence|done] ] ] ] ].
  unfold netboot_cmd_receive. erewrite bind_ret by done.
  rewrite decide_True by apply (tr_state _ _ _ _ (ar_transfer _ _ _ _ _ _ _ _ _ _ Ar)).
  erewrite bind_ret.
  2:{ unfold netboot_file_transfer. erewrite bind_ret by (apply load_n_ret, Ar).
      rewrite Z.eqb_refl. run_step Ak. erewrite bind_ret by done. erewrite bind_ret by done.
      erewrite bind_ret by (apply load_n_ret, T2). rewrite (tr_bytes _ _ _ _ T2).
      rewrite (proj2 (Z.eqb_neq _ _) Nl). done. }
  erewrite bind_ret by (apply load_n_ret, C2). reflexivity.
Qed.

(** ** The end of a transfer *)

(** The firmware in the state [s] saves [data] under [path] on the volume the
    loader was started from: every call succeeds.  [w] is the firmware after the
    data has been written and the file closed. *)
Definition saves (s : state) (path data : list Z) (w : fwst) : Prop :=
  exists st0 a c w0 st1 image w1 st2 sfs w2 st3 root w3 st4 file w4 st5 written w5,
    AllocatePool EfiLoaderData (2 * (zlen path + 1)) (mem s) (fw s) = (st0, a, c, w0)
    /\ HandleProtocol handle LoadedImageProtocol w0 = (st1, image, w1)
    /\ HandleProtocol (DeviceHandle image w1) SimpleFileSystemProtocol w1 = (st2, sfs, w2)
    /\ OpenVolume sfs w2 = (st3, root, w3)
    /\ FileOpen root path (Z.lor (Z.lor EFI_FILE_MODE_CREATE EFI_FILE_MODE_READ)
                             EFI_FILE_MODE_WRITE) 0 w3 = (st4, file, w4)
    /\ FileWrite file data w4 = (st5, written, w5) /\ (FileClose file w5).2 = w
    /\ Forall (fun st => EFI_ERROR st = false) [st0; st1; st2; st3; st4; st5].

Lemma words_ucs2 cs : Forall ascii_char cs -> words (ucs2_bytes cs) = cs.
Proof.
  unfold ucs2_bytes. induction cs as [|c cs IH]; intros A; [done|].
  apply Forall_cons in A as [A0 A]. 
  change (le_num [u8 c; u8 (c / 256)] :: words (concat (map (le_bytes 2) cs)) = c :: cs).
  rewrite IH by done. f_equal. unfold ascii_char in A0. cbn [le_num].
  rewrite (wrap_small 8 c) by lia. rewrite (Z.div_small c 256) by lia. unfold wrap.
  rewrite Z.mod_0_l by lia. lia.
Qed.

Lemma read_wstring_ret s a cs n :
  holds (mem s) a n (ucs2_bytes cs ++ [0; 0]) -> Forall ascii_char cs -> 0 <= n ->
  read_wstring a s = Ret cs s.
Proof.
  intros [R B] A Hn. pose proof (read_bytes_length _ _ _ _ R) as Hl.
  pose proof (ucs2_bytes_length cs) as Lu. rewrite <-Hl in R.
  unfold read_wstring, efi_strlen.
  assert (Mp : mapped (mem s) a (Z.of_nat (length (ucs2_bytes cs ++ [0; 0]))))
    by (apply read_bytes_mapped; eauto).
  pose proof (mapped_size _ _ _ Mp) as Sz. rewrite length_app in Sz. cbn [length] in Sz.
  erewrite bind_ret.
  2:{ erewrite bind_ret by done. apply (efi_strlen_ucs2 cs); [exact R|by apply ascii_wide|lia]. }
  erewrite bind_ret.
  2:{ apply read_block_ret. rewrite Z.add_0_l, <-Lu, Nat2Z.id.
      pose proof (read_bytes_sub _ _ _ _ 0 (length (ucs2_bytes cs)) R) as R0.
      rewrite Z.add_0_r, drop_0, take_app_length in R0. apply R0. rewrite length_app. lia. }
  by rewrite words_ucs2.
Qed.

Lemma c_string_agree m m' a cs :
  c_string m a cs -> agree m m' a (zlen cs + 1) -> c_string m' a cs.
Proof.
  intros (R & Z0 & N) A. split; [|split; [|done] ].
  - rewrite <-R. apply read_bytes_agree. eapply agree_sub; [exact A|lia..].
  - rewrite <-Z0. apply A. lia.
Qed.

Lemma c_string_mapped m a cs : c_string m a cs -> mapped m a (zlen cs + 1).
Proof.
  intros (R & Z0 & N) x Hx. destruct (decide (x = a + zlen cs)) as [->|]; [eauto|].
  assert (Mp : mapped m a (zlen cs)) by (apply read_bytes_mapped; eauto). apply Mp. lia.
Qed.

Lemma read_string_ret s a cs : c_string (mem s) a cs -> read_string a s = Ret cs s.
Proof.
  intros C. unfold read_string. run_step (strlen_ret _ _ _ C).
  apply read_block_ret. rewrite Nat2Z.id. apply C.
Qed.

Lemma netboot_file_finish_ret {AL : AllocLaws E F} s size cap r path w :
  Transfer s size cap r -> zlen (received r) = size ->
  c_string (mem s) (info_path (file_info (nb s))) path -> Forall ascii_char path ->
  zlen path < 2 ^ 32 ->
  disj (file_buffer (nb s)) size (info_path (file_info (nb s))) (zlen path + 1) ->
  saves s path (received r) w ->
  exists s', netboot_file_finish s = Ret tt s' /\ printed w (fw s')
    /\ nb s' = NetbootState STATE_CMD_WAIT 0 0 0 0 /\ ng s' = ng s /\ bp s' = bp s
    /\ (forall x, is_Some (mem s !! x) ->
          ~ (file_info (nb s) <= x < file_info (nb s) + 8) -> mem s' !! x = mem s !! x).
Proof.
  intros T Hs C A Hp D (st0 & a & c & w0 & st1 & image & w1 & st2 & sfs & w2 & st3 & root & w3
    & st4 & file & w4 & st5 & written & w5 & Al & Hp1 & Hp2 & Ov & Fo & Fw & Cl & Ok).
  rewrite !Forall_cons in Ok. destruct Ok as (O0 & O1 & O2 & O3 & O4 & O5 & _).
  destruct T as [T1 T2 T3 T4 T5 T6 T7 T8 T9 T10 T11].
  destruct (alloc_pool_fresh _ _ _ _ _ _ _ _ Al O0 ltac:(lia)) as (A0 & A1 & U).
  set (n := 2 * (zlen path + 1)) in *. set (info := file_info (nb s)) in *.
  assert (LJ : zlen (bytes_at c n) = n) by (apply length_bytes_at; lia).
  set (m2 := write_bytes (mem s) a (ucs2_bytes path ++ [0; 0])).
  assert (Lu : zlen (ucs2_bytes path ++ [0; 0]) = n)
    by (rewrite length_app, Nat2Z.inj_add, ucs2_bytes_length; cbn [length]; lia).
  assert (Fresh : forall b k, mapped (mem s) b k -> 0 < k -> disj a n b k).
  { intros b k Mb Hk. apply disj_sym. eapply mapped_unmapped_disj; [exact Mb|exact U|lia|lia]. }
  assert (Ag : forall b k, mapped (mem s) b k -> agree (mem s) m2 b k).
  { intros b k Mb x Hx. apply lookup_write_out. rewrite Lu.
    destruct (Mb x Hx) as [y Hy]. intros Hr. by rewrite U in Hy. }
  pose proof (c_string_mapped _ _ _ C) as Mc.
  assert (C2 : c_string m2 (info_path info) path) by (eapply c_string_agree; [exact C|by apply Ag]).
  assert (Hw : holds m2 a n (ucs2_bytes path ++ [0; 0])).
  { apply holds_written; [done|]. apply Forall_app_2; [apply are_bytes_ucs2|by repeat constructor]. }
  assert (S2 : load 8 m2 (info_file_size info) = Some size).
  { rewrite (load_agree 8 (mem s)); [done|]. apply Ag. by eapply load_is_mapped. }
  assert (D2 : holds m2 (file_buffer (nb s)) size (received r)).
  { rewrite Hs in T5. eapply holds_agree; [exact T5|lia|by apply Ag]. }
  set (m3 := write_bytes m2 (info_file_size info) (le_bytes 8 written)).
  assert (C3 : c_string m3 (info_path info) path).
  { eapply c_string_agree; [exact C2|]. apply agree_write. rewrite length_le_bytes.
    unfold disj, info_path, info_file_size. lia. }
  set (s1 := set_pool (<[a := n]> (pool s)) (set_mem m2 (set_fw w0 s))).
  unfold netboot_file_finish. erewrite bind_ret by done. fold info.
  run_step (strlen_ret _ _ _ C).
  assert (En : u64 (Z.shiftl (zlen path + 1) 1) = n)
    by (rewrite Z.shiftl_mul_pow2 by lia; unfold n; rewrite wrap_small; lia). rewrite En.
  run_step (malloc_ret _ _ _ _ _ _ Al O0).
  erewrite bind_ret.
  2:{ apply (uefi_to_ucs2_ret _ _ _ path); cbn [mem set_pool set_mem].
      - eapply c_string_agree; [exact C|]. apply agree_write. rewrite LJ. apply Fresh; [done|lia].
      - done.
      - replace (2 * zlen path + 2) with (zlen (bytes_at c n)) by (rewrite LJ; unfold n; lia).
        apply mapped_write_self.
      - replace (2 * zlen path + 2) with n by (unfold n; lia). apply Fresh; [done|lia]. }
  cbn [mem set_pool set_mem]. rewrite write_bytes_twice by lia. fold m2.
  change (set_mem m2 _) with s1.
  erewrite bind_ret by (unfold firmware; cbn [fw s1 set_fw set_pool set_mem]; by rewrite Hp1).
  cbv beta iota. run_step (EFIERR_ok (str "net/netboot.c") 70 st1 (set_fw w1 s1) O1).
  erewrite bind_ret by done.
  erewrite bind_ret by (unfold firmware; cbn [fw set_fw]; by rewrite Hp2).
  cbv beta iota. run_step (EFIERR_ok (str "net/netboot.c") 73 st2 (set_fw w2 s1) O2).
  erewrite bind_ret by (unfold firmware; cbn [fw set_fw]; by rewrite Ov).
  cbv beta iota. run_step (EFIERR_ok (str "net/netboot.c") 76 st3 (set_fw w3 s1) O3).
  erewrite bind_ret by (eapply (read_wstring_ret _ _ path n); [exact Hw|done|lia]).
  erewrite bind_ret by (unfold firmware; cbn [fw set_fw]; by rewrite Fo).
  cbv beta iota. run_step (EFIERR_ok (str "net/netboot.c") 79 st4 (set_fw w4 s1) O4).
  erewrite bind_ret by (apply load_n_ret; exact S2). erewrite bind_ret by done.
  erewrite bind_ret by (apply read_block_ret; apply D2).
  erewrite bind_ret by (unfold firmware; cbn [fw set_fw]; by rewrite Fw).
  cbv beta iota. erewrite bind_ret.
  2:{ apply store_n_ret. by eapply (load_is_mapped 8). }
  run_step (EFIERR_ok (str "net/netboot.c") 82 st5 (set_mem m3 (set_fw w5 s1)) O5).
  destruct (FileClose file w5) as [st6 w6] eqn:Fc. cbn [snd] in Cl. subst w6.
  erewrite bind_ret by (unfold firmware; cbn [fw set_fw set_mem]; by rewrite Fc).
  erewrite bind_ret by (apply read_string_ret; exact C3).
  match goal with |- context [(efi_printf ?f ?x ≫= ?k) ?s'] =>
    destruct (efi_printf_prints f x [false] k s') as (pr & w7 & P7 & ->);
      [done|by repeat constructor|] end.
  erewrite bind_ret by done. eexists. split; [reflexivity|]. split; [exact P7|].
  do 3 (split; [done|]).
  intros x [y Hx] Hi. cbn [mem set_nb set_fw set_mem]. unfold m3, m2.
  rewrite !lookup_write_out; [done| |].
  - rewrite Lu. intros Hr. by rewrite U in Hx.
  - rewrite length_le_bytes. unfold info_file_size. exact Hi.
Qed.

(** The fragment that completes the file: the file is saved and the transfer is
    over. *)
Lemma netboot_receive_last {LL : LayoutLaws L} {EL : EfiLaws E} {AL : AllocLaws E F}
    s d b l size cap r msg payload path st w w' :
  let data := received r ++ payload in
  let s1 := fragment_stored s r (next_fragment r) payload in
  arrives s d b l size cap r msg (next_fragment r) payload -> zlen data = size ->
  next_fragment r < 2 ^ 64 - 2 ->
  c_string (mem s) (info_path (file_info (nb s))) path -> Forall ascii_char path ->
  zlen path < 2 ^ 32 -> apart s (info_path (file_info (nb s))) (zlen path + 1) ->
  disj (file_buffer (nb s)) size (info_path (file_info (nb s))) (zlen path + 1) ->
  disj (file_info (nb s)) 8 msg 4 ->
  delivers (ack_state s1 CMD_FILE_FRAGMENT (next_fragment r)) d b CMD_ACK
    (ack_bytes CMD_FILE_FRAGMENT (next_fragment r)) st w ->
  (forall s2, fw s2 = w -> sent b s1 s2 -> saves s2 path data w') ->
  exists s', netboot_cmd_receive msg s = Ret EFI_SUCCESS s' /\ printed w' (fw s')
    /\ nb s' = NetbootState STATE_CMD_WAIT 0 0 0 0 /\ ng s' = ng s.
Proof.
  intros data s1 Ar Hd Hnf C A Hp Ap D Di Dl Sv.
  assert (Fit : fits size r (next_fragment r) payload).
  { intros _. unfold data in Hd. rewrite length_app in Hd. lia. }
  assert (Er' : receive_fragment r (next_fragment r) payload
    = (Receiver data (next_fragment r + 1), next_fragment r))
    by (unfold receive_fragment; by rewrite Z.eqb_refl).
  destruct (netboot_fragment_acked s d b l size cap r msg (next_fragment r) payload st w Ar Fit)
    as (s2 & Ak & T2 & R2 & Fw & St & C2); [by rewrite Er'|]. rewrite Er' in T2. cbn [fst] in T2.
  destruct (fragment_stored_same s r (next_fragment r) payload) as (_ & S2 & _ & S4 & _).
  fold s1 in St, S2, S4. pose proof (sent_rest _ _ _ St) as Er. injection Er as E1 E2 _ _.
  assert (Ei : file_info (nb s2) = file_info (nb s)) by congruence.
  assert (Eb : file_buffer (nb s2) = file_buffer (nb s)).
  { rewrite E2. apply (fragment_stored_same s r (next_fragment r) payload). }
  assert (Cs2 : c_string (mem s2) (info_path (file_info (nb s2))) path).
  { rewrite Ei. eapply c_string_agree; [eapply c_string_agree; [exact C|] |].
    - by eapply fragment_stored_agree.
    - eapply sent_agree; [exact St| |].
      + apply (c_string_mapped _ _ path). eapply c_string_agree; [exact C|].
        by eapply fragment_stored_agree.
      + by eapply (first_buffer_apart s d b l); [apply Ar|]. }
  destruct (netboot_file_finish_ret s2 size cap _ path w' T2 Hd Cs2 A Hp)
    as (s3 & Fin & P3 & N3 & G3 & _ & K3).
  { by rewrite Ei, Eb. }
  { by apply Sv. }
  exists s3. split; [|split; [done|split; [done|congruence] ] ].
  unfold netboot_cmd_receive. erewrite bind_ret by done.
  rewrite decide_True by apply (tr_state _ _ _ _ (ar_transfer _ _ _ _ _ _ _ _ _ _ Ar)).
  erewrite bind_ret.
  2:{ unfold netboot_file_transfer. erewrite bind_ret by (apply load_n_ret, Ar).
      rewrite Z.eqb_refl. run_step Ak. erewrite bind_ret by done. erewrite bind_ret by done.
      erewrite bind_ret by (apply load_n_ret, T2). rewrite (tr_bytes _ _ _ _ T2). cbn [received].
      rewrite (proj2 (Z.eqb_eq _ _) Hd). exact Fin. }
  assert (C3 : load 4 (mem s3) (msg_cmd msg) = Some CMD_FILE_FRAGMENT).
  { rewrite (load_agree 4 (mem s2)); [done|]. pose proof (load_is_mapped _ _ _ _ C2) as M2.
    intros x Hx. apply K3; [by apply M2|]. rewrite Ei. unfold disj, msg_cmd in *. lia. }
  erewrite bind_ret by (apply load_n_ret, C3). reflexivity.
Qed.

(** ** The start of a transfer *)

(** The state in which CMD_FILE_SEND_INIT is acknowledged. *)
Definition transfer_opened (s : state) (p1 p2 : Z) (info : list Z) (size : Z) (c2 : Z -> Z)
    (w2 : fwst) : state :=
  set_nb (NetbootState STATE_FILE_TRANSFER p1 p2 0 0)
    (set_pool (<[p2 := size]> (<[p1 := zlen info]> (pool s)))
       (set_mem (write_bytes (write_bytes (mem s) p1 info) p2 (bytes_at c2 size)) (set_fw w2 s))).

(** The firmware gives storage for the [info] of a file and for the file. *)
Definition makes_room (s : state) (info : list Z) (size : Z) (p1 p2 : Z) (c2 : Z -> Z) (w2 : fwst)
    : Prop :=
  exists st1 c1 w1 st2,
    AllocatePool EfiLoaderData (zlen info) (mem s) (fw s) = (st1, p1, c1, w1)
    /\ EFI_ERROR st1 = false
    /\ AllocatePool EfiLoaderData size (write_bytes (mem s) p1 info) w1 = (st2, p2, c2, w2)
    /\ EFI_ERROR st2 = false.

Lemma info_field m p info o :
  read_bytes m p (length info) = Some info -> (o + 8 <= length info)%nat ->
  load 8 m (p + Z.of_nat o) = Some (le_num (take 8 (drop o info))).
Proof. intros R Ho. unfold load. by rewrite (read_bytes_sub _ _ _ _ o 8 R Ho). Qed.

(** The opened state is a transfer of which nothing has been received. *)
Lemma transfer_opened_starts {AL : AllocLaws E F} s d l info p1 p2 c2 w2 :
  let size := le_num (take 8 info) in
  let s2 := transfer_opened s p1 p2 info size c2 w2 in
  net_ready s d l -> 32 <= zlen info -> are_bytes info -> 0 < size ->
  makes_room s info size p1 p2 c2 w2 ->
  Transfer s2 size (le_num (take 8 (drop 8 info))) (Receiver [] 0) /\ net_ready s2 d l
  /\ mapped (mem s2) p1 32.
Proof.
  intros size s2 R Hl Bi Hs (st1 & c1 & w1 & st2 & A1 & O1 & A2 & O2).
  destruct (alloc_pool_fresh _ _ _ _ _ _ _ _ A1 O1 ltac:(lia)) as (P1 & _ & U1).
  destruct (alloc_pool_fresh _ _ _ _ _ _ _ _ A2 O2 ltac:(lia)) as (P2 & _ & U2).
  set (m1 := write_bytes (mem s) p1 info) in *.
  assert (R1 : net_ready (set_mem m1 s) d l)
    by (apply net_ready_write; [done|eapply unmapped_apart; [exact R|exact U1|lia]|done]).
  assert (M1 : mapped m1 p1 (zlen info)) by apply mapped_write_self.
  assert (Ap1 : apart s p1 (zlen info)) by (eapply unmapped_apart; [exact R|exact U1|lia]).
  assert (Ap2 : apart s p2 size)
    by (exact (unmapped_apart (set_mem m1 s) d l p2 size R1 U2 Hs)).
  assert (D12 : disj p2 size p1 (zlen info))
    by (apply disj_sym; eapply mapped_unmapped_disj; [exact M1|exact U2|lia|lia]).
  assert (Lj : zlen (bytes_at c2 size) = size) by (apply length_bytes_at; lia).
  assert (Rd : read_bytes (write_bytes m1 p2 (bytes_at c2 size)) p1 (length info) = Some info)
    by (rewrite read_write_disj by (by rewrite Lj); apply read_write_same).
  pose proof (le_num_range (take 8 info) (Forall_take _ _ _ Bi)) as Sz. fold size in Sz.
  rewrite length_take, Nat.min_l in Sz by lia.
  split; [|split].
  - split; cbn [nb mem bp s2 transfer_opened set_nb set_pool set_mem set_fw nb_state file_info
      file_buffer file_bytes_transferred file_packets_transferred received next_fragment]; try done.
    + pose proof (info_field _ _ _ 0 Rd ltac:(lia)) as F0. by rewrite Z.add_0_r, drop_0 in F0.
    + apply (info_field _ _ _ 8 Rd). lia.
    + intros x Hx. apply mapped_write_self. lia.
    + destruct Ap1 as [D A]. split; [eapply disj_sub; [exact D|cbn; lia..]|].
      eapply away_sub; [exact A|lia..].
    + eapply disj_sub; [exact D12|lia..].
  - apply (net_ready_write (set_mem m1 s) d l p2 (bytes_at c2 size)) in R1 as [Q1 Q2 Q3 Q4];
      [|by rewrite Lj|auto with bytes].
    split; try done. eapply pool_agree; [exact Q1|done|]. by intros x Hx.
  - cbn [mem s2 transfer_opened set_nb set_pool set_mem set_fw]. apply mapped_write.
    eapply mapped_sub; [exact M1|lia..].
Qed.

Lemma netboot_send_init_ret {LL : LayoutLaws L} {EL : EfiLaws E} {AL : AllocLaws E F}
    s d b l msg info p1 p2 c2 w2 st w :
  let size := le_num (take 8 info) in
  let s2 := transfer_opened s p1 p2 info size c2 w2 in
  net_ready s d (b :: l) -> file_bytes_transferred (nb s) = 0 -> file_packets_transferred (nb s) = 0 ->
  load 8 (mem s) (msg_message_length msg) = Some (sizeof_message + zlen info) ->
  holds (mem s) (msg_data msg) (zlen info) info -> 32 <= zlen info < 2 ^ 32 -> 0 < size ->
  makes_room s info size p1 p2 c2 w2 ->
  delivers (ack_state s2 CMD_FILE_SEND_INIT 0) d b CMD_ACK (ack_bytes CMD_FILE_SEND_INIT 0) st w ->
  exists s', netboot_send_init msg s = Ret tt s'
    /\ Transfer s' size (le_num (take 8 (drop 8 info))) (Receiver [] 0)
    /\ net_ready s' d (free_after st b l) /\ ng s' = ng s /\ fw s' = w /\ sent b s2 s'.
Proof.
  intros size s2 R Hb Hp Ml Hi Hl Hs Room Dl.
  destruct (transfer_opened_starts s d (b :: l) info p1 p2 c2 w2 R ltac:(lia) ltac:(apply Hi) Hs Room)
    as (T2 & R2 & Mi). fold size s2 in T2, R2, Mi.
  destruct Room as (st1 & c1 & w1 & st2 & A1 & O1 & A2 & O2).
  destruct (alloc_pool_fresh _ _ _ _ _ _ _ _ A1 O1 ltac:(lia)) as (P1 & _ & U1).
  destruct (netboot_ack_ready s2 d b l CMD_FILE_SEND_INIT 0 st w R2 Dl) as (s3 & Ak & R3 & St & Fw).
  pose proof (sent_rest _ _ _ St) as Er. injection Er as E1 E2 E3 E4.
  exists s3. split; [|split; [|split; [done|split; [by rewrite E1|done] ] ] ].
  2:{ eapply transfer_agree; [exact T2|done|done| |]; (eapply sent_agree; [exact St| |]).
      - apply T2.
      - eapply first_buffer_apart; [exact R2|]. apply T2.
      - exact Mi.
      - eapply first_buffer_apart; [exact R2|]. apply T2. }
  unfold netboot_send_init. run_step (load_n_ret 8 _ _ _ Ml).
  replace (u64 (sizeof_message + zlen info - sizeof_message)) with (zlen info)
    by (rewrite wrap_small; unfold sizeof_message; lia).
  run_step (boot_AllocatePool_ret _ _ _ _ _ _ A1 O1). cbv beta iota. rewrite O1.
  erewrite bind_ret by done. erewrite bind_ret by done. cbn [file_info nb set_nb].
  assert (Lj : zlen (bytes_at c1 (zlen info)) = zlen info) by (apply length_bytes_at; lia).
  assert (D1 : disj p1 (zlen info) (msg_data msg) (zlen info)).
  { apply disj_sym. eapply mapped_unmapped_disj; [eapply holds_mapped; [exact Hi|lia]|exact U1|lia..]. }
  erewrite bind_ret.
  2:{ apply (memcpy_ret _ _ _ _ info); cbn [mem set_nb set_pool set_mem]; try apply Hi; [lia| | |].
      - destruct Hi as [Ri _]. rewrite read_write_disj; [exact Ri|]. rewrite Lj. unfold disj in *. lia.
      - eapply mapped_sub; [apply mapped_write_self|lia|lia].
      - unfold disj in *. lia. }
  cbn [mem set_nb set_pool set_mem]. rewrite write_bytes_twice by lia.
  erewrite bind_ret by done.
  assert (F0 : load 8 (write_bytes (mem s) p1 info) (info_file_size p1) = Some size).
  { pose proof (info_field _ p1 info 0 (read_write_same (mem s) p1 info) ltac:(lia)) as F0.
    by rewrite Z.add_0_r, drop_0 in F0. }
  erewrite bind_ret by (apply load_n_ret; exact F0).
  erewrite bind_ret by (apply boot_AllocatePool_ret; [exact A2|exact O2]). cbv beta iota. rewrite O2.
  erewrite bind_ret by done. rewrite <-Ak. unfold s2, transfer_opened.
  replace (NetbootState STATE_FILE_TRANSFER p1 p2 0 0)
    with (NetbootState STATE_FILE_TRANSFER p1 p2 (file_bytes_transferred (nb s))
            (file_packets_transferred (nb s))) by (by rewrite Hb, Hp).
  reflexivity.
Qed.

End Transfer.
