(* ===== verification/Net.v ===== *)
(** * Receiving and polling: net_eth_receive, net_udp6_receive, net/net.c

    [net_get_protocol], [net_open] and [net_kernel_load] are in Session.v. *)

From S2P Require Import Prelude Memory Firmware State CString Printf PrintfFacts Console Alloc.
From S2P Require Import Inet Bufpool Ip6 Ip6Facts Ip6Setup Eth Icmp6 Udp6 Ucs2 Netboot.
From S2P Require Import NetbootFacts Transfer.

(** udp_header_t of a received datagram *)
Definition udp_header_dest_port (p : Z) : Z := p + 2.

Section Net.
Context {E : Efi} {F : Firmware} {L : Layout} {K : Fuel} {H : ImageHandle}.

(** net/udp6.c *)
Definition net_udp6_receive (ip data len : Z) : M Z :=
  port ← load16 (udp_header_dest_port data);
  if ntohs port =? 57777 then netboot_cmd_receive (data + UDP_HEADER_LEN)
  else mret EFI_SUCCESS.

(** net/eth.c: three addresses are ours; [memcmp] stops at the first match. *)
Definition eth_foreign (dst : Z) : M bool :=
  c ← memcmp a_ip6_ll_addr dst 16;
  if c =? 0 then mret false
  else
    c ← memcmp a_ip6_snm_addr dst 16;
    if c =? 0 then mret false
    else c ← memcmp a_ip6_all_nodes dst 16; mret (negb (c =? 0)).

Definition net_eth_receive (data len : Z) : M Z :=
  if len <? ETH_HLEN + IP6_HEADER_LEN then
    _ ← efi_printf (str "invalid packet length" ++ newline) []; mret EFI_ABORTED
  else
    protocol ← load16 (eth_h_protocol data);
    if negb (protocol =? htons ETH_IP6) then mret EFI_ABORTED
    else
      let ip := packet_ip6 data in
      let len := len - (ETH_HLEN + IP6_HEADER_LEN) in
      flow ← load32 (ip6_ver_tc_flow ip);
      if negb (Z.land flow 0xF0 =? 0x60) then
        _ ← efi_printf (str "unknown IPv6 version" ++ newline) []; mret EFI_ABORTED
      else
        length ← load16 (ip6_length ip);
        let n := ntohs length in
        if len <? n then
          _ ← efi_printf (str "IPv6 length mismatch" ++ newline) []; mret EFI_ABORTED
        else
          foreign ← eth_foreign (ip6_dst ip);
          if (foreign : bool) then mret EFI_SUCCESS
          else
            _ ← memcpy a_remote_mac_addr (eth_h_source data) 6;
            _ ← memcpy a_remote_ip6_addr (ip6_src ip) 16;
            next ← load8 (ip6_next_header ip);
            _ ← (if next =? 17 then _ ← net_udp6_receive ip (packet_data data) n; skip
                 else if next =? 58 then net_icmp6_receive ip (packet_data data) n
                 else skip);
            mret EFI_SUCCESS.

(** net/net.c: the timer *)
Definition net_timer_set (ms : Z) : M unit :=
  t ← gets (fun s => net_timer (ng s));
  if t =? 0 then skip
  else
    status ← firmware (SetTimer t TimerRelative (u64 (ms * 10000)));
    EFIERR (str "net/net.c") 23 status.

Definition net_timer_expired : M bool :=
  t ← gets (fun s => net_timer (ng s));
  if t =? 0 then mret false
  else st ← firmware (CheckEvent t); mret (st =? EFI_SUCCESS).

Definition net_advertise : M unit := netboot_cmd_send CMD_ADVERTISE 0 0.

Definition set_net_advertised (v : bool) : M unit :=
  modify (fun s => let g := ng s in
    set_ng (NetGlobals (mcast_filter_count g) (snp g) (net_timer g) (net_poll_continue g) v
      (net_stop_advertising g)) s).

Definition net_close : M unit :=
  t ← gets (fun s => net_timer (ng s));
  h ← gets (fun s => snp (ng s));
  _ ← firmware (SetTimer t TimerCancel 0);
  _ ← firmware (CloseEvent t);
  _ ← firmware (SnpShutdown h);
  _ ← firmware (SnpStop h);
  skip.

(** net_poll: advertise when it is time to *)
Definition net_poll_advertise : M unit :=
  h ← gets (fun s => snp (ng s));
  advertised ← gets (fun s => net_advertised (ng s));
  if negb (h =? 0) && negb advertised then
    _ ← net_advertise; _ ← net_timer_set 2000; set_net_advertised true
  else
    expired ← net_timer_expired;
    stopped ← gets (fun s => net_stop_advertising (ng s));
    if (expired : bool) && negb stopped then _ ← net_advertise; net_timer_set 2000 else skip.

(** net_poll: collect a buffer the card is done with; [false] when the card
    reports an error and the poll ends. *)
Definition net_poll_collect : M bool :=
  avail ← gets (fun s => eth_bufpool_avail (bp s));
  if avail <? 16 then
    h ← gets (fun s => snp (ng s));
    '(status, tx_buf) ← firmware (SnpGetStatus h);
    if negb (status =? 0) then
      _ ← efi_printf (str "GetStatus returned %zu" ++ newline) [VWord status]; mret false
    else if negb (tx_buf =? 0) then
      phys ← gets (fun s => eth_buffer_phys (bp s));
      _ ← (if (phys <=? tx_buf) && (tx_buf <? u64 (phys + ETH_BUFFERS_PAGES * 0x1000))
           then net_bufpool_return tx_buf
           else _ ← efi_printf (str "invalid buffer returned to pool" ++ newline) []; skip);
      mret true
    else mret true
  else mret true.

(** net_poll: one packet from the card, into [data] *)
Definition net_poll_receive (data : Z) : M unit :=
  h ← gets (fun s => snp (ng s));
  '(status, packet) ← firmware (SnpReceive h 2048);
  if negb (status =? EFI_SUCCESS) then
    if negb (status =? EFI_NOT_READY) then EFIERR (str "net/net.c") 197 status else skip
  else
    _ ← write_block data packet;
    _ ← net_eth_receive data (zlen packet);
    skip.

Definition net_poll : M unit :=
  with_local 2048 (fun data =>
    _ ← net_poll_advertise;
    go ← net_poll_collect;
    if (go : bool) then net_poll_receive data else skip).

(** while(net_poll_continue) net_poll(); *)
Fixpoint net_poll_loop (fuel : nat) : M unit :=
  go ← gets (fun s => net_poll_continue (ng s));
  if negb go then skip
  else match fuel with O => fun _ => NoFuel | S fuel => _ ← net_poll; net_poll_loop fuel end.

End Net.
