(* ===== verification/NetFacts.v ===== *)
(** * What [net_eth_receive] does with a frame *)

From S2P Require Import Prelude Memory Firmware State CString Printf PrintfFacts Console Alloc.
From S2P Require Import Inet Bufpool Ip6 Ip6Facts Ip6Setup Eth Icmp6 Udp6 Ucs2 Netboot.
From S2P Require Import NetbootFacts Transfer Net.

(** ** Classification of frames *)

(** The decision for a frame: dropped as invalid, ignored as not for this host,
    or delivered with its protocol and payload length. *)
Inductive verdict := Invalid | Foreign | Deliver (next n : Z).

Definition addressed_to (d : addresses) (dst : list Z) : bool :=
  bool_decide (dst = ip6_ll_addr d \/ dst = ip6_snm_addr d \/ dst = ip6_all_nodes).

Definition classify (d : addresses) (frame : list Z) : verdict :=
  if zlen frame <? 54 then Invalid
  else if negb (bool_decide (chunk 12 2 frame = be_bytes 2 ETH_IP6)) then Invalid
  else if negb (Z.land (frame !!! 14%nat) 0xF0 =? 0x60) then Invalid
  else let n := be_num (chunk 18 2 frame) in
    if zlen frame - 54 <? n then Invalid
    else if addressed_to d (chunk 38 16 frame) then Deliver (frame !!! 20%nat) n
    else Foreign.

(** The address cache after a delivered frame. *)
Definition heard (d : addresses) (frame : list Z) : addresses :=
  Addresses (ll_mac_addr d) (ip6_ll_addr d) (ip6_snm_addr d) (chunk 6 6 frame) (chunk 22 16 frame).

Section NetFacts.
Context {E : Efi} {F : Firmware} {L : Layout} {K : Fuel} {H : ImageHandle}.

Definition cache_remote (s : state) (frame : list Z) : state :=
  set_mem (write_bytes (write_bytes (mem s) a_remote_mac_addr (chunk 6 6 frame))
             a_remote_ip6_addr (chunk 22 16 frame)) s.

(** The upper layer called for a delivered packet. *)
Definition net_dispatch (next data n : Z) : M unit :=
  if next =? 17 then _ ← net_udp6_receive (packet_ip6 data) (packet_data data) n; skip
  else if next =? 58 then net_icmp6_receive (packet_ip6 data) (packet_data data) n
  else skip.

Lemma two_bytes (bs : list Z) : length bs = 2%nat -> exists b0 b1, bs = [b0; b1].
Proof. destruct bs as [|b0 [|b1 [|] ] ]; try done. eauto. Qed.

Lemma ethertype_ip6 bs :
  length bs = 2%nat -> are_bytes bs ->
  (le_num bs =? htons ETH_IP6) = bool_decide (bs = be_bytes 2 ETH_IP6).
Proof.
  intros Hl B. destruct (two_bytes bs Hl) as (b0 & b1 & ->). rewrite !Forall_cons in B.
  unfold is_byte in B. change (htons ETH_IP6) with (0x86 + 256 * 0xDD).
  change (be_bytes 2 ETH_IP6) with [0x86; 0xDD]. cbn [le_num].
  case_bool_decide as Eb.
  - injection Eb as -> ->. done.
  - apply Z.eqb_neq. intros En. apply Eb. f_equal; [lia|f_equal; lia].
Qed.

Lemma ntohs_two bs : length bs = 2%nat -> are_bytes bs -> ntohs (le_num bs) = be_num bs.
Proof.
  intros Hl B. destruct (two_bytes bs Hl) as (b0 & b1 & ->). rewrite !Forall_cons in B.
  apply ntohs_be; tauto.
Qed.

Lemma version_bits bs b :
  are_bytes bs -> bs !! 0%nat = Some b -> Z.land (le_num bs) 0xF0 = Z.land b 0xF0.
Proof.
  destruct bs as [|b0 bs]; [done|]. intros B [= ->]. cbn [le_num].
  apply Forall_cons in B as [B _]. unfold is_byte in B.
  apply Z.bits_inj'. intros k Hk. rewrite !Z.land_spec.
  destruct (Z.ltb_spec k 8).
  - f_equal. rewrite <-(Z.mod_pow2_bits_low (b + 256 * le_num bs) 8 k) by lia.
    rewrite <-(Z.mod_pow2_bits_low b 8 k) by lia. f_equal. change (2 ^ 8) with 256.
    rewrite Z.mul_comm, Z_mod_plus_full. done.
  - replace (Z.testbit 240 k) with false; [by rewrite !andb_false_r|]. symmetry.
    apply Z.bits_above_log2; [lia|]. change (Z.log2 240) with 7. lia.
Qed.

Lemma eth_foreign_ret s d dst bs :
  has_addresses (mem s) d -> read_bytes (mem s) dst 16 = Some bs ->
  eth_foreign dst s = Ret (negb (addressed_to d bs)) s.
Proof.
  intros A R. destruct (has_ll_ip _ _ A) as [R1 _]. destruct (has_snm _ _ A) as [R2 _].
  destruct (has_all_nodes _ _ A) as [R3 _].
  assert (Cmp : forall cs, length cs = 16%nat ->
    (bytes_cmp cs bs =? 0) = bool_decide (bs = cs)).
  { intros cs Lc. pose proof (read_bytes_length _ _ _ _ R) as Lb.
    pose proof (bytes_cmp_zero cs bs ltac:(lia)) as Cz.
    destruct (Z.eqb_spec (bytes_cmp cs bs) 0) as [E0|N0]; symmetry.
    - apply bool_decide_eq_true_2. symmetry. by apply Cz.
    - apply bool_decide_eq_false_2. intros ->. by apply N0, Cz. }
  unfold eth_foreign, addressed_to.
  run_step (memcmp_ret _ _ _ _ _ _ R1 R). rewrite Cmp by apply (read_bytes_length _ _ _ _ R1).
  case_bool_decide as E1; [rewrite bool_decide_eq_true_2 by tauto; done|].
  run_step (memcmp_ret _ _ _ _ _ _ R2 R). rewrite Cmp by apply (read_bytes_length _ _ _ _ R2).
  case_bool_decide as E2; [rewrite bool_decide_eq_true_2 by tauto; done|].
  run_step (memcmp_ret _ _ _ _ _ _ R3 R). rewrite Cmp by done.
  unfold mret, M_ret. do 2 f_equal. apply bool_decide_ext. tauto.
Qed.

Lemma print_and_abort msg s :
  fmt_safe (length msg) msg [] = true ->
  exists w, printed (fw s) w
    /\ (_ ← efi_printf msg []; mret EFI_ABORTED) s = Ret EFI_ABORTED (set_fw w s).
Proof.
  intros Hm. destruct (efi_printf_prints msg [] [] (fun _ => mret EFI_ABORTED) s Hm)
    as (r & w & P & Pr); [constructor|]. by exists w.
Qed.

(** [net_eth_receive] does with every frame what [classify] says. *)
Lemma net_eth_receive_classify {LL : LayoutLaws L} s d data frame :
  has_addresses (mem s) d -> holds (mem s) data (zlen frame) frame -> away data (zlen frame) ->
  match classify d frame with
  | Invalid => exists w, printed (fw s) w
      /\ net_eth_receive data (zlen frame) s = Ret EFI_ABORTED (set_fw w s)
  | Foreign => net_eth_receive data (zlen frame) s = Ret EFI_SUCCESS s
  | Deliver next n =>
      net_eth_receive data (zlen frame) s
      = (_ ← net_dispatch next data n; mret EFI_SUCCESS) (cache_remote s frame)
  end.
Proof.
  intros A Hf Aw. unfold classify, net_eth_receive.
  change (ETH_HLEN + IP6_HEADER_LEN) with 54.
  destruct (Z.ltb_spec (zlen frame) 54) as [|Hl]; [by apply print_and_abort|].
  pose proof (chunk_bytes 12 2 frame ltac:(apply Hf)) as B12.
  pose proof (chunk_bytes 14 4 frame ltac:(apply Hf)) as B14.
  pose proof (chunk_bytes 18 2 frame ltac:(apply Hf)) as B18.
  assert (Ret0 : forall s : state, exists w, printed (fw s) w
    /\ @mret _ M_ret _ EFI_ABORTED s = Ret EFI_ABORTED (set_fw w s))
    by (intros s0; exists (fw s0); split; [done|by destruct s0]).
  unfold eth_h_protocol. erewrite bind_ret by (apply load_n_ret;
    apply (load_chunk 2 _ _ _ frame 12 Hf); lia).
  rewrite ethertype_ip6 by (rewrite ?chunk_length by lia; done).
  destruct (negb _) eqn:Et; [apply Ret0|]. clear Et.
  unfold ip6_ver_tc_flow, packet_ip6. erewrite bind_ret by (apply load_n_ret;
    apply (load_chunk 4 _ _ _ frame 14 Hf); lia).
  destruct (lookup_lt_is_Some_2 frame 14 ltac:(lia)) as [b14 H14].
  rewrite (list_lookup_total_correct _ _ _ H14).
  rewrite (version_bits _ b14 B14) by (unfold chunk; rewrite lookup_take_lt, lookup_drop by lia; done).
  destruct (negb _) eqn:Ev; [by apply print_and_abort|]. clear Ev.
  unfold ip6_length. replace (data + 14 + 4) with (data + Z.of_nat 18) by lia.
  erewrite bind_ret by (apply load_n_ret; apply (load_chunk 2 _ _ _ frame 18 Hf); lia).
  rewrite ntohs_two by (rewrite ?chunk_length by lia; done). cbv zeta.
  set (n := be_num _). destruct (zlen frame - 54 <? n); [by apply print_and_abort|].
  unfold ip6_dst. replace (data + 14 + 24) with (data + Z.of_nat 38) by lia.
  erewrite bind_ret by (apply (eth_foreign_ret _ d); [done|apply (holds_chunk _ _ _ _ 38 16 Hf); lia]).
  destruct (addressed_to d _); cbn [negb]; [|done].
  pose proof (holds_chunk _ _ _ _ 6 6 Hf ltac:(lia) ltac:(lia)) as R6.
  pose proof (holds_chunk _ _ _ _ 22 16 Hf ltac:(lia) ltac:(lia)) as R22.
  assert (L6 : length (chunk 6 6 frame) = 6%nat) by (apply chunk_length; lia).
  assert (L22 : length (chunk 22 16 frame) = 16%nat) by (apply chunk_length; lia).
  assert (Dm : forall a k, (a, k) ∈ statics -> disj a k data (zlen frame))
    by (intros a k I; by apply disj_sym, (away_disj _ _ _ _ Aw)).
  assert (D6 : disj a_remote_mac_addr 6 data (zlen frame)) by (by apply Dm, (in_statics 2)).
  assert (D22 : disj a_remote_ip6_addr 16 data (zlen frame)) by (by apply Dm, (in_statics 3)).
  unfold eth_h_source. erewrite bind_ret.
  2:{ apply (memcpy_ret _ _ _ _ (chunk 6 6 frame)); [lia|exact R6|apply chunk_bytes, Hf| |].
      - exact (holds_mapped _ _ _ _ (has_remote_mac _ _ A) ltac:(lia)).
      - unfold disj in *. lia. }
  unfold ip6_src. replace (data + 14 + 8) with (data + Z.of_nat 22) by lia. erewrite bind_ret.
  2:{ apply (memcpy_ret _ _ _ _ (chunk 22 16 frame)); cbn [mem set_mem];
        [lia| |apply chunk_bytes, Hf| |].
      - rewrite read_write_disj; [exact R22|]. rewrite L6. unfold disj in *. lia.
      - apply mapped_write. exact (holds_mapped _ _ _ _ (has_remote_ip _ _ A) ltac:(lia)).
      - unfold disj in *. lia. }
  rewrite set_mem_twice. cbn [mem set_mem]. fold (cache_remote s frame).
  destruct (lookup_lt_is_Some_2 frame 20 ltac:(lia)) as [b20 H20].
  rewrite (list_lookup_total_correct _ _ _ H20). unfold ip6_next_header.
  replace (data + 14 + 6) with (data + 20) by lia. erewrite bind_ret; [reflexivity|].
  apply load8_read. cbn [mem cache_remote set_mem].
  rewrite !lookup_write_out by (rewrite ?L6, ?L22; unfold disj in *; lia).
  by apply (holds_byte _ _ _ _ 20 _ Hf).
Qed.

(** ** Delivered packets *)

(** Distinct static arrays do not overlap. *)
Lemma static_disj {LL : LayoutLaws L} (i j : nat) a n b k :
  statics !! i = Some (a, n) -> statics !! j = Some (b, k) -> i <> j -> disj a n b k.
Proof. intros Hi Hj N. exact (statics_disjoint i j _ _ Hi Hj N). Qed.

Lemma cache_remote_ready {LL : LayoutLaws L} s d l frame :
  net_ready s d l -> are_bytes frame -> 54 <= zlen frame ->
  net_ready (cache_remote s frame) (heard d frame) l.
Proof.
  intros R B Hl. pose proof R as [P A W Aw].
  assert (L6 : zlen (chunk 6 6 frame) = 6) by (rewrite chunk_length; lia).
  assert (L22 : zlen (chunk 22 16 frame) = 16) by (rewrite chunk_length; lia).
  pose proof (chunk_bytes 6 6 frame B) as B6. pose proof (chunk_bytes 22 16 frame B) as B22.
  unfold cache_remote. set (m1 := write_bytes (mem s) a_remote_mac_addr (chunk 6 6 frame)).
  assert (D1 : forall j b k, statics !! j = Some (b, k) -> j <> 2%nat ->
    disj a_remote_mac_addr (zlen (chunk 6 6 frame)) b k).
  { intros j b k Hj N. rewrite L6. eapply (static_disj 2 j); [done|exact Hj|done]. }
  assert (D2 : forall j b k, statics !! j = Some (b, k) -> j <> 3%nat ->
    disj a_remote_ip6_addr (zlen (chunk 22 16 frame)) b k).
  { intros j b k Hj N. rewrite L22. eapply (static_disj 3 j); [done|exact Hj|done]. }
  split.
  - eapply pool_agree; [exact P|done|]. cbn [mem set_mem]. intros x Hx.
    assert (D6 : disj (eth_buffer_phys (bp s)) 8192 a_remote_mac_addr 6)
      by (by apply (away_disj _ _ _ _ Aw), (in_statics 2)).
    assert (D22 : disj (eth_buffer_phys (bp s)) 8192 a_remote_ip6_addr 16)
      by (by apply (away_disj _ _ _ _ Aw), (in_statics 3)).
    unfold m1. rewrite !lookup_write_out by (rewrite ?L6, ?L22; unfold disj in *; lia). done.
  - cbn [mem set_mem]. destruct A as [H1 H2 H3 H4 H5 H6].
    split; cbn [ll_mac_addr ip6_ll_addr ip6_snm_addr remote_mac_addr remote_ip6_addr heard].
    + apply holds_write; [apply holds_write; [exact H1|lia|by apply (D1 0%nat)]|lia|by apply (D2 0%nat)].
    + apply holds_write; [apply holds_write; [exact H2|lia|by apply (D1 1%nat)]|lia|by apply (D2 1%nat)].
    + apply holds_write; [apply holds_write; [exact H3|lia|by apply (D1 4%nat)]|lia|by apply (D2 4%nat)].
    + apply holds_write; [apply holds_write; [exact H4|lia|by apply (D1 5%nat)]|lia|by apply (D2 5%nat)].
    + apply holds_write; [by apply holds_written|lia|by apply (D2 2%nat)].
    + by apply holds_written.
  - cbn [mem set_mem]. by repeat apply wf_write.
  - done.
Qed.

Lemma classify_deliver d frame next n :
  classify d frame = Deliver next n ->
  54 <= zlen frame /\ 0 <= n <= zlen frame - 54 \/ ~ are_bytes frame.
Proof.
  unfold classify. destruct (Z.ltb_spec (zlen frame) 54); [done|].
  destruct (negb _); [done|]. destruct (negb _); [done|]. cbv zeta.
  destruct (Z.ltb_spec (zlen frame - 54) (be_num (chunk 18 2 frame))); [done|].
  destruct (addressed_to _ _); [|done]. intros [= _ <-].
  destruct (decide (are_bytes frame)) as [B|]; [left|by right].
  pose proof (le_num_range (rev (chunk 18 2 frame)) (Forall_rev (chunk_bytes 18 2 _ B))).
  unfold be_num in *. lia.
Qed.

(** The MAC address a reply to a delivered frame goes to. *)
Definition reply_mac (frame : list Z) : list Z :=
  if bool_decide (head (chunk 22 16 frame) = Some 0xFF)
  then multicast_mac (chunk 22 16 frame) else chunk 6 6 frame.

Lemma reply_resolves d frame :
  resolve (remote_mac_addr (heard d frame)) (remote_ip6_addr (heard d frame)) (chunk 22 16 frame)
  = Some (reply_mac frame).
Proof.
  unfold resolve, reply_mac, heard. case_bool_decide; [done|].
  by rewrite bool_decide_eq_true_2.
Qed.

(** The parts of a delivered frame, after the cache has been updated. *)
Record delivered (s : state) (d : addresses) (l : list Z) (data : Z) (frame : list Z) (n : Z)
    : Prop := {
  dl_ready : net_ready (cache_remote s frame) (heard d frame) l;
  dl_length : 54 <= zlen frame /\ 0 <= n <= zlen frame - 54;
  dl_frame : holds (mem (cache_remote s frame)) data (zlen frame) frame;
  dl_src : holds (mem (cache_remote s frame)) (ip6_src (packet_ip6 data)) 16 (chunk 22 16 frame);
  dl_payload : holds (mem (cache_remote s frame)) (packet_data data) n (chunk 54 (Z.to_nat n) frame);
}.

Lemma frame_delivered {LL : LayoutLaws L} s d l data frame next n :
  net_ready s d l -> holds (mem s) data (zlen frame) frame -> apart s data (zlen frame) ->
  classify d frame = Deliver next n -> delivered s d l data frame n.
Proof.
  intros R Hf [_ Aw] Cl. destruct (classify_deliver _ _ _ _ Cl) as [ [Hl Hn]|Nb];
    [|by destruct Nb; apply Hf].
  assert (Hf' : holds (mem (cache_remote s frame)) data (zlen frame) frame).
  { apply holds_write; [apply holds_write|lia|]; [done|lia| |].
    - rewrite chunk_length by lia. apply disj_sym. by apply (away_disj _ _ _ _ Aw), (in_statics 2).
    - rewrite chunk_length by lia. apply disj_sym. by apply (away_disj _ _ _ _ Aw), (in_statics 3). }
  split; [|done|done| |].
  - apply cache_remote_ready; [done|apply Hf|done].
  - split; [|apply chunk_bytes, Hf].
    replace (ip6_src (packet_ip6 data)) with (data + Z.of_nat 22) by (unfold ip6_src, packet_ip6; lia).
    apply (holds_chunk _ _ _ _ 22 16 Hf'); lia.
  - split; [|apply chunk_bytes, Hf]. replace (packet_data data) with (data + Z.of_nat 54)
      by (unfold packet_data; lia). apply (holds_chunk _ _ _ _ 54 _ Hf'); lia.
Qed.

(** What the handler of a delivered packet leaves alone, [net_eth_receive] leaves
    alone. *)
Lemma cache_kept s d l data frame n s' o k :
  delivered s d l data frame n -> o = packet_data data -> k <= n ->
  kept o k (cache_remote s frame) s' -> kept data (zlen frame) s s'.
Proof.
  intros [_ [Hl Hn] _ _ _] -> Hk [Kr Km]. split; [exact Kr|]. intros a j Mp Ap D x Hx.
  pose proof (away_disj _ _ _ _ (proj2 Ap) (in_statics 2 _ eq_refl)) as D6.
  pose proof (away_disj _ _ _ _ (proj2 Ap) (in_statics 3 _ eq_refl)) as D22.
  rewrite (Km a j); [|by repeat apply mapped_write|exact Ap| |exact Hx].
  - unfold cache_remote. cbn [mem set_mem].
    rewrite !lookup_write_out; [done|..]; rewrite chunk_length by lia; unfold disj in *; lia.
  - unfold disj, packet_data in *. lia.
Qed.

(** An echo request on the wire is answered on the wire. *)
Lemma net_eth_receive_echo {LL : LayoutLaws L} {EL : EfiLaws E} s d b l data frame n code c0 c1 rest
    st w :
  net_ready s d (b :: l) -> holds (mem s) data (zlen frame) frame -> apart s data (zlen frame) ->
  classify d frame = Deliver IPPROTO_ICMP6 n -> n <= ICMP6_MAX_LENGTH ->
  chunk 54 (Z.to_nat n) frame = [ICMP6_TYPE_ECHO_REQUEST; code; c0; c1] ++ rest ->
  SnpTransmit (snp (ng s)) (b + 8)
    (ip6_frame (reply_mac frame) (heard d frame) (chunk 22 16 frame) IPPROTO_ICMP6 2
       ([ICMP6_TYPE_ECHO_REPLY; code; 0; 0] ++ rest)) (fw s) = (st, w) ->
  exists s', net_eth_receive data (zlen frame) s = Ret EFI_SUCCESS s'
    /\ net_ready s' (heard d frame) (free_after st b l) /\ kept data (zlen frame) s s' /\ fw s' = w.
Proof.
  intros R Hf Ap Cl Hn Sl T. pose proof (frame_delivered _ _ _ _ _ _ _ R Hf Ap Cl) as Dl.
  pose proof Dl as [Rd Ll _ Hs Hp]. rewrite Sl in Hp.
  pose proof (net_eth_receive_classify s d data frame (ready_addresses _ _ _ R) Hf ltac:(apply Ap))
    as Rc. rewrite Cl in Rc.
  assert (En : zlen ([ICMP6_TYPE_ECHO_REQUEST; code; c0; c1] ++ rest) = n)
    by (rewrite <-Sl, chunk_length; lia).
  rewrite <-En in Hp.
  destruct (net_icmp6_echo (cache_remote s frame) (heard d frame) b l (packet_ip6 data)
    (packet_data data) (chunk 22 16 frame) (reply_mac frame) code c0 c1 rest st w)
    as (s' & Rcv & R' & Kp & Fw); try done.
  - rewrite En. destruct Ap as [Ap1 Ap2]. split.
    + unfold disj, packet_data in *. cbn [bp cache_remote set_mem]. lia.
    + eapply away_sub; [exact Ap2|unfold packet_data; lia..].
  - pose proof (first_buffer_apart _ _ _ _ _ _ R Ap) as D.
    unfold disj, ip6_src, packet_ip6 in *. lia.
  - rewrite En. unfold disj, ip6_src, packet_ip6, packet_data. lia.
  - by rewrite En.
  - apply reply_resolves.
  - exists s'. split; [|split; [done|split; [|done] ] ].
    2:{ eapply (cache_kept s d (b :: l)); [exact Dl|done| |exact Kp]. lia. }
    rewrite Rc. unfold net_dispatch. change (IPPROTO_ICMP6 =? 17) with false.
    change (IPPROTO_ICMP6 =? 58) with true. cbv iota. rewrite <-En. by run_step Rcv.
Qed.

(** A neighbor solicitation for this host is answered with an advertisement. *)
Lemma net_eth_receive_solicitation {LL : LayoutLaws L} {EL : EfiLaws E} s d b l data frame n st w :
  let msg := chunk 54 (Z.to_nat n) frame in
  net_ready s d (b :: l) -> holds (mem s) data (zlen frame) frame -> apart s data (zlen frame) ->
  classify d frame = Deliver IPPROTO_ICMP6 n -> 24 <= n ->
  msg !! 0%nat = Some ICMP6_TYPE_NEIGHBOR_SOLICITATION -> msg !! 1%nat = Some 0 ->
  take 16 (drop 8 msg) = ip6_ll_addr d -> frame !! 21%nat = Some 255 ->
  SnpTransmit (snp (ng s)) (b + 8)
    (ip6_frame (reply_mac frame) (heard d frame) (chunk 22 16 frame) IPPROTO_ICMP6 2
       (advertisement d)) (fw s) = (st, w) ->
  exists s', net_eth_receive data (zlen frame) s = Ret EFI_SUCCESS s'
    /\ net_ready s' (heard d frame) (free_after st b l) /\ kept data (zlen frame) s s' /\ fw s' = w.
Proof.
  intros msg R Hf Ap Cl Hn M0 M1 Mt Hh T.
  pose proof (frame_delivered _ _ _ _ _ _ _ R Hf Ap Cl) as Dl.
  pose proof Dl as [Rd Ll Hf' Hs Hp]. fold msg in Hp.
  pose proof (net_eth_receive_classify s d data frame (ready_addresses _ _ _ R) Hf ltac:(apply Ap))
    as Rc. rewrite Cl in Rc.
  assert (En : zlen msg = n) by (unfold msg; rewrite chunk_length; lia).
  rewrite <-En in Hp.
  destruct (net_icmp6_solicited (cache_remote s frame) (heard d frame) b l (packet_ip6 data)
    (packet_data data) msg (chunk 22 16 frame) (reply_mac frame) st w)
    as (s' & Rcv & R' & Kp & Fw); try done.
  - lia.
  - replace (ip6_hop_limit (packet_ip6 data)) with (data + 21)
      by (unfold ip6_hop_limit, packet_ip6; lia).
    apply (holds_byte _ _ _ _ 21 _ Hf'); [done|lia].
  - pose proof (first_buffer_apart _ _ _ _ _ _ R Ap) as D.
    unfold disj, ip6_src, packet_ip6 in *. lia.
  - apply reply_resolves.
  - exists s'. split; [|split; [done|split; [|done] ] ].
    2:{ eapply (cache_kept s d (b :: l)); [exact Dl|done| |exact Kp]. lia. }
    rewrite Rc. unfold net_dispatch. change (IPPROTO_ICMP6 =? 17) with false.
    change (IPPROTO_ICMP6 =? 58) with true. cbv iota. rewrite <-En. by run_step Rcv.
Qed.

End NetFacts.
