(* ===== verification/TransferRuns.v ===== *)
(** * Runs of a file transfer

    What the program does while a transfer is running, as steps: the handling of
    fragments, and everything else it does in between.  Every step is one of the
    program's operations; the proofs show which of them leave the transfer
    alone. *)

From S2P Require Import Prelude Memory Firmware State CString Printf PrintfFacts Console Alloc.
From S2P Require Import Inet Bufpool Ip6 Ip6Facts Ip6Setup Eth Icmp6 Udp6 Ucs2 Netboot.
From S2P Require Import NetbootFacts Transfer Net NetFacts.

Section TransferRuns.
Context {E : Efi} {F : Firmware} {L : Layout} {K : Fuel} {H : ImageHandle}.
Context {LL : LayoutLaws L} {EL : EfiLaws E} {AL : AllocLaws E F}.

(** The [n] bytes at [a] are not those of the transfer: the file's buffer, of
    [size] bytes, and its announcement. *)
Definition off_transfer (size : Z) (s : state) (a n : Z) : Prop :=
  disj a n (file_buffer (nb s)) size /\ disj a n (file_info (nb s)) 32.

(** The commands that end a transfer, restart it or carry it on. *)
Definition transfer_commands : list Z := [CMD_FWSETUP; CMD_FILE_SEND_INIT; CMD_FILE_FRAGMENT].

(** A step during the transfer of a file cut into [chunks].  [Some i]: the
    fragment [i], any of them, arrives and is handled.  [None], in between: *)
Inductive transfer_step (chunks : list (list Z)) (size cap : Z) :
    option nat -> state -> state -> Prop :=
  | fragment_arrives s s' d b l msg (i : nat) payload st w r :
      chunks !! i = Some payload ->
      arrives s d b l size cap r msg (Z.of_nat i) payload ->
      (let ack := (receive_fragment r (Z.of_nat i) payload).2 in
       delivers (ack_state (fragment_stored s r (Z.of_nat i) payload) CMD_FILE_FRAGMENT ack) d b
         CMD_ACK (ack_bytes CMD_FILE_FRAGMENT ack) st w) ->
      netboot_cmd_receive msg s = Ret EFI_SUCCESS s' ->
      transfer_step chunks size cap (Some i) s s'
  (** another command is handled, with the complaint that it is unexpected; *)
  | command_arrives s s' msg cmd st :
      load 4 (mem s) (msg_cmd msg) = Some cmd -> cmd ∉ transfer_commands ->
      netboot_cmd_receive msg s = Ret st s' -> transfer_step chunks size cap None s s'
  (** a frame is refused, or is for another host; *)
  | frame_ignored s s' d data frame st :
      has_addresses (mem s) d -> holds (mem s) data (zlen frame) frame -> away data (zlen frame) ->
      (forall next n, classify d frame <> Deliver next n) ->
      net_eth_receive data (zlen frame) s = Ret st s' -> transfer_step chunks size cap None s s'
  (** an echo request is answered; *)
  | echo_answered s s' d b l data frame n code c0 c1 rest st w status :
      net_ready s d (b :: l) -> holds (mem s) data (zlen frame) frame -> apart s data (zlen frame) ->
      off_transfer size s data (zlen frame) ->
      classify d frame = Deliver IPPROTO_ICMP6 n -> n <= ICMP6_MAX_LENGTH ->
      chunk 54 (Z.to_nat n) frame = [ICMP6_TYPE_ECHO_REQUEST; code; c0; c1] ++ rest ->
      SnpTransmit (snp (ng s)) (b + 8)
        (ip6_frame (reply_mac frame) (heard d frame) (chunk 22 16 frame) IPPROTO_ICMP6 2
           ([ICMP6_TYPE_ECHO_REPLY; code; 0; 0] ++ rest)) (fw s) = (st, w) ->
      net_eth_receive data (zlen frame) s = Ret status s' -> transfer_step chunks size cap None s s'
  (** a neighbor solicitation is answered; *)
  | solicitation_answered s s' d b l data frame n st w status :
      let msg := chunk 54 (Z.to_nat n) frame in
      net_ready s d (b :: l) -> holds (mem s) data (zlen frame) frame -> apart s data (zlen frame) ->
      off_transfer size s data (zlen frame) ->
      classify d frame = Deliver IPPROTO_ICMP6 n -> 24 <= n ->
      msg !! 0%nat = Some ICMP6_TYPE_NEIGHBOR_SOLICITATION -> msg !! 1%nat = Some 0 ->
      take 16 (drop 8 msg) = ip6_ll_addr d -> frame !! 21%nat = Some 255 ->
      SnpTransmit (snp (ng s)) (b + 8)
        (ip6_frame (reply_mac frame) (heard d frame) (chunk 22 16 frame) IPPROTO_ICMP6 2
           (advertisement d)) (fw s) = (st, w) ->
      net_eth_receive data (zlen frame) s = Ret status s' -> transfer_step chunks size cap None s s'
  (** the host is advertised; *)
  | host_advertised s s' d b l st w :
      net_ready s d (b :: l) -> delivers s d b CMD_ADVERTISE [] st w ->
      net_advertise s = Ret tt s' -> transfer_step chunks size cap None s s'
  (** a buffer comes back from the card; *)
  | buffer_returned s s' d l b :
      net_ready s d l -> is_buffer (eth_buffer_phys (bp s)) b -> b ∉ l ->
      net_bufpool_return (b + 8) s = Ret tt s' -> transfer_step chunks size cap None s s'
  (** a local is made, a packet is stored, the local is given up; *)
  | local_opened s n : 0 <= n -> transfer_step chunks size cap None s (enter_local n s)
  | packet_stored s s' data frame :
      off_transfer size s data (zlen frame) -> write_block data frame s = Ret tt s' ->
      transfer_step chunks size cap None s s'
  | local_closed s s' data n :
      0 <= n -> off_transfer size s data n -> drop_storage data n s = Ret tt s' ->
      transfer_step chunks size cap None s s'
  (** a service of the firmware is called, or a flag of the network set. *)
  | service_called {A} (f : fwst -> A * fwst) a s s' :
      firmware f s = Ret a s' -> transfer_step chunks size cap None s s'
  | flag_set s g : transfer_step chunks size cap None s (set_ng g s).

Inductive transfer_run (chunks : list (list Z)) (size cap : Z) :
    list nat -> state -> state -> Prop :=
  | run_done s : transfer_run chunks size cap [] s s
  | run_step_more o ids s s1 s2 :
      transfer_step chunks size cap o s s1 -> transfer_run chunks size cap ids s1 s2 ->
      transfer_run chunks size cap (option_list o ++ ids) s s2.

(** ** Steps that leave the transfer alone *)

Record bystander (size : Z) (s s' : state) : Prop := {
  by_nb : nb s' = nb s;
  by_phys : eth_buffer_phys (bp s') = eth_buffer_phys (bp s);
  by_buffer : agree (mem s) (mem s') (file_buffer (nb s)) size;
  by_info : agree (mem s) (mem s') (file_info (nb s)) 16;
}.

Lemma bystander_transfer s s' size cap r :
  Transfer s size cap r -> bystander size s s' -> Transfer s' size cap r.
Proof. intros T [B1 B2 B3 B4]. by eapply transfer_same. Qed.

Lemma transfer_info_mapped s size cap r :
  Transfer s size cap r -> mapped (mem s) (file_info (nb s)) 16.
Proof.
  intros T x Hx. pose proof (load_is_mapped _ _ _ _ (tr_size _ _ _ _ T)) as M1.
  pose proof (load_is_mapped _ _ _ _ (tr_cap _ _ _ _ T)) as M2.
  unfold info_file_size, info_data_per_packet in *.
  destruct (decide (x < file_info (nb s) + 8)); [apply M1|apply M2]; lia.
Qed.

(** Memory that is mapped, apart from the network and not in [data] stays. *)
Lemma bystander_outside s s' size cap r data n :
  Transfer s size cap r -> nb s' = nb s -> eth_buffer_phys (bp s') = eth_buffer_phys (bp s) ->
  off_transfer size s data n ->
  (forall a k, mapped (mem s) a k -> apart s a k -> disj data n a k -> agree (mem s) (mem s') a k) ->
  bystander size s s'.
Proof.
  intros T Hn Hp [D1 D2] A. pose proof (tr_info_apart _ _ _ _ T) as [I1 I2]. split; try done.
  - apply A; [apply T|apply T|exact D1].
  - apply A; [by eapply transfer_info_mapped| |unfold disj in *; lia].
    split; [unfold disj in *; lia|eapply away_sub; [exact I2|lia..] ].
Qed.

Lemma bystander_kept s s' size cap r data n :
  Transfer s size cap r -> off_transfer size s data n -> kept data n s s' -> bystander size s s'.
Proof.
  intros T O [Kr Km]. injection Kr as _ En _ _ Ep. by eapply bystander_outside.
Qed.

Lemma bystander_same_memory s s' size :
  nb s' = nb s -> eth_buffer_phys (bp s') = eth_buffer_phys (bp s) -> mem s' = mem s ->
  bystander size s s'.
Proof. intros Hn Hp Hm. split; try done; intros x Hx; by rewrite Hm. Qed.

Lemma command_bystander s s' size cap r msg cmd st :
  Transfer s size cap r -> load 4 (mem s) (msg_cmd msg) = Some cmd -> cmd ∉ transfer_commands ->
  netboot_cmd_receive msg s = Ret st s' -> bystander size s s'.
Proof.
  intros T Lc Nc R. unfold transfer_commands in Nc. rewrite !not_elem_of_cons in Nc.
  destruct Nc as (N1 & N2 & N3 & _). unfold netboot_cmd_receive in R.
  erewrite bind_ret in R by reflexivity. rewrite decide_True in R by apply (tr_state _ _ _ _ T).
  assert (Ft : exists w, netboot_file_transfer msg s = Ret tt (set_fw w s)).
  { unfold netboot_file_transfer. erewrite bind_ret by (by apply load_n_ret).
    rewrite (proj2 (Z.eqb_neq _ _) N3).
    destruct (efi_printf_bind (str "unexpected command in file transfer" ++ newline) [] []
      (fun _ => skip) s) as (x & w & P); [done|constructor|]. by exists w. }
  destruct Ft as [w Ft]. rewrite (bind_ret _ _ _ _ _ Ft) in R.
  erewrite bind_ret in R by (apply load_n_ret; exact Lc).
  rewrite (proj2 (Z.eqb_neq _ _) N1), (proj2 (Z.eqb_neq _ _) N2) in R.
  apply bind_ret_inv in R as ([] & s1 & R & Er). injection Er as _ <-.
  repeat (destruct (_ =? _) in R; [by (injection R as <-; apply bystander_same_memory)||done|]).
  injection R as <-. by apply bystander_same_memory.
Qed.

Lemma ignored_bystander s s' size d data frame st :
  has_addresses (mem s) d -> holds (mem s) data (zlen frame) frame -> away data (zlen frame) ->
  (forall next n, classify d frame <> Deliver next n) ->
  net_eth_receive data (zlen frame) s = Ret st s' -> bystander size s s'.
Proof.
  intros A Hf Aw N R. pose proof (net_eth_receive_classify s d data frame A Hf Aw) as V.
  destruct (classify d frame) as [| |next n]; [|rewrite R in V|by destruct (N next n)].
  - destruct V as (w & _ & V). rewrite R in V. injection V as _ ->. by apply bystander_same_memory.
  - injection V as _ ->. by apply bystander_same_memory.
Qed.

Lemma advertised_bystander s s' size cap r d b l st w :
  Transfer s size cap r -> net_ready s d (b :: l) -> delivers s d b CMD_ADVERTISE [] st w ->
  net_advertise s = Ret tt s' -> bystander size s s'.
Proof.
  intros T R Dl Rn.
  destruct (netboot_cmd_send_ready s d b l CMD_ADVERTISE 0 [] st w) as (s2 & Sd & _ & St & _);
    try done.
  { pose proof (ready_pool _ _ _ R) as P.
    destruct (is_buffer_bounds _ _ b P ltac:(apply P; set_solver)) as (? & _).
    unfold disj. cbn. lia. }
  change (zlen []) with 0 in Sd. unfold net_advertise in Rn. rewrite Sd in Rn. injection Rn as <-.
  pose proof (sent_rest _ _ _ St) as Er. injection Er as _ En _ Ep. split; [done|done|..].
  - eapply sent_agree; [exact St|apply T|]. eapply first_buffer_apart; [exact R|apply T].
  - eapply sent_agree; [exact St|by eapply transfer_info_mapped|].
    eapply first_buffer_apart; [exact R|]. pose proof (tr_info_apart _ _ _ _ T) as [I1 I2].
    split; [unfold disj in *; lia|eapply away_sub; [exact I2|lia..] ].
Qed.

Lemma returned_bystander s s' size cap r d l b :
  Transfer s size cap r -> net_ready s d l -> is_buffer (eth_buffer_phys (bp s)) b -> b ∉ l ->
  net_bufpool_return (b + 8) s = Ret tt s' -> bystander size s s'.
Proof.
  intros T R Bb Nb Rn. destruct (return_buffer s d b l R Bb Nb) as (s2 & Rt & R2 & St & _).
  rewrite Rt in Rn. injection Rn as <-.
  pose proof (is_buffer_bounds _ _ _ (ready_pool _ _ _ R) Bb) as (_ & _ & _ & _ & B1 & B2).
  pose proof (tr_apart _ _ _ _ T) as [A1 _]. pose proof (tr_info_apart _ _ _ _ T) as [A2 _].
  pose proof (step_rest _ _ _ St) as Er. injection Er as _ En _ _.
  split; [done|apply St|..]; intros x Hx; apply St; unfold disj in *; lia.
Qed.

(** The receiver state is determined by the program state. *)
Lemma transfer_unique s size cap r r' : Transfer s size cap r -> Transfer s size cap r' -> r = r'.
Proof.
  intros T T'. destruct r as [bs n], r' as [bs' n'].
  pose proof (tr_bytes _ _ _ _ T) as B1. pose proof (tr_bytes _ _ _ _ T') as B2.
  pose proof (tr_next _ _ _ _ T) as N1. pose proof (tr_next _ _ _ _ T') as N2.
  destruct (tr_data _ _ _ _ T) as [D1 _]. destruct (tr_data _ _ _ _ T') as [D2 _].
  cbn [received next_fragment] in *. assert (zlen bs = zlen bs') as El by lia.
  rewrite El in D1. f_equal; congruence.
Qed.

(** [chunks] are fragments of a file of [size] bytes, not all of it. *)
Definition cut (chunks : list (list Z)) (size : Z) : Prop :=
  zlen (concat chunks) < size /\ zlen chunks < 2 ^ 63.

Lemma concat_take_le (chunks : list (list Z)) n :
  zlen (concat (take n chunks)) <= zlen (concat chunks).
Proof.
  rewrite <-(take_drop n chunks) at 2. rewrite concat_app, length_app. lia.
Qed.

(** One step is one fragment of the abstract receiver, or none. *)
Lemma transfer_step_bystander chunks size cap s s' r :
  transfer_step chunks size cap None s s' -> Transfer s size cap r -> bystander size s s'.
Proof.
  intros St T. remember None as o eqn:Eo. destruct St; try done; clear Eo.
  - by eapply command_bystander.
  - by eapply ignored_bystander.
  - destruct (net_eth_receive_echo s d b l data frame n code c0 c1 rest st w)
      as (s2 & Rc & _ & Kp & _); try done.
    match goal with X : net_eth_receive _ _ _ = _ |- _ => rewrite Rc in X; injection X as _ <- end.
    by eapply bystander_kept.
  - destruct (net_eth_receive_solicitation s d b l data frame n st w)
      as (s2 & Rc & _ & Kp & _); try done.
    match goal with X : net_eth_receive _ _ _ = _ |- _ => rewrite Rc in X; injection X as _ <- end.
    by eapply bystander_kept.
  - by eapply advertised_bystander.
  - by eapply returned_bystander.
  - destruct (stack_fresh (mem s) n ltac:(done)) as [_ U].
    split; [done|done|..]; intros x Hx; unfold enter_local; cbn [mem set_mem];
      apply lookup_write_out; rewrite length_bytes_at by done; intros Hr.
    + destruct (tr_buffer _ _ _ _ T x Hx) as [y Hy]. by rewrite U in Hy.
    + destruct (transfer_info_mapped _ _ _ _ T x Hx) as [y Hy]. by rewrite U in Hy.
  - match goal with X : off_transfer _ _ _ _ |- _ => destruct X as [D1 D2] end.
    match goal with X : write_block _ _ _ = _ |- _ => unfold write_block in X;
      destruct (read_bytes _ _ _); [|done]; injection X as <- end.
    split; [done|done|..]; apply agree_write; [done|unfold disj in *; lia].
  - match goal with X : off_transfer _ _ _ _ |- _ => destruct X as [D1 D2] end.
    match goal with X : drop_storage _ _ _ = _ |- _ => injection X as <- end.
    split; [done|done|..]; intros x Hx; cbn [mem set_mem];
      rewrite lookup_clear_bytes, decide_False by (unfold disj in *; lia); done.
  - match goal with X : firmware _ _ = _ |- _ => rewrite firmware_ret in X; injection X as _ <- end.
    by apply bystander_same_memory.
Qed.

Lemma transfer_step_sim chunks size cap o s s' r :
  cut chunks size -> transfer_step chunks size cap o s s' ->
  Transfer s size cap r -> prefix_of_chunks chunks r ->
  Transfer s' size cap (receive_run chunks (option_list o) r)
  /\ prefix_of_chunks chunks (receive_run chunks (option_list o) r).
Proof.
  intros C St T P. destruct o as [i|].
  2:{ split; [|done]. eapply bystander_transfer; [exact T|]. by eapply transfer_step_bystander. }
  inversion St as [s0 s0' d b l msg i0 payload st w r0 Hi Ar Dl Rc| | | | | | | | | | |]; subst.
  pose proof (transfer_unique _ _ _ _ _ (ar_transfer _ _ _ _ _ _ _ _ _ _ Ar) T) as ->.
  pose proof (lookup_lt_Some _ _ _ Hi) as Li. pose proof (receive_fragment_prefix chunks r i P Li) as P'.
  change (receive_run chunks (option_list (Some i)) r)
    with (receive_fragment r (Z.of_nat i) (chunks !!! i)).1. split; [|done].
  rewrite (list_lookup_total_correct _ _ _ Hi) in *.
  destruct (netboot_receive_fragment s d b l size cap r msg (Z.of_nat i) payload st w)
    as (s1 & Rc1 & T1 & _); try done.
  - intros Ei. destruct P as [Pn Pr]. destruct C as [Cs Cn]. split; [|lia].
    pose proof (concat_take_le chunks (S i)) as Ct.
    rewrite (take_S_r _ _ _ Hi), concat_app in Ct. cbn [concat] in Ct. rewrite app_nil_r in Ct.
    rewrite Pr. replace (Z.to_nat (next_fragment r)) with i by lia. rewrite length_app in Ct. lia.
  - destruct P' as [_ Pr']. rewrite Pr'. destruct C as [Cs _].
    pose proof (concat_take_le chunks (Z.to_nat (next_fragment
      (receive_fragment r (Z.of_nat i) payload).1))). lia.
  - rewrite Rc in Rc1. injection Rc1 as <-. exact T1.
Qed.

Lemma receive_run_app chunks ids ids' r :
  receive_run chunks (ids ++ ids') r = receive_run chunks ids' (receive_run chunks ids r).
Proof. apply foldl_app. Qed.

Lemma transfer_run_sim chunks size cap ids s s' :
  cut chunks size -> transfer_run chunks size cap ids s s' -> forall r,
  Transfer s size cap r -> prefix_of_chunks chunks r ->
  Transfer s' size cap (receive_run chunks ids r)
  /\ prefix_of_chunks chunks (receive_run chunks ids r).
Proof.
  intros C. induction 1 as [s|o ids s s1 s2 St Rn IH]; intros r T P; [done|].
  destruct (transfer_step_sim _ _ _ _ _ _ _ C St T P) as [T1 P1].
  rewrite receive_run_app. by apply IH.
Qed.

(** Fragments [n], [n + 1], ... of a run bring the receiver forward. *)
Lemma receive_run_progress chunks : forall ids n r,
  prefix_of_chunks chunks r -> Forall (fun i => (i < length chunks)%nat) ids ->
  forall k, sublist (seq n k) ids -> Z.of_nat n <= next_fragment r ->
  Z.of_nat (n + k) <= next_fragment (receive_run chunks ids r).
Proof.
  induction ids as [|i ids IH]; intros n r P B k Sb Hn.
  - apply sublist_nil_r in Sb. destruct k; [|done]. cbn. lia.
  - apply Forall_cons in B as [Bi B]. cbn [receive_run foldl].
    pose proof (receive_fragment_prefix chunks r i P Bi) as P'.
    assert (Mono : next_fragment r <= next_fragment (receive_fragment r (Z.of_nat i) (chunks !!! i)).1)
      by (unfold receive_fragment; destruct (_ =? _); cbn [fst next_fragment]; lia).
    destruct k as [|k]; [apply (IH n _ P' B 0%nat); [apply sublist_nil_l|lia]|].
    cbn [seq] in Sb. apply sublist_cons_r in Sb as [Sb|(l & [= <- <-] & Sb)].
    + apply (IH n _ P' B (S k)); [exact Sb|lia].
    + replace (n + S k)%nat with (S n + k)%nat by lia. apply (IH (S n) _ P' B k); [exact Sb|].
      unfold receive_fragment in *. destruct (Z.eqb_spec (Z.of_nat n) (next_fragment r));
        cbn [fst next_fragment] in *; lia.
Qed.

Lemma run_ids_bound chunks size cap ids s s' :
  transfer_run chunks size cap ids s s' -> Forall (fun i => (i < length chunks)%nat) ids.
Proof.
  induction 1 as [|o ids s s1 s2 St Rn IH]; [constructor|]. apply Forall_app_2; [|done].
  destruct St; cbn [option_list]; [|constructor..].
  repeat constructor. by eapply lookup_lt_Some.
Qed.

End TransferRuns.
