(* ===== verification/Session.v ===== *)
(** * A netboot session and the loader's entry point

    [net_get_protocol], [net_open] and [net_kernel_load] of net/net.c, and
    loader.c. *)

From S2P Require Import Prelude Memory Firmware State CString Printf PrintfFacts Console Alloc.
From S2P Require Import DevicePath Paging Handles Inet Bufpool Ip6 Ip6Facts Ip6Setup Eth Icmp6 Udp6.
From S2P Require Import Ucs2 Netboot NetbootFacts Transfer Net Elf Files Segments Boot Kernel.

Section Session.
Context {E : Efi} {F : Firmware} {L : Layout} {K : Fuel} {H : ImageHandle} {T : SystemTable}.

Definition set_snp (v : Z) : M unit :=
  modify (fun s => let g := ng s in
    set_ng (NetGlobals (mcast_filter_count g) v (net_timer g) (net_poll_continue g)
      (net_advertised g) (net_stop_advertising g)) s).
Definition set_net_timer (v : Z) : M unit :=
  modify (fun s => let g := ng s in
    set_ng (NetGlobals (mcast_filter_count g) (snp g) v (net_poll_continue g)
      (net_advertised g) (net_stop_advertising g)) s).

(** ** net/net.c *)

(** for(i = 0; i < nic_count; i++) paths[i] = uefi_handle_get_string(handles[i]); *)
Fixpoint get_paths (handles : list Z) : M (list Z) :=
  match handles with
  | [] => mret []
  | h :: handles =>
      path ← uefi_handle_get_string h; paths ← get_paths handles; mret (path :: paths)
  end.

(** The part of a round that tries one handle: [true] when its link is up. *)
Definition try_nic (h path : Z) : M bool :=
  let fail (format : list Z) (args : list va) : M bool :=
    _ ← efi_printf (format ++ newline) args; mret false in
  text ← read_wstring path;
  _ ← firmware (OutputString text);
  '(status, snp_current) ← firmware (HandleProtocol h SimpleNetworkProtocol);
  if EFI_ERROR status then fail (str ": failed to open (%zu)") [VWord status]
  else
    status ← firmware (SnpStart snp_current);
    if EFI_ERROR status && negb (status =? EFI_ALREADY_STARTED) then
      fail (str ": failed to start (%zu)") [VWord status]
    else
      status ← (if negb (status =? EFI_ALREADY_STARTED) then firmware (SnpInitialize snp_current)
                else mret EFI_SUCCESS);
      if EFI_ERROR status then fail (str ": failed to initialize (%zu)") [VWord status]
      else
        '(status, _) ← firmware (SnpGetStatus snp_current);
        if EFI_ERROR status then fail (str ": failed to read status (%zu)") [VWord status]
        else
          mode ← gets (fun s => SnpMode_of snp_current (fw s));
          if negb (MediaPresent mode) then fail (str ": no link detected") []
          else
            _ ← efi_printf (str ": link detected" ++ newline) [];
            _ ← set_snp snp_current;
            mret true.

(** The handles of one device follow each other: a path that starts like the
    path at [previous], as far as [efi_strlen] bytes go, is skipped. *)
Fixpoint net_get_protocol_loop (n : nat) (i previous : nat) (handles paths : list Z) : M Z :=
  match n with
  | O => mret EFI_NOT_FOUND
  | S n =>
      let path := paths !!! i in
      same ← (if decide (i = previous) then mret false
              else
                count ← efi_strlen (paths !!! previous);
                c ← memcmp path (paths !!! previous) count;
                mret (c =? 0));
      if (same : bool) then net_get_protocol_loop n (S i) previous handles paths
      else
        up ← try_nic (handles !!! i) path;
        if (up : bool) then mret EFI_SUCCESS
        else
          _ ← firmware (CloseProtocol (handles !!! i) SimpleNetworkProtocol handle);
          net_get_protocol_loop n (S i) i handles paths
  end.

(** The array has room for 32 handles, 256 bytes. *)
Definition net_get_protocol : M Z :=
  '(status, handles) ← firmware (LocateHandle SimpleNetworkProtocol 256);
  _ ← EFIERR (str "net/net.c") 54 status;
  paths ← get_paths handles;
  net_get_protocol_loop (length handles) 0 0 handles paths.

Definition net_open : M Z :=
  '(status, timer) ← firmware (CreateEvent EVT_TIMER TPL_CALLBACK);
  _ ← set_net_timer timer;
  _ ← EFIERR (str "net/net.c") 132 status;
  status ← net_get_protocol;
  _ ← EFIERR (str "net/net.c") 135 status;
  _ ← net_bufpool_init;
  h ← gets (fun s => snp (ng s));
  mode ← gets (fun s => SnpMode_of h (fw s));
  _ ← net_ip6_init (CurrentAddress mode);
  count ← gets (fun s => mcast_filter_count (ng s));
  filters ← read_block a_mcast_filters (sizeof_efi_mac_addr * count);
  status ← firmware (SnpReceiveFilters h
      (Z.lor EFI_SIMPLE_NETWORK_RECEIVE_UNICAST EFI_SIMPLE_NETWORK_RECEIVE_MULTICAST) 0 count filters);
  _ ← EFIERR (str "net/net.c") 142 status;
  mret EFI_SUCCESS.

(** [polls] bounds the number of packets the model waits for. *)
Definition net_kernel_load (polls : nat) : M unit :=
  _ ← net_open; _ ← net_poll_loop polls; net_close.

(** ** loader.c *)

(** while(c != 'n' && c != 'd') c = uefi_read_keystroke(); *)
Fixpoint choose_loop (fuel : nat) (c : Z) : M Z :=
  if negb (c =? chr "n") && negb (c =? chr "d") then
    match fuel with
    | O => fun _ => NoFuel
    | S fuel => c ← uefi_read_keystroke; choose_loop fuel c
    end
  else mret c.

(** After the menu: what the key selects. *)
Definition boot_choice (polls : nat) (c : Z) : M Z :=
  _ ← firmware ClearScreen;
  _ ← (if c =? chr "n" then
         _ ← net_kernel_load polls; _ ← firmware ClearScreen; loader_kernel
       else if c =? chr "d" then loader_kernel else skip);
  mret EFI_SUCCESS.

Definition efi_main (polls : nat) : M Z :=
  _ ← uefi_init;
  _ ← (if 1 <? Z.shiftr FirmwareRevision 16 then _ ← uefi_driver_start handle a_btrfs_path; skip
       else skip);
  _ ← uefi_io_reconnect;
  _ ← efi_printf (str "vineyard loader" ++ newline ++ str "select a boot mode:" ++ newline
        ++ str "n) netboot via netboot-server" ++ newline ++ str "d) local disk" ++ newline) [];
  c ← choose_loop key_polls 0;
  boot_choice polls c.

End Session.
