(* ===== verification/PollFacts.v ===== *)
(** * One turn of the polling loop, and the end of a netboot session

    A poll in which the card has a packet, nothing is due to be sent and the
    packet is for one of the handlers that only change the network's flags. *)

From S2P Require Import Prelude Memory Firmware State CString Printf PrintfFacts Console Alloc.
From S2P Require Import Inet Bufpool Ip6 Ip6Facts Ip6Setup Eth Icmp6 Udp6 Ucs2 Netboot.
From S2P Require Import NetbootFacts Transfer Net NetFacts Session.

Section PollFacts.
Context {E : Efi} {F : Firmware} {L : Layout} {K : Fuel} {H : ImageHandle} {LL : LayoutLaws L}.

(** In the state [s] the host has been advertised, the timer has not expired, no
    buffer comes back from the card, and the card hands over [frame] and leaves
    the firmware in [w]. *)
Record receives (s : state) (frame : list Z) (w : fwst) : Prop := {
  rc_advertised : net_advertised (ng s) = true;
  rc_timer : net_timer (ng s) <> 0;
  rc_avail : eth_bufpool_avail (bp s) < 16;
  rc_firmware : exists st w0 w1,
    CheckEvent (net_timer (ng s)) (fw s) = (st, w0) /\ st <> EFI_SUCCESS
    /\ SnpGetStatus (snp (ng s)) w0 = (0, 0, w1)
    /\ SnpReceive (snp (ng s)) 2048 w1 = (EFI_SUCCESS, frame, w);
  rc_frame : are_bytes frame /\ zlen frame <= 2048;
}.

(** The statements of a poll before the packet is looked at. *)
Lemma net_poll_collects s frame w data :
  receives s frame w -> mapped (mem s) data 2048 ->
  (_ ← net_poll_advertise; go ← net_poll_collect;
   if (go : bool) then net_poll_receive data else skip) s
  = (_ ← net_eth_receive data (zlen frame); skip)
      (set_mem (write_bytes (mem s) data frame) (set_fw w s)).
Proof.
  intros [Ad Ti Av (st & w0 & w1 & C & Ns & G & R) [Bf Lf] ] Mp.
  assert (Adv : net_poll_advertise s = Ret tt (set_fw w0 s)).
  { unfold net_poll_advertise. do 2 (erewrite bind_ret by done). rewrite Ad. cbn [negb].
    rewrite andb_false_r.
    assert (Ex : net_timer_expired s = Ret false (set_fw w0 s)).
    { unfold net_timer_expired. erewrite bind_ret by done. rewrite (proj2 (Z.eqb_neq _ _) Ti).
      erewrite bind_ret by (unfold firmware; by rewrite C).
      by rewrite (proj2 (Z.eqb_neq _ _) Ns). }
    run_step Ex. by erewrite bind_ret by done. }
  assert (Col : net_poll_collect (set_fw w0 s) = Ret true (set_fw w1 s)).
  { unfold net_poll_collect. erewrite bind_ret by done. cbn [bp set_fw].
    rewrite (proj2 (Z.ltb_lt _ _) Av). erewrite bind_ret by done.
    erewrite bind_ret by (unfold firmware; cbn [ng fw set_fw]; by rewrite G). done. }
  run_step Adv. run_step Col. unfold net_poll_receive. erewrite bind_ret by done.
  erewrite bind_ret by (unfold firmware; cbn [ng fw set_fw]; by rewrite R). cbv beta iota.
  rewrite Z.eqb_refl. cbn [negb].
  by erewrite bind_ret by (apply write_block_ret; eapply mapped_sub; [exact Mp|lia|lia]).
Qed.

(** The poll as a whole.  The packet lies in a local, of which nothing is left. *)
Lemma net_poll_delivers s d l frame w next n (f : net_globals -> net_globals) :
  net_ready s d l -> receives s frame w -> classify d frame = Deliver next n ->
  (forall data s1, holds (mem s1) data (zlen frame) frame -> nb s1 = nb s ->
     net_dispatch next data n s1 = Ret tt (set_ng (f (ng s1)) s1)) ->
  net_poll s = Ret tt (set_ng (f (ng s)) (cache_remote (set_fw w s) frame)).
Proof.
  intros R Rc Cl Hd. pose proof Rc as [_ _ _ _ [Bf Lf] ].
  destruct (enter_local_ready 2048 s d l ltac:(lia) R) as [R0 Ap].
  set (a := stack_addr (mem s) 2048) in *. set (junk := bytes_at stack_junk 2048).
  assert (Lj : zlen junk = 2048) by (apply length_bytes_at; lia).
  set (m1 := write_bytes (mem s) a (frame ++ drop (length frame) junk)).
  assert (Lw : zlen (frame ++ drop (length frame) junk) = 2048)
    by (rewrite length_app, length_drop; lia).
  assert (Em : write_bytes (mem (enter_local 2048 s)) a frame = m1)
    by (apply write_bytes_prefix; fold junk; lia).
  assert (Hf : holds m1 a (zlen frame) frame) by (rewrite <-Em; by apply holds_written).
  assert (Aw : away a (zlen frame)) by (eapply away_sub; [apply Ap|lia|lia]).
  assert (A1 : has_addresses m1 d).
  { assert (Ap1 : apart (enter_local 2048 s) a (zlen frame)).
    { split; [|exact Aw]. destruct Ap as [D _]. cbn [bp enter_local set_mem]. unfold disj in *. lia. }
    rewrite <-Em. apply (ready_addresses _ _ _ (net_ready_write _ d l a frame R0 Ap1 Bf)). }
  pose proof (net_eth_receive_classify (set_mem m1 (set_fw w s)) d a frame A1 Hf Aw) as Rv.
  rewrite Cl in Rv.
  assert (Kp : mem (cache_remote (set_mem m1 (set_fw w s)) frame)
    = write_bytes (mem (cache_remote s frame)) a (frame ++ drop (length frame) junk)).
  { destruct (classify_deliver _ _ _ _ Cl) as [ [Hl _]|]; [|done]. destruct Ap as [_ Aa].
    pose proof (away_disj _ _ _ _ Aa (in_statics 2 _ eq_refl)) as D6.
    pose proof (away_disj _ _ _ _ Aa (in_statics 3 _ eq_refl)) as D22.
    unfold cache_remote, m1. cbn [mem set_mem]. apply map_eq. intros x.
    rewrite !lookup_write_bytes, Lw, !chunk_length by lia.
    unfold disj in *. repeat case_decide; try done; lia. }
  apply (with_local_ret 2048 _ s tt (set_ng (f (ng s)) (set_fw w s)) (mem (cache_remote s frame))
    (frame ++ drop (length frame) junk)); [lia| |exact Lw|].
  { destruct (classify_deliver _ _ _ _ Cl) as [ [Hl _]|]; [|done].
    pose proof (ready_addresses _ _ _ R) as A.
    pose proof (holds_mapped _ _ _ _ (has_remote_mac _ _ A) ltac:(lia)) as M6.
    pose proof (holds_mapped _ _ _ _ (has_remote_ip _ _ A) ltac:(lia)) as M22.
    unfold cache_remote. cbn [mem set_mem]. rewrite !dom_write_mapped; rewrite ?chunk_length by lia;
      by try apply mapped_write. }
  fold a junk. refine (eq_trans (net_poll_collects (enter_local 2048 s) frame w a _ _) _).
  - destruct Rc as [? ? ? ? ?]. by split.
  - unfold enter_local. fold a junk. cbn [mem set_mem]. rewrite <-Lj. apply mapped_write_self.
  - rewrite Em. change (set_mem m1 (set_fw w (enter_local 2048 s))) with (set_mem m1 (set_fw w s)).
    assert (Hc : holds (mem (cache_remote (set_mem m1 (set_fw w s)) frame)) a (zlen frame) frame).
    { rewrite Kp. eapply holds_prefix; [|done]. apply holds_written; [exact Lw|].
      apply Forall_app_2; [exact Bf|]. apply Forall_drop, are_bytes_bytes_at. }
    assert (Rv' : net_eth_receive a (zlen frame) (set_mem m1 (set_fw w s))
      = Ret EFI_SUCCESS (set_ng (f (ng s)) (cache_remote (set_mem m1 (set_fw w s)) frame)))
      by (rewrite Rv; by run_step (Hd a _ Hc eq_refl)).
    run_step Rv'. unfold skip, mret, M_ret. f_equal. by rewrite <-Kp.
Qed.

(** CMD_BOOT in a frame: the flag of the loop is cleared. *)
Definition stop_polling (g : net_globals) : net_globals :=
  NetGlobals (mcast_filter_count g) (snp g) (net_timer g) false (net_advertised g)
    (net_stop_advertising g).

Lemma net_poll_boot s d l frame w n :
  nb_state (nb s) <> STATE_FILE_TRANSFER ->
  net_ready s d l -> receives s frame w -> classify d frame = Deliver 17 n ->
  chunk 56 2 frame = be_bytes 2 57777 -> chunk 62 4 frame = le_bytes 4 CMD_BOOT ->
  net_poll s = Ret tt (set_ng (stop_polling (ng s)) (cache_remote (set_fw w s) frame)).
Proof.
  intros N R Rc Cl Port Cmd. eapply net_poll_delivers; [exact R|exact Rc|exact Cl|].
  intros data s1 Hf En.
  assert (Lf : 66 <= zlen frame).
  { apply (f_equal length) in Cmd. unfold chunk in Cmd. rewrite length_take, length_drop in Cmd.
    change (length (le_bytes 4 CMD_BOOT)) with 4%nat in Cmd. lia. }
  pose proof (load_chunk 2 _ _ _ frame 56 Hf ltac:(lia) ltac:(lia)) as Lp.
  pose proof (load_chunk 4 _ _ _ frame 62 Hf ltac:(lia) ltac:(lia)) as Lc.
  rewrite Port in Lp. rewrite Cmd in Lc.
  assert (Rb : netboot_cmd_receive (data + Z.of_nat 62) s1
    = Ret EFI_SUCCESS (set_ng (stop_polling (ng s1)) s1)).
  { rewrite netboot_cmd_idle by (by rewrite En). run_step (load_n_ret 4 _ _ _ Lc). reflexivity. }
  assert (Ru : net_udp6_receive (packet_ip6 data) (packet_data data) n s1
    = Ret EFI_SUCCESS (set_ng (stop_polling (ng s1)) s1)).
  { unfold net_udp6_receive, udp_header_dest_port, packet_data.
    replace (data + 54 + 2) with (data + Z.of_nat 56) by lia.
    run_step (load_n_ret 2 _ _ _ Lp). change (ntohs _ =? 57777) with true. cbv iota.
    by replace (data + 54 + UDP_HEADER_LEN) with (data + Z.of_nat 62) by (unfold UDP_HEADER_LEN; lia). }
  unfold net_dispatch. rewrite Z.eqb_refl. by run_step Ru.
Qed.

(** ** The loop and what follows it *)

(** [k] polls lead from one state to the other, and none ends the loop. *)
Inductive polled : nat -> state -> state -> Prop :=
  | polled_none s : polled 0 s s
  | polled_more k s s1 s2 :
      net_poll_continue (ng s) = true -> net_poll s = Ret tt s1 -> polled k s1 s2 ->
      polled (S k) s s2.

Lemma net_poll_loop_ends s s1 fuel :
  net_poll_continue (ng s) = true -> net_poll s = Ret tt s1 -> net_poll_continue (ng s1) = false ->
  net_poll_loop (S fuel) s = Ret tt s1.
Proof.
  intros Go P Stop. cbn [net_poll_loop]. erewrite bind_ret by done. rewrite Go. cbn [negb].
  run_step P. destruct fuel; cbn [net_poll_loop]; erewrite bind_ret by done; by rewrite Stop.
Qed.

Lemma net_poll_loop_polled k s s1 fuel s' :
  polled k s s1 -> net_poll_loop fuel s1 = Ret tt s' -> net_poll_loop (k + fuel) s = Ret tt s'.
Proof.
  induction 1 as [|k s s1 s2 Go P Pk IH]; intros Rn; [done|].
  cbn [Nat.add net_poll_loop]. erewrite bind_ret by done. rewrite Go. cbn [negb].
  run_step P. by apply IH.
Qed.

(** What the firmware is asked at the end of a session. *)
Definition closed (g : net_globals) (w : fwst) : fwst :=
  (SnpStop (snp g) (SnpShutdown (snp g)
     (CloseEvent (net_timer g) (SetTimer (net_timer g) TimerCancel 0 w).2).2).2).2.

Lemma net_close_ret s : net_close s = Ret tt (set_fw (closed (ng s) (fw s)) s).
Proof.
  unfold net_close. do 2 (erewrite bind_ret by done).
  do 4 (erewrite bind_ret by apply firmware_ret). reflexivity.
Qed.

End PollFacts.
