(* ===== verification/Platform.v ===== *)
(** * A concrete platform

    Instances of the parameters that satisfy their laws: the status codes of the
    UEFI specification for a 64-bit processor, a firmware that allocates above
    the memory in use, records what it is asked to transmit, print and write,
    and a network card with queues, and a layout of the static arrays.  The
    theorems do not depend on it; it shows that their hypotheses can hold. *)

From S2P Require Import Prelude Memory Firmware State CString Printf PrintfFacts Console Alloc.

(** ** UEFI constants *)

Definition error_code (n : Z) : Z := 2 ^ 63 + n.

#[export] Instance uefi_constants : Efi := {|
  EFI_ERROR st := 2 ^ 63 <=? st;
  EFI_SUCCESS := 0;
  EFI_LOAD_ERROR := error_code 1; EFI_INVALID_PARAMETER := error_code 2;
  EFI_UNSUPPORTED := error_code 3; EFI_BAD_BUFFER_SIZE := error_code 4;
  EFI_BUFFER_TOO_SMALL := error_code 5; EFI_NOT_READY := error_code 6;
  EFI_DEVICE_ERROR := error_code 7; EFI_WRITE_PROTECTED := error_code 8;
  EFI_OUT_OF_RESOURCES := error_code 9; EFI_VOLUME_CORRUPTED := error_code 10;
  EFI_VOLUME_FULL := error_code 11; EFI_NO_MEDIA := error_code 12;
  EFI_MEDIA_CHANGED := error_code 13; EFI_NOT_FOUND := error_code 14;
  EFI_ACCESS_DENIED := error_code 15; EFI_NO_RESPONSE := error_code 16;
  EFI_NO_MAPPING := error_code 17; EFI_TIMEOUT := error_code 18;
  EFI_NOT_STARTED := error_code 19; EFI_ALREADY_STARTED := error_code 20;
  EFI_ABORTED := error_code 21; EFI_ICMP_ERROR := error_code 22;
  EFI_TFTP_ERROR := error_code 23; EFI_PROTOCOL_ERROR := error_code 24;
  EFI_INCOMPATIBLE_VERSION := error_code 25; EFI_SECURITY_VIOLATION := error_code 26;
  EFI_CRC_ERROR := error_code 27; EFI_END_OF_MEDIA := error_code 28;
  EFI_END_OF_FILE := error_code 31; EFI_INVALID_LANGUAGE := error_code 32;
  EFI_COMPROMISED_DATA := error_code 33; EFI_IP_ADDRESS_CONFLICT := error_code 34;
  EFI_HTTP_ERROR := error_code 35;
  EfiLoaderData := 2;
  EVT_TIMER := 2 ^ 31; TPL_CALLBACK := 8; TimerRelative := 2; TimerCancel := 0;
  EfiResetWarm := 1; EfiResetShutdown := 2;
  EFI_SIMPLE_NETWORK_RECEIVE_UNICAST := 1; EFI_SIMPLE_NETWORK_RECEIVE_MULTICAST := 2;
  EFI_FILE_MODE_READ := 1; EFI_FILE_MODE_WRITE := 2; EFI_FILE_MODE_CREATE := 2 ^ 63;
  EFI_FILE_READ_ONLY := 1;
  sizeof_efi_mac_addr := 32;
  offsetof_FileSize := 8;
  EFI_OPEN_PROTOCOL_BY_HANDLE_PROTOCOL := 1; EFI_OPEN_PROTOCOL_BY_CHILD_CONTROLLER := 8;
  DEVICE_PATH_END := 0x7F; DEVICE_PATH_ENTIRE_END := 0xFF; DEVICE_PATH_MEDIA := 4;
  LoadedImageProtocol := Guid 0x5b1b31a1 0x9562 0x11d2
    (le_num [0x8e; 0x3f; 0x00; 0xa0; 0xc9; 0x69; 0x72; 0x3b]);
  SimpleFileSystemProtocol := Guid 0x964e5b22 0x6459 0x11d2
    (le_num [0x8e; 0x39; 0x00; 0xa0; 0xc9; 0x69; 0x72; 0x3b]);
  SimpleNetworkProtocol := Guid 0xa19832b9 0xac25 0x11d3
    (le_num [0x9a; 0x2d; 0x00; 0x90; 0x27; 0x3f; 0xc1; 0x4d]);
  DevicePathProtocol := Guid 0x9576e91 0x6d3f 0x11d2
    (le_num [0x8e; 0x39; 0x00; 0xa0; 0xc9; 0x69; 0x72; 0x3b]);
  DevicePathToTextProtocol := Guid 0x8b843e20 0x8132 0x4852
    (le_num [0x90; 0xcc; 0x55; 0x1a; 0x4e; 0x4a; 0x7f; 0x1c]);
  DriverBindingProtocol := Guid 0x18a031ab 0xb443 0x4d1a
    (le_num [0xa5; 0xc0; 0x0c; 0x09; 0x26; 0x1e; 0x9f; 0x71]);
  GraphicsOutputProtocol := Guid 0x9042a9de 0x23dc 0x4a38
    (le_num [0x96; 0xfb; 0x7a; 0xde; 0xd0; 0x80; 0x51; 0x6a]);
  FileInfoGuid := Guid 0x9576e92 0x6d3f 0x11d2
    (le_num [0x8e; 0x39; 0x00; 0xa0; 0xc9; 0x69; 0x72; 0x3b]);
  ACPI_20_TABLE_GUID := Guid 0x8868e871 0xe4f1 0x11d3
    (le_num [0xbc; 0x22; 0x00; 0x80; 0xc7; 0x3c; 0x88; 0x81]);
|}.

#[export] Instance uefi_constants_laws : EfiLaws uefi_constants.
Proof.
  split; [done|done| |done|repeat split; done]. apply (bool_decide_unpack _). vm_compute. exact I.
Qed.

(** ** A firmware *)

(** The first address above the memory in use. *)
Definition mem_top (m : memory) : Z :=
  foldr (fun p top => Z.max (p.1 + 1) top) 1 (map_to_list m).

Lemma foldr_max_in l x b :
  (x, b) ∈ l -> x < foldr (fun (p : Z * Z) top => Z.max (p.1 + 1) top) 1 l.
Proof.
  induction l as [|p l IH]; [by intros ?%elem_of_nil|].
  intros [<-|Hx]%elem_of_cons; cbn [foldr fst]; [lia|]. specialize (IH Hx). lia.
Qed.

Lemma foldr_max_pos l : 1 <= foldr (fun (p : Z * Z) top => Z.max (p.1 + 1) top) 1 l.
Proof. induction l as [|p l IH]; cbn [foldr]; lia. Qed.

Lemma foldr_max_bound l B :
  1 <= B -> (forall p, p ∈ l -> p.1 < B) ->
  foldr (fun (p : Z * Z) top => Z.max (p.1 + 1) top) 1 l <= B.
Proof.
  intros HB. induction l as [|p l IH]; intros Hl; cbn [foldr]; [lia|].
  assert (p.1 < B) by (apply Hl; left).
  assert (foldr (fun (p : Z * Z) top => Z.max (p.1 + 1) top) 1 l <= B); [|lia].
  apply IH. intros q Hq. apply Hl. by right.
Qed.

Lemma mem_top_above m a n : mem_top m <= a -> unmapped m a n.
Proof.
  intros Ha x Hx. destruct (m !! x) as [b|] eqn:Eb; [|done].
  apply elem_of_map_to_list, foldr_max_in in Eb. unfold mem_top in Ha. lia.
Qed.

Lemma mem_top_bound m B : 1 <= B -> (forall x, is_Some (m !! x) -> x < B) -> mem_top m <= B.
Proof.
  intros HB Hm. apply foldr_max_bound; [done|].
  intros [x b] Hp%elem_of_map_to_list. apply Hm. eauto.
Qed.

Definition page_top (m : memory) : Z := (mem_top m + 4095) / 4096 * 4096.

(** What the firmware was asked to do; the buffers the card has sent and not yet
    reported, and the packets it has received; the contents and the position of
    the file on its volume. *)
Record journal := Journal {
  transmitted : list (list Z);
  console : list Z;
  opened_paths : list (list Z);
  written : list (list Z);
  sent_buffers : list Z;
  incoming : list (list Z);
  volume_file : list Z;
  file_position : Z }.

Definition log_transmit (buffer : Z) (bs : list Z) (w : journal) : journal :=
  Journal (transmitted w ++ [bs]) (console w) (opened_paths w) (written w)
    (sent_buffers w ++ [buffer]) (incoming w) (volume_file w) (file_position w).
Definition log_print (cs : list Z) (w : journal) : journal :=
  Journal (transmitted w) (console w ++ cs) (opened_paths w) (written w)
    (sent_buffers w) (incoming w) (volume_file w) (file_position w).
Definition log_open (path : list Z) (w : journal) : journal :=
  Journal (transmitted w) (console w) (opened_paths w ++ [path]) (written w)
    (sent_buffers w) (incoming w) (volume_file w) (file_position w).
Definition log_write (bs : list Z) (w : journal) : journal :=
  Journal (transmitted w) (console w) (opened_paths w) (written w ++ [bs])
    (sent_buffers w) (incoming w) (volume_file w) (file_position w).
Definition set_card (buffers : list Z) (packets : list (list Z)) (w : journal) : journal :=
  Journal (transmitted w) (console w) (opened_paths w) (written w) buffers packets
    (volume_file w) (file_position w).
Definition seek (position : Z) (w : journal) : journal :=
  Journal (transmitted w) (console w) (opened_paths w) (written w) (sent_buffers w)
    (incoming w) (volume_file w) position.

#[export] Instance plain_firmware : Firmware := {|
  fwst := journal;
  OutputString cs w := (0, log_print cs w);
  ClearScreen w := (0, w);
  ReadKeyStroke w := (0, chr "d", w);
  WaitForKey w := (0, w);
  AllocatePages ty n m w :=
    let a := page_top m in
    if a + 4096 * n <=? 2 ^ 52 then (0, a, fun _ => 0, w)
    else (EFI_OUT_OF_RESOURCES, 0, fun _ => 0, w);
  AllocatePool ty n m w :=
    let a := mem_top m in
    if a + n <=? 2 ^ 52 then (0, a, fun _ => 0, w)
    else (EFI_OUT_OF_RESOURCES, 0, fun _ => 0, w);
  FreePool p w := (0, w);
  CreateEvent ty tpl w := (0, 1, w);
  SetTimer t kind time w := (0, w);
  CheckEvent t w := (EFI_NOT_READY, w);
  CloseEvent t w := (0, w);
  HandleProtocol h g w := (0, 2, w);
  DeviceHandle image w := 3;
  OpenVolume fs w := (0, 4, w);
  FileOpen root path mode attributes w := (0, 5, seek 0 (log_open path w));
  FileRead h n w :=
    let data := take (Z.to_nat n) (drop (Z.to_nat (file_position w)) (volume_file w)) in
    (0, data, seek (file_position w + zlen data) w);
  FileWrite h bs w := (0, zlen bs, log_write bs w);
  FileSetPosition h p w := (0, seek p w);
  FileClose h w := (0, w);
  GetVariable name g size w := (0, 8, replicate 8 0, w);
  SetVariable name g attributes bs w := (0, w);
  SnpMode_of h w := SnpMode true 8 0x3C0;
  SnpTransmit h buffer bs w := (0, log_transmit buffer bs w);
  SnpReceive h n w :=
    match incoming w with
    | packet :: packets =>
        if zlen packet <=? n then (0, packet, set_card (sent_buffers w) packets w)
        else (EFI_BUFFER_TOO_SMALL, [], w)
    | [] => (EFI_NOT_READY, [], w)
    end;
  SnpGetStatus h w :=
    match sent_buffers w with
    | buffer :: buffers => (0, buffer, set_card buffers (incoming w) w)
    | [] => (0, 0, w)
    end;
  SnpReceiveFilters h enable disable n filters w := (0, w);
  SnpStart h w := (0, w);
  SnpInitialize h w := (0, w);
  SnpShutdown h w := (0, w);
  SnpStop h w := (0, w);
  FileGetInfo h n w :=
    let info := le_bytes 8 96 ++ le_bytes 8 (zlen (volume_file w)) ++ replicate 80 0 in
    if n <? 96 then (EFI_BUFFER_TOO_SMALL, 96, [], w) else (0, 96, info, w);
  GetMemoryMap n w :=
    if n <? 48 then (EFI_BUFFER_TOO_SMALL, 48, None, 48, [], w)
    else (0, 48, Some 1, 48, replicate 48 0, w);
  ExitBootServices h key w := (0, w);
  LocateHandle g n w := (0, [7], w);
  LocateHandleBuffer g m w :=
    let a := mem_top m in (0, 1, a, [(a, le_bytes 8 7)], w);
  LocateProtocol g w := (0, 6, w);
  OpenProtocol h g agent attribute w := (0, 2, w);
  CloseProtocol h g agent w := (0, w);
  ProtocolsPerHandle h m w := (0, mem_top m, 0, [], w);
  OpenProtocolInformation h g m w := (0, [], w);
  ConnectController h recursive w := (0, w);
  ConvertDevicePathToText ptt path m w :=
    let a := mem_top m in (a, [(a, [80; 0; 0; 0])], w);
  LoadImage parent path m w := (0, 8, w);
  StartImage h w := (0, w);
  SetLoadOptions image text size w := (tt, w);
  SetWatchdogTimer timeout code w := (0, w);
  ImageBase image w := 0x100000;
  ImageSize image w := 0x1800;
  GopMode_of gop w := GopMode 0x300 1 0x340 0x80000000 0x2000;
  QueryMode gop mode w := (0, ModeInformation 800 600, w);
  SetMode gop mode w := (0, w);
  FirmwareRevision := 0x10000;
  FirmwareVendor i := nth (Z.to_nat i) (str "E" ++ [0; 68; 0; 75; 0; 32; 0; 73; 0; 73]) 0;
  ConfigurationTable := Some [ConfigurationEntry ACPI_20_TABLE_GUID 0x380];
|}.

#[export] Instance plain_firmware_laws : AllocLaws uefi_constants plain_firmware.
Proof.
  split; intros ty n m w st a c w' A St Hn; cbn [AllocatePages AllocatePool plain_firmware] in A.
  - pose proof (foldr_max_pos (map_to_list m)) as P. fold (mem_top m) in P.
    destruct (Z.leb_spec (page_top m + 4096 * n) (2 ^ 52)); injection A as <- <- <- <-; [|done].
    unfold page_top in *. split; [dlia|]. split; [dlia|]. split; [done|].
    apply mem_top_above. dlia.
  - pose proof (foldr_max_pos (map_to_list m)) as P. fold (mem_top m) in P.
    destruct (Z.leb_spec (mem_top m + n) (2 ^ 52)); injection A as <- <- <- <-; [|done].
    split; [lia|]. split; [done|]. by apply mem_top_above.
Qed.

(** ** A layout *)

#[export] Instance plain_layout : Layout := {|
  a_ll_mac_addr := 0x100; a_ip6_ll_addr := 0x110; a_snm_mac_addr := 0x120;
  a_ip6_snm_addr := 0x130; a_remote_mac_addr := 0x140; a_remote_ip6_addr := 0x150;
  a_ip6_all_nodes := 0x160; a_mcast_filters := 0x200;
  a_LoadedImageProtocol := 0x170; a_DriverBindingProtocol := 0x180;
  a_DevicePathProtocol := 0x190; a_empty_devpath := 0x1A0; a_btrfs_path := 0x1A8;
  a_null_path := 0x1C0; a_null_string := 0x1E0;
  stack_addr m n := mem_top m;
  stack_junk i := 0xCC;
|}.

#[export] Instance plain_layout_laws : LayoutLaws plain_layout.
Proof.
  split.
  - intros m n Hn. split; [pose proof (foldr_max_pos (map_to_list m)); unfold stack_addr; cbn;
      unfold mem_top; lia|]. by apply mem_top_above.
  - intros i j r r' Hi Hj N. unfold statics in *. cbn in Hi, Hj.
    destruct i as [|[|[|[|[|[|i] ] ] ] ] ]; destruct j as [|[|[|[|[|[|j] ] ] ] ] ];
      cbn in Hi, Hj; simplify_eq; unfold disj; cbn; lia.
Qed.

#[export] Instance few_polls : Fuel := 10%nat.
#[export] Instance plain_handle : ImageHandle := 1.
#[export] Instance plain_system_table : SystemTable := 9.

(** ** Page allocation does not run out *)

Lemma plain_can_alloc k : forall D w B,
  (forall x, x ∈ D -> x < B) -> 1 <= B -> B + 8192 * Z.of_nat k <= 2 ^ 52 ->
  can_alloc k D w.
Proof.
  induction k as [|k IH]; intros D w B HD HB Hk; [exact I|]. cbn [can_alloc].
  intros m st a c w' Dm A. cbn [AllocatePages plain_firmware] in A.
  assert (Tb : mem_top m <= B).
  { apply mem_top_bound; [done|]. intros x Hx. apply HD. rewrite <-Dm. by apply elem_of_dom. }
  assert (Pt : page_top m < B + 4096) by (unfold page_top; dlia).
  destruct (Z.leb_spec (page_top m + 4096 * 1) (2 ^ 52)); [|lia].
  injection A as <- <- <- <-. split; [done|].
  apply (IH _ _ (B + 8192)); [|lia|lia].
  intros x [Hx%HD|Hx]%elem_of_union; [lia|].
  apply elem_of_dom in Hx. rewrite lookup_write_bytes, length_zero_page in Hx.
  case_decide; [lia|]. by rewrite lookup_empty, is_Some_alt in Hx.
Qed.

(** ** Sample states *)

(** The program at its start, with memory [m]. *)
Definition start (m : memory) : state :=
  State m ∅ (Journal [] [] [] [] [] [] [] 0) (BufpoolGlobals 0 0 0)
    (NetGlobals 0 1 0 true false false) (NetbootState STATE_PREINIT 0 0 0 0) (CpuRegs 0 ∅).

Definition blocks (l : list (Z * list Z)) : memory :=
  foldr (fun p m => write_bytes m p.1 p.2) ∅ l.

(** Storage that a concrete memory has: decided by reading it. *)
Lemma mapped_by_reading m a (n : nat) : is_Some (read_bytes m a n) -> mapped m a (Z.of_nat n).
Proof. apply read_bytes_mapped. Qed.

Ltac by_reading n := apply (mapped_by_reading _ _ n); eexists; vm_compute; reflexivity.
(** [Forall] over a closed list, of a property that [lia] decides once [d] is
    unfolded. *)
Ltac each := repeat (apply Forall_cons_2; [unfold is_byte, chr; cbn; lia|]); apply Forall_nil_2.
