(* ===== verification/Demo.v ===== *)
(** * A sample network state

    The network components of the platform of Platform.v after
    [net_bufpool_init]: the static addresses have contents, the pool is full and
    a received frame lies in memory.  The witnesses of the network properties
    run in it. *)

From S2P Require Import Prelude Memory Firmware State CString Printf PrintfFacts Console Alloc.
From S2P Require Import Inet Bufpool Ip6 Ip6Facts Ip6Setup Eth Platform.

Definition demo_mac : list Z := [0x52; 0x54; 0; 0x12; 0x34; 0x56].
Definition demo_ip : list Z :=
  [0xFE; 0x80; 0; 0; 0; 0; 0; 0; 0x50; 0x54; 0; 0xFF; 0xFE; 0x12; 0x34; 0x56].
Definition demo_snm : list Z :=
  [0xFF; 0x02; 0; 0; 0; 0; 0; 0; 0; 0; 0; 1; 0xFF; 0x12; 0x34; 0x56].
Definition peer_hw : list Z := [0x52; 0x55; 0x0A; 0; 2; 2].
Definition peer_addr : list Z := [0xFE; 0x80; 0; 0; 0; 0; 0; 0; 0; 0; 0; 0; 0; 0; 0; 2].

Definition demo_addresses : addresses := Addresses demo_mac demo_ip demo_snm peer_hw peer_addr.

(** A packet from the peer to this host. *)
Definition from_peer (next : Z) (payload : list Z) : list Z :=
  ip6_headers demo_mac peer_hw (zlen payload) next peer_addr demo_ip ++ payload.

(** The memory before the pool is set up; the frame is at 0x400. *)
Definition demo_memory (frame : list Z) : memory :=
  blocks [(0x100, demo_mac); (0x110, demo_ip); (0x130, demo_snm); (0x140, peer_hw);
          (0x150, peer_addr); (0x160, ip6_all_nodes); (0x400, frame)].

Definition idle : journal := Journal [] [] [] [] [] [] [] 0.
Definition demo_buffers : list Z := [10240; 8192; 6144; 4096].

(** The sample state with [frame] at 0x400. *)
Record demo (s : state) (frame : list Z) : Prop := {
  demo_ready : net_ready s demo_addresses demo_buffers;
  demo_frame : holds (mem s) 0x400 (zlen frame) frame;
  demo_apart : apart s 0x400 (zlen frame);
  demo_fw : fw s = idle;
  demo_snp : snp (ng s) = 1;
  demo_nb : nb s = NetbootState STATE_PREINIT 0 0 0 0;
  demo_phys : eth_buffer_phys (bp s) = 4096;
  demo_top x : is_Some (mem s !! x) -> x < 0x10000;
}.

(** Reads through the blocks of a memory. *)
Ltac sizes := cbn [length demo_mac demo_ip demo_snm peer_hw peer_addr ip6_all_nodes].
Ltac bytes_of := unfold demo_mac, demo_ip, demo_snm, peer_hw, peer_addr, ip6_all_nodes; each.
Ltac block :=
  unfold demo_memory, blocks; cbn [foldr fst snd a_ll_mac_addr a_ip6_ll_addr a_ip6_snm_addr
    a_remote_mac_addr a_remote_ip6_addr a_ip6_all_nodes plain_layout];
  repeat first
    [ apply holds_written; [first [done|lia]|first [done|bytes_of] ]
    | apply holds_write; [|lia|unfold disj; sizes; lia] ].

Lemma demo_memory_addresses frame :
  zlen frame <= 1024 -> has_addresses (demo_memory frame) demo_addresses.
Proof. intros Hl. split; cbn [ll_mac_addr ip6_ll_addr ip6_snm_addr remote_mac_addr
  remote_ip6_addr demo_addresses]; block.
Qed.

Lemma demo_memory_top frame x :
  zlen frame <= 1024 -> is_Some (demo_memory frame !! x) -> x < 2048.
Proof.
  intros Hl. unfold demo_memory, blocks. cbn [foldr fst snd]. rewrite !lookup_write_bytes.
  sizes.
  repeat case_decide; try lia. rewrite lookup_empty. by intros [? ?].
Qed.

Lemma demo_memory_wf frame : are_bytes frame -> wf_mem (demo_memory frame).
Proof.
  intros B. unfold demo_memory, blocks. cbn [foldr fst snd].
  repeat (apply wf_write; [|first [exact B|bytes_of] ]). intros x b. by rewrite lookup_empty.
Qed.

Lemma demo_state frame :
  are_bytes frame -> zlen frame <= 1024 -> exists s, demo s frame.
Proof.
  intros B Hl. set (m := demo_memory frame).
  assert (Top : mem_top m <= 2048).
  { apply mem_top_bound; [lia|]. intros x. by apply demo_memory_top. }
  pose proof (foldr_max_pos (map_to_list m)) as Pos. fold (mem_top m) in Pos.
  assert (Pt : page_top m = 4096) by (unfold page_top; dlia).
  assert (A : AllocatePages EfiLoaderData 8 m idle = (0, 4096, fun _ => 0, idle)).
  { cbn [AllocatePages plain_firmware]. by rewrite Pt. }
  destruct (net_bufpool_init_ret (start m) 0 4096 _ idle A eq_refl ltac:(lia) eq_refl eq_refl)
    as (s & _ & P & Es & Ph & W & Kp & Up).
  assert (A0 : has_addresses m demo_addresses) by by apply demo_memory_addresses.
  assert (Hf : holds m 0x400 (zlen frame) frame) by (unfold m; by block).
  assert (Ag : forall a n, mapped m a n -> agree m (mem s) a n)
    by (intros a n Mp x Hx; apply Kp; by apply Mp).
  assert (Aw : away 4096 8192).
  { unfold away, statics, disj. cbn. repeat apply Forall_cons_2; cbn; try lia. constructor. }
  exists s. split.
  - split; [exact P| | |by rewrite Ph].
    + eapply has_addresses_agree; [exact A0|].
      eapply Forall_impl; [apply (has_addresses_mapped _ _ A0)|]. intros r [Mr _]. by apply Ag.
    + by apply W, demo_memory_wf.
  - eapply holds_agree; [exact Hf|lia|]. apply Ag. eapply holds_mapped; [exact Hf|lia].
  - split; rewrite ?Ph; [unfold disj; lia|].
    unfold away, statics, disj. cbn. repeat apply Forall_cons_2; cbn; try lia. constructor.
  - by rewrite Es.
  - by rewrite Es.
  - by rewrite Es.
  - done.
  - intros x [Hx|Hx]%Up; [|lia]. apply demo_memory_top in Hx; [lia|done].
Qed.
