(* ===== verification/Volume.v ===== *)
(** * A volume with one file

    The firmware of Platform.v has the resource the segment loader draws on, and
    a small kernel image for the witnesses. *)

From S2P Require Import Prelude Memory Firmware State CString Printf PrintfFacts Console Alloc.
From S2P Require Import Paging PagingFacts Elf Files Segments SegmentFacts PhdrFacts World.
From S2P Require Import Boot Kernel KernelFacts BootFacts HandoverFacts JourneyFacts Platform.

(** Memory is in use below [B], and [k] pages fit above it. *)
Definition room (k : nat) (D : gset Z) : Prop :=
  exists B, 1 <= B /\ (forall x, x ∈ D -> x < B) /\ B + 8192 * Z.of_nat k <= 2 ^ 47.

Definition volume_ready (image : list Z) (k : nat) (p : Z) (D : gset Z) (w : journal) : Prop :=
  volume_file w = image /\ file_position w = p /\ room k D.

Lemma room_less j k D : room (j + k) D -> room k D.
Proof. intros (B & H1 & H2 & H3). exists B. split; [done|]. split; [done|lia]. Qed.

Lemma room_top k (m : memory) : room k (dom m) ->
  exists B, 1 <= mem_top m <= B /\ (forall x, x ∈ dom m -> x < B) /\ B + 8192 * Z.of_nat k <= 2 ^ 47.
Proof.
  intros (B & H1 & H2 & H3). exists B. split; [|done]. split.
  - apply foldr_max_pos.
  - apply mem_top_bound; [done|]. intros x Hx. apply H2. by apply elem_of_dom.
Qed.

(** A block of [size] bytes above the memory in use. *)
Lemma room_block n k (m : memory) a (size : nat) :
  room (n + k) (dom m) -> (0 < n)%nat \/ size = 0%nat -> Z.of_nat size <= 4096 * Z.of_nat n ->
  a < mem_top m + 4096 ->
  room k (dom m ∪ dom (write_bytes ∅ a (replicate size 0))).
Proof.
  intros R Hn Hs Ha. destruct (room_top _ _ R) as (B & H1 & H2 & H3).
  destruct (decide (size = 0%nat)) as [->|Ns].
  - cbn [replicate write_bytes]. rewrite dom_empty_L, union_empty_r_L.
    exists B. split; [lia|]. split; [done|lia].
  - exists (B + 8192 * Z.of_nat n). split; [lia|]. split; [|lia].
    intros x [Hx%H2|Hx]%elem_of_union; [lia|].
    apply elem_of_dom in Hx. rewrite lookup_write_bytes, length_replicate in Hx.
    case_decide; [lia|]. by rewrite lookup_empty, is_Some_alt in Hx.
Qed.

#[export] Instance volume (kernel : Z) (image : list Z) : FileSupply kernel image.
Proof.
  refine {| ready := volume_ready image |}.
  - intros k p D w (? & ? & R). split; [done|]. split; [done|]. by apply (room_less 1).
  - intros k p D D' w Sub (? & ? & B & H1 & H2 & H3). split; [done|]. split; [done|].
    exists B. split; [done|]. split; [|done]. intros x Hx. apply H2, Sub, Hx.
  - intros n k p D w m st a c w' (? & ? & R) Dm Hn A. rewrite <-Dm in *.
    destruct (room_top _ _ R) as (B & H1 & H2 & H3).
    cbn [AllocatePages plain_firmware] in A.
    assert (Pt : page_top m < mem_top m + 4096) by (unfold page_top; dlia).
    destruct (Z.leb_spec (page_top m + 4096 * Z.of_nat n) (2 ^ 52)); [|lia].
    injection A as <- <- <- <-. split; [done|]. split; [done|]. split; [done|].
    apply (room_block n); [done|by left|lia|done].
  - intros n k p D w m size st a c w' (? & ? & R) Dm Hs A. rewrite <-Dm in *.
    destruct (room_top _ _ R) as (B & H1 & H2 & H3).
    cbn [AllocatePool plain_firmware] in A.
    destruct (Z.leb_spec (mem_top m + size) (2 ^ 52)); [|lia].
    injection A as <- <- <- <-. split; [done|]. split; [done|]. split; [done|].
    apply (room_block n); [done|lia|lia|lia].
  - intros k p D w q st w' R Fp. injection Fp as <- <-. by split.
  - intros k p D w q (? & ? & R). eexists. split; [reflexivity|]. by split.
  - intros k p D w n (V & P & R) Hp Hn. cbn [FileRead plain_firmware]. rewrite V, P.
    eexists. split; [reflexivity|]. by split.
Defined.

(** The file's information, as the firmware of Platform.v reports it. *)
Definition volume_information (image : list Z) : list Z :=
  le_bytes 8 96 ++ le_bytes 8 (zlen image) ++ replicate 80 0.

Lemma are_bytes_information image : are_bytes (volume_information image).
Proof.
  unfold volume_information. repeat (apply Forall_app_2; [apply are_bytes_le_bytes|]).
  apply Forall_replicate. unfold is_byte. lia.
Qed.

#[export] Instance boot_volume_supply (image : list Z) : BootSupply 5 image.
Proof.
  refine {| file_information := volume_information image; map_bytes := 48; display_modes := 1;
    display_pages := 2; image_pages := 2; left k D (w : fwst) := room k D |}.
  - split; [apply are_bytes_information|]. done.
  - lia.
  - intros k p D w h g Rd _. eexists _, _. split; [reflexivity|exact Rd].
  - intros k p D w h Rd. eexists _, _. split; [reflexivity|exact Rd].
  - intros k p D w root (V & _ & R). eexists. split; [reflexivity|]. by split.
  - intros k p D w Rd. eexists. split; [reflexivity|exact Rd].
  - intros k p D w (V & P & R). eexists. split; [|by split].
    cbn [FileGetInfo plain_firmware]. by rewrite V.
  - intros k p D w m (V & P & R) Dm. split; [done|]. split; [done|]. rewrite <-Dm in *.
    apply (room_block 1); [done|lia|done|]. cbn. lia.
  - intros k p D w (V & P & R). eexists _, _. split; [reflexivity|]. by split.
  - intros k D w R. by apply (room_less 1).
  - intros n k Hn D w m st a c w' R Dm A. rewrite <-Dm in *.
    destruct (room_top _ _ R) as (B & H1 & H2 & H3). cbn [AllocatePages plain_firmware] in A.
    assert (Pt : page_top m < mem_top m + 4096) by (unfold page_top; dlia).
    destruct (Z.leb_spec (page_top m + 4096 * Z.of_nat n) (2 ^ 52)); [|lia].
    injection A as <- <- <- <-. split; [done|]. split; [lia|].
    apply (room_block n); [done|by left|lia|done].
  - intros k size Hs D w m st a c w' R Dm A. rewrite <-Dm in *.
    destruct (room_top _ _ R) as (B & H1 & H2 & H3). cbn [AllocatePool plain_firmware] in A.
    destruct (Z.leb_spec (mem_top m + size) (2 ^ 52)); [|lia].
    injection A as <- <- <- <-. split; [done|].
    apply (room_block 1); [done|lia|lia|lia].
  - intros k D w m R Dm. rewrite <-Dm in *. pose proof (foldr_max_pos (map_to_list m)) as Pos.
    eexists 1, (mem_top m), _, _. split; [reflexivity|]. split; [done|]. split; [done|].
    split; [apply are_bytes_le_bytes|]. split; [by apply mem_top_above|].
    split; [unfold mem_top; lia|]. apply (room_block 1); [done|lia|done|lia].
  - intros k D w h R. eexists _, _. split; [reflexivity|]. by split.
  - intros k D w gop i R. eexists _, _, _. split; [reflexivity|]. by split.
  - intros k D w gop i R. exact R.
  - intros k D w gop R. cbn [GopMode_of plain_firmware MaxMode gop_mode_address gop_mode_Info
      FrameBufferBase FrameBufferSize]. change (whole_pages 0x2000) with 2. unfold low.
    repeat split; lia || reflexivity.
  - intros k D w R. eexists _, _. split; [reflexivity|]. split; [lia|exact R].
  - intros k D w x R. cbn [ImageBase ImageSize plain_firmware]. change (whole_pages 0x1800) with 2.
    unfold low. repeat split; lia || reflexivity.
  - intros k D w R. eexists _, _, _. split; [reflexivity|exact R].
  - intros k D w R. eexists _, _, _, _, _, _. split; [reflexivity|]. split; [done|].
    split; [done|]. split; [apply Forall_replicate; unfold is_byte; lia|]. repeat (split; [lia|]).
    exact R.
  - intros k D w key R. eexists _, _. by split.
Defined.

(** A kernel of two segments, with a header that is not loaded between them. *)
Definition sample_phdr (ty fl off va fsz msz : Z) : list Z :=
  le_bytes 4 ty ++ le_bytes 4 fl ++ le_bytes 8 off ++ le_bytes 8 va ++ le_bytes 8 0
  ++ le_bytes 8 fsz ++ le_bytes 8 msz ++ le_bytes 8 4096.

Definition sample_header : list Z :=
  [0x7F; 69; 76; 70; 2; 1; 1; 0; 0; 0; 0; 0; 0; 0; 0; 0]
  ++ le_bytes 2 2 ++ le_bytes 2 62 ++ le_bytes 4 1 ++ le_bytes 8 0xFFFFFFFF80001000
  ++ le_bytes 8 64 ++ le_bytes 8 0 ++ le_bytes 4 0 ++ le_bytes 2 64
  ++ le_bytes 2 56 ++ le_bytes 2 3 ++ le_bytes 2 0 ++ le_bytes 2 0 ++ le_bytes 2 0.

Definition sample_kernel : list Z :=
  sample_header
  ++ sample_phdr 1 5 232 0xFFFFFFFF80001000 4 4
  ++ sample_phdr 4 4 0 0 0 0
  ++ sample_phdr 1 6 236 0xFFFFFFFF80003000 3 0x1005
  ++ [0xFA; 0xF4; 0xEB; 0xFD; 1; 2; 3].
