(* ===== verification/LibTheorems.v ===== *)
(** * Properties of the C library, the formatted output and the console *)

From S2P Require Import Prelude Memory Firmware State CString Printf PrintfFacts Console Alloc.
From S2P Require Import Inet Ucs2 Platform.

(** ** Vocabulary *)

(** The layout of an integer conversion: the text a padded number becomes.  The
    padding of [-] comes after the number, but the spaces in front of it are
    kept. *)
Definition int_text (f : flags) (width precision : Z) (prefix digits : list Z) : list Z :=
  let body := zeros (if precision =? SIZE_MAX then 0 else precision - zlen digits) ++ digits in
  let pad := width - zlen (prefix ++ body) in
  (if flag_zero f then [] else spaces pad) ++ prefix
  ++ (if flag_zero f && negb (flag_minus f) then zeros pad else []) ++ body
  ++ (if flag_minus f then spaces pad else []).

Definition before_nul (chars : list Z) : list Z :=
  match list_find (eq 0) chars with Some (i, _) => take i chars | None => chars end.

(** Console output of a text: one CHAR16 per character, a CR before each LF. *)
Definition console_chars (chars : list Z) : list Z :=
  concat (map (fun c => if c =? 10 then [13; 10] else [u16 (s8 c)]) chars).

(** ** lib/string *)

Section Lib.
Context {E : Efi} {F : Firmware} {L : Layout} {K : Fuel}.

(** [memcpy] on two ranges that do not overlap copies the [n] bytes of the
    source to the destination, leaves the rest of memory alone, and returns the
    destination. *)
Theorem memcpy_copies (s : state) dst src n bs :
  0 <= n -> read_bytes (mem s) src (Z.to_nat n) = Some bs -> are_bytes bs ->
  mapped (mem s) dst n -> disj dst n src n ->
  exists m, memcpy dst src n s = Ret dst (set_mem m s)
    /\ read_bytes m dst (Z.to_nat n) = Some bs
    /\ forall x, ~ (dst <= x < dst + n) -> m !! x = mem s !! x.
Proof.
  intros Hn R B Mp D. pose proof (read_bytes_length _ _ _ _ R) as Hl.
  exists (write_bytes (mem s) dst bs). split; [by apply memcpy_ret|]. split.
  - rewrite <-Hl. apply read_write_same.
  - intros x Hx. apply lookup_write_out. lia.
Qed.

(** [memset] fills [n] bytes with the low byte of its argument and nothing
    else. *)
Theorem memset_fills s ptr c n :
  0 <= n -> mapped (mem s) ptr n ->
  exists m, memset ptr c n s = Ret ptr (set_mem m s)
    /\ forall x, m !! x = if decide (ptr <= x < ptr + n) then Some (u8 c) else mem s !! x.
Proof.
  intros Hn Mp. eexists. split; [by apply memset_ret|]. intros x.
  rewrite lookup_write_bytes, length_replicate.
  case_decide; case_decide; try lia; [|done]. apply lookup_replicate_2. lia.
Qed.

(** [memcmp] returns zero exactly for equal ranges, and otherwise the
    difference of the first two bytes that differ. *)
Theorem memcmp_compares s s1 s2 n bs cs :
  read_bytes (mem s) s1 (Z.to_nat n) = Some bs -> read_bytes (mem s) s2 (Z.to_nat n) = Some cs ->
  exists r, memcmp s1 s2 n s = Ret r s /\ (r = 0 <-> bs = cs)
    /\ (r <> 0 -> exists i b c, bs !! i = Some b /\ cs !! i = Some c /\ r = b - c
                               /\ take i bs = take i cs).
Proof.
  intros R1 R2. exists (bytes_cmp bs cs). split; [by apply memcmp_ret|].
  pose proof (read_bytes_length _ _ _ _ R1). pose proof (read_bytes_length _ _ _ _ R2).
  split; [apply bytes_cmp_zero; congruence|]. clear.
  revert cs; induction bs as [|b bs IH]; intros [|c cs]; cbn; try done.
  destruct (Z.eqb_spec b c) as [->|]; [|by intros _; exists 0%nat, b, c].
  intros Hr. destruct (IH cs Hr) as (i & b' & c' & ? & ? & ? & T).
  exists (S i), b', c'. cbn. by rewrite T.
Qed.

(** [strlen] terminates on every memory: it returns a length or runs off the
    mapped addresses, it never runs forever. *)
Theorem strlen_terminates s a : strlen a s <> NoFuel.
Proof.
  unfold strlen. erewrite bind_ret by done.
  destruct (strlen_loop_fuel (S (size (mem s))) s a 0) as [Mp|]; [|done].
  apply mapped_size in Mp. lia.
Qed.

(** [strncmp] on two C strings compares at most [n] characters, up to the
    end of the strings. *)
Theorem strncmp_compares s a1 a2 n bs cs :
  c_string (mem s) a1 bs -> c_string (mem s) a2 cs ->
  exists r, strncmp a1 a2 n s = Ret r s
    /\ (r = 0 <-> take (Z.to_nat n) bs = take (Z.to_nat n) cs).
Proof.
  intros C1 C2. exists (chars_ncmp (Z.to_nat n) bs cs). split; [by apply strncmp_loop_ret|].
  destruct C1 as (_ & _ & N1), C2 as (_ & _ & N2). revert cs N1 N2. generalize (Z.to_nat n) as k.
  induction bs as [|b bs IH]; intros [|k] [|c cs] N1 N2; try done;
    cbn [chars_ncmp head tail from_option take]; unfold id; rewrite ?Z.eqb_refl; try done.
  - apply Forall_cons in N2 as [ [_ N] _].
    rewrite (proj2 (Z.eqb_neq 0 c)) by done. split; [lia|done].
  - apply Forall_cons in N1 as [ [_ N] _].
    rewrite (proj2 (Z.eqb_neq b 0)) by done. split; [lia|done].
  - apply Forall_cons in N1 as [ [_ N] N1]. apply Forall_cons in N2 as [_ N2].
    destruct (Z.eqb_spec b c) as [->|Hn].
    + rewrite (proj2 (Z.eqb_neq c 0)) by done. rewrite IH by done. split; [by intros ->|by intros [= ->] ].
    + split; [lia|by intros [= ? _] ].
Qed.

End Lib.

(** ** lib/vcbprintf.c *)

(** C35: the format loop terminates for every callback, format and argument list:
    each round consumes a character. *)
Theorem vcbprintf_terminates {C} (callback : list Z -> C -> Z * C) format args (c : C) :
  vcbprintf callback format args c <> PBad OutOfFuel.
Proof.
  pose proof (runs_vcbprintf callback format args) as R. unfold runs in R. specialize (R c).
  by intros Eq; rewrite Eq in R.
Qed.

(** C36: a format accepted by [fmt_safe], with arguments of the kinds it was
    checked for, never reads a missing argument and never overruns a buffer; the
    result is [-1] or fits an [int]. *)
Theorem checked_format_safe {C} (callback : list Z -> C -> Z * C) format args kinds (c : C) :
  (forall bs c, (callback bs c).1 = zlen bs) ->
  fmt_safe (length format) format kinds = true -> Forall2 has_kind kinds args ->
  exists r c', vcbprintf callback (Some format) args c = POk r c' /\ -1 <= r <= INT_MAX.
Proof.
  intros Hc Hs Hk. assert (PreOrder (fun _ _ : C => True)) by by split.
  destruct (succeeds_vcbprintf callback Hc (fun _ _ => True) (fun _ _ => I) format args kinds Hs Hk c)
    as (r & c' & Rn & _ & B). eauto.
Qed.

(** C37: the digits of an integer conversion read back as the value in the
    conversion's base, without leading zeros, and a decimal or hexadecimal
    number of 64 bits fits buf[21] with its NUL. *)
Theorem digits_round_trip sp value :
  0 <= value < 2 ^ 64 ->
  parse_digits (base_of sp) (int_digits sp value) = value
  /\ (value <> 0 -> base_of sp ^ (zlen (int_digits sp value) - 1) <= value)
  /\ (sp <> chr "o" -> 1 <= zlen (int_digits sp value) <= 20).
Proof.
  intros Hv. split; [by apply parse_int_digits|]. split; [|by apply int_digits_fit].
  intros Nz. destruct (int_digits_count sp value Hv) as (k & -> & Hk & _ & Hlo).
  replace (k + 1 - 1) with k by lia. destruct Hlo as [->|]; [cbn; lia|done].
Qed.

(** C38: an octal conversion of a value of 61 bits or more writes past buf[21]:
    the model stops there. *)
Theorem octal_overruns {C} (callback : list Z -> C -> Z * C) f width precision value neg (c : C) :
  2 ^ 60 <= value < 2 ^ 64 ->
  print_int callback f width precision (chr "o") value neg c = PBad BufferOverflow.
Proof.
  intros Hv. unfold print_int.
  assert (Hd : 21 <= zlen (int_digits (chr "o") value)).
  { destruct (int_digits_count (chr "o") value ltac:(lia)) as (k & -> & Hk & Hup & _).
    destruct (decide (k + 1 <= 20)) as [Hle|]; [|lia]. exfalso.
    assert (base_of (chr "o") ^ (k + 1) <= 8 ^ 20) by (apply Z.pow_le_mono_r; [done|lia]).
    change (8 ^ 20) with (2 ^ 60) in *. lia. }
  rewrite (proj2 (Z.leb_le _ _) Hd), orb_true_r. done.
Qed.

Lemma emit_collect bs out : emit collect bs out = POk tt (out ++ bs).
Proof. unfold emit, collect. by rewrite Z.eqb_refl. Qed.

Lemma emit_times_collect n c : forall out,
  emit_times collect n [c] out = POk tt (out ++ replicate n c).
Proof.
  induction n as [|n IH]; intros out; cbn [emit_times replicate].
  - by rewrite app_nil_r.
  - unfold mbind, P_bind. rewrite emit_collect, IH. by rewrite <-app_assoc.
Qed.

Lemma emit_if_collect (b : bool) n c out :
  (if b then emit_times collect n [c] else mret tt) out
  = POk tt (out ++ if b then replicate n c else []).
Proof. destruct b; [apply emit_times_collect|by rewrite app_nil_r]. Qed.

Lemma emit_unless_collect (b : bool) n c out :
  (if b then mret tt else emit_times collect n [c]) out
  = POk tt (out ++ if b then [] else replicate n c).
Proof. destruct b; [by rewrite app_nil_r|apply emit_times_collect]. Qed.

Lemma pbind_ok {C A B} (m : P A) (f : A -> P B) (c : C) a c' :
  m c = POk a c' -> (m ≫= f) c = f a c'.
Proof. intros Hm. unfold mbind, P_bind. by rewrite Hm. Qed.

(** the output of an integer conversion is the text [int_text]: padding,
    sign or prefix, zeros up to the precision, digits. *)
Theorem print_int_layout f width precision sp value neg out :
  0 <= value < 2 ^ 64 -> sp <> chr "o" -> flag_hash f = false -> 0 <= width < 2 ^ 32 ->
  (precision = SIZE_MAX \/ 0 <= precision < 2 ^ 32) ->
  print_int collect f width precision sp value neg out
  = POk (zlen (int_digits sp value))
      (out ++ int_text f width precision (int_prefix f sp neg) (int_digits sp value)).
Proof.
  intros Hv Hs Hh Hw Hp. pose proof (int_digits_fit sp value Hv Hs) as Hd.
  set (digits := int_digits sp value) in *.
  assert (Lp : 0 <= zlen (int_prefix f sp neg) <= 1).
  { unfold int_prefix. rewrite Hh. cbn [andb]. rewrite app_nil_r.
    destruct neg, (flag_plus f), (flag_space f); cbn; lia. }
  set (prefix := int_prefix f sp neg) in *. unfold print_int. fold prefix digits.
  set (pw := if negb (precision =? SIZE_MAX) && (zlen digits <? precision) then precision
             else zlen digits).
  set (k := if precision =? SIZE_MAX then 0 else precision - zlen digits).
  assert (Hpw : pw - zlen digits = Z.max 0 k /\ zlen digits <= pw < 2 ^ 32).
  { unfold pw, k. destruct (Z.eqb_spec precision SIZE_MAX) as [->|]; cbn [negb andb]; [lia|].
    destruct Hp as [|Hp]; [done|]. destruct (Z.ltb_spec (zlen digits) precision); lia. }
  destruct Hpw as [Hpw Bpw]. rewrite (wrap_small 64 (pw + zlen prefix)) by lia.
  set (pad := if width <? pw + zlen prefix then 0 else u64 (width - (pw + zlen prefix))).
  assert (Lb : zlen (prefix ++ zeros k ++ digits) = pw + zlen prefix).
  { unfold zeros. rewrite !length_app, length_replicate. lia. }
  assert (Hpad : Z.to_nat pad = Z.to_nat (width - zlen (prefix ++ zeros k ++ digits))).
  { rewrite Lb. unfold pad. destruct (Z.ltb_spec width (pw + zlen prefix)); [lia|].
    rewrite wrap_small; lia. }
  rewrite (proj2 (Z.leb_gt 3 _)), (proj2 (Z.leb_gt 21 _)) by lia. cbn [orb].
  unfold int_text. fold k. unfold spaces, zeros at 2. rewrite <-Hpad.
  assert (Ek : Z.to_nat (pw - zlen digits) = Z.to_nat k) by lia. rewrite Ek.
  change (str " ") with [chr " "]. change (str "0") with [chr "0"].
  erewrite pbind_ok by apply (emit_unless_collect (flag_zero f)).
  erewrite pbind_ok by apply emit_collect.
  erewrite pbind_ok by apply emit_if_collect.
  erewrite pbind_ok by apply emit_times_collect.
  erewrite pbind_ok by apply emit_collect.
  erewrite pbind_ok by apply emit_if_collect.
  unfold mret, P_ret. f_equal. unfold zeros. rewrite <-!app_assoc. done.
Qed.

(** text without a percent sign is printed as it is, in one piece, and the
    result is its length. *)
Theorem literal_text_printed {C} (callback : list Z -> C -> Z * C) text args (c : C) :
  text <> [] -> Forall (fun x => x <> chr "%") text -> zlen text <= INT_MAX ->
  (callback text c).1 = zlen text ->
  vcbprintf callback (Some text) args c = POk (zlen text) (callback text c).2.
Proof.
  intros Ne N Hl Hc. destruct text as [|x text]; [done|].
  assert (Bl : forall l : list Z, Forall (fun x => x <> chr "%") l -> block_length l = length l).
  { induction l as [|y l IH]; intros Nl; [done|]. apply Forall_cons in Nl as [Ny Nl]. cbn.
    rewrite (proj2 (Z.eqb_neq y _)) by done. by rewrite IH. }
  apply Forall_cons in N as [Nx N]. specialize (Bl _ N).
  unfold vcbprintf. cbn [length vcb_loop ps_format vcb_step].
  rewrite (proj2 (Z.eqb_neq x _)) by done. cbn [negb]. unfold normal_print. cbn [tail]. rewrite Bl.
  rewrite (take_ge (x :: text)), (drop_ge (x :: text)) by (cbn; lia).
  unfold mbind, P_bind, emit. destruct (callback (x :: text) c) as [n c'] eqn:Ec.
  cbn [fst] in Hc. rewrite Hc, Z.eqb_refl. unfold mret, P_ret.
  assert (Eu : u64 (0 + Z.of_nat (S (length text))) = zlen (x :: text))
    by (unfold INT_MAX in Hl; cbn [length] in *; rewrite wrap_small; lia).
  rewrite Eu. assert (End : forall fuel st, ps_format st = [] ->
    vcb_loop callback fuel st c' = POk st c') by (intros [|fuel] [fm a wr bd] Ef; cbn in Ef; by subst).
  rewrite End by done. cbn [ps_written]. by rewrite (proj2 (Z.ltb_ge _ _) Hl).
Qed.

(** the [-] flag pads a number on both sides, and the result counts the
    digits only. *)
Theorem minus_flag_pads_twice :
  vcbprintf collect (Some (str "%-5d")) [VWord 42] [] = POk 2 (str "   42   ").
Proof. vm_compute. reflexivity. Qed.

(** ** Console, byte order, CHAR16 *)

Section Console.
Context {E : Efi} {F : Firmware} {L : Layout} {K : Fuel}.

(** [efi_printn] prints the characters before the NUL, at most [n], with a
    CR before each LF, as long as the console accepts them. *)
Theorem efi_printn_prints {EL : EfiLaws E} chars n w :
  (forall cs w, EFI_ERROR (OutputString cs w).1 = false) ->
  efi_printn chars n w
  = (EFI_SUCCESS, foldl (fun w c => (OutputString [c] w).2) w
      (console_chars (before_nul (take (Z.to_nat n) chars)))).
Proof.
  intros Ok. unfold efi_printn. generalize (take (Z.to_nat n) chars) as cs. clear chars n.
  intros cs. revert w. induction cs as [|c cs IH]; intros w; [done|].
  cbn [efi_printn_loop]. unfold before_nul. cbn [list_find].
  destruct (Z.eqb_spec c 0) as [->|Nc]; [rewrite decide_True by done; done|].
  rewrite decide_False by congruence.
  assert (Eb : match prod_map S id <$> list_find (eq 0) cs with
    | Some (i, _) => take i (c :: cs) | None => c :: cs end = c :: before_nul cs)
    by (unfold before_nul; by destruct (list_find (eq 0) cs) as [ [i x]|]).
  rewrite Eb. unfold console_chars. cbn [map concat]. rewrite foldl_app.
  fold (console_chars (before_nul cs)). destruct (Z.eqb_spec c 10) as [->|N10].
  - pose proof (Ok [13] w) as O1. destruct (OutputString [13] w) as [st1 w1] eqn:E1. cbn [fst] in O1.
    rewrite O1. cbn [andb]. change (u16 (s8 10)) with 10.
    pose proof (Ok [10] w1) as O2. destruct (OutputString [10] w1) as [st2 w2] eqn:E2.
    cbn [fst] in O2. rewrite O2, IH. cbn [foldl]. rewrite E1. cbn [snd]. by rewrite E2.
  - cbn [andb]. pose proof (Ok [u16 (s8 c)] w) as O1.
    destruct (OutputString [u16 (s8 c)] w) as [st1 w1] eqn:E1. cbn [fst] in O1.
    rewrite O1, IH. cbn [foldl]. by rewrite E1.
Qed.

(** EFIERR lets a successful status pass without any effect; on an error
    the program ends with exit code 1 after a message, or still waits for a
    key, and changes nothing but the console. *)
Theorem EFIERR_checks file line x s :
  match EFI_ERROR x with
  | false => EFIERR file line x s = Ret tt s
  | true => EFIERR file line x s = NoFuel
            \/ exists w, EFIERR file line x s = Halt (Exited 1) (set_fw w s)
  end.
Proof. destruct (EFI_ERROR x) eqn:Ex; [by apply EFIERR_fails|by apply EFIERR_ok]. Qed.

Lemma strerror_loop_spec errors status :
  NoDup (map fst errors) -> Forall (fun p => p.1 <> 0) errors ->
  uefi_strerror_loop (errors ++ [(0, None)]) status
  = match list_find (fun p => p.1 = status) errors with
    | Some (_, (_, text)) => default [] text
    | None => str "Unknown EFI error"
    end.
Proof.
  induction errors as [| [c text] errors IH]; intros Nd Nz; [done|].
  cbn [map fst] in Nd. apply NoDup_cons in Nd as [_ Nd]. apply Forall_cons in Nz as [Nc Nz].
  cbn [app uefi_strerror_loop fst list_find] in *. rewrite (proj2 (Z.eqb_neq c 0)) by done.
  destruct (Z.eqb_spec c status) as [->|Ns]; [by rewrite decide_True by done|].
  rewrite decide_False by done. rewrite IH by done.
  by destruct (list_find _ errors) as [ [i [c' t] ]|].
Qed.

(** every error code of the table has its own text, and any other status,
    success included, is reported as unknown. *)
Theorem uefi_strerror_table {EL : EfiLaws E} status :
  let table := removelast uefi_errors in
  NoDup (map fst table) ->
  (forall text, (status, Some text) ∈ table -> uefi_strerror status = text)
  /\ (status ∉ map fst table -> uefi_strerror status = str "Unknown EFI error").
Proof.
  intros table Nd. assert (Et : uefi_errors = table ++ [(0, None)]) by done.
  assert (Nz : Forall (fun p => p.1 <> 0) table).
  { pose proof efi_error_codes as C. rewrite !Forall_cons in C. destruct_and!.
    unfold table, uefi_errors. cbn [removelast]. repeat constructor; done. }
  unfold uefi_strerror. rewrite Et. rewrite (strerror_loop_spec table) by done. split.
  - intros text Hin. destruct (list_find_elem_of (fun p : Z * option (list Z) => p.1 = status)
      table (status, Some text) Hin eq_refl) as [ [i [c t] ] Hf]. rewrite Hf.
    apply list_find_Some in Hf as (Hi & Hc & _). cbn in Hc. subst c.
    apply list_elem_of_lookup in Hin as [j Hj].
    assert (i = j) as ->.
    { eapply (NoDup_lookup _ _ _ status Nd).
      - by rewrite list_lookup_fmap, Hi.
      - by rewrite list_lookup_fmap, Hj. }
    rewrite Hi in Hj. by injection Hj as ->.
  - intros Nin. rewrite (proj2 (list_find_None _ _)); [done|].
    apply Forall_forall. intros [c t] Hp Hc. apply Nin. apply list_elem_of_fmap. cbn in Hc.
    exists (c, t). by subst.
Qed.

End Console.

(** [htons] puts the most significant byte first, and the conversions undo
    each other. *)
Theorem byte_order_round_trip d e :
  0 <= d < 2 ^ 16 -> 0 <= e < 2 ^ 32 ->
  le_bytes 2 (htons d) = be_bytes 2 d /\ ntohs (htons d) = d /\ htons (ntohs d) = d
  /\ ntohl (htonl e) = e /\ htonl (ntohl e) = e.
Proof.
  intros Hd He. split; [by apply le_bytes_htons|].
  split; [exact (bswap16_invol d Hd)|]. split; [exact (bswap16_invol d Hd)|].
  split; [exact (bswap32_invol e He)|exact (bswap32_invol e He)].
Qed.

Section Ucs2.
Context {E : Efi} {F : Firmware} {L : Layout} {K : Fuel}.

(** C39: an ASCII path becomes the CHAR16 string of the same characters, and
    [efi_strlen] of the result is the length of the path. *)
Theorem uefi_to_ucs2_ascii s utf8 ucs2 cs :
  c_string (mem s) utf8 cs -> Forall ascii_char cs ->
  mapped (mem s) ucs2 (2 * zlen cs + 2) -> disj ucs2 (2 * zlen cs + 2) utf8 (zlen cs + 1) ->
  exists s', uefi_to_ucs2 utf8 ucs2 s = Ret tt s'
    /\ read_bytes (mem s') ucs2 (2 * length cs + 2) = Some (ucs2_bytes cs ++ [0; 0])
    /\ efi_strlen ucs2 s' = Ret (zlen cs) s'.
Proof.
  intros C A Mp D. eexists. split; [by apply uefi_to_ucs2_ret|]. cbn [mem set_mem].
  pose proof (ucs2_bytes_length cs) as Lu.
  pose proof (read_write_same (mem s) ucs2 (ucs2_bytes cs ++ [0; 0])) as R.
  assert (Lr : length (ucs2_bytes cs ++ [0; 0]) = (2 * length cs + 2)%nat)
    by (rewrite length_app; cbn [length]; lia).
  split; [by rewrite <-Lr|]. unfold efi_strlen. erewrite bind_ret by done.
  apply (efi_strlen_ucs2 cs); [exact R|by apply ascii_wide|].
  assert (Mw : mapped (write_bytes (mem s) ucs2 (ucs2_bytes cs ++ [0; 0])) ucs2
    (Z.of_nat (length (ucs2_bytes cs ++ [0; 0])))) by apply mapped_write_self.
  pose proof (mapped_size _ _ _ Mw) as Sz. rewrite Lr in Sz. cbn [mem set_mem]. lia.
Qed.

(** C40: in a path with one two-byte character among ASCII characters, the low
    bits of the character are not those of its second byte [c1], which does not
    matter, but of the byte [x] three places after the first: a later character
    of the path, its NUL or, when the character is the last one, whatever comes
    after the NUL.  Without storage there the access is out of bounds.  The other
    characters are converted as they should be. *)
Theorem uefi_to_ucs2_two_byte_misread s utf8 ucs2 cs c0 c1 tail :
  let n := 2 * (zlen cs + 1 + zlen tail) + 2 in
  c_string (mem s) utf8 (cs ++ [c0; c1] ++ tail) ->
  Forall ascii_char cs -> Forall ascii_char tail -> 0xC0 <= c0 < 0xE0 ->
  mapped (mem s) ucs2 n -> disj ucs2 n utf8 (zlen cs + 4 + zlen tail) ->
  uefi_to_ucs2 utf8 ucs2 s =
  match mem s !! (utf8 + (zlen cs + 3)) with
  | Some x =>
      let v := Z.lor (Z.shiftl (Z.land c0 0x1F) 6) (Z.land x 0x3F) in
      Ret tt (set_mem (write_bytes (mem s) ucs2 (ucs2_bytes (cs ++ [v] ++ tail) ++ [0; 0])) s)
  | None => Fault (utf8 + (zlen cs + 3))
  end.
Proof. apply uefi_to_ucs2_two_byte. Qed.

End Ucs2.

(** ** Instances *)

(** A memory with the string Ada at 0x1000, its copy's place at 0x2000, and the
    string Adam at 0x3000. *)
Definition sample : state :=
  start (blocks [(0x1000, str "Ada" ++ [0]); (0x2000, replicate 8 7); (0x3000, str "Adam" ++ [0])]).

Lemma sample_ada : c_string (mem sample) 0x1000 (str "Ada").
Proof. split; [vm_compute; done|]. split; [vm_compute; done|]. cbn; each. Qed.

Lemma sample_adam : c_string (mem sample) 0x3000 (str "Adam").
Proof. split; [vm_compute; done|]. split; [vm_compute; done|]. cbn; each. Qed.

Lemma memcpy_copies_witness :
  exists m, memcpy 0x2000 0x1000 4 sample = Ret 0x2000 (set_mem m sample)
    /\ read_bytes m 0x2000 (Z.to_nat 4) = Some (str "Ada" ++ [0])
    /\ forall x, ~ (0x2000 <= x < 0x2000 + 4) -> m !! x = mem sample !! x.
Proof.
  apply (memcpy_copies sample 0x2000 0x1000 4 (str "Ada" ++ [0])).
  - lia.
  - vm_compute. reflexivity.
  - cbn; each.
  - by_reading 4%nat.
  - unfold disj. lia.
Defined.

Lemma memset_fills_witness :
  exists m, memset 0x2000 0x141 3 sample = Ret 0x2000 (set_mem m sample)
    /\ forall x, m !! x = if decide (0x2000 <= x < 0x2000 + 3) then Some (u8 0x141)
                          else mem sample !! x.
Proof. apply (memset_fills sample 0x2000 0x141 3); [lia|by_reading 3%nat]. Defined.

Lemma memcmp_compares_witness :
  exists r, memcmp 0x1000 0x3000 4 sample = Ret r sample
    /\ (r = 0 <-> str "Ada" ++ [0] = str "Adam")
    /\ (r <> 0 -> exists i b c, (str "Ada" ++ [0]) !! i = Some b /\ str "Adam" !! i = Some c
                               /\ r = b - c /\ take i (str "Ada" ++ [0]) = take i (str "Adam")).
Proof. apply memcmp_compares; vm_compute; reflexivity. Defined.

Lemma strncmp_compares_witness :
  exists r, strncmp 0x1000 0x3000 3 sample = Ret r sample
    /\ (r = 0 <-> take (Z.to_nat 3) (str "Ada") = take (Z.to_nat 3) (str "Adam")).
Proof. apply (strncmp_compares sample); [apply sample_ada|apply sample_adam]. Defined.

Lemma checked_format_safe_witness :
  exists r c, vcbprintf collect (Some (str "%s has %zu of %x")) [VStr (str "a"); VWord 3; VWord 7] []
              = POk r c /\ -1 <= r <= INT_MAX.
Proof.
  apply (checked_format_safe collect _ _ [false; true; true]).
  - intros. reflexivity.
  - vm_compute. reflexivity.
  - repeat constructor.
Defined.

Lemma digits_round_trip_witness :
  parse_digits (base_of (chr "x")) (int_digits (chr "x") 0xBEEF) = 0xBEEF
  /\ (0xBEEF <> 0 -> base_of (chr "x") ^ (zlen (int_digits (chr "x") 0xBEEF) - 1) <= 0xBEEF)
  /\ (chr "x" <> chr "o" -> 1 <= zlen (int_digits (chr "x") 0xBEEF) <= 20).
Proof. apply digits_round_trip. lia. Defined.

Lemma octal_overruns_witness :
  print_int collect no_flags 0 SIZE_MAX (chr "o") (2 ^ 63) false [] = PBad BufferOverflow.
Proof. apply octal_overruns. lia. Defined.

Lemma print_int_layout_witness :
  print_int collect (Flags false false true false true) 6 SIZE_MAX (chr "d") 42 false (str ">")
  = POk (zlen (int_digits (chr "d") 42)) (str ">" ++ int_text (Flags false false true false true) 6
      SIZE_MAX (int_prefix (Flags false false true false true) (chr "d") false) (int_digits (chr "d") 42))
  /\ int_text (Flags false false true false true) 6 SIZE_MAX
       (int_prefix (Flags false false true false true) (chr "d") false) (int_digits (chr "d") 42)
     = str "+00042".
Proof.
  split; [|vm_compute; reflexivity].
  apply print_int_layout; [lia|done|reflexivity|lia|left; reflexivity].
Defined.

Lemma literal_text_printed_witness :
  vcbprintf collect (Some (str "hello")) [] [] = POk (zlen (str "hello")) (collect (str "hello") []).2.
Proof.
  apply literal_text_printed; [done|repeat constructor; done|vm_compute; done|reflexivity].
Defined.

Lemma efi_printn_prints_witness :
  efi_printn (str "ab" ++ [10] ++ str "c") 3 (fw sample)
  = (EFI_SUCCESS, foldl (fun w c => (OutputString [c] w).2) (fw sample)
      (console_chars (before_nul (take (Z.to_nat 3) (str "ab" ++ [10] ++ str "c"))))).
Proof. apply efi_printn_prints. intros cs w. reflexivity. Defined.

Lemma uefi_strerror_table_witness :
  (forall text, (EFI_NOT_FOUND, Some text) ∈ removelast uefi_errors ->
     uefi_strerror EFI_NOT_FOUND = text)
  /\ (EFI_NOT_FOUND ∉ map fst (removelast uefi_errors) ->
      uefi_strerror EFI_NOT_FOUND = str "Unknown EFI error").
Proof.
  apply (uefi_strerror_table EFI_NOT_FOUND). apply (bool_decide_unpack _). vm_compute. exact I.
Defined.

Lemma byte_order_round_trip_witness :
  le_bytes 2 (htons 0x86DD) = be_bytes 2 0x86DD /\ ntohs (htons 0x86DD) = 0x86DD
  /\ htons (ntohs 0x86DD) = 0x86DD
  /\ ntohl (htonl 0x12345678) = 0x12345678 /\ htonl (ntohl 0x12345678) = 0x12345678.
Proof. apply byte_order_round_trip; lia. Defined.

Lemma uefi_to_ucs2_ascii_witness :
  exists s', uefi_to_ucs2 0x1000 0x2000 sample = Ret tt s'
    /\ read_bytes (mem s') 0x2000 (2 * length (str "Ada") + 2)
       = Some (ucs2_bytes (str "Ada") ++ [0; 0])
    /\ efi_strlen 0x2000 s' = Ret (zlen (str "Ada")) s'.
Proof.
  apply (uefi_to_ucs2_ascii sample 0x1000 0x2000 (str "Ada")).
  - apply sample_ada.
  - unfold ascii_char. cbn. each.
  - by_reading 8%nat.
  - unfold disj. cbn. lia.
Defined.

(** The text of an a, an e with an acute accent (0xC3 0xA9), and a b at 0x1000;
    the same without the b, at the end of storage. *)
Definition accented : state :=
  start (blocks [(0x1000, [97; 0xC3; 0xA9; 98; 0]); (0x2000, replicate 8 7);
                 (0x3000, [97; 0xC3; 0xA9; 0])]).

(** The first accented letter becomes U+00C0, the second one is read out of
    bounds. *)
Lemma uefi_to_ucs2_two_byte_misread_witness :
  uefi_to_ucs2 0x1000 0x2000 accented
  = Ret tt (set_mem (write_bytes (mem accented) 0x2000 [97; 0; 0xC0; 0; 98; 0; 0; 0]) accented)
  /\ uefi_to_ucs2 0x3000 0x2000 accented = Fault 0x3004.
Proof.
  split.
  - apply (uefi_to_ucs2_two_byte_misread accented 0x1000 0x2000 [97] 0xC3 0xA9 [98]).
    + split; [vm_compute; done|]. split; [vm_compute; done|]. cbn. each.
    + unfold ascii_char. cbn. each.
    + unfold ascii_char. cbn. each.
    + lia.
    + by_reading 8%nat.
    + unfold disj. cbn. lia.
  - apply (uefi_to_ucs2_two_byte_misread accented 0x3000 0x2000 [97] 0xC3 0xA9 []).
    + split; [vm_compute; done|]. split; [vm_compute; done|]. cbn. each.
    + unfold ascii_char. cbn. each.
    + unfold ascii_char. cbn. each.
    + lia.
    + apply (mapped_sub _ 0x2000 8); [by_reading 8%nat|cbn; lia..].
    + unfold disj. cbn. lia.
Defined.
