(* ===== verification/PagingTheorems.v ===== *)
(** * Properties of the page tables *)

From S2P Require Import Prelude Memory Firmware State CString Printf PrintfFacts Console Alloc.
From S2P Require Import Paging PagingFacts Platform.

Section Theorems.
Context {E : Efi} {F : Firmware} {L : Layout} {K : Fuel} {AL : AllocLaws E F}.

(** C15: [loader_paging_setup] builds an empty address space in a fresh page: the
    tables are well formed, the recursive entry is in place, no other address
    translates, and storage that was in use is unchanged. *)
Theorem loader_paging_setup_empty s k :
  can_alloc (S k) (dom (mem s)) (fw s) ->
  exists root s', loader_paging_setup s = Ret root s'
    /\ PT (mem s') {[ [] := root ]} root
    /\ unmapped (mem s) root 4096
    /\ (forall va, slice 39 va <> 510 -> translate (mem s') root va = None)
    /\ (forall x, is_Some (mem s !! x) -> mem s' !! x = mem s !! x)
    /\ can_alloc k (dom (mem s')) (fw s').
Proof. apply (loader_paging_setup_spec (PS := can_alloc_supply)). Qed.

(** C13: [loader_paging_map] maps one page: afterwards the addresses of the
    page translate to the given frame and flags, every other address translates
    as before, the tables are well formed again, at most three pages were
    allocated, and memory outside the tables is untouched.  Slot 510 of the root
    holds the recursive entry and is left out, here and below. *)
Theorem loader_paging_map_one_page root s tbl physical virtual flags k :
  PT (mem s) tbl root -> 0 <= virtual < 2 ^ 64 -> slice 39 virtual <> 510 ->
  0 <= physical < 2 ^ 64 -> entry_flags flags ->
  can_alloc (3 + k) (dom (mem s)) (fw s) ->
  exists s' tbl', loader_paging_map root physical virtual flags s = Ret tt s'
    /\ extends root s s' tbl tbl' /\ can_alloc k (dom (mem s')) (fw s')
    /\ forall va, 0 <= va < 2 ^ 64 -> slice 39 va <> 510 ->
         translate (mem s') root va =
         if decide (same_page va virtual) then Some (Z.lor physical flags)
         else translate (mem s) root va.
Proof. apply (loader_paging_map_present (PS := can_alloc_supply)). Qed.

(** C14: [loader_paging_map_addr] maps every page the range touches, its last
    byte's successor included, to itself, and nothing else; for ranges below
    2^48 outside of slot 510. *)
Theorem loader_paging_map_addr_identity root s tbl start length flags :
  let first := start / 4096 in
  let last := (start + length) / 4096 in
  PT (mem s) tbl root -> 0 <= start -> 0 <= length -> start + length < 2 ^ 48 ->
  clear_of_slot first (1 + (last - first)) -> entry_flags flags ->
  can_alloc (3 * Z.to_nat (1 + (last - first))) (dom (mem s)) (fw s) ->
  exists s' tbl', loader_paging_map_addr root start length flags s = Ret tt s'
    /\ extends root s s' tbl tbl'
    /\ forall va, 0 <= va < 2 ^ 64 -> slice 39 va <> 510 ->
         translate (mem s') root va =
         if decide (first <= vpn va <= last) then Some (Z.lor (vpn va * 4096) flags)
         else translate (mem s) root va.
Proof.
  intros first last I Hs Hl Hm Cl Hf CA.
  destruct (loader_paging_map_addr_spec (PS := can_alloc_supply) root s tbl start length flags 0 I Hs Hl Hm Cl Hf)
    as (s' & tbl' & R & X & _ & T); [by rewrite Nat.add_0_r|]. by exists s', tbl'.
Qed.

(** two mappings of different pages do not disturb each other: both
    translate afterwards, whichever tables they share. *)
Theorem loader_paging_map_twice root s tbl p1 v1 p2 v2 flags k :
  PT (mem s) tbl root -> 0 <= v1 < 2 ^ 64 -> 0 <= v2 < 2 ^ 64 ->
  slice 39 v1 <> 510 -> slice 39 v2 <> 510 -> ~ same_page v1 v2 ->
  0 <= p1 < 2 ^ 64 -> 0 <= p2 < 2 ^ 64 -> entry_flags flags ->
  can_alloc (6 + k) (dom (mem s)) (fw s) ->
  exists s', (_ ← loader_paging_map root p1 v1 flags; loader_paging_map root p2 v2 flags) s = Ret tt s'
    /\ translate (mem s') root v1 = Some (Z.lor p1 flags)
    /\ translate (mem s') root v2 = Some (Z.lor p2 flags).
Proof.
  intros I H1 H2 N1 N2 Ns P1 P2 Hf CA.
  destruct (loader_paging_map_present (PS := can_alloc_supply) root s tbl p1 v1 flags (3 + k)) as (s1 & t1 & R1 & X1 & CA1 & T1);
    try done.
  destruct (loader_paging_map_present (PS := can_alloc_supply) root s1 t1 p2 v2 flags k) as (s2 & t2 & R2 & X2 & CA2 & T2);
    try done; [apply X1|].
  exists s2. split; [by run_step R1|].
  rewrite (T2 v1), (T2 v2) by done. rewrite (decide_False (P := same_page v1 v2)) by done.
  rewrite (decide_True (P := same_page v2 v2)) by done. rewrite (T1 v1) by done.
  by rewrite (decide_True (P := same_page v1 v1)).
Qed.

(** [mm_virtual_indices] splits an address into the four 9-bit indices the
    processor uses, for both halves of the address space. *)
Theorem mm_virtual_indices_split va :
  0 <= va < 2 ^ 64 ->
  mm_virtual_indices va = VmIndices (slice 39 va) (slice 30 va) (slice 21 va) (slice 12 va).
Proof. apply mm_virtual_indices_slices. Qed.

(** when the firmware has no page left, mapping a page whose first table is
    missing does not return: the program exits with code 1, or still waits for
    the key of its error message. *)
Theorem loader_paging_map_out_of_memory root s physical virtual flags e st a c w' :
  load 8 (mem s) (root + 8 * pml4i (mm_virtual_indices virtual)) = Some e ->
  Z.land e PAGE_PRESENT = 0 ->
  AllocatePages EfiLoaderData 1 (mem s) (fw s) = (st, a, c, w') -> EFI_ERROR st = true ->
  loader_paging_map root physical virtual flags s = NoFuel
  \/ exists w, loader_paging_map root physical virtual flags s = Halt (Exited 1) (set_fw w s).
Proof.
  intros Le Pe A St.
  assert (N : next_table root (pml4i (mm_virtual_indices virtual)) s = NoFuel
    \/ exists w, next_table root (pml4i (mm_virtual_indices virtual)) s
                = Halt (Exited 1) (set_fw w s)).
  { unfold next_table. run_step (load_n_ret 8 s _ _ Le). rewrite Pe. cbn [Z.eqb].
    destruct (uefi_alloc_pages_fails s 1 st a c w' A St) as [Hn|[w Hw] ].
    - left. by apply bind_nofuel.
    - right. exists w. by apply bind_halt. }
  unfold loader_paging_map. destruct N as [Hn|[w Hw] ].
  - left. by apply bind_nofuel.
  - right. exists w. by apply bind_halt.
Qed.

(** C34: [loader_paging_wp_disable] clears the write-protect bit of cr0 and keeps
    the other low bits, but clears bits 32 to 63 too: the mask has 32 bits. *)
Theorem loader_paging_wp_disable_bits s k :
  0 <= k < 64 -> 0 <= cr0 (cpu s) < 2 ^ 64 ->
  exists s', loader_paging_wp_disable s = Ret tt s'
    /\ Z.testbit (cr0 (cpu s')) k
       = if (k =? 16) || (32 <=? k) then false else Z.testbit (cr0 (cpu s)) k.
Proof.
  intros Hk Hc. eexists. split; [reflexivity|]. cbn [cpu set_cpu cr0].
  rewrite Z.land_spec. unfold wrap.
  destruct (Z.leb_spec 32 k).
  - rewrite orb_true_r, Z.mod_pow2_bits_high by lia. apply andb_false_r.
  - rewrite orb_false_r, Z.mod_pow2_bits_low, Z.lnot_spec by lia.
    destruct (Z.eqb_spec k 16) as [->|].
    + apply andb_false_r.
    + rewrite Z.shiftl_spec by lia.
      replace (Z.testbit 1 (k - 16)) with false; [apply andb_true_r|]. symmetry.
      destruct (decide (k < 16)); [apply Z.testbit_neg_r; lia|].
      apply Z.bits_above_log2; [lia|]. change (Z.log2 1) with 0. lia.
Qed.

End Theorems.

(** ** Instances *)

Definition bare : state := start ∅.

Lemma bare_can_alloc k : Z.of_nat k <= 1000 -> can_alloc k (dom (mem bare)) (fw bare).
Proof.
  intros Hk. apply (plain_can_alloc k _ _ 1); [|lia|lia].
  intros x Hx. apply elem_of_dom in Hx as [b Hb]. done.
Qed.

Lemma entry_flags_rw : entry_flags 3.
Proof. split; [lia|]. split; reflexivity. Qed.

(** An address space to map into. *)
Lemma bare_tables k :
  Z.of_nat k < 1000 ->
  exists s root, PT (mem s) {[ [] := root ]} root /\ can_alloc k (dom (mem s)) (fw s)
    /\ (forall va, slice 39 va <> 510 -> translate (mem s) root va = None).
Proof.
  intros Hk. destruct (loader_paging_setup_spec (PS := can_alloc_supply) bare k) as (root & s & _ & I & _ & T & _ & CA).
  - apply bare_can_alloc. lia.
  - by exists s, root.
Qed.

Lemma loader_paging_setup_empty_witness :
  exists root s', loader_paging_setup bare = Ret root s'
    /\ PT (mem s') {[ [] := root ]} root
    /\ unmapped (mem bare) root 4096
    /\ (forall va, slice 39 va <> 510 -> translate (mem s') root va = None)
    /\ (forall x, is_Some (mem bare !! x) -> mem s' !! x = mem bare !! x)
    /\ can_alloc 9 (dom (mem s')) (fw s').
Proof. apply (loader_paging_setup_empty bare 9). apply bare_can_alloc. lia. Defined.

Lemma loader_paging_map_one_page_witness :
  exists s root s' tbl', loader_paging_map root 0x200000 0xFFFFFFFF80000000 3 s = Ret tt s'
    /\ extends root s s' {[ [] := root ]} tbl' /\ can_alloc 6 (dom (mem s')) (fw s')
    /\ forall va, 0 <= va < 2 ^ 64 -> slice 39 va <> 510 ->
         translate (mem s') root va =
         if decide (same_page va 0xFFFFFFFF80000000) then Some (Z.lor 0x200000 3)
         else translate (mem s) root va.
Proof.
  destruct (bare_tables 9 ltac:(lia)) as (s & root & I & CA & T). exists s, root.
  apply (loader_paging_map_one_page root s _ 0x200000 0xFFFFFFFF80000000 3 6 I);
    [lia|vm_compute; discriminate|lia|apply entry_flags_rw|exact CA].
Defined.

Lemma loader_paging_map_addr_identity_witness :
  exists s root s' tbl', loader_paging_map_addr root 0x1FF0 0x20 3 s = Ret tt s'
    /\ extends root s s' {[ [] := root ]} tbl'
    /\ forall va, 0 <= va < 2 ^ 64 -> slice 39 va <> 510 ->
         translate (mem s') root va =
         if decide (1 <= vpn va <= 2) then Some (Z.lor (vpn va * 4096) 3)
         else translate (mem s) root va.
Proof.
  destruct (bare_tables 6 ltac:(lia)) as (s & root & I & CA & T). exists s, root.
  apply (loader_paging_map_addr_identity root s _ 0x1FF0 0x20 3 I);
    [lia|lia|lia| |apply entry_flags_rw|exact CA].
  unfold clear_of_slot. intros j Hj. change (0x1FF0 / 4096) with 1 in Hj.
  change ((0x1FF0 + 0x20) / 4096) with 2 in Hj. rewrite Z.div_small by lia. done.
Defined.

Lemma loader_paging_map_twice_witness :
  exists s root s',
    (_ ← loader_paging_map root 0x3000 0x5000 3; loader_paging_map root 0x4000 0x6000 3) s = Ret tt s'
    /\ translate (mem s') root 0x5000 = Some (Z.lor 0x3000 3)
    /\ translate (mem s') root 0x6000 = Some (Z.lor 0x4000 3).
Proof.
  destruct (bare_tables 6 ltac:(lia)) as (s & root & I & CA & T). exists s, root.
  apply (loader_paging_map_twice root s _ 0x3000 0x5000 0x4000 0x6000 3 0 I);
    [lia|lia|vm_compute; discriminate|vm_compute; discriminate|vm_compute; discriminate|lia|lia
    |apply entry_flags_rw|exact CA].
Defined.

Lemma mm_virtual_indices_split_witness :
  mm_virtual_indices 0xFFFFFFFF80201000
  = VmIndices (slice 39 0xFFFFFFFF80201000) (slice 30 0xFFFFFFFF80201000)
      (slice 21 0xFFFFFFFF80201000) (slice 12 0xFFFFFFFF80201000)
  /\ mm_virtual_indices 0xFFFFFFFF80201000 = VmIndices 511 510 1 1.
Proof. split; [apply mm_virtual_indices_split; lia|reflexivity]. Defined.

(** A table page so high that the next page does not fit the address space. *)
Definition full : state := start (blocks [(2 ^ 52 - 4096, replicate 8 0)]).

Lemma loader_paging_map_out_of_memory_witness :
  loader_paging_map (2 ^ 52 - 4096) 0 0x5000 3 full = NoFuel
  \/ exists w, loader_paging_map (2 ^ 52 - 4096) 0 0x5000 3 full = Halt (Exited 1) (set_fw w full).
Proof.
  eapply (loader_paging_map_out_of_memory (2 ^ 52 - 4096) full 0 0x5000 3 0).
  - vm_compute. reflexivity.
  - reflexivity.
  - vm_compute. reflexivity.
  - vm_compute. reflexivity.
Defined.

Lemma loader_paging_wp_disable_bits_witness :
  exists s', loader_paging_wp_disable (set_cpu (CpuRegs 0x80010033 ∅) bare) = Ret tt s'
    /\ Z.testbit (cr0 (cpu s')) 31
       = if (31 =? 16) || (32 <=? 31) then false else Z.testbit 0x80010033 31.
Proof.
  apply (loader_paging_wp_disable_bits (set_cpu (CpuRegs 0x80010033 ∅) bare) 31);
    [lia|cbn; lia].
Defined.
