(* ===== verification/NetTheorems.v ===== *)
(** * Properties of the network stack *)

From S2P Require Import Prelude Memory Firmware State CString Printf PrintfFacts Console Alloc.
From S2P Require Import Inet Bufpool Ip6 Ip6Facts Ip6Setup Eth Icmp6 Udp6 Ucs2 Netboot.
From S2P Require Import NetbootFacts Transfer Net NetFacts Platform Demo.

Section Theorems.
Context {E : Efi} {F : Firmware} {L : Layout} {K : Fuel} {H : ImageHandle}.
Context {LL : LayoutLaws L} {EL : EfiLaws E} {AL : AllocLaws E F}.

(** C4: [net_eth_receive] does with every frame, valid or not, what the
    specification [classify] decides: a short frame, another protocol, another
    IP version or a length beyond the frame is refused, and the firmware is asked
    for nothing but console output; a frame for another host is ignored; a frame for this host
    updates the address cache and goes to the upper layer. *)
Theorem net_eth_receive_verdict s d data frame :
  has_addresses (mem s) d -> holds (mem s) data (zlen frame) frame -> away data (zlen frame) ->
  match classify d frame with
  | Invalid => exists w, printed (fw s) w
      /\ net_eth_receive data (zlen frame) s = Ret EFI_ABORTED (set_fw w s)
  | Foreign => net_eth_receive data (zlen frame) s = Ret EFI_SUCCESS s
  | Deliver next n =>
      net_eth_receive data (zlen frame) s
      = (_ ← net_dispatch next data n; mret EFI_SUCCESS) (cache_remote s frame)
  end.
Proof. apply net_eth_receive_classify. Qed.

(** C5: an echo request for this host of at most 1460 bytes is answered when a
    buffer is free: one frame goes out, to the sender, with the request's payload
    under type 129 and a valid checksum; the network state is ready again, the
    buffer is free or with the card, and other storage is as it was. *)
Theorem net_eth_receive_answers_echo s d b l data frame n code c0 c1 rest st w :
  net_ready s d (b :: l) -> holds (mem s) data (zlen frame) frame -> apart s data (zlen frame) ->
  classify d frame = Deliver IPPROTO_ICMP6 n -> n <= ICMP6_MAX_LENGTH ->
  chunk 54 (Z.to_nat n) frame = [ICMP6_TYPE_ECHO_REQUEST; code; c0; c1] ++ rest ->
  SnpTransmit (snp (ng s)) (b + 8)
    (ip6_frame (reply_mac frame) (heard d frame) (chunk 22 16 frame) IPPROTO_ICMP6 2
       ([ICMP6_TYPE_ECHO_REPLY; code; 0; 0] ++ rest)) (fw s) = (st, w) ->
  exists s', net_eth_receive data (zlen frame) s = Ret EFI_SUCCESS s'
    /\ net_ready s' (heard d frame) (free_after st b l) /\ kept data (zlen frame) s s' /\ fw s' = w.
Proof. apply net_eth_receive_echo. Qed.

(** C6: a neighbor solicitation for this host's address, of at least 24 bytes,
    with code 0 and hop limit 255, is answered with the neighbor advertisement.
    These are all the conditions: the checksum and the options are not looked
    at.  The comment in the code says that messages are validated as in RFC 4861,
    section 7.1.1, and invalid ones discarded; one with a wrong checksum is
    answered like any other (the second instance below). *)
Theorem net_eth_receive_answers_solicitation s d b l data frame n st w :
  let msg := chunk 54 (Z.to_nat n) frame in
  net_ready s d (b :: l) -> holds (mem s) data (zlen frame) frame -> apart s data (zlen frame) ->
  classify d frame = Deliver IPPROTO_ICMP6 n -> 24 <= n ->
  msg !! 0%nat = Some ICMP6_TYPE_NEIGHBOR_SOLICITATION -> msg !! 1%nat = Some 0 ->
  take 16 (drop 8 msg) = ip6_ll_addr d -> frame !! 21%nat = Some 255 ->
  SnpTransmit (snp (ng s)) (b + 8)
    (ip6_frame (reply_mac frame) (heard d frame) (chunk 22 16 frame) IPPROTO_ICMP6 2
       (advertisement d)) (fw s) = (st, w) ->
  exists s', net_eth_receive data (zlen frame) s = Ret EFI_SUCCESS s'
    /\ net_ready s' (heard d frame) (free_after st b l) /\ kept data (zlen frame) s s' /\ fw s' = w.
Proof. apply net_eth_receive_solicitation. Qed.

(** C32: a solicitation that is too short, has a code, was forwarded by a router
    (hop limit below 255) or asks for another address is dropped. *)
Theorem net_icmp6_receive_drops_solicitation s ip data len msg lip :
  holds (mem s) data (zlen msg) msg -> 24 <= zlen msg ->
  msg !! 0%nat = Some ICMP6_TYPE_NEIGHBOR_SOLICITATION ->
  holds (mem s) a_ip6_ll_addr 16 lip -> is_Some (mem s !! ip6_hop_limit ip) ->
  (forall hops, mem s !! ip6_hop_limit ip = Some hops ->
     len < 24 \/ msg !! 1%nat <> Some 0 \/ hops <> 255 \/ take 16 (drop 8 msg) <> lip) ->
  net_icmp6_receive ip data len s = Ret tt s.
Proof. apply net_icmp6_solicitation_dropped. Qed.

(** a payload over the limit, or one for a host whose MAC address is not
    cached, is not sent: the call reports EFI_ABORTED and its buffer is free
    again. *)
Theorem net_icmp6_send_refuses s d b l data len daddr dst :
  net_ready s d (b :: l) -> holds (mem s) daddr 16 dst -> disj b 2048 daddr 16 ->
  ICMP6_MAX_LENGTH < len
  \/ resolve (remote_mac_addr d) (remote_ip6_addr d) dst = None ->
  exists s', net_icmp6_send data len daddr s = Ret EFI_ABORTED s'
    /\ net_ready s' d (b :: l) /\ buffer_step b s s'.
Proof. apply net_icmp6_send_aborts. Qed.

(** C23: [net_ip6_checksum] over the headers and a payload of any length, odd
    ones included, below 65504 bytes, is the complement of the one's complement
    sum of pseudo-header and payload.  An odd payload is read one byte past its
    end, which has to be mapped. *)
Theorem net_ip6_checksum_of_frame s p dmac smac src dst type payload :
  let len := zlen payload in
  holds (mem s) p (54 + len) (ip6_headers dmac smac len type src dst ++ payload) ->
  zlen dmac = 6 -> zlen smac = 6 -> zlen src = 16 -> zlen dst = 16 ->
  wf_mem (mem s) -> mapped (mem s) p (55 + len) -> len < 65504 -> 0 <= type < 65536 ->
  net_ip6_checksum (packet_ip6 p) type len s
  = Ret (65535 - ones16 (pseudo_sum type len src dst payload)) s.
Proof. apply frame_checksum. Qed.

(** C7: a frame the senders transmit verifies at the receiver: the checksum of
    the packet with its checksum field filled in is zero. *)
Theorem sent_frame_verifies s p dmac d dst type pre post :
  let payload := pre ++ [0; 0] ++ post in
  let len := zlen payload in
  holds (mem s) p (54 + len) (ip6_frame dmac d dst type (length pre) payload) ->
  zlen dmac = 6 -> zlen (ll_mac_addr d) = 6 -> zlen (ip6_ll_addr d) = 16 -> zlen dst = 16 ->
  Nat.Even (length pre) -> wf_mem (mem s) -> mapped (mem s) p (55 + len) -> len < 65504 ->
  0 < type < 65536 ->
  net_ip6_checksum (packet_ip6 p) type len s = Ret 0 s.
Proof.
  intros payload len Hf L1 L2 L3 L4 Ev W Mp Hl Ht. unfold ip6_frame in Hf. fold len in Hf.
  set (c := ip6_checksum _ _ _ _ _) in Hf.
  assert (Es : seal (length pre) c payload = pre ++ le_bytes 2 c ++ post).
  { unfold seal, payload. rewrite take_app_length. do 2 f_equal.
    rewrite drop_app_ge by lia. by replace (length pre + 2 - length pre)%nat with 2%nat by lia. }
  rewrite Es in Hf.
  assert (Ls : zlen (pre ++ le_bytes 2 c ++ post) = len)
    by (unfold len, payload; rewrite !length_app, length_le_bytes; done).
  pose proof (frame_checksum s p dmac (ll_mac_addr d) (ip6_ll_addr d) dst type
    (pre ++ le_bytes 2 c ++ post)) as Fc. cbv zeta in Fc. rewrite Ls in Fc.
  rewrite Fc by (done || lia).
  assert (Cf : ones16 (pseudo_sum type len (ip6_ll_addr d) dst (pre ++ le_bytes 2 c ++ post)) = 65535).
  { apply checksum_fills.
    - unfold htons. rewrite bswap16_arith by lia. dlia.
    - destruct Hf as [_ B]. unfold ip6_headers in B. rewrite !Forall_app in B. destruct_and!.
      rewrite !Forall_app. by repeat split; try (repeat constructor; unfold is_byte; lia).
    - rewrite !length_app. replace (length (ip6_ll_addr d)) with 16%nat by lia.
      replace (length dst) with 16%nat by lia. destruct Ev as [k ->]. exists (16 + k)%nat. lia. }
  unfold ip6_checksum. by rewrite Cf.
Qed.

(** C24: [net_udp6_send] puts the data on the wire as one UDP datagram from the
    first free buffer, with ports, length and checksum filled in; when the card
    refuses, the buffer is free again.  The length of the data is not checked
    by the code; up to 1492 bytes fit the buffer, and the destination has to
    resolve. *)
Theorem net_udp6_send_frame s d b l data body addr dst dmac dest_port source_port st w :
  let payload := udp6_datagram source_port dest_port body in
  net_ready s d (b :: l) -> holds (mem s) data (zlen body) body -> holds (mem s) addr 16 dst ->
  disj b 2048 data (zlen body) -> disj b 2048 addr 16 -> zlen body <= 1492 ->
  0 <= dest_port < 65536 -> 0 <= source_port < 65536 ->
  resolve (remote_mac_addr d) (remote_ip6_addr d) dst = Some dmac ->
  SnpTransmit (snp (ng s)) (b + 8) (ip6_frame dmac d dst IPPROTO_UDP 6 payload) (fw s) = (st, w) ->
  exists s', net_udp6_send data (zlen body) addr dest_port source_port s
             = Ret (send_status st) s'
    /\ net_ready s' d (free_after st b l) /\ buffer_step b s s' /\ fw s' = w.
Proof. apply net_udp6_send_ready. Qed.

(** with no free buffer [net_udp6_send] gives up without an effect. *)
Theorem net_udp6_send_exhausted s d data len addr dest_port source_port :
  net_ready s d [] -> net_udp6_send data len addr dest_port source_port s = Ret EFI_ABORTED s.
Proof. apply net_udp6_send_empty. Qed.

(** [net_ip6_packet_setup] writes the Ethernet and IPv6 headers at the
    start of the packet and nothing else; for an address that does not resolve
    it changes nothing. *)
Theorem net_ip6_packet_setup_headers s d p n addr ip len type :
  has_addresses (mem s) d -> holds (mem s) addr 16 ip ->
  mapped (mem s) p n -> 54 <= n -> disj p n addr 16 -> away p n ->
  net_ip6_packet_setup p addr len type s
  = match resolve (remote_mac_addr d) (remote_ip6_addr d) ip with
    | Some dmac =>
        Ret EFI_SUCCESS (set_mem (write_bytes (mem s) p
          (ip6_headers dmac (ll_mac_addr d) len type (ip6_ll_addr d) ip)) s)
    | None => Ret EFI_NOT_FOUND s
    end.
Proof. apply net_ip6_packet_setup_ret. Qed.

(** C33: [net_ip6_ll_addr_from_mac] writes the modified EUI-64 address except
    bytes 2 to 7, which keep their contents: its [memset] clears six bytes of
    whatever lies 32 bytes further. *)
Theorem net_ip6_ll_addr_from_mac_bytes s ip mac old ms :
  holds (mem s) ip 16 old -> holds (mem s) mac 6 ms -> disj ip 38 mac 6 ->
  mapped (mem s) (ip + 32) 6 ->
  net_ip6_ll_addr_from_mac ip mac s
  = Ret tt (set_mem (write_bytes (write_bytes (mem s) (ip + 32) (replicate 6 0)) ip
                       (link_local_bytes old ms)) s).
Proof. apply net_ip6_ll_addr_ret. Qed.

(** C25: [net_bufpool_init] frees the four buffers of the new region, to be
    handed out from the last to the first, if the pool was empty and the region
    is below 4 GiB (C27 has the rest); other storage is as before. *)
Theorem net_bufpool_init_fills s st a c w :
  AllocatePages EfiLoaderData 8 (mem s) (fw s) = (st, a, c, w) -> EFI_ERROR st = false ->
  a + 8192 <= 2 ^ 32 -> eth_bufpool (bp s) = 0 -> eth_bufpool_avail (bp s) = 0 ->
  exists s', net_bufpool_init s = Ret tt s' /\ Pool s' [a + 6144; a + 4096; a + 2048; a]
    /\ s' = set_bp (bp s') (set_fw w (set_mem (mem s') s))
    /\ eth_buffer_phys (bp s') = a /\ (wf_mem (mem s) -> wf_mem (mem s'))
    /\ (forall x, is_Some (mem s !! x) -> mem s' !! x = mem s !! x)
    /\ (forall x, is_Some (mem s' !! x) -> is_Some (mem s !! x) \/ a <= x < a + 32768).
Proof. apply net_bufpool_init_ret. Qed.

(** C26: the pool is a stack: [net_bufpool_get] pops a buffer, any pointer into
    a buffer that is out gives it back, and getting after giving back yields
    the same buffer and leaves the same free list. *)
Theorem net_bufpool_stack s l data b size :
  Pool s l -> is_buffer (eth_buffer_phys (bp s)) b -> b ∉ l -> b <= data < b + 2048 ->
  size <= ETH_MTU ->
  exists s1 s2, net_bufpool_return data s = Ret tt s1 /\ Pool s1 (b :: l)
    /\ net_bufpool_get size s1 = Ret (b + 8) s2 /\ Pool s2 l
    /\ eth_bufpool_avail (bp s1) = eth_bufpool_avail (bp s) + 1.
Proof.
  intros P Bb Nb Hd Hs.
  destruct (net_bufpool_return_ret s l data b P Bb Nb Hd) as (s1 & R1 & P1 & _ & Ph).
  destruct (net_bufpool_get_ret s1 b l size P1 Hs) as (s2 & R2 & P2 & _).
  exists s1, s2. split; [done|]. split; [done|]. split; [done|]. split; [done|].
  rewrite (pool_avail _ _ P1), (pool_avail _ _ P). cbn [length]. lia.
Qed.

(** C27: buffers above 4 GiB are not usable: the mask keeps 32 bits of an
    address, so giving such a buffer back writes to another address. *)
Theorem net_bufpool_return_above_4g s data :
  2 ^ 32 <= data -> 0 <= eth_buffer_phys (bp s) <= data ->
  data < eth_buffer_phys (bp s) + 8192 ->
  eth_buffer_phys (bp s) + 8192 < 2 ^ 64 ->
  mem s !! (data mod 2 ^ 32 / 2048 * 2048) = None ->
  net_bufpool_return data s = Fault (data mod 2 ^ 32 / 2048 * 2048).
Proof.
  intros Hd Hr Hr2 H64 U. unfold net_bufpool_return. erewrite bind_ret by done.
  change (ETH_BUFFERS_PAGES * 0x1000) with 8192. rewrite wrap_small by lia.
  rewrite (proj2 (Z.ltb_ge _ _)), (proj2 (Z.leb_gt _ _)) by lia. cbn [orb].
  erewrite bind_ret by done.
  assert (Em : Z.land data BUF_MASK = data mod 2 ^ 32 / 2048 * 2048).
  { rewrite <-buf_mask by (apply Z.mod_pos_bound; lia).
    change BUF_MASK with (Z.land (Z.ones 32) BUF_MASK) at 1.
    by rewrite Z.land_assoc, Z.land_ones by lia. }
  rewrite Em. erewrite bind_ret by done.
  unfold mbind, M_bind, store_n, write_block. rewrite length_le_bytes. cbn [read_bytes].
  by rewrite U.
Qed.

(** [net_poll] takes back the buffer the card reports as sent: it becomes
    the first free one. *)
Theorem net_poll_collect_completed s d l b tx_buf w :
  net_ready s d l -> is_buffer (eth_buffer_phys (bp s)) b -> b ∉ l -> b <= tx_buf < b + 2048 ->
  SnpGetStatus (snp (ng s)) (fw s) = (0, tx_buf, w) ->
  exists s', net_poll_collect s = Ret true s' /\ Pool s' (b :: l) /\ fw s' = w.
Proof.
  intros R Bb Nb Ht G. pose proof (ready_pool _ _ _ R) as P. pose proof (pool_size _ _ P) as Sz.
  destruct (is_buffer_bounds _ _ _ P Bb) as (B0 & _ & B2 & _ & B3 & B4).
  destruct (pool_region _ _ P) as (_ & _ & Rg).
  unfold net_poll_collect. erewrite bind_ret by done. rewrite (pool_avail _ _ P).
  rewrite (proj2 (Z.ltb_lt _ _)) by lia. erewrite bind_ret by done.
  erewrite bind_ret by (unfold firmware; by rewrite G). cbv beta iota.
  change (negb (0 =? 0)) with false. cbv iota. rewrite (proj2 (Z.eqb_neq tx_buf 0)) by lia.
  cbn [negb]. erewrite bind_ret by done. cbn [bp set_fw].
  change (ETH_BUFFERS_PAGES * 0x1000) with 8192. rewrite wrap_small by lia.
  rewrite (proj2 (Z.leb_le _ _)), (proj2 (Z.ltb_lt _ _)) by lia. cbn [andb].
  assert (P' : Pool (set_fw w s) l) by by eapply pool_frame.
  destruct (net_bufpool_return_ret _ l tx_buf b P' Bb Nb Ht) as (s' & Rt & Pl & Es & _).
  run_step Rt. exists s'. split; [done|]. split; [done|]. by rewrite Es.
Qed.

End Theorems.

(** ** Instances *)

Definition ping : list Z := from_peer 58 ([128; 0; 0x12; 0x34] ++ [0; 1; 0; 1; 104; 105; 33]).
Definition solicitation_with (checksum : list Z) : list Z :=
  from_peer 58 ([135; 0] ++ checksum ++ [0; 0; 0; 0] ++ demo_ip).

(** The valid checksum, and another one. *)
Example solicitation_checksums :
  let sum checksum := ones16 (pseudo_sum 58 24 peer_addr demo_ip
    ([135; 0] ++ checksum ++ [0; 0; 0; 0] ++ demo_ip)) in
  sum [0x75; 0xAF] = 65535 /\ sum [0; 0] <> 65535.
Proof. vm_compute. split; [reflexivity|discriminate]. Qed.

Lemma bytes_ping : are_bytes ping.
Proof. apply (bool_decide_unpack _). vm_compute. exact I. Qed.

Lemma net_eth_receive_verdict_witness :
  exists s, demo s ping
    /\ classify demo_addresses ping = Deliver 58 11
    /\ net_eth_receive 0x400 65 s
       = (_ ← net_dispatch 58 0x400 11; mret EFI_SUCCESS) (cache_remote s ping).
Proof.
  destruct (demo_state ping bytes_ping ltac:(vm_compute; discriminate)) as [s D]. exists s.
  split; [exact D|]. split; [vm_compute; reflexivity|].
  pose proof (net_eth_receive_verdict s demo_addresses 0x400 ping
    (ready_addresses _ _ _ (demo_ready _ _ D)) (demo_frame _ _ D) (proj2 (demo_apart _ _ D))) as V.
  replace (classify demo_addresses ping) with (Deliver 58 11) in V by (vm_compute; reflexivity).
  exact V.
Defined.

Lemma net_eth_receive_answers_echo_witness :
  exists s s', demo s ping /\ net_eth_receive 0x400 65 s = Ret EFI_SUCCESS s'
    /\ net_ready s' (heard demo_addresses ping) [8192; 6144; 4096]
    /\ transmitted (fw s')
       = [peer_hw ++ demo_mac ++ [0x86; 0xDD; 0x60; 0; 0; 0; 0; 11; 58; 255] ++ demo_ip ++ peer_addr
          ++ [129; 0; 0x74; 0x8E; 0; 1; 0; 1; 104; 105; 33] ].
Proof.
  destruct (demo_state ping bytes_ping ltac:(vm_compute; discriminate)) as [s D].
  destruct (net_eth_receive_answers_echo s demo_addresses 10240 [8192; 6144; 4096] 0x400 ping 11
    0 0x12 0x34 [0; 1; 0; 1; 104; 105; 33] 0
    (log_transmit 10248 (ip6_frame (reply_mac ping) (heard demo_addresses ping) (chunk 22 16 ping)
       IPPROTO_ICMP6 2 ([129; 0; 0; 0] ++ [0; 1; 0; 1; 104; 105; 33])) idle))
    as (s' & Rc & R' & _ & Fw).
  - apply D.
  - apply D.
  - apply D.
  - vm_compute. reflexivity.
  - vm_compute. discriminate.
  - vm_compute. reflexivity.
  - rewrite (demo_fw _ _ D). reflexivity.
  - exists s, s'. split; [exact D|]. split; [exact Rc|]. split; [exact R'|].
    rewrite Fw. vm_compute. reflexivity.
Defined.

(** A valid solicitation, and one with a wrong checksum. *)
Lemma net_eth_receive_answers_solicitation_witness :
  let answered frame := exists s s', demo s frame
    /\ net_eth_receive 0x400 78 s = Ret EFI_SUCCESS s'
    /\ net_ready s' (heard demo_addresses frame) [8192; 6144; 4096]
    /\ drop 58 <$> transmitted (fw s')
       = [ [0x60; 0; 0; 0] ++ demo_ip ++ [2; 1] ++ demo_mac ] in
  answered (solicitation_with [0x75; 0xAF]) /\ answered (solicitation_with [0; 0]).
Proof.
  intros answered.
  assert (Any : forall frame, frame = solicitation_with [0x75; 0xAF] \/ frame = solicitation_with [0; 0] ->
    answered frame).
  { intros frame Hc.
    assert (Bf : are_bytes frame)
      by (destruct Hc as [->| ->]; apply (bool_decide_unpack _); vm_compute; exact I).
    assert (Lf : zlen frame = 78) by by destruct Hc as [->| ->].
    destruct (demo_state frame Bf ltac:(lia)) as [s D].
    destruct (net_eth_receive_answers_solicitation s demo_addresses 10240 [8192; 6144; 4096] 0x400
      frame 24 0
      (log_transmit 10248 (ip6_frame (reply_mac frame) (heard demo_addresses frame)
         (chunk 22 16 frame) IPPROTO_ICMP6 2 (advertisement demo_addresses)) idle))
      as (s' & Rc & R' & _ & Fw).
    - apply D.
    - apply D.
    - apply D.
    - by destruct Hc as [->| ->]; vm_compute.
    - lia.
    - by destruct Hc as [->| ->].
    - by destruct Hc as [->| ->].
    - by destruct Hc as [->| ->]; vm_compute.
    - by destruct Hc as [->| ->]; vm_compute.
    - rewrite (demo_fw _ _ D). reflexivity.
    - rewrite Lf in Rc. exists s, s'. split; [exact D|]. split; [exact Rc|]. split; [exact R'|].
      rewrite Fw. by destruct Hc as [->| ->]; vm_compute. }
  split; apply Any; auto.
Defined.

(** A solicitation for another host. *)
Definition stray : list Z := from_peer 58 ([135; 0; 0; 0; 0; 0; 0; 0] ++ peer_addr).

Lemma bytes_stray : are_bytes stray.
Proof. apply (bool_decide_unpack _). vm_compute. exact I. Qed.

Lemma net_icmp6_receive_drops_solicitation_witness :
  exists s, demo s stray /\ net_icmp6_receive (0x400 + 14) (0x400 + 54) 24 s = Ret tt s.
Proof.
  destruct (demo_state stray bytes_stray ltac:(vm_compute; discriminate)) as [s D]. exists s.
  split; [exact D|]. pose proof (demo_frame _ _ D) as Hf.
  apply (net_icmp6_receive_drops_solicitation s (0x400 + 14) (0x400 + 54) 24
    ([135; 0; 0; 0; 0; 0; 0; 0] ++ peer_addr) demo_ip).
  - apply (holds_mid _ 0x400 (zlen stray) (take 54 stray) _ []).
    + exact Hf.
    + vm_compute. reflexivity.
  - cbn. lia.
  - reflexivity.
  - apply (has_ll_ip _ _ (ready_addresses _ _ _ (demo_ready _ _ D))).
  - exists 255. apply (holds_byte _ _ _ _ 21 _ Hf); [vm_compute; reflexivity|lia].
  - intros hops _. right. right. right. intros Eq. vm_compute in Eq. discriminate Eq.
Defined.

(** A state with some data at 0x400, to be sent. *)
Definition hello : list Z := [104; 101; 108; 108; 111].

Lemma demo_hello : exists s, demo s hello.
Proof. apply demo_state; [apply (bool_decide_unpack _); vm_compute; exact I|cbn; lia]. Qed.

Lemma demo_peer s f : demo s f -> holds (mem s) a_remote_ip6_addr 16 peer_addr.
Proof. intros D. apply (has_remote_ip _ _ (ready_addresses _ _ _ (demo_ready _ _ D))). Qed.

Lemma net_icmp6_send_refuses_witness :
  exists s s', demo s hello /\ net_icmp6_send 0x400 1461 a_remote_ip6_addr s = Ret EFI_ABORTED s'
    /\ net_ready s' demo_addresses demo_buffers.
Proof.
  destruct demo_hello as [s D].
  destruct (net_icmp6_send_refuses s demo_addresses 10240 [8192; 6144; 4096] 0x400 1461
    a_remote_ip6_addr peer_addr) as (s' & Sd & R' & _).
  - apply D.
  - by eapply demo_peer.
  - unfold disj. cbn. lia.
  - left. vm_compute. reflexivity.
  - exists s, s'. split; [exact D|]. split; [exact Sd|exact R'].
Defined.

Lemma net_udp6_send_frame_witness :
  exists s s', demo s hello
    /\ net_udp6_send 0x400 5 a_remote_ip6_addr 57778 57777 s = Ret EFI_SUCCESS s'
    /\ net_ready s' demo_addresses [8192; 6144; 4096]
    /\ drop 54 <$> transmitted (fw s')
       = [ [0xE1; 0xB1; 0xE1; 0xB2; 0; 13; 0x77; 0xDD] ++ hello ].
Proof.
  destruct demo_hello as [s D].
  destruct (net_udp6_send_frame s demo_addresses 10240 [8192; 6144; 4096] 0x400 hello
    a_remote_ip6_addr peer_addr peer_hw 57778 57777 0
    (log_transmit 10248 (ip6_frame peer_hw demo_addresses peer_addr IPPROTO_UDP 6
       (udp6_datagram 57777 57778 hello)) idle)) as (s' & Sd & R' & _ & Fw).
  - apply D.
  - apply D.
  - by eapply demo_peer.
  - unfold disj. cbn. lia.
  - unfold disj. cbn. lia.
  - cbn. lia.
  - lia.
  - lia.
  - vm_compute. reflexivity.
  - rewrite (demo_fw _ _ D). reflexivity.
  - exists s, s'. split; [exact D|]. split; [exact Sd|]. split; [exact R'|].
    rewrite Fw. vm_compute. reflexivity.
Defined.

Lemma net_udp6_send_exhausted_witness :
  exists s, net_ready s demo_addresses []
    /\ net_udp6_send 0x400 5 a_remote_ip6_addr 57778 57777 s = Ret EFI_ABORTED s.
Proof.
  destruct demo_hello as [s D].
  destruct (take_buffer s _ _ _ ETH_MTU (demo_ready _ _ D) ltac:(done)) as (s1 & _ & R1 & _).
  destruct (take_buffer s1 _ _ _ ETH_MTU R1 ltac:(done)) as (s2 & _ & R2 & _).
  destruct (take_buffer s2 _ _ _ ETH_MTU R2 ltac:(done)) as (s3 & _ & R3 & _).
  destruct (take_buffer s3 _ _ _ ETH_MTU R3 ltac:(done)) as (s4 & _ & R4 & _).
  exists s4. split; [exact R4|]. apply (net_udp6_send_exhausted s4 demo_addresses). exact R4.
Defined.

(** The frame of [ping] in a state where it is not a received one. *)
Lemma net_ip6_checksum_of_frame_witness :
  exists s, net_ip6_checksum (packet_ip6 0x400) 58 4 s
            = Ret (65535 - ones16 (pseudo_sum 58 4 peer_addr demo_ip [128; 0; 0; 0])) s.
Proof.
  destruct (demo_state (from_peer 58 [128; 0; 0; 0] ++ [0])) as [s D].
  { apply (bool_decide_unpack _). vm_compute. exact I. }
  { vm_compute. discriminate. }
  pose proof (demo_frame _ _ D) as Hf. exists s.
  apply (net_ip6_checksum_of_frame s 0x400 demo_mac peer_hw peer_addr demo_ip 58 [128; 0; 0; 0]).
  - apply (holds_prefix _ 0x400 59 _ [0]); [exact Hf|reflexivity].
  - reflexivity.
  - reflexivity.
  - reflexivity.
  - reflexivity.
  - apply (demo_ready _ _ D).
  - exact (holds_mapped _ _ _ _ Hf ltac:(vm_compute; discriminate)).
  - reflexivity.
  - lia.
Defined.

Lemma sent_frame_verifies_witness :
  exists s, holds (mem s) 0x400 66 (ip6_frame peer_hw demo_addresses peer_addr 58 2
                                      ([129; 0] ++ [0; 0] ++ [0; 1; 0; 1; 104; 105; 33; 33]))
    /\ net_ip6_checksum (packet_ip6 0x400) 58 12 s = Ret 0 s.
Proof.
  destruct (demo_state (ip6_frame peer_hw demo_addresses peer_addr 58 2
    ([129; 0] ++ [0; 0] ++ [0; 1; 0; 1; 104; 105; 33; 33]) ++ [0])) as [s D].
  { apply (bool_decide_unpack _). vm_compute. exact I. }
  { vm_compute. discriminate. }
  pose proof (demo_frame _ _ D) as Hf. exists s.
  assert (Hp : holds (mem s) 0x400 66 (ip6_frame peer_hw demo_addresses peer_addr 58 2
    ([129; 0] ++ [0; 0] ++ [0; 1; 0; 1; 104; 105; 33; 33]))).
  { apply (holds_prefix _ 0x400 67 _ [0]); [exact Hf|reflexivity]. }
  split; [exact Hp|].
  apply (sent_frame_verifies s 0x400 peer_hw demo_addresses peer_addr 58 [129; 0]
    [0; 1; 0; 1; 104; 105; 33; 33]).
  - exact Hp.
  - reflexivity.
  - reflexivity.
  - reflexivity.
  - reflexivity.
  - exists 1%nat. reflexivity.
  - apply (demo_ready _ _ D).
  - exact (holds_mapped _ _ _ _ Hf ltac:(vm_compute; discriminate)).
  - reflexivity.
  - lia.
Defined.

Lemma net_ip6_packet_setup_headers_witness :
  exists s, demo s hello
    /\ net_ip6_packet_setup 4104 a_remote_ip6_addr 20 58 s
       = Ret EFI_SUCCESS (set_mem (write_bytes (mem s) 4104
           (ip6_headers peer_hw demo_mac 20 58 demo_ip peer_addr)) s).
Proof.
  destruct demo_hello as [s D]. exists s. split; [exact D|]. pose proof (demo_ready _ _ D) as R.
  apply (net_ip6_packet_setup_headers s demo_addresses 4104 2040 a_remote_ip6_addr peer_addr 20 58).
  - apply R.
  - by eapply demo_peer.
  - eapply mapped_sub; [apply (pool_mapped _ _ (ready_pool _ _ _ R))|rewrite (demo_phys _ _ D); lia..].
  - lia.
  - unfold disj. cbn. lia.
  - eapply away_sub; [apply (ready_away _ _ _ R)|rewrite (demo_phys _ _ D); lia..].
Defined.

(** A MAC address at 0x1000 and room for an IPv6 address at 0x2000. *)
Definition eui : state := start (blocks [(0x1000, demo_mac); (0x2000, replicate 38 0xAA)]).

Lemma net_ip6_ll_addr_from_mac_bytes_witness :
  exists s', net_ip6_ll_addr_from_mac 0x2000 0x1000 eui = Ret tt s'
    /\ read_bytes (mem s') 0x2000 38
       = Some ([0xFE; 0x80; 0xAA; 0xAA; 0xAA; 0xAA; 0xAA; 0xAA; 0x50; 0x54; 0; 0xFF; 0xFE; 0x12; 0x34; 0x56]
               ++ replicate 16 0xAA ++ replicate 6 0).
Proof.
  eexists. split.
  - apply (net_ip6_ll_addr_from_mac_bytes eui 0x2000 0x1000 (replicate 16 0xAA) demo_mac).
    + split; [vm_compute; reflexivity|]. apply (bool_decide_unpack _). vm_compute. exact I.
    + split; [vm_compute; reflexivity|]. bytes_of.
    + unfold disj. lia.
    + by_reading 6%nat.
  - vm_compute. reflexivity.
Defined.

Lemma net_bufpool_init_fills_witness :
  exists s', net_bufpool_init (start ∅) = Ret tt s' /\ Pool s' [10240; 8192; 6144; 4096].
Proof.
  destruct (net_bufpool_init_fills (start ∅) 0 4096 (fun _ => 0) idle)
    as (s' & R & P & _).
  - vm_compute. reflexivity.
  - reflexivity.
  - lia.
  - reflexivity.
  - reflexivity.
  - exists s'. split; [exact R|exact P].
Defined.

Lemma net_bufpool_stack_witness :
  exists s s1 s2, Pool s [8192; 6144; 4096]
    /\ net_bufpool_return 10300 s = Ret tt s1 /\ Pool s1 [10240; 8192; 6144; 4096]
    /\ net_bufpool_get 100 s1 = Ret 10248 s2 /\ Pool s2 [8192; 6144; 4096].
Proof.
  destruct demo_hello as [s0 D].
  destruct (take_buffer s0 _ _ _ ETH_MTU (demo_ready _ _ D) ltac:(done))
    as (s & _ & R & Bb & Nb & _).
  destruct (net_bufpool_stack s [8192; 6144; 4096] 10300 10240 100 (ready_pool _ _ _ R) Bb Nb)
    as (s1 & s2 & R1 & P1 & R2 & P2 & _); [lia|vm_compute; discriminate|].
  exists s, s1, s2. split; [exact (ready_pool _ _ _ R)|].
  split; [exact R1|]. split; [exact P1|]. split; [exact R2|exact P2].
Defined.

(** A pool region at 4 GiB. *)
Definition high : state :=
  set_bp (BufpoolGlobals 0 0 (2 ^ 32)) (start (blocks [(2 ^ 32, replicate 16 0)])).

Lemma net_bufpool_return_above_4g_witness :
  mapped (mem high) (2 ^ 32) 8 /\ net_bufpool_return (2 ^ 32 + 8) high = Fault 0.
Proof.
  split; [by_reading 8%nat|]. apply (net_bufpool_return_above_4g high (2 ^ 32 + 8)).
  - lia.
  - cbn. lia.
  - cbn. lia.
  - cbn. lia.
  - vm_compute. reflexivity.
Defined.

(** A datagram is sent, and the next poll of the card gives its buffer back. *)
Lemma net_poll_collect_completed_witness :
  exists s s', net_ready s demo_addresses [8192; 6144; 4096] /\ sent_buffers (fw s) = [10248]
    /\ net_poll_collect s = Ret true s' /\ Pool s' [10240; 8192; 6144; 4096].
Proof.
  destruct demo_hello as [s0 D].
  destruct (take_buffer s0 _ _ _ ETH_MTU (demo_ready _ _ D) ltac:(done))
    as (s1 & _ & R & Bb & Nb & _).
  pose (w := log_transmit 10248 hello idle : fwst). set (s := set_fw w s1).
  assert (Rs : net_ready s demo_addresses [8192; 6144; 4096]).
  { destruct R as [P A W Aw]. split; [|exact A|exact W|exact Aw]. by eapply pool_frame. }
  destruct (net_poll_collect_completed s demo_addresses [8192; 6144; 4096] 10240 10248
    (set_card [] [] w)) as (s' & C & P' & _).
  - exact Rs.
  - exact Bb.
  - exact Nb.
  - lia.
  - reflexivity.
  - exists s, s'. split; [exact Rs|]. split; [reflexivity|]. split; [exact C|exact P'].
Defined.
