(* ===== verification/NetbootTheorems.v ===== *)
(** * Properties of the netboot protocol *)

From S2P Require Import Prelude Memory Firmware State CString Printf PrintfFacts Console Alloc.
From S2P Require Import Inet Bufpool Ip6 Ip6Facts Ip6Setup Eth Icmp6 Udp6 Ucs2 Netboot.
From S2P Require Import NetbootFacts Transfer Net NetFacts TransferRuns Boot Kernel Session PollFacts Platform Demo.

Section Theorems.
Context {E : Efi} {F : Firmware} {L : Layout} {K : Fuel} {H : ImageHandle} {ST : SystemTable}.
Context {LL : LayoutLaws L} {EL : EfiLaws E} {AL : AllocLaws E F}.

(** C8: [netboot_cmd_receive] implements the abstract receiver: a fragment that
    does not complete the file is stored exactly when [receive_fragment] stores
    it, the acknowledgement carries the number [receive_fragment] computes, and
    the transfer goes on in the receiver's new state. *)
Theorem netboot_fragment_refines s d b l size cap r msg id payload st w :
  let r' := (receive_fragment r id payload).1 in
  let ack := (receive_fragment r id payload).2 in
  let s1 := fragment_stored s r id payload in
  arrives s d b l size cap r msg id payload -> fits size r id payload ->
  zlen (received r') <> size ->
  delivers (ack_state s1 CMD_FILE_FRAGMENT ack) d b CMD_ACK (ack_bytes CMD_FILE_FRAGMENT ack) st w ->
  exists s', netboot_cmd_receive msg s = Ret EFI_SUCCESS s'
    /\ Transfer s' size cap r' /\ net_ready s' d (free_after st b l) /\ fw s' = w
    /\ ng s' = ng s /\ sent b s1 s'.
Proof. exact (netboot_receive_fragment s d b l size cap r msg id payload st w). Qed.

(** C9: until the fragment that completes the file, whatever fragments arrive, in
    whatever order, repeated or missing, the file buffer holds a prefix of the
    file: the first chunks, as many as the packet counter says.  In between the
    program may do what else it does while it polls: handle other commands than
    CMD_FILE_SEND_INIT and CMD_FWSETUP, ignore frames, answer echo requests and
    solicitations, advertise the host, take buffers back, store packets and call
    the firmware. *)
Theorem transfer_holds_prefix chunks size cap ids s s' r :
  cut chunks size -> transfer_run chunks size cap ids s s' ->
  Transfer s size cap r -> prefix_of_chunks chunks r ->
  let k := Z.to_nat (file_packets_transferred (nb s')) in
  (k <= length chunks)%nat
  /\ file_bytes_transferred (nb s') = zlen (concat (take k chunks))
  /\ holds (mem s') (file_buffer (nb s')) (zlen (concat (take k chunks))) (concat (take k chunks)).
Proof.
  intros C Rn T P. destruct (transfer_run_sim _ _ _ _ _ _ C Rn r T P) as [T' [Pn Pr] ].
  cbv zeta. rewrite (tr_next _ _ _ _ T'), <-Pr. split; [lia|]. split; apply T'.
Qed.

(** C10: progress: when the next fragments arrive in order, interleaved with any
    others and with the program's other activity, the transfer gets at least as
    far.  [cut] leaves out the fragment that completes the file, which C11 is
    about. *)
Theorem transfer_progresses chunks size cap ids s s' r (k : nat) :
  cut chunks size -> transfer_run chunks size cap ids s s' ->
  Transfer s size cap r -> prefix_of_chunks chunks r ->
  sublist (seq (Z.to_nat (next_fragment r)) k) ids ->
  next_fragment r + Z.of_nat k <= file_packets_transferred (nb s').
Proof.
  intros C Rn T P Sb. destruct (transfer_run_sim _ _ _ _ _ _ C Rn r T P) as [T' _].
  rewrite (tr_next _ _ _ _ T'). destruct P as [Pn Pr].
  pose proof (receive_run_progress chunks ids (Z.to_nat (next_fragment r)) r (conj Pn Pr)
    (run_ids_bound _ _ _ _ _ _ Rn) k Sb ltac:(lia)). lia.
Qed.

(** C11: the fragment that completes the file, on a volume that can be written:
    it is acknowledged, the file of the announced path is opened, all received
    bytes are written to it in one call, and it is closed.  [saves] names the
    firmware state [w'] these calls lead to, and the run ends in it, but for
    console output.  The loader waits for commands again with a cleared transfer
    state. *)
Theorem netboot_last_fragment_saves s d b l size cap r msg payload path st w w' :
  let data := received r ++ payload in
  let s1 := fragment_stored s r (next_fragment r) payload in
  arrives s d b l size cap r msg (next_fragment r) payload -> zlen data = size ->
  next_fragment r < 2 ^ 64 - 2 ->
  c_string (mem s) (info_path (file_info (nb s))) path -> Forall ascii_char path ->
  zlen path < 2 ^ 32 -> apart s (info_path (file_info (nb s))) (zlen path + 1) ->
  disj (file_buffer (nb s)) size (info_path (file_info (nb s))) (zlen path + 1) ->
  disj (file_info (nb s)) 8 msg 4 ->
  delivers (ack_state s1 CMD_FILE_FRAGMENT (next_fragment r)) d b CMD_ACK
    (ack_bytes CMD_FILE_FRAGMENT (next_fragment r)) st w ->
  (forall s2, fw s2 = w -> sent b s1 s2 -> saves s2 path data w') ->
  exists s', netboot_cmd_receive msg s = Ret EFI_SUCCESS s' /\ printed w' (fw s')
    /\ nb s' = NetbootState STATE_CMD_WAIT 0 0 0 0 /\ ng s' = ng s.
Proof. exact (netboot_receive_last s d b l size cap r msg payload path st w w'). Qed.

(** C12: CMD_FILE_SEND_INIT opens a transfer: the announcement is copied, room
    for the whole file is made, nothing counts as received, and the command is
    acknowledged. The counters are those left by the last transfer, so they have
    to be zero. *)
Theorem netboot_send_init_opens s d b l msg info p1 p2 c2 w2 st w :
  let size := le_num (take 8 info) in
  let s2 := transfer_opened s p1 p2 info size c2 w2 in
  nb_state (nb s) <> STATE_FILE_TRANSFER ->
  load 4 (mem s) (msg_cmd msg) = Some CMD_FILE_SEND_INIT ->
  net_ready s d (b :: l) -> file_bytes_transferred (nb s) = 0 -> file_packets_transferred (nb s) = 0 ->
  load 8 (mem s) (msg_message_length msg) = Some (sizeof_message + zlen info) ->
  holds (mem s) (msg_data msg) (zlen info) info -> 32 <= zlen info < 2 ^ 32 -> 0 < size ->
  makes_room s info size p1 p2 c2 w2 ->
  delivers (ack_state s2 CMD_FILE_SEND_INIT 0) d b CMD_ACK (ack_bytes CMD_FILE_SEND_INIT 0) st w ->
  exists s', netboot_cmd_receive msg s = Ret EFI_SUCCESS s'
    /\ Transfer s' size (le_num (take 8 (drop 8 info))) (Receiver [] 0)
    /\ net_ready s' d (free_after st b l) /\ ng s' = ng s /\ fw s' = w /\ sent b s2 s'.
Proof.
  intros size s2 N Lc R Hb Hp Ml Hi Hl Hs Room Dl.
  destruct (netboot_send_init_ret s d b l msg info p1 p2 c2 w2 st w) as (s' & Si & Post); try done.
  exists s'. split; [|exact Post]. rewrite netboot_cmd_idle by done.
  run_step (load_n_ret 4 _ _ _ Lc). by run_step Si.
Qed.

(** An uninitialised local of eight bytes. *)
Lemma uninitialised s :
  with_local 8 load64 s = Ret (le_num (bytes_at stack_junk 8)) s.
Proof.
  rewrite <-(set_mem_same s) at 2.
  apply (with_local_ret 8 _ s _ s (mem s) (bytes_at stack_junk 8)); [lia|done|by apply length_bytes_at|].
  apply load_n_ret. unfold load. cbn [mem set_mem].
  pose proof (read_write_same (mem s) (stack_addr (mem s) 8) (bytes_at stack_junk 8)) as R.
  change (length (bytes_at stack_junk 8)) with 8%nat in R. by rewrite R.
Qed.

(** The firmware is asked for a variable of at most eight bytes, into a local. *)
Lemma variable_read {A} s a st n value w (k : Z -> Z -> M A) :
  GetVariable (str "OsIndicationsSupported") global_variable_guid
    (le_num (bytes_at stack_junk 8)) (fw s) = (st, n, value, w) -> zlen value <= 8 ->
  exists value', zlen value' = 8 /\
  (junk ← with_local 8 load64;
   '(status, var_size, value) ←
     firmware (GetVariable (str "OsIndicationsSupported") global_variable_guid junk);
   _ ← write_block a value; k status var_size)
    (set_mem (write_bytes (mem s) a (bytes_at stack_junk 8)) s)
  = k st n (set_mem (write_bytes (mem s) a value') (set_fw w s)).
Proof.
  intros Gv Hv. set (j := bytes_at stack_junk 8) in *.
  assert (Lj : zlen j = 8) by by apply length_bytes_at.
  exists (value ++ drop (length value) j). split; [rewrite length_app, length_drop; lia|].
  run_step (uninitialised (set_mem (write_bytes (mem s) a j) s)).
  erewrite bind_ret by (unfold firmware; cbn [fw set_mem]; fold j; by rewrite Gv). cbv beta iota.
  erewrite bind_ret.
  2:{ apply write_block_ret. cbn [mem set_fw set_mem].
      eapply mapped_sub; [apply mapped_write_self|lia|lia]. }
  assert (Em : write_bytes (write_bytes (mem s) a j) a value
    = write_bytes (mem s) a (value ++ drop (length value) j)); [|by rewrite <-Em].
  apply write_bytes_prefix. lia.
Qed.

(** C28: CMD_FWSETUP outside of a transfer: the polling loop is told to stop and
    the firmware asked for its variable OsIndicationsSupported.  If it has none,
    the command has no other effect.  Otherwise OsIndications, which is as long,
    is set to 1, the request for the setup screen, with the attributes of a
    variable that survives the reset, and the machine is reset; memory is as it
    was. *)
Theorem netboot_fwsetup_requests_setup s msg st n value w :
  let g := ng s in
  let polled := set_ng (NetGlobals (mcast_filter_count g) (snp g) (net_timer g) false
                          (net_advertised g) (net_stop_advertising g)) s in
  nb_state (nb s) <> STATE_FILE_TRANSFER -> load 4 (mem s) (msg_cmd msg) = Some CMD_FWSETUP ->
  GetVariable (str "OsIndicationsSupported") global_variable_guid
    (le_num (bytes_at stack_junk 8)) (fw s) = (st, n, value, w) ->
  zlen value <= 8 -> 0 <= n <= 8 ->
  if EFI_ERROR st then netboot_cmd_receive msg s = Ret EFI_SUCCESS (set_fw w polled)
  else exists s', netboot_cmd_receive msg s = Halt (WasReset EfiResetWarm EFI_SUCCESS) s'
    /\ fw s' = (SetVariable (str "OsIndications") global_variable_guid 7
                  (take (Z.to_nat n) (le_bytes 8 1)) w).2
    /\ ng s' = ng polled /\ nb s' = nb s
    /\ (forall x, is_Some (mem s !! x) -> mem s' !! x = mem s !! x).
Proof.
  intros g polled N Lc Gv Hv Hn. rewrite netboot_cmd_idle by done. run_step (load_n_ret 4 _ _ _ Lc).
  rewrite Z.eqb_refl. set (a := stack_addr (mem s) 8).
  destruct (stack_fresh (mem s) 8 ltac:(lia)) as [A0 U]. fold a in U.
  destruct (variable_read polled a st n value w (fun status var_size =>
    if EFI_ERROR status then skip
    else
      _ ← store64 a 1;
      data ← read_block a var_size;
      _ ← firmware (SetVariable (str "OsIndications") global_variable_guid 7 data);
      stop (WasReset EfiResetWarm EFI_SUCCESS)) Gv Hv) as (value' & Lv & R).
  set (m2 := write_bytes (mem polled) a value') in *.
  destruct (EFI_ERROR st) eqn:X.
  - assert (Fs : netboot_fwsetup s = Ret tt (set_fw w polled)); [|by run_step Fs].
    unfold netboot_fwsetup. erewrite bind_ret by reflexivity. cbv beta. fold g polled.
    apply (with_local_ret 8 _ polled tt (set_fw w polled) (mem s) value'); [lia|done|done|exact R].
  - assert (Mp : mapped m2 a 8) by (rewrite <-Lv; apply mapped_write_self).
    assert (E1 : write_bytes m2 a (le_bytes 8 1) = write_bytes (mem s) a (le_bytes 8 1))
      by (apply write_bytes_twice; rewrite length_le_bytes; lia).
    destruct (SetVariable (str "OsIndications") global_variable_guid 7 (take (Z.to_nat n)
      (le_bytes 8 1)) w) as [st2 w2] eqn:Sv.
    eexists. split; [apply bind_halt; unfold netboot_fwsetup; erewrite bind_ret by reflexivity;
      cbv beta; fold g polled; apply with_local_halt; refine (eq_trans R _)|].
    { erewrite bind_ret by (apply store_n_ret; exact Mp). cbn [mem set_mem]. unfold store. rewrite E1.
      erewrite bind_ret.
      2:{ apply read_block_ret. cbn [mem set_mem].
          pose proof (read_bytes_sub _ _ _ _ 0 (Z.to_nat n) (read_write_same (mem s) a (le_bytes 8 1)))
            as Rb. rewrite Z.add_0_r, drop_0 in Rb. apply Rb. rewrite length_le_bytes. lia. }
      erewrite bind_ret by (unfold firmware; cbn [fw set_mem set_fw]; by rewrite Sv). reflexivity. }
    cbn [fw ng nb mem set_fw set_mem snd]. repeat (split; [done|]).
    intros x [y Hx]. apply lookup_write_out. rewrite length_le_bytes. intros Hr.
    rewrite U in Hx; [done|lia].
Qed.


(** C30: [netboot_cmd_send] sends its message as one datagram to port 57778 of the
    host that spoke last, or of all nodes when none has, and frees the storage
    it used. *)
Theorem netboot_cmd_send_datagram s d b l cmd data body st w2 :
  net_ready s d (b :: l) -> (data = 0 <-> body = []) ->
  (data <> 0 -> holds (mem s) data (zlen body) body) -> are_bytes body ->
  disj b 2048 data (zlen body) -> zlen body <= 1400 ->
  delivers s d b cmd body st w2 ->
  exists s', netboot_cmd_send cmd data (zlen body) s = Ret tt s'
    /\ net_ready s' d (free_after st b l) /\ sent b s s' /\ fw s' = w2.
Proof. apply netboot_cmd_send_ready. Qed.

(** C31: a fragment longer than what is left of the file is copied all the same:
    the copy runs past the end of the file buffer, into the next object or, as
    here, out of every object. *)
Theorem netboot_fragment_overflows s size cap r msg payload :
  Transfer s size cap r -> fragment_at (mem s) msg (next_fragment r) payload ->
  zlen payload <= cap -> size < zlen (received r) + zlen payload ->
  disj (file_buffer (nb s)) size msg (32 + zlen payload) ->
  mem s !! (file_buffer (nb s) + size) = None ->
  netboot_file_fragment (msg_data msg) s = Fault (file_buffer (nb s) + size).
Proof.
  intros T Fr Hc Ov D U. destruct T as [T1 T2 T3 T4 T5 T6 T7 T8 T9 T10 T11].
  destruct Fr as [F1 F2 F3 [Rp Bp] ]. rewrite Nat2Z.id in Rp.
  unfold netboot_file_fragment. erewrite bind_ret by done. run_step (load_n_ret 8 _ _ _ T3).
  run_step (load_n_ret 8 _ _ _ F3). run_step (load_n_ret 8 _ _ _ F2).
  rewrite (proj2 (Z.ltb_ge _ _)) by done. erewrite bind_ret by done.
  erewrite bind_ret by done. rewrite T7, Z.eqb_refl. cbn [negb].
  erewrite bind_ret by done. erewrite bind_ret by done. rewrite T6.
  apply bind_fault. unfold memcpy. apply bind_fault. rewrite Nat2Z.id.
  rewrite (memcpy_loop_fault payload (Z.to_nat (size - zlen (received r)))); try done.
  - f_equal. lia.
  - lia.
  - eapply mapped_sub; [exact T4|lia..].
  - unfold disj, fragment_data, msg_data in *. lia.
  - by replace (_ + Z.of_nat _) with (file_buffer (nb s) + size) by lia.
Qed.

End Theorems.

(** ** Instances *)

(** The announcement of a file of six bytes in two fragments, and the two
    fragments, one after the other in memory at 0x400. *)
Definition sample_info : list Z :=
  le_bytes 8 6 ++ le_bytes 8 3 ++ le_bytes 8 2 ++ le_bytes 8 5 ++ str "a.txt" ++ [0].
Definition sample_init : list Z := message CMD_FILE_SEND_INIT [0; 0; 0; 0] sample_info.
Definition sample_fragment (i : Z) (payload : list Z) : list Z :=
  message CMD_FILE_FRAGMENT [0; 0; 0; 0] (le_bytes 8 i ++ le_bytes 8 (zlen payload) ++ payload).
Definition sample_chunks : list (list Z) := [ [1; 2; 3]; [4; 5; 6] ].
Definition sample_messages : list Z :=
  sample_init ++ sample_fragment 0 [1; 2; 3] ++ sample_fragment 1 [4; 5; 6].
Definition fragment_address (i : nat) : Z := 0x400 + 54 + 35 * Z.of_nat i.

Lemma bytes_messages : are_bytes sample_messages.
Proof. apply (bool_decide_unpack _). vm_compute. exact I. Qed.

(** All memory in use lies below [B]; the firmware of Platform.v then has
    storage left above it. *)
Definition below (B : Z) (m : memory) : Prop := forall x, is_Some (m !! x) -> x < B.

Lemma below_top B m : below B m -> 1 <= B -> 1 <= mem_top m <= B.
Proof. intros Lm HB. split; [apply foldr_max_pos|]. by apply mem_top_bound. Qed.

Lemma below_write B B' m a bs :
  below B m -> B <= B' -> a + zlen bs <= B' -> below B' (write_bytes m a bs).
Proof.
  intros Lm HB Ha x. rewrite lookup_write_bytes. case_decide; [lia|]. intros Hx%Lm. lia.
Qed.

Lemma plain_pool (m : memory) n (w : fwst) :
  mem_top m <= 2 ^ 33 -> n <= 2 ^ 33 ->
  AllocatePool EfiLoaderData n m w = (0, mem_top m, fun _ => 0, w).
Proof.
  intros Hm Hn. cbn [AllocatePool plain_firmware]. rewrite (proj2 (Z.leb_le _ _)) by lia. done.
Qed.

Lemma plain_delivers s d b cmd body :
  below (2 ^ 32) (mem s) -> zlen body <= 2 ^ 32 ->
  exists w, delivers s d b cmd body 0 w
    /\ w = log_transmit (b + 8) (message_frame d cmd (take 4 (drop 4 (bytes_at (fun _ => 0)
             (sizeof_message + zlen body)))) body) (fw s).
Proof.
  intros Lm Hb. eexists. split; [|reflexivity]. pose proof (below_top _ _ Lm ltac:(lia)).
  eexists 0, (mem_top (mem s)), (fun _ => 0), (fw s), _, 0. split.
  { apply plain_pool; unfold sizeof_message; lia. }
  repeat split.
Qed.

Lemma plain_saves s path data :
  below (2 ^ 32) (mem s) -> zlen path <= 2 ^ 31 ->
  saves s path data (log_write data (seek 0 (log_open path (fw s)))).
Proof.
  intros Lm Hp. pose proof (below_top _ _ Lm ltac:(lia)).
  eexists 0, (mem_top (mem s)), (fun _ => 0), (fw s), 0, 2, (fw s), 0, 2, (fw s), 0, 4, (fw s), 0, 5,
    _, 0, (zlen data), _.
  split; [apply plain_pool; lia|]. do 6 (split; [reflexivity|]). repeat constructor.
Qed.

(** The sample transfer in state [r]. *)
Record sample (s : state) (r : receiver) (l : list Z) : Prop := {
  sm_transfer : Transfer s 6 3 r;
  sm_info : mapped (mem s) (file_info (nb s)) 32;
  sm_ready : net_ready s demo_addresses l;
  sm_messages : holds (mem s) 0x400 124 sample_messages;
  sm_apart : apart s 0x400 124;
  sm_buffer_disj : disj (file_buffer (nb s)) 6 0x400 124;
  sm_info_disj : disj (file_info (nb s)) 38 0x400 124;
  sm_low : below (2 ^ 20) (mem s);
  sm_path : c_string (mem s) (info_path (file_info (nb s))) (str "a.txt");
  sm_path_apart : apart s (info_path (file_info (nb s))) 6;
  sm_path_disj : disj (file_buffer (nb s)) 6 (info_path (file_info (nb s))) 6;
}.

(** An acknowledgement can be sent. *)
Lemma sample_delivers s d b type fragment :
  below (2 ^ 20) (mem s) ->
  exists w, delivers (ack_state s type fragment) d b CMD_ACK (ack_bytes type fragment) 0 w
    /\ written w = written (fw s).
Proof.
  intros Lm. pose proof (below_top _ _ Lm ltac:(lia)).
  destruct (plain_delivers (ack_state s type fragment) d b CMD_ACK (ack_bytes type fragment))
    as (w & Dl & Ew).
  - cbn [ack_state mem set_mem]. apply (below_write (2 ^ 20)); [exact Lm|lia|].
    rewrite ack_bytes_length. unfold sizeof_ack. cbn [stack_addr plain_layout]. lia.
  - rewrite ack_bytes_length. unfold sizeof_ack. lia.
  - exists w. split; [exact Dl|]. by rewrite Ew.
Qed.

(** The sample state before the announcement, with the places of the two
    allocations. *)
Record announced (s : state) (p1 p2 : Z) : Prop := {
  an_demo : demo s sample_messages;
  an_room : makes_room s sample_info 6 p1 p2 (fun _ => 0) (fw s);
  an_low : below (2 ^ 20) (mem (transfer_opened s p1 p2 sample_info 6 (fun _ => 0) (fw s)));
}.

Lemma sample_announced : exists s p1 p2, announced s p1 p2.
Proof.
  destruct (demo_state sample_messages bytes_messages ltac:(vm_compute; discriminate)) as [s D].
  set (p1 := mem_top (mem s)). set (m1 := write_bytes (mem s) p1 sample_info).
  set (p2 := mem_top m1). exists s, p1, p2.
  assert (Lm : below 0x10000 (mem s)) by exact (demo_top _ _ D).
  pose proof (below_top _ _ Lm ltac:(lia)) as T1. fold p1 in T1.
  assert (L1 : zlen sample_info = 38) by reflexivity.
  assert (Lm1 : below 0x20000 m1) by (apply (below_write 0x10000); [exact Lm|lia|lia]).
  pose proof (below_top _ _ Lm1 ltac:(lia)) as T2. fold p2 in T2.
  split; [exact D| |].
  - exists 0, (fun _ => 0), (fw s), 0.
    split; [apply plain_pool; fold p1; lia|]. split; [done|].
    split; [apply plain_pool; fold m1 p2; lia|done].
  - cbn [mem transfer_opened set_nb set_pool set_mem set_fw]. fold m1.
    apply (below_write 0x20000); [exact Lm1|lia|]. rewrite length_bytes_at; lia.
Qed.

(** Parts of the messages. *)
Lemma messages_read m o k :
  holds m 0x400 124 sample_messages -> (o + k <= 124)%nat ->
  read_bytes m (0x400 + Z.of_nat o) k = Some (take k (drop o sample_messages)).
Proof. intros [R _] Hk. eapply read_bytes_sub; [exact R|exact Hk]. Qed.

Lemma messages_load m o k v :
  holds m 0x400 124 sample_messages -> (o + k <= 124)%nat ->
  le_num (take k (drop o sample_messages)) = v -> load k m (0x400 + Z.of_nat o) = Some v.
Proof. intros Hm Hk <-. unfold load. by rewrite (messages_read m o k Hm Hk). Qed.

Lemma announcement_at m :
  holds m 0x400 124 sample_messages ->
  load 4 m (msg_cmd 0x400) = Some CMD_FILE_SEND_INIT
  /\ load 8 m (msg_message_length 0x400) = Some (sizeof_message + zlen sample_info)
  /\ holds m (msg_data 0x400) (zlen sample_info) sample_info.
Proof.
  intros Hm. split; [|split].
  - apply (messages_load m 0 4); [exact Hm|lia|reflexivity].
  - apply (messages_load m 8 8); [exact Hm|lia|reflexivity].
  - split; [|apply (bool_decide_unpack _); vm_compute; exact I].
    apply (messages_read m 16 38 Hm). lia.
Qed.

Lemma sample_fragment_at m i payload :
  holds m 0x400 124 sample_messages -> sample_chunks !! i = Some payload ->
  fragment_at m (fragment_address i) (Z.of_nat i) payload /\ zlen payload = 3.
Proof.
  intros Hm Hi. unfold fragment_address.
  destruct i as [|[|i] ]; [| |done]; injection Hi as <-; (split; [|reflexivity]); split.
  - apply (messages_load m 54 4); [exact Hm|lia|reflexivity].
  - apply (messages_load m 70 8); [exact Hm|lia|reflexivity].
  - apply (messages_load m 78 8); [exact Hm|lia|reflexivity].
  - split; [apply (messages_read m 86 3 Hm); lia|each].
  - apply (messages_load m 89 4); [exact Hm|lia|reflexivity].
  - apply (messages_load m 105 8); [exact Hm|lia|reflexivity].
  - apply (messages_load m 113 8); [exact Hm|lia|reflexivity].
  - split; [apply (messages_read m 121 3 Hm); lia|each].
Qed.

Lemma sample_opens s p1 p2 :
  announced s p1 p2 -> exists s1, netboot_send_init 0x400 s = Ret tt s1
    /\ Transfer s1 6 3 (Receiver [] 0) /\ net_ready s1 demo_addresses [8192; 6144; 4096]
    /\ sent 10240 (transfer_opened s p1 p2 sample_info 6 (fun _ => 0) (fw s)) s1.
Proof.
  intros [D Room Low]. destruct (announcement_at _ (demo_frame _ _ D)) as (Lc & Ll & Hi).
  destruct (sample_delivers _ demo_addresses 10240 CMD_FILE_SEND_INIT 0 Low) as (w & Dl & _).
  destruct (netboot_send_init_ret s demo_addresses 10240 [8192; 6144; 4096] 0x400 sample_info p1 p2
    (fun _ => 0) (fw s) 0 w (demo_ready _ _ D)) as (s1 & Si & T & R & _ & _ & St); try done;
    try (by rewrite (demo_nb _ _ D)); [].
  by exists s1.
Qed.

(** Contents of mapped storage outside buffer [b] survive a sent message. *)
Lemma sent_holds b s s' a n bs :
  sent b s s' -> holds (mem s) a n bs -> 0 <= n -> disj b 2048 a n -> holds (mem s') a n bs.
Proof.
  intros St Hb Hn D. eapply holds_agree; [exact Hb|done|].
  eapply sent_agree; [exact St|by eapply holds_mapped|done].
Qed.

Lemma below_dom B m m' : dom m' = dom m -> below B m -> below B m'.
Proof. intros Hd Lm x Hx. apply Lm. apply elem_of_dom. rewrite <-Hd. by apply elem_of_dom. Qed.

Lemma c_string_holds m a cs : holds m a (zlen cs + 1) (cs ++ [0]) -> Forall (fun b => b <> 0) cs ->
  c_string m a cs.
Proof.
  intros [R B] N. rewrite Forall_app in B. split; [|split].
  - pose proof (read_bytes_sub _ _ _ _ 0 (length cs) R ltac:(lia)) as R0.
    by rewrite Z.add_0_r, drop_0, take_app_length in R0.
  - eapply read_bytes_byte; [exact R|lia|]. rewrite lookup_app_r by lia.
    by replace (_ - length cs)%nat with 0%nat by lia.
  - apply Forall_and. tauto.
Qed.

Lemma sample_started s p1 p2 s1 :
  announced s p1 p2 -> Transfer s1 6 3 (Receiver [] 0) ->
  net_ready s1 demo_addresses [8192; 6144; 4096] ->
  sent 10240 (transfer_opened s p1 p2 sample_info 6 (fun _ => 0) (fw s)) s1 ->
  sample s1 (Receiver [] 0) [8192; 6144; 4096].
Proof.
  intros [D Room Low] T R St. destruct Room as (st1 & c1 & w1 & st2 & A1 & O1 & A2 & O2).
  destruct (alloc_pool_fresh _ _ _ _ _ _ _ _ A1 O1 ltac:(cbn; lia)) as (P1 & _ & U1).
  destruct (alloc_pool_fresh _ _ _ _ _ _ _ _ A2 O2 ltac:(lia)) as (P2 & _ & U2).
  change (zlen sample_info) with 38 in U1.
  assert (En : nb s1 = NetbootState STATE_FILE_TRANSFER p1 p2 0 0
    /\ eth_buffer_phys (bp s1) = eth_buffer_phys (bp s))
    by (pose proof (sent_rest _ _ _ St) as Er; injection Er; auto).
  destruct En as [En Ep]. pose proof (demo_frame _ _ D) as Hf. change (zlen sample_messages) with 124 in Hf.
  pose proof (demo_apart _ _ D) as Ap. change (zlen sample_messages) with 124 in Ap.
  pose proof (holds_mapped _ _ _ _ Hf ltac:(lia)) as Mf.
  assert (D1 : disj p1 38 0x400 124).
  { apply disj_sym. eapply mapped_unmapped_disj; [exact Mf|exact U1|lia|lia]. }
  assert (Mi : mapped (write_bytes (mem s) p1 sample_info) p1 38) by apply mapped_write_self.
  assert (D2 : disj p2 6 0x400 124).
  { apply disj_sym. eapply mapped_unmapped_disj; [apply mapped_write, Mf|exact U2|lia|lia]. }
  assert (D12 : disj p2 6 p1 38).
  { apply disj_sym. eapply mapped_unmapped_disj; [exact Mi|exact U2|lia|lia]. }
  pose proof (ready_pool _ _ _ (demo_ready _ _ D)) as Pl. pose proof (demo_phys _ _ D) as Ph.
  assert (Db : forall a n, apart s a n -> disj 10240 2048 a n).
  { intros a n [D0 _]. rewrite Ph in D0. unfold disj in *. lia. }
  assert (Ap1 : apart s p1 38) by (eapply unmapped_apart; [apply D|exact U1|lia]).
  assert (Hi1 : holds (mem s1) p1 38 sample_info).
  { eapply sent_holds; [exact St| |lia|by apply Db].
    apply holds_write; [|lia|by rewrite length_bytes_at by lia].
    apply holds_written; [done|apply (bool_decide_unpack _); vm_compute; exact I]. }
  split; rewrite ?En; cbn [nb transfer_opened set_nb set_pool set_mem set_fw file_info file_buffer];
    try done.
  - eapply mapped_sub; [eapply holds_mapped; [exact Hi1|lia]|lia|lia].
  - eapply sent_holds; [exact St| |lia|by apply Db].
    apply holds_write; [apply holds_write; [exact Hf|lia|exact D1]|lia|].
    by rewrite length_bytes_at by lia.
  - unfold apart. rewrite Ep. exact Ap.
  - eapply below_dom; [apply (sent_dom _ _ _ St)|exact Low].
  - apply c_string_holds; [|repeat constructor; discriminate].
    change (zlen (str "a.txt") + 1) with (zlen (str "a.txt" ++ [0])).
    apply (holds_mid _ p1 38 (take 32 sample_info) _ []); [exact Hi1|reflexivity].
  - unfold apart. rewrite Ep. destruct Ap1 as [Aa Ab]. split.
    + unfold info_path, disj in *. cbn. lia.
    + eapply away_sub; [exact Ab|unfold info_path; lia..].
  - unfold info_path, disj in *. lia.
Qed.

(** The free buffers of a sample state are buffers of the region. *)
Lemma sample_apart s r b l a n : sample s r (b :: l) -> apart s a n -> disj b 2048 a n.
Proof. intros Sm. apply (first_buffer_apart s demo_addresses b l), Sm. Qed.

Lemma sample_arrives s r b l i payload :
  sample s r (b :: l) -> sample_chunks !! i = Some payload ->
  arrives s demo_addresses b l 6 3 r (fragment_address i) (Z.of_nat i) payload.
Proof.
  intros Sm Hi. destruct (sample_fragment_at _ i payload (sm_messages _ _ _ Sm) Hi) as [Fr Lp].
  assert (Hl : (i < 2)%nat) by (apply (lookup_lt_Some sample_chunks i payload Hi)).
  assert (Fa : 0x400 <= fragment_address i /\ fragment_address i + 35 <= 0x400 + 124)
    by (unfold fragment_address; lia).
  pose proof (sm_buffer_disj _ _ _ Sm) as D. destruct (sm_apart _ _ _ Sm) as [Aa Ab].
  split; rewrite ?Lp; try apply Sm; [exact Fr|lia| |].
  - split; [unfold disj in *; lia|]. eapply away_sub; [exact Ab|lia..].
  - unfold disj in *. lia.
Qed.

(** A fragment that does not complete the file, in the sample. *)
Lemma sample_receives s r b l i payload :
  sample s r (b :: l) -> sample_chunks !! i = Some payload -> fits 6 r (Z.of_nat i) payload ->
  zlen (received (receive_fragment r (Z.of_nat i) payload).1) <> 6 ->
  let ack := (receive_fragment r (Z.of_nat i) payload).2 in
  exists w s', delivers (ack_state (fragment_stored s r (Z.of_nat i) payload) CMD_FILE_FRAGMENT ack)
      demo_addresses b CMD_ACK (ack_bytes CMD_FILE_FRAGMENT ack) 0 w
    /\ netboot_cmd_receive (fragment_address i) s = Ret EFI_SUCCESS s'
    /\ sample s' (receive_fragment r (Z.of_nat i) payload).1 l.
Proof.
  intros Sm Hi Fit Nl ack. pose proof (sample_arrives s r b l i payload Sm Hi) as Ar.
  set (s1 := fragment_stored s r (Z.of_nat i) payload).
  assert (Hd : dom (mem s1) = dom (mem s)).
  { unfold s1, fragment_stored. destruct (Z.eqb_spec (Z.of_nat i) (next_fragment r)) as [Ei|]; [|done].
    specialize (Fit Ei). apply dom_write_mapped. pose proof (sm_transfer _ _ _ Sm) as T.
    eapply mapped_sub; [apply (tr_buffer _ _ _ _ T)|lia..]. }
  destruct (sample_delivers s1 demo_addresses b CMD_FILE_FRAGMENT ack) as (w & Dl & _).
  { eapply below_dom; [exact Hd|apply Sm]. }
  destruct (netboot_receive_fragment s demo_addresses b l 6 3 r (fragment_address i) (Z.of_nat i)
    payload 0 w Ar Fit Nl Dl) as (s' & Rc & T' & R' & _ & _ & St). fold s1 in St.
  exists w, s'. split; [exact Dl|]. split; [exact Rc|].
  destruct (fragment_stored_same s r (Z.of_nat i) payload) as (_ & N2 & N3 & _ & N5 & _).
  fold s1 in N2, N3, N5.
  assert (En : nb s' = nb s1 /\ eth_buffer_phys (bp s') = eth_buffer_phys (bp s1))
    by (pose proof (sent_rest _ _ _ St) as Er; injection Er; auto).
  destruct En as [En Ep]. rewrite N5 in Ep.
  assert (Keep : forall a n, mapped (mem s) a n -> apart s a n ->
    disj (file_buffer (nb s)) 6 a n -> agree (mem s) (mem s') a n).
  { intros a n Mp Ap D. pose proof (fragment_stored_agree _ _ _ _ _ _ _ _ _ _ a n Ar Fit D) as A1.
    fold s1 in A1. intros x Hx.
    assert (M1 : mapped (mem s1) a n) by (intros y Hy; rewrite A1 by done; by apply Mp).
    rewrite (sent_agree _ _ _ _ _ St M1 (sample_apart _ _ _ _ _ _ Sm Ap)) by done. by apply A1. }
  pose proof (sm_transfer _ _ _ Sm) as T. pose proof (sm_path _ _ _ Sm) as Cp.
  pose proof (holds_mapped _ _ _ _ (sm_messages _ _ _ Sm) ltac:(lia)) as Mm.
  assert (Ki : agree (mem s) (mem s') (file_info (nb s)) 32)
    by (apply Keep; [apply Sm|apply (tr_info_apart _ _ _ _ T)|apply (tr_info_disj _ _ _ _ T)]).
  split; rewrite ?En, ?N2, ?N3; try apply Sm; try done; unfold apart; rewrite ?Ep; try apply Sm.
  - intros x Hx. rewrite Ki by done. by apply (sm_info _ _ _ Sm).
  - eapply holds_agree; [exact (sm_messages _ _ _ Sm)|lia|].
    apply Keep; [exact Mm|exact (sm_apart _ _ _ Sm)|exact (sm_buffer_disj _ _ _ Sm)].
  - eapply below_dom; [|exact (sm_low _ _ _ Sm)]. rewrite (sent_dom _ _ _ St). exact Hd.
  - eapply c_string_agree; [exact Cp|].
    apply Keep; [exact (c_string_mapped _ _ _ Cp)|exact (sm_path_apart _ _ _ Sm)
      |exact (sm_path_disj _ _ _ Sm)].
Qed.

Lemma sample_start : exists s, sample s (Receiver [] 0) [8192; 6144; 4096].
Proof.
  destruct sample_announced as (s & p1 & p2 & An).
  destruct (sample_opens s p1 p2 An) as (s1 & _ & T & R & St).
  exists s1. by eapply sample_started.
Qed.

(** After the first fragment. *)
Lemma sample_half : exists s, sample s (Receiver [1; 2; 3] 1) [6144; 4096].
Proof.
  destruct sample_start as [s Sm].
  destruct (sample_receives s _ _ _ 0 [1; 2; 3] Sm eq_refl) as (w & s' & _ & _ & Sm').
  - intros _. cbn. lia.
  - vm_compute. discriminate.
  - by exists s'.
Qed.

Lemma netboot_fragment_refines_witness :
  exists s s', Transfer s 6 3 (Receiver [] 0)
    /\ netboot_cmd_receive (fragment_address 0) s = Ret EFI_SUCCESS s'
    /\ Transfer s' 6 3 (Receiver [1; 2; 3] 1).
Proof.
  destruct sample_start as [s Sm].
  destruct (sample_receives s _ _ _ 0 [1; 2; 3] Sm eq_refl) as (w & _ & Dl & _).
  { intros _. cbn. lia. }
  { vm_compute. discriminate. }
  destruct (netboot_fragment_refines s demo_addresses 8192 [6144; 4096] 6 3 (Receiver [] 0)
    (fragment_address 0) 0 [1; 2; 3] 0 w) as (s' & Rc & T & _).
  - exact (sample_arrives s _ _ _ 0 [1; 2; 3] Sm eq_refl).
  - intros _. cbn. lia.
  - vm_compute. discriminate.
  - exact Dl.
  - exists s, s'. split; [apply Sm|]. split; [exact Rc|exact T].
Defined.

(** The first fragment arrives twice, then the host is advertised. *)
Lemma sample_run :
  exists s s', sample s (Receiver [] 0) [8192; 6144; 4096]
    /\ transfer_run [ [1; 2; 3] ] 6 3 [0; 0]%nat s s'.
Proof.
  destruct sample_start as [s Sm].
  destruct (sample_receives s _ _ _ 0 [1; 2; 3] Sm eq_refl) as (w1 & s1 & D1 & R1 & Sm1).
  { intros _. cbn. lia. }
  { vm_compute. discriminate. }
  destruct (sample_receives s1 _ _ _ 0 [1; 2; 3] Sm1 eq_refl) as (w2 & s2 & D2 & R2 & Sm2).
  { intros Ei. vm_compute in Ei. discriminate. }
  { vm_compute. discriminate. }
  destruct (plain_delivers s2 demo_addresses 4096 CMD_ADVERTISE []) as (w3 & D3 & _).
  { intros x Hx%(sm_low _ _ _ Sm2). lia. }
  { cbn. lia. }
  destruct (netboot_cmd_send_ready s2 demo_addresses 4096 [] CMD_ADVERTISE 0 [] 0 w3)
    as (s3 & R3 & _); try done; [apply Sm2|unfold disj; cbn; lia|].
  exists s, s3. split; [exact Sm|].
  eapply (run_step_more _ _ _ (Some 0%nat) [0%nat] s s1).
  - eapply (fragment_arrives _ _ _ s s1 demo_addresses); [reflexivity| |exact D1|exact R1].
    by apply sample_arrives.
  - eapply (run_step_more _ _ _ (Some 0%nat) [] s1 s2).
    + eapply (fragment_arrives _ _ _ s1 s2 demo_addresses); [reflexivity| |exact D2|exact R2].
      by apply sample_arrives.
    + eapply (run_step_more _ _ _ None [] s2 s3); [|apply run_done].
      eapply host_advertised; [apply Sm2|exact D3|exact R3].
Qed.

Lemma sample_cut : cut [ [1; 2; 3] ] 6.
Proof. split; cbn; lia. Qed.

Lemma sample_prefix : prefix_of_chunks [ [1; 2; 3] ] (Receiver [] 0).
Proof. split; [cbn; lia|reflexivity]. Qed.

Lemma transfer_holds_prefix_witness :
  exists s s', transfer_run [ [1; 2; 3] ] 6 3 [0; 0]%nat s s'
    /\ let k := Z.to_nat (file_packets_transferred (nb s')) in
       (k <= 1)%nat
       /\ file_bytes_transferred (nb s') = zlen (concat (take k [ [1; 2; 3] ]))
       /\ holds (mem s') (file_buffer (nb s')) (zlen (concat (take k [ [1; 2; 3] ])))
            (concat (take k [ [1; 2; 3] ])).
Proof.
  destruct sample_run as (s & s' & Sm & Rn). exists s, s'. split; [exact Rn|].
  apply (transfer_holds_prefix [ [1; 2; 3] ] 6 3 [0; 0]%nat s s' (Receiver [] 0)).
  - exact sample_cut.
  - exact Rn.
  - apply Sm.
  - exact sample_prefix.
Defined.

Lemma transfer_progresses_witness :
  exists s s', transfer_run [ [1; 2; 3] ] 6 3 [0; 0]%nat s s'
    /\ 0 + Z.of_nat 1 <= file_packets_transferred (nb s').
Proof.
  destruct sample_run as (s & s' & Sm & Rn). exists s, s'. split; [exact Rn|].
  apply (transfer_progresses [ [1; 2; 3] ] 6 3 [0; 0]%nat s s' (Receiver [] 0) 1).
  - exact sample_cut.
  - exact Rn.
  - apply Sm.
  - exact sample_prefix.
  - cbn. apply sublist_skip, sublist_nil_l.
Defined.

(** Console output writes no file. *)
Lemma printed_written w w' : printed w w' -> written w' = written w.
Proof. induction 1 as [|w1 w2 w3 [cs ->] _ ->]; done. Qed.

Lemma netboot_last_fragment_saves_witness :
  exists s s', Transfer s 6 3 (Receiver [1; 2; 3] 1)
    /\ netboot_cmd_receive (fragment_address 1) s = Ret EFI_SUCCESS s'
    /\ written (fw s') = written (fw s) ++ [ [1; 2; 3; 4; 5; 6] ]
    /\ nb s' = NetbootState STATE_CMD_WAIT 0 0 0 0.
Proof.
  destruct sample_half as [s Sm]. pose proof (sm_transfer _ _ _ Sm) as T.
  set (s1 := fragment_stored s (Receiver [1; 2; 3] 1) 1 [4; 5; 6]).
  assert (Lm : below (2 ^ 20) (mem s1)).
  { eapply below_dom; [|exact (sm_low _ _ _ Sm)]. unfold s1, fragment_stored. cbn [Z.eqb next_fragment].
    apply dom_write_mapped. eapply mapped_sub; [apply (tr_buffer _ _ _ _ T)|cbn; lia..]. }
  destruct (sample_delivers s1 demo_addresses 6144 CMD_FILE_FRAGMENT 1 Lm) as (w & Dl & Ew).
  destruct (netboot_last_fragment_saves s demo_addresses 6144 [4096] 6 3 (Receiver [1; 2; 3] 1)
    (fragment_address 1) [4; 5; 6] (str "a.txt") 0 w
    (log_write [1; 2; 3; 4; 5; 6] (seek 0 (log_open (str "a.txt") w)))) as (s' & Rc & Pr & N & _).
  - exact (sample_arrives s _ _ _ 1 [4; 5; 6] Sm eq_refl).
  - reflexivity.
  - cbn. lia.
  - exact (sm_path _ _ _ Sm).
  - unfold ascii_char. each.
  - cbn. lia.
  - exact (sm_path_apart _ _ _ Sm).
  - exact (sm_path_disj _ _ _ Sm).
  - pose proof (sm_info_disj _ _ _ Sm). unfold disj, fragment_address in *. lia.
  - exact Dl.
  - intros s2 <- St. apply plain_saves; [|cbn; lia].
    intros x Hx. apply (below_dom (2 ^ 20) _ (mem s2)) in Lm; [|exact (sent_dom _ _ _ St)].
    specialize (Lm x Hx). lia.
  - exists s, s'. split; [exact T|]. split; [exact Rc|]. split; [|exact N].
    apply printed_written in Pr. rewrite Pr. cbn [written log_write seek log_open]. rewrite Ew.
    unfold s1, fragment_stored. by destruct (_ =? _).
Defined.

Lemma netboot_send_init_opens_witness :
  exists s s', netboot_cmd_receive 0x400 s = Ret EFI_SUCCESS s'
    /\ Transfer s' 6 3 (Receiver [] 0).
Proof.
  destruct sample_announced as (s & p1 & p2 & An). pose proof An as [D Room Low].
  destruct (announcement_at _ (demo_frame _ _ D)) as (Lc & Ll & Hi).
  destruct (sample_delivers _ demo_addresses 10240 CMD_FILE_SEND_INIT 0 Low) as (w & Dl & _).
  destruct (netboot_send_init_opens s demo_addresses 10240 [8192; 6144; 4096] 0x400 sample_info
    p1 p2 (fun _ => 0) (fw s) 0 w) as (s' & Rc & T & _).
  - rewrite (demo_nb _ _ D). discriminate.
  - exact Lc.
  - exact (demo_ready _ _ D).
  - rewrite (demo_nb _ _ D). reflexivity.
  - rewrite (demo_nb _ _ D). reflexivity.
  - exact Ll.
  - exact Hi.
  - cbn. lia.
  - reflexivity.
  - exact Room.
  - exact Dl.
  - exists s, s'. split; [exact Rc|exact T].
Defined.

(** A message without data at 0x400. *)
Definition bare_message (cmd : Z) : state := start (blocks [(0x400, message cmd [0; 0; 0; 0] [])]).

(** Firmware with an OsIndicationsSupported of eight bytes. *)
Lemma netboot_fwsetup_requests_setup_witness :
  exists s', netboot_cmd_receive 0x400 (bare_message CMD_FWSETUP)
    = Halt (WasReset EfiResetWarm EFI_SUCCESS) s'
    /\ fw s' = fw (bare_message CMD_FWSETUP) /\ net_poll_continue (ng s') = false.
Proof.
  destruct (netboot_fwsetup_requests_setup (bare_message CMD_FWSETUP) 0x400 0 8 (replicate 8 0)
    (fw (bare_message CMD_FWSETUP))) as (s' & R & Fw & G & _).
  - discriminate.
  - vm_compute. reflexivity.
  - reflexivity.
  - cbn. lia.
  - lia.
  - exists s'. split; [exact R|]. split; [exact Fw|]. by rewrite G.
Defined.





Lemma netboot_cmd_send_datagram_witness :
  exists s s', netboot_cmd_send CMD_ADVERTISE 0 0 s = Ret tt s'
    /\ net_ready s' demo_addresses [8192; 6144; 4096]
    /\ drop 54 <$> transmitted (fw s')
       = [ [0xE1; 0xB1; 0xE1; 0xB2; 0; 24; 0xAB; 0x99] ++ message CMD_ADVERTISE [0; 0; 0; 0] [] ].
Proof.
  destruct (demo_state sample_messages bytes_messages ltac:(vm_compute; discriminate)) as [s D].
  destruct (plain_delivers s demo_addresses 10240 CMD_ADVERTISE []) as (w & Dl & Ew).
  { intros x Hx%(demo_top _ _ D). lia. }
  { cbn. lia. }
  destruct (netboot_cmd_send_datagram s demo_addresses 10240 [8192; 6144; 4096] CMD_ADVERTISE 0 [] 0 w)
    as (s' & Sd & R & _ & Fw).
  - exact (demo_ready _ _ D).
  - done.
  - done.
  - constructor.
  - unfold disj. cbn. lia.
  - cbn. lia.
  - exact Dl.
  - exists s, s'. split; [exact Sd|]. split; [exact R|].
    rewrite Fw, Ew, (demo_fw _ _ D). vm_compute. reflexivity.
Defined.

(** A transfer of a file of four bytes, and a fragment of five. *)
Definition overrun : state :=
  set_nb (NetbootState STATE_FILE_TRANSFER 0x2000 0x3000 0 0)
    (set_bp (BufpoolGlobals 0 0 0x10000)
       (start (blocks [(0x2000, le_bytes 8 4 ++ le_bytes 8 512 ++ le_bytes 8 1 ++ le_bytes 8 0);
                       (0x3000, replicate 4 0); (0x4000, sample_fragment 0 [1; 2; 3; 4; 5])]))).

Lemma overrun_apart a n : 0x1000 <= a -> a + n <= 0x10000 -> apart overrun a n.
Proof.
  intros Ha Hn. split; [unfold disj; cbn; lia|].
  unfold away, statics, disj. cbn. repeat apply Forall_cons_2; cbn; try lia. constructor.
Qed.

Lemma overrun_transfer : Transfer overrun 4 512 (Receiver [] 0).
Proof.
  split; cbn [nb overrun set_nb nb_state file_info file_buffer file_bytes_transferred
    file_packets_transferred received next_fragment].
  - reflexivity.
  - vm_compute. reflexivity.
  - vm_compute. reflexivity.
  - by_reading 4%nat.
  - split; [reflexivity|constructor].
  - reflexivity.
  - reflexivity.
  - cbn. lia.
  - apply overrun_apart; lia.
  - apply overrun_apart; lia.
  - unfold disj. lia.
Qed.

Lemma netboot_fragment_overflows_witness :
  Transfer overrun 4 512 (Receiver [] 0)
  /\ netboot_file_fragment (msg_data 0x4000) overrun = Fault (0x3000 + 4).
Proof.
  split; [exact overrun_transfer|].
  apply (netboot_fragment_overflows overrun 4 512 (Receiver [] 0) 0x4000 [1; 2; 3; 4; 5]).
  - exact overrun_transfer.
  - split; [vm_compute; reflexivity|vm_compute; reflexivity|vm_compute; reflexivity|].
    split; [vm_compute; reflexivity|each].
  - cbn. lia.
  - cbn. lia.
  - unfold disj. cbn. lia.
  - vm_compute. reflexivity.
Defined.
