(* ===== verification/DeviceTheorems.v ===== *)
(** * Properties of device paths and protocol identifiers *)

From S2P Require Import Prelude Memory Firmware State CString Printf PrintfFacts Console Alloc.
From S2P Require Import DevicePath DevicePathFacts Boot Platform.

(** Sixteen bytes are equal when the four fields of an identifier are. *)
Lemma guid_fields ga gb (m m' : memory) a b :
  holds m a 16 ga -> holds m' b 16 gb ->
  ga = gb <-> le_num (chunk 0 4 ga) = le_num (chunk 0 4 gb)
    /\ le_num (chunk 4 2 ga) = le_num (chunk 4 2 gb)
    /\ le_num (chunk 6 2 ga) = le_num (chunk 6 2 gb)
    /\ le_num (chunk 8 8 ga) = le_num (chunk 8 8 gb).
Proof.
  intros Ha Hb. pose proof (holds_length _ _ _ _ Ha ltac:(lia)) as La.
  pose proof (holds_length _ _ _ _ Hb ltac:(lia)) as Lb.
  split; [by intros ->|]. intros (E1 & E2 & E3 & E4).
  assert (Inj : forall o n, (o + n <= 16)%nat -> le_num (chunk o n ga) = le_num (chunk o n gb) ->
    chunk o n ga = chunk o n gb).
  { intros o n Ho En.
    assert (Back : forall bs, length bs = 16%nat -> are_bytes bs ->
      le_bytes n (le_num (chunk o n bs)) = chunk o n bs).
    { intros bs Hl B. replace n with (length (chunk o n bs)) at 1 by (apply chunk_length; lia).
      by apply le_bytes_num, chunk_bytes. }
    rewrite <-(Back ga), <-(Back gb) by (apply Ha || apply Hb || lia). by rewrite En. }
  apply Inj in E1, E2, E3, E4; try lia.
  assert (Sp : forall bs : list Z, length bs = 16%nat ->
    bs = chunk 0 4 bs ++ chunk 4 2 bs ++ chunk 6 2 bs ++ chunk 8 8 bs).
  { intros bs Hl. do 17 (destruct bs as [|? bs]; [done|]). done. }
  rewrite (Sp ga), (Sp gb) by lia. congruence.
Qed.

Section Theorems.
Context {E : Efi} {F : Firmware} {L : Layout} {K : Fuel} {EL : EfiLaws E} {AL : AllocLaws E F}.

(** C18: [uefi_devpath_append] concatenates: the new path has the nodes of the
    first path followed by those of the second, in fresh storage, its size is
    counted by [uefi_devpath_size], and both arguments are unchanged. *)
Theorem uefi_devpath_append_concatenates s a1 l1 a2 l2 st p c w :
  path_at (mem s) a1 l1 -> path_at (mem s) a2 l2 ->
  let n := zlen (path_bytes l1) + zlen (path_bytes l2) in
  n < 2 ^ 52 -> AllocatePool EfiLoaderData n (mem s) (fw s) = (st, p, c, w) ->
  EFI_ERROR st = false ->
  exists s', uefi_devpath_append a1 a2 s = Ret p s' /\ unmapped (mem s) p n
    /\ path_at (mem s') p (l1 ++ l2) /\ path_at (mem s') a1 l1 /\ path_at (mem s') a2 l2
    /\ uefi_devpath_size p s' = Ret (n - 4) s'
    /\ path_nodes (S (length (l1 ++ l2))) (path_bytes (l1 ++ l2)) = Some (l1 ++ l2).
Proof.
  intros P1 P2 n Hn A Ok.
  destruct (uefi_devpath_append_ret s a1 l1 a2 l2 st p c w P1 P2 Hn A Ok)
    as (s' & R & P & U & Kp & _).
  assert (Stay : forall a l, path_at (mem s) a l -> path_at (mem s') a l).
  { intros a l [Hh O Rg]. split; [|done|done]. eapply holds_agree; [exact Hh|lia|].
    intros x Hx. by apply Kp, (holds_mapped _ _ _ _ Hh); [lia|]. }
  exists s'. do 5 (split; [by auto|]). split; [|apply path_nodes_bytes; [apply P|lia] ].
  rewrite (uefi_devpath_size_ret _ _ _ P). f_equal.
  rewrite path_bytes_app, length_app. pose proof (path_bytes_length l1). unfold n. lia.
Qed.

(** C19: [uefi_devpath_from_path] writes past its block: the index of the
    terminator is the size in bytes, not in characters, so the store lands at
    4 + 2 * size bytes of a block of size + 8.  If nothing is mapped there, it
    faults. *)
Theorem uefi_devpath_from_path_overruns s device filename name st p c w :
  let size := 2 * (zlen name + 1) in
  holds (mem s) filename size (ucs2_bytes name ++ [0; 0]) -> Forall wide_char name ->
  1 <= zlen name < 2 ^ 32 ->
  AllocatePool EfiLoaderData (size + 8) (mem s) (fw s) = (st, p, c, w) -> EFI_ERROR st = false ->
  mem s !! (p + 4 + 2 * size) = None ->
  p + size + 8 <= p + 4 + 2 * size
  /\ uefi_devpath_from_path device filename s = Fault (p + 4 + 2 * size).
Proof.
  intros size Hh W Hn A Ok Un. split; [lia|].
  destruct (alloc_pool_fresh _ _ _ _ _ _ _ _ A Ok ltac:(lia)) as (A0 & A1 & U).
  pose proof (length_bytes_at c (size + 8) ltac:(lia)) as Lj.
  assert (D : disj p (size + 8) filename size).
  { apply disj_sym, (mapped_unmapped_disj (mem s)); [apply (holds_mapped _ _ _ _ Hh)|done|..]; lia. }
  unfold uefi_devpath_from_path.
  erewrite bind_ret by (eapply (efi_strlen_ret s filename name size); [exact Hh|done|lia]).
  cbv beta. rewrite (wrap_small 64 ((zlen name + 1) * 2)) by lia.
  replace ((zlen name + 1) * 2) with size by lia. cbv zeta. unfold sizeof_devpath.
  replace (u64 (size + 4 + 4)) with (size + 8) by (rewrite wrap_small; lia).
  run_step (boot_AllocatePool_ret s (size + 8) st p c w A Ok). cbv beta iota.
  set (s1 := set_pool _ _).
  run_step (EFIERR_ok (str "uefi/device-path.c") 87 st s1 Ok).
  destruct (Z.eqb_spec p 0); [lia|]. cbn [negb]. cbv beta.
  destruct devpath_types as (_ & _ & B & _).
  assert (Mp : mapped (mem s1) p (size + 8)).
  { intros x Hx. apply mapped_write_self. lia. }
  assert (H1 : holds (mem s1) filename size (ucs2_bytes name ++ [0; 0])).
  { apply holds_write; [done|lia|by rewrite Lj]. }
  erewrite bind_ret by (apply store_n_ret; eapply mapped_sub; [exact Mp|unfold node_Type; lia..]).
  erewrite bind_ret.
  2:{ apply store_n_ret. cbn [mem set_mem]. apply mapped_write.
      eapply mapped_sub; [exact Mp|unfold node_SubType; lia..]. }
  unfold path_name, sizeof_devpath.
  erewrite bind_ret.
  2:{ apply (memcpy_ret _ _ _ _ (ucs2_bytes name ++ [0; 0])); cbn [mem set_mem].
      - lia.
      - unfold store. eapply proj1, holds_write; [apply holds_write; [exact H1|lia|]|lia|];
          rewrite length_le_bytes; eapply disj_sub; try exact D; unfold node_Type, node_SubType; lia.
      - apply H1.
      - do 2 apply mapped_write. eapply mapped_sub; [exact Mp|lia..].
      - eapply disj_sub; [exact D|lia..]. }
  cbv beta. apply bind_fault. unfold store_n, write_block. rewrite length_le_bytes.
  cbn [read_bytes mem set_mem]. unfold store. pose proof (holds_length _ _ _ _ Hh ltac:(lia)) as Lh.
  rewrite !(lookup_write_out _ _ _ (p + 4 + 2 * size))
    by (rewrite ?length_le_bytes, ?Lh; unfold node_Type, node_SubType; lia).
  unfold s1. cbn [mem set_pool set_mem]. rewrite (lookup_write_out _ _ _ (p + 4 + 2 * size)) by lia.
  by rewrite Un.
Qed.

(** [uefi_guid_compare] returns 0 exactly for two identifiers with the same 16
    bytes, and 1 otherwise. *)
Theorem uefi_guid_compare_equal s a b ga gb :
  holds (mem s) a 16 ga -> holds (mem s) b 16 gb ->
  uefi_guid_compare a b s = Ret (if decide (ga = gb) then 0 else 1) s.
Proof.
  intros Ha Hb. pose proof (guid_fields ga gb _ _ _ _ Ha Hb) as G.
  unfold uefi_guid_compare.
  assert (Eq : forall n o (field : Z -> Z), (forall x, field x = x + Z.of_nat o) -> (o + n <= 16)%nat ->
    (x ← load_n n (field a); y ← load_n n (field b); mret (x =? y)) s
    = Ret (le_num (chunk o n ga) =? le_num (chunk o n gb)) s).
  { intros n o field Hf Ho. rewrite !Hf.
    erewrite bind_ret by (apply load_n_ret; eapply load_chunk; [exact Ha|lia|lia]).
    erewrite bind_ret by (apply load_n_ret; eapply load_chunk; [exact Hb|lia|lia]). done. }
  run_step (Eq 4%nat 0%nat guid_data1 ltac:(intros; unfold guid_data1; lia) ltac:(lia)).
  destruct (Z.eqb_spec (le_num (chunk 0 4 ga)) (le_num (chunk 0 4 gb))); cbn [negb];
    [|by rewrite decide_False by tauto].
  run_step (Eq 2%nat 4%nat guid_data2 ltac:(done) ltac:(lia)).
  destruct (Z.eqb_spec (le_num (chunk 4 2 ga)) (le_num (chunk 4 2 gb))); cbn [negb];
    [|by rewrite decide_False by tauto].
  run_step (Eq 2%nat 6%nat guid_data3 ltac:(done) ltac:(lia)).
  destruct (Z.eqb_spec (le_num (chunk 6 2 ga)) (le_num (chunk 6 2 gb))); cbn [negb];
    [|by rewrite decide_False by tauto].
  run_step (Eq 8%nat 8%nat guid_data4 ltac:(done) ltac:(lia)).
  destruct (Z.eqb_spec (le_num (chunk 8 8 ga)) (le_num (chunk 8 8 gb)));
    [by rewrite decide_True by tauto|by rewrite decide_False by tauto].
Qed.

End Theorems.

(** ** Instances *)

Ltac bytes_by_computing := apply (bool_decide_unpack _); vm_compute; exact I.

(** A device path of a disk and one of a file. *)
Definition disk_path : list devnode := [Node 2 1 [0xD0; 0x41; 0x03; 0x0A; 0; 0; 0; 0]; Node 1 1 [0; 5]].
Definition file_path : list devnode := [Node 4 4 [98; 0; 0; 0]].

Lemma sample_nodes : Forall node_ok (disk_path ++ file_path).
Proof.
  repeat apply Forall_cons_2; try constructor; unfold node_size; cbn [ntype nsubtype ndata length];
    try lia; try (vm_compute; intros [? ?]; discriminate).
  all: split; [unfold is_byte; lia|split; [unfold is_byte; lia|bytes_by_computing] ].
Qed.

Definition paths_state : state :=
  start (blocks [(0x400, path_bytes disk_path); (0x500, path_bytes file_path)]).

Lemma sample_paths :
  path_at (mem paths_state) 0x400 disk_path /\ path_at (mem paths_state) 0x500 file_path.
Proof.
  pose proof sample_nodes as Ok. apply Forall_app in Ok as [O1 O2].
  split; split; try done; try (split; [lia|vm_compute; reflexivity]).
  - apply holds_written; [done|bytes_by_computing].
  - apply holds_write; [apply holds_written; [done|bytes_by_computing]|lia|].
    left. vm_compute. discriminate.
Qed.

Lemma uefi_devpath_append_concatenates_witness :
  let s := paths_state in
  exists s', uefi_devpath_append 0x400 0x500 s = Ret 0x50C s' /\ unmapped (mem s) 0x50C 34
    /\ path_at (mem s') 0x50C (disk_path ++ file_path)
    /\ path_at (mem s') 0x400 disk_path /\ path_at (mem s') 0x500 file_path
    /\ uefi_devpath_size 0x50C s' = Ret (34 - 4) s'
    /\ path_nodes 4 (path_bytes (disk_path ++ file_path)) = Some (disk_path ++ file_path).
Proof.
  intros s. destruct sample_paths as [P1 P2].
  refine (uefi_devpath_append_concatenates s 0x400 disk_path 0x500 file_path 0 0x50C (fun _ => 0)
    (fw s) P1 P2 _ _ eq_refl); vm_compute; reflexivity.
Defined.

(** L"btrfs.efi", the driver [efi_main] starts *)
Definition driver_name : list Z := str "btrfs.efi".
Definition driver_state : state := start (blocks [(0x400, ucs2_bytes driver_name ++ [0; 0])]).

Lemma uefi_devpath_from_path_overruns_witness :
  0x414 + 20 + 8 <= 0x414 + 4 + 40
  /\ uefi_devpath_from_path 0 0x400 driver_state = Fault (0x414 + 4 + 40).
Proof.
  apply (uefi_devpath_from_path_overruns driver_state 0 0x400 driver_name 0 0x414 (fun _ => 0)
    (fw driver_state)); try (vm_compute; reflexivity).
  - apply holds_written; [done|bytes_by_computing].
  - bytes_by_computing.
  - vm_compute. split; [discriminate|reflexivity].
Defined.

Definition sample_guid : list Z := [0x71; 0xE8; 0x68; 0x88; 0xF1; 0xE4; 0xD3; 0x11; 0xBC; 0x22; 0; 0x80; 0xC7; 0x3C; 0x88; 0x81].

Lemma uefi_guid_compare_equal_witness :
  let s := start (blocks [(0x400, sample_guid); (0x410, sample_guid)]) in
  uefi_guid_compare 0x400 0x410 s = Ret (if decide (sample_guid = sample_guid) then 0 else 1) s.
Proof.
  intros s. apply uefi_guid_compare_equal.
  - apply holds_written; [done|bytes_by_computing].
  - apply holds_write; [apply holds_written; [done|bytes_by_computing]|lia|].
    left. vm_compute. discriminate.
Defined.
