(* ===== verification/BootTheorems.v ===== *)
(** * Properties of the boot information and the menu *)

From S2P Require Import Prelude Memory Firmware State CString Printf PrintfFacts Console Alloc.
From S2P Require Import DevicePath Paging Handles Boot Session Platform.

(** An identifier whose fields have the widths of [efi_guid]. *)
Record guid_ok (g : efi_guid) : Prop := {
  go1 : 0 <= data1 g < 2 ^ 32; go2 : 0 <= data2 g < 2 ^ 16;
  go3 : 0 <= data3 g < 2 ^ 16; go4 : 0 <= data4 g < 2 ^ 64;
}.

Lemma guid_bytes_length g : length (guid_bytes g) = 16%nat.
Proof. done. Qed.

Lemma le_bytes_inj n x y :
  0 <= x < 2 ^ (8 * Z.of_nat n) -> 0 <= y < 2 ^ (8 * Z.of_nat n) -> le_bytes n x = le_bytes n y -> x = y.
Proof.
  intros Hx Hy E. apply (f_equal le_num) in E. by rewrite !le_num_bytes, !wrap_small in E.
Qed.

Lemma guid_bytes_inj g h : guid_ok g -> guid_ok h -> guid_bytes g = guid_bytes h -> g = h.
Proof.
  intros [G1 G2 G3 G4] [H1 H2 H3 H4] Eq. unfold guid_bytes in Eq.
  apply app_inj_1 in Eq as [E1 Eq]; [|by rewrite !length_le_bytes].
  apply app_inj_1 in Eq as [E2 Eq]; [|by rewrite !length_le_bytes].
  apply app_inj_1 in Eq as [E3 E4]; [|by rewrite !length_le_bytes].
  apply le_bytes_inj in E1, E2, E3, E4; try done.
  destruct g, h. cbn in *. by subst.
Qed.

Section Rsdp.
Context {E : Efi} {F : Firmware} {L : Layout} {K : Fuel} {EL : EfiLaws E}.

(** C21: [efi_get_rsdp] stores the table of the first entry whose identifier is
    that of ACPI 2.0, and returns EFI_NOT_FOUND without a store if the
    configuration table has none. *)
Theorem efi_get_rsdp_first s info t :
  ConfigurationTable = Some t -> mapped (mem s) (info_rsdp info) 8 ->
  guid_ok ACPI_20_TABLE_GUID -> Forall (fun e => guid_ok (VendorGuid e)) t ->
  efi_get_rsdp info s =
  match list_find (fun e => VendorGuid e = ACPI_20_TABLE_GUID) t with
  | Some (_, e) =>
      Ret EFI_SUCCESS (set_mem (store 8 (mem s) (info_rsdp info) (VendorTable e)) s)
  | None => Ret EFI_NOT_FOUND s
  end.
Proof.
  intros Ht Mp Ga Gt. unfold efi_get_rsdp. rewrite Ht. clear Ht.
  induction t as [|e t IH]; [done|]. apply Forall_cons in Gt as [Ge Gt].
  cbn [get_rsdp_loop list_find].
  destruct (Z.eqb_spec (bytes_cmp (guid_bytes ACPI_20_TABLE_GUID) (guid_bytes (VendorGuid e))) 0)
    as [Ez|Nz].
  - apply bytes_cmp_zero, guid_bytes_inj in Ez; [|done..]. rewrite decide_True by done.
    by erewrite bind_ret by by apply store_n_ret.
  - rewrite decide_False by (intros Eg; apply Nz, bytes_cmp_zero; by rewrite ?Eg).
    rewrite IH by done.
    by destruct (list_find _ t) as [[? ?]|].
Qed.

End Rsdp.

Section Framebuffer.
Context {E : Efi} {F : Firmware} {L : Layout} {K : Fuel} {EL : EfiLaws E} {AL : AllocLaws E F}.

(** The card at [gop] reports the resolution [modes i] for mode [i], whatever was
    asked before. *)
Definition reports (gop : Z) (modes : Z -> mode_information) : Prop :=
  forall i w, exists st w', QueryMode gop i w = (st, modes i, w') /\ EFI_ERROR st = false.

Definition is_800x600 (m : mode_information) : Prop :=
  HorizontalResolution m = 800 /\ VerticalResolution m = 600.

(** Neither dimension of [m] exceeds that of [m']. *)
Definition within (m m' : mode_information) : Prop :=
  HorizontalResolution m <= HorizontalResolution m' /\
  VerticalResolution m <= VerticalResolution m'.

(** From mode [i] the selection climbs to [k]: each time to the first later mode
    that is wider or higher than the one it is at. *)
Inductive climbs (modes : Z -> mode_information) : Z -> Z -> Prop :=
  | climbs_here i : climbs modes i i
  | climbs_to i j k :
      i < j -> (forall m, i < m < j -> within (modes m) (modes i)) ->
      ~ within (modes j) (modes i) -> climbs modes j k -> climbs modes i k.

Lemma climbs_next modes i j k :
  climbs modes i j -> j < k -> (forall m, j < m < k -> within (modes m) (modes j)) ->
  ~ within (modes k) (modes j) -> climbs modes i k.
Proof.
  induction 1 as [i|i j' j Hij Bt Nw C IH]; intros Hk Bk Nk.
  - eapply climbs_to; [exact Hk|exact Bk|exact Nk|constructor].
  - eapply climbs_to; [exact Hij|exact Bt|exact Nw|by apply IH].
Qed.

(** Of [n] modes, the selection of mode [i]: the climb from mode 0 ends there. *)
Definition selected (modes : Z -> mode_information) (n i : Z) : Prop :=
  0 <= i < n /\ climbs modes 0 i /\ forall j, i < j < n -> within (modes j) (modes i).

(** The selection is one mode only. *)
Lemma climbs_unique modes n i j : climbs modes i j -> forall j',
  climbs modes i j' -> j < n -> j' < n ->
  (forall k, j < k < n -> within (modes k) (modes j)) ->
  (forall k, j' < k < n -> within (modes k) (modes j')) -> j = j'.
Proof.
  assert (Le : forall a b, climbs modes a b -> a <= b) by (induction 1; lia).
  induction 1 as [i|i i1 j Hi Bt Nw C IH]; intros j' C' Hj Hj' E1 E2.
  - inversion C' as [|? i1 ? Hi Bt Nw C]; subst; [done|]. apply Le in C. destruct Nw. apply E1. lia.
  - inversion C' as [|? i2 ? Hi' Bt' Nw' C2]; subst.
    + apply Le in C. destruct Nw. apply E2. lia.
    + assert (i1 = i2) as ->; [|by apply IH].
      destruct (Z.lt_trichotomy i1 i2) as [Lt|[Eq|Gt]]; [destruct Nw|exact Eq|destruct Nw'];
        [apply Bt'|apply Bt]; lia.
Qed.

Lemma selected_unique modes n i j : selected modes n i -> selected modes n j -> i = j.
Proof.
  intros (Hi & Ci & Ei) (Hj & Cj & Ej). by apply (climbs_unique modes n 0 i Ci j Cj); try lia.
Qed.

(** The firmware was asked for the modes from [i] below [j], with an allocation
    before each question, and nothing else. *)
Inductive queried (gop : Z) : Z -> Z -> fwst -> fwst -> Prop :=
  | queried_none i w : queried gop i i w w
  | queried_mode i j w w' m :
      queried gop (i + 1) j (QueryMode gop i (AllocatePool EfiLoaderData 8 m w).2).2 w' ->
      queried gop i j w w'.

(** What the loop leaves after the modes below [i], none of which ended it. *)
Record scanned (modes : Z -> mode_information) (i max_w max_h selection : Z) : Prop := {
  sc_start : i = 0 -> max_w = 0 /\ max_h = 0 /\ selection = 0;
  sc_selected : i <> 0 ->
    max_w = HorizontalResolution (modes selection) /\ max_h = VerticalResolution (modes selection)
    /\ selected modes i selection;
  sc_ovmf j : vendor_cmp = 0 -> 0 <= j < i -> ~ is_800x600 (modes j);
}.

Lemma scanned_select modes i max_w max_h selection :
  0 <= i -> scanned modes i max_w max_h selection -> (vendor_cmp = 0 -> ~ is_800x600 (modes i)) ->
  max_w < HorizontalResolution (modes i) \/ max_h < VerticalResolution (modes i) ->
  scanned modes (i + 1) (HorizontalResolution (modes i)) (VerticalResolution (modes i)) i.
Proof.
  intros Hi [S1 S2 S3] N G. split; [lia| |].
  - intros _. split; [done|]. split; [done|]. split; [lia|]. split; [|intros; lia].
    destruct (decide (i = 0)) as [->|Ni]; [constructor|].
    destruct (S2 Ni) as (-> & -> & Hs & C & Later).
    eapply climbs_next; [exact C|lia|exact Later|unfold within; lia].
  - intros j V Hj. destruct (decide (j = i)) as [->|]; [by apply N|apply S3; [done|lia] ].
Qed.

Lemma scanned_keep modes i max_w max_h selection :
  0 <= i -> within (ModeInformation 0 0) (modes i) ->
  scanned modes i max_w max_h selection -> (vendor_cmp = 0 -> ~ is_800x600 (modes i)) ->
  ~ (max_w < HorizontalResolution (modes i) \/ max_h < VerticalResolution (modes i)) ->
  scanned modes (i + 1) max_w max_h selection.
Proof.
  intros Hi [P1 P2] [S1 S2 S3] N G. cbn in P1, P2. split; [lia| |].
  - intros _. destruct (decide (i = 0)) as [->|Ni].
    + destruct (S1 eq_refl) as (-> & -> & ->). split; [lia|]. split; [lia|].
      split; [lia|]. split; [constructor|intros; lia].
    + destruct (S2 Ni) as (Ew & Eh & Hs & C & Later). split; [done|]. split; [done|].
      split; [lia|]. split; [done|]. intros j Hj.
      destruct (decide (j = i)) as [->|]; [unfold within; lia|apply Later; lia].
  - intros j V Hj. destruct (decide (j = i)) as [->|]; [by apply N|apply S3; [done|lia] ].
Qed.

Lemma setup_loop_ret gop modes n :
  reports gop modes -> (forall i, within (ModeInformation 0 0) (modes i)) ->
  forall i max_w max_h selection s, 0 <= i ->
  scanned modes i max_w max_h selection ->
  exists r s', framebuffer_setup_loop n gop i max_w max_h selection s = Ret r s' /\
  match r with
  | Some selection' => queried gop i (i + Z.of_nat n) (fw s) (fw s') /\ exists max_w' max_h',
      scanned modes (i + Z.of_nat n) max_w' max_h' selection'
  | None => exists k w, i <= k < i + Z.of_nat n /\ queried gop i (k + 1) (fw s) w
      /\ fw s' = (SetMode gop k w).2
      /\ vendor_cmp = 0 /\ is_800x600 (modes k) /\ forall j, 0 <= j < k -> ~ is_800x600 (modes j)
  end.
Proof.
  intros Rp Nn. induction n as [|n IH]; intros i max_w max_h sel s Hi Sc;
    cbn [framebuffer_setup_loop].
  { exists (Some sel), s. rewrite Z.add_0_r. split; [done|]. split; [constructor|eauto]. }
  destruct (boot_AllocatePool_fw EfiLoaderData 8 s) as (x & s1 & A & Fw).
  erewrite bind_ret by exact A. clear A.
  destruct (Rp i (fw s1)) as (st & w' & Q & Ok).
  assert (Qr : firmware (QueryMode gop i) s1 = Ret (st, modes i) (set_fw w' s1))
    by (unfold firmware; by rewrite Q).
  run_step Qr. run_step (EFIERR_ok (str "boot/framebuffer.c") 46 _ (set_fw w' s1) Ok).
  assert (Qd : forall j w, queried gop (i + 1) j w' w -> queried gop i j (fw s) w).
  { intros j w Qw. eapply (queried_mode gop i j (fw s) w (mem s)). by rewrite <-Fw, Q. }
  destruct (decide (vendor_cmp = 0 /\ is_800x600 (modes i))) as [(V & W8 & H6)|No].
  { rewrite V, W8, H6. cbv zeta.
    change ((0 =? 0) && (800 =? 800) && (600 =? 600)) with true. cbv iota. destruct (SetMode gop i w') as [st2 w2] eqn:Sm.
    erewrite bind_ret by (unfold firmware; cbn [fw set_fw]; rewrite Sm; reflexivity).
    eexists None, _. split; [reflexivity|]. exists i, w'. rewrite Sm. split; [lia|].
    split; [apply Qd; constructor|]. do 3 (split; [done|]). intros j. by apply Sc. }
  assert (No' : (vendor_cmp =? 0) && (HorizontalResolution (modes i) =? 800)
    && (VerticalResolution (modes i) =? 600) = false).
  { apply not_true_iff_false. rewrite !andb_true_iff, !Z.eqb_eq. unfold is_800x600 in No. tauto. }
  rewrite No'.
  match goal with |- context [if ?b then _ else _] => destruct b eqn:Gt end;
    rewrite ?orb_true_iff, ?orb_false_iff, ?Z.ltb_lt, ?Z.ltb_ge in Gt;
    match goal with |- context [framebuffer_setup_loop _ _ _ ?w ?h ?sl ?st] =>
      assert (Sc' : scanned modes (i + 1) w h sl)
        by (first [eapply scanned_select|eapply scanned_keep]; try exact Sc; try apply Nn; try lia;
            tauto);
      destruct (IH (i + 1) w h sl st ltac:(lia) Sc') as (r & s' & R & P) end;
    exists r, s'; (split; [exact R|]); cbn [fw set_fw] in P;
    replace (i + Z.of_nat (S n)) with (i + 1 + Z.of_nat n) by lia;
    (destruct r as [sel'|];
      [destruct P as [P1 P2]; split; [by apply Qd|exact P2]
      |destruct P as (k & w1 & P1 & P2 & P3); exists k, w1; split; [lia|]; split; [by apply Qd|exact P3] ]).
Qed.

(** C20: [framebuffer_setup] chooses the mode.  On OVMF it sets the first 800x600
    mode, and no mode if there is none.  Elsewhere it selects one by climbing
    from mode 0, each time to the next mode that is wider or higher, until no
    later mode is; it sets that mode unless it is mode 0.  It returns whether it
    set a mode, which is the last thing it asks the firmware; before, and if it
    sets none at all, it only asks for the modes. *)
Theorem framebuffer_setup_chooses gop modes s :
  let n := MaxMode (GopMode_of gop (fw s)) in
  reports gop modes -> (forall i, within (ModeInformation 0 0) (modes i)) -> 0 <= n ->
  exists set s', framebuffer_setup gop s = Ret set s' /\
  if (set : bool) then
    exists i w, fw s' = (SetMode gop i w).2 /\
      (vendor_cmp = 0 /\ 0 <= i < n /\ queried gop 0 (i + 1) (fw s) w
         /\ is_800x600 (modes i) /\ (forall j, 0 <= j < i -> ~ is_800x600 (modes j))
       \/ vendor_cmp <> 0 /\ i <> 0 /\ queried gop 0 n (fw s) w /\ selected modes n i)
  else
    queried gop 0 n (fw s) (fw s')
    /\ (vendor_cmp = 0 /\ (forall j, 0 <= j < n -> ~ is_800x600 (modes j))
        \/ vendor_cmp <> 0 /\ (n = 0 \/ selected modes n 0)).
Proof.
  intros n Rp Nn Hn. unfold framebuffer_setup. erewrite bind_ret by reflexivity. cbv beta. fold n.
  destruct (setup_loop_ret gop modes (Z.to_nat n) Rp Nn 0 0 0 0 s ltac:(lia)) as (r & s1 & R & P).
  { split; [done|done|lia]. }
  run_step R. replace (0 + Z.of_nat (Z.to_nat n)) with n in P by lia.
  destruct r as [sel|].
  - destruct P as (Q & w1 & h1 & [S1 S2 S3]).
    destruct (Z.eqb_spec vendor_cmp 0) as [V|V]; cbn [negb andb].
    { exists false, s1. split; [done|]. split; [done|]. left. split; [done|]. intros j. by apply S3. }
    destruct (Z.eqb_spec sel 0) as [->|Ns]; cbn [negb].
    { exists false, s1. split; [done|]. split; [done|]. right. split; [done|].
      destruct (decide (n = 0)); [by left|right; by apply S2]. }
    destruct (SetMode gop sel (fw s1)) as [st w] eqn:Sm.
    erewrite bind_ret by (unfold firmware; by rewrite Sm).
    eexists true, _. split; [reflexivity|]. exists sel, (fw s1). rewrite Sm. split; [done|]. right.
    split; [done|]. split; [done|]. split; [done|]. apply S2. intros Z0. by apply S1 in Z0 as (_ & _ & ?).
  - destruct P as (k & w & Hk & Q & Fw & V & Md & Before). exists true, s1. split; [done|].
    exists k, w. split; [done|]. left. done.
Qed.

(** ** The menu *)

(** The user presses the keys [ks], one after the other. *)
Inductive typed : list Z -> fwst -> fwst -> Prop :=
  | typed_nil w : typed [] w w
  | typed_key k ks w st1 w1 st2 w2 w3 :
      WaitForKey w = (st1, w1) -> EFI_ERROR st1 = false ->
      ReadKeyStroke w1 = (st2, k, w2) -> EFI_ERROR st2 = false -> k <> 0 ->
      typed ks w2 w3 -> typed (k :: ks) w w3.

(** The character the menu takes from a key. *)
Definition key_char (k : Z) : Z := s8 (Z.land k 255).
Definition answer (k : Z) : Prop := key_char k = chr "n" \/ key_char k = chr "d".

Lemma read_key k ks w s :
  typed (k :: ks) (fw s) w -> (1 <= key_polls)%nat ->
  exists w1, uefi_read_keystroke s = Ret (key_char k) (set_fw w1 s) /\ typed ks w1 w.
Proof.
  intros T Hp. inversion T as [|? ? ? st1 w1 st2 w2 ? W O1 R O2 Nk T']; subst. exists w2.
  split; [|done]. unfold uefi_read_keystroke. destruct key_polls as [|fuel]; [lia|].
  cbn [uefi_read_keystroke_loop]. rewrite Z.eqb_refl. cbn [negb].
  unfold firmware. rewrite bind_assoc. erewrite bind_ret by (by rewrite W). cbv beta.
  rewrite bind_assoc. run_step (EFIERR_ok (str "uefi/util.c") 66 st1 (set_fw w1 s) O1).
  rewrite bind_assoc. erewrite bind_ret by (cbn [fw set_fw]; by rewrite R). cbv beta iota.
  rewrite bind_assoc. run_step (EFIERR_ok (str "uefi/util.c") 69 st2 (set_fw w2 s) O2).
  destruct fuel; cbn [uefi_read_keystroke_loop]; by destruct (Z.eqb_spec k 0).
Qed.

(** C22: the menu ends with the first key that is an answer: keys that are not are
    ignored, and the result is the character of the answer. *)
Theorem choose_loop_first_answer ks k s w fuel :
  typed (ks ++ [k]) (fw s) w -> Forall (fun k => ~ answer k) ks -> answer k ->
  (1 <= key_polls)%nat -> (length ks < fuel)%nat ->
  choose_loop fuel 0 s = Ret (key_char k) (set_fw w s).
Proof.
  intros T Ns A Hp. cut (forall c, c <> chr "n" -> c <> chr "d" -> (length ks < fuel)%nat ->
    choose_loop fuel c s = Ret (key_char k) (set_fw w s)).
  { intros C. by apply C. }
  revert s fuel T. induction Ns as [|k0 ks N0 Ns IH]; intros s [|fuel] T c Nc Dc Hf;
    cbn [length] in Hf; try lia; cbn [choose_loop app] in *;
    destruct (Z.eqb_spec c (chr "n")), (Z.eqb_spec c (chr "d")); try done; cbn [negb andb];
    destruct (read_key _ _ _ _ T Hp) as (w1 & R & T'); run_step R.
  - inversion T'; subst. unfold answer in A.
    destruct fuel; cbn [choose_loop];
      destruct (Z.eqb_spec (key_char k) (chr "n")), (Z.eqb_spec (key_char k) (chr "d"));
      cbn [negb andb]; done || tauto.
  - unfold answer in N0. rewrite (IH (set_fw w1 s) fuel); [done|done|tauto|tauto|lia].
Qed.

End Framebuffer.

(** ** Instances *)

Lemma efi_get_rsdp_first_witness :
  let s := start (blocks [(0x400, replicate 88 0)]) in
  efi_get_rsdp 0x400 s = Ret EFI_SUCCESS (set_mem (store 8 (mem s) (info_rsdp 0x400) 0x380) s).
Proof.
  intros s.
  refine (eq_trans (efi_get_rsdp_first s 0x400 [ConfigurationEntry ACPI_20_TABLE_GUID 0x380]
    _ _ _ _) _).
  - reflexivity.
  - by_reading 8%nat.
  - split; vm_compute; split; discriminate || reflexivity.
  - apply Forall_cons_2; [|constructor]. split; vm_compute; split; discriminate || reflexivity.
  - cbn [list_find VendorGuid]. by rewrite decide_True.
Defined.

(** A display with five modes and a keyboard with the keys pressed so far, of a
    firmware that is not OVMF and that records the mode it is told to set. *)
Definition monitor_modes (i : Z) : mode_information :=
  if i =? 0 then ModeInformation 640 480 else if i =? 1 then ModeInformation 320 200
  else if i =? 2 then ModeInformation 1024 768 else if i =? 3 then ModeInformation 1280 720
  else ModeInformation 800 600.

Definition monitor : Firmware := {|
  fwst := journal; OutputString := @OutputString plain_firmware;
  ClearScreen := @ClearScreen plain_firmware;
  ReadKeyStroke w :=
    match incoming w with
    | [k] :: keys => (0, k, set_card (sent_buffers w) keys w)
    | _ => (EFI_NOT_READY, 0, w)
    end;
  WaitForKey := @WaitForKey plain_firmware; AllocatePages := @AllocatePages plain_firmware;
  AllocatePool := @AllocatePool plain_firmware; FreePool := @FreePool plain_firmware;
  CreateEvent := @CreateEvent plain_firmware; SetTimer := @SetTimer plain_firmware;
  CheckEvent := @CheckEvent plain_firmware; CloseEvent := @CloseEvent plain_firmware;
  HandleProtocol := @HandleProtocol plain_firmware; DeviceHandle := @DeviceHandle plain_firmware;
  OpenVolume := @OpenVolume plain_firmware; FileOpen := @FileOpen plain_firmware;
  FileRead := @FileRead plain_firmware; FileWrite := @FileWrite plain_firmware;
  FileSetPosition := @FileSetPosition plain_firmware; FileClose := @FileClose plain_firmware;
  GetVariable := @GetVariable plain_firmware; SetVariable := @SetVariable plain_firmware;
  SnpMode_of := @SnpMode_of plain_firmware; SnpTransmit := @SnpTransmit plain_firmware;
  SnpReceive := @SnpReceive plain_firmware; SnpGetStatus := @SnpGetStatus plain_firmware;
  SnpReceiveFilters := @SnpReceiveFilters plain_firmware; SnpStart := @SnpStart plain_firmware;
  SnpInitialize := @SnpInitialize plain_firmware; SnpShutdown := @SnpShutdown plain_firmware;
  SnpStop := @SnpStop plain_firmware; FileGetInfo := @FileGetInfo plain_firmware;
  GetMemoryMap := @GetMemoryMap plain_firmware;
  ExitBootServices := @ExitBootServices plain_firmware;
  LocateHandle := @LocateHandle plain_firmware;
  LocateHandleBuffer := @LocateHandleBuffer plain_firmware;
  LocateProtocol := @LocateProtocol plain_firmware; OpenProtocol := @OpenProtocol plain_firmware;
  CloseProtocol := @CloseProtocol plain_firmware;
  ProtocolsPerHandle := @ProtocolsPerHandle plain_firmware;
  OpenProtocolInformation := @OpenProtocolInformation plain_firmware;
  ConnectController := @ConnectController plain_firmware;
  ConvertDevicePathToText := @ConvertDevicePathToText plain_firmware;
  LoadImage := @LoadImage plain_firmware; StartImage := @StartImage plain_firmware;
  SetLoadOptions := @SetLoadOptions plain_firmware;
  SetWatchdogTimer := @SetWatchdogTimer plain_firmware; ImageBase := @ImageBase plain_firmware;
  ImageSize := @ImageSize plain_firmware;
  GopMode_of gop w := GopMode 0x300 5 0x340 0x80000000 0x2000;
  QueryMode gop mode w := (0, monitor_modes mode, w);
  SetMode gop mode w := (0, log_print [mode] w);
  FirmwareRevision := @FirmwareRevision plain_firmware; FirmwareVendor i := 65;
  ConfigurationTable := @ConfigurationTable plain_firmware;
|}.

Lemma monitor_queried gop i j w w' : queried (F := monitor) gop i j w w' -> w' = w.
Proof.
  induction 1 as [|i j w w' m Q ->]; [done|].
  cbn [QueryMode AllocatePool monitor plain_firmware snd]. by destruct (_ <=? _).
Qed.

(** The first mode that is wider is 2, the next one 3. *)
Lemma monitor_selected : selected monitor_modes 5 3.
Proof.
  split; [lia|]. split.
  - apply (climbs_to _ 0 2); [lia| |unfold within; cbn; lia|apply (climbs_to _ 2 3)];
      [|lia|lia|unfold within; cbn; lia|constructor].
    intros m Hm. replace m with 1 by lia. unfold within. cbn. lia.
  - intros j Hj. replace j with 4 by lia. unfold within. cbn. lia.
Qed.

(** Mode 3 is set. *)
Lemma framebuffer_setup_chooses_witness :
  let s := State (F := monitor) ∅ ∅ (Journal [] [] [] [] [] [] [] 0) (BufpoolGlobals 0 0 0)
    (NetGlobals 0 1 0 true false false) (NetbootState STATE_PREINIT 0 0 0 0) (CpuRegs 0 ∅) in
  exists s', framebuffer_setup (F := monitor) 1 s = Ret true s'
    /\ fw s' = log_print [3] (Journal [] [] [] [] [] [] [] 0).
Proof.
  intros s.
  assert (V : vendor_cmp (F := monitor) <> 0) by (vm_compute; discriminate).
  destruct (framebuffer_setup_chooses (F := monitor) 1 monitor_modes s) as (set & s' & R & P).
  - intros i w. exists 0, w. by split.
  - intros i. unfold monitor_modes. repeat case_match; split; cbn; lia.
  - cbn. lia.
  - exists s'. destruct set.
    + split; [exact R|]. destruct P as (i & w & Fw & [ [? _]|(_ & _ & Q & Sl)]); [done|].
      pose proof (selected_unique _ _ _ _ Sl monitor_selected) as ->.
      apply monitor_queried in Q as ->. exact Fw.
    + exfalso. destruct P as [_ [ [? _]|[_ [N|Sl] ] ] ]; [done|discriminate N|].
      pose proof (selected_unique _ _ _ _ Sl monitor_selected). done.
Defined.

(** The keys x and d. *)
Definition keys_pressed (keys : list (list Z)) : state (F := monitor) :=
  State (F := monitor) ∅ ∅ (Journal [] [] [] [] [] keys [] 0) (BufpoolGlobals 0 0 0)
    (NetGlobals 0 1 0 true false false) (NetbootState STATE_PREINIT 0 0 0 0) (CpuRegs 0 ∅).

Lemma choose_loop_first_answer_witness :
  choose_loop (F := monitor) 3 0 (keys_pressed [ [chr "x"]; [chr "d"] ])
  = Ret (key_char (chr "d")) (keys_pressed []).
Proof.
  apply (choose_loop_first_answer (F := monitor) [chr "x"] (chr "d")
    (keys_pressed [ [chr "x"]; [chr "d"] ]) (fw (keys_pressed [])) 3).
  - eapply typed_key; [reflexivity..|done|]. eapply typed_key; [reflexivity..|done|constructor].
  - constructor; [|constructor]. intros [Eq|Eq]; vm_compute in Eq; discriminate Eq.
  - by right.
  - unfold key_polls, few_polls. lia.
  - cbn [length]. lia.
Defined.
