(* ===== verification/KernelTheorems.v ===== *)
(** * Properties of loading the kernel *)

From S2P Require Import Prelude Memory Firmware State CString Printf PrintfFacts Console Alloc.
From S2P Require Import Paging PagingFacts Elf Files Segments SegmentFacts PhdrFacts Boot Kernel Jumps.
From S2P Require Import World KernelFacts BootFacts HandoverFacts JourneyFacts Platform Volume.


Section Boots.
Context {E : Efi} {F : Firmware} {L : Layout} {K : Fuel} {H : ImageHandle} {T : SystemTable}.
Context {EL : EfiLaws E} {AL : AllocLaws E F} {LL : LayoutLaws L}.

(** C1: [loader_kernel] boots the kernel.  Given a file with an acceptable header
    and segments that can be loaded in the upper half of the address space, and a
    firmware that answers and has enough pages, it ends in the jump to the entry
    point of the header.  There the processor finds every byte of every segment
    at its virtual address, the stack with the address of the information
    structure, and that structure mapped to itself; it holds the image handle,
    the system table, a copy of the file and the memory map whose key
    ExitBootServices accepted; and what was in memory before is unchanged. *)
Theorem loader_kernel_boots kernel image {FS : FileSupply kernel image}
    {BS : BootSupply kernel image} s p :
  let h := ehdr_of (chunk 0 64 image) in
  are_bytes image -> sizeof_ehdr <= zlen image < 2 ^ 52 -> elf_accepted h ->
  loadable_kernel image h -> higher_half (image := image) h ->
  0 <= handle < 2 ^ 64 -> 0 <= system_table < 2 ^ 64 ->
  ready (boot_cost (image := image) h) p (dom (mem s)) (fw s) ->
  exists root info s', loader_kernel s = Halt (Jumped info (entry_point h) root) s'
    /\ booted (image := image) s s' root info.
Proof. apply loader_kernel_booted. Qed.

End Boots.

Section Theorems.
Context {E : Efi} {F : Firmware} {L : Layout} {K : Fuel} {EL : EfiLaws E} {AL : AllocLaws E F}.

(** C3: [loader_kernel_phdrs] loads the kernel: for a file whose segments fit,
    every byte of every PT_LOAD segment is found at its virtual address through
    the new page tables, with the contents of the file followed by zeros; all
    other pages translate as before and memory in use is unchanged.  Addresses
    in slot 510, which holds the recursive entry, are not concerned. *)
Theorem loader_kernel_phdrs_loads kernel image {FS : FileSupply kernel image} p k root s tbl
    header hb :
  let h := ehdr_of hb in
  PT (mem s) tbl root -> stored s tbl header hb -> zlen hb = sizeof_ehdr -> are_bytes image ->
  loadable_kernel image h ->
  ready (Z.to_nat (pages_of (phnum h * phentsize h)) + (pages_needed (phdr_rows image h) + k)) p
    (dom (mem s)) (fw s) ->
  exists s' tbl' p', loader_kernel_phdrs kernel header root s = Ret tt s'
    /\ PT (mem s') tbl' root /\ ready k p' (dom (mem s')) (fw s')
    /\ (forall row i, row ∈ phdr_rows image h -> is_load row -> 0 <= i < memsz (phdr_of row) ->
         virt_byte (mem s') root (vaddr (phdr_of row) + i)
         = segment_bytes image (phdr_of row) !! Z.to_nat i)
    /\ (forall va, 0 <= va < 2 ^ 64 -> slice 39 va <> 510 ->
         ~ touched_by (phdr_rows image h) va -> translate (mem s') root va = translate (mem s) root va)
    /\ (forall x, is_Some (mem s !! x) -> outside tbl x -> mem s' !! x = mem s !! x).
Proof.
  intros h I St Hl Bi Lk Rd.
  destruct (loader_kernel_phdrs_spec p k root s tbl header hb I St Hl Bi Lk Rd)
    as (a & s' & tbl' & p' & R & X & Lo & Rd'). fold h in X, Lo.
  exists s', tbl', p'. split; [exact R|]. split; [apply X|]. split; [exact Rd'|].
  rewrite Forall_forall in Lo. split; [|split].
  - intros row i Hr Y Hi. destruct (Lo row Hr Y) as [b Lb].
    eapply loaded_virt_byte; [exact Lb| |exact Hi].
    pose proof (lk_load _ _ Lk) as Ld. rewrite Forall_forall in Ld. by apply Ld.
  - intros va Hva N T. by apply (ev_same _ _ _ _ _ _ X).
  - intros x Hx O. by apply (ev_frame _ _ _ _ _ _ X x).
Qed.

(** C16: [elf_header_check] returns success exactly for the headers the loader can
    boot, and otherwise prints a message and does not return.  The magic is
    rejected only if all four of its bytes are wrong. *)
Theorem elf_header_check_verdict s header hb :
  read_bytes (mem s) header 64 = Some hb ->
  (elf_accepted (ehdr_of hb) -> elf_header_check header s = Ret EFI_SUCCESS s)
  /\ (~ elf_accepted (ehdr_of hb) -> exists msg,
       elf_header_check header s = Halt (Panicked msg) (set_fw (OutputString msg (fw s)).2 s)).
Proof.
  intros R. rewrite (elf_header_check_ret _ _ _ R). rewrite <-elf_defect_accepted.
  destruct (elf_defect (ehdr_of hb)) as [msg|]; split; try done. intros _. by exists msg.
Qed.

(** C17: the sizes of a segment are not compared: a PT_LOAD header whose p_filesz
    exceeds the pages of its p_memsz is read into memory past the pages
    allocated for it, over whatever the program keeps there. *)
Theorem loader_kernel_reads_past_pages kernel image {FS : FileSupply kernel image} p k phdr bs
    root s tbl :
  let ph := phdr_of bs in
  let n := pages_of (memsz ph) in
  PT (mem s) tbl root -> stored s tbl phdr bs -> sizeof_phdr <= zlen bs ->
  0 <= offset ph -> offset ph + filesz ph <= zlen image -> 0 < memsz ph <= 2 ^ 47 ->
  4096 * n < filesz ph -> ready (Z.to_nat n + k) p (dom (mem s)) (fw s) ->
  exists a, unmapped (mem s) a (4096 * n) /\
    (fill_segment kernel phdr s = Fault a
     \/ exists s', fill_segment kernel phdr s = Ret (n, a) s' /\
          forall i, 4096 * n <= i < filesz ph ->
          is_Some (mem s !! (a + i)) /\ mem s' !! (a + i) = image !! Z.to_nat (offset ph + i)).
Proof. apply fill_segment_overflow. Qed.

Context {H : ImageHandle} {T : SystemTable}.


End Theorems.

(** ** Instances *)

Lemma sample_rows :
  phdr_rows sample_kernel (ehdr_of sample_header)
  = [sample_phdr 1 5 232 0xFFFFFFFF80001000 4 4; sample_phdr 4 4 0 0 0 0;
     sample_phdr 1 6 236 0xFFFFFFFF80003000 3 0x1005].
Proof. vm_compute. reflexivity. Qed.

Definition sample_row1 := sample_phdr 1 5 232 0xFFFFFFFF80001000 4 4.
Definition sample_row2 := sample_phdr 4 4 0 0 0 0.
Definition sample_row3 := sample_phdr 1 6 236 0xFFFFFFFF80003000 3 0x1005.

Lemma sample_phdr1 : phdr_of sample_row1 = Phdr 1 5 232 0xFFFFFFFF80001000 0 4 4.
Proof. vm_compute. reflexivity. Qed.

Lemma sample_phdr3 : phdr_of sample_row3 = Phdr 1 6 236 0xFFFFFFFF80003000 0 3 0x1005.
Proof. vm_compute. reflexivity. Qed.

Lemma sample_not_load : ~ is_load sample_row2.
Proof. unfold is_load. vm_compute. discriminate. Qed.

Lemma sample_slot base n :
  0 <= n <= 2 -> 0xFFFF80001 <= base <= 0xFFFF80010 -> clear_of_slot base n.
Proof.
  intros Hn Hb j Hj. replace (j / 2 ^ 27) with 511; [done|]. symmetry.
  change (2 ^ 27) with 0x8000000. dlia.
Qed.

Lemma sample_loadable1 : loadable sample_kernel (phdr_of sample_row1).
Proof.
  rewrite sample_phdr1. split; cbn [offset filesz memsz vaddr]; try lia.
  - vm_compute. discriminate.
  - split; [lia|reflexivity].
  - vm_compute. discriminate.
  - apply sample_slot; vm_compute; split; discriminate.
Qed.

Lemma sample_loadable3 : loadable sample_kernel (phdr_of sample_row3).
Proof.
  rewrite sample_phdr3. split; cbn [offset filesz memsz vaddr]; try lia.
  - vm_compute. discriminate.
  - split; [lia|reflexivity].
  - vm_compute. discriminate.
  - apply sample_slot; vm_compute; split; discriminate.
Qed.

Lemma sample_separate : separate sample_row1 sample_row3.
Proof.
  intros _ _ va. unfold in_pages, page_index. rewrite sample_phdr1, sample_phdr3.
  cbn [vaddr memsz]. change (pages_of 4) with 1. change (pages_of 0x1005) with 2.
  change (vpn 0xFFFFFFFF80001000) with 0xFFFF80001. change (vpn 0xFFFFFFFF80003000) with 0xFFFF80003.
  pose proof (Z.mod_pos_bound (va / 4096) (2 ^ 36) ltac:(lia)). unfold vpn in *.
  revert H. generalize ((va / 4096) mod 2 ^ 36). change (2 ^ 36) with 0x1000000000. intros. dlia.
Qed.

Lemma sample_loadable : loadable_kernel sample_kernel (ehdr_of sample_header).
Proof.
  split; [vm_compute; discriminate|vm_compute; discriminate|reflexivity|vm_compute; discriminate
    |vm_compute; discriminate| |].
  - rewrite sample_rows. apply Forall_cons_2; [intros _; exact sample_loadable1|].
    apply Forall_cons_2; [intros Y; by destruct sample_not_load|].
    apply Forall_cons_2; [intros _; exact sample_loadable3|constructor].
  - rewrite sample_rows. constructor; [|constructor; [|constructor; constructor] ].
    + apply Forall_cons_2; [intros _ Y; by destruct sample_not_load|].
      apply Forall_cons_2; [exact sample_separate|constructor].
    + apply Forall_cons_2; [intros Y; by destruct sample_not_load|constructor].
Qed.

(** An object at 0x400, and a file on the volume. *)
Definition holding (image bs : list Z) : state :=
  set_fw (Journal [] [] [] [] [] [] image 0) (start (blocks [(0x400, bs)])).

(** With a new address space. *)
Lemma sample_space image bs k :
  are_bytes bs -> zlen bs <= 1024 -> Z.of_nat k < 1000 ->
  exists s root, PT (mem s) {[ [] := root ]} root /\ stored s {[ [] := root ]} 0x400 bs
    /\ volume_ready image k 0 (dom (mem s)) (fw s).
Proof.
  intros B Hl Hk.
  assert (Hh : holds (mem (holding image bs)) 0x400 (zlen bs) bs) by by apply holds_written.
  destruct (loader_paging_setup_spec (PS := file_pages (FS := volume 5 image) 0) (holding image bs) k)
    as (root & s & _ & Inv & U & _ & Kp & Rd).
  { split; [done|]. split; [done|]. exists 2048. split; [lia|]. split; [|lia].
    intros x Hx. apply elem_of_dom in Hx. revert Hx. unfold holding, start, blocks.
    cbn [mem set_fw foldr fst snd]. rewrite lookup_write_bytes.
    case_decide; [lia|]. rewrite lookup_empty. by intros [? ?]. }
  pose proof (holds_mapped _ _ _ _ Hh ltac:(lia)) as Mp.
  exists s, root. split; [exact Inv|]. split; [|exact Rd]. split.
  - eapply (holds_agree _ _ _ _ _ Hh); [lia|]. intros x Hx. by apply Kp, Mp.
  - intros x Hx p t Hp Ht. apply lookup_singleton_Some in Hp as [_ <-].
    destruct (Mp x Hx) as [b Hb]. by rewrite U in Hb.
Qed.

Ltac bytes_by_computing := apply (bool_decide_unpack _); vm_compute; exact I.

Lemma loader_kernel_phdrs_loads_witness :
  let h := ehdr_of sample_header in
  exists s root tbl s' tbl' p', loader_kernel_phdrs 5 0x400 root s = Ret tt s'
    /\ PT (mem s') tbl' root /\ volume_ready sample_kernel 0 p' (dom (mem s')) (fw s')
    /\ (forall row i, row ∈ phdr_rows sample_kernel h -> is_load row ->
         0 <= i < memsz (phdr_of row) ->
         virt_byte (mem s') root (vaddr (phdr_of row) + i)
         = segment_bytes sample_kernel (phdr_of row) !! Z.to_nat i)
    /\ (forall va, 0 <= va < 2 ^ 64 -> slice 39 va <> 510 ->
         ~ touched_by (phdr_rows sample_kernel h) va ->
         translate (mem s') root va = translate (mem s) root va)
    /\ (forall x, is_Some (mem s !! x) -> outside tbl x -> mem s' !! x = mem s !! x).
Proof.
  intros h. destruct (sample_space sample_kernel sample_header 13) as (s & root & Inv & St & Rd);
    [bytes_by_computing|done|done|]. exists s, root, {[ [] := root ]}.
  refine (loader_kernel_phdrs_loads 5 sample_kernel (FS := volume 5 sample_kernel) 0 0 root s _ 0x400
    sample_header Inv St eq_refl _ sample_loadable _).
  - bytes_by_computing.
  - exact Rd.
Defined.

(** What the sample's segments hold. *)
Example sample_segments :
  segment_bytes sample_kernel (phdr_of sample_row1) = [0xFA; 0xF4; 0xEB; 0xFD]
  /\ take 5 (segment_bytes sample_kernel (phdr_of sample_row3)) = [1; 2; 3; 0; 0].
Proof. by vm_compute. Qed.

Lemma elf_header_check_verdict_witness :
  let s := holding [] sample_header in
  exists hb, read_bytes (mem s) 0x400 64 = Some hb /\
  (elf_accepted (ehdr_of hb) -> elf_header_check 0x400 s = Ret EFI_SUCCESS s)
  /\ (~ elf_accepted (ehdr_of hb) -> exists msg,
       elf_header_check 0x400 s = Halt (Panicked msg) (set_fw (OutputString msg (fw s)).2 s)).
Proof.
  intros s. exists sample_header. split; [vm_compute; reflexivity|].
  apply (elf_header_check_verdict s 0x400 sample_header). vm_compute. reflexivity.
Defined.

(** A header of which only the first byte of the magic is right. *)
Example damaged_magic_accepted :
  elf_accepted (ehdr_of (0x7F :: 0 :: 0 :: 0 :: drop 4 sample_header)).
Proof. apply elf_defect_accepted. vm_compute. reflexivity. Qed.

(** One page of memory, one byte of the segment, 5000 bytes of the file. *)
Definition long_row : list Z := sample_phdr 1 4 0 0x1000 5000 1.
Definition long_file : list Z := replicate (Z.to_nat 5000) 7.

Lemma long_row_phdr : phdr_of long_row = Phdr 1 4 0 0x1000 0 5000 1.
Proof. vm_compute. reflexivity. Qed.

Lemma loader_kernel_reads_past_pages_witness :
  exists s a, unmapped (mem s) a 4096 /\
    (fill_segment 5 0x400 s = Fault a
     \/ exists s', fill_segment 5 0x400 s = Ret (1, a) s' /\
          forall i, 4096 <= i < 5000 ->
          is_Some (mem s !! (a + i)) /\ mem s' !! (a + i) = long_file !! Z.to_nat i).
Proof.
  destruct (sample_space long_file long_row 1) as (s & root & Inv & St & Rd);
    [bytes_by_computing|done|done|].
  assert (Ll : zlen long_file = 5000) by (unfold long_file; rewrite length_replicate; lia).
  exists s. pose proof (loader_kernel_reads_past_pages 5 long_file (FS := volume 5 long_file)
    0 0 0x400 long_row root s _ Inv St) as P. cbv zeta in P. rewrite long_row_phdr in P.
  change (pages_of (memsz _)) with 1 in P. cbn [offset filesz memsz] in P. rewrite Ll in P.
  apply P; try lia; [vm_compute; discriminate|exact Rd].
Defined.

(** ** The whole boot of the sample kernel *)

Lemma sample_header_bytes : chunk 0 64 sample_kernel = sample_header.
Proof. vm_compute. reflexivity. Qed.

Lemma sample_higher_half : higher_half (image := sample_kernel) (ehdr_of sample_header).
Proof.
  intros row va Hr Y. rewrite sample_rows in Hr.
  assert (Hv : forall base n, in_pages (Phdr 1 0 0 base 0 0 n) va -> 0 < n <= 0x2000 ->
    0xFFFF80001 <= vpn base <= 0xFFFF80003 -> 2 ^ 35 <= vpn va /\ 33 <= page_index STACK va).
  { intros base n. unfold in_pages, page_index, pages_of. cbn [vaddr memsz].
    change (vpn STACK) with 0xFE0000000.
    assert (0 <= vpn va < 2 ^ 36) by (apply Z.mod_pos_bound; lia).
    change (2 ^ 36) with 0x1000000000 in *. change (2 ^ 35) with 0x800000000.
    generalize dependent (vpn va). generalize (vpn base). intros. dlia. }
  apply elem_of_cons in Hr as [->|Hr]; [|apply elem_of_cons in Hr as [->|Hr] ].
  - intros P. change (sample_phdr _ _ _ _ _ _) with sample_row1 in P. unfold in_pages in P.
    rewrite sample_phdr1 in P.
    apply (Hv 0xFFFFFFFF80001000 4); [exact P|lia|vm_compute; split; discriminate].
  - by destruct sample_not_load.
  - apply list_elem_of_singleton in Hr as ->. intros P.
    change (sample_phdr _ _ _ _ _ _) with sample_row3 in P. unfold in_pages in P.
    rewrite sample_phdr3 in P.
    apply (Hv 0xFFFFFFFF80003000 0x1005); [exact P|lia|vm_compute; split; discriminate].
Qed.

Lemma sample_accepted : elf_accepted (ehdr_of sample_header).
Proof. apply elf_defect_accepted. vm_compute. reflexivity. Qed.

Lemma sample_ready :
  volume_ready sample_kernel (boot_cost (image := sample_kernel) (ehdr_of sample_header)) 0
    (dom (mem (holding sample_kernel []))) (fw (holding sample_kernel [])).
Proof.
  split; [done|]. split; [done|]. exists 2048. split; [lia|]. split.
  - intros x Hx. exfalso. revert Hx. cbn [mem holding start set_fw blocks foldr fst snd write_bytes].
    rewrite dom_empty_L. set_solver.
  - vm_compute. discriminate.
Qed.

Lemma sample_kernel_length : sizeof_ehdr <= zlen sample_kernel < 2 ^ 52.
Proof. vm_compute. split; [discriminate|reflexivity]. Qed.

Lemma loader_kernel_boots_witness :
  let s := holding sample_kernel [] in
  exists root info s',
    loader_kernel s = Halt (Jumped info (entry_point (ehdr_of (chunk 0 64 sample_kernel))) root) s'
    /\ booted (image := sample_kernel) s s' root info.
Proof.
  intros s.
  apply (loader_kernel_boots 5 sample_kernel (FS := volume 5 sample_kernel) s 0);
    rewrite ?sample_header_bytes.
  - bytes_by_computing.
  - exact sample_kernel_length.
  - exact sample_accepted.
  - exact sample_loadable.
  - exact sample_higher_half.
  - unfold handle, plain_handle. lia.
  - unfold system_table, plain_system_table. lia.
  - exact sample_ready.
Defined.

